(* ===== verification/_CoqProject ===== *)
-Q . S2P
Prelude.v
JsString.v
JsNumber.v
JsValue.v
Json.v
Schedule.v
Calendar.v
NextRun.v
ScheduleText.v
ScheduleEditor.v
Policy.v
Retention.v
Control.v
Transport.v
GoString.v
ServerSchedule.v
Roles.v
App.v
Targets.v
Format.v
Runs.v
Backups.v
Inventory.v
Endpoints.v
Accounts.v
ServerSignIn.v
ServerSettings.v
Access.v
Widgets.v
Ui.v
SettingsPage.v
UpdateCard.v
UsersPage.v
RunView.v
Monitor.v
ServerTargets.v
TargetsPage.v
ServerPosture.v
Dashboard.v
VmsPage.v
Protection.v
ServerBrowse.v
ServerAudit.v
AuditPage.v
Helpers.v
Deploy.v
JobWizard.v
JobWizardView.v
ServerJobs.v
JobSaved.v
JobShown.v
JobsPage.v
JobsServer.v
ServerHosts.v
HostsPage.v
ServerEnroll.v
CopyField.v
AgentsPage.v
RestoreWizard.v
RestoreView.v
Browse.v
RestorePage.v
SignIn.v
UsersView.v
TargetsView.v
Shell.v
HelpersView.v
SettingsView.v
MonitorView.v
