(* ===== verification/Prelude.v ===== *)
(** * Verification of the ProxBack console

    ProxBack backs up the guests and containers of Proxmox clusters.  Its
    console is the web application under src/web/src: a REST client (api.ts),
    readers that turn whatever the server sends into typed records, pure
    wording and calendar code (lib/), form steps and dialogs (components/) and
    one page per route (pages/).  The Go server under src/internal is modelled
    where the console depends on what it does with a request.  This development
    translates that code into executable definitions and proves what makes each
    part right on its own and together with the parts it talks to.

    ** The layers

    Language.  [JsString] (UTF-16 strings), [JsNumber] (binary64),
    [JsValue] (untyped values and their coercions), [Json] (JSON.parse and
    JSON.stringify), [Calendar] (the Date object over a time zone) and
    [GoString] (byte strings of the server) define what the source uses of its
    two languages and their standard libraries.  [Prelude] holds the shared
    lemmas, tactics and the hint database [console].

    Data.  [Schedule], [Policy], [Retention], [Targets], [Runs], [Backups],
    [Inventory]: the records of api.ts with their tolerant readers
    ([parseSchedule], [parsePolicy], [normaliseWarning], ...), each from an
    arbitrary [jsval].  Nothing is assumed of the server's answers.

    Pure code.  [NextRun], [ScheduleText] and [Format] are lib/format.ts.

    Transport.  [Transport] is [request] of api.ts: what is sent, and what every
    outcome of fetch becomes.  [Endpoints] has one definition per client
    function.

    Shared hooks.  [Widgets]: toasts and their timers, the confirmation dialog,
    [useAsync], the cached time zone.  [Roles] and [App]: capabilities,
    navigation, routes, the authentication gate.  [Shell]: the theme, the frame
    around the pages, the notifications as drawn.

    Form steps.  [Control] is the interface (a record of operations and the
    class [ControlLaws]) between a form and the controls it mounts.
    [ScheduleEditor], [Retention] and [Policy] implement it; [JobWizard] mounts
    them and is proved against the interface alone.

    Dialogs and pages.  [JobWizard], [JobWizardView], [RestoreWizard],
    [RestoreView], [Deploy], [Helpers], [SettingsPage], [UpdateCard],
    [UsersPage], [RunView], [Monitor], [TargetsPage], [Dashboard], [VmsPage],
    [Browse], [AuditPage], [JobsPage], [HostsPage], [CopyField], [AgentsPage],
    [RestorePage], [SignIn]: each is a state record, a type of messages (acts of
    the operator, answers of requests, timers), a predicate [.._offered] that
    says which messages the rendered controls and the requests under way allow,
    and a step function that is the code of the handlers.  A run is any sequence
    of offered messages from the mounted state, so answers arrive in any order,
    or never, and several requests are under way at once when the code lets them
    be.  [UsersView], [TargetsView], [HelpersView], [SettingsView] and
    [MonitorView] are what five of them draw.  [Ui] holds the primitives the pages draw with.

    Server.  [ServerSchedule] (store/schedule.go), [Accounts] (store/users.go
    and the user handlers, statement by statement over SQL tables, so that
    requests interleave), [ServerSignIn] (set-up and sign-in over the same
    tables), [ServerSettings] (store/settings.go and its handler),
    [ServerTargets] (the request that creates a target), [ServerPosture]
    (api/posture.go), [ServerBrowse] (browse/index.go and its handlers),
    [ServerAudit] (store/audit.go and its handlers), [ServerJobs]
    (handlers_jobs.go, store/policy.go, store/retention.go), [ServerHosts]
    (store/pvehosts.go and the host handlers), [ServerEnroll] (store/enroll.go,
    the registration of agents and helpers), [Access] (the route
    table of api.go with the role each group requires).

    Both sides.  [Protection] (the guests shown and counted as unprotected),
    [JobSaved] and [JobShown] (a job saved by the wizard, stored by the server
    and opened again), [JobsServer] (the jobs page, the table of jobs and what is
    on its way between them), and the last sections of [SettingsPage], [UsersPage],
    [TargetsPage], [Dashboard], [Browse], [AuditPage] and [SignIn] put a page and the
    server's handlers together.

    ** What the theorems show

    Readers (C1, C2, C10, C11, C22): a reader returns a well-formed record
    whatever it is given, and gives back what was written.
    Calendar (C3, C4, C37): the preview is the earliest time the schedule names,
    labels tell schedules apart, and the server's scheduler fires exactly then.
    Controls (C5, C13, C14): in every session of a form step the value handed to
    the form is well formed, and the preview shown is of the value in the form.
    Wizards (C29, C38, C39): a wizard submits only a well-formed request; the destructive restore is never the default.
    Pages (C7, C8, C17, C26, C31, C33): the page asks only for what its state
    allows, and shows every record it read once.
    Pages with the server behind them (C6, C9, C16, C23, C24, C27, C28, C30,
    C34, C36): what is asked for is decoded and accepted, and what is shown is what
    the server holds.
    Server (C20, C32, C35, C40): the posture says what jobs, points and outcomes
    support, decoding inverts encoding, a token admits one machine and the last
    administrator stays whatever requests interleave.
    Rights (C12, C18): every request a control can send is one the server lets
    the role make; rights shown are the rights of the session.
    Infrastructure (C15, C19, C21, C25): outcomes of requests, liveness of the
    boot screen, expiry of toasts, chains of restore points.

    A lemma that exhibits a session in which the code does something it does not
    mean to (for instance [Monitor.old_filter_reloaded]) stands next to the
    component it is about, and is listed as a finding of the manifest.

    ** Bounds and fuel

    Fuelled functions take the length of their input, or a number of days, as
    fuel: the UTF-8 and JSON readers (one step consumes at least one unit),
    [trim_left] of [GoString] (one rune per step), the search of the next run
    (at most a leap cycle of candidates), the walk up a chain of restore points
    (the number of points bounds its length).  Each has a lemma that the fuel it
    is given suffices, or its theorem is stated of the result it returns, never
    of a run that might have stopped early.  Numbers are rationals rounded to
    binary64; Go integers are kept at their width where the code converts them.

    ** Parameters

    Code outside src/ is an argument: the browser's time zone ([Zone]) and Intl
    formatting, [Math.log], [Date.parse], [localeCompare], [toLowerCase], the
    engine's wording of its own exceptions, the cron library, [url.Parse],
    [strings.ToLower], bcrypt, the SQL engine's choice of generated keys and
    failures.  What is used of one is a hypothesis named after it, and every
    theorem with such a hypothesis has a witness at a concrete instance.

    ** Not modelled

    Markup, class names, icons and focus: they hold no state.  React is
    modelled as its documented behaviour: a handler runs to its next await, then
    the state it set is rendered, and effects run in order after a render.
    main.tsx, lib/cn.ts, OutcomeDonut.tsx and Brand.tsx are glue or drawings.  Go code
    not named above (the agent, the backup engine, the Proxmox client) is
    outside: the console meets it only through the endpoints. *)
From Stdlib Require Export ZArith Lia List Bool Sorted.
From stdpp Require Export base decidable list numbers sorting sets.

#[global] Open Scope Z_scope.

Declare Scope js_scope.
Delimit Scope js_scope with js.

(** ** Automation *)

Create HintDb console.
Create Rewrite HintDb console.

(** Turn the boolean tests of the code into propositions. *)
Ltac b2p :=
  repeat match goal with
  | H : context [negb _ = true] |- _ => rewrite negb_true_iff in H
  | H : context [negb _ = false] |- _ => rewrite negb_false_iff in H
  | H : (_ && _)%bool = true |- _ => apply andb_true_iff in H; destruct H
  | H : (_ || _)%bool = false |- _ => apply orb_false_iff in H; destruct H
  | H : (_ && _)%bool = false |- _ => apply andb_false_iff in H
  | H : (_ || _)%bool = true |- _ => apply orb_true_iff in H
  | H : (_ <? _) = true |- _ => apply Z.ltb_lt in H
  | H : (_ <? _) = false |- _ => apply Z.ltb_ge in H
  | H : (_ <=? _) = true |- _ => apply Z.leb_le in H
  | H : (_ <=? _) = false |- _ => apply Z.leb_gt in H
  | H : (_ =? _) = true |- _ => apply Z.eqb_eq in H
  | H : (_ =? _) = false |- _ => apply Z.eqb_neq in H
  | H : bool_decide _ = true |- _ => apply bool_decide_eq_true in H
  | H : bool_decide _ = false |- _ => apply bool_decide_eq_false in H
  end.

(** Linear arithmetic with division and remainder by constants. *)
Ltac divlia := zify; Z.to_euclidean_division_equations; lia.

(** Case analysis on the innermost scrutinee of the goal. *)
Ltac case_on_goal :=
  match goal with
  | |- context [if ?b then _ else _] =>
      lazymatch b with context [if _ then _ else _] => fail | context [match _ with _ => _ end] => fail | _ => destruct b eqn:? end
  | |- context [match ?x with _ => _ end] =>
      lazymatch x with context [if _ then _ else _] => fail | context [match _ with _ => _ end] => fail | _ => destruct x eqn:? end
  end.

(** Case analysis on a test inside a hypothesis. *)
Ltac case_on_hyp :=
  match goal with
  | H : context [if ?b then _ else _] |- _ =>
      lazymatch b with context [if _ then _ else _] => fail | context [match _ with _ => _ end] => fail | _ => destruct b eqn:? end
  | H : context [match ?x with _ => _ end] |- _ =>
      lazymatch x with context [if _ then _ else _] => fail | context [match _ with _ => _ end] => fail | _ => destruct x eqn:? end
  end.

(** ** Tests on lists and options *)

Definition is_nil {A} (l : list A) : bool := match l with [] => true | _ => false end.
Definition is_none {A} (o : option A) : bool := match o with None => true | _ => false end.

(** ** Sorting by a comparator

    [Array.prototype.sort] is stable, so on a comparator that is a total
    preorder its result is that of the stable insertion sort below. *)
Section sort.
Context {A : Type} (le : A → A → bool).

Fixpoint insert_by (x : A) (l : list A) : list A :=
  match l with
  | [] => [x]
  | y :: l' => if le x y then x :: y :: l' else y :: insert_by x l'
  end.

Definition sort_by (l : list A) : list A := foldr insert_by [] l.

Lemma insert_by_perm x l : insert_by x l ≡ₚ x :: l.
Proof.
  induction l as [|y l IH]; simpl; [done|].
  destruct (le x y); [done|]. rewrite IH. apply Permutation_swap.
Qed.

Lemma sort_by_perm l : sort_by l ≡ₚ l.
Proof. induction l as [|x l IH]; simpl; [done|]. by rewrite insert_by_perm, IH. Qed.

Lemma elem_of_sort_by x l : x ∈ sort_by l ↔ x ∈ l.
Proof. by rewrite sort_by_perm. Qed.

Lemma length_sort_by l : length (sort_by l) = length l.
Proof. apply Permutation_length, sort_by_perm. Qed.

Context (le_total : ∀ x y, le x y = false → le y x = true).

Lemma insert_by_hd_rel x y l :
  le y x = true → HdRel (λ a b, le a b = true) y l →
  HdRel (λ a b, le a b = true) y (insert_by x l).
Proof.
  intros Hyx Hd. destruct l as [|z l]; simpl; [by constructor|].
  inversion Hd; subst. destruct (le x z); by constructor.
Qed.

Lemma insert_by_sorted x l :
  Sorted (λ a b, le a b = true) l → Sorted (λ a b, le a b = true) (insert_by x l).
Proof.
  induction 1 as [|y l Hs IH Hd]; simpl; [by repeat constructor|].
  destruct (le x y) eqn:E; [by repeat constructor|].
  constructor; [done|]. apply insert_by_hd_rel; auto.
Qed.

Lemma sort_by_sorted l : Sorted (λ a b, le a b = true) (sort_by l).
Proof. induction l; simpl; [constructor|]. by apply insert_by_sorted. Qed.
End sort.

(** A list already in comparator order is left alone. *)
Lemma sort_by_id {A} (le : A → A → bool) l :
  Sorted (λ a b, le a b = true) l → sort_by le l = l.
Proof.
  induction 1 as [|x l Hs IH Hd]; simpl; [done|]. rewrite IH.
  destruct Hd as [|y l Hxy]; simpl; [done|]. by rewrite Hxy.
Qed.

(** [list.sort((a, b) => a - b)] on integers. *)
Definition sort_num : list Z → list Z := sort_by Z.leb.

(** [[...new Set(list)]]: the first occurrence of every element, in order. *)
Section dedup.
Context {A : Type} `{EqDecision A}.

Fixpoint dedup_from (seen : list A) (l : list A) : list A :=
  match l with
  | [] => []
  | x :: l' => if decide (x ∈ seen) then dedup_from seen l' else x :: dedup_from (x :: seen) l'
  end.

Definition dedup (l : list A) : list A := dedup_from [] l.

Lemma elem_of_dedup_from x seen l : x ∈ dedup_from seen l ↔ x ∈ l ∧ x ∉ seen.
Proof.
  revert seen. induction l as [|y l IH]; intros seen; simpl; [set_solver|].
  case_decide; simpl; [rewrite IH|rewrite elem_of_cons, IH];
    destruct (decide (x = y)) as [->|]; set_solver.
Qed.

Lemma elem_of_dedup x l : x ∈ dedup l ↔ x ∈ l.
Proof. unfold dedup. rewrite elem_of_dedup_from. set_solver. Qed.

Lemma NoDup_dedup_from seen l : NoDup (dedup_from seen l).
Proof.
  revert seen. induction l as [|y l IH]; intros seen; simpl; [constructor|].
  case_decide; [done|]. constructor; [|done]. rewrite elem_of_dedup_from. set_solver.
Qed.

Lemma NoDup_dedup l : NoDup (dedup l).
Proof. apply NoDup_dedup_from. Qed.

Lemma dedup_from_id seen l : NoDup l → (∀ x, x ∈ l → x ∉ seen) → dedup_from seen l = l.
Proof.
  intros Hnd. revert seen. induction Hnd as [|y l Hy Hnd IH]; intros seen Hs; simpl; [done|].
  rewrite decide_False by (apply Hs; set_solver). f_equal. apply IH. set_solver.
Qed.

Lemma dedup_id l : NoDup l → dedup l = l.
Proof. intros. apply dedup_from_id; set_solver. Qed.
End dedup.

Lemma Sorted_mono {A} (R1 R2 : A → A → Prop) l :
  (∀ x y, R1 x y → R2 x y) → Sorted R1 l → Sorted R2 l.
Proof.
  intros HR. induction 1 as [|x l Hs IH Hd]; constructor; [done|].
  destruct Hd; constructor. auto.
Qed.

(** Strictly increasing integer lists: the normal form of a weekday set. *)
Definition increasing : list Z → Prop := StronglySorted Z.lt.

Lemma sort_num_sorted l : StronglySorted Z.le (sort_num l).
Proof.
  apply Sorted_StronglySorted; [intros ???; lia|].
  eapply Sorted_mono; [|apply sort_by_sorted].
  - simpl. intros ?? H. by apply Z.leb_le.
  - intros x y H. b2p. apply Z.leb_le. lia.
Qed.

Lemma sort_num_id l : StronglySorted Z.le l → sort_num l = l.
Proof.
  intros H%StronglySorted_Sorted. apply sort_by_id.
  eapply Sorted_mono; [|exact H]. intros. by apply Z.leb_le.
Qed.

Lemma increasing_spec l : increasing l ↔ StronglySorted Z.le l ∧ NoDup l.
Proof.
  unfold increasing. induction l as [|x l IH].
  - split; [intros; split; constructor|intros; constructor].
  - split.
    + inversion 1 as [|?? Hs Hf]; subst. apply IH in Hs as [? ?].
      rewrite Forall_forall in Hf. split; constructor; auto.
      * rewrite Forall_forall. intros y Hy. specialize (Hf y Hy). lia.
      * intros Hx. specialize (Hf x Hx). lia.
    + intros [Hs Hn]. inversion Hs as [|?? Hs' Hf]; inversion Hn as [|?? Hx Hn']; subst.
      constructor; [by apply IH|]. rewrite Forall_forall in *. intros y Hy.
      specialize (Hf y Hy). assert (x ≠ y) by (intros ->; done). lia.
Qed.

Lemma NoDup_map_filter {A B} (f : A → B) (p : A → bool) l : NoDup (map f l) → NoDup (map f (List.filter p l)).
Proof.
  induction l as [|x l IH]; cbn [map List.filter]; [done|]. rewrite NoDup_cons. intros [Hx Hl].
  destruct (p x); [|by apply IH]. cbn [map]. apply NoDup_cons. split; [|by apply IH].
  intros (y & Ey & Hy)%list_elem_of_In%in_map_iff. apply Hx, list_elem_of_In, in_map_iff.
  exists y. split; [done|]. by apply filter_In in Hy as [Hy _].
Qed.

Lemma sort_dedup_increasing l : increasing (sort_num (dedup l)).
Proof.
  apply increasing_spec. split; [apply sort_num_sorted|].
  unfold sort_num. rewrite sort_by_perm. apply NoDup_dedup.
Qed.

Lemma sort_dedup_id l : increasing l → sort_num (dedup l) = l.
Proof. intros [Hs Hn]%increasing_spec. rewrite dedup_id by done. by apply sort_num_id. Qed.

#[export] Hint Resolve sort_dedup_increasing : console.

(** What a filter keeps of a list less one element. *)
Lemma count_filter_delete {A} (f : A → bool) l i x : l !! i = Some x →
  (length (List.filter f l) = length (List.filter f (delete i l)) + if f x then 1 else 0)%nat.
Proof.
  intros H. rewrite <- (take_drop_middle l i x H) at 1. rewrite delete_take_drop, !List.filter_app, !length_app. cbn [List.filter].
  destruct (f x); cbn [length]; lia.
Qed.
