(* ===== verification/JsString.v ===== *)
(** * JavaScript strings

    A string is the list of its UTF-16 code units, so [length], [slice] and
    [padStart] count what the engine counts.  [u] reads a source literal.
    [String.prototype.trim] and the regular-expression class [\s] use the same
    white-space set ([is_space]). *)
From Stdlib Require Import String Ascii NArith.
Export (notations) Stdlib.Strings.String.
From S2P Require Import Prelude.


Definition jsstr := list N.

(** ** Literals: UTF-8 source bytes to UTF-16 code units *)

Definition code_units (cp : N) : jsstr :=
  if (cp <? 65536)%N then [cp]
  else [55296 + (cp - 65536) / 1024; 56320 + (cp - 65536) mod 1024]%N.

Fixpoint utf8_to_utf16 (l : list N) : jsstr :=
  match l with
  | [] => []
  | b0 :: l1 =>
      if (b0 <? 128)%N then b0 :: utf8_to_utf16 l1 else
      match l1 with
      | [] => []
      | b1 :: l2 =>
          if (b0 <? 224)%N then code_units ((b0 - 192) * 64 + (b1 - 128))%N ++ utf8_to_utf16 l2 else
          match l2 with
          | [] => []
          | b2 :: l3 =>
              if (b0 <? 240)%N
              then code_units (((b0 - 224) * 64 + (b1 - 128)) * 64 + (b2 - 128))%N ++ utf8_to_utf16 l3
              else match l3 with
                   | [] => []
                   | b3 :: l4 =>
                       code_units ((((b0 - 240) * 64 + (b1 - 128)) * 64 + (b2 - 128)) * 64 + (b3 - 128))%N
                         ++ utf8_to_utf16 l4
                   end
          end
      end
  end.

Definition u (s : String.string) : jsstr :=
  utf8_to_utf16 (map N_of_ascii (String.list_ascii_of_string s)).

(** A template literal is the concatenation of its pieces. *)
Definition cat (pieces : list jsstr) : jsstr := concat pieces.

Definition str_eqb (a b : jsstr) : bool := bool_decide (a = b).

Lemma str_eqb_false a b : str_eqb a b = false ↔ a ≠ b.
Proof. apply bool_decide_eq_false. Qed.

Lemma str_eqb_true a b : str_eqb a b = true ↔ a = b.
Proof. apply bool_decide_eq_true. Qed.

Lemma elem_of_existsb s l : s ∈ l ↔ existsb (str_eqb s) l = true.
Proof.
  rewrite existsb_exists. unfold str_eqb. setoid_rewrite bool_decide_eq_true.
  setoid_rewrite <- list_elem_of_In. naive_solver.
Qed.

(** ** White space *)

Definition is_space (c : N) : bool :=
  ((9 <=? c) && (c <=? 13) || (c =? 32) || (c =? 160) || (c =? 5760)
   || ((8192 <=? c) && (c <=? 8202)) || (c =? 8232) || (c =? 8233) || (c =? 8239)
   || (c =? 8287) || (c =? 12288) || (c =? 65279))%N.

Fixpoint trim_start (s : jsstr) : jsstr :=
  match s with
  | [] => []
  | c :: s' => if is_space c then trim_start s' else s
  end.

Definition trim (s : jsstr) : jsstr := rev (trim_start (rev (trim_start s))).

Lemma trim_start_idem s : trim_start (trim_start s) = trim_start s.
Proof. induction s as [|c s IH]; simpl; [done|]. destruct (is_space c) eqn:E; simpl; by rewrite ?E. Qed.

Lemma trim_start_split s : ∃ p, s = p ++ trim_start s ∧ Forall (λ c, is_space c = true) p.
Proof.
  induction s as [|c s (p & Hs & Hp)]; simpl; [by exists []|].
  destruct (is_space c) eqn:E; [|by exists []].
  exists (c :: p). split; [simpl; by rewrite <- Hs|by constructor].
Qed.

Lemma trim_start_hd s : match trim_start s with [] => True | c :: _ => is_space c = false end.
Proof. induction s as [|c s IH]; simpl; [done|]. by destruct (is_space c) eqn:E. Qed.

Lemma trim_start_fix s :
  match s with [] => True | c :: _ => is_space c = false end → trim_start s = s.
Proof. destruct s; simpl; [done|]. by intros ->. Qed.

(** Trimming is idempotent. *)
Lemma trim_idem s : trim (trim s) = trim s.
Proof.
  unfold trim. set (t := trim_start s).
  destruct (trim_start_split (rev t)) as (p & Hp & Hsp).
  assert (Ht : t = rev (trim_start (rev t)) ++ rev p).
  { rewrite <- (rev_involutive t) at 1. rewrite Hp, rev_app_distr at 1. done. }
  assert (Hhd : match rev (trim_start (rev t)) with [] => True | c :: _ => is_space c = false end).
  { destruct (rev (trim_start (rev t))) as [|c r] eqn:E; [done|].
    pose proof (trim_start_hd s) as H. fold t in H. rewrite Ht in H. done. }
  rewrite (trim_start_fix _ Hhd), rev_involutive, trim_start_idem. done.
Qed.

(** The text has something other than white space: [!!s.trim()]. *)
Definition non_blank (s : jsstr) : bool := negb (str_eqb (trim s) []).

Lemma non_blank_spec t : non_blank t = true → trim t ≠ [].
Proof. unfold non_blank. rewrite negb_true_iff. apply str_eqb_false. Qed.

Lemma non_blank_neg t : negb (non_blank t) = false → trim t ≠ [].
Proof. rewrite negb_false_iff. apply non_blank_spec. Qed.

(** ** Searching and slicing *)

Fixpoint starts_with (p s : jsstr) : bool :=
  match p, s with
  | [], _ => true
  | c :: p', d :: s' => N.eqb c d && starts_with p' s'
  | _ :: _, [] => false
  end.

(** [s.includes(p)]. *)
Fixpoint includes (p s : jsstr) : bool :=
  starts_with p s || match s with [] => false | _ :: s' => includes p s' end.

(** [s.split(c)] for a one-unit separator. *)
Fixpoint split_on (c : N) (s : jsstr) : list jsstr :=
  match s with
  | [] => [[]]
  | d :: s' =>
      if N.eqb c d then [] :: split_on c s'
      else match split_on c s' with
           | [] => [[d]]
           | w :: ws => (d :: w) :: ws
           end
  end.

Lemma split_on_cons c p q : c ∉ p → split_on c (p ++ c :: q) = p :: split_on c q.
Proof.
  induction p as [|d p IH]; intros Hc; cbn; [by rewrite N.eqb_refl|].
  apply not_elem_of_cons in Hc as [Hd Hc]. rewrite (proj2 (N.eqb_neq c d) Hd), IH by done. done.
Qed.

Lemma split_on_single c p : c ∉ p → split_on c p = [p].
Proof.
  induction p as [|d p IH]; intros Hc; cbn; [done|].
  apply not_elem_of_cons in Hc as [Hd Hc]. by rewrite (proj2 (N.eqb_neq c d) Hd), IH.
Qed.

(** [parts.join(sep)]. *)
Fixpoint join (sep : jsstr) (parts : list jsstr) : jsstr :=
  match parts with
  | [] => []
  | [p] => p
  | p :: ps => p ++ sep ++ join sep ps
  end.

Lemma split_on_join c ps : ps ≠ [] → Forall (λ p, c ∉ p) ps → split_on c (join [c] ps) = ps.
Proof.
  intros Hne H. induction H as [|p ps Hp Hps IH]; [done|]. destruct ps as [|q ps]; [by apply split_on_single|].
  change (join [c] (p :: q :: ps)) with (p ++ c :: join [c] (q :: ps)). rewrite split_on_cons by done.
  by rewrite IH.
Qed.

(** The text after the last occurrence of [c]; [None] when [lastIndexOf] is negative. *)
Fixpoint after_last (c : N) (s : jsstr) : option jsstr :=
  match s with
  | [] => None
  | d :: s' =>
      match after_last c s' with
      | Some t => Some t
      | None => if N.eqb c d then Some s' else None
      end
  end.

Lemma after_last_None c s : after_last c s = None ↔ c ∉ s.
Proof.
  induction s as [|d s IH]; simpl; [split; [intros _; set_solver|done]|].
  destruct (after_last c s) eqn:E.
  - split; [done|]. intros H. exfalso. assert (Hc : c ∉ s) by set_solver.
    apply IH in Hc. done.
  - destruct IH as [IH _]. specialize (IH eq_refl).
    destruct (N.eqb_spec c d) as [->|]; split; try done; set_solver.
Qed.

Lemma after_last_app c p s : c ∉ s → after_last c (p ++ c :: s) = Some s.
Proof.
  intros Hs%after_last_None. induction p as [|d p IH]; simpl.
  - by rewrite Hs, N.eqb_refl.
  - by rewrite IH.
Qed.

(** [s.padStart(n, c)]. *)
Definition pad_start (n : nat) (c : N) (s : jsstr) : jsstr :=
  replicate (n - length s) c ++ s.

(** ** Decimal digits *)

Definition is_digit (c : N) : bool := ((48 <=? c) && (c <=? 57))%N.
Definition all_digits (s : jsstr) : bool := forallb is_digit s.
Definition dec_step (a c : N) : N := (a * 10 + (c - 48))%N.
Definition dec_val (s : jsstr) : N := fold_left dec_step s 0%N.

Fixpoint digits_aux (f : nat) (n : N) (acc : jsstr) : jsstr :=
  match f with
  | O => acc
  | S f =>
      let acc := (48 + n mod 10)%N :: acc in
      if (n <? 10)%N then acc else digits_aux f (n / 10) acc
  end.

(** The decimal numeral of a natural number. *)
Definition digits (n : N) : jsstr := digits_aux (S (N.size_nat n)) n [].

(** [String(n)] of an integer of magnitude at most 2^53. *)
Definition str_of_Z (z : Z) : jsstr :=
  if (z <? 0)%Z then 45%N :: digits (Z.to_N (- z)) else digits (Z.to_N z).

Lemma is_digit_add (d : N) : (d < 10)%N → is_digit (48 + d)%N = true.
Proof. intros H. unfold is_digit. rewrite andb_true_iff, !N.leb_le. lia. Qed.

Lemma digits_aux_spec f n acc :
  (n < 10 ^ N.of_nat f)%N →
  ∃ d, digits_aux f n acc = d ++ acc ∧ all_digits d = true ∧ (f ≠ 0 → d ≠ [])%nat
       ∧ ∀ a, fold_left dec_step d a = (a * 10 ^ N.of_nat (length d) + n)%N.
Proof.
  revert n acc. induction f as [|f IH]; intros n acc Hn.
  { exists []. split_and!; try done. intros a. cbn [fold_left length].
    change (10 ^ N.of_nat 0)%N with 1%N in *. lia. }
  cbn [digits_aux].
  assert (Hd : is_digit (48 + n mod 10)%N = true).
  { apply is_digit_add, N.mod_lt. done. }
  destruct (N.ltb_spec n 10).
  - exists [(48 + n mod 10)%N]. split_and!; try done.
    + cbn [all_digits forallb]. by rewrite Hd.
    + intros a. cbn [fold_left length]. unfold dec_step. rewrite N.mod_small by lia.
      change (10 ^ N.of_nat 1)%N with 10%N. lia.
  - destruct (IH (n / 10)%N ((48 + n mod 10)%N :: acc)) as (d & E & Hall & _ & Hv).
    { rewrite Nat2N.inj_succ, N.pow_succ_r' in Hn. apply N.Div0.div_lt_upper_bound. lia. }
    exists (d ++ [(48 + n mod 10)%N]). rewrite E, <- (assoc_L (++)). split_and!; try done.
    + unfold all_digits in *. rewrite forallb_app, Hall. simpl. by rewrite Hd.
    + intros _. by destruct d.
    + intros a. rewrite fold_left_app, Hv, length_app. cbn [fold_left length]. unfold dec_step.
      rewrite Nat2N.inj_add, N.pow_add_r. change (10 ^ N.of_nat 1)%N with 10%N.
      pose proof (N.div_mod' n 10) as Hdm. clear - Hdm.
      generalize dependent (10 ^ N.of_nat (length d))%N. intros p.
      generalize dependent (n / 10)%N. intros q Hdm.
      generalize dependent (n mod 10)%N. intros r ->. rewrite (N.add_comm 48), N.add_sub. lia.
Qed.

Lemma digits_fuel n : (n < 10 ^ N.of_nat (S (N.size_nat n)))%N.
Proof.
  assert (E : N.of_nat (N.size_nat n) = N.size n).
  { destruct n as [|p]; [done|]. unfold N.size_nat, N.size.
    induction p as [p IH|p IH|]; cbn [Pos.size_nat Pos.size]; [| |done];
      rewrite Nat2N.inj_succ, IH; reflexivity. }
  rewrite Nat2N.inj_succ, E.
  eapply N.lt_le_trans; [apply N.size_gt|].
  transitivity (10 ^ N.size n)%N; [apply N.pow_le_mono_l; lia|apply N.pow_le_mono_r; lia].
Qed.

(** Printing then reading a natural number is the identity. *)
Lemma dec_val_digits n : dec_val (digits n) = n.
Proof.
  destruct (digits_aux_spec _ n [] (digits_fuel n)) as (d & E & _ & _ & Hv).
  unfold dec_val, digits. rewrite E, app_nil_r, Hv. lia.
Qed.

Lemma all_digits_digits n : all_digits (digits n) = true.
Proof.
  destruct (digits_aux_spec _ n [] (digits_fuel n)) as (d & E & H & _).
  unfold digits. by rewrite E, app_nil_r.
Qed.

Lemma digits_nonempty n : digits n ≠ [].
Proof.
  destruct (digits_aux_spec _ n [] (digits_fuel n)) as (d & E & _ & H & _).
  unfold digits. rewrite E, app_nil_r. by apply H.
Qed.

Lemma digits_inj n m : digits n = digits m → n = m.
Proof. intros H. by rewrite <- (dec_val_digits n), H, dec_val_digits. Qed.

Lemma all_digits_elem s c : all_digits s = true → c ∈ s → is_digit c = true.
Proof. unfold all_digits. rewrite forallb_forall. intros H Hc. apply H. by apply list_elem_of_In. Qed.

Lemma digits_notin n c : is_digit c = false → c ∉ digits n.
Proof. intros Hc Hin. pose proof (all_digits_elem _ _ (all_digits_digits n) Hin). congruence. Qed.

#[export] Hint Resolve all_digits_digits digits_nonempty digits_notin : console.
#[export] Hint Rewrite dec_val_digits : console.
