(* ===== verification/JsNumber.v ===== *)
(** * JavaScript numbers

    The Number type as IEEE 754 binary64: a finite value is a rational, every
    arithmetic result is rounded to nearest, ties to even, with subnormals and
    overflow ([rnd]).  The two zeros are one value: the console never divides
    by a zero whose sign could be observed, and [String(-0)] is ["0"]. *)
From Stdlib Require Import QArith Qround Qpower Qabs Qreduction Qcanon Lqa.
From S2P Require Import Prelude JsString.

#[local] Open Scope Q_scope.

Inductive num : Type :=
  | NaN
  | Inf (neg : bool)
  | Fin (q : Q).

Definition of_Z (z : Z) : num := Fin (inject_Z z).

(** ** Rounding to an integer *)

(** Nearest integer, ties to the even one. *)
Definition rne (x : Q) : Z :=
  let f := Qfloor x in
  match Qcompare (x - inject_Z f) (1 # 2) with
  | Lt => f
  | Gt => (f + 1)%Z
  | Eq => if Z.even f then f else (f + 1)%Z
  end.

Lemma Qfloor_bounds x : inject_Z (Qfloor x) <= x /\ x < inject_Z (Qfloor x) + 1.
Proof.
  split; [apply Qfloor_le|]. pose proof (Qlt_floor x) as H.
  rewrite inject_Z_plus in H. exact H.
Qed.

Lemma rne_bounds x : (Qfloor x <= rne x <= Qfloor x + 1)%Z.
Proof. unfold rne. destruct (Qcompare _ _); [destruct (Z.even _)| |]; lia. Qed.

Lemma rne_Z n : rne (inject_Z n) = n.
Proof.
  unfold rne. rewrite Qfloor_Z.
  assert (E : inject_Z n - inject_Z n == 0) by lra.
  by rewrite E.
Qed.

#[export] Instance rne_proper : Proper (Qeq ==> eq) rne.
Proof.
  intros x y H. unfold rne. assert (Ef : Qfloor x = Qfloor y) by (by rewrite H).
  rewrite Ef. by rewrite H.
Qed.

Lemma rne_mono x y : x <= y -> (rne x <= rne y)%Z.
Proof.
  intros H. pose proof (Qfloor_resp_le _ _ H) as Hf.
  pose proof (rne_bounds x). pose proof (rne_bounds y).
  destruct (Z.eq_dec (Qfloor x) (Qfloor y)) as [E|E]; [|lia].
  unfold rne in *. rewrite E in *.
  destruct (Qcompare_spec (x - inject_Z (Qfloor y)) (1 # 2)),
    (Qcompare_spec (y - inject_Z (Qfloor y)) (1 # 2));
    try destruct (Z.even _); try lia; exfalso; lra.
Qed.

(** ** Binary exponent *)

Definition pow2 (z : Z) : Q := Qpower 2 z.

Lemma pow2_pos z : 0 < pow2 z.
Proof. apply Qpower_0_lt. lra. Qed.

Lemma pow2_add a b : pow2 (a + b) == pow2 a * pow2 b.
Proof. apply Qpower_plus. intros H. discriminate H. Qed.

Lemma pow2_opp a : pow2 a * pow2 (- a) == 1.
Proof. rewrite <- pow2_add, Z.add_opp_diag_r. reflexivity. Qed.

Lemma pow2_Z n : (0 <= n)%Z -> pow2 n == inject_Z (2 ^ n).
Proof. intros H. unfold pow2. rewrite Zpower_Qpower by done. reflexivity. Qed.

Lemma pow2_le a b : (a <= b)%Z -> pow2 a <= pow2 b.
Proof. intros H. apply Qpower_le_compat_l; [done|lra]. Qed.

(** [2^e <= q < 2^(e+1)] for positive [q]. *)
Definition ilog2 (q : Q) : Z :=
  let n := (Z.log2 (Qnum q) - Z.log2 (Zpos (Qden q)))%Z in
  if Qle_bool (pow2 n) q then n else (n - 1)%Z.

Lemma Qpos_num q : 0 < q -> (0 < Qnum q)%Z.
Proof. unfold Qlt. simpl. lia. Qed.

Lemma Q_cross q : q * inject_Z (Zpos (Qden q)) == inject_Z (Qnum q).
Proof. unfold Qeq, inject_Z. simpl. lia. Qed.

Lemma scale_between q A A' B B' D N :
  0 < q -> 0 < B -> 0 < B' -> B * B' == 1 -> q * D == N ->
  A <= N -> N < A' -> B <= D -> D < B * 2 ->
  A * B' * (1 # 2) < q /\ q < A' * B'.
Proof.
  intros Hq HB HB' HBB Hc H1 H2 H3 H4.
  assert (L : A < q * (B * 2)) by nra.
  assert (R : q * B < A') by nra.
  apply (Qmult_lt_r _ _ B') in L, R; [|done..].
  assert (E : q * B * B' == q) by (rewrite <- Qmult_assoc, HBB; lra).
  split; nra.
Qed.

Lemma ilog2_rough q : 0 < q ->
  let n := (Z.log2 (Qnum q) - Z.log2 (Zpos (Qden q)))%Z in
  pow2 (n - 1) < q /\ q < pow2 (n + 1).
Proof.
  intros Hq n. set (a := Z.log2 (Qnum q)). set (b := Z.log2 (Zpos (Qden q))).
  pose proof (Z.log2_spec _ (Qpos_num _ Hq)) as [Ha1 Ha2].
  pose proof (Z.log2_spec (Zpos (Qden q)) eq_refl) as [Hb1 Hb2]. fold a in Ha1, Ha2. fold b in Hb1, Hb2.
  assert (Ha : (0 <= a)%Z) by apply Z.log2_nonneg. assert (Hb : (0 <= b)%Z) by apply Z.log2_nonneg.
  rewrite Zle_Qle, <- pow2_Z in Ha1, Hb1 by lia.
  rewrite Zlt_Qlt, <- pow2_Z in Ha2, Hb2 by lia.
  pose proof (Q_cross q) as Hc. pose proof (pow2_pos b) as Hpb. pose proof (pow2_pos (-b)) as Hpb'.
  pose proof (pow2_opp b) as Hbb.
  assert (En1 : pow2 (n - 1) == pow2 a * pow2 (- b) * (1 # 2)).
  { unfold n. fold a b. replace (a - b - 1)%Z with (a + - b + - (1))%Z by lia. rewrite !pow2_add. reflexivity. }
  assert (En2 : pow2 (n + 1) == pow2 (Z.succ a) * pow2 (- b)).
  { unfold n. fold a b. rewrite <- pow2_add. replace (a - b + 1)%Z with (Z.succ a + - b)%Z by lia. reflexivity. }
  assert (Es : pow2 (Z.succ b) == pow2 b * 2).
  { unfold Z.succ. rewrite pow2_add. reflexivity. }
  rewrite En1, En2. rewrite Es in Hb2.
  apply scale_between with (B := pow2 b) (D := inject_Z (Z.pos (Qden q))) (N := inject_Z (Qnum q)); done.
Qed.

Lemma ilog2_spec q : 0 < q -> pow2 (ilog2 q) <= q /\ q < pow2 (ilog2 q + 1).
Proof.
  intros Hq. destruct (ilog2_rough q Hq) as [H1 H2]. unfold ilog2. cbv zeta in *.
  set (n := (Z.log2 (Qnum q) - Z.log2 (Zpos (Qden q)))%Z) in *.
  destruct (Qle_bool (pow2 n) q) eqn:E.
  - apply Qle_bool_iff in E. done.
  - assert (Hlt : q < pow2 n).
    { apply Qnot_le_lt. intros C. apply Qle_bool_iff in C. congruence. }
    replace (n - 1 + 1)%Z with n by lia. split; [lra|done].
Qed.

Lemma pow2_lt_inv a b : pow2 a < pow2 b -> (a < b)%Z.
Proof.
  intros H. destruct (Z_lt_le_dec a b) as [|C]; [done|].
  apply pow2_le in C. lra.
Qed.

Lemma ilog2_mono p q : 0 < p -> p <= q -> (ilog2 p <= ilog2 q)%Z.
Proof.
  intros Hp H. destruct (ilog2_spec p Hp) as [H1 _].
  destruct (ilog2_spec q ltac:(lra)) as [_ H2].
  assert (pow2 (ilog2 p) < pow2 (ilog2 q + 1)) as ?%pow2_lt_inv by lra. lia.
Qed.

(** ** Rounding to binary64 *)

Definition ulp_exp (q : Q) : Z := Z.max (ilog2 q - 52) (-1074).

Definition rndQ_pos (q : Q) : Q :=
  let e := ulp_exp q in inject_Z (rne (q * pow2 (- e))) * pow2 e.

Definition rnd_pos (q : Q) : num :=
  let r := rndQ_pos q in
  if Qle_bool (pow2 1024) r then Inf false else Fin (Qred r).

Definition nneg (x : num) : num :=
  match x with
  | NaN => NaN
  | Inf b => Inf (negb b)
  | Fin q => Fin (Qred (- q))
  end.

Definition rnd (q : Q) : num :=
  match Qcompare q 0 with
  | Eq => Fin 0
  | Gt => rnd_pos q
  | Lt => nneg (rnd_pos (- q))
  end.

Lemma rndQ_pos_mono p q : 0 < p -> p <= q -> rndQ_pos p <= rndQ_pos q.
Proof.
  intros Hp H. unfold rndQ_pos.
  pose proof (ilog2_mono _ _ Hp H) as Hl.
  destruct (ilog2_spec p Hp) as [_ Hp2]. destruct (ilog2_spec q ltac:(lra)) as [Hq1 _].
  set (u1 := ulp_exp p). set (u2 := ulp_exp q).
  pose proof (pow2_pos u1). pose proof (pow2_pos u2).
  pose proof (pow2_pos (- u1)). pose proof (pow2_pos (- u2)).
  assert (Hu : (u1 = u2 \/ u1 < u2)%Z) by (unfold u1, u2, ulp_exp; lia).
  destruct Hu as [->|Hu].
  - apply Qmult_le_compat_r; [|lra]. rewrite <- Zle_Qle. apply rne_mono.
    apply Qmult_le_compat_r; lra.
  - assert (E2 : (ilog2 q = u2 + 52)%Z) by (unfold u1, u2, ulp_exp in *; lia).
    assert (E1 : (ilog2 p + 1 <= u2 + 52)%Z) by (unfold u1, u2, ulp_exp in *; lia).
    apply pow2_le in E1. rewrite E2 in Hq1.
    pose proof (pow2_opp u1) as O1. pose proof (pow2_opp u2) as O2.
    apply Qle_trans with (pow2 (u2 + 52)).
    + assert (Hr : inject_Z (rne (p * pow2 (- u1))) <= pow2 (u2 + 52 - u1)).
      { rewrite (pow2_Z (u2 + 52 - u1)) by lia. rewrite <- Zle_Qle.
        rewrite <- (rne_Z (2 ^ (u2 + 52 - u1))). apply rne_mono. rewrite <- (pow2_Z (u2 + 52 - u1)) by lia.
        replace (u2 + 52 - u1)%Z with (u2 + 52 + - u1)%Z by lia. rewrite pow2_add. nra. }
      replace (u2 + 52)%Z with ((u2 + 52 - u1) + u1)%Z by lia. rewrite (pow2_add (u2 + 52 - u1)).
      apply Qmult_le_compat_r; lra.
    + assert (Hr : pow2 52 <= inject_Z (rne (q * pow2 (- u2)))).
      { rewrite (pow2_Z 52) by lia. rewrite <- Zle_Qle.
        rewrite <- (rne_Z (2 ^ 52)). apply rne_mono. rewrite <- (pow2_Z 52) by lia.
        rewrite Z.add_comm, pow2_add in Hq1. nra. }
      rewrite Z.add_comm, pow2_add. apply Qmult_le_compat_r; lra.
Qed.

(** A positive value that is an integer number of units in the last place is exact. *)
Lemma rndQ_pos_exact q n : q * pow2 (- ulp_exp q) == inject_Z n -> rndQ_pos q == q.
Proof.
  intros H. unfold rndQ_pos. rewrite H, rne_Z, <- H.
  rewrite <- Qmult_assoc, (Qmult_comm (pow2 (- _))), pow2_opp. lra.
Qed.

Lemma rndQ_pos_Z n : (0 < n <= 2 ^ 53)%Z -> rndQ_pos (inject_Z n) == inject_Z n.
Proof.
  intros Hn. assert (Hq : 0 < inject_Z n) by (change 0 with (inject_Z 0); rewrite <- Zlt_Qlt; lia).
  destruct (ilog2_spec _ Hq) as [H1 H2].
  assert (Hl0 : (0 < ilog2 (inject_Z n) + 1)%Z).
  { apply pow2_lt_inv. eapply Qle_lt_trans; [|exact H2]. change (pow2 0) with (inject_Z 1).
    rewrite <- Zle_Qle. lia. }
  assert (Hl : (ilog2 (inject_Z n) < 54)%Z).
  { apply pow2_lt_inv. eapply Qle_lt_trans; [exact H1|]. rewrite pow2_Z, <- Zlt_Qlt by lia. lia. }
  destruct (Z.eq_dec (ilog2 (inject_Z n)) 53%Z) as [E|E].
  - assert (n = 2 ^ 53)%Z as ->.
    { rewrite E, pow2_Z, <- Zle_Qle in H1 by lia. lia. }
    vm_compute. reflexivity.
  - apply (rndQ_pos_exact _ (n * 2 ^ (- ulp_exp (inject_Z n)))).
    rewrite inject_Z_mult, <- pow2_Z; [reflexivity|]. unfold ulp_exp. lia.
Qed.

Lemma Qred_Z x n : x == inject_Z n -> Qred x = inject_Z n.
Proof.
  intros H. transitivity (Qred (inject_Z n)); [by apply Qred_complete|].
  apply Qred_iff. apply Z.gcd_1_r.
Qed.

(** Integers up to 2^53 are exact. *)
Lemma rnd_Z n : (- 2 ^ 53 <= n <= 2 ^ 53)%Z -> rnd (inject_Z n) = of_Z n.
Proof.
  intros Hn. unfold rnd, rnd_pos, of_Z.
  assert (Hov : forall m, (0 < m <= 2 ^ 53)%Z -> Qle_bool (pow2 1024) (rndQ_pos (inject_Z m)) = false).
  { intros m Hm. apply not_true_is_false. intros C%Qle_bool_iff. rewrite rndQ_pos_Z in C by done.
    rewrite pow2_Z, <- Zle_Qle in C by lia.
    assert (2 ^ 53 < 2 ^ 1024)%Z by (apply Z.pow_lt_mono_r; lia). lia. }
  destruct (Qcompare_spec (inject_Z n) 0) as [E|E|E].
  - change 0 with (inject_Z 0) in E. apply (proj1 (inject_Z_injective _ _)) in E. rewrite E. reflexivity.
  - change 0 with (inject_Z 0) in E. rewrite <- Zlt_Qlt in E.
    change (- inject_Z n) with (inject_Z (- n)). rewrite Hov by lia. simpl. f_equal.
    apply Qred_Z. rewrite !Qred_correct, rndQ_pos_Z by lia. rewrite inject_Z_opp. lra.
  - change 0 with (inject_Z 0) in E. rewrite <- Zlt_Qlt in E.
    rewrite Hov by lia. f_equal. apply Qred_Z, rndQ_pos_Z. lia.
Qed.

Lemma rnd_nonneg q r : 0 <= q -> rnd q = Fin r -> 0 <= r.
Proof.
  intros Hq. unfold rnd, rnd_pos.
  destruct (Qcompare_spec q 0) as [E|E|E]; [by intros [= <-]|lra|].
  destruct (Qle_bool _ _); [done|]. intros [= <-]. rewrite Qred_correct. unfold rndQ_pos.
  apply Qmult_le_0_compat; [|apply Qlt_le_weak, pow2_pos].
  change 0 with (inject_Z 0). rewrite <- Zle_Qle, <- (rne_Z 0). apply rne_mono.
  apply Qmult_le_0_compat; [lra|apply Qlt_le_weak, pow2_pos].
Qed.

(** Rounding is monotone, and whatever lies below a value that does not
    overflow does not overflow either. *)
Lemma rnd_mono p q b : 0 <= p -> p <= q -> rnd q = Fin b -> exists a, rnd p = Fin a /\ 0 <= a <= b.
Proof.
  intros Hp Hpq Hb. pose proof (rnd_nonneg q b (Qle_trans _ _ _ Hp Hpq) Hb) as H0.
  destruct (Qcompare_spec p 0) as [E|E|E]; [|lra|].
  { exists 0. unfold rnd. rewrite E. simpl. split; [done|lra]. }
  assert (Hpos : rnd p = rnd_pos p) by (unfold rnd; rewrite (proj1 (Qgt_alt _ _) E); done).
  assert (Hq : rnd q = rnd_pos q).
  { unfold rnd. rewrite (proj1 (Qgt_alt q 0)); [done|lra]. }
  rewrite Hq in Hb. unfold rnd_pos in Hb.
  pose proof (rndQ_pos_mono p q E Hpq) as Hm.
  destruct (Qle_bool (pow2 1024) (rndQ_pos q)) eqn:Eq; [done|]. injection Hb as <-.
  assert (Ep : Qle_bool (pow2 1024) (rndQ_pos p) = false).
  { apply not_true_is_false. intros C%Qle_bool_iff.
    assert (pow2 1024 <= rndQ_pos q) as C'%Qle_bool_iff by lra. congruence. }
  assert (Ha : rnd p = Fin (Qred (rndQ_pos p))) by (rewrite Hpos; unfold rnd_pos; by rewrite Ep).
  exists (Qred (rndQ_pos p)). split; [done|]. split.
  - apply (rnd_nonneg p); [lra|done].
  - by rewrite !Qred_correct.
Qed.

(** ** Arithmetic *)

Definition nadd (x y : num) : num :=
  match x, y with
  | NaN, _ | _, NaN => NaN
  | Inf a, Inf b => if Bool.eqb a b then Inf a else NaN
  | Inf a, _ => Inf a
  | _, Inf b => Inf b
  | Fin p, Fin q => rnd (p + q)
  end.

Definition nsub (x y : num) : num := nadd x (nneg y).

Definition qneg (q : Q) : bool := (Qnum q <? 0)%Z.
Definition qzero (q : Q) : bool := (Qnum q =? 0)%Z.

Definition nmul (x y : num) : num :=
  match x, y with
  | NaN, _ | _, NaN => NaN
  | Inf a, Inf b => Inf (xorb a b)
  | Inf a, Fin q | Fin q, Inf a => if qzero q then NaN else Inf (xorb a (qneg q))
  | Fin p, Fin q => rnd (p * q)
  end.

Definition ndiv (x y : num) : num :=
  match x, y with
  | NaN, _ | _, NaN => NaN
  | Inf _, Inf _ => NaN
  | Inf a, Fin q => Inf (xorb a (qneg q))
  | Fin _, Inf _ => Fin 0
  | Fin p, Fin q =>
      if qzero q then (if qzero p then NaN else Inf (qneg p)) else rnd (p / q)
  end.

(** Relational operators: every comparison with NaN is false. *)
Definition nle (x y : num) : bool :=
  match x, y with
  | NaN, _ | _, NaN => false
  | Inf true, _ | _, Inf false => true
  | Inf false, _ | _, Inf true => false
  | Fin p, Fin q => Qle_bool p q
  end.

Definition nlt (x y : num) : bool :=
  match x, y with
  | NaN, _ | _, NaN => false
  | _, _ => negb (nle y x)
  end.

Definition neqb (x y : num) : bool := nle x y && nle y x.

Definition is_finite (x : num) : bool := match x with Fin _ => true | _ => false end.
Definition is_NaN (x : num) : bool := match x with NaN => true | _ => false end.

(** A rounded value stays within integer bounds. *)
Lemma rnd_range q n : (0 <= n <= 2 ^ 53)%Z -> 0 <= q -> q <= inject_Z n ->
  exists a, rnd q = Fin a /\ 0 <= a <= inject_Z n.
Proof. intros Hn H0 Hq. eapply rnd_mono; [done|exact Hq|]. apply rnd_Z. lia. Qed.

(** A value a computation can produce: rounding leaves it alone. *)
Definition is_double (x : num) : Prop :=
  match x with Fin q => exists r, rnd q = Fin r /\ r == q | _ => True end.

Lemma is_double_Z z : (- 2 ^ 53 <= z <= 2 ^ 53)%Z -> is_double (of_Z z).
Proof. intros H. exists (inject_Z z). split; [by apply rnd_Z|reflexivity]. Qed.

Lemma qzero_pos q : 0 < q -> qzero q = false.
Proof. intros H. unfold qzero. apply Z.eqb_neq. apply Qpos_num in H. lia. Qed.

(** [(p / q) * 100] of a part and a positive whole. *)
Definition percent_of (p q : num) : num := nmul (ndiv p q) (of_Z 100).

Lemma percent_range p q : 0 <= p -> p <= q -> 0 < q ->
  exists a, percent_of (Fin p) (Fin q) = Fin a /\ 0 <= a <= 100.
Proof.
  intros Hp Hpq Hq. unfold percent_of, ndiv. rewrite qzero_pos by done.
  destruct (rnd_range (p / q) 1) as (x & -> & Hx0 & Hx1); [lia| | |].
  - apply Qle_shift_div_l; [done|lra].
  - apply Qle_shift_div_r; [done|]. change (inject_Z 1) with 1. lra.
  - cbn [nmul of_Z]. change (inject_Z 1) with 1 in Hx1. change (inject_Z 100) with 100.
    apply (rnd_range (x * 100) 100); [lia|lra|change (inject_Z 100) with 100; lra].
Qed.

Lemma nle_Fin p q : nle (Fin p) (Fin q) = true <-> p <= q.
Proof. apply Qle_bool_iff. Qed.

Lemma nle_Fin_false p q : nle (Fin p) (Fin q) = false -> q < p.
Proof. intros H. apply Qnot_le_lt. intros C%Qle_bool_iff. cbn in H. congruence. Qed.

Lemma nlt_Fin p q : nlt (Fin p) (Fin q) = true <-> p < q.
Proof.
  unfold nlt. rewrite negb_true_iff. split; [apply nle_Fin_false|].
  intros H. apply not_true_is_false. rewrite nle_Fin. lra.
Qed.

(** [Math.min], [Math.max]: NaN is contagious. *)
Definition nmin (x y : num) : num :=
  match x, y with NaN, _ | _, NaN => NaN | _, _ => if nle x y then x else y end.
Definition nmax (x y : num) : num :=
  match x, y with NaN, _ | _, NaN => NaN | _, _ => if nle x y then y else x end.

(** [Math.floor], [Math.round] (ties toward +∞) and truncation. *)
Definition qround (q : Q) : Z := Qfloor (q + (1 # 2)).
Definition qtrunc (q : Q) : Z := if qneg q then (- Qfloor (- q))%Z else Qfloor q.
Definition nround (x : num) : num := match x with Fin q => of_Z (qround q) | _ => x end.
Definition nfloor (x : num) : num := match x with Fin q => of_Z (Qfloor q) | _ => x end.

Lemma qround_Z n : qround (inject_Z n) = n.
Proof.
  unfold qround. pose proof (Qfloor_bounds (inject_Z n + (1 # 2))) as [H1 H2].
  set (f := Qfloor (inject_Z n + (1 # 2))) in *.
  assert (inject_Z f < inject_Z (n + 1)) as L by (rewrite inject_Z_plus; change (inject_Z 1) with 1; lra).
  assert (inject_Z n < inject_Z (f + 1)) as R by (rewrite inject_Z_plus; change (inject_Z 1) with 1; lra).
  rewrite <- Zlt_Qlt in L, R. lia.
Qed.

Lemma qtrunc_Z n : qtrunc (inject_Z n) = n.
Proof.
  unfold qtrunc. change (- inject_Z n) with (inject_Z (- n)). rewrite !Qfloor_Z.
  destruct (qneg _); lia.
Qed.

Lemma qround_mono p q : p <= q -> (qround p <= qround q)%Z.
Proof. intros H. apply Qfloor_resp_le. lra. Qed.

(** [Number.isInteger]. *)
Definition isInteger (n : num) : bool := match n with Fin q => Qeq_bool q (inject_Z (Qfloor q)) | _ => false end.

(** The integer a number is, when it is one. *)
Definition num_Z (n : num) : Z := match n with Fin q => Qfloor q | _ => 0%Z end.

Lemma isInteger_range n lo hi : isInteger n = true -> nlt n (of_Z lo) = false -> nlt (of_Z hi) n = false ->
  (exists q, n = Fin q /\ qround q = num_Z n /\ neqb n (of_Z (num_Z n)) = true) /\ (lo <= num_Z n <= hi)%Z.
Proof.
  destruct n as [| |q]; [discriminate..|]. cbn [isInteger num_Z]. intros E%Qeq_bool_iff Hl Hh. split.
  - exists q. split_and!; [done| |].
    + rewrite <- (qround_Z (Qfloor q)). unfold qround. by rewrite E at 1.
    + unfold neqb, of_Z. apply andb_true_iff. rewrite !nle_Fin. lra.
  - unfold nlt, of_Z in Hl, Hh. rewrite negb_false_iff in Hl, Hh.
    apply nle_Fin in Hl, Hh. rewrite E in Hl, Hh. rewrite <- Zle_Qle in Hl, Hh. lia.
Qed.

(** Sixty-fourths of an integer below 2^53 are exact. *)
Lemma rnd_64ths n : (0 < n < 2 ^ 53)%Z ->
  exists b, rnd (inject_Z n * pow2 (-6)) = Fin b /\ b == inject_Z n * pow2 (-6).
Proof.
  intros Hn. set (v := inject_Z n * pow2 (-6)).
  assert (Hn0 : 0 < inject_Z n) by (change 0 with (inject_Z 0); rewrite <- Zlt_Qlt; lia).
  assert (Hv : 0 < v) by (apply Qmult_lt_0_compat; [done|apply pow2_pos]).
  assert (Hlt : v < pow2 47).
  { assert (inject_Z n < pow2 53) as H by (rewrite pow2_Z, <- Zlt_Qlt by lia; lia).
    apply (Qmult_lt_r _ _ (pow2 (-6))) in H; [|apply pow2_pos].
    rewrite <- pow2_add in H. exact H. }
  destruct (ilog2_spec v Hv) as [H1 _].
  assert (Hl : (ilog2 v < 47)%Z) by (apply pow2_lt_inv; lra).
  assert (E : rndQ_pos v == v).
  { apply (rndQ_pos_exact _ (n * 2 ^ (- ulp_exp v - 6))). unfold v at 1.
    rewrite inject_Z_mult, <- pow2_Z by (unfold ulp_exp; lia).
    rewrite <- Qmult_assoc, <- pow2_add. by replace (-6 + - ulp_exp v)%Z with (- ulp_exp v - 6)%Z by lia. }
  exists (Qred (rndQ_pos v)). split; [|by rewrite Qred_correct].
  unfold rnd. rewrite (proj1 (Qgt_alt v 0)) by done. unfold rnd_pos.
  replace (Qle_bool (pow2 1024) (rndQ_pos v)) with false; [done|].
  symmetry. apply not_true_is_false. intros C%Qle_bool_iff. rewrite E in C.
  assert (pow2 47 <= pow2 1024) by (apply pow2_le; lia). lra.
Qed.

(** Flooring the rounded quotient of two integers is integer division, for
    dividends up to 2^45 and divisors up to 60. *)
Lemma floor_div a k : (0 <= a <= 2 ^ 45)%Z -> (1 <= k <= 60)%Z ->
  nfloor (ndiv (of_Z a) (of_Z k)) = of_Z (a / k).
Proof.
  intros Ha Hk. unfold ndiv, of_Z.
  replace (qzero (inject_Z k)) with false by (symmetry; apply Z.eqb_neq; simpl; lia).
  set (f := (a / k)%Z). assert (Hf : (0 <= f)%Z) by (apply Z.div_pos; lia).
  assert (Hfa : (f * k <= a)%Z) by (unfold f; rewrite Z.mul_comm; apply Z.mul_div_le; lia).
  assert (Haf : (a + 1 <= (f + 1) * k)%Z).
  { unfold f. pose proof (Z.mul_succ_div_gt a k ltac:(lia)). lia. }
  assert (Hk0 : 0 < inject_Z k) by (change 0 with (inject_Z 0); rewrite <- Zlt_Qlt; lia).
  assert (H0 : inject_Z f <= inject_Z a / inject_Z k).
  { apply Qle_shift_div_l; [done|]. rewrite <- inject_Z_mult, <- Zle_Qle. lia. }
  assert (Hfn : 0 <= inject_Z f) by (change 0 with (inject_Z 0); rewrite <- Zle_Qle; lia).
  set (n := (64 * (f + 1) - 1)%Z).
  assert (H1 : inject_Z a / inject_Z k <= inject_Z n * pow2 (-6)).
  { apply Qle_shift_div_r; [done|]. change (pow2 (-6)) with (1 # 64).
    assert (64 * a <= n * k)%Z as H by (unfold n; nia).
    rewrite Zle_Qle, !inject_Z_mult in H. change (inject_Z 64) with 64 in H. lra. }
  assert (Hf45 : (f <= 2 ^ 45)%Z) by nia.
  destruct (rnd_64ths n) as (b & Hb & Eb); [unfold n; lia|].
  destruct (rnd_mono _ _ b (Qle_trans _ _ _ Hfn H0) H1 Hb) as (r & Er & _ & Hrb).
  destruct (rnd_mono (inject_Z f) _ r Hfn H0 Er) as (f' & Ef' & _ & Hfr).
  rewrite rnd_Z in Ef' by lia. injection Ef' as <-. rewrite Er. cbn [nfloor]. unfold of_Z.
  f_equal. f_equal. pose proof (Qfloor_bounds r) as [L R].
  assert (Hrf : r < inject_Z (f + 1)).
  { assert (inject_Z n * pow2 (-6) < inject_Z (f + 1)); [|lra]. change (pow2 (-6)) with (1 # 64).
    assert (n < 64 * (f + 1))%Z as H by (unfold n; lia).
    rewrite Zlt_Qlt, inject_Z_mult in H. change (inject_Z 64) with 64 in H. lra. }
  assert (inject_Z (Qfloor r) < inject_Z (f + 1)) as A by lra. rewrite <- Zlt_Qlt in A.
  assert (inject_Z f < inject_Z (Qfloor r + 1)) as B by (rewrite inject_Z_plus; change (inject_Z 1) with 1; lra).
  rewrite <- Zlt_Qlt in B. lia.
Qed.

(** [Math.max(lo, Math.min(hi, x))] of a finite [x]. *)
Definition clamp_num (lo hi : Q) (x : num) : num := nmax (Fin lo) (nmin (Fin hi) x).

Lemma clamp_num_bounds lo hi q :
  lo <= hi -> exists r, clamp_num lo hi (Fin q) = Fin r /\ lo <= r <= hi.
Proof.
  intros H. unfold clamp_num, nmin, nmax, nle.
  destruct (Qle_bool hi q) eqn:E1.
  - assert (Qle_bool lo hi = true) as -> by (by apply Qle_bool_iff). exists hi. split; [done|lra].
  - assert (q < hi) by (apply Qnot_le_lt; intros C%Qle_bool_iff; congruence).
    destruct (Qle_bool lo q) eqn:E2.
    + apply Qle_bool_iff in E2. exists q. split; [done|lra].
    + exists lo. split; [done|lra].
Qed.

Lemma clamp_num_in lo hi q : lo <= q -> q < hi -> clamp_num lo hi (Fin q) = Fin q.
Proof.
  intros H1 H2. unfold clamp_num, nmin, nmax, nle.
  destruct (Qle_bool hi q) eqn:E1; [apply Qle_bool_iff in E1; lra|].
  apply Qle_bool_iff in H1. by rewrite H1.
Qed.

(** ** Numbers as text *)

(** [10^z], exactly. *)
Definition pow10 (z : Z) : Q := Qpower 10 z.

(** The decimal exponent [n] of a positive value: [10^(n-1) <= q < 10^n]. *)
Definition dec_exp (q : Q) : Z :=
  let est := ((ilog2 q * 30103) / 100000)%Z in
  if Qle_bool (pow10 (est + 1)) q then (est + 2)%Z
  else if Qle_bool (pow10 est) q then (est + 1)%Z
  else if Qle_bool (pow10 (est - 1)) q then est
  else (est - 1)%Z.

(** The two [k]-digit candidates around [q], nearest first. *)
Definition digit_candidates (q : Q) (n k : Z) : list Z :=
  let x := q / pow10 (n - k) in
  let lo := Qfloor x in
  if Qle_bool (x - inject_Z lo) (1 # 2) then [lo; (lo + 1)%Z] else [(lo + 1)%Z; lo].

Definition reads_back (q : Q) (n k s : Z) : bool :=
  (0 <? s)%Z && match rnd (inject_Z s * pow10 (n - k)) with Fin r => Qeq_bool r q | _ => false end.

(** The shortest digit string [s] of [k] digits with [s * 10^(n-k)] reading back
    as [q] ([17] digits always suffice); a carry to [10^k] moves the point. *)
Fixpoint shortest (q : Q) (n : Z) (ks : list Z) : Z * Z * Z :=
  match ks with
  | [] => (0, 17, n)%Z
  | k :: ks' =>
      match List.find (reads_back q n k) (digit_candidates q n k) with
      | Some s => if (s =? 10 ^ k)%Z then (1, 1, n + 1)%Z else (s, k, n)
      | None => shortest q n ks'
      end
  end.

Definition zeros (z : Z) : jsstr := replicate (Z.to_nat z) 48%N.

(** [Number::toString] of a positive value. *)
Definition str_of_pos (q : Q) : jsstr :=
  let '(s, k, n) := shortest q (dec_exp q) [1;2;3;4;5;6;7;8;9;10;11;12;13;14;15;16;17]%Z in
  let ds := digits (Z.to_N s) in
  if ((k <=? n) && (n <=? 21))%Z then ds ++ zeros (n - k)
  else if ((0 <? n) && (n <=? 21))%Z
  then take (Z.to_nat n) ds ++ u "." ++ drop (Z.to_nat n) ds
  else if ((-6 <? n) && (n <=? 0))%Z then u "0." ++ zeros (- n) ++ ds
  else
    let mant := match ds with
                | [] => []
                | [d] => [d]
                | d :: rest => d :: u "." ++ rest
                end in
    mant ++ u "e" ++ (if (0 <? n)%Z then u "+" else []) ++ str_of_Z (n - 1).

(** [String(x)]. *)
Definition str_of_num (x : num) : jsstr :=
  match x with
  | NaN => u "NaN"
  | Inf false => u "Infinity"
  | Inf true => u "-Infinity"
  | Fin q =>
      if (Zpos (Qden q) =? 1)%Z && (Z.abs (Qnum q) <=? 2 ^ 53)%Z then str_of_Z (Qnum q)
      else if qneg q then u "-" ++ str_of_pos (- q)
      else if qzero q then u "0" else str_of_pos q
  end.

Fixpoint take_digits (s : jsstr) : jsstr * jsstr :=
  match s with
  | [] => ([], [])
  | c :: s' => if is_digit c then let '(d, r) := take_digits s' in (c :: d, r) else ([], s)
  end.

(** An optional leading sign; [true] for a minus. *)
Definition take_sign (s : jsstr) : bool * jsstr :=
  match s with
  | c :: r => if N.eqb c 43 then (false, r) else if N.eqb c 45 then (true, r) else (false, s)
  | [] => (false, s)
  end.

(** The exponent part of a decimal literal, [0] when absent. *)
Definition parse_exponent (s : jsstr) : option Z :=
  match s with
  | [] => Some 0%Z
  | c :: r =>
      if (N.eqb c 101 || N.eqb c 69) then
        let '(neg, r) := take_sign r in
        if all_digits r && negb (str_eqb r []) then
          Some (if neg then - Z.of_N (dec_val r) else Z.of_N (dec_val r))%Z
        else None
      else None
  end.

Definition parse_unsigned (s : jsstr) : option Q :=
  let '(ip, r) := take_digits s in
  let '(fp, r) := match r with
                  | c :: r' => if N.eqb c 46 then take_digits r' else ([], r)
                  | [] => ([], r)
                  end in
  if str_eqb (ip ++ fp) [] then None
  else match parse_exponent r with
       | Some e => Some (inject_Z (Z.of_N (dec_val (ip ++ fp))) * pow10 (e - Z.of_nat (length fp)))
       | None => None
       end.

Definition parse_signless (s : jsstr) : num :=
  if str_eqb s (u "Infinity") then Inf false
  else match parse_unsigned s with Some q => rnd q | None => NaN end.

Definition radix_digit (c : N) : N :=
  if is_digit c then (c - 48)%N
  else if ((97 <=? c) && (c <=? 122))%N then (c - 87)%N
  else if ((65 <=? c) && (c <=? 90))%N then (c - 55)%N
  else 99%N.

Definition parse_radix (r : N) (s : jsstr) : num :=
  if negb (str_eqb s []) && forallb (λ c, (radix_digit c <? r)%N) s
  then rnd (inject_Z (Z.of_N (fold_left (λ a c, (a * r + radix_digit c)%N) s 0%N)))
  else NaN.

(** The radix announced by a [0x], [0o] or [0b] prefix, and the digits after it. *)
Definition radix_prefix (s : jsstr) : option (N * jsstr) :=
  match s with
  | a :: b :: r =>
      if negb (N.eqb a 48) then None
      else if N.eqb b 120 || N.eqb b 88 then Some (16%N, r)
      else if N.eqb b 111 || N.eqb b 79 then Some (8%N, r)
      else if N.eqb b 98 || N.eqb b 66 then Some (2%N, r)
      else None
  | _ => None
  end.

(** [StringToNumber]: what [Number(text)] computes. *)
Definition num_of_str (text : jsstr) : num :=
  let s := trim text in
  if str_eqb s [] then Fin 0
  else match radix_prefix s with
       | Some (r, ds) => parse_radix r ds
       | None => let '(neg, r) := take_sign s in
                 if neg then nneg (parse_signless r) else parse_signless r
       end.

(** [x.toFixed(d)] for magnitudes below 10^21; larger ones print as [String(x)]. *)
Definition to_fixed_pos (d : nat) (q : Q) : jsstr :=
  let n := Z.to_N (qround (q * pow10 (Z.of_nat d))) in
  match d with
  | O => digits n
  | _ =>
      let s := pad_start (S d) 48%N (digits n) in
      take (length s - d) s ++ u "." ++ drop (length s - d) s
  end.

Definition to_fixed (d : nat) (x : num) : jsstr :=
  match x with
  | Fin q =>
      if Qle_bool (pow10 21) (Qabs q) then str_of_num x
      else if qneg q then u "-" ++ to_fixed_pos d (- q) else to_fixed_pos d q
  | _ => str_of_num x
  end.

(** *** Numerals *)

Lemma take_digits_all s : all_digits s = true -> take_digits s = (s, []).
Proof.
  induction s as [|c s IH]; [done|]. unfold all_digits. simpl. intros [Hc Hs]%andb_true_iff.
  rewrite Hc, IH; done.
Qed.

Lemma parse_unsigned_digits s :
  all_digits s = true -> s <> [] -> parse_unsigned s = Some (inject_Z (Z.of_N (dec_val s)) * pow10 0).
Proof.
  intros Ha Hs. unfold parse_unsigned. rewrite (take_digits_all s Ha), app_nil_r. cbn.
  unfold str_eqb. rewrite bool_decide_eq_false_2; done.
Qed.

Lemma trim_digits s : all_digits s = true -> trim s = s.
Proof.
  intros Ha.
  assert (Hd : forall c, is_digit c = true -> is_space c = false).
  { unfold is_digit, is_space. intros c H. apply not_true_is_false. intros C.
    rewrite andb_true_iff, !N.leb_le in H.
    rewrite !orb_true_iff, !andb_true_iff, !N.leb_le, !N.eqb_eq in C.
    clear - H C. lia. }
  assert (Hf : forall t, all_digits t = true -> trim_start t = t).
  { intros [|c t]; [done|]. unfold all_digits. simpl. intros [Hc _]%andb_true_iff. by rewrite Hd. }
  unfold trim. rewrite (Hf s Ha), Hf; [apply rev_involutive|].
  unfold all_digits in *. rewrite forallb_forall in *. intros x Hx. apply Ha. by apply in_rev.
Qed.

Lemma rnd_mul_1 z : rnd (inject_Z z * pow10 0) = rnd (inject_Z z).
Proof.
  assert (E : inject_Z z * pow10 0 = inject_Z z).
  { unfold Qmult, inject_Z. cbn [Qnum Qden]. change (Qnum (pow10 0)) with 1%Z.
    change (Qden (pow10 0)) with 1%positive. by rewrite Z.mul_1_r. }
  by rewrite E.
Qed.

Lemma parse_signless_digits s :
  all_digits s = true -> s <> [] -> (Z.of_N (dec_val s) <= 2 ^ 53)%Z ->
  parse_signless s = of_Z (Z.of_N (dec_val s)).
Proof.
  intros Ha Hs Hb. unfold parse_signless, str_eqb. rewrite bool_decide_eq_false_2.
  - rewrite parse_unsigned_digits, rnd_mul_1, rnd_Z; [done|lia|done..].
  - intros ->. discriminate Ha.
Qed.

Lemma digit_head_plain c s :
  all_digits (c :: s) = true -> radix_prefix (c :: s) = None /\ take_sign (c :: s) = (false, c :: s).
Proof.
  intros Ha. assert (Hne : forall d, is_digit d = false -> forall x, x ∈ c :: s -> N.eqb x d = false).
  { intros d Hd x Hx. apply N.eqb_neq. intros ->.
    pose proof (all_digits_elem _ _ Ha Hx). congruence. }
  assert (Hc : c ∈ c :: s) by set_solver. split.
  - destruct s as [|b s]; [done|]. assert (Hb : b ∈ c :: b :: s) by set_solver.
    unfold radix_prefix. destruct (negb _); [done|].
    by rewrite (Hne 120%N), (Hne 88%N), (Hne 111%N), (Hne 79%N), (Hne 98%N), (Hne 66%N).
  - unfold take_sign. by rewrite (Hne 43%N), (Hne 45%N).
Qed.

(** A numeral reads as its value. *)
Lemma num_of_str_digits s :
  all_digits s = true -> s <> [] -> (Z.of_N (dec_val s) <= 2 ^ 53)%Z ->
  num_of_str s = of_Z (Z.of_N (dec_val s)).
Proof.
  intros Ha Hs Hb. unfold num_of_str, str_eqb. rewrite trim_digits by done.
  rewrite bool_decide_eq_false_2 by done.
  destruct s as [|c s]; [done|]. destruct (digit_head_plain _ _ Ha) as [-> ->].
  by apply parse_signless_digits.
Qed.

Lemma num_of_str_print n : (Z.of_N n <= 2 ^ 53)%Z -> num_of_str (digits n) = of_Z (Z.of_N n).
Proof.
  intros H. rewrite num_of_str_digits; rewrite ?dec_val_digits; auto with console.
Qed.
