(* ===== verification/JsValue.v ===== *)
(** * JavaScript values of unknown shape

    What [JSON.parse] (or an untyped field) can hold, and the coercions the
    console applies to it.  Objects are property lists with distinct keys;
    an object that shadows [toString] or [valueOf] (whose coercion throws) is
    outside the model. *)
From S2P Require Import Prelude JsString JsNumber.

#[warnings="-register-all"]
Inductive jsval : Type :=
  | VUndef
  | VNull
  | VBool (b : bool)
  | VNum (n : num)
  | VStr (s : jsstr)
  | VArr (items : list jsval)
  | VObj (fields : list (jsstr * jsval)).

(** A property bag, the payload of [VObj]. *)
Abbreviation fields := (list (jsstr * jsval)).

Definition lookup_field (k : jsstr) (fs : fields) : jsval :=
  match List.find (λ kv, str_eqb kv.1 k) fs with
  | Some kv => kv.2
  | None => VUndef
  end.

Definition has_field (k : jsstr) (fs : fields) : bool := existsb (λ kv, str_eqb kv.1 k) fs.

(** [(value as Record<string, unknown>)[k]]: only plain objects own the
    properties the console reads. *)
Definition get (v : jsval) (k : String.string) : jsval :=
  match v with VObj fs => lookup_field (u k) fs | _ => VUndef end.

(** [k in v] for the names the console tests. *)
Definition has (v : jsval) (k : String.string) : bool :=
  match v with VObj fs => has_field (u k) fs | _ => false end.

Definition is_nullish (v : jsval) : bool :=
  match v with VUndef | VNull => true | _ => false end.

(** [typeof v === 'object' && v !== null]. *)
Definition is_object (v : jsval) : bool :=
  match v with VArr _ | VObj _ => true | _ => false end.

(** [v === 'text']. *)
Definition is_str (v : jsval) (s : String.string) : bool :=
  match v with VStr t => str_eqb t (u s) | _ => false end.

(** [a ?? b]. *)
Definition coalesce (a b : jsval) : jsval := if is_nullish a then b else a.

Definition truthy (v : jsval) : bool :=
  match v with
  | VUndef | VNull => false
  | VBool b => b
  | VNum n => negb (is_NaN n || neqb n (of_Z 0))
  | VStr s => negb (str_eqb s [])
  | VArr _ | VObj _ => true
  end.

(** [String(v)]; inside an array, null and undefined are empty. *)
Fixpoint to_str (v : jsval) : jsstr :=
  match v with
  | VUndef => u "undefined"
  | VNull => u "null"
  | VBool b => if b then u "true" else u "false"
  | VNum n => str_of_num n
  | VStr s => s
  | VArr l => join (u ",") (map (λ x, if is_nullish x then [] else to_str x) l)
  | VObj _ => u "[object Object]"
  end.

(** [Number(v)]. *)
Definition to_num (v : jsval) : num :=
  match v with
  | VUndef => NaN
  | VNull => of_Z 0
  | VBool b => of_Z (if b then 1 else 0)
  | VNum n => n
  | VStr s => num_of_str s
  | VArr _ => num_of_str (to_str v)
  | VObj _ => NaN
  end.

Definition array_or_nil (v : jsval) : list jsval := match v with VArr l => l | _ => [] end.
Definition str_or (d : jsstr) (v : jsval) : jsstr := match v with VStr s => s | _ => d end.

(** Keeps the string elements of a list. *)
Definition only_strings (l : list jsval) : list jsstr :=
  omap (λ v, match v with VStr s => Some s | _ => None end) l.

Lemma get_cons k v fs k' :
  get (VObj ((u k, v) :: fs)) k' = if decide (u k = u k') then v else get (VObj fs) k'.
Proof.
  unfold get, lookup_field, str_eqb. simpl. case_bool_decide; case_decide; done.
Qed.

Lemma only_strings_map l : only_strings (map VStr l) = l.
Proof. induction l as [|s l IH]; simpl; [done|]. by f_equal. Qed.

(** ** Identifiers

    [type ID = string | number]. *)
Inductive ID := IdStr (s : jsstr) | IdNum (n : num).

Definition id_text (i : ID) : jsstr := match i with IdStr s => s | IdNum n => str_of_num n end.

Definition id_val (i : ID) : jsval := match i with IdStr s => VStr s | IdNum n => VNum n end.

(** Membership of a [Set] of ids; no id is NaN. *)
Definition same_id (a b : ID) : bool :=
  match a, b with IdStr s, IdStr t => str_eqb s t | IdNum m, IdNum n => neqb m n | _, _ => false end.

(** ** Evaluating property reads on object literals *)

#[global] Arguments u : simpl never.
#[global] Arguments of_Z : simpl never.
#[global] Arguments str_eqb : simpl never.

(** Decides the comparisons of literals in the goal. *)
Ltac js_literals :=
  repeat match goal with
  | |- context [str_eqb (u ?a) (u ?b)] =>
      let v := eval vm_compute in (str_eqb (u a) (u b)) in
      change (str_eqb (u a) (u b)) with v
  | |- context [str_eqb (u ?a) []] =>
      let v := eval vm_compute in (str_eqb (u a) []) in
      change (str_eqb (u a) []) with v
  end.

Lemma lookup_field_cons k k' v fs :
  lookup_field k ((k', v) :: fs) = if str_eqb k' k then v else lookup_field k fs.
Proof. unfold lookup_field. simpl. by destruct (str_eqb k' k). Qed.

Lemma lookup_field_nil k : lookup_field k [] = VUndef.
Proof. done. Qed.

(** Reads the properties of object literals. *)
Ltac js_eval :=
  repeat first
    [ rewrite lookup_field_cons
    | rewrite lookup_field_nil
    | progress js_literals
    | progress cbn [get has has_field is_str existsb fst snd
                    orb andb negb is_nullish coalesce is_object] ].

(** An object as a server writes it: fields that are absent are left out. *)
Definition struct_val (fs : list (jsstr * option jsval)) : jsval :=
  VObj (omap (λ f : jsstr * option jsval, pair f.1 <$> f.2) fs).

Lemma get_struct fs k : NoDup (map fst fs) →
  get (struct_val fs) k = match List.find (λ f, str_eqb f.1 (u k)) fs with Some f => default VUndef f.2 | None => VUndef end.
Proof.
  cbn [get struct_val]. induction fs as [|[n [v|]] fs IH]; cbn [map fst]; intros Hnd; [done| |];
    apply NoDup_cons in Hnd as [Hn Hnd]; cbn [omap list_omap fst snd fmap option_fmap option_map List.find].
  - rewrite lookup_field_cons. cbn [fst snd]. destruct (str_eqb n (u k)); [done|]. by apply IH.
  - destruct (str_eqb n (u k)) eqn:E; [|by apply IH]. apply str_eqb_true in E as ->. cbn [snd default]. rewrite IH by done.
    destruct (List.find _ fs) as [f|] eqn:Ef; [|done]. exfalso. apply List.find_some in Ef as [Hin Ef].
    apply str_eqb_true in Ef. apply Hn. rewrite <- Ef. by apply list_elem_of_In, in_map.
Qed.

Lemma has_struct fs k : NoDup (map fst fs) →
  has (struct_val fs) k = match List.find (λ f, str_eqb f.1 (u k)) fs with Some (_, Some _) => true | _ => false end.
Proof.
  cbn [has struct_val]. induction fs as [|[n [v|]] fs IH]; cbn [map fst]; intros Hnd; [done| |];
    apply NoDup_cons in Hnd as [Hn Hnd]; cbn [omap list_omap fst snd fmap option_fmap option_map List.find].
  - unfold has_field in *. cbn [existsb fst]. destruct (str_eqb n (u k)); [done|]. by apply IH.
  - destruct (str_eqb n (u k)) eqn:E; [|by apply IH]. apply str_eqb_true in E as ->. rewrite IH by done.
    destruct (List.find _ fs) as [f|] eqn:Ef; [|done]. exfalso. apply List.find_some in Ef as [Hin Ef].
    apply str_eqb_true in Ef. apply Hn. rewrite <- Ef. by apply list_elem_of_In, in_map.
Qed.
