(* ===== verification/Schedule.v ===== *)
(** * Backup schedules (web/src/api.ts)

    The schedule union, the tolerant integer and clock readers, and
    [parseSchedule], which turns whatever a job record holds into a schedule.
    [valid_schedule] is the normal form every reader of a schedule relies on. *)
From S2P Require Import Prelude JsString JsNumber JsValue.

Inductive ScheduleKind := KManual | KHourly | KDaily | KWeekly | KMonthly | KAdvanced.

#[export] Instance ScheduleKind_eq_dec : EqDecision ScheduleKind.
Proof. solve_decision. Defined.

Definition kind_text (k : ScheduleKind) : jsstr :=
  u match k with
    | KManual => "manual" | KHourly => "hourly" | KDaily => "daily"
    | KWeekly => "weekly" | KMonthly => "monthly" | KAdvanced => "advanced"
    end.

(** The union [Schedule]; [kind] is the constructor. *)
Inductive Schedule :=
  | ManualSchedule
  | HourlySchedule (minute : Z)
  | DailySchedule (time : jsstr)
  | WeeklySchedule (time : jsstr) (weekdays : list Z)
  | MonthlySchedule (time : jsstr) (dayOfMonth : Z)
  | AdvancedSchedule (cron : jsstr).

#[export] Instance Schedule_eq_dec : EqDecision Schedule.
Proof. solve_decision. Defined.

Definition kind_of (s : Schedule) : ScheduleKind :=
  match s with
  | ManualSchedule => KManual
  | HourlySchedule _ => KHourly
  | DailySchedule _ => KDaily
  | WeeklySchedule _ _ => KWeekly
  | MonthlySchedule _ _ => KMonthly
  | AdvancedSchedule _ => KAdvanced
  end.

(** The regular expression [HHMM]: [^([01]\d|2[0-3]):[0-5]\d$]. *)
Definition HHMM (s : jsstr) : bool :=
  match s with
  | [a; b; c; d; e] =>
      ((((a =? 48) || (a =? 49)) && is_digit b) || ((a =? 50) && ((48 <=? b) && (b <=? 51))))
      && (c =? 58) && ((48 <=? d) && (d <=? 53)) && is_digit e
  | _ => false
  end%N.

Definition clampInt (value : jsval) (min max fallback : Z) : Z :=
  let n := match value with VNum x => x | _ => to_num value end in
  match n with
  | Fin q => Z.max min (Z.min max (qround q))
  | _ => fallback
  end.

Definition timeOf (value : jsval) (fallback : jsstr) : jsstr :=
  match value with
  | VStr s => if HHMM s then s else fallback
  | _ => fallback
  end.

Definition parseWeekdays (value : jsval) : list Z :=
  let list := array_or_nil value in
  let weekdays := sort_num (dedup (map (λ day, clampInt day 0 6 0) list)) in
  if decide (weekdays = []) then [0] else weekdays.

Definition parseSchedule (value : jsval) : Schedule :=
  match value with
  | VUndef | VNull => ManualSchedule
  | VStr text =>
      if str_eqb text [] then ManualSchedule
      else let text := trim text in
           if str_eqb text [] || str_eqb text (u "manual") then ManualSchedule
           else AdvancedSchedule text
  | raw =>
      let kind := get raw "kind" in
      if is_str kind "hourly" then HourlySchedule (clampInt (get raw "minute") 0 59 0)
      else if is_str kind "daily" then DailySchedule (timeOf (get raw "time") (u "02:00"))
      else if is_str kind "weekly" then
        WeeklySchedule (timeOf (get raw "time") (u "03:00")) (parseWeekdays (get raw "weekdays"))
      else if is_str kind "monthly" then
        MonthlySchedule (timeOf (get raw "time") (u "01:00")) (clampInt (get raw "dayOfMonth") 1 31 1)
      else if is_str kind "advanced" then
        AdvancedSchedule (match get raw "cron" with VStr c => trim c | _ => [] end)
      else ManualSchedule
  end.

Definition isManualSchedule (s : Schedule) : bool := bool_decide (kind_of s = KManual).

(** The object a schedule is on the wire. *)
Definition schedule_val (s : Schedule) : jsval :=
  let kind := (u "kind", VStr (kind_text (kind_of s))) in
  match s with
  | ManualSchedule => VObj [kind]
  | HourlySchedule minute => VObj [kind; (u "minute", VNum (of_Z minute))]
  | DailySchedule time => VObj [kind; (u "time", VStr time)]
  | WeeklySchedule time days =>
      VObj [kind; (u "time", VStr time); (u "weekdays", VArr (map (λ d, VNum (of_Z d)) days))]
  | MonthlySchedule time day => VObj [kind; (u "time", VStr time); (u "dayOfMonth", VNum (of_Z day))]
  | AdvancedSchedule cron => VObj [kind; (u "cron", VStr cron)]
  end.

(** The normal form of a schedule. *)
Definition valid_schedule (s : Schedule) : Prop :=
  match s with
  | ManualSchedule => True
  | HourlySchedule minute => 0 <= minute <= 59
  | DailySchedule time => HHMM time = true
  | WeeklySchedule time days =>
      HHMM time = true ∧ days ≠ [] ∧ increasing days ∧ Forall (λ d, 0 <= d <= 6) days
  | MonthlySchedule time day => HHMM time = true ∧ 1 <= day <= 31
  | AdvancedSchedule cron => trim cron = cron
  end.

(** ** Readers *)

Lemma clampInt_range v lo hi fb : lo <= fb <= hi → lo <= clampInt v lo hi fb <= hi.
Proof. intros H. unfold clampInt. destruct v; simpl; repeat case_match; lia. Qed.

Lemma clampInt_Z z lo hi fb : lo <= z <= hi → clampInt (VNum (of_Z z)) lo hi fb = z.
Proof. intros H. unfold clampInt, of_Z. rewrite qround_Z. lia. Qed.

Lemma timeOf_HHMM v fb : HHMM fb = true → HHMM (timeOf v fb) = true.
Proof. intros H. unfold timeOf. destruct v; try done. by destruct (HHMM s) eqn:?. Qed.

Lemma timeOf_valid s fb : HHMM s = true → timeOf (VStr s) fb = s.
Proof. intros H. unfold timeOf. by rewrite H. Qed.

Lemma parseWeekdays_nonempty v : parseWeekdays v ≠ [].
Proof. unfold parseWeekdays. by case_decide. Qed.

Lemma parseWeekdays_increasing v : increasing (parseWeekdays v).
Proof.
  unfold parseWeekdays. case_decide; [|apply sort_dedup_increasing].
  repeat constructor.
Qed.

Lemma parseWeekdays_range v : Forall (λ d, 0 <= d <= 6) (parseWeekdays v).
Proof.
  unfold parseWeekdays. case_decide; [repeat constructor; lia|].
  apply Forall_forall. intros d Hd. unfold sort_num in Hd.
  rewrite elem_of_sort_by, elem_of_dedup in Hd.
  apply list_elem_of_fmap in Hd as (v' & -> & _). apply clampInt_range. lia.
Qed.

Lemma parseWeekdays_valid days :
  days ≠ [] → increasing days → Forall (λ d, 0 <= d <= 6) days →
  parseWeekdays (VArr (map (λ d, VNum (of_Z d)) days)) = days.
Proof.
  intros Hne Hi Hr. unfold parseWeekdays. cbn [array_or_nil]. rewrite map_map.
  rewrite (map_ext_in _ id), map_id.
  - rewrite sort_dedup_id by done. by rewrite decide_False.
  - intros d Hd. apply clampInt_Z. rewrite Forall_forall in Hr. apply Hr. by apply list_elem_of_In.
Qed.

#[export] Hint Resolve clampInt_range timeOf_HHMM trim_idem parseWeekdays_nonempty
  parseWeekdays_increasing parseWeekdays_range : console.
#[export] Hint Extern 2 (_ <= _ <= _) => lia : console.

(** [parseSchedule] normalises. *)
Lemma parseSchedule_normal v : valid_schedule (parseSchedule v).
Proof.
  unfold parseSchedule. destruct v; simpl; try done;
    repeat case_match; simpl; auto 10 with console.
  all: split_and?; auto with console.
Qed.

(** A normal-form schedule survives the wire. *)
Lemma parseSchedule_val s : valid_schedule s → parseSchedule (schedule_val s) = s.
Proof.
  destruct s as [|m|t|t ds|t d|c]; cbn [valid_schedule]; intros H;
    unfold parseSchedule, schedule_val; cbn [kind_of]; unfold kind_text; js_eval.
  - done.
  - by rewrite clampInt_Z.
  - by rewrite timeOf_valid.
  - destruct H as (Ht & Hne & Hi & Hr). by rewrite timeOf_valid, parseWeekdays_valid.
  - destruct H as [Ht Hd]. by rewrite timeOf_valid, clampInt_Z.
  - by rewrite H.
Qed.

#[export] Hint Resolve parseSchedule_normal : console.

(** C1: whatever the job record holds, [parseSchedule] returns a schedule in
    normal form: minutes in 0..59, a well-formed clock time, a non-empty,
    duplicate-free, sorted list of weekdays in 0..6, a day in 1..31, a trimmed
    cron expression. *)
Theorem parseSchedule_valid v : valid_schedule (parseSchedule v).
Proof. apply parseSchedule_normal. Qed.

(** C2: a normal-form schedule survives the wire: parsing the object it is sent
    as gives it back; so parsing what was parsed and sent again changes
    nothing. *)
Theorem parseSchedule_roundtrip s :
  valid_schedule s →
  parseSchedule (schedule_val s) = s
  ∧ ∀ v, parseSchedule (schedule_val (parseSchedule v)) = parseSchedule v.
Proof. intros H. split; [by apply parseSchedule_val|]. intros v. apply parseSchedule_val, parseSchedule_normal. Qed.

Lemma parseSchedule_roundtrip_witness :
  valid_schedule (WeeklySchedule (u "03:30") [0; 6])
  ∧ parseSchedule (schedule_val (WeeklySchedule (u "03:30") [0; 6])) = WeeklySchedule (u "03:30") [0; 6].
Proof.
  assert (H : valid_schedule (WeeklySchedule (u "03:30") [0; 6])).
  { simpl. split; [reflexivity|]. split; [discriminate|]. split; repeat constructor; lia. }
  split; [exact H|]. exact (proj1 (parseSchedule_roundtrip _ H)).
Defined.
