(* ===== verification/Calendar.v ===== *)
(** * Calendar arithmetic: the [Date] object

    Time values are integer milliseconds since the epoch.  The civil calendar
    is the proleptic Gregorian one of the language definition
    ([days_before_year] is its DayFromYear).  The browser's time zone is a
    [Zone]: the host's conversions between UTC and local milliseconds. *)
From S2P Require Import Prelude.

(** ** Years and months *)

Definition is_leap (y : Z) : bool := ((y mod 4 =? 0) && negb (y mod 100 =? 0)) || (y mod 400 =? 0).

(** The day number, from the epoch, of 1 January. *)
Definition days_before_year (y : Z) : Z :=
  365 * (y - 1970) + (y - 1969) / 4 - (y - 1901) / 100 + (y - 1601) / 400.

Definition year_of_day (d : Z) : Z :=
  let y := 1970 + (400 * d) / 146097 in
  if d <? days_before_year y then y - 1
  else if days_before_year (y + 1) <=? d then y + 1 else y.

(** Days of the year before month [m] (0 = January; 12 = the whole year). *)
Definition days_before_month (leap : bool) (m : Z) : Z :=
  nth (Z.to_nat m) [0; 31; 59; 90; 120; 151; 181; 212; 243; 273; 304; 334; 365] 0
  + (if leap && (2 <=? m) then 1 else 0).

Definition months : list Z := [1; 2; 3; 4; 5; 6; 7; 8; 9; 10; 11].

Definition month_of_yday (leap : bool) (yd : Z) : Z :=
  Z.of_nat (length (List.filter (λ m, days_before_month leap m <=? yd) months)).

Lemma days_before_year_succ y :
  days_before_year (y + 1) = days_before_year y + (if is_leap y then 366 else 365).
Proof.
  unfold days_before_year, is_leap.
  destruct (Z.eqb_spec (y mod 4) 0), (Z.eqb_spec (y mod 100) 0), (Z.eqb_spec (y mod 400) 0);
    cbn [andb orb negb]; divlia.
Qed.

Lemma year_of_day_spec d :
  days_before_year (year_of_day d) <= d < days_before_year (year_of_day d + 1).
Proof.
  unfold year_of_day. set (y := 1970 + (400 * d) / 146097).
  assert (H1 : days_before_year (y - 1) <= d) by (unfold y, days_before_year; divlia).
  assert (H2 : d < days_before_year (y + 2)) by (unfold y, days_before_year; divlia).
  destruct (Z.ltb_spec d (days_before_year y)).
  - replace (y - 1 + 1) with y by lia. lia.
  - destruct (Z.leb_spec (days_before_year (y + 1)) d); [|lia].
    replace (y + 1 + 1) with (y + 2) by lia. lia.
Qed.

(** Facts about the twelve months, by enumeration. *)
Ltac each_month m :=
  let H := fresh in
  assert (H : m = 0 ∨ m = 1 ∨ m = 2 ∨ m = 3 ∨ m = 4 ∨ m = 5 ∨ m = 6 ∨ m = 7 ∨ m = 8
              ∨ m = 9 ∨ m = 10 ∨ m = 11) by lia;
  destruct_or! H; subst m.

Lemma days_before_month_succ leap m :
  0 <= m < 12 → 28 <= days_before_month leap (m + 1) - days_before_month leap m <= 31.
Proof. intros H. destruct leap; each_month m; vm_compute; split; discriminate. Qed.

Lemma days_before_month_last leap : days_before_month leap 12 = if leap then 366 else 365.
Proof. by destruct leap. Qed.

Lemma days_before_month_first leap : days_before_month leap 0 = 0.
Proof. by destruct leap. Qed.

Lemma month_of_yday_spec leap yd :
  0 <= yd < days_before_month leap 12 →
  let m := month_of_yday leap yd in
  0 <= m < 12 ∧ days_before_month leap m <= yd < days_before_month leap (m + 1).
Proof.
  rewrite days_before_month_last. unfold month_of_yday, months. intros H.
  destruct leap; cbn [List.filter];
    repeat match goal with
    | |- context [Z.leb ?a yd] => let v := eval vm_compute in a in change a with v;
                                  destruct (Z.leb_spec v yd); [|try (exfalso; lia)]
    end.
  all: cbn [length Z.of_nat Pos.of_succ_nat Pos.succ]; split; [lia|].
  all: match goal with |- days_before_month ?l ?a <= _ < days_before_month ?l ?b =>
         let x := eval vm_compute in (days_before_month l a) in
         let y := eval vm_compute in (days_before_month l b) in
         change (days_before_month l a) with x; change (days_before_month l b) with y end; lia.
Qed.

(** ** Month indices

    Months are numbered [12 * year + month], so month arithmetic is addition. *)

(** MakeDay of the first of a month, with the month overflow folded in. *)
Definition month_start (M : Z) : Z :=
  days_before_year (M / 12) + days_before_month (is_leap (M / 12)) (M mod 12).

Definition month_index (d : Z) : Z :=
  let y := year_of_day d in 12 * y + month_of_yday (is_leap y) (d - days_before_year y).

Definition day_of_month (d : Z) : Z := d - month_start (month_index d) + 1.

Definition days_in_month (M : Z) : Z := month_start (M + 1) - month_start M.

Definition weekday (d : Z) : Z := (d + 4) mod 7.

Lemma month_start_succ M : 28 <= days_in_month M <= 31.
Proof.
  unfold days_in_month, month_start. pose proof (Z.mod_pos_bound M 12 ltac:(lia)) as Hb.
  pose proof (days_before_month_succ (is_leap (M / 12)) (M mod 12) Hb) as Hs.
  destruct (Z.eq_dec (M mod 12) 11) as [E|E].
  - assert ((M + 1) / 12 = M / 12 + 1) as -> by divlia.
    assert ((M + 1) mod 12 = 0) as -> by divlia.
    rewrite days_before_month_first, days_before_year_succ.
    rewrite E in *. change (11 + 1) with 12 in Hs. rewrite days_before_month_last in Hs. lia.
  - assert ((M + 1) / 12 = M / 12) as -> by divlia.
    assert ((M + 1) mod 12 = M mod 12 + 1) as -> by divlia. lia.
Qed.

Lemma month_start_le M N : M <= N → month_start M + 28 * (N - M) <= month_start N.
Proof.
  intros H. replace N with (M + (N - M)) by lia.
  generalize (N - M) (Z.le_0_sub M N). intros k Hk.
  assert (0 <= k) as Hk' by lia. clear Hk. revert k Hk'.
  apply natlike_ind; [rewrite Z.add_0_r; lia|].
  intros k Hk IH. replace (M + Z.succ k) with (M + k + 1) by lia.
  pose proof (month_start_succ (M + k)) as Hs. unfold days_in_month in Hs. lia.
Qed.

Lemma month_start_mono M N : month_start M < month_start N → M < N.
Proof. intros H. destruct (Z.lt_ge_cases M N) as [|C]; [done|]. apply month_start_le in C. lia. Qed.

(** Every day lies in the month its index names. *)
Lemma month_index_spec d :
  month_start (month_index d) <= d < month_start (month_index d + 1).
Proof.
  unfold month_index. pose proof (year_of_day_spec d) as [H1 H2].
  rewrite days_before_year_succ in H2. set (y := year_of_day d) in *.
  destruct (month_of_yday_spec (is_leap y) (d - days_before_year y)) as (Hm & H3 & H4).
  { rewrite days_before_month_last. lia. }
  set (m := month_of_yday _ _) in *.
  assert (E : month_start (12 * y + m) = days_before_year y + days_before_month (is_leap y) m).
  { unfold month_start. replace ((12 * y + m) / 12) with y by divlia.
    replace ((12 * y + m) mod 12) with m by divlia. done. }
  rewrite E. split; [lia|].
  destruct (Z.eq_dec m 11) as [Em|Em].
  - unfold month_start. replace ((12 * y + m + 1) / 12) with (y + 1) by divlia.
    replace ((12 * y + m + 1) mod 12) with 0 by divlia.
    rewrite days_before_month_first, days_before_year_succ. lia.
  - unfold month_start. replace ((12 * y + m + 1) / 12) with y by divlia.
    replace ((12 * y + m + 1) mod 12) with (m + 1) by divlia. lia.
Qed.

Lemma month_index_unique d M : month_start M <= d < month_start (M + 1) → month_index d = M.
Proof.
  intros H. pose proof (month_index_spec d) as H'.
  assert (M < month_index d + 1) by (apply month_start_mono; lia).
  assert (month_index d < M + 1) by (apply month_start_mono; lia). lia.
Qed.

Lemma day_of_month_range d : 1 <= day_of_month d <= days_in_month (month_index d).
Proof. unfold day_of_month, days_in_month. pose proof (month_index_spec d). lia. Qed.

Lemma month_index_start M k : 0 <= k < days_in_month M → month_index (month_start M + k) = M.
Proof. intros H. apply month_index_unique. unfold days_in_month in H. lia. Qed.

Lemma day_of_month_start M k : 0 <= k < days_in_month M → day_of_month (month_start M + k) = k + 1.
Proof. intros H. unfold day_of_month. rewrite month_index_start by done. lia. Qed.

(** ** Time values *)

Definition msPerSecond : Z := 1000.
Definition msPerMinute : Z := 60000.
Definition msPerHour : Z := 3600000.
Definition msPerDay : Z := 86400000.

(** Components of a local time value. *)
Definition Day (t : Z) : Z := t / msPerDay.
Definition TimeInDay (t : Z) : Z := t mod msPerDay.
Definition HourFromTime (t : Z) : Z := TimeInDay t / msPerHour.
Definition MinFromTime (t : Z) : Z := TimeInDay t mod msPerHour / msPerMinute.
Definition SecFromTime (t : Z) : Z := TimeInDay t mod msPerMinute / msPerSecond.
Definition MsFromTime (t : Z) : Z := TimeInDay t mod msPerSecond.

Definition MakeTime (h m s ms : Z) : Z := h * msPerHour + m * msPerMinute + s * msPerSecond + ms.
Definition MakeDay (year month date : Z) : Z := month_start (12 * year + month) + date - 1.
Definition MakeDate (day time : Z) : Z := day * msPerDay + time.

(** The two-digit years of the [Date] constructor. *)
Definition MakeFullYear (y : Z) : Z := if (0 <=? y) && (y <=? 99) then 1900 + y else y.

(** The browser's zone: local time of an instant, and the instant a local time
    denotes (the language's choice when there is none or more than one). *)
Class Zone := { to_local : Z → Z; to_utc : Z → Z }.

(** A zone without transitions. *)
Class FixedZone `(Zone) (offset : Z) : Prop := {
  to_local_fixed t : to_local t = t + offset;
  to_utc_fixed t : to_utc t = t - offset }.

Definition fixed_zone (offset : Z) : Zone :=
  {| to_local t := t + offset; to_utc t := t - offset |}.

#[export] Instance fixed_zone_spec offset : FixedZone (fixed_zone offset) offset.
Proof. by split. Qed.

(** A zone given as an initial offset and the instants where it changes, as the
    zone database has it. *)
Section table.
Context (base : Z) (transitions : list (Z * Z)).

Definition offset_at (t : Z) : Z :=
  fold_left (λ o tr, if tr.1 <=? t then tr.2 else o) transitions base.

(** Instants showing local time [tl]. *)
Definition possible_instants (tl : Z) : list Z :=
  List.filter (λ t, t + offset_at t =? tl)
    (sort_num (dedup (map (λ o, tl - o) (base :: map snd transitions)))).

(** In a gap, the offset before the transition applies. *)
Definition offset_before_gap (tl : Z) : Z :=
  snd (fold_left (λ '(cur, o) tr, (tr.2, if tr.1 + cur <=? tl then cur else o)) transitions (base, base)).

Definition table_zone : Zone := {|
  to_local t := t + offset_at t;
  to_utc tl := match possible_instants tl with t :: _ => t | [] => tl - offset_before_gap tl end |}.
End table.

Section date.
Context {zone : Zone}.

(** [new Date(year, month, date, h, m, s, ms)]. *)
Definition new_Date (year month date h m s ms : Z) : Z :=
  to_utc (MakeDate (MakeDay (MakeFullYear year) month date) (MakeTime h m s ms)).

Definition getFullYear (t : Z) : Z := month_index (Day (to_local t)) / 12.
Definition getMonth (t : Z) : Z := month_index (Day (to_local t)) mod 12.
Definition getDate (t : Z) : Z := day_of_month (Day (to_local t)).
Definition getDay (t : Z) : Z := weekday (Day (to_local t)).
Definition getHours (t : Z) : Z := HourFromTime (to_local t).
Definition getMinutes (t : Z) : Z := MinFromTime (to_local t).

(** The setters return the new time value. *)
Definition setSeconds (t s ms : Z) : Z :=
  let l := to_local t in
  to_utc (MakeDate (Day l) (MakeTime (HourFromTime l) (MinFromTime l) s ms)).

Definition setMinutes (t m : Z) : Z :=
  let l := to_local t in
  to_utc (MakeDate (Day l) (MakeTime (HourFromTime l) m (SecFromTime l) (MsFromTime l))).

Definition setHours1 (t h : Z) : Z :=
  let l := to_local t in
  to_utc (MakeDate (Day l) (MakeTime h (MinFromTime l) (SecFromTime l) (MsFromTime l))).

Definition setHours2 (t h m : Z) : Z :=
  let l := to_local t in
  to_utc (MakeDate (Day l) (MakeTime h m (SecFromTime l) (MsFromTime l))).

Definition setDate (t date : Z) : Z :=
  let l := to_local t in
  to_utc (MakeDate (month_start (month_index (Day l)) + date - 1) (TimeInDay l)).
End date.

(** *** In a fixed zone the setters act on the local components *)
Section fixed.
Context {zone : Zone} {offset : Z} {HF : FixedZone zone offset}.

Lemma local_utc t : to_local (to_utc t) = t.
Proof. rewrite (to_local_fixed (offset := offset)), (to_utc_fixed (offset := offset)). lia. Qed.

Lemma utc_local t : to_utc (to_local t) = t.
Proof. rewrite (to_utc_fixed (offset := offset)), (to_local_fixed (offset := offset)). lia. Qed.

Lemma utc_lt a b : to_utc a < to_utc b ↔ a < b.
Proof. rewrite !(to_utc_fixed (offset := offset)). lia. Qed.

Lemma local_lt a b : to_local a < to_local b ↔ a < b.
Proof. rewrite !(to_local_fixed (offset := offset)). lia. Qed.
End fixed.

Lemma Day_MakeDate d t : 0 <= t < msPerDay → Day (MakeDate d t) = d.
Proof. unfold Day, MakeDate, msPerDay. intros. divlia. Qed.

Lemma TimeInDay_MakeDate d t : 0 <= t < msPerDay → TimeInDay (MakeDate d t) = t.
Proof. unfold TimeInDay, MakeDate, msPerDay. intros. divlia. Qed.

Lemma MakeDate_Day t : MakeDate (Day t) (TimeInDay t) = t.
Proof. unfold MakeDate, Day, TimeInDay, msPerDay. divlia. Qed.

Lemma TimeInDay_range t : 0 <= TimeInDay t < msPerDay.
Proof. apply Z.mod_pos_bound. done. Qed.

Lemma MakeDate_lt d1 t1 d2 t2 :
  0 <= t1 < msPerDay → 0 <= t2 < msPerDay →
  MakeDate d1 t1 < MakeDate d2 t2 ↔ d1 < d2 ∨ (d1 = d2 ∧ t1 < t2).
Proof. unfold MakeDate, msPerDay. intros. nia. Qed.

Lemma MakeTime_range h m : 0 <= h < 24 → 0 <= m < 60 → 0 <= MakeTime h m 0 0 < msPerDay.
Proof. unfold MakeTime, msPerDay, msPerHour, msPerMinute. lia. Qed.
