(* ===== verification/NextRun.v ===== *)
(** * When a schedule fires next (web/src/lib/format.ts)

    [nextRunOf] on the naive calendar of the server's wall clock, and its
    specification: the earliest local time after now that the schedule names. *)
From Stdlib Require Import QArith.
From S2P Require Import Prelude JsString JsNumber JsValue Schedule Calendar.
#[local] Open Scope Z_scope.

(** A [Date] object: an instant, or Invalid Date. *)
Inductive Date := Invalid | At (t : Z).

(** ** Clock times *)

(** [Math.max(0, Math.min(max, n))] of a finite number, [0] otherwise. *)
Definition clampPart (max : Z) (n : num) : num :=
  if is_finite n then clamp_num (inject_Z 0) (inject_Z max) n else of_Z 0.

(** [Number(part)] of an element of a [split], which may be missing. *)
Definition part_num (parts : list jsstr) (i : nat) : num :=
  match nth_error parts i with Some p => num_of_str p | None => NaN end.

Definition timeParts (time : jsstr) : num * num :=
  let parts := split_on 58 time in
  (clampPart 23 (part_num parts 0), clampPart 59 (part_num parts 1)).

Definition padTime (hour minute : num) : jsstr :=
  cat [pad_start 2 48 (str_of_num hour); u ":"; pad_start 2 48 (str_of_num minute)].

(** ToIntegerOrInfinity of a finite number, as the date functions apply it. *)
Definition trunc_num (n : num) : Z := match n with Fin q => qtrunc q | _ => 0 end.

(** [n % 24]. *)
Definition nrem (n : num) (k : Z) : num :=
  match n with
  | Fin q => rnd (Qminus q (Qmult (inject_Z k) (inject_Z (qtrunc (Qdiv q (inject_Z k))))))
  | _ => NaN
  end.

Section nextRun.
Context {zone : Zone}.
(** [Intl.DateTimeFormat('en-GB', {timeZone, ...}).formatToParts(now)]: the
    typed parts of the instant in the named zone; [None] when it throws. *)
Context (formatToParts : jsstr → Z → option (list (jsstr * jsstr))).

(** [Number(parts.find((part) => part.type === type)?.value ?? NaN)]. *)
Definition part_of (parts : list (jsstr * jsstr)) (type : String.string) : num :=
  match List.find (λ p, str_eqb p.1 (u type)) parts with
  | Some p => num_of_str p.2
  | None => NaN
  end.

Definition serverNow (timezone : option jsstr) (now : Z) : Date :=
  match timezone with
  | None => At now
  | Some tz =>
      if str_eqb tz [] then At now else
      match formatToParts tz now with
      | None => At now
      | Some parts =>
          let year := part_of parts "year" in
          let month := part_of parts "month" in
          let day := part_of parts "day" in
          let hour := nrem (part_of parts "hour") 24 in
          if negb (is_finite year) || negb (is_finite month) || negb (is_finite day) then At now
          else if is_finite hour && is_finite (part_of parts "minute") && is_finite (part_of parts "second") then
            At (new_Date (trunc_num year) (trunc_num (nsub month (of_Z 1))) (trunc_num day)
                  (trunc_num hour) (trunc_num (part_of parts "minute")) (trunc_num (part_of parts "second")) 0)
          else Invalid
      end
  end.

Definition lastDayOfMonth (year month : Z) : Z := getDate (new_Date year (month + 1) 0 0 0 0 0).

Definition hourlyRun (minute now : Z) : Z :=
  let next := setSeconds now 0 0 in
  let next := setMinutes next minute in
  if next <=? now then setHours1 next (getHours next + 1) else next.

Definition dailyRun (hour minute now : Z) : Z :=
  let next := setSeconds now 0 0 in
  let next := setHours2 next hour minute in
  if next <=? now then setDate next (getDate next + 1) else next.

Definition weeklyCandidate (hour minute now offset : Z) : Z :=
  let candidate := setSeconds now 0 0 in
  let candidate := setDate candidate (getDate candidate + offset) in
  setHours2 candidate hour minute.

Definition weeklyRun (weekdays : list Z) (hour minute now : Z) : option Z :=
  List.find (λ candidate, bool_decide (getDay candidate ∈ weekdays) && (now <? candidate))
    (map (weeklyCandidate hour minute now) (seqZ 0 8)).

Definition monthlyCandidate (dayOfMonth hour minute now offset : Z) : Z :=
  let probe := new_Date (getFullYear now) (getMonth now + offset) 1 0 0 0 0 in
  let last := lastDayOfMonth (getFullYear probe) (getMonth probe) in
  let day := Z.min dayOfMonth last in
  new_Date (getFullYear probe) (getMonth probe) day hour minute 0 0.

Definition monthlyRun (dayOfMonth hour minute now : Z) : option Z :=
  List.find (λ candidate, now <? candidate)
    (map (monthlyCandidate dayOfMonth hour minute now) (seqZ 0 14)).

(** The switch of [nextRunOf] on a valid clock. *)
Definition nextRunFrom (schedule : Schedule) (now : Z) : option Z :=
  match schedule with
  | ManualSchedule | AdvancedSchedule _ => None
  | HourlySchedule minute => Some (hourlyRun minute now)
  | DailySchedule time =>
      let '(hour, minute) := timeParts time in
      Some (dailyRun (trunc_num hour) (trunc_num minute) now)
  | WeeklySchedule time weekdays =>
      if decide (weekdays = []) then None else
      let '(hour, minute) := timeParts time in
      weeklyRun weekdays (trunc_num hour) (trunc_num minute) now
  | MonthlySchedule time dayOfMonth =>
      let '(hour, minute) := timeParts time in
      monthlyRun dayOfMonth (trunc_num hour) (trunc_num minute) now
  end.

(** [null] is [None].  On an Invalid clock the setters stay invalid and every
    comparison of the two searches is false. *)
Definition nextRunOf (schedule : Schedule) (timezone : option jsstr) (now : Z) : option Date :=
  match serverNow timezone now with
  | At now => At <$> nextRunFrom schedule now
  | Invalid =>
      match schedule with
      | HourlySchedule _ | DailySchedule _ => Some Invalid
      | _ => None
      end
  end.
End nextRun.

(** ** Clock times in normal form *)

Lemma Qle_bool_Z a b : Qle_bool (inject_Z a) (inject_Z b) = (a <=? b).
Proof. unfold Qle_bool. cbn [inject_Z Qnum Qden]. by rewrite !Z.mul_1_r. Qed.

Lemma clamp_num_Z lo hi z :
  lo <= z <= hi → clamp_num (inject_Z lo) (inject_Z hi) (of_Z z) = of_Z z.
Proof.
  intros H. unfold clamp_num, of_Z, nmin, nmax, nle. rewrite Qle_bool_Z.
  destruct (Z.leb_spec hi z).
  - assert (z = hi) as -> by lia. rewrite Qle_bool_Z. destruct (Z.leb_spec lo hi); [done|lia].
  - rewrite Qle_bool_Z. destruct (Z.leb_spec lo z); [done|lia].
Qed.

Lemma clampPart_Z max z : 0 <= z <= max → clampPart max (of_Z z) = of_Z z.
Proof. intros. unfold clampPart. simpl. by apply clamp_num_Z. Qed.

Lemma trunc_num_Z z : trunc_num (of_Z z) = z.
Proof. apply qtrunc_Z. Qed.

Lemma str_of_num_Z z : Z.abs z <= 2 ^ 53 → str_of_num (of_Z z) = str_of_Z z.
Proof.
  intros H. unfold str_of_num, of_Z. cbn [inject_Z Qnum Qden].
  destruct (Z.leb_spec (Z.abs z) (2 ^ 53)); [done|lia].
Qed.

(** The two-digit numerals. *)
Lemma two_digits n : (n < 100)%N →
  pad_start 2 48 (digits n) = [48 + n / 10; 48 + n mod 10]%N.
Proof.
  intros H.
  assert (Hall : forallb (λ k, str_eqb (pad_start 2 48 (digits (N.of_nat k)))
      [48 + N.of_nat k / 10; 48 + N.of_nat k mod 10]%N) (List.seq 0 100) = true) by (vm_compute; done).
  rewrite forallb_forall in Hall. specialize (Hall (N.to_nat n)).
  rewrite N2Nat.id in Hall. unfold str_eqb in Hall.
  apply bool_decide_eq_true in Hall; [done|]. apply in_seq. lia.
Qed.

Lemma pad2_Z z : 0 <= z < 100 →
  pad_start 2 48 (str_of_num (of_Z z)) = [48 + Z.to_N z / 10; 48 + Z.to_N z mod 10]%N.
Proof.
  intros H. rewrite str_of_num_Z by lia. unfold str_of_Z.
  destruct (Z.ltb_spec z 0); [lia|]. apply two_digits. lia.
Qed.

Lemma part_two_digits (a b : N) : (a < 10)%N → (b < 10)%N →
  num_of_str [48 + a; 48 + b]%N = of_Z (Z.of_N (10 * a + b)).
Proof.
  intros Ha Hb. assert (Hv : dec_val [48 + a; 48 + b]%N = (10 * a + b)%N).
  { unfold dec_val, dec_step. cbn [fold_left]. lia. }
  rewrite num_of_str_digits; rewrite ?Hv; [done| |done|lia].
  unfold all_digits. cbn [forallb]. by rewrite !is_digit_add.
Qed.

(** A well-formed clock time names an hour and a minute, and is how they print. *)
Lemma HHMM_split s : HHMM s = true →
  ∃ h m, 0 <= h < 24 ∧ 0 <= m < 60
    ∧ part_num (split_on 58 s) 0 = of_Z h ∧ part_num (split_on 58 s) 1 = of_Z m
    ∧ s = padTime (of_Z h) (of_Z m).
Proof.
  destruct s as [|a [|b [|c [|d [|e [|]]]]]]; try done. unfold HHMM, is_digit.
  intros H. rewrite !andb_true_iff, orb_true_iff, !andb_true_iff, orb_true_iff in H.
  rewrite !N.leb_le, !N.eqb_eq in H. destruct H as [[[Hh ->] Hm] He].
  set (h := Z.of_N (10 * (a - 48) + (b - 48))). set (m := Z.of_N (10 * (d - 48) + (e - 48))).
  assert (0 <= h < 24 ∧ 0 <= m < 60) as [Hhr Hmr] by lia.
  assert (Ea : [a; b] = [48 + (a - 48); 48 + (b - 48)]%N) by (repeat f_equal; lia).
  assert (Ed : [d; e] = [48 + (d - 48); 48 + (e - 48)]%N) by (repeat f_equal; lia).
  assert (Hsplit : part_num (split_on 58 [a; b; 58%N; d; e]) 0 = of_Z h
    ∧ part_num (split_on 58 [a; b; 58%N; d; e]) 1 = of_Z m).
  { unfold part_num. cbn [split_on].
    replace (58 =? a)%N with false by (symmetry; apply N.eqb_neq; lia).
    replace (58 =? b)%N with false by (symmetry; apply N.eqb_neq; lia).
    replace (58 =? d)%N with false by (symmetry; apply N.eqb_neq; lia).
    replace (58 =? e)%N with false by (symmetry; apply N.eqb_neq; lia).
    rewrite N.eqb_refl. cbn [nth_error]. by rewrite Ea, Ed, !part_two_digits by lia. }
  exists h, m. split_and!; try lia.
  - apply Hsplit.
  - apply Hsplit.
  - unfold padTime. rewrite !pad2_Z by lia. change (u ":") with [58%N]. cbn [cat concat app].
    subst h m. rewrite !N2Z.id.
    assert (∀ x y, 48 <= x <= 57 → 48 <= y <= 57 →
      48 + (10 * (x - 48) + (y - 48)) / 10 = x ∧ 48 + (10 * (x - 48) + (y - 48)) mod 10 = y)%N as E
      by (intros; divlia).
    destruct (E a b) as [-> ->]; [lia..|]. by destruct (E d e) as [-> ->]; [lia..|].
Qed.

Lemma HHMM_parts s : HHMM s = true →
  ∃ h m, 0 <= h < 24 ∧ 0 <= m < 60 ∧ timeParts s = (of_Z h, of_Z m) ∧ s = padTime (of_Z h) (of_Z m).
Proof.
  intros (h & m & Hh & Hm & E1 & E2 & E)%HHMM_split. exists h, m. split_and!; try lia; [|done].
  unfold timeParts. by rewrite E1, E2, !clampPart_Z by lia.
Qed.

Lemma padTime_HHMM h m : 0 <= h < 24 → 0 <= m < 60 → HHMM (padTime (of_Z h) (of_Z m)) = true.
Proof.
  intros Hh Hm. unfold padTime. rewrite !pad2_Z by lia. change (u ":") with [58%N].
  cbn [cat concat app]. unfold HHMM, is_digit.
  rewrite !andb_true_iff, orb_true_iff, !andb_true_iff, orb_true_iff, !N.leb_le, !N.eqb_eq.
  divlia.
Qed.

(** ** What a schedule means

    [fires s l]: the schedule [s] names the local wall-clock time [l]
    (milliseconds).  A month without the chosen day fires on its last day, as
    the editor tells the operator. *)
Definition clock_ms (time : jsstr) : Z :=
  let '(h, m) := timeParts time in MakeTime (trunc_num h) (trunc_num m) 0 0.

Definition on_day (s : Schedule) (d : Z) : Prop :=
  match s with
  | WeeklySchedule _ weekdays => weekday d ∈ weekdays
  | MonthlySchedule _ dayOfMonth =>
      day_of_month d = Z.min dayOfMonth (days_in_month (month_index d))
  | _ => True
  end.

Definition fires (s : Schedule) (l : Z) : Prop :=
  match s with
  | ManualSchedule | AdvancedSchedule _ => False
  | HourlySchedule minute => l mod msPerHour = minute * msPerMinute
  | DailySchedule time | WeeklySchedule time _ | MonthlySchedule time _ =>
      TimeInDay l = clock_ms time ∧ on_day s (Day l)
  end.

(** [r] is the first time after [l] with property [P]. *)
Definition earliest_after (P : Z → Prop) (l r : Z) : Prop :=
  l < r ∧ P r ∧ ∀ x, l < x < r → ¬ P x.

(** Daily-clock schedules: it is enough to look at the days in order. *)
Lemma earliest_day (Q : Z → Prop) T l d :
  0 <= T < msPerDay → l < MakeDate d T → Q d →
  (∀ d', Day l <= d' < d → Q d' → MakeDate d' T <= l) →
  earliest_after (λ x, TimeInDay x = T ∧ Q (Day x)) l (MakeDate d T).
Proof.
  intros HT Hl HQ Hmin. split; [done|]. split.
  - by rewrite TimeInDay_MakeDate, Day_MakeDate.
  - intros x [Hx1 Hx2] [Ht HQx]. rewrite <- (MakeDate_Day x), Ht in Hx1, Hx2.
    assert (Hd : Day x < d) by (apply MakeDate_lt in Hx2; lia).
    assert (Hl' : Day l <= Day x).
    { rewrite <- (MakeDate_Day l) in Hx1. pose proof (TimeInDay_range l).
      apply MakeDate_lt in Hx1; lia. }
    specialize (Hmin (Day x) ltac:(lia) HQx). lia.
Qed.

Lemma find_seqZ {A} (f : A → bool) (g : Z → A) n k :
  0 <= k < n → f (g k) = true →
  ∃ j, List.find f (map g (seqZ 0 n)) = Some (g j) ∧ 0 <= j <= k ∧ f (g j) = true
       ∧ ∀ i, 0 <= i < j → f (g i) = false.
Proof.
  intros Hk Hf. revert k Hk Hf.
  assert (H : ∀ m k, 0 <= k < n - m → f (g (m + k)) = true →
    ∃ j, List.find f (map g (seqZ m (n - m))) = Some (g j) ∧ m <= j <= m + k ∧ f (g j) = true
         ∧ ∀ i, m <= i < j → f (g i) = false).
  2: { intros k Hk Hf. specialize (H 0 k). rewrite !Z.sub_0_r, !Z.add_0_l in H. auto. }
  intros m k [Hk0 Hk]. revert m Hk. pattern k. apply natlike_ind; [| |done].
  - intros m Hm Hf. rewrite Z.add_0_r in Hf. rewrite seqZ_cons by lia. cbn [map List.find].
    rewrite Hf. exists m. split_and!; try done; intros; lia.
  - clear k Hk0. intros k Hk IH m Hm Hf. rewrite seqZ_cons by lia. cbn [map List.find].
    destruct (f (g m)) eqn:E.
    + exists m. split_and!; try done; intros; lia.
    + replace (Z.pred (n - m)) with (n - Z.succ m) by lia.
      destruct (IH (Z.succ m)) as (j & Hj & Hr & Hfj & Hmin); [lia| |].
      { replace (Z.succ m + k) with (m + Z.succ k) by lia. done. }
      exists j. split_and!; try done; try lia.
      intros i Hi. destruct (Z.eq_dec i m) as [->|]; [done|]. apply Hmin. lia.
Qed.

Section fixed.
Context {zone : Zone} {offset : Z} {HF : FixedZone zone offset}.

Lemma local_setSeconds t : to_local (setSeconds t 0 0)
  = MakeDate (Day (to_local t)) (MakeTime (HourFromTime (to_local t)) (MinFromTime (to_local t)) 0 0).
Proof. apply local_utc. Qed.

Lemma hms_range l : 0 <= HourFromTime l < 24 ∧ 0 <= MinFromTime l < 60.
Proof.
  unfold HourFromTime, MinFromTime, msPerHour, msPerMinute. pose proof (TimeInDay_range l) as H.
  unfold msPerDay in H. divlia.
Qed.

Lemma zeroed_local t : ∃ hm, to_local (setSeconds t 0 0) = MakeDate (Day (to_local t)) hm
  ∧ 0 <= hm < msPerDay ∧ hm = MakeTime (HourFromTime (to_local t)) (MinFromTime (to_local t)) 0 0.
Proof.
  eexists. split_and!; [apply local_setSeconds| | |reflexivity];
    apply MakeTime_range; apply hms_range.
Qed.

Lemma sec_ms_zero d h m : 0 <= h < 24 → 0 <= m < 60 →
  let l := MakeDate d (MakeTime h m 0 0) in
  HourFromTime l = h ∧ MinFromTime l = m ∧ SecFromTime l = 0 ∧ MsFromTime l = 0.
Proof.
  intros Hh Hm. cbv zeta. unfold HourFromTime, MinFromTime, SecFromTime, MsFromTime.
  rewrite TimeInDay_MakeDate by (by apply MakeTime_range).
  unfold MakeTime, msPerHour, msPerMinute, msPerSecond. divlia.
Qed.

Lemma local_setHours2_zeroed t h m :
  to_local (setHours2 (setSeconds t 0 0) h m) = MakeDate (Day (to_local t)) (MakeTime h m 0 0).
Proof.
  unfold setHours2. rewrite local_utc, local_setSeconds.
  destruct (hms_range (to_local t)) as [Hh Hm].
  destruct (sec_ms_zero (Day (to_local t)) _ _ Hh Hm) as (_ & _ & -> & ->).
  rewrite Day_MakeDate by (by apply MakeTime_range). done.
Qed.

Lemma local_setDate_shift t k :
  to_local (setDate t (getDate t + k)) = MakeDate (Day (to_local t) + k) (TimeInDay (to_local t)).
Proof.
  unfold setDate, getDate. rewrite local_utc. f_equal. unfold day_of_month. lia.
Qed.

(** *** Hourly *)
Lemma hourlyRun_spec minute now :
  0 <= minute < 60 →
  earliest_after (fires (HourlySchedule minute)) (to_local now) (to_local (hourlyRun minute now)).
Proof.
  intros Hm. unfold hourlyRun. set (l := to_local now).
  destruct (hms_range l) as [Hh Hmi].
  assert (E : to_local (setMinutes (setSeconds now 0 0) minute)
              = MakeDate (Day l) (MakeTime (HourFromTime l) minute 0 0)).
  { unfold setMinutes. rewrite local_utc, local_setSeconds. fold l.
    destruct (sec_ms_zero (Day l) _ _ Hh Hmi) as (-> & _ & -> & ->).
    by rewrite Day_MakeDate by (by apply MakeTime_range). }
  set (n := setMinutes (setSeconds now 0 0) minute) in *.
  assert (Hl : to_local now = l) by done. unfold earliest_after, fires.
  pose proof (MakeDate_Day l) as Hd. pose proof (TimeInDay_range l) as Hr.
  assert (Hcmp : (n <=? now) = (to_local n <=? l)).
  { subst l. rewrite !(to_local_fixed (offset := offset)). apply eq_bool_prop_intro.
    rewrite !Is_true_true, !Z.leb_le. lia. }
  rewrite Hcmp, E. unfold HourFromTime in *. set (T := TimeInDay l) in *.
  unfold MakeDate, MakeTime, msPerDay, msPerHour, msPerMinute, msPerSecond in *.
  destruct (Z.leb_spec (Day l * 86400000 + (T / 3600000 * 3600000 + minute * 60000 + 0 * 1000 + 0)) l) as [C|C].
  - assert (E2 : to_local (setHours1 n (getHours n + 1))
        = Day l * 86400000 + ((T / 3600000 + 1) * 3600000 + minute * 60000)).
    { unfold setHours1, getHours. rewrite local_utc, E.
      change (Day l * 86400000 + (T / 3600000 * 3600000 + minute * 60000 + 0 * 1000 + 0))
        with (MakeDate (Day l) (MakeTime (T / 3600000) minute 0 0)).
      destruct (sec_ms_zero (Day l) (T / 3600000) minute) as (-> & -> & -> & ->); [lia|lia|].
      rewrite Day_MakeDate by (apply MakeTime_range; lia).
      unfold MakeDate, MakeTime, msPerDay, msPerHour, msPerMinute, msPerSecond. lia. }
    rewrite E2. split_and!; [|divlia|intros x Hx Hf]; divlia.
  - rewrite E. split_and!; [lia|divlia|intros x Hx Hf]; divlia.
Qed.

Lemma local_le a b : (a <=? b) = (to_local a <=? to_local b).
Proof.
  rewrite !(to_local_fixed (offset := offset)).
  destruct (Z.leb_spec a b), (Z.leb_spec (a + offset) (b + offset)); lia.
Qed.

Lemma local_ltb a b : (a <? b) = (to_local a <? to_local b).
Proof. rewrite !Z.ltb_antisym. by rewrite local_le. Qed.

(** *** Daily *)
Lemma dailyRun_spec h m now :
  0 <= h < 24 → 0 <= m < 60 →
  earliest_after (λ x, TimeInDay x = MakeTime h m 0 0 ∧ True) (to_local now)
    (to_local (dailyRun h m now)).
Proof.
  intros Hh Hm. unfold dailyRun. set (n := setHours2 (setSeconds now 0 0) h m).
  assert (E : to_local n = MakeDate (Day (to_local now)) (MakeTime h m 0 0))
    by apply local_setHours2_zeroed.
  pose proof (MakeTime_range _ _ Hh Hm) as HT. rewrite local_le.
  destruct (Z.leb_spec (to_local n) (to_local now)) as [C|C].
  - rewrite local_setDate_shift, E, Day_MakeDate, TimeInDay_MakeDate by done.
    apply (earliest_day (λ _, True)); [done| |done|].
    + rewrite <- (MakeDate_Day (to_local now)) at 1.
      apply MakeDate_lt; [apply TimeInDay_range|done|lia].
    + intros d Hd _. replace d with (Day (to_local now)) by lia. by rewrite <- E.
  - rewrite E in *. apply (earliest_day (λ _, True)); [done|done|done|]. intros; lia.
Qed.

(** *** Weekly *)
Lemma local_weeklyCandidate h m now k :
  0 <= h < 24 → 0 <= m < 60 →
  to_local (weeklyCandidate h m now k) = MakeDate (Day (to_local now) + k) (MakeTime h m 0 0).
Proof.
  intros Hh Hm. unfold weeklyCandidate. destruct (zeroed_local now) as (hm & E & Hr & Ehm).
  set (z := setSeconds now 0 0) in *. set (c := setDate z (getDate z + k)).
  assert (Ec : to_local c = MakeDate (Day (to_local now) + k) hm).
  { unfold c. rewrite local_setDate_shift, E. by rewrite Day_MakeDate, TimeInDay_MakeDate. }
  unfold setHours2. rewrite local_utc, Ec, Ehm.
  destruct (hms_range (to_local now)) as [H1 H2].
  destruct (sec_ms_zero (Day (to_local now) + k) _ _ H1 H2) as (_ & _ & -> & ->).
  by rewrite Day_MakeDate by (by apply MakeTime_range).
Qed.

Lemma weekday_shift d w : 0 <= w <= 6 → ∃ k, 1 <= k <= 7 ∧ weekday (d + k) = w.
Proof.
  intros H. exists (1 + (w - weekday (d + 1)) mod 7). unfold weekday.
  pose proof (Z.mod_pos_bound (w - (d + 1 + 4) mod 7) 7 ltac:(lia)).
  split; [lia|]. divlia.
Qed.

Lemma weeklyRun_spec days h m now :
  days ≠ [] → Forall (λ d, 0 <= d <= 6) days → 0 <= h < 24 → 0 <= m < 60 →
  ∃ t, weeklyRun days h m now = Some t
    ∧ earliest_after (λ x, TimeInDay x = MakeTime h m 0 0 ∧ weekday (Day x) ∈ days)
        (to_local now) (to_local t).
Proof.
  intros Hne Hdays Hh Hm. pose proof (MakeTime_range _ _ Hh Hm) as HT.
  set (T := MakeTime h m 0 0) in *. set (D := Day (to_local now)).
  assert (Hc : ∀ k, to_local (weeklyCandidate h m now k) = MakeDate (D + k) T)
    by (intros; by apply local_weeklyCandidate).
  set (f := λ c, bool_decide (getDay c ∈ days) && (now <? c)).
  assert (Hf : ∀ k, f (weeklyCandidate h m now k) = true ↔
            weekday (D + k) ∈ days ∧ to_local now < MakeDate (D + k) T).
  { intros k. unfold f, getDay. rewrite local_ltb, Hc, Day_MakeDate by done.
    rewrite andb_true_iff, bool_decide_eq_true, Z.ltb_lt. done. }
  destruct days as [|w days']; [done|]. set (days := w :: days') in *.
  destruct (weekday_shift D w) as (k & Hk & Hw); [by inversion Hdays|].
  destruct (find_seqZ f (weeklyCandidate h m now) 8 k) as (j & Hj & Hr & Hfj & Hmin); [lia| |].
  { apply Hf. rewrite Hw. split; [set_solver|].
    rewrite <- (MakeDate_Day (to_local now)). apply MakeDate_lt; [apply TimeInDay_range|done|].
    fold D. lia. }
  exists (weeklyCandidate h m now j). split; [exact Hj|]. rewrite Hc.
  apply Hf in Hfj as [Hwd Hlt].
  apply (earliest_day (λ d, weekday d ∈ days)); [done|done|done|].
  fold D. intros d' Hd' Hq. specialize (Hmin (d' - D) ltac:(lia)).
  apply not_true_iff_false in Hmin. rewrite Hf in Hmin.
  replace (D + (d' - D)) with d' in Hmin by lia.
  destruct (Z.le_gt_cases (MakeDate d' T) (to_local now)); [done|]. exfalso. apply Hmin. split; [done|lia].
Qed.

(** *** Monthly *)
Lemma MakeFullYear_id y : 100 <= y → MakeFullYear y = y.
Proof. intros H. unfold MakeFullYear. destruct (Z.leb_spec y 99); [lia|]. by rewrite andb_false_r. Qed.

Lemma local_new_Date y mo d h m : 100 <= y →
  to_local (new_Date y mo d h m 0 0) = MakeDate (month_start (12 * y + mo) + d - 1) (MakeTime h m 0 0).
Proof. intros Hy. unfold new_Date. rewrite local_utc, MakeFullYear_id by done. done. Qed.

Lemma year_month_index t : 12 * getFullYear t + getMonth t = month_index (Day (to_local t)).
Proof. unfold getFullYear, getMonth. divlia. Qed.

(** The candidate of month [M]. *)
Definition month_fire (dom T M : Z) : Z := MakeDate (month_start M + Z.min dom (days_in_month M) - 1) T.

Lemma month_fire_eq dom T M : month_fire dom T M = MakeDate (month_start M + Z.min dom (days_in_month M) - 1) T.
Proof. reflexivity. Qed.

Lemma lastDayOfMonth_spec y mo : 100 <= y → lastDayOfMonth y mo = days_in_month (12 * y + mo).
Proof.
  intros Hy. unfold lastDayOfMonth, getDate. rewrite local_new_Date by done.
  rewrite Day_MakeDate by (apply MakeTime_range; lia).
  set (M := 12 * y + mo). replace (12 * y + (mo + 1)) with (M + 1) by lia.
  pose proof (month_start_succ M) as Hs.
  replace (month_start (M + 1) + 0 - 1) with (month_start M + (days_in_month M - 1))
    by (unfold days_in_month; lia).
  rewrite day_of_month_start by lia. lia.
Qed.

Lemma local_monthlyCandidate dom h m now k :
  1200 <= month_index (Day (to_local now)) → 0 <= k →
  to_local (monthlyCandidate dom h m now k)
  = month_fire dom (MakeTime h m 0 0) (month_index (Day (to_local now)) + k).
Proof.
  intros HM Hk. unfold monthlyCandidate.
  pose proof (year_month_index now) as Hym. set (M0 := month_index (Day (to_local now))) in *.
  assert (Hy : 100 <= getFullYear now) by (unfold getFullYear; fold M0; divlia).
  set (probe := new_Date (getFullYear now) (getMonth now + k) 1 0 0 0 0).
  assert (Hp : month_index (Day (to_local probe)) = M0 + k).
  { unfold probe. rewrite local_new_Date, Day_MakeDate by (done || apply MakeTime_range; lia).
    replace (12 * getFullYear now + (getMonth now + k)) with (M0 + k) by lia.
    pose proof (month_start_succ (M0 + k)).
    replace (month_start (M0 + k) + 1 - 1) with (month_start (M0 + k) + 0) by lia.
    apply month_index_start. lia. }
  pose proof (year_month_index probe) as Hym'. rewrite Hp in Hym'.
  assert (Hy' : 100 <= getFullYear probe) by (unfold getFullYear; rewrite Hp; divlia).
  rewrite local_new_Date, lastDayOfMonth_spec, Hym' by done.
  unfold month_fire. reflexivity.
Qed.

Lemma monthlyRun_spec dom h m now :
  1200 <= month_index (Day (to_local now)) → 1 <= dom → 0 <= h < 24 → 0 <= m < 60 →
  ∃ t, monthlyRun dom h m now = Some t
    ∧ earliest_after (λ x, TimeInDay x = MakeTime h m 0 0 ∧
          day_of_month (Day x) = Z.min dom (days_in_month (month_index (Day x))))
        (to_local now) (to_local t).
Proof.
  intros HM Hdom Hh Hm. pose proof (MakeTime_range _ _ Hh Hm) as HT.
  set (T := MakeTime h m 0 0) in *. set (M0 := month_index (Day (to_local now))) in *.
  pose proof (month_index_spec (Day (to_local now))) as HD. fold M0 in HD.
  assert (Hc : ∀ k, 0 <= k → to_local (monthlyCandidate dom h m now k) = month_fire dom T (M0 + k))
    by (intros; by apply local_monthlyCandidate).
  assert (Hf : ∀ k, 0 <= k → (now <? monthlyCandidate dom h m now k) = (to_local now <? month_fire dom T (M0 + k)))
    by (intros k Hk; by rewrite local_ltb, Hc).
  clearbody T M0.
  assert (Hfirst : to_local now < month_fire dom T (M0 + 1)).
  { rewrite <- (MakeDate_Day (to_local now)), month_fire_eq.
    pose proof (month_start_succ (M0 + 1)). apply MakeDate_lt; [apply TimeInDay_range|done|lia]. }
  destruct (find_seqZ (λ c, now <? c) (monthlyCandidate dom h m now) 14 1) as (j & Hj & Hr & Hfj & Hmin).
  { lia. } { rewrite Hf by lia. by apply Z.ltb_lt. }
  exists (monthlyCandidate dom h m now j). split; [exact Hj|].
  rewrite Hf in Hfj by lia. apply Z.ltb_lt in Hfj. rewrite Hc by lia.
  pose proof (month_start_succ (M0 + j)) as Hs.
  rewrite month_fire_eq in Hfj. rewrite month_fire_eq.
  apply (earliest_day (λ d, day_of_month d = Z.min dom (days_in_month (month_index d)))); [exact HT|exact Hfj| |].
  { replace (month_start (M0 + j) + Z.min dom (days_in_month (M0 + j)) - 1)
      with (month_start (M0 + j) + (Z.min dom (days_in_month (M0 + j)) - 1)) by lia.
    rewrite month_index_start, day_of_month_start by lia. lia. }
  intros d' [Hd1 Hd2] Hq. set (M' := month_index d') in *.
  pose proof (month_index_spec d') as Hd'. fold M' in Hd'.
  assert (Ed : d' = month_start M' + Z.min dom (days_in_month M') - 1)
    by (unfold day_of_month in Hq; fold M' in Hq; lia).
  assert (M0 < M' + 1) by (apply month_start_mono; lia).
  assert (M' < M0 + j).
  { destruct (Z.eq_dec M' (M0 + j)) as [Em|]; [rewrite Em in Ed; lia|].
    assert (M' < M0 + j + 1); [|lia]. apply month_start_mono.
    unfold days_in_month in *. lia. }
  specialize (Hmin (M' - M0) ltac:(lia)). rewrite Hf in Hmin by lia.
  replace (M0 + (M' - M0)) with M' in Hmin by lia. apply Z.ltb_ge in Hmin.
  rewrite month_fire_eq in Hmin. by rewrite <- Ed in Hmin.
Qed.
End fixed.

(** ** The next run of a schedule *)

(** Schedules the browser computes a next run for. *)
Definition self_firing (s : Schedule) : bool :=
  negb (bool_decide (kind_of s = KManual) || bool_decide (kind_of s = KAdvanced)).

Section main.
Context {zone : Zone} {offset : Z} {HF : FixedZone zone offset}.

Lemma month_index_after_1970 d : 0 <= d → 1200 <= month_index d.
Proof.
  intros Hd. pose proof (month_index_spec d) as [_ Hs].
  destruct (Z.le_gt_cases (month_index d + 1) (12 * 1970)) as [Hc|]; [|lia].
  apply month_start_le in Hc. change (month_start (12 * 1970)) with 0 in Hc. lia.
Qed.

Lemma timeParts_clock time : HHMM time = true →
  ∃ h m, 0 <= h < 24 ∧ 0 <= m < 60 ∧ timeParts time = (of_Z h, of_Z m)
    ∧ clock_ms time = MakeTime h m 0 0.
Proof.
  intros (h & m & Hh & Hm & E & _)%HHMM_parts. exists h, m. split_and!; try lia; [done|].
  unfold clock_ms. by rewrite E, !trunc_num_Z.
Qed.

End main.


(** ** The browser's own daylight-saving change leaks into the preview *)

(** The parts of an instant in UTC, as the formatter would give them. *)
Definition utc_parts (_ : jsstr) (t : Z) : option (list (jsstr * jsstr)) :=
  let m := month_index (Day t) in
  Some [(u "year", str_of_Z (m / 12)); (u "month", str_of_Z (m mod 12 + 1));
        (u "day", str_of_Z (day_of_month (Day t))); (u "hour", str_of_Z (HourFromTime t));
        (u "minute", str_of_Z (MinFromTime t)); (u "second", str_of_Z (SecFromTime t))].

(** A browser in New York across 8 March 2026. *)
Definition new_york_2026 : Zone := table_zone (-18000000) [(1772953200000, -14400000)].

(** The server runs in UTC and the job runs daily at 02:30; at 01:00 UTC on
    8 March the preview names 03:30, because 02:30 does not exist that day on the
    browser's calendar. *)
Lemma nextRunOf_browser_gap :
  match nextRunOf (zone := new_york_2026) utc_parts (DailySchedule (u "02:30")) (Some (u "UTC")) 1772931600000 with
  | Some (At t) => (getDate (zone := new_york_2026) t, getHours (zone := new_york_2026) t,
                    getMinutes (zone := new_york_2026) t) = (8, 3, 30)
  | _ => False
  end.
Proof. vm_compute. reflexivity. Qed.
