(* ===== verification/ScheduleText.v ===== *)
(** * Schedules in words (web/src/lib/format.ts)

    Weekday and ordinal names, the one-line label and the full sentence of a
    schedule, the wall-clock rendering of a next run and the loose cron check. *)
From S2P Require Import Prelude JsString JsNumber JsValue Schedule Calendar NextRun.

Definition WEEKDAY_SHORT : list jsstr :=
  [u "Sun"; u "Mon"; u "Tue"; u "Wed"; u "Thu"; u "Fri"; u "Sat"].
Definition WEEKDAY_LONG : list jsstr :=
  [u "Sunday"; u "Monday"; u "Tuesday"; u "Wednesday"; u "Thursday"; u "Friday"; u "Saturday"].
Definition MONTH_SHORT : list jsstr :=
  [u "Jan"; u "Feb"; u "Mar"; u "Apr"; u "May"; u "Jun"; u "Jul"; u "Aug"; u "Sep"; u "Oct"; u "Nov"; u "Dec"].

(** [names[i] ?? fallback]. *)
Definition name_at (names : list jsstr) (i : Z) (fallback : jsstr) : jsstr :=
  if i <? 0 then fallback
  else match nth_error names (Z.to_nat i) with Some n => n | None => fallback end.

Definition weekdayShort (day : Z) : jsstr :=
  name_at WEEKDAY_SHORT (Z.rem (Z.rem day 7 + 7) 7) (u "—").

Definition weekdayLong (day : Z) : jsstr :=
  name_at WEEKDAY_LONG (Z.rem (Z.rem day 7 + 7) 7) (u "—").

Definition ordinal (n : Z) : jsstr :=
  let tens := Z.rem n 100 in
  if (11 <=? tens) && (tens <=? 13) then cat [str_of_Z n; u "th"]
  else if Z.rem n 10 =? 1 then cat [str_of_Z n; u "st"]
  else if Z.rem n 10 =? 2 then cat [str_of_Z n; u "nd"]
  else if Z.rem n 10 =? 3 then cat [str_of_Z n; u "rd"]
  else cat [str_of_Z n; u "th"].

Definition joinAnd (parts : list jsstr) : jsstr :=
  match parts with
  | [] => []
  | [p] => p
  | _ => cat [join (u ", ") (removelast parts); u " and "; List.last parts []]
  end.

Section wallclock.
Context {zone : Zone}.

Definition formatWallClock (date : option Date) : jsstr :=
  match date with
  | None => u "—"
  | Some Invalid => u " NaN , NaN:NaN"
  | Some (At t) =>
      let weekday := name_at WEEKDAY_LONG (getDay t) [] in
      let month := name_at MONTH_SHORT (getMonth t) [] in
      cat [weekday; u " "; str_of_Z (getDate t); u " "; month; u ", ";
           padTime (of_Z (getHours t)) (of_Z (getMinutes t))]
  end.
End wallclock.

Definition pad2 (n : Z) : jsstr := pad_start 2 48 (str_of_Z n).

Definition describeSchedule (value : jsval) : jsstr :=
  match parseSchedule value with
  | ManualSchedule => u "Manual only"
  | HourlySchedule minute =>
      if minute =? 0 then u "Hourly, on the hour" else cat [u "Hourly at :"; pad2 minute]
  | DailySchedule time => cat [u "Daily at "; time]
  | WeeklySchedule time weekdays =>
      let days := sort_num weekdays in
      if Z.of_nat (length days) =? 7 then cat [u "Every day at "; time]
      else if (Z.of_nat (length days) =? 5) && str_eqb (join (u ",") (map str_of_Z days)) (u "1,2,3,4,5")
      then cat [u "Mon to Fri at "; time]
      else if (Z.of_nat (length days) =? 2) && str_eqb (join (u ",") (map str_of_Z days)) (u "0,6")
      then cat [u "Weekends at "; time]
      else cat [u "Weekly on "; join (u ", ") (map weekdayShort days); u " at "; time]
  | MonthlySchedule time dayOfMonth =>
      if dayOfMonth =? 31 then cat [u "Monthly on the last day at "; time]
      else cat [u "Monthly on the "; ordinal dayOfMonth; u " at "; time]
  | AdvancedSchedule cron =>
      if str_eqb cron [] then u "Advanced" else cat [u "Advanced · "; cron]
  end.

Definition describeScheduleSentence (schedule : Schedule) : jsstr :=
  match schedule with
  | ManualSchedule => u "Never runs on its own. You start it from the Backup Jobs page."
  | HourlySchedule minute =>
      if minute =? 0 then u "Runs every hour, on the hour."
      else cat [u "Runs every hour at "; pad2 minute; u " minutes past."]
  | DailySchedule time => cat [u "Runs every day at "; time; u "."]
  | WeeklySchedule time weekdays =>
      if decide (weekdays = []) then u "Pick at least one day."
      else
        let days := sort_num weekdays in
        if Z.of_nat (length days) =? 7 then cat [u "Runs every day at "; time; u "."]
        else cat [u "Runs every "; joinAnd (map weekdayLong days); u " at "; time; u "."]
  | MonthlySchedule time dayOfMonth =>
      if dayOfMonth =? 31 then cat [u "Runs on the last day of every month at "; time; u "."]
      else cat [u "Runs on the "; ordinal dayOfMonth; u " of every month at "; time; u "."]
  | AdvancedSchedule cron =>
      if str_eqb cron [] then u "Enter a five-field cron expression."
      else cat [u "Runs on the cron expression "; cron; u "."]
  end.

(** [text.split(/\s+/)]: one boundary per run of white space. *)
Fixpoint split_ws_from (in_run : bool) (s : jsstr) : list jsstr :=
  match s with
  | [] => [[]]
  | c :: s' =>
      if is_space c
      then if in_run then split_ws_from true s' else [] :: split_ws_from true s'
      else match split_ws_from false s' with
           | [] => [[c]]
           | w :: ws => (c :: w) :: ws
           end
  end.

Definition split_ws : jsstr → list jsstr := split_ws_from false.

(** The class [[0-9*,\-/]]. *)
Definition cron_char (c : N) : bool :=
  is_digit c || N.eqb c 42 || N.eqb c 44 || N.eqb c 45 || N.eqb c 47.

Definition isValidCron (expr : jsstr) : bool :=
  let fields := split_ws (trim expr) in
  (Z.of_nat (length fields) =? 5)
  && forallb (λ field, negb (str_eqb field []) && forallb cron_char field) fields.

(** [shortId]; the ellipsis is one code unit. *)
Definition shortId (id : ID) (keep : Z) : jsstr :=
  let text := id_text id in
  if Z.of_nat (length text) <=? keep + 3 then text
  else cat [take (Z.to_nat keep) text; u "…"].

(** ** Properties *)

Lemma weekday_name_total day : weekdayLong day ∈ WEEKDAY_LONG ∧ weekdayShort day ∈ WEEKDAY_SHORT.
Proof.
  unfold weekdayLong, weekdayShort. set (i := Z.rem (Z.rem day 7 + 7) 7).
  assert (Hi : 0 <= i < 7).
  { unfold i. pose proof (Z.rem_bound_abs day 7 ltac:(lia)). apply Z.rem_bound_pos; lia. }
  assert (i = 0 ∨ i = 1 ∨ i = 2 ∨ i = 3 ∨ i = 4 ∨ i = 5 ∨ i = 6) as Hc by lia.
  destruct_or! Hc; rewrite Hc; split; unfold name_at; cbn; set_solver.
Qed.

(** *** Labels tell schedules apart

    A label of a schedule with a clock time is its shape followed by the five
    characters of the time; the shapes are finitely many. *)
Inductive shape := SDaily | SWeekly (days : list Z) | SMonthly (day : Z).

#[export] Instance shape_eq_dec : EqDecision shape.
Proof. solve_decision. Defined.

Definition with_time (sh : shape) (time : jsstr) : Schedule :=
  match sh with
  | SDaily => DailySchedule time
  | SWeekly days => WeeklySchedule time days
  | SMonthly day => MonthlySchedule time day
  end.

(** The label around an empty time. *)
Definition shape_label (sh : shape) : jsstr :=
  match sh with
  | SDaily => u "Daily at "
  | SWeekly days =>
      if Z.of_nat (length days) =? 7 then u "Every day at "
      else if (Z.of_nat (length days) =? 5) && str_eqb (join (u ",") (map str_of_Z days)) (u "1,2,3,4,5")
      then u "Mon to Fri at "
      else if (Z.of_nat (length days) =? 2) && str_eqb (join (u ",") (map str_of_Z days)) (u "0,6")
      then u "Weekends at "
      else cat [u "Weekly on "; join (u ", ") (map weekdayShort days); u " at "]
  | SMonthly day =>
      if day =? 31 then u "Monthly on the last day at "
      else cat [u "Monthly on the "; ordinal day; u " at "]
  end.

Fixpoint sublists (l : list Z) : list (list Z) :=
  match l with
  | [] => [[]]
  | x :: l' => map (cons x) (sublists l') ++ sublists l'
  end.

Definition shapes : list shape :=
  SDaily :: map SWeekly (sublists [0; 1; 2; 3; 4; 5; 6])
  ++ map SMonthly (seqZ 1 31).

Lemma increasing_sublists n a l :
  increasing l → Forall (λ d, a <= d < a + Z.of_nat n) l → l ∈ sublists (seqZ a (Z.of_nat n)).
Proof.
  revert a l. induction n as [|n IH]; intros a l Hi Hf.
  - destruct l as [|x l]; [set_solver|]. inversion Hf; lia.
  - rewrite seqZ_cons by lia. replace (Z.pred (Z.of_nat (S n))) with (Z.of_nat n) by lia.
    cbn [sublists]. apply elem_of_app.
    destruct l as [|x l]; [right; apply IH; constructor|].
    inversion Hi as [|?? Hs Hx]; inversion Hf as [|?? Hx1 Hl]; subst.
    rewrite Forall_forall in Hx, Hl.
    destruct (Z.eq_dec x a) as [->|Hne]; [left|right].
    + apply list_elem_of_fmap. exists l. split; [done|]. apply IH; [done|].
      apply Forall_forall. intros y Hy. specialize (Hx y Hy). specialize (Hl y Hy). lia.
    + apply IH; [done|]. constructor; [lia|]. apply Forall_forall. intros y Hy.
      specialize (Hx y Hy). specialize (Hl y Hy). lia.
Qed.

Definition labels_distinct (ls : list (jsstr * shape)) : bool :=
  forallb (λ a, forallb (λ b, negb (str_eqb a.1 b.1) || bool_decide (a.2 = b.2)) ls) ls.

Lemma labels_distinct_spec ls a b :
  labels_distinct ls = true → In a ls → In b ls → a.1 = b.1 → a.2 = b.2.
Proof.
  unfold labels_distinct. intros H Ha Hb E. rewrite forallb_forall in H. specialize (H a Ha).
  rewrite forallb_forall in H. specialize (H b Hb). unfold str_eqb in H.
  rewrite E, bool_decide_eq_true_2 in H by done. simpl in H. by b2p.
Qed.

Lemma labels_of_shapes : labels_distinct (map (λ a, (shape_label a, a)) shapes) = true.
Proof. vm_compute. reflexivity. Qed.

Lemma shapes_distinct sh1 sh2 :
  sh1 ∈ shapes → sh2 ∈ shapes → shape_label sh1 = shape_label sh2 → sh1 = sh2.
Proof.
  intros I1%list_elem_of_In I2%list_elem_of_In.
  apply (labels_distinct_spec _ (shape_label sh1, sh1) (shape_label sh2, sh2) labels_of_shapes).
  - by apply (in_map (λ a, (shape_label a, a))).
  - by apply (in_map (λ a, (shape_label a, a))).
Qed.

(** No shape starts like the label of a schedule without a clock time. *)
Definition untimed_prefix (s : jsstr) : bool :=
  starts_with (u "Ma") s || starts_with (u "H") s || starts_with (u "A") s.

Lemma starts_with_app p s t : (length p <= length s)%nat → starts_with p (s ++ t) = starts_with p s.
Proof.
  revert s. induction p as [|c p IH]; intros [|d s]; simpl; intros H; try done; try lia.
  by rewrite IH by lia.
Qed.

Lemma shapes_timed :
  forallb (λ a, negb (untimed_prefix (shape_label a)) && (2 <=? Z.of_nat (length (shape_label a)))) shapes = true.
Proof. vm_compute. reflexivity. Qed.

Lemma with_time_label sh time :
  valid_schedule (with_time sh time) →
  sh ∈ shapes ∧ HHMM time = true
  ∧ describeSchedule (schedule_val (with_time sh time)) = shape_label sh ++ time.
Proof.
  intros Hv. unfold describeSchedule. rewrite (parseSchedule_val _ Hv). unfold shapes.
  destruct sh as [|days|day]; cbn [with_time valid_schedule] in *.
  - split; [set_solver|]. split; [done|]. unfold cat. simpl. by rewrite app_nil_r.
  - destruct Hv as (Ht & Hne & Hi & Hr). split; [|split; [done|]].
    + apply elem_of_cons. right. apply elem_of_app. left. apply list_elem_of_fmap. exists days. split; [done|].
      apply (increasing_sublists 7 0); [done|]. eapply Forall_impl; [exact Hr|]. simpl. lia.
    + rewrite sort_num_id by (by apply increasing_spec in Hi as [? _]). unfold shape_label, cat.
      repeat case_match; simpl; rewrite ?app_nil_r, <- ?(assoc_L (++)); done.
  - destruct Hv as [Ht Hd]. split; [|split; [done|]].
    + apply elem_of_cons. right. apply elem_of_app. right. apply list_elem_of_fmap. exists day. split; [done|].
      apply elem_of_seqZ. lia.
    + unfold shape_label, cat. case_match; simpl; rewrite ?app_nil_r, <- ?(assoc_L (++)); done.
Qed.

Lemma HHMM_length t : HHMM t = true → length t = 5%nat.
Proof. destruct t as [|a [|b [|c [|d [|e [|]]]]]]; done. Qed.

(** A schedule either has a clock time or an untimed label. *)
Lemma label_cases s : valid_schedule s →
  (∃ sh time, s = with_time sh time) ∨ untimed_prefix (describeSchedule (schedule_val s)) = true.
Proof.
  intros Hv. unfold describeSchedule. rewrite (parseSchedule_val _ Hv).
  destruct s as [|m|t|t ds|t d|c]; [right; vm_compute; done|right|left..|right].
  - case_match; reflexivity.
  - by exists SDaily, t. - by exists (SWeekly ds), t. - by exists (SMonthly d), t.
  - case_match; reflexivity.
Qed.

Lemma timed_not_untimed sh time : valid_schedule (with_time sh time) →
  untimed_prefix (describeSchedule (schedule_val (with_time sh time))) = false.
Proof.
  intros Hv. destruct (with_time_label _ _ Hv) as (Hin & _ & ->).
  pose proof shapes_timed as H. rewrite forallb_forall in H.
  specialize (H sh (proj1 (list_elem_of_In _ _) Hin)). b2p.
  unfold untimed_prefix in *. rewrite !starts_with_app by (vm_compute length at 1; lia). done.
Qed.

Lemma pad2_inj a b : 0 <= a <= 59 → 0 <= b <= 59 → pad2 a = pad2 b → a = b.
Proof.
  intros Ha Hb. unfold pad2. rewrite <- !str_of_num_Z, !pad2_Z by lia.
  intros [= H1 H2]. assert (Z.to_N a = Z.to_N b) by divlia. lia.
Qed.

(** Distinguishes two labels by their first characters. *)
Ltac diff_heads E := exfalso; apply (f_equal (take 9)) in E; lazy in E; discriminate E.

Lemma untimed_injective s1 s2 :
  valid_schedule s1 → valid_schedule s2 →
  untimed_prefix (describeSchedule (schedule_val s1)) = true →
  untimed_prefix (describeSchedule (schedule_val s2)) = true →
  describeSchedule (schedule_val s1) = describeSchedule (schedule_val s2) → s1 = s2.
Proof.
  intros H1 H2 U1 U2.
  assert (Hn : ∀ s, valid_schedule s → untimed_prefix (describeSchedule (schedule_val s)) = true →
            match s with DailySchedule _ | WeeklySchedule _ _ | MonthlySchedule _ _ => False | _ => True end).
  { intros [|m|t|t ds|t d|c] Hv U; [exact I|exact I| | | |exact I].
    - pose proof (timed_not_untimed SDaily t Hv). simpl in *. congruence.
    - pose proof (timed_not_untimed (SWeekly ds) t Hv). simpl in *. congruence.
    - pose proof (timed_not_untimed (SMonthly d) t Hv). simpl in *. congruence. }
  apply Hn in U1, U2; [|done..].
  destruct s1 as [|m1|t1|t1 ds1|t1 d1|c1]; try contradiction;
  destruct s2 as [|m2|t2|t2 ds2|t2 d2|c2]; try contradiction;
  clear Hn U1 U2; unfold describeSchedule; rewrite !parseSchedule_val by done; try done;
  cbn [valid_schedule] in *.
  - intros E. case_match; diff_heads E.
  - intros E. case_match; diff_heads E.
  - intros E. case_match; diff_heads E.
  - destruct (Z.eqb_spec m1 0), (Z.eqb_spec m2 0); intros E; subst; [done|diff_heads E..|].
    apply app_inv_head in E. rewrite !app_nil_r in E. by apply pad2_inj in E as ->; [|lia..].
  - intros E. repeat case_match; diff_heads E.
  - intros E. case_match; diff_heads E.
  - intros E. repeat case_match; diff_heads E.
  - unfold str_eqb. do 2 case_bool_decide; intros E; subst; [done|diff_heads E..|].
    apply app_inv_head in E. rewrite !app_nil_r in E. by subst.
Qed.

(** C4: labels tell schedules apart: two normal-form schedules shown with the
    same label are the same schedule. *)
Theorem describeSchedule_injective s1 s2 :
  valid_schedule s1 → valid_schedule s2 →
  describeSchedule (schedule_val s1) = describeSchedule (schedule_val s2) → s1 = s2.
Proof.
  intros H1 H2 E.
  destruct (label_cases _ H1) as [(sh1 & t1 & ->)|U1], (label_cases _ H2) as [(sh2 & t2 & ->)|U2].
  - destruct (with_time_label _ _ H1) as (I1 & T1 & L1), (with_time_label _ _ H2) as (I2 & T2 & L2).
    rewrite L1, L2 in E. apply app_inj_2 in E as [E ->]; [|by rewrite !HHMM_length].
    by rewrite (shapes_distinct _ _ I1 I2 E).
  - rewrite <- E, timed_not_untimed in U2; done.
  - rewrite E, timed_not_untimed in U1; done.
  - by apply untimed_injective.
Qed.

Lemma describeSchedule_injective_witness :
  let s := WeeklySchedule (u "03:00") [0; 6] in
  valid_schedule s ∧ describeSchedule (schedule_val s) = u "Weekends at 03:00" ∧ s = s.
Proof.
  assert (H : valid_schedule (WeeklySchedule (u "03:00") [0; 6])).
  { simpl. split; [reflexivity|]. split; [discriminate|]. split; repeat constructor; lia. }
  split; [exact H|]. split; [vm_compute; reflexivity|].
  exact (describeSchedule_injective _ _ H H eq_refl).
Defined.
