(* ===== verification/ScheduleEditor.v ===== *)
(** * The scheduling control (web/src/components/ScheduleEditor.tsx)

    The draft keeps every field alive while the cadence changes; [toSchedule]
    projects it onto the schedule union.  The component is its state, the
    controls its render offers, and the update each control performs together
    with the schedule it hands to [onChange]. *)
From S2P Require Import Prelude JsString JsNumber JsValue Schedule Calendar NextRun ScheduleText.

Record Draft := mkDraft {
  d_kind : ScheduleKind;
  d_minute : Z;
  d_time : jsstr;
  d_weekdays : list Z;
  d_dayOfMonth : Z;
  d_cron : jsstr;
  d_fallback : ScheduleKind;
}.

Definition DEFAULT_DRAFT : Draft := mkDraft KDaily 0 (u "02:00") [0] 1 [] KDaily.

Definition draftFrom (schedule : Schedule) : Draft :=
  let D := DEFAULT_DRAFT in
  match schedule with
  | ManualSchedule =>
      mkDraft KManual (d_minute D) (d_time D) (d_weekdays D) (d_dayOfMonth D) (d_cron D) KManual
  | HourlySchedule minute =>
      mkDraft KHourly minute (d_time D) (d_weekdays D) (d_dayOfMonth D) (d_cron D) KHourly
  | DailySchedule time =>
      mkDraft KDaily (d_minute D) time (d_weekdays D) (d_dayOfMonth D) (d_cron D) KDaily
  | WeeklySchedule time weekdays =>
      mkDraft KWeekly (d_minute D) time
        (if 0 <? Z.of_nat (length weekdays) then weekdays else [0]) (d_dayOfMonth D) (d_cron D) KWeekly
  | MonthlySchedule time dayOfMonth =>
      mkDraft KMonthly (d_minute D) time (d_weekdays D) dayOfMonth (d_cron D) KMonthly
  | AdvancedSchedule cron =>
      mkDraft KAdvanced (d_minute D) (d_time D) (d_weekdays D) (d_dayOfMonth D) cron (d_fallback D)
  end.

Definition toSchedule (draft : Draft) : Schedule :=
  match d_kind draft with
  | KManual => ManualSchedule
  | KHourly => HourlySchedule (d_minute draft)
  | KDaily => DailySchedule (d_time draft)
  | KWeekly => WeeklySchedule (d_time draft) (sort_num (d_weekdays draft))
  | KMonthly => MonthlySchedule (d_time draft) (d_dayOfMonth draft)
  | KAdvanced => AdvancedSchedule (trim (d_cron draft))
  end.

Definition isScheduleComplete (schedule : Schedule) : bool :=
  match schedule with
  | WeeklySchedule _ weekdays => 0 <? Z.of_nat (length weekdays)
  | AdvancedSchedule cron => isValidCron cron
  | _ => true
  end.

(** The cadence tiles; icons are left out. *)
Record Cadence := mkCadence { c_kind : ScheduleKind; c_label : jsstr; c_sub : jsstr }.

Definition CADENCES : list Cadence :=
  [ mkCadence KManual (u "Manual") (u "You start it");
    mkCadence KHourly (u "Hourly") (u "Every hour");
    mkCadence KDaily (u "Daily") (u "Once a day");
    mkCadence KWeekly (u "Weekly") (u "Chosen days");
    mkCadence KMonthly (u "Monthly") (u "One day a month") ].

(** ** The time control *)

Definition HOURS : list num := map (λ k, of_Z (Z.of_nat k)) (List.seq 0 24).

(** [(a, b) => a - b] on finite numbers. *)
Definition sort_nums : list num → list num := sort_by nle.

Definition minuteOptions (current : num) : list num :=
  let steps := map (λ k, of_Z (Z.of_nat k * 5)) (List.seq 0 12) in
  if existsb (λ s, neqb s current) steps then steps else sort_nums (steps ++ [current]).

Definition partsOf (time : jsstr) : num * num :=
  let parts := split_on 58 time in
  let hour := part_num parts 0 in
  let minute := part_num parts 1 in
  ((if is_finite hour then hour else of_Z 0), (if is_finite minute then minute else of_Z 0)).

(** The two [onChange] handlers of [TimeField], on the option's text. *)
Definition selectHour (value : jsstr) (option : jsstr) : jsstr :=
  padTime (num_of_str option) (partsOf value).2.
Definition selectMinute (value : jsstr) (option : jsstr) : jsstr :=
  padTime (partsOf value).1 (num_of_str option).

(** The texts the two selects of [TimeField] offer. *)
Definition hourTexts : list jsstr := map str_of_num HOURS.
Definition minuteTexts (value : jsstr) : list jsstr := map str_of_num (minuteOptions (partsOf value).2).

Definition TIME_PRESETS : list jsstr := [u "22:00"; u "00:00"; u "02:00"; u "04:00"].

(** ** The day pickers *)

Definition includes_day (l : list Z) (day : Z) : bool := existsb (Z.eqb day) l.

Definition toggleDay (selected : list Z) (day : Z) : list Z :=
  if includes_day selected day
  then List.filter (λ item, negb (item =? day)) selected
  else sort_num (selected ++ [day]).

Definition WEEKDAY_INITIALS : list jsstr := [u "S"; u "M"; u "T"; u "W"; u "T"; u "F"; u "S"].

Definition WEEKDAY_PRESETS : list (jsstr * list Z) :=
  [ (u "Mon–Fri", [1; 2; 3; 4; 5]); (u "Weekend", [0; 6]); (u "Every day", [0; 1; 2; 3; 4; 5; 6]) ].

(** [aria-pressed] of a weekday preset. *)
Definition presetActive (preset selected : list Z) : bool :=
  (Z.of_nat (length preset) =? Z.of_nat (length selected))
  && forallb (includes_day selected) preset.

Definition MONTH_DAYS : list Z := map (λ k, Z.of_nat k + 1) (List.seq 0 30).

(** The days [MonthDayPicker] can set and the note it shows. *)
Definition monthDayOffered (day : Z) : bool := includes_day MONTH_DAYS day || (day =? 31).
Definition monthDayNote (value : Z) : option jsstr :=
  if negb (value =? 31) && (28 <? value)
  then Some (cat [u "Months without a "; ordinal value; u " run on their last day instead."])
  else None.

(** ** The editor *)

Record Editor := mkEditor { e_draft : Draft; e_advancedOpen : bool }.

Definition initEditor (value : Schedule) : Editor :=
  mkEditor (draftFrom value) (bool_decide (kind_of value = KAdvanced)).

(** The controls of the rendered editor, with what the operator enters. *)
Inductive EditorMsg :=
  | PickCadence (kind : ScheduleKind)
  | PickMinute (minute : Z)
  | SelectHour (option : jsstr)
  | SelectMinute (option : jsstr)
  | PickTimePreset (preset : jsstr)
  | ToggleWeekday (day : Z)
  | PickWeekdays (days : list Z)
  | PickMonthDay (day : Z)
  | TypeCron (text : jsstr)
  | ToggleAdvanced (open : bool).

Definition HOURLY_MINUTES : list Z := [0; 5; 10; 15; 20; 30; 40; 45; 50].

Definition timed_kind (k : ScheduleKind) : bool :=
  match k with KDaily | KWeekly | KMonthly => true | _ => false end.

(** Whether the render of a state offers a control. *)
Definition offered (e : Editor) (msg : EditorMsg) : bool :=
  let draft := e_draft e in
  match msg with
  | PickCadence kind => existsb (λ c, bool_decide (c_kind c = kind)) CADENCES
  | PickMinute minute => bool_decide (d_kind draft = KHourly) && includes_day HOURLY_MINUTES minute
  | SelectHour text => timed_kind (d_kind draft) && existsb (str_eqb text) hourTexts
  | SelectMinute text => timed_kind (d_kind draft) && existsb (str_eqb text) (minuteTexts (d_time draft))
  | PickTimePreset preset => timed_kind (d_kind draft) && existsb (str_eqb preset) TIME_PRESETS
  | ToggleWeekday day => bool_decide (d_kind draft = KWeekly)
      && (0 <=? day) && (day <? Z.of_nat (length WEEKDAY_INITIALS))
  | PickWeekdays days => bool_decide (d_kind draft = KWeekly)
      && existsb (λ p, bool_decide (p.2 = days)) WEEKDAY_PRESETS
  | PickMonthDay day => bool_decide (d_kind draft = KMonthly) && monthDayOffered day
  | TypeCron _ | ToggleAdvanced _ => true
  end.

(** [apply(patch)]: the new draft, and the schedule handed to the parent. *)
Definition apply_patch (patch : Draft → Draft) (e : Editor) : Editor * option Schedule :=
  let next := patch (e_draft e) in
  (mkEditor next (e_advancedOpen e), Some (toSchedule next)).

Definition set_time (time : jsstr) (d : Draft) : Draft :=
  mkDraft (d_kind d) (d_minute d) time (d_weekdays d) (d_dayOfMonth d) (d_cron d) (d_fallback d).
Definition set_weekdays (days : list Z) (d : Draft) : Draft :=
  mkDraft (d_kind d) (d_minute d) (d_time d) days (d_dayOfMonth d) (d_cron d) (d_fallback d).
Definition set_kind (kind fallback : ScheduleKind) (d : Draft) : Draft :=
  mkDraft kind (d_minute d) (d_time d) (d_weekdays d) (d_dayOfMonth d) (d_cron d) fallback.

Definition typeCron (cron : jsstr) (d : Draft) : Draft :=
  mkDraft (if non_blank cron then KAdvanced else d_fallback d) (d_minute d) (d_time d)
    (d_weekdays d) (d_dayOfMonth d) cron (d_fallback d).

Definition updateEditor (e : Editor) (msg : EditorMsg) : Editor * option Schedule :=
  let draft := e_draft e in
  match msg with
  | PickCadence kind => apply_patch (set_kind kind kind) (mkEditor draft false)
  | PickMinute minute => apply_patch (λ d,
      mkDraft (d_kind d) minute (d_time d) (d_weekdays d) (d_dayOfMonth d) (d_cron d) (d_fallback d)) e
  | SelectHour text => apply_patch (set_time (selectHour (d_time draft) text)) e
  | SelectMinute text => apply_patch (set_time (selectMinute (d_time draft) text)) e
  | PickTimePreset preset => apply_patch (set_time preset) e
  | ToggleWeekday day => apply_patch (set_weekdays (toggleDay (d_weekdays draft) day)) e
  | PickWeekdays days => apply_patch (set_weekdays days) e
  | PickMonthDay day => apply_patch (λ d,
      mkDraft (d_kind d) (d_minute d) (d_time d) (d_weekdays d) day (d_cron d) (d_fallback d)) e
  | TypeCron text => apply_patch (typeCron text) e
  | ToggleAdvanced open => (mkEditor draft open, None)
  end.

Definition cronInvalid (draft : Draft) : bool :=
  bool_decide (d_kind draft = KAdvanced) && non_blank (d_cron draft) && negb (isValidCron (d_cron draft)).

(** What the confirmation panel and the cron field say. *)
Section summary.
Context {zone : Zone} (formatToParts : jsstr → Z → option (list (jsstr * jsstr))).

Record Summary := mkSummary {
  s_sentence : jsstr;
  s_nextRun : option jsstr;
  s_timezone : jsstr;
  s_cronHint : option jsstr;
}.

Definition editorSummary (e : Editor) (timezone : option jsstr) (now : Z) : Summary :=
  let draft := e_draft e in
  let schedule := toSchedule draft in
  mkSummary (describeScheduleSentence schedule)
    (match nextRunOf formatToParts schedule timezone now with
     | Some run => Some (cat [u "Next run "; formatWallClock (Some run)])
     | None => if decide (d_kind draft = KAdvanced) then Some (u "Next run is calculated by the server.") else None
     end)
    (match timezone with
     | Some tz => if negb (str_eqb tz []) && negb (str_eqb tz (u "Local"))
                  then cat [u "Server time zone "; tz]
                  else u "Times are in the server’s local time zone."
     | None => u "Times are in the server’s local time zone."
     end)
    (if decide (d_kind draft = KAdvanced)
     then if non_blank (d_cron draft)
          then Some (if cronInvalid draft then u "Enter five space-separated fields." else u "In use")
          else None
     else None).
End summary.

(** One use of a control, with the parent's [value] following [onChange]. *)
Definition editor_step (st : Editor * Schedule) (msg : EditorMsg) : Editor * Schedule :=
  let r := updateEditor st.1 msg in
  (r.1, match r.2 with Some s => s | None => st.2 end).

(** A session of the editor on [start]. *)
Inductive session (start : Schedule) : Editor * Schedule → Prop :=
  | session_open : session start (initEditor start, start)
  | session_step st msg :
      session start st → offered st.1 msg = true → session start (editor_step st msg).

(** ** Picking days *)

Lemma includes_day_spec l day : includes_day l day = true ↔ day ∈ l.
Proof.
  unfold includes_day. rewrite existsb_exists. setoid_rewrite Z.eqb_eq.
  setoid_rewrite <- list_elem_of_In. naive_solver.
Qed.

Lemma elem_of_toggleDay l day x :
  x ∈ toggleDay l day ↔ (x ∈ l ∧ x ≠ day) ∨ (x = day ∧ day ∉ l).
Proof.
  unfold toggleDay. destruct (includes_day l day) eqn:E.
  - apply includes_day_spec in E. rewrite list_elem_of_In, filter_In, <- list_elem_of_In.
    rewrite negb_true_iff, Z.eqb_neq. naive_solver.
  - assert (day ∉ l) by (rewrite <- includes_day_spec; by rewrite E).
    unfold sort_num. rewrite elem_of_sort_by. set_solver.
Qed.

Lemma increasing_filter (f : Z → bool) l : increasing l → increasing (List.filter f l).
Proof.
  unfold increasing. induction 1 as [|x l Hs IH Hf]; simpl; [constructor|].
  destruct (f x); [|done]. constructor; [done|].
  rewrite Forall_forall in *. intros y Hy. apply Hf. apply list_elem_of_In in Hy.
  apply filter_In in Hy as [Hy _]. by apply list_elem_of_In.
Qed.

Lemma toggleDay_increasing l day : increasing l → increasing (toggleDay l day).
Proof.
  intros H. unfold toggleDay. destruct (includes_day l day) eqn:E; [by apply increasing_filter|].
  apply increasing_spec. split; [apply sort_num_sorted|]. unfold sort_num. rewrite sort_by_perm.
  apply increasing_spec in H as [_ H]. apply NoDup_app. split_and!; [done| |apply NoDup_singleton].
  intros x Hx ->%list_elem_of_singleton. by rewrite <- includes_day_spec, E in Hx.
Qed.

(** An increasing list is determined by its elements. *)
Lemma increasing_ext l1 l2 : increasing l1 → increasing l2 → (∀ x, x ∈ l1 ↔ x ∈ l2) → l1 = l2.
Proof.
  intros [H1 N1]%increasing_spec [H2 N2]%increasing_spec H.
  eapply (StronglySorted_unique Z.le); [done..|]. by apply NoDup_Permutation.
Qed.

Lemma toggleDay_range l day :
  Forall (λ d, 0 <= d <= 6) l → 0 <= day <= 6 → Forall (λ d, 0 <= d <= 6) (toggleDay l day).
Proof.
  rewrite !Forall_forall. intros H Hd x [[Hx _]|[-> _]]%elem_of_toggleDay; auto.
Qed.

Lemma presetActive_spec p l : increasing p → increasing l → presetActive p l = bool_decide (p = l).
Proof.
  intros Hp Hl. apply eq_true_iff_eq. rewrite bool_decide_eq_true. unfold presetActive.
  rewrite andb_true_iff, Z.eqb_eq, forallb_forall. setoid_rewrite includes_day_spec. split.
  - intros [Hlen Hin]. apply increasing_ext; [done..|].
    apply increasing_spec in Hp as [_ Np]. apply increasing_spec in Hl as [_ Nl].
    assert (Hs : p ⊆+ l).
    { apply NoDup_submseteq; [done|]. intros x Hx. apply Hin. by apply list_elem_of_In. }
    intros x. apply submseteq_length_Permutation in Hs; [by rewrite Hs|lia].
  - intros ->. split; [done|]. intros x. by rewrite list_elem_of_In.
Qed.

#[export] Hint Resolve toggleDay_increasing toggleDay_range : console.

(** ** Picking times *)

Lemma partsOf_HHMM t : HHMM t = true →
  ∃ h m, 0 <= h < 24 ∧ 0 <= m < 60 ∧ partsOf t = (of_Z h, of_Z m) ∧ t = padTime (of_Z h) (of_Z m).
Proof.
  intros (h & m & Hh & Hm & E1 & E2 & E)%HHMM_split. exists h, m. split_and!; try lia; [|done].
  unfold partsOf. by rewrite E1, E2.
Qed.

Lemma two_digits_inj a b : 0 <= a → 0 <= b →
  (Z.to_N a / 10 = Z.to_N b / 10)%N → (Z.to_N a mod 10 = Z.to_N b mod 10)%N → a = b.
Proof.
  intros Ha Hb E1 E2. pose proof (N.div_mod (Z.to_N a) 10 ltac:(lia)).
  pose proof (N.div_mod (Z.to_N b) 10 ltac:(lia)). lia.
Qed.

(** The clock text determines its parts. *)
Lemma partsOf_padTime h m : 0 <= h < 24 → 0 <= m < 60 →
  partsOf (padTime (of_Z h) (of_Z m)) = (of_Z h, of_Z m).
Proof.
  intros Hh Hm. destruct (partsOf_HHMM _ (padTime_HHMM h m Hh Hm)) as (h' & m' & Hh' & Hm' & -> & E).
  unfold padTime in E. rewrite !pad2_Z in E by lia. change (u ":") with [58%N] in E.
  cbn [cat concat app] in E. injection E as E1 E2 E3 E4.
  replace h' with h by (apply two_digits_inj; lia). by replace m' with m by (apply two_digits_inj; lia).
Qed.

Lemma nonneg_text z : 0 <= z <= 2 ^ 53 → num_of_str (str_of_num (of_Z z)) = of_Z z.
Proof.
  intros H. rewrite str_of_num_Z by lia. unfold str_of_Z.
  destruct (Z.ltb_spec z 0); [lia|]. rewrite num_of_str_print by lia. by rewrite Z2N.id by lia.
Qed.

Lemma hourText_hour text : existsb (str_eqb text) hourTexts = true →
  ∃ h, 0 <= h < 24 ∧ text = str_of_num (of_Z h).
Proof.
  unfold hourTexts, HOURS. rewrite map_map. intros (t & (k & <- & Hk)%in_map_iff & E)%existsb_exists.
  apply in_seq in Hk. apply bool_decide_eq_true in E as ->. exists (Z.of_nat k). split; [lia|done].
Qed.

Lemma minuteOptions_Z m x : 0 <= m < 60 → x ∈ minuteOptions (of_Z m) →
  ∃ k, 0 <= k < 60 ∧ x = of_Z k.
Proof.
  intros Hm. unfold minuteOptions.
  assert (Hsteps : ∀ y, y ∈ map (λ k, of_Z (Z.of_nat k * 5)) (List.seq 0 12) → ∃ k, 0 <= k < 60 ∧ y = of_Z k).
  { intros y (k & <- & Hk)%list_elem_of_In%in_map_iff. apply in_seq in Hk.
    exists (Z.of_nat k * 5). split; [lia|done]. }
  case_on_goal; [apply Hsteps|]. unfold sort_nums. rewrite elem_of_sort_by, elem_of_app.
  intros [Hx|Hx%list_elem_of_singleton]; [by apply Hsteps|subst x; eauto].
Qed.

Lemma minuteOptions_current m : of_Z m ∈ minuteOptions (of_Z m).
Proof.
  unfold minuteOptions. case_on_goal.
  - apply existsb_exists in Heqb as (x & Hx & E). apply list_elem_of_In.
    apply in_map_iff in Hx as (k & <- & Hk). apply in_map_iff. exists k. split; [|done].
    unfold neqb, nle, of_Z in E. rewrite !Qle_bool_Z in E. b2p. unfold of_Z. f_equal.
    f_equal. lia.
  - unfold sort_nums. rewrite elem_of_sort_by. set_solver.
Qed.

Lemma minuteText_minute t text : HHMM t = true → existsb (str_eqb text) (minuteTexts t) = true →
  ∃ m, 0 <= m < 60 ∧ text = str_of_num (of_Z m).
Proof.
  intros (h & m & Hh & Hm & E & _)%partsOf_HHMM. unfold minuteTexts. rewrite E. cbn [snd].
  intros (s & (x & <- & Hx%list_elem_of_In)%in_map_iff & Es)%existsb_exists.
  apply bool_decide_eq_true in Es as ->. apply minuteOptions_Z in Hx as (k & Hk & ->); eauto.
Qed.

Lemma selectHour_parts t h : HHMM t = true → 0 <= h < 24 →
  HHMM (selectHour t (str_of_num (of_Z h))) = true
  ∧ partsOf (selectHour t (str_of_num (of_Z h))) = (of_Z h, (partsOf t).2).
Proof.
  intros (h0 & m & Hh0 & Hm & E & _)%partsOf_HHMM Hh. unfold selectHour. rewrite E. cbn [snd].
  rewrite nonneg_text by lia. pose proof (padTime_HHMM h m Hh Hm) as Hok. split; [done|].
  apply partsOf_padTime; done.
Qed.

Lemma selectMinute_parts t m : HHMM t = true → 0 <= m < 60 →
  HHMM (selectMinute t (str_of_num (of_Z m))) = true
  ∧ partsOf (selectMinute t (str_of_num (of_Z m))) = ((partsOf t).1, of_Z m).
Proof.
  intros (h & m0 & Hh & Hm0 & E & _)%partsOf_HHMM Hm. unfold selectMinute. rewrite E. cbn [fst].
  rewrite nonneg_text by lia. split; [by apply padTime_HHMM|by apply partsOf_padTime].
Qed.

Lemma hourText_HHMM t text : HHMM t = true → existsb (str_eqb text) hourTexts = true →
  HHMM (selectHour t text) = true.
Proof. intros Ht (h & Hh & ->)%hourText_hour. by apply selectHour_parts. Qed.

Lemma minuteText_HHMM t text : HHMM t = true → existsb (str_eqb text) (minuteTexts t) = true →
  HHMM (selectMinute t text) = true.
Proof. intros Ht (m & Hm & ->)%minuteText_minute; [by apply selectMinute_parts|done]. Qed.

Lemma preset_HHMM t : existsb (str_eqb t) TIME_PRESETS = true → HHMM t = true.
Proof.
  intros (p & Hp & ->%bool_decide_eq_true)%existsb_exists.
  repeat destruct Hp as [<-|Hp]; try reflexivity. done.
Qed.

#[export] Hint Resolve hourText_HHMM minuteText_HHMM preset_HHMM : console.

(** ** The draft invariant *)

Record draft_ok (d : Draft) : Prop := {
  ok_minute : 0 <= d_minute d <= 59;
  ok_time : HHMM (d_time d) = true;
  ok_increasing : increasing (d_weekdays d);
  ok_weekdays : Forall (λ x, 0 <= x <= 6) (d_weekdays d);
  ok_day : 1 <= d_dayOfMonth d <= 31;
  ok_fallback : d_fallback d ≠ KAdvanced;
  ok_kind : d_kind d = KAdvanced ∨ d_kind d = d_fallback d;
}.

#[export] Hint Resolve ok_minute ok_time ok_increasing ok_weekdays ok_day ok_fallback ok_kind : console.

Lemma draftFrom_ok s : valid_schedule s → draft_ok (draftFrom s).
Proof.
  destruct s; cbn [valid_schedule]; intros H; split; cbn; auto; try lia; try tauto;
    try (repeat constructor; lia); try reflexivity.
  all: destruct H as (? & Hne & ? & ?); destruct weekdays; done.
Qed.

Lemma toSchedule_draftFrom s : valid_schedule s → toSchedule (draftFrom s) = s.
Proof.
  destruct s; cbn [valid_schedule]; intros H; unfold toSchedule; cbn; auto.
  - destruct H as (? & Hne & [Hs _]%increasing_spec & _). destruct weekdays; [done|].
    cbn [length Z.of_nat]. rewrite sort_num_id by done. done.
  - f_equal. exact H.
Qed.

Lemma toSchedule_valid d : draft_ok d → isScheduleComplete (toSchedule d) = true →
  valid_schedule (toSchedule d).
Proof.
  intros Hd. unfold toSchedule. destruct (d_kind d); cbn [isScheduleComplete valid_schedule]; intros Hc; auto with console.
  - assert (E : sort_num (d_weekdays d) = d_weekdays d) by (apply sort_num_id, increasing_spec; auto with console).
    rewrite E in Hc |- *.
    split_and!; auto with console. intros E0. by rewrite E0 in Hc.
Qed.

Ltac draft_fields :=
  cbn [set_time set_weekdays set_kind typeCron d_kind d_minute d_time d_weekdays d_dayOfMonth
       d_cron d_fallback].

Lemma update_ok e msg : draft_ok (e_draft e) → offered e msg = true →
  draft_ok (e_draft (updateEditor e msg).1).
Proof.
  intros Hd Ho. destruct msg; cbn [offered] in Ho; cbn [updateEditor apply_patch fst e_draft]; try done; b2p.
  - assert (kind ≠ KAdvanced) by (intros ->; discriminate Ho). split; draft_fields; auto with console.
  - apply includes_day_spec in H0. split; draft_fields; auto with console.
    unfold HOURLY_MINUTES in H0. set_unfold; lia.
  - split; draft_fields; auto with console.
  - split; draft_fields; auto with console.
  - split; draft_fields; auto with console.
  - split; draft_fields; auto with console. change (Z.of_nat (length WEEKDAY_INITIALS)) with 7 in *.
    apply toggleDay_range; auto with console; lia.
  - apply existsb_exists in H0 as ((l & days') & Hin & Heq). b2p. cbn in Heq. subst days'.
    split; draft_fields; auto with console; repeat destruct Hin as [[= <- <-]|Hin]; try done;
      repeat constructor; lia.
  - split; draft_fields; auto with console. unfold monthDayOffered in H0. apply orb_true_iff in H0 as [H0|H0].
    + apply includes_day_spec in H0. apply list_elem_of_In, in_map_iff in H0 as (k & <- & Hk).
      apply in_seq in Hk. lia.
    + b2p. lia.
  - destruct (non_blank text) eqn:E; split; draft_fields; auto with console; rewrite E; auto.
Qed.

Lemma session_invariant start e value : valid_schedule start → session start (e, value) →
  draft_ok (e_draft e) ∧ value = toSchedule (e_draft e).
Proof.
  intros Hs Hst. change e with (e, value).1. change value with (e, value).2 at 2.
  induction Hst as [|[e' value'] msg _ [Hd Hv] Ho]; cbn [fst snd] in *.
  - split; [by apply draftFrom_ok|]. symmetry. by apply toSchedule_draftFrom.
  - split; [by apply update_ok|]. by destruct msg.
Qed.



(** ** Switching cadence *)

Definition pick_all (e : Editor) (ks : list ScheduleKind) : Editor :=
  fold_left (λ st k, (updateEditor st (PickCadence k)).1) ks e.

Lemma pick_all_fields ks e :
  let d := e_draft e in
  let d' := e_draft (pick_all e ks) in
  d_minute d' = d_minute d ∧ d_time d' = d_time d ∧ d_weekdays d' = d_weekdays d
  ∧ d_dayOfMonth d' = d_dayOfMonth d ∧ d_cron d' = d_cron d.
Proof.
  revert e. induction ks as [|k ks IH]; intros e; [done|].
  unfold pick_all. cbn [fold_left]. apply (IH (mkEditor (set_kind k k (e_draft e)) false)).
Qed.

(** Trying other cadences loses nothing: after any tour of the tiles that
    ends on the original cadence, the schedule handed to the parent is the
    original one. *)
Theorem cadence_tour e ks k :
  d_kind (e_draft e) = k →
  (updateEditor (pick_all e ks) (PickCadence k)).2 = Some (toSchedule (e_draft e)).
Proof.
  intros <-. cbn [updateEditor apply_patch snd e_draft]. f_equal.
  destruct (pick_all_fields ks e) as (E1 & E2 & E3 & E4 & E5).
  unfold toSchedule, set_kind. draft_fields. by rewrite E1, E2, E3, E4, E5.
Qed.


(** ** The cron escape hatch *)

Definition type_all (e : Editor) (texts : list jsstr) : Editor :=
  fold_left (λ st t, (updateEditor st (TypeCron t)).1) texts e.

Lemma type_all_fields texts e :
  let d := e_draft e in
  let d' := e_draft (type_all e texts) in
  d_minute d' = d_minute d ∧ d_time d' = d_time d ∧ d_weekdays d' = d_weekdays d
  ∧ d_dayOfMonth d' = d_dayOfMonth d ∧ d_fallback d' = d_fallback d.
Proof.
  revert e. induction texts as [|t ts IH]; intros e; [done|].
  unfold type_all. cbn [fold_left]. apply (IH (mkEditor (typeCron t (e_draft e)) (e_advancedOpen e))).
Qed.

(** In a session on a normal-form schedule, typing any cron expressions and
    then emptying the field hands control back to the cadence that was in
    force: the emitted schedule is never an advanced one, and when the cadence
    tiles were in force before, it is the schedule they showed. *)
Theorem cron_cleared start e value texts blank :
  valid_schedule start → session start (e, value) → non_blank blank = false →
  ∃ s, (updateEditor (type_all e texts) (TypeCron blank)).2 = Some s
    ∧ kind_of s = d_fallback (e_draft e) ∧ kind_of s ≠ KAdvanced
    ∧ (d_kind (e_draft e) ≠ KAdvanced → s = value).
Proof.
  intros Hs He Hb. destruct (session_invariant _ _ _ Hs He) as [Hd ->].
  destruct (type_all_fields texts e) as (E1 & E2 & E3 & E4 & E5).
  pose proof (ok_fallback _ Hd) as Hf.
  eexists. split; [reflexivity|]. unfold toSchedule, typeCron. rewrite Hb. draft_fields.
  rewrite E1, E2, E3, E4, E5. split_and!; [by destruct (d_fallback (e_draft e))..|].
  intros Hk. destruct (ok_kind _ Hd) as [?|Hk']; [done|]. rewrite Hk'.
  by destruct (d_fallback (e_draft e)).
Qed.

(** ** The controls *)

(** The time control changes one part at a time and can show what it holds:
    on a well-formed time the current hour and minute are among its options,
    choosing an option sets that part and keeps the other, and choosing the
    shown parts changes nothing. *)
Theorem timeField_exact t text :
  HHMM t = true →
  str_of_num (partsOf t).1 ∈ hourTexts ∧ str_of_num (partsOf t).2 ∈ minuteTexts t
  ∧ selectHour t (str_of_num (partsOf t).1) = t ∧ selectMinute t (str_of_num (partsOf t).2) = t
  ∧ (text ∈ hourTexts →
       partsOf (selectHour t text) = (num_of_str text, (partsOf t).2) ∧ HHMM (selectHour t text) = true)
  ∧ (text ∈ minuteTexts t →
       partsOf (selectMinute t text) = ((partsOf t).1, num_of_str text) ∧ HHMM (selectMinute t text) = true).
Proof.
  intros Ht. destruct (partsOf_HHMM t Ht) as (h & m & Hh & Hm & E & Et).
  assert (Hex : ∀ s l, s ∈ l → existsb (str_eqb s) l = true).
  { intros s l Hs%list_elem_of_In. apply existsb_exists. exists s. split; [done|].
    by apply bool_decide_eq_true. }
  split_and!.
  - rewrite E. unfold hourTexts, HOURS. rewrite map_map. apply list_elem_of_In, in_map_iff.
    exists (Z.to_nat h). cbn [fst]. rewrite Z2Nat.id by lia. split; [done|]. apply in_seq. lia.
  - unfold minuteTexts. rewrite E. apply list_elem_of_In, in_map, list_elem_of_In, minuteOptions_current.
  - unfold selectHour. rewrite E. cbn [fst snd]. by rewrite nonneg_text, <- Et by lia.
  - unfold selectMinute. rewrite E. cbn [fst snd]. by rewrite nonneg_text, <- Et by lia.
  - intros (h' & Hh' & ->)%Hex%hourText_hour. rewrite nonneg_text by lia.
    destruct (selectHour_parts t h' Ht Hh') as [H1 ->]. done.
  - intros Hm'%Hex. destruct (minuteText_minute t text Ht Hm') as (m' & Hm1 & ->).
    rewrite nonneg_text by lia. destruct (selectMinute_parts t m' Ht Hm1) as [H1 ->]. done.
Qed.


(** A weekday button toggles exactly its own day, keeps the selection a
    strictly increasing list of days 0..6, and pressing it twice restores the
    selection; a weekday preset is shown pressed exactly when it is the
    selection. *)
Theorem weekday_buttons l day :
  increasing l → Forall (λ d, 0 <= d <= 6) l → 0 <= day <= 6 →
  increasing (toggleDay l day) ∧ Forall (λ d, 0 <= d <= 6) (toggleDay l day)
  ∧ (∀ x, x ∈ toggleDay l day ↔ (if decide (x = day) then x ∉ l else x ∈ l))
  ∧ toggleDay (toggleDay l day) day = l
  ∧ (∀ p, p ∈ WEEKDAY_PRESETS → presetActive p.2 l = bool_decide (p.2 = l)).
Proof.
  intros Hi Hr Hd. assert (Hmem : ∀ x, x ∈ toggleDay l day ↔ (if decide (x = day) then x ∉ l else x ∈ l)).
  { intros x. rewrite elem_of_toggleDay. case_decide; [subst x|]; naive_solver. }
  split_and!; auto with console.
  - apply increasing_ext; auto with console. intros x. rewrite !elem_of_toggleDay.
    destruct (decide (x = day)) as [->|]; destruct (decide (day ∈ l)); naive_solver.
  - intros p Hp. assert (Hpi : increasing p.2).
    { unfold WEEKDAY_PRESETS in Hp. set_unfold. destruct_or! Hp; subst p; repeat constructor; lia. }
    apply presetActive_spec; done.
Qed.

