(* ===== verification/Policy.v ===== *)
(** * Protection policies (web/src/api.ts, web/src/components/PolicyStep.tsx)

    The policy a job carries, its tolerant reader, its summary for an operator,
    and the form step that edits it. *)
From S2P Require Import Prelude JsString JsNumber JsValue Schedule ScheduleText.

Inductive JobKind := JVm | JAgent.
Inductive Quiesce := QNone | QGuestAgent.

#[export] Instance JobKind_eq_dec : EqDecision JobKind.
Proof. solve_decision. Defined.
#[export] Instance Quiesce_eq_dec : EqDecision Quiesce.
Proof. solve_decision. Defined.

Record BackupWindow := mkWindow { w_start : jsstr; w_end : jsstr }.

Record JobPolicy := mkPolicy {
  quiesce : Quiesce;
  excludeDisks : list jsstr;
  excludePaths : list jsstr;
  retryCount : Z;
  retryDelayMinutes : Z;
  maxDurationMinutes : Z;
  window : option BackupWindow;
  preScript : jsstr;
  postScript : jsstr;
  scriptTimeoutSeconds : Z;
  uploadLimitMbpsOverride : Z;
}.

Definition DEFAULT_POLICY : JobPolicy := mkPolicy QNone [] [] 0 5 0 None [] [] 30 0.

Definition stringList (value : jsval) : list jsstr :=
  List.filter (λ item, negb (str_eqb item [])) (map trim (only_strings (array_or_nil value))).

Definition windowOf (value : jsval) : option BackupWindow :=
  if is_object value then
    let start := timeOf (get value "start") [] in
    let end_ := timeOf (get value "end") [] in
    if str_eqb start [] || str_eqb end_ [] then None else Some (mkWindow start end_)
  else None.

Definition parsePolicy (value : jsval) : JobPolicy :=
  if is_object value then
    mkPolicy
      (if is_str (get value "quiesce") "guest-agent" then QGuestAgent else QNone)
      (stringList (get value "excludeDisks"))
      (stringList (get value "excludePaths"))
      (clampInt (get value "retryCount") 0 5 0)
      (clampInt (get value "retryDelayMinutes") 1 120 5)
      (clampInt (get value "maxDurationMinutes") 0 10080 0)
      (windowOf (get value "window"))
      (str_or [] (get value "preScript"))
      (str_or [] (get value "postScript"))
      (clampInt (get value "scriptTimeoutSeconds") 1 3600 30)
      (clampInt (get value "uploadLimitMbpsOverride") 0 10000 0)
  else DEFAULT_POLICY.

Definition isDefaultPolicy (policy : JobPolicy) : bool :=
  bool_decide (quiesce policy = quiesce DEFAULT_POLICY)
  && is_nil (excludeDisks policy)
  && is_nil (excludePaths policy)
  && (retryCount policy =? retryCount DEFAULT_POLICY)
  && (maxDurationMinutes policy =? maxDurationMinutes DEFAULT_POLICY)
  && is_none (window policy)
  && str_eqb (preScript policy) []
  && str_eqb (postScript policy) []
  && (uploadLimitMbpsOverride policy =? uploadLimitMbpsOverride DEFAULT_POLICY).

(** [if (c) out.push(text)]. *)
Definition push_if (c : bool) (text : jsstr) : list jsstr := if c then [text] else [].

Definition policyHighlights (policy : JobPolicy) (kind : JobKind) : list jsstr :=
  push_if (bool_decide (quiesce policy = QGuestAgent)) (u "Guest-agent quiescing")
  ++ push_if (bool_decide (kind = JVm) && negb (is_nil (excludeDisks policy)))
       (cat [u "Excludes "; join (u ", ") (excludeDisks policy)])
  ++ push_if (bool_decide (kind = JAgent) && negb (is_nil (excludePaths policy)))
       (match excludePaths policy with
        | [path] => cat [u "Excludes "; path]
        | paths => cat [u "Excludes "; str_of_Z (Z.of_nat (length paths)); u " path patterns"]
        end)
  ++ push_if (0 <? retryCount policy)
       (cat [u "Retries "; str_of_Z (retryCount policy); u "× after ";
             str_of_Z (retryDelayMinutes policy); u " min"])
  ++ push_if (0 <? maxDurationMinutes policy)
       (cat [u "Stops after "; str_of_Z (maxDurationMinutes policy); u " min"])
  ++ match window policy with
     | Some w => [cat [u "Starts only "; w_start w; u "–"; w_end w]]
     | None => []
     end
  ++ push_if (negb (str_eqb (preScript policy) [])) (u "Pre-backup script")
  ++ push_if (negb (str_eqb (postScript policy) [])) (u "Post-backup script")
  ++ push_if (0 <? uploadLimitMbpsOverride policy)
       (cat [u "Upload capped at "; str_of_Z (uploadLimitMbpsOverride policy); u " Mbps"]).

(** The object a policy is on the wire. *)
Definition window_val (w : option BackupWindow) : jsval :=
  match w with
  | None => VNull
  | Some w => VObj [(u "start", VStr (w_start w)); (u "end", VStr (w_end w))]
  end.

Definition policy_val (p : JobPolicy) : jsval :=
  VObj [ (u "quiesce", VStr (match quiesce p with QNone => u "none" | QGuestAgent => u "guest-agent" end));
         (u "excludeDisks", VArr (map VStr (excludeDisks p)));
         (u "excludePaths", VArr (map VStr (excludePaths p)));
         (u "retryCount", VNum (of_Z (retryCount p)));
         (u "retryDelayMinutes", VNum (of_Z (retryDelayMinutes p)));
         (u "maxDurationMinutes", VNum (of_Z (maxDurationMinutes p)));
         (u "window", window_val (window p));
         (u "preScript", VStr (preScript p));
         (u "postScript", VStr (postScript p));
         (u "scriptTimeoutSeconds", VNum (of_Z (scriptTimeoutSeconds p)));
         (u "uploadLimitMbpsOverride", VNum (of_Z (uploadLimitMbpsOverride p))) ].

(** ** The form step *)

(** [clampInt] of PolicyStep.tsx, on the text of a number input. *)
Definition clampText (value : jsstr) (min max : Z) : Z :=
  match num_of_str value with
  | Fin q => Z.max min (Z.min max (qround q))
  | _ => min
  end.

(** [TokenList]: its draft and list, adding and removing an entry. *)
Record Tokens := mkTokens { t_draft : jsstr; t_values : list jsstr }.

Definition includes_str (l : list jsstr) (s : jsstr) : bool := existsb (str_eqb s) l.

Definition addToken (t : Tokens) : Tokens :=
  let value := trim (t_draft t) in
  if str_eqb value [] || includes_str (t_values t) value then mkTokens [] (t_values t)
  else mkTokens [] (t_values t ++ [value]).

Definition removeToken (t : Tokens) (value : jsstr) : Tokens :=
  mkTokens (t_draft t) (List.filter (λ item, negb (str_eqb item value)) (t_values t)).

Definition addDisabled (t : Tokens) : bool := negb (non_blank (t_draft t)).

(** The form: the policy, and the drafts of its two token lists. *)
Record PolicyForm := mkForm { f_policy : JobPolicy; f_diskDraft : jsstr; f_pathDraft : jsstr }.

Inductive PolicyMsg :=
  | ResetPolicy
  | SetQuiesce (q : Quiesce)
  | TypeDisk (text : jsstr) | AddDisk | RemoveDisk (value : jsstr)
  | TypePath (text : jsstr) | AddPath | RemovePath (value : jsstr)
  | SetRetryCount (text : jsstr)
  | SetRetryDelay (text : jsstr)
  | SetMaxDuration (text : jsstr)
  | SetWindowOn (checked : bool)
  | SetWindowStart (time : jsstr)
  | SetWindowEnd (time : jsstr)
  | SetPreScript (text : jsstr)
  | SetPostScript (text : jsstr)
  | SetScriptTimeout (text : jsstr)
  | SetUploadLimit (text : jsstr).

Definition patchPolicy (p : JobPolicy) (msg : PolicyMsg) : JobPolicy :=
  let '(mkPolicy q disks paths rc rd md w pre post to up) := p in
  match msg with
  | ResetPolicy => DEFAULT_POLICY
  | SetQuiesce q => mkPolicy q disks paths rc rd md w pre post to up
  | SetRetryCount t => mkPolicy q disks paths (clampText t 0 5) rd md w pre post to up
  | SetRetryDelay t => mkPolicy q disks paths rc (clampText t 1 120) md w pre post to up
  | SetMaxDuration t => mkPolicy q disks paths rc rd (clampText t 0 10080) w pre post to up
  | SetWindowOn on =>
      mkPolicy q disks paths rc rd md (if on then Some (mkWindow (u "22:00") (u "06:00")) else None) pre post to up
  | SetWindowStart t =>
      mkPolicy q disks paths rc rd md
        (Some (mkWindow t (match w with Some w => w_end w | None => u "06:00" end))) pre post to up
  | SetWindowEnd t =>
      mkPolicy q disks paths rc rd md
        (Some (mkWindow (match w with Some w => w_start w | None => u "22:00" end) t)) pre post to up
  | SetPreScript t => mkPolicy q disks paths rc rd md w t post to up
  | SetPostScript t => mkPolicy q disks paths rc rd md w pre t to up
  | SetScriptTimeout t => mkPolicy q disks paths rc rd md w pre post (clampText t 1 3600) up
  | SetUploadLimit t => mkPolicy q disks paths rc rd md w pre post to (clampText t 0 10000)
  | TypeDisk _ | AddDisk | RemoveDisk _ | TypePath _ | AddPath | RemovePath _ => p
  end.

Definition set_disks (l : list jsstr) (p : JobPolicy) : JobPolicy :=
  let '(mkPolicy q _ paths rc rd md w pre post to up) := p in mkPolicy q l paths rc rd md w pre post to up.
Definition set_paths (l : list jsstr) (p : JobPolicy) : JobPolicy :=
  let '(mkPolicy q disks _ rc rd md w pre post to up) := p in mkPolicy q disks l rc rd md w pre post to up.

Definition on_disks (f : Tokens → Tokens) (s : PolicyForm) : PolicyForm :=
  let t := f (mkTokens (f_diskDraft s) (excludeDisks (f_policy s))) in
  mkForm (set_disks (t_values t) (f_policy s)) (t_draft t) (f_pathDraft s).
Definition on_paths (f : Tokens → Tokens) (s : PolicyForm) : PolicyForm :=
  let t := f (mkTokens (f_pathDraft s) (excludePaths (f_policy s))) in
  mkForm (set_paths (t_values t) (f_policy s)) (f_diskDraft s) (t_draft t).

Definition updatePolicy (s : PolicyForm) (msg : PolicyMsg) : PolicyForm :=
  match msg with
  | TypeDisk text => on_disks (λ t, mkTokens text (t_values t)) s
  | AddDisk => on_disks addToken s
  | RemoveDisk value => on_disks (λ t, removeToken t value) s
  | TypePath text => on_paths (λ t, mkTokens text (t_values t)) s
  | AddPath => on_paths addToken s
  | RemovePath value => on_paths (λ t, removeToken t value) s
  | _ => mkForm (patchPolicy (f_policy s) msg) (f_diskDraft s) (f_pathDraft s)
  end.

(** A time input holds a well-formed time or nothing. *)
Definition time_input (t : jsstr) : bool := str_eqb t [] || HHMM t.

(** Whether the rendered step offers a control. *)
Definition policyOffered (kind : JobKind) (s : PolicyForm) (msg : PolicyMsg) : bool :=
  let p := f_policy s in
  match msg with
  | ResetPolicy => negb (isDefaultPolicy p)
  | TypeDisk _ | AddDisk => bool_decide (kind = JVm)
  | RemoveDisk value => bool_decide (kind = JVm) && includes_str (excludeDisks p) value
  | TypePath _ | AddPath => bool_decide (kind = JAgent)
  | RemovePath value => bool_decide (kind = JAgent) && includes_str (excludePaths p) value
  | SetRetryDelay _ => negb (retryCount p =? 0)
  | SetWindowStart t | SetWindowEnd t => negb (is_none (window p)) && time_input t
  | _ => true
  end.

(** The lines the step shows: the summary and the hint of each disclosure. *)
Definition count_hint (none : jsstr) (l : list jsstr) : jsstr :=
  if is_nil l then none else cat [str_of_Z (Z.of_nat (length l)); u " excluded"].

Definition policyHints (p : JobPolicy) (kind : JobKind) : list jsstr :=
  [ if isDefaultPolicy p then u "Standard protection — nothing here is in force."
    else join (u " · ") (policyHighlights p kind);
    if bool_decide (quiesce p = QNone) then u "Crash-consistent" else u "Quiesced";
    if bool_decide (kind = JVm) then count_hint (u "All disks") (excludeDisks p)
    else count_hint (u "All selected paths") (excludePaths p);
    if (retryCount p =? 0) && (maxDurationMinutes p =? 0) && is_none (window p)
    then u "No limits" else u "Limited";
    if negb (str_eqb (preScript p) []) || negb (str_eqb (postScript p) []) then u "Scripts set" else u "None";
    if uploadLimitMbpsOverride p =? 0 then u "Global limit"
    else cat [str_of_Z (uploadLimitMbpsOverride p); u " Mbps"] ].

Definition PolicySummary (p : JobPolicy) (kind : JobKind) : list jsstr :=
  let highlights := policyHighlights p kind in
  if is_nil highlights then [u "Standard protection"] else highlights.

(** ** Well-formed policies *)

Definition tokens_ok (l : list jsstr) : Prop := Forall (λ s, trim s = s ∧ s ≠ []) l.

Definition window_ok (w : option BackupWindow) : Prop :=
  match w with Some w => HHMM (w_start w) = true ∧ HHMM (w_end w) = true | None => True end.

(** Everything but the window. *)
Record fields_ok (p : JobPolicy) : Prop := {
  ok_disks : tokens_ok (excludeDisks p);
  ok_paths : tokens_ok (excludePaths p);
  ok_retryCount : 0 <= retryCount p <= 5;
  ok_retryDelay : 1 <= retryDelayMinutes p <= 120;
  ok_maxDuration : 0 <= maxDurationMinutes p <= 10080;
  ok_timeout : 1 <= scriptTimeoutSeconds p <= 3600;
  ok_upload : 0 <= uploadLimitMbpsOverride p <= 10000;
}.

Definition valid_policy (p : JobPolicy) : Prop := fields_ok p ∧ window_ok (window p).

#[export] Hint Resolve ok_disks ok_paths ok_retryCount ok_retryDelay ok_maxDuration ok_timeout ok_upload : console.

Lemma stringList_ok v : tokens_ok (stringList v).
Proof.
  unfold tokens_ok, stringList. apply Forall_forall. intros s Hs.
  apply list_elem_of_In, filter_In in Hs as [Hs Hne]. apply in_map_iff in Hs as (t & <- & _).
  split; [apply trim_idem|]. unfold str_eqb in Hne. b2p. done.
Qed.

Lemma stringList_id l : tokens_ok l → stringList (VArr (map VStr l)) = l.
Proof.
  intros H. unfold stringList. cbn [array_or_nil]. rewrite only_strings_map.
  induction H as [|s l [Ht Hs] _ IH]; [done|]. cbn [map List.filter]. rewrite Ht.
  unfold str_eqb in *. rewrite bool_decide_eq_false_2 by done. cbn [negb]. by rewrite IH.
Qed.

Lemma timeOf_empty v : timeOf v [] = [] ∨ HHMM (timeOf v []) = true.
Proof. unfold timeOf. destruct v; auto. destruct (HHMM s) eqn:E; auto. Qed.

Lemma windowOf_ok v : window_ok (windowOf v).
Proof.
  unfold windowOf. destruct (is_object v); [|done]. unfold str_eqb.
  destruct (timeOf_empty (get v "start")) as [->|Hs]; [done|].
  destruct (timeOf_empty (get v "end")) as [->|He]; [by rewrite orb_true_r|].
  case_on_goal; done.
Qed.

(** What an operator's window reads back as: nothing while an end is missing. *)
Definition complete_window (w : option BackupWindow) : option BackupWindow :=
  match w with
  | Some (mkWindow s e) => if str_eqb s [] || str_eqb e [] then None else w
  | None => None
  end.

Lemma windowOf_val w :
  match w with Some w => time_input (w_start w) = true ∧ time_input (w_end w) = true | None => True end →
  windowOf (window_val w) = complete_window w.
Proof.
  destruct w as [[s e]|]; [|done]. cbn [w_start w_end]. intros [Hs He].
  assert (Ht : ∀ t, time_input t = true → timeOf (VStr t) [] = t).
  { intros t. unfold time_input, str_eqb, timeOf. rewrite orb_true_iff, bool_decide_eq_true.
    intros [->| ->]; done. }
  unfold windowOf, window_val. cbn [w_start w_end]. js_eval. rewrite !Ht by done. done.
Qed.

Lemma parsePolicy_val p : fields_ok p →
  match window p with Some w => time_input (w_start w) = true ∧ time_input (w_end w) = true | None => True end →
  parsePolicy (policy_val p) =
  mkPolicy (quiesce p) (excludeDisks p) (excludePaths p) (retryCount p) (retryDelayMinutes p)
    (maxDurationMinutes p) (complete_window (window p)) (preScript p) (postScript p)
    (scriptTimeoutSeconds p) (uploadLimitMbpsOverride p).
Proof.
  intros Hp Hw. unfold parsePolicy, policy_val. js_eval.
  rewrite !clampInt_Z, !stringList_id, windowOf_val by auto with console.
  f_equal. by destruct (quiesce p).
Qed.

(** ** Editing *)

Lemma clampText_range t lo hi : lo <= hi → lo <= clampText t lo hi <= hi.
Proof. intros H. unfold clampText. case_match; lia. Qed.

#[export] Hint Resolve clampText_range stringList_ok windowOf_ok : console.

Lemma addToken_ok t : tokens_ok (t_values t) → tokens_ok (t_values (addToken t)).
Proof.
  intros H. unfold addToken, tokens_ok. destruct (str_eqb (trim (t_draft t)) []) eqn:E; [done|].
  cbn [orb]. case_on_goal; [done|]. cbn [t_values]. apply Forall_app. split; [done|].
  constructor; [|constructor]. split; [apply trim_idem|]. unfold str_eqb in E. b2p. done.
Qed.

Lemma removeToken_ok t v : tokens_ok (t_values t) → tokens_ok (t_values (removeToken t v)).
Proof.
  unfold tokens_ok. rewrite !Forall_forall. intros H s Hs. apply H.
  apply list_elem_of_In, filter_In in Hs as [Hs _]. by apply list_elem_of_In.
Qed.

Definition form_ok (s : PolicyForm) : Prop :=
  fields_ok (f_policy s)
  ∧ match window (f_policy s) with
    | Some w => time_input (w_start w) = true ∧ time_input (w_end w) = true
    | None => True
    end.

Lemma fields_default : fields_ok DEFAULT_POLICY.
Proof. split; cbn; try lia; constructor. Qed.

Ltac policy_fields :=
  cbn [updatePolicy patchPolicy on_disks on_paths f_policy f_diskDraft f_pathDraft set_disks set_paths
       quiesce excludeDisks excludePaths retryCount retryDelayMinutes maxDurationMinutes window
       preScript postScript scriptTimeoutSeconds uploadLimitMbpsOverride t_values w_start w_end] in *.

Lemma fields_ok_set_disks p l : fields_ok p → tokens_ok l → fields_ok (set_disks l p).
Proof. destruct p. intros [] Hl. by split; policy_fields. Qed.

Lemma fields_ok_set_paths p l : fields_ok p → tokens_ok l → fields_ok (set_paths l p).
Proof. destruct p. intros [] Hl. by split; policy_fields. Qed.

Lemma patchPolicy_fields p msg : fields_ok p → fields_ok (patchPolicy p msg).
Proof.
  destruct p. intros Hf. destruct msg; try exact Hf; try apply fields_default;
    destruct Hf; split; policy_fields; auto with console lia.
Qed.

Lemma window_set_disks l p : window (set_disks l p) = window p.
Proof. by destruct p. Qed.
Lemma window_set_paths l p : window (set_paths l p) = window p.
Proof. by destruct p. Qed.

Lemma patchPolicy_window kind s msg :
  form_ok s → policyOffered kind s msg = true →
  match window (patchPolicy (f_policy s) msg) with
  | Some w => time_input (w_start w) = true ∧ time_input (w_end w) = true
  | None => True
  end.
Proof.
  destruct s as [[q disks paths rc rd md w pre post to up] dd pd].
  intros [_ Hw] Ho. destruct msg; policy_fields; try exact Hw; try done.
  - by destruct checked.
  - cbn [policyOffered f_policy window] in Ho. b2p. destruct w as [w|]; naive_solver.
  - cbn [policyOffered f_policy window] in Ho. b2p. destruct w as [w|]; naive_solver.
Qed.

Lemma updatePolicy_ok kind s msg : form_ok s → policyOffered kind s msg = true → form_ok (updatePolicy s msg).
Proof.
  intros Hs Ho. pose proof (patchPolicy_window kind s msg Hs Ho) as Hw'.
  pose proof (patchPolicy_fields (f_policy s) msg (proj1 Hs)) as Hf'. destruct Hs as [Hf Hw].
  assert (Hd : ∀ f : Tokens → Tokens, (∀ t, tokens_ok (t_values t) → tokens_ok (t_values (f t))) →
    form_ok (on_disks f s)).
  { intros f Hfn. split; cbn [on_disks f_policy]; [|by rewrite window_set_disks].
    apply fields_ok_set_disks; [done|]. apply Hfn. by destruct Hf. }
  assert (Hp : ∀ f : Tokens → Tokens, (∀ t, tokens_ok (t_values t) → tokens_ok (t_values (f t))) →
    form_ok (on_paths f s)).
  { intros f Hfn. split; cbn [on_paths f_policy]; [|by rewrite window_set_paths].
    apply fields_ok_set_paths; [done|]. apply Hfn. by destruct Hf. }
  destruct msg; cbn [updatePolicy]; try (by split).
  - by apply Hd.
  - apply Hd, addToken_ok.
  - apply Hd. intros t. apply removeToken_ok.
  - by apply Hp.
  - apply Hp, addToken_ok.
  - apply Hp. intros t. apply removeToken_ok.
Qed.

(** A session of the step on a policy of a job of kind [kind]. *)
Inductive policy_session (kind : JobKind) (start : JobPolicy) : PolicyForm → Prop :=
  | policy_open : policy_session kind start (mkForm start [] [])
  | policy_step s msg :
      policy_session kind start s → policyOffered kind s msg = true →
      policy_session kind start (updatePolicy s msg).

Lemma policy_session_ok kind start s : valid_policy start → policy_session kind start s → form_ok s.
Proof.
  intros [Hf Hw]. induction 1; [|by eapply updatePolicy_ok].
  split; [done|]. cbn [f_policy]. destruct (window start) as [w|]; [|done].
  destruct Hw as [Hs He]. unfold time_input. by rewrite Hs, He, !orb_true_r.
Qed.

Definition set_window (w : option BackupWindow) (p : JobPolicy) : JobPolicy :=
  let '(mkPolicy q disks paths rc rd md _ pre post to up) := p in
  mkPolicy q disks paths rc rd md w pre post to up.

Lemma valid_complete s : form_ok s → valid_policy (set_window (complete_window (window (f_policy s))) (f_policy s)).
Proof.
  destruct s as [[q disks paths rc rd md w pre post to up] dd pd]. intros [Hf Hw]. split.
  - destruct Hf. by split; policy_fields.
  - policy_fields. cbn [set_window window]. destruct w as [[s e]|]; [|done]. cbn [complete_window].
    unfold time_input, str_eqb in *. policy_fields. repeat case_bool_decide; cbn in *; naive_solver.
Qed.

(** [parsePolicy] normalises. *)
Lemma parsePolicy_normal v : valid_policy (parsePolicy v).
Proof.
  unfold parsePolicy. destruct (is_object v); [|by split; [apply fields_default|]].
  split; [split|]; policy_fields; auto with console; apply clampInt_range; lia.
Qed.

#[export] Hint Resolve parsePolicy_normal : console.

(** C10: whatever a job's [policy] holds, [parsePolicy] gives a policy within its
    bounds: counters in range, trimmed non-empty exclusions, and a window only
    when both of its ends are clock times. *)
Theorem parsePolicy_valid v : valid_policy (parsePolicy v).
Proof. apply parsePolicy_normal. Qed.

(** C11: in every session of the step on a well-formed policy, what is saved is
    read back as what the form shows, except that a window missing an end is
    read back as no window; the result is again well formed. *)
Theorem policy_session_saved kind start s :
  valid_policy start → policy_session kind start s →
  parsePolicy (policy_val (f_policy s)) = set_window (complete_window (window (f_policy s))) (f_policy s)
  ∧ valid_policy (parsePolicy (policy_val (f_policy s))).
Proof.
  intros Hv Hs. pose proof (policy_session_ok _ _ _ Hv Hs) as Hok. destruct (Hok) as [Hf Hw].
  rewrite parsePolicy_val by done. split; [by destruct (f_policy s)|].
  pose proof (valid_complete s Hok) as H. by destruct (f_policy s).
Qed.

Lemma policy_session_saved_witness :
  let s := fold_left updatePolicy [SetWindowOn true; SetWindowStart []; SetRetryCount (u "9")]
             (mkForm DEFAULT_POLICY [] []) in
  retryCount (f_policy s) = 5 ∧ window (f_policy s) ≠ None ∧
  parsePolicy (policy_val (f_policy s)) = set_window None (f_policy s).
Proof.
  intros s. split; [vm_compute; reflexivity|]. split; [discriminate|].
  assert (Hv : valid_policy DEFAULT_POLICY).
  { split; [|exact I]. split; cbn; try lia; constructor. }
  refine (proj1 (policy_session_saved JVm DEFAULT_POLICY s Hv _)).
  apply policy_step; [|vm_compute; reflexivity].
  apply policy_step; [|vm_compute; reflexivity].
  apply policy_step; [|vm_compute; reflexivity].
  apply policy_open.
Defined.

(** A policy counts as standard exactly when it differs from the defaults
    in nothing but the delay between retries and the script timeout (which
    matter only with retries or scripts), and then nothing is listed for the
    operator; conversely, for a job whose policy excludes nothing of the other
    job kind, an empty list means a standard policy. *)
Theorem isDefaultPolicy_spec p kind :
  valid_policy p →
  (isDefaultPolicy p = true ↔
     p = mkPolicy QNone [] [] 0 (retryDelayMinutes p) 0 None [] [] (scriptTimeoutSeconds p) 0)
  ∧ (isDefaultPolicy p = true → policyHighlights p kind = [])
  ∧ ((kind = JVm → excludePaths p = []) → (kind = JAgent → excludeDisks p = []) →
     policyHighlights p kind = [] → isDefaultPolicy p = true).
Proof.
  intros [Hf _]. destruct p as [q disks paths rc rd md w pre post to up]. destruct Hf. policy_fields.
  assert (Hd : isDefaultPolicy (mkPolicy q disks paths rc rd md w pre post to up) = true ↔
     mkPolicy q disks paths rc rd md w pre post to up = mkPolicy QNone [] [] 0 rd 0 None [] [] to 0).
  { unfold isDefaultPolicy, str_eqb. cbn [DEFAULT_POLICY]. policy_fields. split.
    - intros H. b2p. destruct disks, paths, w; try done. by subst.
    - by intros [= -> -> -> -> -> -> -> -> ->]. }
  split; [done|]. split.
  - intros [= -> -> -> -> -> -> -> -> ->]%Hd. by destruct kind.
  - intros Hk1 Hk2 H. apply Hd. unfold policyHighlights in H. policy_fields.
    repeat match goal with E : _ ++ _ = [] |- _ => apply app_eq_nil in E as [? E] end.
    assert (Hdisks : disks = []) by (destruct kind; [by destruct disks|by apply Hk2]).
    assert (Hpaths : paths = []) by (destruct kind; [by apply Hk1|by destruct paths as [|? []]]).
    unfold push_if, str_eqb in *. repeat case_on_hyp; try done. b2p.
    destruct q; [|done]. f_equal; try done; lia.
Qed.
