(* ===== verification/Retention.v ===== *)
(** * Retention (web/src/api.ts, web/src/components/RetentionStep.tsx)

    The keep rules of a job, their tolerant reader and summary, the form step
    that edits them, and the debounced preview of what they keep. *)
From S2P Require Import Prelude JsString JsNumber JsValue Schedule Policy.

Record RetentionPolicy := mkRetention {
  keepLast : Z;
  keepDaily : Z;
  keepWeekly : Z;
  keepMonthly : Z;
  keepYearly : Z;
}.

#[export] Instance RetentionPolicy_eq_dec : EqDecision RetentionPolicy.
Proof. solve_decision. Defined.

Definition DEFAULT_RETENTION : RetentionPolicy := mkRetention 7 0 0 0 0.

Definition parseRetention (value : jsval) : RetentionPolicy :=
  match value with
  | VNum _ => mkRetention (clampInt value 0 9999 7) 0 0 0 0
  | _ =>
      if is_object value then
        mkRetention (clampInt (get value "keepLast") 0 9999 0)
          (clampInt (get value "keepDaily") 0 9999 0)
          (clampInt (get value "keepWeekly") 0 9999 0)
          (clampInt (get value "keepMonthly") 0 9999 0)
          (clampInt (get value "keepYearly") 0 9999 0)
      else DEFAULT_RETENTION
  end.

Definition isSimpleRetention (r : RetentionPolicy) : bool :=
  (keepDaily r =? 0) && (keepWeekly r =? 0) && (keepMonthly r =? 0) && (keepYearly r =? 0).

Definition retentionRuleCount (r : RetentionPolicy) : Z :=
  keepLast r + keepDaily r + keepWeekly r + keepMonthly r + keepYearly r.

Definition describeRetention (value : jsval) : jsstr :=
  let r := parseRetention value in
  let parts :=
    push_if (0 <? keepLast r) (cat [u "Keep last "; str_of_Z (keepLast r)])
    ++ push_if (0 <? keepDaily r) (cat [str_of_Z (keepDaily r); u " daily"])
    ++ push_if (0 <? keepWeekly r) (cat [str_of_Z (keepWeekly r); u " weekly"])
    ++ push_if (0 <? keepMonthly r) (cat [str_of_Z (keepMonthly r); u " monthly"])
    ++ push_if (0 <? keepYearly r) (cat [str_of_Z (keepYearly r); u " yearly"]) in
  if is_nil parts then u "Keeps nothing" else join (u " · ") parts.

(** The object a retention policy is on the wire. *)
Definition retention_val (r : RetentionPolicy) : jsval :=
  VObj [ (u "keepLast", VNum (of_Z (keepLast r))); (u "keepDaily", VNum (of_Z (keepDaily r)));
         (u "keepWeekly", VNum (of_Z (keepWeekly r))); (u "keepMonthly", VNum (of_Z (keepMonthly r)));
         (u "keepYearly", VNum (of_Z (keepYearly r))) ].

(** ** The form step *)

Definition PRESETS : list Z := [3; 7; 14; 30].

(** [clamp] of RetentionStep.tsx. *)
Definition clampKeep (value : jsstr) : Z :=
  match num_of_str value with
  | Fin q => Z.max 0 (Z.min 9999 (qround q))
  | _ => 0
  end.

(** The keys of [GFS_FIELDS]. *)
Inductive GfsKey := KeepDaily | KeepWeekly | KeepMonthly | KeepYearly.

Record GfsField := mkGfs { g_key : GfsKey; g_label : jsstr; g_hint : jsstr }.

Definition GFS_FIELDS : list GfsField :=
  [ mkGfs KeepDaily (u "Daily") (u "newest point of each day");
    mkGfs KeepWeekly (u "Weekly") (u "newest point of each week");
    mkGfs KeepMonthly (u "Monthly") (u "newest point of each month");
    mkGfs KeepYearly (u "Yearly") (u "newest point of each year") ].

Inductive RetentionMsg :=
  | TypeKeepLast (text : jsstr)
  | PickPreset (preset : Z)
  | TypeGfs (key : GfsKey) (text : jsstr).

Definition retentionOffered (msg : RetentionMsg) : bool :=
  match msg with PickPreset preset => existsb (Z.eqb preset) PRESETS | _ => true end.

(** [patch]: the policy handed to [onChange]. *)
Definition updateRetention (r : RetentionPolicy) (msg : RetentionMsg) : RetentionPolicy :=
  let '(mkRetention last daily weekly monthly yearly) := r in
  match msg with
  | TypeKeepLast text => mkRetention (clampKeep text) daily weekly monthly yearly
  | PickPreset preset => mkRetention preset daily weekly monthly yearly
  | TypeGfs KeepDaily text => mkRetention last (clampKeep text) weekly monthly yearly
  | TypeGfs KeepWeekly text => mkRetention last daily (clampKeep text) monthly yearly
  | TypeGfs KeepMonthly text => mkRetention last daily weekly (clampKeep text) yearly
  | TypeGfs KeepYearly text => mkRetention last daily weekly monthly (clampKeep text)
  end.

(** The texts of the step: the hint of the disclosure, the summary, and the
    warning shown when no rule is in force. *)
Definition retentionTexts (r : RetentionPolicy) : jsstr * jsstr * option jsstr :=
  ((if isSimpleRetention r then u "off" else u "in use"),
   describeRetention (retention_val r),
   if retentionRuleCount r =? 0
   then Some (u "Every restore point would be pruned after each run and nothing would remain to recover from. Keep at least one.")
   else None).

(** ** The preview

    One effect per policy shown: it clears the previous timer and aborts the
    previous request, and starts a timer that sends a request.  A request that
    was aborted before it settled can only reject with an AbortError. *)
Section preview.
Context {answer : Type}.

Record Request := mkRequest { rq_policy : RetentionPolicy; rq_aborted : bool }.

Record PreviewState := mkPreview {
  pv_preview : option answer;
  pv_loading : bool;
  pv_error : option jsstr;
  (** The policy whose timer is running. *)
  pv_timer : option RetentionPolicy;
  pv_inflight : list Request;
}.

Inductive PreviewEvent :=
  | ShowPolicy (policy : RetentionPolicy)
  | TimerFires
  | Answered (i : nat) (result : answer)
  | Failed (i : nat) (message : jsstr)
  | AbortRejected (i : nat).

Definition mountPreview (policy : RetentionPolicy) : PreviewState :=
  mkPreview None true None (Some policy) [].

Definition abort_all (l : list Request) : list Request := map (λ r, mkRequest (rq_policy r) true) l.

(** The [AbortController] aborts the request its effect sent; earlier ones were
    aborted by their own clean-up. *)
Definition previewStep (s : PreviewState) (e : PreviewEvent) : option PreviewState :=
  match e with
  | ShowPolicy policy =>
      Some (mkPreview (pv_preview s) (pv_loading s) (pv_error s) (Some policy) (abort_all (pv_inflight s)))
  | TimerFires =>
      match pv_timer s with
      | Some policy =>
          Some (mkPreview (pv_preview s) true (pv_error s) None (pv_inflight s ++ [mkRequest policy false]))
      | None => None
      end
  | Answered i result =>
      match pv_inflight s !! i with
      | Some (mkRequest _ false) =>
          Some (mkPreview (Some result) false None (pv_timer s) (delete i (pv_inflight s)))
      | _ => None
      end
  | Failed i message =>
      match pv_inflight s !! i with
      | Some (mkRequest _ false) =>
          Some (mkPreview (pv_preview s) false (Some message) (pv_timer s) (delete i (pv_inflight s)))
      | _ => None
      end
  | AbortRejected i =>
      match pv_inflight s !! i with
      | Some (mkRequest _ true) =>
          Some (mkPreview (pv_preview s) false (pv_error s) (pv_timer s) (delete i (pv_inflight s)))
      | _ => None
      end
  end.

(** What the preview shows. *)
Inductive Shown := ShownError (message : jsstr) | ShownSpinner | ShownNothing
  | ShownPlan (plan : answer) (dimmed : bool).

Definition previewShown (s : PreviewState) : Shown :=
  match pv_error s with
  | Some message => ShownError message
  | None =>
      match pv_preview s with
      | Some plan => ShownPlan plan (pv_loading s)
      | None => if pv_loading s then ShownSpinner else ShownNothing
      end
  end.
End preview.

(** ** Properties *)

Definition valid_retention (r : RetentionPolicy) : Prop :=
  0 <= keepLast r <= 9999 ∧ 0 <= keepDaily r <= 9999 ∧ 0 <= keepWeekly r <= 9999
  ∧ 0 <= keepMonthly r <= 9999 ∧ 0 <= keepYearly r <= 9999.

Lemma parseRetention_valid v : valid_retention (parseRetention v).
Proof.
  unfold parseRetention, valid_retention.
  destruct v; cbn [is_object keepLast keepDaily keepWeekly keepMonthly keepYearly DEFAULT_RETENTION];
    split_and!; try lia; apply clampInt_range; lia.
Qed.

Lemma parseRetention_val r : valid_retention r → parseRetention (retention_val r) = r.
Proof.
  destruct r as [a b c d e]. intros (Ha & Hb & Hc & Hd & He). cbn in Ha, Hb, Hc, Hd, He.
  unfold parseRetention, retention_val. js_eval.
  cbn [keepLast keepDaily keepWeekly keepMonthly keepYearly]. by rewrite !clampInt_Z by lia.
Qed.

Lemma clampKeep_range t : 0 <= clampKeep t <= 9999.
Proof. unfold clampKeep. case_match; lia. Qed.

Lemma updateRetention_valid r msg :
  valid_retention r → retentionOffered msg = true → valid_retention (updateRetention r msg).
Proof.
  destruct r as [a b c d e]. intros (Ha & Hb & Hc & Hd & He) Ho. cbn in Ha, Hb, Hc, Hd, He.
  destruct msg as [t|p|[] t]; cbn; unfold valid_retention; cbn;
    try pose proof (clampKeep_range t); split_and!; try lia;
    apply existsb_exists in Ho as (x & Hx & ->%Z.eqb_eq); repeat destruct Hx as [<-|Hx]; lia || done.
Qed.

(** A part of the summary: its text never begins the text for no rule. *)
Definition part_ok (p : jsstr) : Prop := ∀ rest, p ++ rest ≠ u "Keeps nothing".

Lemma part_ok_last n : part_ok (cat [u "Keep last "; str_of_Z n]).
Proof. intros rest H. apply (f_equal (λ s, nth 4 s 0%N)) in H. vm_compute in H. discriminate H. Qed.

Lemma part_ok_count n t : 0 < n → part_ok (cat [str_of_Z n; t]).
Proof.
  intros Hn rest H. apply (f_equal (hd 0%N)) in H. unfold str_of_Z in H.
  destruct (Z.ltb_spec n 0); [lia|].
  pose proof (digits_nonempty (Z.to_N n)) as Hne. pose proof (all_digits_digits (Z.to_N n)) as Hall.
  destruct (digits (Z.to_N n)) as [|x xs]; [done|]. cbn in H. subst x. done.
Qed.

Lemma joined_part_ok sep parts : parts ≠ [] → Forall part_ok parts → join sep parts ≠ u "Keeps nothing".
Proof.
  intros Hne Hp. destruct Hp as [|p [|q l] Hp _]; [done| |apply Hp].
  cbn [join]. rewrite <- (app_nil_r p). apply Hp.
Qed.

Lemma Forall_push_if (P : jsstr → Prop) c t l : (c = true → P t) → Forall P l → Forall P (push_if c t ++ l).
Proof. destruct c; cbn; auto. Qed.

Lemma rules_none r : valid_retention r →
  (retentionRuleCount r = 0 ↔ describeRetention (retention_val r) = u "Keeps nothing").
Proof.
  intros Hv. unfold describeRetention. rewrite parseRetention_val by done.
  destruct r as [a b c d e]. destruct Hv as (Ha & Hb & Hc & Hd & He). cbn in Ha, Hb, Hc, Hd, He.
  unfold retentionRuleCount. cbn [keepLast keepDaily keepWeekly keepMonthly keepYearly].
  split.
  { intros H. assert (a = 0 ∧ b = 0 ∧ c = 0 ∧ d = 0 ∧ e = 0) as (-> & -> & -> & -> & ->) by lia. done. }
  match goal with |- context [is_nil ?l] => set (parts := l) end.
  assert (Hp : Forall part_ok parts).
  { unfold parts. rewrite <- (app_nil_r (push_if (0 <? e) _)).
    repeat apply Forall_push_if; try (intros; b2p; by apply part_ok_count); [|constructor].
    intros _. apply part_ok_last. }
  destruct (is_nil parts) eqn:E.
  - intros _. destruct parts eqn:Ep; [|done]. unfold parts, push_if in Ep.
    repeat case_on_hyp; try done. b2p. lia.
  - intros H. exfalso. revert H. apply joined_part_ok; [|done]. by destruct parts.
Qed.



(** *** The preview settles on the policy shown *)
Section settling.
Context {answer : Type} (plan : RetentionPolicy → answer).

(** Runs in which the server answers each policy with its plan; the second
    component is the policy the form shows. *)
Inductive preview_run : @PreviewState answer → RetentionPolicy → Prop :=
  | run_mount policy : preview_run (mountPreview policy) policy
  | run_step s cur e s' :
      preview_run s cur → previewStep s e = Some s' →
      (∀ i result r, e = Answered i result → pv_inflight s !! i = Some r → result = plan (rq_policy r)) →
      preview_run s' (match e with ShowPolicy policy => policy | _ => cur end).

Definition live (l : list Request) : list RetentionPolicy :=
  omap (λ r, if rq_aborted r then None else Some (rq_policy r)) l.

Definition settled (s : @PreviewState answer) (cur : RetentionPolicy) : Prop :=
  pv_error s ≠ None ∨ pv_preview s = Some (plan cur).

(** A timer is running for the policy shown and every request is aborted; or
    one request is live, for the policy shown; or the answer is in. *)
Definition preview_inv (s : @PreviewState answer) (cur : RetentionPolicy) : Prop :=
  (pv_timer s = Some cur ∧ live (pv_inflight s) = [])
  ∨ (pv_timer s = None ∧ live (pv_inflight s) = [cur])
  ∨ (pv_timer s = None ∧ live (pv_inflight s) = [] ∧ settled s cur).

Lemma live_cons r l : live (r :: l) = (if rq_aborted r then [] else [rq_policy r]) ++ live l.
Proof. unfold live. cbn. by destruct (rq_aborted r). Qed.

Lemma live_app l1 l2 : live (l1 ++ l2) = live l1 ++ live l2.
Proof. induction l1 as [|r l1 IH]; [done|]. rewrite <- app_comm_cons, !live_cons, IH. by rewrite app_assoc. Qed.

Lemma live_abort_all l : live (abort_all l) = [].
Proof. unfold live, abort_all. by induction l as [|[p a] l IH]. Qed.

Lemma live_delete_aborted l i p : l !! i = Some (mkRequest p true) → live (delete i l) = live l.
Proof.
  revert i. induction l as [|[q b] l IH]; intros [|i] H; [done..| |].
  - by injection H as -> ->.
  - change (delete (S i) (mkRequest q b :: l)) with (mkRequest q b :: delete i l).
    by rewrite !live_cons, (IH i).
Qed.

Lemma live_delete_live l i p cur :
  l !! i = Some (mkRequest p false) → live l = [cur] → p = cur ∧ live (delete i l) = [].
Proof.
  revert i. induction l as [|[q b] l IH]; intros [|i] H Hl; try done.
  - injection H as -> ->. by injection Hl as ->.
  - change (delete (S i) (mkRequest q b :: l)) with (mkRequest q b :: delete i l).
    rewrite live_cons in *. cbn [rq_aborted rq_policy] in *. destruct b; [by apply IH|].
    injection Hl as -> Hl. exfalso.
    assert (Hin : p ∈ live l).
    { apply list_elem_of_omap. exists (mkRequest p false). split; [|done]. by eapply list_elem_of_lookup_2. }
    rewrite Hl in Hin. by apply not_elem_of_nil in Hin.
Qed.

Lemma live_nonempty l i p : l !! i = Some (mkRequest p false) → live l ≠ [].
Proof.
  intros H Hl. assert (Hin : p ∈ live l).
  { apply list_elem_of_omap. exists (mkRequest p false). split; [|done]. by eapply list_elem_of_lookup_2. }
  rewrite Hl in Hin. by apply not_elem_of_nil in Hin.
Qed.

Lemma preview_run_inv s cur : preview_run s cur → preview_inv s cur.
Proof.
  induction 1 as [policy|s cur e s' _ IH Hs Hans]; [by left|].
  destruct e as [policy| |i result|i message|i]; cbn in Hs; repeat case_match; simplify_eq.
  - left. split; [done|]. apply live_abort_all.
  - destruct IH as [[Ht Hl]|[[Ht _]|[Ht _]]]; cbn in *; try congruence. right. left.
    cbn. split; [done|]. rewrite live_app, Hl. cbn. congruence.
  - destruct IH as [[Ht Hl]|[[Ht Hl]|[Ht [Hl _]]]]; try by eapply live_nonempty in Hl.
    right. right. cbn. match goal with H : _ !! i = Some _ |- _ => destruct (live_delete_live _ _ _ _ H Hl) as [-> Hl'] end.
    split_and!; [done..|]. right. cbn. f_equal. by eapply (Hans i result (mkRequest cur false)).
  - destruct IH as [[Ht Hl]|[[Ht Hl]|[Ht [Hl _]]]]; try by eapply live_nonempty in Hl.
    right. right. cbn. match goal with H : _ !! i = Some _ |- _ => destruct (live_delete_live _ _ _ _ H Hl) as [-> Hl'] end.
    split_and!; [done..|]. by left.
  - unfold preview_inv, settled in *. cbn. by erewrite live_delete_aborted.
Qed.

(** C14: whatever the order of edits, timers, answers, failures and aborts,
    once no timer is running and no live request is out, the preview either
    reports a failure or shows the plan of the policy in the form; no answer
    for an earlier policy ever replaces it. *)
Theorem preview_latest s cur :
  preview_run s cur → pv_timer s = None → live (pv_inflight s) = [] →
  match previewShown s with
  | ShownError _ => True
  | ShownPlan p _ => p = plan cur
  | ShownSpinner | ShownNothing => False
  end.
Proof.
  intros Hr Ht Hl. unfold previewShown.
  destruct (preview_run_inv s cur Hr) as [[? _]|[[_ ?]|(_ & _ & [Hs|Hs])]]; try congruence.
  - by destruct (pv_error s).
  - destruct (pv_error s); [done|]. by rewrite Hs.
Qed.
End settling.

Lemma preview_latest_witness :
  let p1 := mkRetention 3 0 0 0 0 in
  let p2 := mkRetention 30 0 0 0 0 in
  let s := mkPreview (Some 30) false None None [] in
  match @previewShown Z s with
  | ShownError _ => True | ShownPlan p _ => p = keepLast p2 | ShownSpinner | ShownNothing => False end.
Proof.
  intros p1 p2 s. refine (preview_latest keepLast s p2 _ eq_refl eq_refl).
  assert (H0 : preview_run keepLast (mountPreview p1) p1) by constructor.
  assert (H1 := run_step keepLast _ _ TimerFires _ H0 eq_refl ltac:(done)).
  assert (H2 := run_step keepLast _ _ (ShowPolicy p2) _ H1 eq_refl ltac:(done)).
  assert (H3 := run_step keepLast _ _ (AbortRejected 0) _ H2 eq_refl ltac:(done)).
  assert (H4 := run_step keepLast _ _ TimerFires _ H3 eq_refl ltac:(done)).
  refine (run_step keepLast _ _ (Answered 0 30) _ H4 eq_refl _).
  intros i result r [= <- <-] [= <-]. reflexivity.
Defined.
