(* ===== verification/Control.v ===== *)
(** * Controlled form steps

    The interface between a form and the controls it mounts: a control is
    mounted on the form's value, offers operations, and each operation updates
    its own state and may hand a new value to [onChange].  [ControlLaws] is what
    a control promises: it keeps the value good however it is used.  The
    schedule editor, the retention step and the policy step implement it. *)
From S2P Require Import Prelude JsString JsNumber JsValue Schedule Calendar NextRun ScheduleText ScheduleEditor Policy Retention.

Class Control (S M V : Type) := {
  control_mount : V → S;
  control_offered : S → V → M → bool;
  control_update : S → V → M → S * option V;
}.

(** One operation, with the form's value following [onChange]. *)
Definition control_step {S M V} `{Control S M V} (s : S) (v : V) (m : M) : S * V :=
  let r := control_update s v m in
  (r.1, match r.2 with Some v' => v' | None => v end).

Class ControlLaws {S M V} (C : Control S M V) (good : V → Prop) (inv : S → V → Prop) : Prop := {
  mount_inv v : good v → inv (control_mount v) v;
  step_inv s v m : inv s v → control_offered s v m = true →
    inv (control_step s v m).1 (control_step s v m).2;
  inv_good s v : inv s v → good v;
}.

(** ** The schedule editor *)

#[export] Instance schedule_control : Control Editor EditorMsg Schedule := {
  control_mount := initEditor;
  control_offered := λ e _ m, offered e m;
  control_update := λ e _ m, updateEditor e m;
}.

(** A schedule some well-formed draft shows; it may still be incomplete. *)
Definition good_schedule (s : Schedule) : Prop := ∃ d, draft_ok d ∧ s = toSchedule d.

Definition editor_inv (e : Editor) (s : Schedule) : Prop := draft_ok (e_draft e) ∧ good_schedule s.

Lemma good_valid s : valid_schedule s → good_schedule s.
Proof.
  intros H. exists (draftFrom s). split; [by apply draftFrom_ok|]. symmetry. by apply toSchedule_draftFrom.
Qed.

Lemma good_complete s : good_schedule s → isScheduleComplete s = true → valid_schedule s.
Proof. intros (d & Hd & ->). by apply toSchedule_valid. Qed.

Lemma sort_num_draft d : draft_ok d → sort_num (d_weekdays d) = d_weekdays d.
Proof. intros Hd. apply sort_num_id, increasing_spec. auto with console. Qed.

Lemma draftFrom_good s : good_schedule s → draft_ok (draftFrom s).
Proof.
  intros (d & Hd & ->). pose proof (sort_num_draft d Hd) as Es. unfold toSchedule.
  destruct (d_kind d); try (solve [apply draftFrom_ok; cbn [valid_schedule]; auto with console]).
  rewrite Es. split; cbn; auto with console; try lia; try (repeat constructor; lia).
  all: case_on_goal; [auto with console|repeat constructor; lia].
Qed.

#[export] Instance schedule_laws : ControlLaws schedule_control good_schedule editor_inv.
Proof.
  split.
  - intros v Hv. split; [by apply draftFrom_good|done].
  - intros e v m [Hd Hv] Ho. pose proof (update_ok e m Hd Ho) as Hd'. split; [done|].
    destruct m; try (by eexists). exact Hv.
  - by intros e v [_ Hv].
Qed.

(** ** The retention step: no state of its own besides its preview *)

#[export] Instance retention_control : Control unit RetentionMsg RetentionPolicy := {
  control_mount := λ _, tt;
  control_offered := λ _ _ m, retentionOffered m;
  control_update := λ _ r m, (tt, Some (updateRetention r m));
}.

#[export] Instance retention_laws :
  ControlLaws retention_control valid_retention (λ _ r, valid_retention r).
Proof. split; auto. intros s v m Hv Ho. by apply updateRetention_valid. Qed.

(** ** The policy step: the two text fields not yet added *)

#[export] Instance policy_control (kind : JobKind) : Control (jsstr * jsstr) PolicyMsg JobPolicy := {
  control_mount := λ _, ([], []);
  control_offered := λ drafts p m, policyOffered kind (mkForm p drafts.1 drafts.2) m;
  control_update := λ drafts p m,
    let s := updatePolicy (mkForm p drafts.1 drafts.2) m in
    ((f_diskDraft s, f_pathDraft s), Some (f_policy s));
}.

Definition good_policy (p : JobPolicy) : Prop := form_ok (mkForm p [] []).

Lemma good_policy_valid p : valid_policy p → good_policy p.
Proof. intros H. by apply (policy_session_ok JVm p); [|constructor]. Qed.

#[export] Instance policy_laws kind : ControlLaws (policy_control kind) good_policy (λ _ p, good_policy p).
Proof.
  split; auto. intros s v m Hv Ho. exact (updatePolicy_ok kind (mkForm v s.1 s.2) m Hv Ho).
Qed.

#[export] Hint Resolve good_valid good_policy_valid : console.
