(* ===== verification/Transport.v ===== *)
(** * The REST client's transport (web/src/api.ts)

    Errors and their wording, URLs, and [request]: what it sends and what every
    outcome of [fetch] becomes. *)
From S2P Require Import Prelude JsString JsNumber JsValue Json.

(** ** Errors *)

(** What a promise of the client can reject with: its own [ApiError], an abort,
    another [Error], or any other value. *)
Record ApiError := mkApiError { err_status : Z; err_message : jsstr; err_url : jsstr; err_body : jsval }.

Inductive Thrown :=
  | ThrownApi (e : ApiError)
  | ThrownAbort
  | ThrownError (message : jsstr)
  | ThrownValue (v : jsval).

Definition isUnauthorized (e : ApiError) : bool := err_status e =? 401.
Definition api_isForbidden (e : ApiError) : bool := err_status e =? 403.
Definition isConflict (e : ApiError) : bool := err_status e =? 409.

Definition isApiError (err : Thrown) : option ApiError :=
  match err with ThrownApi e => Some e | _ => None end.

Definition isForbidden (err : Thrown) : bool :=
  match isApiError err with Some e => api_isForbidden e | None => false end.

Definition FORBIDDEN_MESSAGE : jsstr := u "Your role does not allow this.".

(** [BARE_FORBIDDEN]: ASCII case-insensitive, an optional "403" and white
    space, one of the phrases, an optional full stop. *)
Definition lower (c : N) : N := if (65 <=? c)%N && (c <=? 90)%N then (c + 32)%N else c.

Definition forbidden_phrases : list jsstr :=
  [ u "forbidden"; u "unauthorized"; u "unauthorised"; u "access denied"; u "permission denied";
    u "not allowed"; u "insufficient permission"; u "insufficient permissions" ].

Definition phrase_match (s : jsstr) : bool :=
  existsb (λ p, str_eqb s p || str_eqb s (p ++ [46%N])) forbidden_phrases.

Definition BARE_FORBIDDEN (s : jsstr) : bool :=
  let s := map lower s in
  phrase_match s
  || (if starts_with (u "403") s then phrase_match (trim_start (drop 3 s)) else false).

Section wording.
(** How the engine words its own exceptions: an abort, an unreadable body, a
    body that is not JSON. *)
Context (engineText : jsstr).

Definition errorMessage (err : Thrown) : jsstr :=
  match err with
  | ThrownApi e =>
      if api_isForbidden e then
        let detail := trim (err_message e) in
        if str_eqb detail [] || BARE_FORBIDDEN detail then FORBIDDEN_MESSAGE
        else cat [FORBIDDEN_MESSAGE; u " "; detail]
      else err_message e
  | ThrownAbort => engineText
  | ThrownError message => message
  | ThrownValue v => to_str v
  end.
End wording.

(** ** Percent encoding *)

(** The UTF-8 bytes of a string; [None] at an unpaired surrogate. *)
Fixpoint utf8 (s : jsstr) : option (list N) :=
  match s with
  | [] => Some []
  | c :: s' =>
      if is_high c then
        match s' with
        | d :: s'' =>
            if is_low d then
              let p := (65536 + (c - 55296) * 1024 + (d - 56320))%N in
              (λ l, [240 + p / 262144; 128 + p / 4096 mod 64; 128 + p / 64 mod 64; 128 + p mod 64]%N ++ l)
                <$> utf8 s''
            else None
        | [] => None
        end
      else if is_low c then None
      else
        (λ l, (if c <? 128 then [c]
               else if c <? 2048 then [192 + c / 64; 128 + c mod 64]
               else [224 + c / 4096; 128 + c / 64 mod 64; 128 + c mod 64])%N ++ l) <$> utf8 s'
  end.

Definition is_alnum (c : N) : bool :=
  is_digit c || ((65 <=? c)%N && (c <=? 90)%N) || ((97 <=? c)%N && (c <=? 122)%N).

(** The bytes [encodeURIComponent] leaves alone: letters, digits and [-_.!~*'()]. *)
Definition uri_unreserved (c : N) : bool :=
  is_alnum c || existsb (N.eqb c) [45; 95; 46; 33; 126; 42; 39; 40; 41]%N.

Definition hex_upper (n : N) : N := (if n <? 10 then 48 + n else 55 + n)%N.

Definition percent (b : N) : jsstr := [37; hex_upper (b / 16); hex_upper (b mod 16)]%N.

Definition encode_byte (b : N) : jsstr := if uri_unreserved b then [b] else percent b.

(** [None]: the call throws a URIError. *)
Definition encodeURIComponent (s : jsstr) : option jsstr := (λ bytes, concat (map encode_byte bytes)) <$> utf8 s.

(** [URLSearchParams] writes spaces as [+], keeps [*-._] and alphanumerics, and
    replaces an unpaired surrogate by U+FFFD. *)
Fixpoint scalar_values (s : jsstr) : jsstr :=
  match s with
  | [] => []
  | c :: s' =>
      if is_high c then
        match s' with
        | d :: s'' => if is_low d then c :: d :: scalar_values s'' else 65533%N :: scalar_values s'
        | [] => [65533%N]
        end
      else if is_low c then 65533%N :: scalar_values s'
      else c :: scalar_values s'
  end.

Definition form_byte (b : N) : jsstr :=
  if N.eqb b 32 then [43%N]
  else if is_alnum b || existsb (N.eqb b) [42; 45; 46; 95]%N then [b] else percent b.

Definition form_encode (s : jsstr) : jsstr :=
  match utf8 (scalar_values s) with Some bytes => concat (map form_byte bytes) | None => [] end.

(** ** URLs *)

(** A query value that is sent: not undefined, null or the empty string. *)
Definition query_sent (v : jsval) : bool := negb (is_nullish v || is_str v "").

Definition buildUrl (path : jsstr) (query : option fields) : jsstr :=
  match query with
  | None => path
  | Some q =>
      let params := List.filter (λ kv, query_sent kv.2) q in
      let qs := join (u "&") (map (λ kv, cat [form_encode kv.1; u "="; form_encode (to_str kv.2)]) params) in
      if str_eqb qs [] then path else cat [path; u "?"; qs]
  end.

(** ** Requests *)

Inductive Method := GET | POST | PATCH | PUT | DELETE.

#[export] Instance Method_eq_dec : EqDecision Method.
Proof. solve_decision. Defined.

Record Request := mkRequest {
  rq_path : jsstr;
  rq_method : Method;
  rq_body : option jsval;
  rq_query : option fields;
}.

(** What [fetch] is called with. *)
Record Sent := mkSent {
  sent_url : jsstr;
  sent_method : Method;
  sent_headers : list (jsstr * jsstr);
  sent_body : option jsstr;
}.

Definition send (r : Request) : Sent :=
  mkSent (buildUrl (rq_path r) (rq_query r)) (rq_method r)
    ([(u "Accept", u "application/json")]
     ++ match rq_body r with Some _ => [(u "Content-Type", u "application/json")] | None => [] end)
    (match rq_body r with Some body => JSON_stringify body | None => None end).

(** How [fetch] ends: it rejects, or it responds with a status and a body text
    that may turn out unreadable. *)
Inductive Outcome :=
  | FetchAborted
  | FetchFailed
  | Responded (status : Z) (text : option jsstr).

Definition res_ok (status : Z) : bool := (200 <=? status) && (status <=? 299).

(** The fields [parseError] reads; reading a property of null throws, which its
    inner [catch] turns into the text itself, with [body] already set. *)
Definition parseError (status : Z) (text : option jsstr) (url : jsstr) : ApiError :=
  let '(message, body) :=
    match text with
    | None => ([], VUndef)
    | Some text =>
        if str_eqb text [] then ([], VUndef)
        else match JSON_parse text with
             | None => (text, VUndef)
             | Some parsed =>
                 (match get parsed "error" with
                  | VStr e => if str_eqb e [] then text else e
                  | _ => text
                  end, parsed)
             end
    end in
  let message :=
    if str_eqb message [] then
      if status =? 401 then u "Not signed in."
      else if status =? 403 then FORBIDDEN_MESSAGE
      else cat [u "Request failed with status "; str_of_Z status; u "."]
    else message in
  mkApiError status message url body.

Section request.
Context (engineText : jsstr).

(** [request]: the value it resolves to, or what it rejects with. *)
Definition request (r : Request) (outcome : Outcome) : jsval + Thrown :=
  let url := sent_url (send r) in
  match outcome with
  | FetchAborted => inr ThrownAbort
  | FetchFailed => inr (ThrownApi (mkApiError 0 (u "Cannot reach the ProxBack server.") url VUndef))
  | Responded status text =>
      if negb (res_ok status) then inr (ThrownApi (parseError status text url))
      else if status =? 204 then inl VUndef
      else match text with
           | None => inr (ThrownError engineText)
           | Some text =>
               if str_eqb text [] then inl VUndef
               else match JSON_parse text with
                    | Some v => inl v
                    | None => inr (ThrownError engineText)
                    end
           end
  end.
End request.

(** ** Properties *)

Lemma parseError_message status text url : err_message (parseError status text url) ≠ [].
Proof.
  unfold parseError, str_eqb. repeat case_on_goal; cbn [err_message]; b2p; try done.
  all: intros H; apply (f_equal length) in H; vm_compute in H; lia.
Qed.

(** *** Path segments *)

Definition units_ok (s : jsstr) : Prop := Forall (λ c, (c < 65536)%N) s.

Lemma utf8_step2 c l : (128 <= c < 2048)%N →
  utf8_to_utf16 ([192 + c / 64; 128 + c mod 64]%N ++ l) = c :: utf8_to_utf16 l.
Proof.
  intros H. cbn [app utf8_to_utf16].
  replace (192 + c / 64 <? 128)%N with false by (symmetry; apply N.ltb_ge; divlia).
  replace (192 + c / 64 <? 224)%N with true by (symmetry; apply N.ltb_lt; divlia).
  replace ((192 + c / 64 - 192) * 64 + (128 + c mod 64 - 128))%N with c by divlia.
  unfold code_units. replace (c <? 65536)%N with true by (symmetry; apply N.ltb_lt; lia). done.
Qed.

Lemma utf8_step3 c l : (2048 <= c < 65536)%N →
  utf8_to_utf16 ([224 + c / 4096; 128 + c / 64 mod 64; 128 + c mod 64]%N ++ l) = c :: utf8_to_utf16 l.
Proof.
  intros H. cbn [app utf8_to_utf16].
  replace (224 + c / 4096 <? 128)%N with false by (symmetry; apply N.ltb_ge; divlia).
  replace (224 + c / 4096 <? 224)%N with false by (symmetry; apply N.ltb_ge; divlia).
  replace (224 + c / 4096 <? 240)%N with true by (symmetry; apply N.ltb_lt; divlia).
  replace (((224 + c / 4096 - 224) * 64 + (128 + c / 64 mod 64 - 128)) * 64 + (128 + c mod 64 - 128))%N
    with c by divlia.
  unfold code_units. replace (c <? 65536)%N with true by (symmetry; apply N.ltb_lt; lia). done.
Qed.

Lemma utf8_step4 p l : (65536 <= p < 1114112)%N →
  utf8_to_utf16 ([240 + p / 262144; 128 + p / 4096 mod 64; 128 + p / 64 mod 64; 128 + p mod 64]%N ++ l)
  = (55296 + (p - 65536) / 1024)%N :: (56320 + (p - 65536) mod 1024)%N :: utf8_to_utf16 l.
Proof.
  intros H. cbn [app utf8_to_utf16].
  replace (240 + p / 262144 <? 128)%N with false by (symmetry; apply N.ltb_ge; divlia).
  replace (240 + p / 262144 <? 224)%N with false by (symmetry; apply N.ltb_ge; divlia).
  replace (240 + p / 262144 <? 240)%N with false by (symmetry; apply N.ltb_ge; divlia).
  replace ((((240 + p / 262144 - 240) * 64 + (128 + p / 4096 mod 64 - 128)) * 64
    + (128 + p / 64 mod 64 - 128)) * 64 + (128 + p mod 64 - 128))%N with p by divlia.
  unfold code_units. replace (p <? 65536)%N with false by (symmetry; apply N.ltb_ge; lia). done.
Qed.

(** Well-formed text is recovered from its bytes, which are bytes. *)
Lemma utf8_decode s bytes : units_ok s → utf8 s = Some bytes →
  utf8_to_utf16 bytes = s ∧ Forall (λ b, (b < 256)%N) bytes.
Proof.
  intros Hu. revert bytes. remember (length s) as n eqn:En. revert s En Hu.
  induction (lt_wf n) as [n _ IH]. intros s -> Hu bytes H. destruct s as [|c s]; [by injection H as <-|].
  apply Forall_cons in Hu as [Hc Hu]. cbn [utf8] in H.
  destruct (is_high c) eqn:Eh; [|destruct (is_low c) eqn:El; [done|]].
  - destruct s as [|d s]; [done|]. destruct (is_low d) eqn:El; [|done].
    apply fmap_Some in H as (l & Hl & ->). apply Forall_cons in Hu as [_ Hu].
    destruct (IH (length s) ltac:(simpl; lia) s eq_refl Hu l Hl) as [E Hb].
    unfold is_high, is_low in *. b2p. apply N.leb_le in H, H0, H1, H2.
    rewrite utf8_step4, E by lia. split; [f_equal; [|f_equal]; divlia|].
    repeat (apply Forall_cons; split; [divlia|]); done.
  - apply fmap_Some in H as (l & Hl & ->).
    destruct (IH (length s) ltac:(simpl; lia) s eq_refl Hu l Hl) as [E Hb].
    destruct (N.ltb_spec c 128) as [H1|H1]; [|destruct (N.ltb_spec c 2048) as [H2|H2]].
    + cbn [app utf8_to_utf16]. rewrite (proj2 (N.ltb_lt c 128) H1), E. split; [done|].
      apply Forall_cons; split; [lia|done].
    + rewrite utf8_step2, E by lia. split; [done|]. repeat (apply Forall_cons; split; [divlia|]); done.
    + rewrite utf8_step3, E by lia. split; [done|]. repeat (apply Forall_cons; split; [divlia|]); done.
Qed.

Definition segment_char (c : N) : bool := uri_unreserved c || N.eqb c 37.

(** Reads one encoded byte. *)
Definition decode_byte (s : jsstr) : option (N * jsstr) :=
  match s with
  | [] => None
  | c :: s' =>
      if N.eqb c 37 then
        match s' with
        | a :: b :: s'' =>
            match hex_digit a, hex_digit b with Some a, Some b => Some (16 * a + b, s'')%N | _, _ => None end
        | _ => None
        end
      else Some (c, s')
  end.

Lemma all_bytes (f : N → bool) :
  forallb (λ k, f (N.of_nat k)) (List.seq 0 256) = true → ∀ b, (b < 256)%N → f b = true.
Proof.
  rewrite forallb_forall. intros H b Hb. specialize (H (N.to_nat b)).
  rewrite N2Nat.id in H. apply H. apply in_seq. lia.
Qed.

Lemma decode_encode_byte b s : (b < 256)%N → decode_byte (encode_byte b ++ s) = Some (b, s).
Proof.
  intros Hb. unfold encode_byte. destruct (uri_unreserved b) eqn:E.
  - destruct (N.eqb_spec b 37) as [->|Hn]; [done|]. cbn [app decode_byte].
    by rewrite (proj2 (N.eqb_neq b 37) Hn).
  - unfold percent. cbn [app decode_byte]. rewrite N.eqb_refl.
    assert (Hh : (match hex_digit (hex_upper (b / 16)), hex_digit (hex_upper (b mod 16)) with
                  | Some x, Some y => N.eqb (16 * x + y) b | _, _ => false end) = true).
    { clear E. revert b Hb. apply all_bytes. vm_compute. reflexivity. }
    repeat case_match; try done. apply N.eqb_eq in Hh. by rewrite Hh.
Qed.

Lemma encode_bytes_inj l1 l2 : Forall (λ b, (b < 256)%N) l1 → Forall (λ b, (b < 256)%N) l2 →
  concat (map encode_byte l1) = concat (map encode_byte l2) → l1 = l2.
Proof.
  intros H1. revert l2. induction H1 as [|b l1 Hb _ IH]; intros [|b2 l2] H2 E; [done| | |].
  - apply Forall_cons in H2 as [Hb2 _]. apply (f_equal decode_byte) in E. cbn in E.
    by rewrite decode_encode_byte in E.
  - apply (f_equal decode_byte) in E. cbn [map concat] in E. by rewrite decode_encode_byte in E.
  - apply Forall_cons in H2 as [Hb2 H2]. cbn [map concat] in E. apply (f_equal decode_byte) in E.
    rewrite !decode_encode_byte in E by done. injection E as -> E. f_equal. by apply IH.
Qed.

Lemma encode_byte_chars b : (b < 256)%N → forallb segment_char (encode_byte b) = true.
Proof. revert b. apply all_bytes. vm_compute. reflexivity. Qed.

Lemma encodeURIComponent_chars s e : units_ok s → encodeURIComponent s = Some e → forallb segment_char e = true.
Proof.
  intros Hu H. unfold encodeURIComponent in H. apply fmap_Some in H as (bytes & Hb & ->).
  destruct (utf8_decode s bytes Hu Hb) as [_ Hby].
  clear Hb. induction Hby as [|b l Hb _ IH]; [done|]. cbn [map concat].
  rewrite forallb_app, IH, encode_byte_chars by done. done.
Qed.

Lemma encodeURIComponent_inj s1 s2 e : units_ok s1 → units_ok s2 →
  encodeURIComponent s1 = Some e → encodeURIComponent s2 = Some e → s1 = s2.
Proof.
  intros Hu1 Hu2 H1 H2. unfold encodeURIComponent in *.
  apply fmap_Some in H1 as (b1 & Hb1 & ->). apply fmap_Some in H2 as (b2 & Hb2 & E).
  destruct (utf8_decode s1 b1 Hu1 Hb1) as [E1 F1]. destruct (utf8_decode s2 b2 Hu2 Hb2) as [E2 F2].
  apply encode_bytes_inj in E; [|done..]. congruence.
Qed.

#[export] Hint Resolve encodeURIComponent_chars encodeURIComponent_inj : console.

Lemma starts_with_prefix p s : starts_with p (p ++ s) = true.
Proof. induction p as [|a p IH]; [done|]. cbn. by rewrite N.eqb_refl. Qed.

Lemma forbidden_wording engineText e : api_isForbidden e = true →
  starts_with FORBIDDEN_MESSAGE (errorMessage engineText (ThrownApi e)) = true.
Proof.
  intros H. cbn [errorMessage]. rewrite H. case_on_goal.
  - rewrite <- (app_nil_r FORBIDDEN_MESSAGE) at 2. apply starts_with_prefix.
  - unfold cat. cbn [concat]. apply starts_with_prefix.
Qed.



(** A 403 without a body is explained twice over: [parseError] words it with the
    sentence that [errorMessage] then puts in front of it. *)
Lemma forbidden_said_twice r engineText :
  match request engineText r (Responded 403 (Some [])) with
  | inr err => errorMessage engineText err = cat [FORBIDDEN_MESSAGE; u " "; FORBIDDEN_MESSAGE]
  | inl _ => False
  end.
Proof. vm_compute. reflexivity. Qed.
