(* ===== verification/GoString.v ===== *)
(** * Go strings

    A string of the server is a sequence of bytes; the functions of package
    strings its schedule code calls, and what they do to printable ASCII. *)
From S2P Require Import Prelude JsString.

Abbreviation bytes := (list N).

(** ** White space: [unicode.IsSpace], as UTF-8 *)

Definition general_spaces : list bytes := map (λ k, [226; 128; 128 + N.of_nat k]%N) (List.seq 0 11).

Definition space_runes : list bytes :=
  [[9]; [10]; [11]; [12]; [13]; [32]; [194; 133]; [194; 160]; [225; 154; 128];
   [226; 128; 168]; [226; 128; 169]; [226; 128; 175]; [226; 129; 159]; [227; 128; 128]]%N ++ general_spaces.

Fixpoint strip_prefix (p s : bytes) : option bytes :=
  match p, s with
  | [], _ => Some s
  | x :: p', y :: s' => if N.eqb x y then strip_prefix p' s' else None
  | _ :: _, [] => None
  end.

(** What follows a leading rune of [runes]. *)
Definition strip_rune (runes : list bytes) (s : bytes) : option bytes :=
  head (omap (λ p, strip_prefix p s) runes).

(** Every rune has a byte, so the length of the string is enough fuel. *)
Fixpoint trim_left (runes : list bytes) (fuel : nat) (s : bytes) : bytes :=
  match fuel with
  | O => s
  | S fuel => match strip_rune runes s with Some s' => trim_left runes fuel s' | None => s end
  end.

Definition TrimSpace (s : bytes) : bytes :=
  let s := trim_left space_runes (length s) s in
  rev (trim_left (map (@rev N) space_runes) (length s) (rev s)).

Definition flush (field : bytes) : list bytes := match field with [] => [] | _ => [field] end.

Fixpoint fields_from (fuel : nat) (s field : bytes) : list bytes :=
  match fuel with
  | O => flush field
  | S fuel =>
      match s with
      | [] => flush field
      | c :: s' =>
          match strip_rune space_runes s with
          | Some rest => flush field ++ fields_from fuel rest []
          | None => fields_from fuel s' (field ++ [c])
          end
      end
  end.

Definition Fields (s : bytes) : list bytes := fields_from (S (length s)) s [].

(** ** Numbers *)

Definition allDigits (s : bytes) : bool := negb (bool_decide (s = [])) && all_digits s.

(** ["%02d"] of a natural number. *)
Definition pad02 (n : Z) : bytes := pad_start 2 48 (str_of_Z n).

(** ** Printable ASCII *)

Definition graphic (c : N) : bool := ((33 <=? c) && (c <=? 126))%N.

Lemma strip_rune_graphic runes c s :
  Forall (λ p, match p with b :: _ => graphic b = false | [] => False end) runes →
  graphic c = true → strip_rune runes (c :: s) = None.
Proof.
  intros Hr Hc. unfold strip_rune. induction Hr as [|p runes Hp _ IH]; [done|]. cbn.
  destruct p as [|b p]; [done|]. cbn. destruct (N.eqb_spec b c); [congruence|]. exact IH.
Qed.

Lemma strip_space_graphic c s : graphic c = true → strip_rune space_runes (c :: s) = None.
Proof. apply strip_rune_graphic. repeat constructor. Qed.

Lemma strip_back_graphic c s : graphic c = true → strip_rune (map (@rev N) space_runes) (c :: s) = None.
Proof. apply strip_rune_graphic. repeat constructor. Qed.

Lemma strip_nil runes : Forall (λ p, p ≠ []) runes → strip_rune runes [] = None.
Proof.
  intros H. unfold strip_rune. induction H as [|p runes Hp _ IH]; [done|]. cbn. by destruct p.
Qed.

Lemma trim_left_graphic runes n c s : strip_rune runes (c :: s) = None → trim_left runes n (c :: s) = c :: s.
Proof. intros H. destruct n; [done|]. cbn [trim_left]. by rewrite H. Qed.

(** A word of printable ASCII. *)
Definition word (s : bytes) : Prop := s ≠ [] ∧ Forall (λ c, graphic c = true) s.

(** Text that begins and ends with printable ASCII is left alone. *)
Lemma TrimSpace_id s a b : graphic a = true → graphic b = true → head s = Some a → last s = Some b →
  TrimSpace s = s.
Proof.
  intros Ha Hb Hh Hl. destruct s as [|x s]; [done|]. injection Hh as ->. unfold TrimSpace.
  rewrite trim_left_graphic by (by apply strip_space_graphic).
  destruct (rev (a :: s)) as [|y l] eqn:E; [by apply (f_equal length) in E; rewrite length_rev in E|].
  assert (y = b) as ->.
  { apply (f_equal (@rev N)) in E. rewrite rev_involutive in E. rewrite E in Hl.
    cbn [rev] in Hl. rewrite last_snoc in Hl. congruence. }
  rewrite trim_left_graphic by (by apply strip_back_graphic). by rewrite <- E, rev_involutive.
Qed.

(** *** Trimming is idempotent *)

Lemma strip_prefix_Some p s s' : strip_prefix p s = Some s' ↔ s = p ++ s'.
Proof.
  revert s. induction p as [|x p IH]; intros s; cbn; [naive_solver|]. destruct s as [|y s]; [done|].
  destruct (N.eqb_spec x y) as [->|Hne]; [rewrite IH; naive_solver|naive_solver].
Qed.

Lemma strip_rune_Some runes s s' : strip_rune runes s = Some s' → ∃ p, p ∈ runes ∧ s = p ++ s'.
Proof.
  unfold strip_rune. intros H%head_Some_elem_of. apply list_elem_of_omap in H as (p & Hp & E).
  exists p. split; [done|]. by apply strip_prefix_Some.
Qed.

Lemma strip_rune_None runes s : strip_rune runes s = None ↔ ∀ p, p ∈ runes → strip_prefix p s = None.
Proof.
  unfold strip_rune. induction runes as [|p runes IH]; cbn; [split; [intros _ ? []%not_elem_of_nil|done]|].
  destruct (strip_prefix p s) as [s'|] eqn:E; cbn.
  - split; [done|]. intros H. specialize (H p ltac:(by left)). congruence.
  - rewrite IH. setoid_rewrite elem_of_cons. naive_solver.
Qed.

Lemma strip_rune_app runes r q : strip_rune runes (r ++ q) = None → strip_rune runes r = None.
Proof.
  rewrite !strip_rune_None. intros H p Hp. destruct (strip_prefix p r) as [s'|] eqn:E; [|done].
  apply strip_prefix_Some in E. specialize (H p Hp). rewrite E, <- app_assoc in H.
  by rewrite (proj2 (strip_prefix_Some p _ (s' ++ q)) eq_refl) in H.
Qed.

Lemma trim_left_none runes n s : strip_rune runes s = None → trim_left runes n s = s.
Proof. intros H. destruct n; [done|]. cbn [trim_left]. by rewrite H. Qed.

Lemma trim_left_spec runes n s : (length s <= n)%nat → Forall (λ p, p ≠ []) runes →
  strip_rune runes (trim_left runes n s) = None ∧ ∃ q, s = q ++ trim_left runes n s.
Proof.
  intros Hn Hr. revert s Hn. induction n as [|n IH]; intros s Hn.
  - destruct s; [|cbn in Hn; lia]. split; [by apply strip_nil|by exists []].
  - cbn [trim_left]. destruct (strip_rune runes s) as [s'|] eqn:E; [|split; [done|by exists []]].
    apply strip_rune_Some in E as (p & Hp & ->). rewrite Forall_forall in Hr. specialize (Hr p Hp).
    destruct (IH s') as [H1 [q H2]].
    { rewrite length_app in Hn. destruct p; [done|]. cbn [length] in Hn. lia. }
    split; [done|]. exists (p ++ q). rewrite <- app_assoc. by f_equal.
Qed.

Lemma runes_nonempty : Forall (λ p, p ≠ []) space_runes.
Proof. repeat constructor; discriminate. Qed.
Lemma rev_runes_nonempty : Forall (λ p, p ≠ []) (map (@rev N) space_runes).
Proof. repeat constructor; discriminate. Qed.

(** Trimming twice is trimming once. *)
Lemma TrimSpace_idem s : TrimSpace (TrimSpace s) = TrimSpace s.
Proof.
  unfold TrimSpace at 2 3. destruct (trim_left_spec space_runes (length s) s) as [Hn _]; [done|apply runes_nonempty|].
  set (t := trim_left space_runes (length s) s) in *.
  destruct (trim_left_spec (map (@rev N) space_runes) (length t) (rev t)) as [Hn' [q Hq]];
    [by rewrite length_rev|apply rev_runes_nonempty|].
  set (r := trim_left (map (@rev N) space_runes) (length t) (rev t)) in *.
  assert (Et : t = rev r ++ rev q) by (rewrite <- (rev_involutive t), Hq; apply rev_app_distr).
  assert (E1 : trim_left space_runes (length (rev r)) (rev r) = rev r).
  { apply trim_left_none. rewrite Et in Hn. by eapply strip_rune_app. }
  unfold TrimSpace. rewrite E1, rev_involutive. by rewrite trim_left_none.
Qed.

Lemma word_TrimSpace s : word s → TrimSpace s = s.
Proof.
  intros [Hne Hg]. destruct s as [|a s]; [done|]. destruct (last (a :: s)) as [b|] eqn:E.
  - rewrite Forall_forall in Hg. eapply TrimSpace_id; [| |done|exact E]; apply Hg.
    + by constructor.
    + apply list_elem_of_In. apply last_Some in E as [l ->]. apply in_app_iff. right. by left.
  - by apply last_None in E.
Qed.

Lemma fields_from_word n w rest field : Forall (λ c, graphic c = true) w →
  fields_from (length w + n) (w ++ rest) field = fields_from n rest (field ++ w).
Proof.
  intros Hw. revert field. induction Hw as [|c w Hc _ IH]; intros field; [by rewrite app_nil_r|].
  cbn [length Nat.add app fields_from]. rewrite strip_space_graphic by done. rewrite IH.
  by rewrite <- app_assoc.
Qed.

Lemma fields_from_space n rest field :
  fields_from (S n) (32%N :: rest) field = flush field ++ fields_from n rest [].
Proof. reflexivity. Qed.

Lemma flush_word w : word w → flush w = [w].
Proof. intros [Hne _]. by destruct w. Qed.

(** Words separated by single spaces are the fields. *)
Lemma Fields_join ws : Forall word ws → Fields (join [32%N] ws) = ws.
Proof.
  unfold Fields. intros H. induction H as [|w ws Hw Hws IH]; [done|].
  pose proof (proj2 Hw) as Hg. destruct ws as [|w' ws].
  - cbn [join]. rewrite <- (app_nil_r w) at 1 2. rewrite length_app, Nat.add_0_r.
    replace (S (length w)) with (length w + 1)%nat by lia.
    rewrite fields_from_word by done. cbn [fields_from app]. by apply flush_word.
  - change (join [32%N] (w :: w' :: ws)) with (w ++ [32%N] ++ join [32%N] (w' :: ws)).
    rewrite length_app. replace (S (length w + length ([32%N] ++ join [32%N] (w' :: ws))))%nat
      with (length w + S (S (length (join [32%N] (w' :: ws)))))%nat by (rewrite length_app; cbn [length]; lia).
    rewrite fields_from_word by done. cbn [app]. rewrite fields_from_space, flush_word, IH by done. done.
Qed.

Lemma digit_graphic c : is_digit c = true → graphic c = true.
Proof. unfold is_digit, graphic. rewrite !andb_true_iff, !N.leb_le. lia. Qed.

Lemma digits_word n : word (digits n).
Proof.
  split; [apply digits_nonempty|]. apply Forall_forall. intros c Hc. apply digit_graphic.
  eapply all_digits_elem; [|exact Hc]. apply all_digits_digits.
Qed.

Lemma allDigits_digits n : allDigits (digits n) = true.
Proof.
  unfold allDigits. rewrite all_digits_digits. rewrite bool_decide_eq_false_2; [done|]. apply digits_nonempty.
Qed.

#[export] Hint Resolve word_TrimSpace digits_word allDigits_digits : console.

(** Words joined by spaces begin and end with printable ASCII. *)
Lemma join_words_ends ws : ws ≠ [] → Forall word ws →
  ∃ a b, head (join [32%N] ws) = Some a ∧ last (join [32%N] ws) = Some b ∧ graphic a = true ∧ graphic b = true.
Proof.
  intros Hne H. induction H as [|w ws Hw Hws IH]; [done|].
  destruct Hw as [Hw Hg]. destruct w as [|a w]; [done|]. inversion Hg as [|?? Ha Hg']; subst.
  destruct ws as [|w' ws].
  - destruct (last (a :: w)) as [b|] eqn:E; [|by apply last_None in E].
    exists a, b. split_and!; [done|done|done|]. rewrite Forall_forall in Hg. apply Hg.
    apply last_Some in E as [l ->]. apply elem_of_app. right. by constructor.
  - destruct IH as (a' & b & _ & Hl & _ & Hb); [done|]. exists a, b. split_and!; [done| |done|done].
    change (join [32%N] ((a :: w) :: w' :: ws)) with ((a :: w) ++ [32%N] ++ join [32%N] (w' :: ws)).
    rewrite !last_app. by rewrite Hl.
Qed.

Lemma join_words_TrimSpace ws : ws ≠ [] → Forall word ws → TrimSpace (join [32%N] ws) = join [32%N] ws.
Proof. intros Hne H. destruct (join_words_ends ws Hne H) as (a & b & Ha & Hb & Ga & Gb). exact (TrimSpace_id _ a b Ga Gb Ha Hb). Qed.

(** Text that begins with printable ASCII is not blank. *)
Lemma trim_left_keeps runes n s c : Forall (Forall (λ b, graphic b = false)) runes → graphic c = true →
  trim_left runes n (s ++ [c]) ≠ [].
Proof.
  intros Hr Hc. revert s. induction n as [|n IH]; intros s; [by destruct s|]. cbn [trim_left].
  destruct (strip_rune runes (s ++ [c])) as [s'|] eqn:E; [|by destruct s].
  apply strip_rune_Some in E as (p & Hp & E). rewrite Forall_forall in Hr. specialize (Hr p Hp).
  destruct s' as [|x s' _] using rev_ind.
  - rewrite app_nil_r in E. rewrite <- E in Hr. apply Forall_app in Hr as [_ Hr]. apply Forall_inv in Hr. cbv beta in Hr. congruence.
  - rewrite app_assoc in E. apply app_inj_tail in E as [_ ->]. apply IH.
Qed.

Lemma TrimSpace_graphic c s : graphic c = true → TrimSpace (c :: s) ≠ [].
Proof.
  intros Hc. unfold TrimSpace. rewrite trim_left_graphic by (by apply strip_space_graphic). cbn [rev].
  intros E. apply (f_equal (@rev N)) in E. rewrite rev_involutive in E. revert E. apply trim_left_keeps; [|done].
  repeat constructor.
Qed.

(** ** Order *)

(** Go compares strings byte by byte. *)
Fixpoint bytes_ltb (a b : bytes) : bool :=
  match a, b with
  | _, [] => false
  | [], _ :: _ => true
  | x :: a, y :: b => (x <? y)%N || ((x =? y)%N && bytes_ltb a b)
  end.

Lemma bytes_ltb_trans a b c : bytes_ltb a b = true → bytes_ltb b c = true → bytes_ltb a c = true.
Proof.
  revert b c. induction a as [|x a IH]; intros [|y b] [|z c]; cbn [bytes_ltb]; try done.
  rewrite !orb_true_iff, !andb_true_iff, !N.ltb_lt, !N.eqb_eq.
  intros [H|[-> H]] [H'|[-> H']]; [left; lia|left; lia|left; lia|right; eauto].
Qed.

Lemma bytes_ltb_irrefl a : bytes_ltb a a = false.
Proof. induction a as [|x a IH]; [done|]. cbn [bytes_ltb]. by rewrite N.ltb_irrefl, N.eqb_refl, IH. Qed.

(** ** Lowering ASCII letters *)

Definition lower_byte (c : N) : N := if ((65 <=? c) && (c <=? 90))%N then (c + 32)%N else c.
Definition ascii_lower (s : bytes) : bytes := map lower_byte s.

(** A byte that is no letter. *)
Definition not_letter (c : N) : Prop := ¬ (65 <= c <= 90)%N ∧ ¬ (97 <= c <= 122)%N.

Lemma lower_byte_eqb x c : not_letter x → N.eqb x (lower_byte c) = N.eqb x c.
Proof.
  intros [H1 H2]. unfold lower_byte. destruct (N.leb_spec 65 c), (N.leb_spec c 90); cbn [andb]; try done.
  rewrite (proj2 (N.eqb_neq x (c + 32))), (proj2 (N.eqb_neq x c)) by lia. done.
Qed.

Lemma strip_prefix_lower p s : Forall not_letter p → strip_prefix p (ascii_lower s) = ascii_lower <$> strip_prefix p s.
Proof.
  intros Hp. revert s. induction Hp as [|x p Hx _ IH]; intros s; [done|]. destruct s as [|c s]; [done|]. cbn [ascii_lower map strip_prefix].
  rewrite lower_byte_eqb by done. destruct (N.eqb x c); [apply IH|done].
Qed.

Lemma strip_rune_lower runes s : Forall (Forall not_letter) runes → strip_rune runes (ascii_lower s) = ascii_lower <$> strip_rune runes s.
Proof.
  intros H. unfold strip_rune. induction H as [|p runes Hp _ IH]; [done|]. cbn [omap list_omap]. rewrite strip_prefix_lower by done.
  destruct (strip_prefix p s); [done|]. exact IH.
Qed.

Lemma trim_left_lower runes n s : Forall (Forall not_letter) runes → trim_left runes n (ascii_lower s) = ascii_lower (trim_left runes n s).
Proof.
  intros H. revert s. induction n as [|n IH]; intros s; [done|]. cbn [trim_left]. rewrite strip_rune_lower by done.
  destruct (strip_rune runes s); [apply IH|done].
Qed.

Lemma spaces_not_letters : Forall (Forall not_letter) space_runes ∧ Forall (Forall not_letter) (map (@rev N) space_runes).
Proof. split; apply (bool_decide_unpack _); vm_compute; exact I. Qed.

Lemma TrimSpace_lower s : TrimSpace (ascii_lower s) = ascii_lower (TrimSpace s).
Proof.
  destruct spaces_not_letters as [H1 H2].
  assert (Hl : ∀ t, length (ascii_lower t) = length t) by (intros t; apply length_map).
  assert (Hr : ∀ t, rev (ascii_lower t) = ascii_lower (rev t)) by (intros t; symmetry; apply map_rev).
  unfold TrimSpace. cbv zeta. by rewrite Hl, trim_left_lower, Hl, Hr, trim_left_lower, Hr by done.
Qed.

Lemma lower_byte_idem c : lower_byte (lower_byte c) = lower_byte c.
Proof.
  unfold lower_byte. destruct (N.leb_spec 65 c), (N.leb_spec c 90); cbn [andb];
    repeat match goal with |- context [(?a <=? ?b)%N] => destruct (N.leb_spec a b) end; cbn [andb]; done || lia.
Qed.
