(* ===== verification/ServerSchedule.v ===== *)
(** * The server's schedules (internal/store/schedule.go)

    The structured schedule the server stores: how the console's schedule object
    arrives, what it validates, the cron expression it runs on, and how the
    expressions of earlier releases are read.  The cron library is a parameter:
    which expressions it parses, and when an expression of plain fields fires. *)
From S2P Require Import Prelude JsString JsNumber JsValue Json Schedule Calendar NextRun ScheduleText ScheduleEditor Transport GoString.

(** ** The structured schedule *)

Record GoSchedule := mkGo {
  Kind : bytes;
  Minute : Z;
  Time : bytes;
  Weekdays : list Z;
  DayOfMonth : Z;
  CronExpr : bytes;
}.

#[export] Instance GoSchedule_eq_dec : EqDecision GoSchedule.
Proof. solve_decision. Defined.

Definition GoManual : GoSchedule := mkGo (u "manual") 0 [] [] 0 [].

Definition LastDayOfMonth : Z := 31.
Definition lastDayCronDays : bytes := u "28-31".

(** [sort.Ints] of the first occurrences; nil for none. *)
Definition normalizeWeekdays (days : list Z) : list Z := sort_num (dedup days).

(** ** Clock times *)

Definition parseClockTime (v : bytes) : option (Z * Z) :=
  let hh := take 2 v in
  let mm := drop 3 v in
  if negb (Z.of_nat (length v) =? 5) || negb (N.eqb (nth 2 v 0%N) 58) || negb (allDigits hh) || negb (allDigits mm)
  then None
  else Some (Z.of_N (dec_val hh), Z.of_N (dec_val mm)).

Definition validClockTime (v : bytes) : bool :=
  match parseClockTime v with
  | Some (h, m) => negb ((h <? 0) || (23 <? h) || (m <? 0) || (59 <? m))
  | None => false
  end.

(** ** Legacy cron expressions *)

(** A number [strconv.Atoi] cannot hold is out of the bounds as well. *)
Definition cronInt (field : bytes) (min max : Z) : option Z :=
  if negb (allDigits field) then None
  else let n := Z.of_N (dec_val field) in
       if (n <? min) || (max <? n) then None else Some n.

Definition cronIntList (field : bytes) (min max : Z) : option (list Z) :=
  normalizeWeekdays <$> mapM (λ p, cronInt (TrimSpace p) min max) (split_on 44 field).

Definition star (field : bytes) : bool := str_eqb field (u "*").

Definition schedulePreset (spec : bytes) : option GoSchedule :=
  match Fields spec with
  | [minuteField; hourField; domField; monthField; dowField] =>
      if negb (star monthField) then None else
      minute ← cronInt minuteField 0 59;
      if star hourField then
        if star domField && star dowField then Some (mkGo (u "hourly") minute [] [] 0 []) else None
      else
        hour ← cronInt hourField 0 23;
        let clock := cat [pad02 hour; u ":"; pad02 minute] in
        if star domField && star dowField then Some (mkGo (u "daily") 0 clock [] 0 [])
        else if star domField then
          days ← cronIntList dowField 0 6; Some (mkGo (u "weekly") 0 clock days 0 [])
        else if star dowField then
          if str_eqb domField lastDayCronDays then Some (mkGo (u "monthly") 0 clock [] LastDayOfMonth [])
          else day ← cronInt domField 1 31; Some (mkGo (u "monthly") 0 clock [] day [])
        else None
  | _ => None
  end.

Definition ParseLegacySchedule (raw : bytes) : GoSchedule :=
  let spec := TrimSpace raw in
  if str_eqb spec [] || str_eqb spec (u "manual") then GoManual
  else match schedulePreset spec with
       | Some preset => preset
       | None => mkGo (u "advanced") 0 [] [] 0 spec
       end.

Section server.
(** [strings.ToLower], and whether [cron.ParseStandard] accepts an expression. *)
Context (ToLower : bytes → bytes) (ParseStandard : bytes → bool).

(** ** The wire *)

(** A JSON string as the decoder stores it. *)
Definition go_string (s : jsstr) : bytes := default [] (utf8 (scalar_values s)).

(** Decoding one field; [None] is a type error, and an absent or null field
    leaves the zero value.  Keys are spelled as declared. *)
Definition dec_string (v : jsval) : option bytes :=
  match v with VStr s => Some (go_string s) | VUndef | VNull => Some [] | _ => None end.

Definition dec_int (v : jsval) : option Z :=
  match v with
  | VNum (Fin q) =>
      let n := qround q in
      if neqb (Fin q) (of_Z n) && (- 2 ^ 63 <=? n) && (n <? 2 ^ 63) then Some n else None
  | VUndef | VNull => Some 0
  | _ => None
  end.

Definition dec_ints (v : jsval) : option (list Z) :=
  match v with VArr l => mapM dec_int l | VUndef | VNull => Some [] | _ => None end.

Definition UnmarshalJSON (v : jsval) : option GoSchedule :=
  match v with
  | VUndef | VNull => Some GoManual
  | VStr raw => Some (ParseLegacySchedule (go_string raw))
  | VObj _ =>
      kind ← dec_string (get v "kind");
      minute ← dec_int (get v "minute");
      time ← dec_string (get v "time");
      weekdays ← dec_ints (get v "weekdays");
      day ← dec_int (get v "dayOfMonth");
      cron ← dec_string (get v "cron");
      Some (mkGo (ToLower (TrimSpace kind)) minute (TrimSpace time) weekdays day (TrimSpace cron))
  | _ => None
  end.

Definition Normalized (s : GoSchedule) : GoSchedule :=
  let kind := if str_eqb (Kind s) [] then u "manual" else Kind s in
  mkGo (ToLower (TrimSpace kind)) (Minute s) (TrimSpace (Time s)) (normalizeWeekdays (Weekdays s))
    (DayOfMonth s) (TrimSpace (CronExpr s)).

(** Why a schedule cannot be used. *)
Inductive ScheduleError :=
  | MinuteRange (n : Z)
  | ClockForm (v : bytes)
  | NoWeekday
  | WeekdayRange (d : Z)
  | DayRange (d : Z)
  | NoCron
  | InvalidCron (expr : bytes)
  | UnknownKind (kind : bytes).

(** [None] is a schedule that can be used. *)
Definition Validate (s : GoSchedule) : option ScheduleError :=
  let s := Normalized s in
  let clock (rest : option ScheduleError) := if validClockTime (Time s) then rest else Some (ClockForm (Time s)) in
  let kind t := str_eqb (Kind s) (u t) in
  if kind "manual"%string then None
  else if kind "hourly"%string then
    if (Minute s <? 0) || (59 <? Minute s) then Some (MinuteRange (Minute s)) else None
  else if kind "daily"%string then clock None
  else if kind "weekly"%string then
    clock (if Z.of_nat (length (Weekdays s)) =? 0 then Some NoWeekday
           else WeekdayRange <$> List.find (λ d, (d <? 0) || (6 <? d)) (Weekdays s))
  else if kind "monthly"%string then
    clock (if (DayOfMonth s <? 1) || (LastDayOfMonth <? DayOfMonth s) then Some (DayRange (DayOfMonth s)) else None)
  else if kind "advanced"%string then
    if str_eqb (CronExpr s) [] then Some NoCron
    else if ParseStandard (CronExpr s) then None else Some (InvalidCron (CronExpr s))
  else Some (UnknownKind (Kind s)).

(** ** What the scheduler runs on *)

Definition Cron (s : GoSchedule) : bytes :=
  let s := Normalized s in
  let '(hour, minute) := match parseClockTime (Time s) with Some hm => hm | None => (0, 0) end in
  let kind t := str_eqb (Kind s) (u t) in
  if kind "hourly"%string then cat [str_of_Z (Minute s); u " * * * *"]
  else if kind "daily"%string then cat [str_of_Z minute; u " "; str_of_Z hour; u " * * *"]
  else if kind "weekly"%string then
    if Z.of_nat (length (Weekdays s)) =? 0 then []
    else cat [str_of_Z minute; u " "; str_of_Z hour; u " * * "; join (u ",") (map str_of_Z (Weekdays s))]
  else if kind "monthly"%string then
    if LastDayOfMonth <=? DayOfMonth s then cat [str_of_Z minute; u " "; str_of_Z hour; u " "; lastDayCronDays; u " * *"]
    else if DayOfMonth s <? 1 then []
    else cat [str_of_Z minute; u " "; str_of_Z hour; u " "; str_of_Z (DayOfMonth s); u " * *"]
  else if kind "advanced"%string then CronExpr s
  else [].

(** [t] is a local time value. *)
Definition ShouldRun (s : GoSchedule) (t : Z) : bool :=
  if negb (str_eqb (Kind s) (u "monthly")) || (DayOfMonth s <? LastDayOfMonth) then true
  else day_of_month (Day t) =? days_in_month (month_index (Day t)).

Definition weekdayName (d : Z) : bytes := nth (Z.to_nat d) [u "Sun"; u "Mon"; u "Tue"; u "Wed"; u "Thu"; u "Fri"; u "Sat"] [].

Definition Label (s : GoSchedule) : bytes :=
  let s := Normalized s in
  let kind t := str_eqb (Kind s) (u t) in
  if kind "hourly"%string then cat [u "Every hour at :"; pad02 (Minute s)]
  else if kind "daily"%string then cat [u "Daily at "; Time s]
  else if kind "weekly"%string then
    match List.filter (λ d, (0 <=? d) && (d <=? 6)) (Weekdays s) with
    | [] => cat [u "Weekly at "; Time s]
    | days => cat [u "Weekly on "; join (u ", ") (map weekdayName days); u " at "; Time s]
    end
  else if kind "monthly"%string then
    if LastDayOfMonth <=? DayOfMonth s then cat [u "Monthly on the last day at "; Time s]
    else cat [u "Monthly on day "; str_of_Z (DayOfMonth s); u " at "; Time s]
  else if kind "advanced"%string then cat [u "Custom ("; CronExpr s; u ")"]
  else u "Manual".
End server.

(** ** ASCII on the wire *)

Definition ascii (s : jsstr) : Prop := Forall (λ c, (c < 128)%N) s.

Lemma scalar_values_ascii s : ascii s → scalar_values s = s.
Proof.
  induction 1 as [|c s Hc _ IH]; [done|]. cbn [scalar_values].
  assert (is_high c = false) as -> by (unfold is_high; rewrite andb_false_iff, !N.leb_gt; lia).
  assert (is_low c = false) as -> by (unfold is_low; rewrite andb_false_iff, !N.leb_gt; lia). by rewrite IH.
Qed.

Lemma utf8_ascii s : ascii s → utf8 s = Some s.
Proof.
  induction 1 as [|c s Hc _ IH]; [done|]. cbn [utf8].
  assert (is_high c = false) as -> by (unfold is_high; rewrite andb_false_iff, !N.leb_gt; lia).
  assert (is_low c = false) as -> by (unfold is_low; rewrite andb_false_iff, !N.leb_gt; lia).
  rewrite IH. cbn. by rewrite (proj2 (N.ltb_lt c 128) Hc).
Qed.

Lemma go_string_ascii s : ascii s → go_string s = s.
Proof. intros H. unfold go_string. by rewrite scalar_values_ascii, utf8_ascii. Qed.

(** ** Clock times *)

(** The console counts UTF-16 units, the server the bytes of UTF-8. *)
Lemma utf8_longer n s : (length s <= n)%nat → ∃ bytes, utf8 (scalar_values s) = Some bytes ∧ (length s <= length bytes)%nat.
Proof.
  revert s. induction n as [|n IH]; intros s Hn.
  { destruct s; [by exists []|cbn in Hn; lia]. }
  destruct s as [|c s]; [by exists []|]. cbn [length] in Hn. cbn [scalar_values].
  assert (Hone : ∀ x t, is_high x = false → is_low x = false → (length t <= n)%nat →
    ∃ bytes, utf8 (x :: scalar_values t) = Some bytes ∧ (S (length t) <= length bytes)%nat).
  { intros x t Hh Hl Ht. destruct (IH t Ht) as (b & E & Hb). cbn [utf8]. rewrite Hh, Hl, E.
    eexists. split; [reflexivity|]. rewrite length_app. destruct (x <? 128)%N; [cbn; lia|]. destruct (x <? 2048)%N; cbn; lia. }
  destruct (is_high c) eqn:Eh; [|destruct (is_low c) eqn:El; apply Hone; done || lia].
  destruct s as [|d s]; [eexists; split; [reflexivity|cbn; lia]|].
  cbn [length] in Hn. destruct (is_low d) eqn:El; [|apply (Hone _ (d :: s)); [done..|cbn; lia]].
  destruct (IH s) as (b & E & Hb); [lia|]. cbn [utf8]. rewrite Eh, El, E. eexists. split; [reflexivity|].
  rewrite length_app. cbn. lia.
Qed.

Lemma go_string_longer s : (length s <= length (go_string s))%nat.
Proof. destruct (utf8_longer (length s) s) as (b & E & Hb); [done|]. unfold go_string. by rewrite E. Qed.

Lemma str_of_Z_digits z : 0 <= z → str_of_Z z = digits (Z.to_N z).
Proof. intros H. unfold str_of_Z. destruct (Z.ltb_spec z 0); [lia|done]. Qed.

Lemma two_digit_text a b : (a < 10)%N → (b < 10)%N →
  allDigits [48 + a; 48 + b]%N = true ∧ Z.of_N (dec_val [48 + a; 48 + b]%N) = Z.of_N (10 * a + b).
Proof.
  intros Ha Hb. split.
  - unfold allDigits, all_digits. cbn [forallb]. by rewrite !is_digit_add.
  - unfold dec_val. cbn [fold_left]. unfold dec_step. f_equal. lia.
Qed.

(** A clock time is read alike on both sides. *)
Lemma clock_parts time : HHMM time = true →
  ∃ h m, 0 <= h < 24 ∧ 0 <= m < 60 ∧ parseClockTime time = Some (h, m)
    ∧ clock_ms time = MakeTime h m 0 0 ∧ time = cat [pad02 h; u ":"; pad02 m]
    ∧ ascii time ∧ TrimSpace time = time.
Proof.
  intros H. destruct (HHMM_parts time H) as (h & m & Hh & Hm & E & Et). exists h, m.
  assert (Ec : time = [48 + Z.to_N h / 10; 48 + Z.to_N h mod 10; 58; 48 + Z.to_N m / 10; 48 + Z.to_N m mod 10]%N).
  { rewrite Et. unfold padTime. by rewrite !pad2_Z by lia. }
  pose proof (N.mod_lt (Z.to_N h) 10 ltac:(lia)) as B1. pose proof (N.mod_lt (Z.to_N m) 10 ltac:(lia)) as B2.
  assert (B3 : (Z.to_N h / 10 < 10)%N) by (apply N.Div0.div_lt_upper_bound; lia).
  assert (B4 : (Z.to_N m / 10 < 10)%N) by (apply N.Div0.div_lt_upper_bound; lia).
  split_and!; try lia.
  - destruct (two_digit_text _ _ B3 B1) as [D1 V1]. destruct (two_digit_text _ _ B4 B2) as [D2 V2].
    rewrite Ec. unfold parseClockTime. cbn [length nth take drop firstn skipn]. rewrite D1, D2, V1, V2.
    pose proof (N.div_mod (Z.to_N h) 10 ltac:(lia)). pose proof (N.div_mod (Z.to_N m) 10 ltac:(lia)).
    cbn. do 2 f_equal; lia.
  - unfold clock_ms. by rewrite E, !trunc_num_Z.
  - rewrite Et. unfold padTime, pad02. by rewrite !str_of_num_Z by lia.
  - rewrite Ec. repeat constructor; lia.
  - rewrite Ec. eapply TrimSpace_id; [| |done|done]; apply digit_graphic, is_digit_add; done.
Qed.

Lemma HHMM_validClockTime time : HHMM time = true → validClockTime time = true.
Proof.
  intros (h & m & Hh & Hm & E & _)%clock_parts. unfold validClockTime. rewrite E.
  destruct (Z.ltb_spec h 0), (Z.ltb_spec 23 h), (Z.ltb_spec m 0), (Z.ltb_spec 59 m); done || lia.
Qed.

(** ** The console's schedules on the server *)

(** What the console's schedule is stored as. *)
Definition go_of (s : Schedule) : GoSchedule :=
  match s with
  | ManualSchedule => GoManual
  | HourlySchedule minute => mkGo (u "hourly") minute [] [] 0 []
  | DailySchedule time => mkGo (u "daily") 0 time [] 0 []
  | WeeklySchedule time weekdays => mkGo (u "weekly") 0 time weekdays 0 []
  | MonthlySchedule time day => mkGo (u "monthly") 0 time [] day []
  | AdvancedSchedule cron => mkGo (u "advanced") 0 [] [] 0 (TrimSpace (go_string cron))
  end.

(** [strings.ToLower] leaves lower-case words alone. *)
Class LowerCase (ToLower : bytes → bytes) : Prop := { lower_kinds k : ToLower (kind_text k) = kind_text k }.

Lemma dec_int_Z z : - 2 ^ 63 <= z < 2 ^ 63 → dec_int (VNum (of_Z z)) = Some z.
Proof.
  intros H. unfold dec_int, of_Z. rewrite qround_Z. unfold neqb, nle. rewrite !Qle_bool_Z, Z.leb_refl.
  cbn [andb]. rewrite (proj2 (Z.leb_le _ _) (proj1 H)), (proj2 (Z.ltb_lt _ _) (proj2 H)). done.
Qed.

Lemma dec_ints_Z l : Forall (λ d, 0 <= d <= 6) l → mapM dec_int (map (λ d, VNum (of_Z d)) l) = Some l.
Proof.
  intros H. apply mapM_Some. induction H as [|d l Hd _ IH]; constructor; [|done].
  apply dec_int_Z. lia.
Qed.

Lemma TrimSpace_nil : TrimSpace [] = [].
Proof. reflexivity. Qed.

Lemma TrimSpace_kind k : TrimSpace (kind_text k) = kind_text k.
Proof. by destruct k. Qed.

Lemma go_string_kind k : go_string (kind_text k) = kind_text k.
Proof. by destruct k. Qed.

Lemma go_time time : HHMM time = true → go_string time = time ∧ TrimSpace time = time.
Proof. intros (h & m & _ & _ & _ & _ & _ & Ha & Ht)%clock_parts. split; [|done]. by apply go_string_ascii. Qed.

Lemma normalizeWeekdays_id days : increasing days → normalizeWeekdays days = days.
Proof. apply sort_dedup_id. Qed.

Section wire.
Context (ToLower : bytes → bytes) {HL : LowerCase ToLower}.

Lemma kind_decoded k : dec_string (VStr (kind_text k)) = Some (kind_text k).
Proof. cbn [dec_string]. by rewrite go_string_kind. Qed.

Ltac wire :=
  js_eval; rewrite ?kind_decoded, ?dec_int_Z, ?dec_ints_Z by (done || lia); cbn [dec_string dec_int dec_ints mbind option_bind].

Lemma UnmarshalJSON_val s : valid_schedule s → UnmarshalJSON ToLower (schedule_val s) = Some (go_of s).
Proof.
  intros Hv. unfold schedule_val, UnmarshalJSON.
  destruct s as [|m|time|time days|time day|cron]; cbn [kind_of valid_schedule] in *; wire;
    rewrite ?TrimSpace_kind, ?lower_kinds, ?TrimSpace_nil; try done.
  - destruct (go_time time Hv) as [E1 E2]. by rewrite E1, E2.
  - destruct Hv as (Hv & _ & _ & Hr). destruct (go_time time Hv) as [E1 E2]. by rewrite dec_ints_Z, E1, E2.
  - destruct Hv as [Hv Hd]. destruct (go_time time Hv) as [E1 E2]. by rewrite E1, E2.
Qed.

Lemma Normalized_of s : valid_schedule s → Normalized ToLower (go_of s) = go_of s.
Proof.
  assert (Hk : ∀ k, ToLower (TrimSpace (if str_eqb (kind_text k) [] then u "manual" else kind_text k)) = kind_text k).
  { intros k. transitivity (ToLower (kind_text k)); [|apply lower_kinds]. f_equal. by destruct k. }
  intros Hv. unfold Normalized.
  destruct s as [|m|time|time days|time day|cron]; cbn [go_of Kind Minute Time Weekdays DayOfMonth CronExpr valid_schedule] in *;
    f_equal.
  - apply (Hk KManual).
  - apply (Hk KHourly).
  - apply (Hk KDaily).
  - apply (proj2 (go_time time ltac:(tauto))).
  - apply (Hk KWeekly).
  - apply (proj2 (go_time time ltac:(tauto))).
  - apply normalizeWeekdays_id. tauto.
  - apply (Hk KMonthly).
  - apply (proj2 (go_time time ltac:(tauto))).
  - apply (Hk KAdvanced).
  - apply TrimSpace_idem.
Qed.

(** The checks on a console's schedule. *)
Lemma Validate_of (ParseStandard : bytes → bool) s : valid_schedule s →
  match s with
  | AdvancedSchedule _ =>
      Validate ToLower ParseStandard (go_of s) = None ↔ CronExpr (go_of s) ≠ [] ∧ ParseStandard (CronExpr (go_of s)) = true
  | _ => Validate ToLower ParseStandard (go_of s) = None
  end.
Proof.
  intros Hv. pose proof (Normalized_of s Hv) as Hn.
  unfold Validate. rewrite Hn.
  destruct s as [|m|time|time days|time day|cron]; cbn [go_of Kind Minute Time Weekdays DayOfMonth CronExpr valid_schedule] in *;
    js_literals; cbn match; try done.
  - destruct (Z.ltb_spec m 0), (Z.ltb_spec 59 m); done || lia.
  - by rewrite HHMM_validClockTime.
  - destruct Hv as (Hv & Hne & _ & Hr). rewrite HHMM_validClockTime by done. destruct days as [|d days]; [done|].
    replace (Z.of_nat (length (d :: days)) =? 0) with false by (symmetry; apply Z.eqb_neq; cbn [length]; lia).
    destruct (List.find _ _) as [x|] eqn:E; [|done]. apply List.find_some in E as [Hx E].
    rewrite Forall_forall in Hr. specialize (Hr x (proj2 (list_elem_of_In _ _) Hx)). b2p. lia.
  - destruct Hv as [Hv Hd]. rewrite HHMM_validClockTime by done. unfold LastDayOfMonth.
    destruct (Z.ltb_spec day 1), (Z.ltb_spec 31 day); done || lia.
  - unfold str_eqb. case_bool_decide as E; [naive_solver|]. destruct (ParseStandard _); naive_solver.
Qed.

(** C35: a schedule the console saves is decoded by the server field for field,
    needs no tidying, and is accepted: always when it is not an expression of
    the operator's own, and otherwise exactly when the expression is not blank
    and the cron library parses it. *)
Theorem server_accepts (ParseStandard : bytes → bool) s : valid_schedule s →
  UnmarshalJSON ToLower (schedule_val s) = Some (go_of s)
  ∧ Normalized ToLower (go_of s) = go_of s
  ∧ match s with
    | AdvancedSchedule _ =>
        Validate ToLower ParseStandard (go_of s) = None ↔ CronExpr (go_of s) ≠ [] ∧ ParseStandard (CronExpr (go_of s)) = true
    | _ => Validate ToLower ParseStandard (go_of s) = None
    end.
Proof. intros Hv. split; [by apply UnmarshalJSON_val|]. split; [by apply Normalized_of|]. by apply Validate_of. Qed.
End wire.

(** ** The derived expressions *)

(** The fields the presets use: any value, listed values, a range. *)
Inductive Field := FStar | FList (l : list Z) | FRange (a b : Z).

Definition field_text (f : Field) : bytes :=
  match f with
  | FStar => u "*"
  | FList l => join (u ",") (map str_of_Z l)
  | FRange a b => cat [str_of_Z a; u "-"; str_of_Z b]
  end.

Definition cron_text (fs : list Field) : bytes := join (u " ") (map field_text fs).

Definition clock_of (time : jsstr) : Z * Z := match parseClockTime time with Some hm => hm | None => (0, 0) end.

Definition schedule_fields (s : Schedule) : list Field :=
  match s with
  | HourlySchedule m => [FList [m]; FStar; FStar; FStar; FStar]
  | DailySchedule time => let '(h, m) := clock_of time in [FList [m]; FList [h]; FStar; FStar; FStar]
  | WeeklySchedule time days => let '(h, m) := clock_of time in [FList [m]; FList [h]; FStar; FStar; FList days]
  | MonthlySchedule time day =>
      let '(h, m) := clock_of time in
      [FList [m]; FList [h]; if LastDayOfMonth <=? day then FRange 28 31 else FList [day]; FStar; FStar]
  | ManualSchedule | AdvancedSchedule _ => []
  end.

Lemma number_word z : 0 <= z → word (str_of_Z z).
Proof. intros H. rewrite str_of_Z_digits by done. apply digits_word. Qed.

Lemma number_notin z c : 0 <= z → is_digit c = false → c ∉ str_of_Z z.
Proof. intros H Hc. rewrite str_of_Z_digits by done. by apply digits_notin. Qed.

Lemma cronInt_number z lo hi : 0 <= z → lo <= z <= hi → cronInt (str_of_Z z) lo hi = Some z.
Proof.
  intros H0 H. rewrite str_of_Z_digits by done. unfold cronInt. rewrite allDigits_digits, dec_val_digits.
  rewrite Z2N.id by done. cbn [negb].
  destruct (Z.ltb_spec z lo), (Z.ltb_spec hi z); done || lia.
Qed.

(** A field of numbers. *)
Lemma list_word l : l ≠ [] → Forall (λ d, 0 <= d) l → word (field_text (FList l)).
Proof.
  intros Hne H. cbn [field_text]. change (u ",") with [44%N].
  induction H as [|d l Hd Hl IH]; [done|]. destruct l as [|d' l]; [by apply number_word|].
  destruct (IH ltac:(done)) as [_ Hg]. cbn [map join]. split.
  - destruct (str_of_Z d) eqn:E; [|done]. by destruct (number_word d Hd).
  - apply Forall_app. split; [apply (number_word d Hd)|]. constructor; [done|]. exact Hg.
Qed.

Lemma list_split l : l ≠ [] → Forall (λ d, 0 <= d) l → split_on 44 (field_text (FList l)) = map str_of_Z l.
Proof.
  intros Hne H. cbn [field_text]. apply split_on_join; [by destruct l|].
  apply Forall_map. eapply Forall_impl; [exact H|]. intros d Hd. by apply number_notin.
Qed.

Lemma list_not_star l : l ≠ [] → Forall (λ d, 0 <= d) l → star (field_text (FList l)) = false.
Proof.
  intros Hne H. unfold star, str_eqb. apply bool_decide_eq_false. intros E.
  pose proof (list_split l Hne H) as Es. rewrite E in Es. destruct l as [|d [|]]; [done| |done].
  inversion H; subst. cbn in Es. injection Es as Es. assert (Hn : 42%N ∉ str_of_Z d) by (by apply number_notin).
  apply Hn. rewrite <- Es. by constructor.
Qed.

Lemma cronIntList_numbers l : l ≠ [] → increasing l → Forall (λ d, 0 <= d <= 6) l →
  cronIntList (field_text (FList l)) 0 6 = Some l.
Proof.
  intros Hne Hi Hr. unfold cronIntList. rewrite list_split; [|done|by eapply Forall_impl; [exact Hr|]; cbn; lia].
  assert (E : mapM (λ p, cronInt (TrimSpace p) 0 6) (map str_of_Z l) = Some l).
  { apply mapM_Some. clear Hne Hi. induction Hr as [|d l Hd _ IH]; constructor; [|done].
    rewrite word_TrimSpace by (apply number_word; lia). apply cronInt_number; lia. }
  rewrite E. cbn. by rewrite normalizeWeekdays_id.
Qed.

Definition wf_field (f : Field) : Prop :=
  match f with FStar => True | FList l => l ≠ [] ∧ Forall (λ d, 0 <= d) l | FRange a b => 0 <= a ∧ 0 <= b end.

Lemma field_word f : wf_field f → word (field_text f).
Proof.
  destruct f as [|l|a b]; cbn [wf_field].
  - intros _. split; [done|]. repeat constructor.
  - intros [Hne H]. by apply list_word.
  - intros [Ha Hb]. cbn [field_text cat concat]. rewrite app_nil_r.
    destruct (number_word a Ha) as [Na Ga], (number_word b Hb) as [_ Gb]. split.
    + by destruct (str_of_Z a).
    + apply Forall_app. split; [done|]. by constructor.
Qed.

Lemma schedule_fields_wf s : valid_schedule s → Forall wf_field (schedule_fields s).
Proof.
  assert (H1 : ∀ z, 0 <= z → wf_field (FList [z])) by (intros z Hz; split; [done|by repeat constructor]).
  destruct s as [|m|time|time days|time day|cron]; cbn [schedule_fields valid_schedule]; intros Hv; try by constructor.
  - repeat constructor; try done. lia.
  - unfold clock_of. destruct (clock_parts time Hv) as (h & m & Hh & Hm & -> & _).
    repeat constructor; try done; lia.
  - destruct Hv as (Hv & Hne & Hi & Hr). unfold clock_of. destruct (clock_parts time Hv) as (h & m & Hh & Hm & -> & _).
    repeat constructor; try done; try lia. eapply Forall_impl; [exact Hr|]. cbn. lia.
  - destruct Hv as (Hv & Hd). unfold clock_of. destruct (clock_parts time Hv) as (h & m & Hh & Hm & -> & _).
    case_on_goal; repeat constructor; try done; lia.
Qed.

Lemma Fields_cron_text fs : Forall wf_field fs → Fields (cron_text fs) = map field_text fs.
Proof. intros H. apply Fields_join, Forall_map. eapply Forall_impl; [exact H|]. apply field_word. Qed.

Lemma TrimSpace_cron_text fs : fs ≠ [] → Forall wf_field fs → TrimSpace (cron_text fs) = cron_text fs.
Proof.
  intros Hne H. apply join_words_TrimSpace; [by destruct fs|]. apply Forall_map.
  eapply Forall_impl; [exact H|]. apply field_word.
Qed.

Section derived.
Context (ToLower : bytes → bytes) {HL : LowerCase ToLower}.

Lemma Cron_of s : valid_schedule s → self_firing s = true →
  Cron ToLower (go_of s) = cron_text (schedule_fields s).
Proof.
  intros Hv Hs. unfold Cron. rewrite Normalized_of by done.
  destruct s as [|m|time|time days|time day|cron]; try done; cbn [go_of Kind Minute Time Weekdays DayOfMonth];
    js_literals; cbn match; unfold schedule_fields, clock_of, cron_text.
  - destruct (parseClockTime time) as [[h m]|]; cbn [map field_text join cat concat]; by rewrite ?app_nil_r.
  - destruct Hv as (_ & Hne & _). destruct days as [|d days]; [done|].
    replace (Z.of_nat (length (d :: days)) =? 0) with false by (symmetry; apply Z.eqb_neq; cbn [length]; lia).
    destruct (parseClockTime time) as [[h m]|]; cbn [map field_text join cat concat]; by rewrite ?app_nil_r.
  - destruct Hv as [_ Hd]. destruct (Z.leb_spec LastDayOfMonth day);
      [|replace (day <? 1) with false by (symmetry; apply Z.ltb_ge; lia)];
      destruct (parseClockTime time) as [[h m]|]; cbn [map field_text join cat concat]; by rewrite ?app_nil_r.
Qed.

(** The expression of a preset is read back as the preset. *)
Lemma schedulePreset_of s : valid_schedule s → self_firing s = true →
  schedulePreset (cron_text (schedule_fields s)) = Some (go_of s).
Proof.
  intros Hv Hs. unfold schedulePreset. rewrite Fields_cron_text by (by apply schedule_fields_wf).
  assert (H1 : ∀ z, 0 <= z → field_text (FList [z]) = str_of_Z z ∧ star (field_text (FList [z])) = false).
  { intros z Hz. split; [done|]. apply list_not_star; [done|]. by repeat constructor. }
  destruct s as [|m|time|time days|time day|cron]; try done; cbn [schedule_fields valid_schedule go_of] in *.
  - cbn [map]. rewrite (proj1 (H1 m ltac:(lia))), cronInt_number by lia. done.
  - unfold clock_of. destruct (clock_parts time Hv) as (h & m & Hh & Hm & -> & _ & Et & _).
    cbn [map]. rewrite (proj2 (H1 h ltac:(lia))), (proj1 (H1 m ltac:(lia))), (proj1 (H1 h ltac:(lia))).
    rewrite !cronInt_number by lia. cbn -[cat u pad02]. by rewrite <- Et.
  - destruct Hv as (Hv & Hne & Hi & Hr). assert (Hr0 : Forall (λ d, 0 <= d) days) by (eapply Forall_impl; [exact Hr|]; cbn; lia).
    unfold clock_of. destruct (clock_parts time Hv) as (h & m & Hh & Hm & -> & _ & Et & _).
    cbn [map]. rewrite (proj2 (H1 h ltac:(lia))), (proj1 (H1 m ltac:(lia))), (proj1 (H1 h ltac:(lia))).
    rewrite !cronInt_number, list_not_star, cronIntList_numbers by (done || lia). cbn -[cat u pad02]. by rewrite <- Et.
  - destruct Hv as [Hv Hd]. unfold clock_of. destruct (clock_parts time Hv) as (h & m & Hh & Hm & -> & _ & Et & _).
    cbn [map]. rewrite (proj2 (H1 h ltac:(lia))), (proj1 (H1 m ltac:(lia))), (proj1 (H1 h ltac:(lia))).
    rewrite !cronInt_number by lia. unfold LastDayOfMonth. destruct (Z.leb_spec 31 day).
    + assert (day = 31) as -> by lia. cbn -[cat u pad02]. by rewrite <- Et.
    + rewrite (proj2 (H1 day ltac:(lia))), (proj1 (H1 day ltac:(lia))). cbn -[cat u pad02 str_eqb].
      assert (str_eqb (str_of_Z day) lastDayCronDays = false) as ->.
      { apply bool_decide_eq_false. intros E. apply (number_notin day 45 ltac:(lia) eq_refl). rewrite E. vm_compute. set_solver. }
      rewrite cronInt_number by lia. cbn -[cat u pad02]. by rewrite <- Et.
Qed.

(** The expression the server derives from a schedule of the console, when
    it is stored bare as earlier releases did, is read back as that schedule: no
    job changes its timing or its label across the upgrade. *)
Theorem legacy_roundtrip s : valid_schedule s → (∀ cron, s ≠ AdvancedSchedule cron) →
  ParseLegacySchedule (Cron ToLower (go_of s)) = go_of s.
Proof.
  intros Hv Hs. destruct (self_firing s) eqn:E; [|destruct s; try done].
  2: { unfold Cron. rewrite Normalized_of by done. done. }
  2: { by destruct (Hs cron). }
  rewrite Cron_of by done. unfold ParseLegacySchedule.
  pose proof (schedule_fields_wf s Hv) as Hf.
  assert (Hne : schedule_fields s ≠ []) by (destruct s; try done; cbn; by destruct (clock_of _)).
  rewrite TrimSpace_cron_text by done. rewrite schedulePreset_of by done.
  assert (Hw : ∀ t, length (Fields t) ≠ 5%nat → str_eqb (cron_text (schedule_fields s)) t = false).
  { intros t Ht. apply bool_decide_eq_false. intros Et. apply Ht. rewrite <- Et, Fields_cron_text by done.
    rewrite length_map. destruct s; try done; cbn; by destruct (clock_of _). }
  by rewrite !Hw by (vm_compute; discriminate).
Qed.
End derived.

(** ** When the server fires *)

Definition field_match (f : Field) (z : Z) : bool :=
  match f with
  | FStar => true
  | FList l => existsb (Z.eqb z) l
  | FRange a b => (a <=? z) && (z <=? b)
  end.

(** What the cron library documents of an expression of plain fields that
    restricts at most one of the two day fields: it fires on the whole minutes
    of the server's wall clock that match every field.  Times are local time
    values of a zone without shifts, as in [fires]. *)
Class CronLaw (cron_fires : bytes → Z → bool) : Prop := {
  cron_documented m h dom dow t :
    wf_field m → wf_field h → wf_field dom → wf_field dow → dom = FStar ∨ dow = FStar →
    cron_fires (cron_text [m; h; dom; FStar; dow]) t =
      field_match m (MinFromTime t) && field_match h (HourFromTime t)
      && field_match dom (day_of_month (Day t)) && field_match dow (weekday (Day t))
      && (t mod msPerMinute =? 0);
}.

(** The scheduler: an empty expression is never registered, and a firing is
    kept when [ShouldRun] says so. *)
Definition server_fires (ToLower : bytes → bytes) (cron_fires : bytes → Z → bool) (g : GoSchedule) (t : Z) : bool :=
  let spec := Cron ToLower g in
  negb (str_eqb spec []) && cron_fires spec t && ShouldRun g t.

Lemma field_match_one a z : field_match (FList [a]) z = (z =? a).
Proof. cbn. by rewrite orb_false_r. Qed.

Lemma minute_of_day t h m : 0 <= h < 24 → 0 <= m < 60 →
  (MinFromTime t = m ∧ HourFromTime t = h ∧ t mod msPerMinute = 0) ↔ TimeInDay t = MakeTime h m 0 0.
Proof.
  intros Hh Hm. unfold MinFromTime, HourFromTime, TimeInDay, MakeTime, msPerHour, msPerMinute, msPerDay, msPerSecond.
  split; [intros (H1 & H2 & H3)|intros H; split_and!]; divlia.
Qed.

Lemma minute_of_hour t m : 0 <= m < 60 →
  (MinFromTime t = m ∧ t mod msPerMinute = 0) ↔ t mod msPerHour = m * msPerMinute.
Proof.
  intros Hm. unfold MinFromTime, TimeInDay, msPerHour, msPerMinute, msPerDay.
  split; [intros (H1 & H3)|intros H; split]; divlia.
Qed.

Section firing.
Context (ToLower : bytes → bytes) (cron_fires : bytes → Z → bool).
Context {HL : LowerCase ToLower} {HC : CronLaw cron_fires}.

(** The derived expression at a time of day. *)
Lemma cron_fires_clock h m dom dow t : 0 <= h < 24 → 0 <= m < 60 →
  wf_field dom → wf_field dow → dom = FStar ∨ dow = FStar →
  cron_fires (cron_text [FList [m]; FList [h]; dom; FStar; dow]) t = true ↔
  TimeInDay t = MakeTime h m 0 0 ∧ field_match dom (day_of_month (Day t)) = true ∧ field_match dow (weekday (Day t)) = true.
Proof.
  intros Hh Hm Hdom Hdow Hstar. rewrite cron_documented by (done || (split; [done|by repeat constructor; lia])).
  rewrite !field_match_one, <- (minute_of_day t h m Hh Hm), !andb_true_iff, !Z.eqb_eq. tauto.
Qed.

Lemma cron_text_nonempty f fs : wf_field f → str_eqb (cron_text (f :: fs)) [] = false.
Proof.
  intros Hf. apply bool_decide_eq_false. unfold cron_text. cbn [map]. destruct (field_word f Hf) as [Hne _].
  destruct fs; cbn [map join]; [done|]. by destruct (field_text f).
Qed.

Lemma ShouldRun_early g t : DayOfMonth g < 31 → ShouldRun g t = true.
Proof.
  intros H. unfold ShouldRun, LastDayOfMonth. rewrite (proj2 (Z.ltb_lt _ _) H). by rewrite orb_true_r.
Qed.

(** C37: the server's scheduler fires a schedule the console saved at exactly
    the times the console's preview is computed from, except that a monthly
    schedule on a day before the 31st is skipped by the server in the months
    that do not have the day. *)
Theorem server_fires_preview s t : valid_schedule s → (∀ cron, s ≠ AdvancedSchedule cron) →
  server_fires ToLower cron_fires (go_of s) t = true ↔
  fires s t ∧ (∀ time d, s = MonthlySchedule time d → d < 31 → day_of_month (Day t) = d).
Proof.
  intros Hv Ha. unfold server_fires. pose proof (schedule_fields_wf s Hv) as Hwf.
  destruct (self_firing s) eqn:Hs.
  2: { destruct s; try done; [|by destruct (Ha cron)].
       assert (E : Cron ToLower (go_of ManualSchedule) = []) by (unfold Cron; by rewrite Normalized_of).
       rewrite E. cbn. naive_solver. }
  rewrite Cron_of by done.
  destruct s as [|m|time|time days|time day|cron]; try done; cbn [schedule_fields valid_schedule go_of fires on_day] in *.
  - rewrite cron_text_nonempty, ShouldRun_early by (done || (inversion Hwf; done)).
    rewrite cron_documented by (done || (by left) || (by inversion Hwf)).
    rewrite field_match_one. cbn [field_match negb andb]. rewrite !andb_true_r, andb_true_iff, !Z.eqb_eq.
    rewrite minute_of_hour by lia. naive_solver.
  - unfold clock_of in *. destruct (clock_parts time Hv) as (h & m & Hh & Hm & Ep & Ec & _). rewrite Ep, Ec in *.
    rewrite cron_text_nonempty, ShouldRun_early by (done || (by inversion Hwf)). cbn [negb andb].
    rewrite andb_true_r, cron_fires_clock by (done || (by left)). naive_solver.
  - destruct Hv as (Hv & Hne & Hi & Hr).
    unfold clock_of in *. destruct (clock_parts time Hv) as (h & m & Hh & Hm & Ep & Ec & _). rewrite Ep, Ec in *.
    rewrite cron_text_nonempty, ShouldRun_early by (done || (by inversion Hwf)). cbn [negb andb].
    rewrite andb_true_r, cron_fires_clock; [|done|done|done| |by left].
    2: { split; [done|]. eapply Forall_impl; [exact Hr|]. cbn. lia. }
    cbn [field_match]. change (existsb (Z.eqb ?x) days) with (includes_day days x).
    rewrite includes_day_spec. naive_solver.
  - destruct Hv as [Hv Hd].
    unfold clock_of in *. destruct (clock_parts time Hv) as (h & m & Hh & Hm & Ep & Ec & _). rewrite Ep, Ec in *.
    rewrite cron_text_nonempty by (by inversion Hwf). cbn [negb andb]. rewrite andb_true_iff.
    rewrite cron_fires_clock; [|done|done|by inversion Hwf as [|???[|???[]]]|done|by right].
    pose proof (day_of_month_range (Day t)) as Hdm. pose proof (month_start_succ (month_index (Day t))) as Hml.
    unfold LastDayOfMonth. destruct (Z.leb_spec 31 day) as [H31|H31].
    + assert (day = 31) as -> by lia. unfold ShouldRun. cbn [Kind DayOfMonth field_match].
      js_literals. change (31 <? LastDayOfMonth) with false. cbn [negb orb].
      rewrite andb_true_iff, !Z.leb_le, Z.eqb_eq. split; [intros [[? ?] ?]|intros [[? ?] ?]; split_and!; try done; lia].
      split; [split; [done|lia]|]. intros ? ? [= _ <-]. lia.
    + rewrite ShouldRun_early by done. rewrite field_match_one, Z.eqb_eq. split.
      * intros [(? & ? & _) _]. split; [split; [done|lia]|]. by intros ? ? [= _ <-].
      * intros [[? ?] Hday]. specialize (Hday time day eq_refl H31). done.
Qed.
End firing.

(** A monthly schedule on the 30th: the console previews a run on 28 February
    2026 at 01:00, which the server does not fire. *)
Lemma february_skipped ToLower cron_fires : LowerCase ToLower → CronLaw cron_fires →
  let s := MonthlySchedule (u "01:00") 30 in
  let t := MakeDate (MakeDay 2026 1 28) (MakeTime 1 0 0 0) in
  fires s t ∧ server_fires ToLower cron_fires (go_of s) t = false.
Proof.
  intros HL HC s t. split; [vm_compute; split; reflexivity|].
  destruct (server_fires ToLower cron_fires (go_of s) t) eqn:E; [|done]. exfalso.
  assert (Hv : valid_schedule s) by (split; [reflexivity|lia]).
  unfold server_fires in E. rewrite (Cron_of ToLower s Hv eq_refl) in E.
  change (schedule_fields s) with [FList [0]; FList [1]; FList [30]; FStar; FStar] in E.
  apply andb_true_iff in E as [E _]. apply andb_true_iff in E as [_ E].
  apply (cron_fires_clock cron_fires 1 0 (FList [30]) FStar t) in E as (_ & E & _);
    [vm_compute in E; discriminate E|lia|lia| |exact I|by right].
  split; [done|repeat constructor; lia].
Qed.

(** The labels of the two sides differ: the console's fallback does not word an
    hourly schedule as the server does. *)
Lemma labels_differ ToLower : LowerCase ToLower →
  describeSchedule (schedule_val (HourlySchedule 0)) ≠ Label ToLower (go_of (HourlySchedule 0)).
Proof.
  intros HL. unfold Label. rewrite (Normalized_of ToLower (HourlySchedule 0)) by (cbn; lia). vm_compute. discriminate.
Qed.

(** A bare string is not read as the server reads it: the console keeps the
    expression, the server recognises the preset. *)
Lemma legacy_strings_differ :
  parseSchedule (VStr (u "0 2 * * *")) = AdvancedSchedule (u "0 2 * * *")
  ∧ ParseLegacySchedule (u "0 2 * * *") = go_of (DailySchedule (u "02:00")).
Proof. split; vm_compute; reflexivity. Qed.

(** ** A concrete cron

    An executable matcher of plain fields that has the documented behaviour. *)

Definition part_match (p : bytes) (z : Z) : bool :=
  match split_on 45 p with
  | [n] => z =? Z.of_N (dec_val n)
  | [a; b] => (Z.of_N (dec_val a) <=? z) && (z <=? Z.of_N (dec_val b))
  | _ => false
  end.

Definition text_match (f : bytes) (z : Z) : bool :=
  star f || existsb (λ p, part_match p z) (split_on 44 f).

Definition plain_cron (spec : bytes) (t : Z) : bool :=
  match Fields spec with
  | [m; h; dom; mon; dow] =>
      text_match m (MinFromTime t) && text_match h (HourFromTime t) && text_match dom (day_of_month (Day t))
      && text_match dow (weekday (Day t)) && (t mod msPerMinute =? 0)
  | _ => false
  end.

Lemma number_val z : 0 <= z → Z.of_N (dec_val (str_of_Z z)) = z.
Proof. intros H. by rewrite str_of_Z_digits, dec_val_digits, Z2N.id. Qed.

Lemma part_match_number z x : 0 <= z → part_match (str_of_Z z) x = (x =? z).
Proof.
  intros H. unfold part_match. rewrite split_on_single by (by apply number_notin). by rewrite number_val.
Qed.

Lemma text_match_field f z : wf_field f → text_match (field_text f) z = field_match f z.
Proof.
  destruct f as [|l|a b]; cbn [wf_field]; [done| |].
  - intros [Hne Hl]. unfold text_match. rewrite list_not_star, list_split by done. cbn [orb field_match]. clear Hne.
    induction Hl as [|d l Hd _ IH]; [done|]. cbn [map existsb]. by rewrite IH, part_match_number.
  - intros [Ha Hb]. unfold text_match. cbn [field_text field_match cat concat]. rewrite app_nil_r.
    change (u "-") with [45%N]. cbn [app].
    assert (Hn : 44%N ∉ str_of_Z a ++ 45%N :: str_of_Z b).
    { rewrite elem_of_app, elem_of_cons. intros [H|[H|H]]; [|done|]; by revert H; apply number_notin. }
    assert (star (str_of_Z a ++ 45%N :: str_of_Z b) = false) as ->.
    { apply bool_decide_eq_false. intros E. destruct (str_of_Z a) as [|x l] eqn:Ea; [by destruct (number_word a Ha)|].
      cbn in E. injection E as _ E. by destruct l. }
    rewrite split_on_single by done. cbn [orb existsb]. rewrite orb_false_r. unfold part_match.
    rewrite split_on_cons, split_on_single by (by apply number_notin). by rewrite !number_val.
Qed.

#[export] Instance plain_cron_law : CronLaw plain_cron.
Proof.
  split. intros m h dom dow t Hm Hh Hdom Hdow _. unfold plain_cron.
  rewrite Fields_cron_text by (by repeat constructor). cbn [map]. by rewrite !text_match_field.
Qed.

#[export] Instance id_lower : LowerCase id.
Proof. done. Qed.

(** ** Witnesses *)

Definition weekends : Schedule := WeeklySchedule (u "03:30") [0; 6].

Lemma weekends_valid : valid_schedule weekends.
Proof. split; [reflexivity|]. split; [discriminate|]. split; repeat constructor; lia. Qed.

Lemma server_accepts_witness :
  Validate id (λ _, true) (go_of weekends) = None ∧ UnmarshalJSON id (schedule_val weekends) = Some (go_of weekends).
Proof.
  pose proof (server_accepts id (λ _, true) weekends weekends_valid) as (H1 & _ & H2). split; [exact H2|exact H1].
Defined.


Lemma server_fires_preview_witness :
  let t := MakeDate (MakeDay 2026 1 28) (MakeTime 3 30 0 0) in
  fires weekends t ∧ server_fires id plain_cron (go_of weekends) t = true.
Proof.
  intros t. assert (H : server_fires id plain_cron (go_of weekends) t = true) by (vm_compute; reflexivity).
  split; [|exact H]. apply (server_fires_preview id plain_cron weekends t weekends_valid); [discriminate|exact H].
Defined.
