(* ===== verification/Roles.v ===== *)
(** * Roles and navigation (web/src/api.ts, session.tsx, App.tsx, components/Layout.tsx)

    What each role may change, the reader of a role, the sentence that explains
    a refusal, the navigation a role sees and the pages its routes admit. *)
From S2P Require Import Prelude JsString JsNumber JsValue.

Inductive Role := Admin | Operator | Viewer.

#[export] Instance Role_eq_dec : EqDecision Role.
Proof. solve_decision. Defined.

Definition ROLES : list Role := [Admin; Operator; Viewer].

Definition role_text (r : Role) : jsstr :=
  match r with Admin => u "admin" | Operator => u "operator" | Viewer => u "viewer" end.

(** A role as the value the code holds. *)
Definition role_val (r : Role) : jsval := VStr (role_text r).

Definition ROLE_LABEL (r : Role) : jsstr :=
  match r with Admin => u "Administrator" | Operator => u "Operator" | Viewer => u "Viewer" end.

Definition ROLE_SUMMARY (r : Role) : jsstr :=
  match r with
  | Admin => u "Everything: users, storage targets, Proxmox hosts, credentials, settings and updates."
  | Operator => u "Run, cancel and edit backup jobs, restore and verify. Cannot touch users, hosts, targets, credentials or settings."
  | Viewer => u "Read-only. Sees every page and no secrets, and cannot change anything."
  end.

Definition parseRole (value : jsval) : Role :=
  if is_str value "operator" then Operator
  else if is_str value "viewer" then Viewer
  else if is_str value "admin" then Admin
  else Admin.

Record Capabilities := mkCan {
  manageUsers : bool;
  manageInfrastructure : bool;
  operateJobs : bool;
  viewAudit : bool;
}.

Definition capabilitiesFor (role : jsval) : Capabilities :=
  let admin := is_str role "admin" in
  mkCan admin admin (admin || is_str role "operator") admin.

(** [me.user?.role ?? me.role]; reading a property of null or undefined throws. *)
Definition roleOf (me : jsval) : option Role :=
  if is_nullish me then None
  else Some (parseRole (coalesce (get (get me "user") "role") (get me "role"))).

Definition roleDeniedReason (role : jsval) (what : jsstr) : jsstr :=
  if is_str role "viewer"
  then cat [u "Viewers can read everything but cannot "; what; u ". Ask an administrator."]
  else if is_str role "operator"
  then cat [u "Operators cannot "; what; u ". Ask an administrator."]
  else cat [u "Your role does not allow you to "; what; u "."].

Definition MIN_PASSWORD_LENGTH : Z := 8.

(** ** Navigation *)

Inductive Capability := ManageUsers | ManageInfrastructure | OperateJobs | ViewAudit.

Definition can_do (can : Capabilities) (c : Capability) : bool :=
  match c with
  | ManageUsers => manageUsers can
  | ManageInfrastructure => manageInfrastructure can
  | OperateJobs => operateJobs can
  | ViewAudit => viewAudit can
  end.

Record NavItem := mkNav { nav_to : jsstr; nav_label : jsstr; nav_end : bool; nav_needs : option Capability }.
Record NavGroup := mkGroup { heading : jsstr; items : list NavItem }.

Definition NAV_GROUPS : list NavGroup :=
  [ mkGroup (u "Overview") [ mkNav (u "/") (u "Dashboard") true None ];
    mkGroup (u "Infrastructure")
      [ mkNav (u "/hosts") (u "Proxmox Hosts") false None;
        mkNav (u "/vms") (u "Virtual Machines") false None;
        mkNav (u "/agents") (u "Agents") false None ];
    mkGroup (u "Protection")
      [ mkNav (u "/jobs") (u "Backup Jobs") false None;
        mkNav (u "/monitor") (u "Monitor") false None;
        mkNav (u "/restore-points") (u "Restore Points") false None;
        mkNav (u "/targets") (u "Storage Targets") false None ];
    mkGroup (u "System")
      [ mkNav (u "/users") (u "Users") false (Some ManageUsers);
        mkNav (u "/audit") (u "Audit") false (Some ViewAudit);
        mkNav (u "/settings") (u "Settings") false None ] ].

Definition navFor (can : Capabilities) : list NavGroup :=
  List.filter (λ g, 0 <? Z.of_nat (length (items g)))
    (map (λ g, mkGroup (heading g)
       (List.filter (λ i, match nav_needs i with Some c => can_do can c | None => true end) (items g)))
     NAV_GROUPS).

(** ** Routes *)

Inductive Page := Dashboard | Hosts | VirtualMachines | Jobs | Monitor | RestorePoints | Targets
  | Agents | Settings | Users | Audit | NotFound.

#[export] Instance Page_eq_dec : EqDecision Page.
Proof. solve_decision. Defined.

(** The element of a route: the page, and whether [AdminOnly] wraps it. *)
Definition route (path : jsstr) : Page * bool :=
  if str_eqb path (u "/") then (Dashboard, false)
  else if str_eqb path (u "/hosts") then (Hosts, false)
  else if str_eqb path (u "/vms") then (VirtualMachines, false)
  else if str_eqb path (u "/jobs") then (Jobs, false)
  else if str_eqb path (u "/monitor") then (Monitor, false)
  else if str_eqb path (u "/restore-points") then (RestorePoints, false)
  else if str_eqb path (u "/targets") then (Targets, false)
  else if str_eqb path (u "/agents") then (Agents, false)
  else if str_eqb path (u "/settings") then (Settings, false)
  else if str_eqb path (u "/users") then (Users, true)
  else if str_eqb path (u "/audit") then (Audit, true)
  else (NotFound, false).

(** What [AdminOnly] renders: the page, or its explanation. *)
Definition AdminOnly (can : Capabilities) (role : Role) (title : jsstr) : option jsstr :=
  if manageUsers can then None
  else Some (cat [u "You are signed in as "; map (λ c, if (65 <=? c)%N && (c <=? 90)%N then (c + 32)%N else c) (ROLE_LABEL role);
                  u ". "; title; u " is limited to administrators, who can give you the role if you need it."]).

(** The page a path shows; [None] stands for the explanation of [AdminOnly]. *)
Definition page_shown (can : Capabilities) (path : jsstr) : option Page :=
  let '(page, admin_only) := route path in
  if admin_only && negb (manageUsers can) then None else Some page.

(** ** Properties *)

Definition cap_le (a b : Capabilities) : Prop := ∀ c, can_do a c = true → can_do b c = true.

#[export] Instance cap_le_preorder : PreOrder cap_le.
Proof. split; [by intros a c|]. intros a b d H1 H2 c H. auto. Qed.

Lemma parseRole_val r : parseRole (role_val r) = r.
Proof. by destruct r. Qed.

(** A role read from the wire is the role written, the three roles are
    strictly ordered by what they may do, only administrators manage users or
    see the audit trail, and a role the console does not know may do nothing
    until it has been read as one it knows. *)
Theorem roles_ordered :
  (∀ r, parseRole (role_val r) = r)
  ∧ cap_le (capabilitiesFor (role_val Viewer)) (capabilitiesFor (role_val Operator))
  ∧ cap_le (capabilitiesFor (role_val Operator)) (capabilitiesFor (role_val Admin))
  ∧ ¬ cap_le (capabilitiesFor (role_val Operator)) (capabilitiesFor (role_val Viewer))
  ∧ ¬ cap_le (capabilitiesFor (role_val Admin)) (capabilitiesFor (role_val Operator))
  ∧ (∀ v c, can_do (capabilitiesFor v) c = true →
       v = role_val Admin ∨ (v = role_val Operator ∧ c = OperateJobs)).
Proof.
  split_and!.
  - apply parseRole_val.
  - by intros [].
  - by intros [].
  - intros H. by specialize (H OperateJobs eq_refl).
  - intros H. by specialize (H ManageUsers eq_refl).
  - intros v c H. unfold capabilitiesFor, is_str, str_eqb, role_val, role_text in *.
    destruct v; try by destruct c.
    destruct c; cbn [can_do manageUsers manageInfrastructure operateJobs viewAudit] in H; b2p; subst; auto.
    destruct H; b2p; subst; auto.
Qed.

(** The navigation and the routes agree for every signed-in role: each
    item shown leads to a page of the application that its route admits, each
    page is reachable from the navigation exactly when its route admits the
    role, and no group is shown empty. *)
Theorem nav_matches_routes role :
  let can := capabilitiesFor role in
  let shown := concat (map items (navFor can)) in
  Forall (λ i, page_shown can (nav_to i) ≠ None ∧ page_shown can (nav_to i) ≠ Some NotFound) shown
  ∧ (∀ page path, page ≠ NotFound → (route path).1 = page →
       (page_shown can path = Some page ↔ path ∈ map nav_to shown))
  ∧ Forall (λ g, items g ≠ []) (navFor can).
Proof.
  intros can shown.
  assert (Hcan : can = mkCan true true true true ∨ can = mkCan false false true false
                 ∨ can = mkCan false false false false).
  { unfold can, capabilitiesFor. destruct (is_str role "admin"), (is_str role "operator"); auto. }
  assert (Hshown : ∃ l, map nav_to shown = l ∧
    l = [u "/"; u "/hosts"; u "/vms"; u "/agents"; u "/jobs"; u "/monitor"; u "/restore-points"; u "/targets"]
        ++ (if manageUsers can then [u "/users"; u "/audit"] else []) ++ [u "/settings"]).
  { unfold shown. destruct_or! Hcan; rewrite Hcan; eexists; split; reflexivity. }
  destruct Hshown as (l & Hl & ->). split_and!.
  - unfold shown. destruct_or! Hcan; rewrite Hcan;
      match goal with |- Forall _ ?l => let l' := eval vm_compute in l in change l with l' end;
      repeat constructor; vm_compute; discriminate.
  - intros page path Hpage Hr. rewrite Hl. unfold page_shown.
    rewrite elem_of_existsb. unfold route in *.
    repeat (destruct (str_eqb path (u _)) eqn:E;
      [apply bool_decide_eq_true in E as ->; cbn [fst] in Hr; subst page; clear;
       destruct (manageUsers can); vm_compute; by split|clear E]).
    by cbn in Hr.
  - destruct_or! Hcan; rewrite Hcan; repeat constructor; discriminate.
Qed.
