(* ===== verification/App.v ===== *)
(** * The authentication gate (web/src/App.tsx)

    The phase of the application, the requests it has out, and what every reply
    and every act of the user does to them. *)
From S2P Require Import Prelude JsString JsNumber JsValue Json Transport Roles.

(** [user] and [role] are as the server sent them. *)
Inductive Phase :=
  | PLoading
  | PSetup
  | PLogin (defaultLogin : bool)
  | PReady (user role : jsval) (mustChangePassword : bool) (serverVersion : jsval)
  | PUnreachable (message : jsstr).

(** A request the gate has out. *)
Inductive Pending :=
  | BootStatus
  | BootMe (defaultLogin : bool)
  | LoginMe
  | Logout
  | SettingsLoad (cancelled : bool).

#[export] Instance Pending_eq_dec : EqDecision Pending.
Proof. solve_decision. Defined.

Record AppState := mkApp { phase : Phase; inflight : list Pending; serverName : jsval }.

(** What a reply carries: the value of the request, or what it rejected with. *)
Definition Reply : Type := jsval + Thrown.

Inductive AppEvent :=
  | Replied (i : nat) (reply : Reply)
  | Retry
  | Authenticated (user : jsval)
  | SignOut
  | SetMustChangePassword (value : bool)
  | SetServerName (name : jsval).

Section app.
Context (engineText : jsstr).

Definition is_ready (p : Phase) : bool := match p with PReady _ _ _ _ => true | _ => false end.

(** The settings effect depends on [phase.state] alone: leaving a state cancels
    its load, entering [ready] starts one. *)
Definition same_state (p q : Phase) : bool :=
  match p, q with
  | PLoading, PLoading | PSetup, PSetup | PLogin _, PLogin _
  | PReady _ _ _ _, PReady _ _ _ _ | PUnreachable _, PUnreachable _ => true
  | _, _ => false
  end.

Definition cancel_settings (l : list Pending) : list Pending :=
  map (λ p, match p with SettingsLoad _ => SettingsLoad true | _ => p end) l.

Definition setPhase (next : Phase) (s : AppState) : AppState :=
  if same_state (phase s) next then mkApp next (inflight s) (serverName s)
  else mkApp next
         (cancel_settings (inflight s) ++ (if is_ready next then [SettingsLoad false] else []))
         (serverName s).

Definition push (p : Pending) (s : AppState) : AppState :=
  mkApp (phase s) (inflight s ++ [p]) (serverName s).

Definition bootstrap (s : AppState) : AppState := push BootStatus (setPhase PLoading s).

Definition initApp : AppState :=
  mkApp PLoading [BootStatus] (VStr (u "ProxBack")).

(** The [ready] phase of a [GET /api/me]; [None] when reading it throws. *)
Definition readyOf (me : jsval) : option Phase :=
  match roleOf me with
  | Some role =>
      Some (PReady (get me "user") (role_val role) (truthy (get me "mustChangePassword"))
              (coalesce (get me "serverVersion") (VStr [])))
  | None => None
  end.

Definition onStatus (reply : Reply) (s : AppState) : AppState :=
  match reply with
  | inl status =>
      if is_nullish status then setPhase (PUnreachable engineText) s
      else if truthy (get status "needsSetup") then setPhase PSetup s
      else push (BootMe (truthy (get status "defaultLogin"))) s
  | inr err => setPhase (PUnreachable (errorMessage engineText err)) s
  end.

Definition onBootMe (defaultLogin : bool) (reply : Reply) (s : AppState) : AppState :=
  match reply with
  | inl me =>
      match readyOf me with
      | Some ready => setPhase ready s
      | None => setPhase (PUnreachable engineText) s
      end
  | inr err =>
      match isApiError err with
      | Some e =>
          if isUnauthorized e then setPhase (PLogin defaultLogin) s
          else setPhase (PUnreachable (errorMessage engineText err)) s
      | None => setPhase (PUnreachable (errorMessage engineText err)) s
      end
  end.

Definition onLoginMe (reply : Reply) (s : AppState) : AppState :=
  match reply with
  | inl me => match readyOf me with Some ready => setPhase ready s | None => s end
  | inr _ => s
  end.

Definition onSettings (cancelled : bool) (reply : Reply) (s : AppState) : AppState :=
  match reply with
  | inl settings =>
      if cancelled then s
      else if is_nullish settings then s
      else let name := get settings "serverName" in
           if truthy name then mkApp (phase s) (inflight s) name else s
  | inr _ => s
  end.

(** Reading [user.role] throws when the login answer had no user. *)
Definition onAuthenticated (user : jsval) (s : AppState) : AppState :=
  if is_nullish user then s else
  push LoginMe (setPhase (PReady user (coalesce (get user "role") (role_val Viewer)) false (VStr [])) s).

Definition setMustChangePassword (value : bool) (s : AppState) : AppState :=
  match phase s with
  | PReady user role _ version => setPhase (PReady user role value version) s
  | _ => s
  end.

(** One event; [None] when the interface does not offer it. *)
Definition appStep (s : AppState) (e : AppEvent) : option AppState :=
  match e with
  | Replied i reply =>
      match inflight s !! i with
      | None => None
      | Some p =>
          let s := mkApp (phase s) (delete i (inflight s)) (serverName s) in
          Some match p with
               | BootStatus => onStatus reply s
               | BootMe defaultLogin => onBootMe defaultLogin reply s
               | LoginMe => onLoginMe reply s
               | Logout => setPhase (PLogin false) s
               | SettingsLoad cancelled => onSettings cancelled reply s
               end
      end
  | Retry => match phase s with PUnreachable _ => Some (bootstrap s) | _ => None end
  | Authenticated user =>
      match phase s with PSetup | PLogin _ => Some (onAuthenticated user s) | _ => None end
  | SignOut => match phase s with PReady _ _ _ _ => Some (push Logout s) | _ => None end
  | SetMustChangePassword value =>
      match phase s with PReady _ _ _ _ => Some (setMustChangePassword value s) | _ => None end
  | SetServerName name =>
      match phase s with PReady _ _ _ _ => Some (mkApp (phase s) (inflight s) name) | _ => None end
  end.

(** The session the pages read. *)
Definition session (s : AppState) : option (jsval * jsval * Capabilities) :=
  match phase s with
  | PReady user role _ _ => Some (user, role, capabilitiesFor role)
  | _ => None
  end.

(** The screen of a phase. *)
Inductive Screen := Boot (message : option jsstr) | SetupScreen | LoginScreen (defaultLogin : bool) | Application.

Definition screen (s : AppState) : Screen :=
  match phase s with
  | PLoading => Boot None
  | PUnreachable message => Boot (Some message)
  | PSetup => SetupScreen
  | PLogin defaultLogin => LoginScreen defaultLogin
  | PReady _ _ _ _ => Application
  end.

(** Runs, with the roles the server has asserted so far: in a login response or
    in an answer to [GET /api/me]. *)
Definition asserted (s : AppState) (e : AppEvent) : list jsval :=
  match e with
  | Authenticated user => if is_nullish user then [] else [get user "role"]
  | Replied i (inl me) =>
      match inflight s !! i, roleOf me with
      | Some (BootMe _ | LoginMe), Some role => [role_val role]
      | _, _ => []
      end
  | _ => []
  end.

Inductive app_run : AppState → list jsval → Prop :=
  | app_init : app_run initApp []
  | app_step s said e s' :
      app_run s said → appStep s e = Some s' → app_run s' (said ++ asserted s e).
End app.

(** ** Properties *)
Section invariants.
Context (engineText : jsstr).

Definition is_boot (p : Pending) : bool := match p with BootStatus | BootMe _ => true | _ => false end.
Definition is_auth (p : Pending) : bool := match p with LoginMe | Logout => true | _ => false end.

Definition count (f : Pending → bool) (l : list Pending) : nat := length (List.filter f l).
#[local] Arguments count : simpl never.

Definition is_loading (p : Phase) : bool := match p with PLoading => true | _ => false end.
Definition before_login (p : Phase) : bool :=
  match p with PLoading | PSetup | PUnreachable _ => true | _ => false end.

Section count.
Context (f : Pending → bool) (f_settings : ∀ b, f (SettingsLoad b) = false).

Lemma count_app l1 l2 : count f (l1 ++ l2) = (count f l1 + count f l2)%nat.
Proof. unfold count. by rewrite List.filter_app, length_app. Qed.

Lemma count_one p : count f [p] = (if f p then 1 else 0)%nat.
Proof. unfold count. cbn. by destruct (f p). Qed.

Lemma count_cancel l : count f (cancel_settings l) = count f l.
Proof.
  unfold count, cancel_settings. induction l as [|p l IH]; [done|]. cbn [map List.filter].
  replace (f match p with SettingsLoad _ => SettingsLoad true | _ => p end) with (f p)
    by (destruct p; by rewrite ?f_settings).
  destruct (f p); cbn [length]; by rewrite IH.
Qed.

Lemma count_setPhase p s : count f (inflight (setPhase p s)) = count f (inflight s).
Proof.
  unfold setPhase. destruct (same_state _ _); [done|]. cbn [inflight].
  rewrite count_app, count_cancel. destruct (is_ready p); [rewrite count_one, f_settings|]; unfold count; cbn; lia.
Qed.

Lemma count_push p s : count f (inflight (push p s)) = (count f (inflight s) + if f p then 1 else 0)%nat.
Proof. unfold push. cbn [inflight]. by rewrite count_app, count_one. Qed.

Lemma count_delete l i p : l !! i = Some p →
  count f l = ((if f p then 1 else 0) + count f (delete i l))%nat.
Proof.
  revert i. induction l as [|q l IH]; intros [|i] H; [done..| |].
  - injection H as ->. unfold count. cbn. by destruct (f p).
  - change (delete (S i) (q :: l)) with (q :: delete i l).
    change (q :: l) with ([q] ++ l). change (q :: delete i l) with ([q] ++ delete i l).
    rewrite !count_app, (IH i H). lia.
Qed.
End count.

Lemma phase_setPhase p s : phase (setPhase p s) = p.
Proof. unfold setPhase. by destruct (same_state _ _). Qed.

(** The boot screen shows exactly while one boot request is out; nothing of a
    session is out before there has been one. *)
Definition boot_inv (s : AppState) : Prop :=
  count is_boot (inflight s) = (if is_loading (phase s) then 1 else 0)%nat
  ∧ (before_login (phase s) = true → count is_auth (inflight s) = 0%nat).

Lemma boot_set p s :
  count is_boot (inflight s) = (if is_loading p then 1 else 0)%nat →
  (before_login p = true → count is_auth (inflight s) = 0%nat) → boot_inv (setPhase p s).
Proof. intros H1 H2. split; by rewrite count_setPhase, phase_setPhase. Qed.

Lemma boot_push_auth p s : boot_inv s → is_boot p = false → before_login (phase s) = false →
  boot_inv (push p s).
Proof.
  intros [H1 H2] Hp Hb. split; rewrite count_push; cbn [phase push]; rewrite ?Hp, ?Hb; [lia|done].
Qed.

Lemma readyOf_ready me p : readyOf me = Some p → is_ready p = true.
Proof. unfold readyOf. case_match; [by intros [= <-]|done]. Qed.

Lemma boot_set_ready p s : is_ready p = true → count is_boot (inflight s) = 0%nat → boot_inv (setPhase p s).
Proof. intros H Hb. apply boot_set; by destruct p. Qed.

Lemma replied_boot s i p reply : boot_inv s → inflight s !! i = Some p →
  let s0 := mkApp (phase s) (delete i (inflight s)) (serverName s) in
  boot_inv match p with
           | BootStatus => onStatus engineText reply s0
           | BootMe d => onBootMe engineText d reply s0
           | LoginMe => onLoginMe reply s0
           | Logout => setPhase (PLogin false) s0
           | SettingsLoad c => onSettings c reply s0
           end.
Proof.
  intros [H1 H2] Ep s0. rewrite (count_delete is_boot _ _ _ Ep) in H1. rewrite (count_delete is_auth _ _ _ Ep) in H2.
  change (delete i (inflight s)) with (inflight s0) in H1, H2.
  change (phase s) with (phase s0) in H1, H2. clearbody s0. clear Ep.
  destruct p as [|d| | |c]; cbn [is_boot is_auth] in H1, H2.
  - destruct (phase s0) eqn:Ep; cbn in H1; try done. specialize (H2 eq_refl).
    unfold onStatus. repeat case_match; try (apply boot_set; cbn; auto; lia).
    split; rewrite count_push; cbn [phase push]; rewrite ?Ep; cbn; lia.
  - destruct (phase s0) eqn:Ep; cbn in H1; try done. specialize (H2 eq_refl).
    unfold onBootMe. repeat case_match; try (apply boot_set; cbn; auto; lia).
    apply boot_set_ready; [by eapply readyOf_ready|lia].
  - assert (Hb : before_login (phase s0) = false) by (destruct (before_login (phase s0)); [by specialize (H2 eq_refl)|done]).
    assert (count is_boot (inflight s0) = 0%nat) by (by destruct (phase s0)).
    assert (boot_inv s0) by (split; [by destruct (phase s0)|by rewrite Hb]).
    unfold onLoginMe. destruct reply as [me|]; [|done]. destruct (readyOf me) eqn:Er; [|done].
    apply boot_set_ready; [by eapply readyOf_ready|done].
  - assert (Hb : before_login (phase s0) = false) by (destruct (before_login (phase s0)); [by specialize (H2 eq_refl)|done]).
    apply boot_set; [by destruct (phase s0)|done].
  - assert (boot_inv s0) by (by split).
    unfold onSettings. repeat case_on_goal; done.
Qed.

Lemma appStep_boot s e s' : boot_inv s → appStep engineText s e = Some s' → boot_inv s'.
Proof.
  intros Hi H. destruct e as [i reply| |user| |b|name]; cbn [appStep] in H.
  - destruct (inflight s !! i) as [p|] eqn:Ep; [|done]. injection H as <-. by apply replied_boot.
  - destruct (phase s) eqn:Ep; try done. injection H as <-. destruct Hi as [H1 H2]. rewrite Ep in H1, H2.
    specialize (H2 eq_refl). unfold bootstrap.
    split; rewrite count_push, count_setPhase; cbn [phase push]; rewrite ?phase_setPhase; cbn in *; lia.
  - assert (Hl : is_loading (phase s) = false) by (by destruct (phase s)).
    assert (H' : onAuthenticated user s = s') by (destruct (phase s); congruence).
    subst s'. unfold onAuthenticated. destruct (is_nullish user); [done|].
    apply boot_push_auth; [|done|by rewrite phase_setPhase].
    apply boot_set_ready; [done|]. destruct Hi as [H1 _]. by rewrite Hl in H1.
  - destruct (phase s) eqn:Ep; try done. injection H as <-. apply boot_push_auth; [done..|]. by rewrite Ep.
  - destruct (phase s) eqn:Ep; try done. injection H as <-. unfold setMustChangePassword. rewrite Ep.
    apply boot_set_ready; [done|]. destruct Hi as [H1 _]. by rewrite Ep in H1.
  - assert (H' : mkApp (phase s) (inflight s) name = s') by (destruct (phase s); congruence). by subst s'.
Qed.

Lemma app_run_boot s said : app_run engineText s said → boot_inv s.
Proof. induction 1; [done|]. by eapply appStep_boot. Qed.

(** A role shown was asserted by the server, or may do nothing. *)
Definition role_inv (p : Phase) (said : list jsval) : Prop :=
  match p with
  | PReady _ role _ _ => role ∈ said ∨ role = role_val Viewer
  | _ => True
  end.

Lemma role_inv_mono p l1 l2 : role_inv p l1 → role_inv p (l1 ++ l2).
Proof. destruct p; cbn; set_solver. Qed.

Lemma role_set p s said : role_inv p said → role_inv (phase (setPhase p s)) said.
Proof. by rewrite phase_setPhase. Qed.

Lemma appStep_role s said e s' : role_inv (phase s) said → appStep engineText s e = Some s' →
  role_inv (phase s') (said ++ asserted s e).
Proof.
  intros Hi H. destruct e as [i reply| |user| |b|name]; cbn [appStep asserted] in *.
  - destruct (inflight s !! i) as [p|] eqn:Ep; [|done]. injection H as <-.
    assert (Hready : ∀ me q, readyOf me = Some q →
      ∃ role, roleOf me = Some role ∧ role_inv q (said ++ [role_val role])).
    { intros me q Hq. unfold readyOf in Hq. destruct (roleOf me) as [role|]; [|done].
      injection Hq as <-. exists role. split; [done|]. left. set_solver. }
    set (said' := match reply with inl _ => _ | inr _ => _ end).
    pose proof (role_inv_mono _ _ said' Hi) as Hi'. set (s0 := mkApp _ _ _).
    destruct p as [|d| | |c]; unfold onStatus, onBootMe, onLoginMe, onSettings.
    + repeat case_match; try (by apply role_set); done.
    + destruct reply as [me|err]; [|repeat case_match; by apply role_set].
      destruct (readyOf me) as [q|] eqn:Eq; [|by apply role_set].
      apply role_set. destruct (Hready me q Eq) as (role & Er & Hq). unfold said'. by rewrite Er.
    + destruct reply as [me|err]; [|done].
      destruct (readyOf me) as [q|] eqn:Eq; [|done].
      apply role_set. destruct (Hready me q Eq) as (role & Er & Hq). unfold said'. by rewrite Er.
    + by apply role_set.
    + repeat case_match; done.
  - destruct (phase s) eqn:Ep; try done. injection H as <-. unfold bootstrap, push. cbn [phase].
    by rewrite phase_setPhase.
  - assert (H' : onAuthenticated user s = s') by (destruct (phase s); congruence).
    subst s'. unfold onAuthenticated. destruct (is_nullish user); [by apply role_inv_mono|].
    unfold push. cbn [phase]. apply role_set. unfold coalesce. cbn [role_inv].
    destruct (is_nullish (get user "role")); [by right|left; set_solver].
  - assert (H' : push Logout s = s') by (destruct (phase s); congruence). subst s'.
    by apply role_inv_mono.
  - destruct (phase s) eqn:Ep; try done. injection H as <-. unfold setMustChangePassword. rewrite Ep.
    apply role_set. by apply (role_inv_mono (PReady user role mustChangePassword serverVersion)).
  - assert (H' : mkApp (phase s) (inflight s) name = s') by (destruct (phase s); congruence). subst s'.
    by apply role_inv_mono.
Qed.

Lemma app_run_role s said : app_run engineText s said → role_inv (phase s) said.
Proof. induction 1 as [|s said e s' _ IH Hs]; [done|]. by eapply appStep_role. Qed.
End invariants.

Lemma count_pos f l : (0 < count f l)%nat → ∃ i p, l !! i = Some p ∧ f p = true.
Proof.
  unfold count. intros H. destruct (List.filter f l) as [|p ps] eqn:E; [cbn in H; lia|].
  assert (Hp : In p (List.filter f l)) by (rewrite E; by left). apply filter_In in Hp as [Hp Hf].
  apply list_elem_of_In, list_elem_of_lookup in Hp as [i Hi]. eauto.
Qed.


Definition unauthorized : Reply := inr (ThrownApi (mkApiError 401 (u "Not signed in.") (u "/api/me") VUndef)).


(** C19: the boot screen never hangs: it shows exactly while one boot request
    is out, the reply to [GET /api/me] always ends it, and the reply to the
    setup status either ends it or sends [GET /api/me]. *)
Theorem app_boot engineText s said :
  app_run engineText s said →
  (screen s = Boot None ↔ ∃ i p, inflight s !! i = Some p ∧ is_boot p = true)
  ∧ (count is_boot (inflight s) <= 1)%nat
  ∧ (∀ i d reply s', inflight s !! i = Some (BootMe d) →
       appStep engineText s (Replied i reply) = Some s' → screen s' ≠ Boot None)
  ∧ (∀ i reply s', inflight s !! i = Some BootStatus →
       appStep engineText s (Replied i reply) = Some s' →
       screen s' ≠ Boot None ∨ ∃ d, BootMe d ∈ inflight s').
Proof.
  intros Hr. pose proof (app_run_boot _ _ _ Hr) as [H1 _].
  assert (Hnl : ∀ p s, is_loading p = false → screen (setPhase p s) ≠ Boot None).
  { intros p s0 Hp. unfold screen. rewrite phase_setPhase. by destruct p. }
  assert (Hbs : screen s = Boot None ↔ is_loading (phase s) = true).
  { unfold screen. by destruct (phase s). }
  split_and!.
  - rewrite Hbs. split.
    + intros El. rewrite El in H1. apply count_pos. lia.
    + intros (i & p & Hp & Hb). rewrite (count_delete _ _ _ _ Hp), Hb in H1.
      by destruct (is_loading (phase s)).
  - destruct (is_loading (phase s)); lia.
  - intros i d reply s' Hi H. cbn [appStep] in H. rewrite Hi in H. injection H as <-.
    unfold onBootMe. repeat case_on_goal; try by apply Hnl.
    apply Hnl. apply readyOf_ready in Heqo. by destruct p.
  - intros i reply s' Hi H. cbn [appStep] in H. rewrite Hi in H. injection H as <-.
    unfold onStatus. repeat case_on_goal; try (left; by apply Hnl).
    right. exists (truthy (get j "defaultLogin")). unfold push. cbn [inflight]. set_solver.
Qed.

Lemma app_boot_witness :
  ∃ s said, app_run (u "") s said ∧ screen s = Boot None
    ∧ ∃ i p, inflight s !! i = Some p ∧ is_boot p = true.
Proof.
  pose proof (app_init (u "")) as H0.
  pose proof (app_step (u "") _ _ (Replied 0 (inl (VObj []))) _ H0 eq_refl) as H1.
  eexists _, _. split; [exact H1|]. split; [reflexivity|].
  apply (proj1 (app_boot (u "") _ _ H1)). reflexivity.
Defined.

(** Signing out while the [GET /api/me] of the sign-in is still out: its answer
    arrives after the login screen is back and puts the application, with the
    former user's rights, on screen again. *)
Lemma signOut_undone : ∃ s said,
  app_run (u "") s said ∧ inflight s = [SettingsLoad true; SettingsLoad false]
  ∧ session s = Some (VStr (u "root"), role_val Admin, capabilitiesFor (role_val Admin)).
Proof.
  pose proof (app_init (u "")) as H0.
  pose proof (app_step (u "") _ _ (Replied 0 (inl (VObj []))) _ H0 eq_refl) as H1.
  pose proof (app_step (u "") _ _ (Replied 0 unauthorized) _ H1 eq_refl) as H2.
  pose proof (app_step (u "") _ _ (Authenticated (VObj [])) _ H2 eq_refl) as H3.
  pose proof (app_step (u "") _ _ SignOut _ H3 eq_refl) as H4.
  pose proof (app_step (u "") _ _ (Replied 2 (inl VUndef)) _ H4 eq_refl) as H5.
  pose proof (app_step (u "") _ _ (Replied 1 (inl (VObj [(u "user", VStr (u "root")); (u "role", role_val Admin)]))) _ H5 eq_refl) as H6.
  eexists _, _. split; [exact H6|]. split; reflexivity.
Qed.
