(* ===== verification/Targets.v ===== *)
(** * Storage targets (web/src/api.ts)

    The two kinds of target, where one writes, how full it is, and the
    structured warnings of a connection test. *)
From Stdlib Require Import QArith Lqa.
From S2P Require Import Prelude JsString JsNumber JsValue.
#[local] Open Scope Z_scope.

Inductive TargetKind := S3 | Filesystem.

#[export] Instance TargetKind_eq_dec : EqDecision TargetKind.
Proof. solve_decision. Defined.

Definition TARGET_KIND_LABEL (k : TargetKind) : jsstr :=
  match k with Filesystem => u "Local or network path" | S3 => u "S3-compatible object storage" end.
Definition TARGET_KIND_SHORT (k : TargetKind) : jsstr :=
  match k with Filesystem => u "Local path" | S3 => u "S3 object storage" end.
Definition TARGET_KIND_SUMMARY (k : TargetKind) : jsstr :=
  match k with
  | Filesystem => u "A NAS, an NFS or SMB mount, a USB disk or a ZFS dataset already mounted on this server."
  | S3 => u "An offsite bucket — Backblaze B2, AWS S3 or MinIO."
  end.

Definition isOffsite (kind : TargetKind) : bool := bool_decide (kind = S3).

Definition parseTargetKind (value : jsval) : TargetKind :=
  if is_str value "filesystem" then Filesystem else S3.

(** Optional fields are absent or as the server sent them. *)
Record Target := mkTarget {
  tg_id : ID;
  tg_name : jsstr;
  tg_kind : TargetKind;
  tg_path : option jsstr;
  tg_endpoint : jsstr;
  tg_bucket : jsstr;
  tg_region : jsstr;
  tg_pathStyle : bool;
  tg_status : jsstr;
  tg_freeBytes : jsval;
  tg_totalBytes : jsval;
  tg_allowSameFilesystem : bool;
}.

(** ** Warnings *)

Record TargetWarning := mkWarning { w_code : jsstr; w_message : jsstr }.

Definition TARGET_WARNING_COPY : list (jsstr * jsstr) :=
  [ (u "not_mount_point", u "This path is not a mount point. If the share failed to mount, backups fill this server’s own disk instead of the NAS.");
    (u "not_a_mount_point", u "This path is not a mount point. If the share failed to mount, backups fill this server’s own disk instead of the NAS.");
    (u "same_filesystem", u "This path is on the same filesystem as ProxBack’s own data. A disk that fails takes the backups with it.");
    (u "same_filesystem_allowed", u "This path is on the same filesystem as ProxBack’s own data, and was allowed explicitly. A disk that fails takes the backups with it.") ].

(** The names an object literal inherits: reading one gives no copy but a value
    that is not a string. *)
Definition inherited_names : list jsstr :=
  [ u "constructor"; u "__proto__"; u "hasOwnProperty"; u "isPrototypeOf"; u "propertyIsEnumerable";
    u "toLocaleString"; u "toString"; u "valueOf"; u "__defineGetter__"; u "__defineSetter__";
    u "__lookupGetter__"; u "__lookupSetter__" ].

(** [None]: the lookup found an inherited property, not a string. *)
Definition describeTargetWarning (warning : TargetWarning) : option jsstr :=
  match List.find (λ kv, str_eqb kv.1 (w_code warning)) TARGET_WARNING_COPY with
  | Some kv => Some kv.2
  | None => if existsb (str_eqb (w_code warning)) inherited_names then None else Some (w_message warning)
  end.

Definition normaliseWarning (value : jsval) : option TargetWarning :=
  match value with
  | VStr s =>
      let text := trim s in
      if str_eqb text [] then None else Some (mkWarning text text)
  | _ =>
      if is_object value then
        let code := str_or [] (get value "code") in
        let message :=
          match get value "message" with
          | VStr m => m
          | _ => match get value "detail" with VStr d => d | _ => code end
          end in
        if str_eqb code [] && str_eqb message [] then None
        else Some (mkWarning (if str_eqb code [] then message else code)
                             (if str_eqb message [] then code else message))
      else None
  end.

(** ** Capacity *)

Record TargetCapacity := mkCapacity {
  usedBytes : num;
  freeBytes : num;
  totalBytes : num;
  usedPct : num;
  freePct : num;
  low : bool;
}.

Definition LOW_SPACE_PCT : Z := 10.

Definition capacityOf (kind : TargetKind) (free_ total_ : jsval) : option TargetCapacity :=
  if negb (bool_decide (kind = Filesystem)) then None else
  let total := to_num total_ in
  let free := to_num free_ in
  if negb (is_finite total) || nle total (of_Z 0) then None
  else if negb (is_finite free) || nlt free (of_Z 0) then None
  else
    let clampedFree := nmin free total in
    let used := nsub total clampedFree in
    let freePct := nmul (ndiv clampedFree total) (of_Z 100) in
    Some (mkCapacity used clampedFree total (nmul (ndiv used total) (of_Z 100)) freePct
            (nlt freePct (of_Z LOW_SPACE_PCT))).

(** ** Location *)

(** [endpoint.replace(/^https?:\/\//, '')]. *)
Definition strip_scheme (s : jsstr) : jsstr :=
  if starts_with (u "https://") s then drop 8 s
  else if starts_with (u "http://") s then drop 7 s
  else s.

Fixpoint drop_slashes (s : jsstr) : jsstr :=
  match s with
  | c :: s' => if N.eqb c 47 then drop_slashes s' else s
  | [] => []
  end.

(** [.replace(/\/+$/, '')]. *)
Definition strip_slashes (s : jsstr) : jsstr := rev (drop_slashes (rev s)).

(** [a || b] on strings. *)
Definition or_str (a b : jsstr) : jsstr := if str_eqb a [] then b else a.

Definition targetLocation (target : Target) : jsstr :=
  match tg_kind target with
  | Filesystem => or_str (match tg_path target with Some p => p | None => [] end) (u "—")
  | S3 =>
      let host := strip_slashes (strip_scheme (tg_endpoint target)) in
      if str_eqb host [] then or_str (tg_bucket target) (u "—")
      else cat [tg_bucket target; u " · "; host]
  end.

(** ** Properties *)

(** Capacity is reported for filesystem targets with a positive total and
    a non-negative free figure, and only for them; the figures are then
    consistent: both shares lie within 0..100, free space never exceeds the
    total, and the target is called low exactly when its free share is under
    ten per cent. *)
Theorem capacityOf_bounds kind free total :
  is_double (to_num total) →
  match capacityOf kind free total with
  | Some c =>
      kind = Filesystem
      ∧ (∃ t f r up fp, totalBytes c = Fin t ∧ freeBytes c = Fin f ∧ usedBytes c = Fin r
         ∧ usedPct c = Fin up ∧ freePct c = Fin fp
         ∧ (0 <= f ∧ f <= t ∧ 0 <= r ∧ r <= t ∧ 0 < t ∧ 0 <= up ∧ up <= 100 ∧ 0 <= fp ∧ fp <= 100)%Q
         ∧ (low c = true ↔ (fp < 10)%Q))
  | None =>
      kind = S3 ∨ is_finite (to_num total) = false ∨ nle (to_num total) (of_Z 0) = true
      ∨ is_finite (to_num free) = false ∨ nlt (to_num free) (of_Z 0) = true
  end.
Proof.
  intros Hd. unfold capacityOf. destruct kind; cbn [negb bool_decide decide_rel decide]; [by left|].
  rewrite bool_decide_eq_true_2 by done. cbn [negb].
  destruct (is_finite (to_num total)) eqn:Eft; [|by right; left].
  destruct (nle (to_num total) (of_Z 0)) eqn:Ele; [by right; right; left|].
  destruct (is_finite (to_num free)) eqn:Eff; [|by right; right; right; left].
  destruct (nlt (to_num free) (of_Z 0)) eqn:Elt; [by right; right; right; right|]. cbn [negb orb].
  destruct (to_num total) as [| |t]; try done. destruct (to_num free) as [| |f0]; try done.
  unfold of_Z in Ele, Elt. apply nle_Fin_false in Ele. change (inject_Z 0) with 0%Q in Ele.
  assert (Hf0 : (0 <= f0)%Q).
  { unfold nlt in Elt. apply negb_false_iff in Elt. by apply nle_Fin in Elt. }
  assert (Hmin : ∃ f, nmin (Fin f0) (Fin t) = Fin f ∧ (0 <= f)%Q ∧ (f <= t)%Q).
  { unfold nmin. destruct (nle (Fin f0) (Fin t)) eqn:E.
    - apply nle_Fin in E. by exists f0.
    - apply nle_Fin_false in E. exists t. split_and!; [done|lra|lra]. }
  destruct Hmin as (f & -> & Hf & Hft).
  destruct Hd as (t' & Et & Htt).
  pose proof (Qred_correct (- f)) as Hneg.
  destruct (rnd_mono (t + Qred (- f)) t t') as (r & Er & Hr0 & Hrt); [lra|lra|done|].
  assert (Hused : nsub (Fin t) (Fin f) = Fin r) by exact Er. rewrite Hused.
  destruct (percent_range f t) as (fp & Efp & Hfp); [done..|].
  destruct (percent_range r t) as (up & Eup & Hup); [lra|lra|done|].
  unfold percent_of in *. rewrite Efp, Eup. split; [done|].
  exists t, f, r, up, fp. cbn [totalBytes freeBytes usedBytes usedPct freePct low].
  split_and!; try done; try lra. unfold LOW_SPACE_PCT, of_Z. rewrite nlt_Fin. done.
Qed.

