(* ===== verification/Format.v ===== *)
(** * Figures in words (web/src/lib/format.ts)

    Sizes, percentages, ratios, spans of time and rates as the console prints
    them, and the estimate of the time a run still needs. *)
From Stdlib Require Import QArith Qround Lqa.
From S2P Require Import Prelude JsString JsNumber JsValue Schedule NextRun ScheduleText.
#[local] Open Scope Z_scope.

(** A [number | null | undefined] that passes [Number.isFinite]. *)
Definition finite (v : jsval) : option Q := match v with VNum (Fin q) => Some q | _ => None end.

Definition BYTE_UNITS : list jsstr := [u "B"; u "KiB"; u "MiB"; u "GiB"; u "TiB"; u "PiB"].

(** [names[i]], where an index outside the array reads undefined. *)
Definition unit_at (i : Z) : option jsstr :=
  if i <? 0 then None else nth_error BYTE_UNITS (Z.to_nat i).

(** [1024 ** e] is exact. *)
Definition pow1024 (e : Z) : num :=
  if 0 <=? e then of_Z (1024 ^ e) else ndiv (of_Z 1) (of_Z (1024 ^ (- e))).

Section format.
(** [Math.log], [toLocaleString('en-US')] of a number, [Date.parse] and the
    local renderings of a date are the engine's. *)
Context (Math_log : num → num).
Context (toLocaleString : num → jsstr).
Context (Date_parse : jsstr → option Z).
Context (localeDate : Z → jsstr).

Definition formatBytes (bytes : jsval) (digits : nat) : jsstr :=
  match finite bytes with
  | None => u "—"
  | Some q =>
      let bytes := Fin q in
      if nle bytes (of_Z 0) then u "0 B"
      else
        let e := nmin (nfloor (ndiv (Math_log bytes) (Math_log (of_Z 1024))))
                      (of_Z (Z.of_nat (length BYTE_UNITS) - 1)) in
        let exponent := trunc_num e in
        let value := ndiv bytes (pow1024 exponent) in
        let unit := match unit_at exponent with Some n => n | None => u "B" end in
        let precision := if exponent =? 0 then 0%nat else if nle (of_Z 100) value then 0%nat else digits in
        cat [to_fixed precision value; u " "; unit]
  end.

Definition formatCount (value : jsval) : jsstr :=
  match finite value with Some q => toLocaleString (Fin q) | None => u "—" end.

Definition clampPct (pct : jsval) : num :=
  match finite pct with
  | Some q => clamp_num (inject_Z 0) (inject_Z 100) (Fin q)
  | None => of_Z 0
  end.

Definition formatPct (pct : jsval) (digits : nat) : jsstr := cat [to_fixed digits (clampPct pct); u "%"].

Definition formatRatio (ratio : jsval) : jsstr :=
  match finite ratio with
  | Some q =>
      if nle (Fin q) (of_Z 0) then u "—"
      else cat [to_fixed (if nle (of_Z 10) (Fin q) then 0 else 1)%nat (Fin q); u "×"]
  | None => u "—"
  end.

Definition formatReduction (pct : jsval) : jsstr := cat [to_fixed 0 (clampPct pct); u "% avoided"].

(** [text.replace(/\.0$/, '')]. *)
Definition strip_dot_zero (s : jsstr) : jsstr :=
  match rev s with
  | c :: d :: rest => if N.eqb c 48 && N.eqb d 46 then rev rest else s
  | _ => s
  end.

Definition formatHours (hours : jsval) : jsstr :=
  match finite hours with
  | None => u "—"
  | Some q =>
      let value := nmax (of_Z 0) (Fin q) in
      if nlt value (of_Z 1) then cat [str_of_num (nround (nmul value (of_Z 60))); u " min"]
      else if nlt value (of_Z 48) then
        cat [if nlt value (of_Z 10) then strip_dot_zero (to_fixed 1 value) else str_of_num (nround value); u " h"]
      else cat [str_of_num (nround (ndiv value (of_Z 24))); u " d"]
  end.

Definition describeRpo (ageHours rpoHours : jsval) : option jsstr :=
  match finite ageHours, finite rpoHours with
  | Some age, Some rpo =>
      if nle (Fin rpo) (of_Z 0) then None
      else
        let over := nsub (Fin age) (Fin rpo) in
        if nle over (of_Z 0) then Some (cat [u "within "; formatHours (VNum (Fin rpo)); u " RPO"])
        else Some (cat [formatHours (VNum over); u " over "; formatHours (VNum (Fin rpo)); u " RPO"])
  | _, _ => None
  end.

(** [None]: no date, or an invalid one. *)
Definition toDate (value : option jsstr) : option Z :=
  match value with
  | Some s => if str_eqb s [] then None else Date_parse s
  | None => None
  end.

(** [formatDateTime], [formatTime] and [formatDate] differ in the locale options only. *)
Definition formatDate (value : option jsstr) : jsstr :=
  match toDate value with Some t => localeDate t | None => u "—" end.

Definition relative_units : list (Z * Z * jsstr) :=
  [ (60000, 1000, u "s"); (3600000, 60000, u "min"); (86400000, 3600000, u "h"); (2592000000, 86400000, u "d") ].

Definition formatRelative (value : option jsstr) (now : Z) : jsstr :=
  match toDate value with
  | None => u "—"
  | Some date =>
      let deltaMs := date - now in
      let abs := Z.abs deltaMs in
      if abs <? 10000 then u "just now"
      else
        match List.find (λ x, abs <? x.1.1) relative_units with
        | Some (_, divisor, label) =>
            let amount := str_of_num (nround (ndiv (of_Z abs) (of_Z divisor))) in
            if 0 <? deltaMs then cat [u "in "; amount; u " "; label] else cat [amount; u " "; label; u " ago"]
        | None => formatDate value
        end
  end.

(** [Math.floor(x / k)] and [x % k] on the number of seconds. *)
Definition formatSeconds (totalSeconds : jsval) : jsstr :=
  match finite totalSeconds with
  | None => u "—"
  | Some q =>
      let seconds := nmax (of_Z 0) (nfloor (Fin q)) in
      if nlt seconds (of_Z 60) then cat [str_of_num seconds; u " s"]
      else
        let minutes := nfloor (ndiv seconds (of_Z 60)) in
        if nlt minutes (of_Z 60)
        then cat [str_of_num minutes; u " m "; pad_start 2 48 (str_of_num (nrem seconds 60)); u " s"]
        else
          let hours := nfloor (ndiv minutes (of_Z 60)) in
          if nlt hours (of_Z 24)
          then cat [str_of_num hours; u " h "; pad_start 2 48 (str_of_num (nrem minutes 60)); u " m"]
          else
            let days := nfloor (ndiv hours (of_Z 24)) in
            cat [str_of_num days; u " d "; str_of_num (nrem hours 24); u " h"]
  end.

Definition formatDuration (from to_ : option jsstr) (now : Z) : jsstr :=
  match toDate from with
  | None => u "—"
  | Some start =>
      let end_ := match toDate to_ with Some t => t | None => now end in
      formatSeconds (VNum (nmax (of_Z 0) (nround (ndiv (of_Z (end_ - start)) (of_Z 1000)))))
  end.

Definition formatUptime (seconds : jsval) : jsstr :=
  if negb (truthy seconds) || nle (to_num seconds) (of_Z 0) then u "—" else formatSeconds seconds.

Definition formatThroughput (bytesPerSecond : jsval) : jsstr :=
  match finite bytesPerSecond with
  | Some q => if nle (Fin q) (of_Z 0) then u "—" else cat [formatBytes bytesPerSecond 1; u "/s"]
  | None => u "—"
  end.

Definition estimateRemainingSeconds (startedAt : option jsstr)
    (progressPct : jsval) (bytesProcessed totalBytes throughputBps : num) (now : Z) : option num :=
  if nlt (of_Z 0) throughputBps && nlt bytesProcessed totalBytes then
    Some (nround (ndiv (nsub totalBytes bytesProcessed) throughputBps))
  else
    let pct := clampPct progressPct in
    if nle pct (Fin (1 # 2)) || nle (of_Z 100) pct then None
    else
      match toDate startedAt with
      | None => None
      | Some start =>
          let elapsed := ndiv (of_Z (now - start)) (of_Z 1000) in
          if nle elapsed (of_Z 0) then None
          else Some (nround (nmul (ndiv elapsed pct) (nsub (of_Z 100) pct)))
      end.

Definition describeNextRun (nextRun : option jsstr) (enabled : bool) (schedule : jsval) (now : Z) : jsstr :=
  match nextRun with
  | Some t =>
      if str_eqb t [] then
        (if negb enabled then u "Disabled"
         else if decide (kind_of (parseSchedule schedule) = KManual) then u "Manual" else u "Not scheduled")
      else cat [u "Next run "; formatRelative nextRun now]
  | None =>
      if negb enabled then u "Disabled"
      else if decide (kind_of (parseSchedule schedule) = KManual) then u "Manual" else u "Not scheduled"
  end.
End format.

(** ** Properties *)

Lemma clampPct_range v : ∃ q, clampPct v = Fin q ∧ (0 <= q <= 100)%Q.
Proof.
  unfold clampPct. destruct (finite v) as [q|].
  - apply clamp_num_bounds. change (inject_Z 0 <= inject_Z 100)%Q. by rewrite <- Zle_Qle.
  - exists (inject_Z 0). split; [done|]. split; [apply Qle_refl|discriminate].
Qed.

Lemma nlt_Z a b : nlt (of_Z a) (of_Z b) = (a <? b).
Proof. unfold nlt, nle, of_Z. rewrite Qle_bool_Z. rewrite Z.ltb_antisym. done. Qed.

Lemma nle_Z a b : nle (of_Z a) (of_Z b) = (a <=? b).
Proof. unfold nle, of_Z. by rewrite Qle_bool_Z. Qed.

Lemma neqb_Z a b : neqb (of_Z a) (of_Z b) = (a =? b).
Proof. unfold neqb. rewrite !nle_Z. destruct (Z.leb_spec a b), (Z.leb_spec b a), (Z.eqb_spec a b); lia || done. Qed.

Lemma nmax_Z a b : nmax (of_Z a) (of_Z b) = of_Z (Z.max a b).
Proof.
  change (nmax (of_Z a) (of_Z b)) with (if nle (of_Z a) (of_Z b) then of_Z b else of_Z a).
  rewrite nle_Z. destruct (Z.leb_spec a b); f_equal; lia.
Qed.


Lemma nrem_Z a k : 0 <= a <= 2 ^ 53 → 0 < k → nrem (of_Z a) k = of_Z (a mod k).
Proof.
  intros Ha Hk. unfold nrem, of_Z.
  assert (Hq : qtrunc (inject_Z a / inject_Z k) = a / k).
  { unfold qtrunc. rewrite <- Zdiv_Qdiv. unfold qneg.
    assert (0 <= Qnum (inject_Z a / inject_Z k)).
    { unfold Qdiv, Qinv, Qmult. simpl. destruct k; simpl; lia. }
    by rewrite (proj2 (Z.ltb_ge _ _) H). }
  rewrite Hq.
  assert (E : (inject_Z a - inject_Z k * inject_Z (a / k) = inject_Z (a mod k))%Q).
  { rewrite <- inject_Z_mult. unfold Qminus, Qplus, Qopp, inject_Z. cbn [Qnum Qden].
    f_equal. rewrite Z.mod_eq by lia. lia. }
  rewrite E. apply rnd_Z. pose proof (Z.mod_pos_bound a k Hk).
  pose proof (Z.mod_le a k ltac:(lia) Hk). lia.
Qed.

Lemma nfloor_Z n : nfloor (of_Z n) = of_Z n.
Proof. unfold nfloor, of_Z. by rewrite Qfloor_Z. Qed.

(** What [formatSeconds] prints for a whole number of seconds. *)
Definition seconds_text (n : Z) : jsstr :=
  if n <? 60 then cat [str_of_Z n; u " s"]
  else if n <? 3600 then cat [str_of_Z (n / 60); u " m "; pad2 (n mod 60); u " s"]
  else if n <? 86400 then cat [str_of_Z (n / 3600); u " h "; pad2 (n / 60 mod 60); u " m"]
  else cat [str_of_Z (n / 86400); u " d "; str_of_Z (n / 3600 mod 24); u " h"].

(** Up to a million years of seconds, [formatSeconds] prints the exact
    number of seconds, minutes and seconds, hours and minutes, or days and
    hours, cut off and never rounded up, with the minor part padded to two
    digits: no rounding of the intermediate divisions shows. *)
Theorem formatSeconds_exact n :
  0 <= n <= 2 ^ 45 → formatSeconds (VNum (of_Z n)) = seconds_text n.
Proof.
  intros Hn. unfold formatSeconds, finite, of_Z at 1. fold (of_Z n).
  rewrite nfloor_Z, nmax_Z, Z.max_r by lia. rewrite nlt_Z.
  unfold seconds_text. destruct (Z.ltb_spec n 60) as [H1|H1]; [by rewrite str_of_num_Z by lia|].
  assert (Hm : 0 <= n / 60 <= 2 ^ 45) by divlia.
  rewrite floor_div by lia. rewrite nlt_Z.
  replace (n / 60 <? 60) with (n <? 3600) by (apply eq_true_iff_eq; rewrite !Z.ltb_lt; divlia).
  destruct (Z.ltb_spec n 3600) as [H2|H2].
  { rewrite nrem_Z by lia. rewrite !str_of_num_Z by divlia. done. }
  assert (Eh : n / 60 / 60 = n / 3600) by (by rewrite Z.div_div by lia).
  rewrite floor_div, Eh by lia. rewrite nlt_Z.
  replace (n / 3600 <? 24) with (n <? 86400) by (apply eq_true_iff_eq; rewrite !Z.ltb_lt; divlia).
  destruct (Z.ltb_spec n 86400) as [H3|H3].
  { rewrite nrem_Z by lia. rewrite !str_of_num_Z by divlia. done. }
  assert (Ed : n / 3600 / 24 = n / 86400) by (by rewrite Z.div_div by lia).
  rewrite floor_div, Ed by divlia. rewrite nrem_Z by divlia. rewrite !str_of_num_Z by divlia. done.
Qed.

(** A fraction of a byte prints as hundreds of bytes: the exponent is negative,
    no unit is found and the value is scaled up. *)
Lemma formatBytes_fraction (Math_log : num → num) :
  nfloor (ndiv (Math_log (Fin (1 # 2))) (Math_log (of_Z 1024))) = of_Z (-1) →
  formatBytes Math_log (VNum (Fin (1 # 2))) 1 = u "512 B".
Proof.
  intros H. unfold formatBytes, finite.
  replace (nle (Fin (1 # 2)) (of_Z 0)) with false by (vm_compute; reflexivity).
  rewrite H. vm_compute. reflexivity.
Qed.
