(* ===== verification/Runs.v ===== *)
(** * Runs (web/src/api.ts, web/src/components/RunLive.tsx)

    What a run reports, the data reduction it may claim, the throughput samples
    the page keeps, and what the live card and the workload rows show. *)
From Stdlib Require Import QArith Lqa.
From S2P Require Import Prelude JsString JsNumber JsValue Format.
#[local] Open Scope Z_scope.

Inductive RunStatus := RRunning | RSuccess | RFailed | RCanceled.
Inductive RunKind := KBackup | KRestore | KVerify.

#[export] Instance RunStatus_eq_dec : EqDecision RunStatus.
Proof. solve_decision. Defined.
#[export] Instance RunKind_eq_dec : EqDecision RunKind.
Proof. solve_decision. Defined.

Record JobRun := mkRun {
  run_id : ID;
  run_jobId : ID;
  run_jobName : jsstr;
  run_kind : option RunKind;
  run_status : RunStatus;
  run_startedAt : jsstr;
  run_finishedAt : option jsstr;
  run_bytesProcessed : num;
  run_bytesUploaded : num;
  run_dedupRatio : num;
  run_reductionPct : option num;
  run_reductionRatio : option num;
  run_error : option jsstr;
  run_progressPct : num;
  run_currentStep : jsstr;
}.

(** ** Data reduction *)

Record DataReduction := mkReduction { r_pct : num; r_ratio : option num; r_applies : bool }.

(** [Number.isFinite(x) ? Math.max(0, x) : 0]. *)
Definition finite_or_0 (x : num) : num := if is_finite x then nmax (of_Z 0) x else of_Z 0.

Definition clamp100 (x : num) : num := clamp_num (inject_Z 0) (inject_Z 100) x.

Definition reductionOf (kind : option RunKind) (bytesProcessed bytesUploaded : num)
    (reductionPct reductionRatio : option num) : DataReduction :=
  let processed := finite_or_0 bytesProcessed in
  let uploaded := finite_or_0 bytesUploaded in
  match kind with
  | Some KRestore | Some KVerify => mkReduction (of_Z 0) None false
  | _ =>
      let derived := if neqb processed (of_Z 0) then of_Z 0
                     else clamp100 (nmul (nsub (of_Z 1) (ndiv uploaded processed)) (of_Z 100)) in
      let pct := match reductionPct with
                 | Some p => if is_finite p then clamp100 p else derived
                 | None => derived
                 end in
      let own := if nlt (of_Z 0) uploaded && nlt (of_Z 0) processed then Some (ndiv processed uploaded) else None in
      let ratio := match reductionRatio with
                   | Some r => if is_finite r && nlt (of_Z 0) r then Some r else own
                   | None => own
                   end in
      mkReduction pct ratio true
  end.

Definition runReduction (run : JobRun) : DataReduction :=
  reductionOf (run_kind run) (run_bytesProcessed run) (run_bytesUploaded run)
    (run_reductionPct run) (run_reductionRatio run).

(** ** Sources of a run *)

Inductive RunSourceStatus := SPending | SRunning | SSuccess | SFailed | SSkipped.

#[export] Instance RunSourceStatus_eq_dec : EqDecision RunSourceStatus.
Proof. solve_decision. Defined.

Record RunSource := mkSource {
  src_seq : Z;
  src_name : jsstr;
  src_node : option jsstr;
  src_hostName : option jsstr;
  src_vmid : option Z;
  src_status : RunSourceStatus;
  src_bytesProcessed : num;
  src_bytesUploaded : num;
  src_sizeBytes : num;
  src_progressPct : num;
  src_error : option jsstr;
}.

Record RunDetail := mkDetail { d_run : JobRun; d_sources : list RunSource; d_throughputBps : num }.

(** ** The live card *)

Definition SAMPLE_CAP : Z := 60.

Definition appendSample (samples : option (list num)) (value : num) : list num :=
  let next := match samples with Some l => l | None => [] end ++ [finite_or_0 value] in
  if SAMPLE_CAP <? Z.of_nat (length next)
  then drop (Z.to_nat (Z.of_nat (length next) - SAMPLE_CAP)) next
  else next.

Definition SOURCE_LABEL (s : RunSourceStatus) : jsstr :=
  match s with
  | SPending => u "Queued" | SRunning => u "Running" | SSuccess => u "Done"
  | SFailed => u "Failed" | SSkipped => u "Skipped"
  end.

Section views.
Context (Math_log : num → num) (Date_parse : jsstr → option Z).

(** The cells of a workload row: progress, size, processed, avoided, state. *)
Definition sourceRow (s : RunSource) : list jsstr :=
  let running := bool_decide (src_status s = SRunning) in
  let done := bool_decide (src_status s = SSuccess) in
  let saved := nmax (of_Z 0) (nsub (src_bytesProcessed s) (src_bytesUploaded s)) in
  [ cat [to_fixed 0 (clampPct (VNum (src_progressPct s))); u "%"];
    formatBytes Math_log (VNum (src_sizeBytes s)) 1;
    formatBytes Math_log (VNum (src_bytesProcessed s)) 1;
    (if done || running then formatBytes Math_log (VNum saved) 1 else u "—");
    SOURCE_LABEL (src_status s) ].

(** The rows of the breakdown, in the order of [seq]. *)
Definition SourceBreakdown (sources : list RunSource) : list RunSource :=
  sort_by (λ a b, src_seq a <=? src_seq b) sources.

Definition count_status (p : RunSourceStatus → bool) (sources : list RunSource) : Z :=
  Z.of_nat (length (List.filter (λ s, p (src_status s)) sources)).

Definition finished_sources : list RunSource → Z :=
  count_status (λ s, match s with SSuccess | SSkipped => true | _ => false end).
Definition failed_sources : list RunSource → Z :=
  count_status (λ s, match s with SFailed => true | _ => false end).

(** [sources.reduce((sum, source) => sum + Math.max(0, source.sizeBytes), 0)]. *)
Definition total_bytes (sources : list RunSource) : num :=
  fold_left (λ sum s, nadd sum (nmax (of_Z 0) (src_sizeBytes s))) sources (of_Z 0).

Record LiveCard := mkCard {
  lc_finished : Z;
  lc_failed : Z;
  lc_totalBytes : num;
  lc_remaining : jsstr;
  lc_active : option jsstr;
  lc_peak : jsstr;
  lc_window : num;
  lc_transferred : jsstr * option jsstr;
}.

Definition LiveRunCard (detail : RunDetail) (samples : list num) (sampleIntervalMs now : Z) : LiveCard :=
  let run := d_run detail in
  let sources := d_sources detail in
  let totalBytes := total_bytes sources in
  let remaining := estimateRemainingSeconds Date_parse (Some (run_startedAt run)) (VNum (run_progressPct run))
                     (run_bytesProcessed run) totalBytes (d_throughputBps detail) now in
  let peak := match samples with [] => of_Z 0 | s :: ss => fold_left nmax ss s end in
  let reduction := runReduction run in
  mkCard (finished_sources sources) (failed_sources sources) totalBytes
    (match remaining with Some s => formatSeconds (VNum s) | None => u "estimating" end)
    (match List.find (λ s, bool_decide (src_status s = SRunning)) sources with
     | Some active => if negb (includes (src_name active) (run_currentStep run)) then Some (src_name active) else None
     | None => None
     end)
    (formatThroughput Math_log (VNum peak))
    (nround (ndiv (nmul (of_Z (Z.of_nat (length samples))) (of_Z sampleIntervalMs)) (of_Z 1000)))
    (formatBytes Math_log (VNum (run_bytesUploaded run)) 1,
     if r_applies reduction
     then Some (match r_ratio reduction with
                | None => formatReduction (VNum (r_pct reduction))
                | Some ratio => formatRatio (VNum ratio)
                end)
     else None).
End views.

(** ** Properties *)

Lemma clamp100_range q : ∃ r, clamp100 (Fin q) = Fin r ∧ (0 <= r <= 100)%Q.
Proof. apply clamp_num_bounds. discriminate. Qed.

Lemma finite_or_0_spec x : ∃ q, finite_or_0 x = Fin q ∧ (0 <= q)%Q.
Proof.
  unfold finite_or_0. destruct x as [| |q]; cbn [is_finite]; try (exists (inject_Z 0); split; [done|discriminate]).
  unfold nmax, of_Z. destruct (nle (Fin (inject_Z 0)) (Fin q)) eqn:E.
  - exists q. split; [done|]. by apply nle_Fin in E.
  - exists (inject_Z 0). split; [done|discriminate].
Qed.

Lemma clamp100_num x : is_NaN x = false → ∃ r, clamp100 x = Fin r ∧ (0 <= r <= 100)%Q.
Proof.
  destruct x as [|b|q]; [done| |intros _; apply clamp100_range].
  destruct b; intros _; [exists (inject_Z 0)|exists (inject_Z 100)]; (split; [vm_compute; reflexivity|]);
    split; discriminate.
Qed.

Lemma rnd_not_NaN q : is_NaN (rnd q) = false.
Proof. unfold rnd, rnd_pos. repeat case_on_goal; done. Qed.

Lemma nmul_100_not_NaN x : is_NaN x = false → is_NaN (nmul x (of_Z 100)) = false.
Proof. destruct x; intros H; [done|done|apply rnd_not_NaN]. Qed.

Lemma nsub_1_not_NaN x : is_NaN x = false → is_NaN (nsub (of_Z 1) x) = false.
Proof. destruct x; intros H; [done|done|apply rnd_not_NaN]. Qed.

Lemma derived_not_NaN q p : (0 < p)%Q →
  is_NaN (nmul (nsub (of_Z 1) (ndiv (Fin q) (Fin p))) (of_Z 100)) = false.
Proof.
  intros Hp. apply nmul_100_not_NaN, nsub_1_not_NaN. cbn [ndiv]. rewrite qzero_pos by done.
  apply rnd_not_NaN.
Qed.


(** The throughput history never outgrows two minutes of samples, always
    ends with the newest one, and holds only non-negative finite rates; below
    the cap nothing is dropped, at the cap exactly the oldest is. *)
Theorem appendSample_window samples value :
  let old := match samples with Some l => l | None => [] end in
  let next := appendSample samples value in
  (Z.of_nat (length old) <= SAMPLE_CAP → Z.of_nat (length next) <= SAMPLE_CAP)
  ∧ List.last next NaN = finite_or_0 value
  ∧ (Forall (λ x, is_finite x = true ∧ nle (of_Z 0) x = true) old →
     Forall (λ x, is_finite x = true ∧ nle (of_Z 0) x = true) next)
  ∧ (Z.of_nat (length old) < SAMPLE_CAP → next = old ++ [finite_or_0 value])
  ∧ (Z.of_nat (length old) = SAMPLE_CAP → next = tail old ++ [finite_or_0 value]).
Proof.
  intros old next. unfold next, appendSample. fold old.
  assert (Hlen : Z.of_nat (length (old ++ [finite_or_0 value])) = Z.of_nat (length old) + 1)
    by (rewrite length_app; simpl; lia).
  rewrite Hlen. unfold SAMPLE_CAP in *.
  destruct (finite_or_0_spec value) as (q & Eq & Hq).
  assert (Hnew : is_finite (finite_or_0 value) = true ∧ nle (of_Z 0) (finite_or_0 value) = true).
  { rewrite Eq. split; [done|]. by apply nle_Fin. }
  split_and!.
  - intros H. case_on_goal; b2p; rewrite ?length_drop, ?length_app; simpl; lia.
  - case_on_goal; [|apply last_last]. b2p. rewrite drop_app_le by lia. apply last_last.
  - intros H. case_on_goal; [apply Forall_drop|]; apply Forall_app; auto.
  - intros H. case_on_goal; b2p; [lia|done].
  - intros H. case_on_goal; b2p; [|lia]. rewrite H, drop_app_le by lia.
    replace (Z.to_nat (60 + 1 - 60)) with 1%nat by lia. by destruct old.
Qed.
