(* ===== verification/Backups.v ===== *)
(** * Restore points (web/src/api.ts, pages/RestorePointsPage.tsx, components/Identity.tsx)

    The identity of a protected source, the grouping of restore points by
    source, the depth of each point in its chain, and what the page shows and
    allows for a point. *)
From stdpp Require Import gmap.
From S2P Require Import Prelude JsString JsNumber JsValue Schedule NextRun Roles Targets.

Inductive SourceKind := SourceVm | SourceAgent.
Inductive BackupKind := Full | Incremental.
Inductive VerifyResult := Passed | VerifyFailed.

#[export] Instance SourceKind_eq_dec : EqDecision SourceKind.
Proof. solve_decision. Defined.
#[export] Instance BackupKind_eq_dec : EqDecision BackupKind.
Proof. solve_decision. Defined.
#[export] Instance VerifyResult_eq_dec : EqDecision VerifyResult.
Proof. solve_decision. Defined.

(** ** Identity *)

(** [/^\d+$/.test(tail) ? Number(tail) : null] of the text after the last [_]. *)
Definition sourceVMID (sourceId : option ID) : option num :=
  match sourceId with
  | None => None
  | Some id =>
      match after_last 95 (id_text id) with
      | None => None
      | Some tail =>
          if negb (str_eqb tail []) && all_digits tail then Some (num_of_str tail) else None
      end
  end.

Record WorkloadRef := mkWorkload {
  wl_hostName : option jsstr;
  wl_name : jsstr;
  wl_vmid : option num;
  wl_node : option jsstr;
}.

(** A possibly absent string that is not empty. *)
Definition present (s : option jsstr) : option jsstr :=
  match s with Some t => if str_eqb t [] then None else Some t | None => None end.

Definition identityText (w : WorkloadRef) : jsstr :=
  cat [ match present (wl_hostName w) with Some h => cat [h; u " / "] | None => [] end;
        wl_name w;
        match wl_vmid w with Some id => cat [u " ("; str_of_num id; u ")"] | None => [] end;
        match present (wl_node w) with Some n => cat [u " / "; n] | None => [] end ].

(** The two lines of [WorkloadIdentity]: name and VMID, then the scope. *)
Definition WorkloadIdentity (w : WorkloadRef) : jsstr * option jsstr * option jsstr :=
  let scope := omap id [present (wl_hostName w); present (wl_node w)] in
  (wl_name w, str_of_num <$> wl_vmid w,
   match scope with [] => None | _ => Some (join (u " / ") scope) end).

(** ** Restore points *)

Record Backup := mkBackup {
  b_id : ID;
  b_jobId : ID;
  b_sourceKind : SourceKind;
  b_sourceId : ID;
  b_sourceName : jsstr;
  b_hostId : option ID;
  b_hostName : option jsstr;
  b_node : option jsstr;
  b_targetId : ID;
  b_createdAt : jsstr;
  b_sizeBytes : num;
  b_uploadedBytes : num;
  b_kind : BackupKind;
  (** Null and undefined alike mean no parent. *)
  b_parentId : option ID;
  b_lastVerifiedAt : option jsstr;
  b_lastVerifyResult : option VerifyResult;
  (** Name and size of each disk. *)
  b_disks : list (jsstr * num);
}.

Definition kind_word (k : SourceKind) : jsstr := match k with SourceVm => u "vm" | SourceAgent => u "agent" end.

Definition sourceKey (b : Backup) : jsstr :=
  cat [kind_word (b_sourceKind b); u ":";
       match b_hostId b with Some h => id_text h | None => [] end; u ":"; id_text (b_sourceId b)].

Record SourceGroup := mkSourceGroup {
  g_key : jsstr;
  g_sourceKind : SourceKind;
  g_sourceId : ID;
  g_sourceName : jsstr;
  g_hostId : option ID;
  g_hostName : option jsstr;
  g_node : option jsstr;
  g_count : Z;
  g_latest : jsstr;
  g_totalBytes : num;
  g_lastVerifiedAt : option jsstr;
}.

Section grouping.
(** [new Date(text).getTime()]. *)
Context (getTime : jsstr → num).

Definition newer (a b : option jsstr) : option jsstr :=
  match present a with
  | None => b
  | Some a' =>
      match present b with
      | None => Some a'
      | Some b' => if nle (getTime b') (getTime a') then Some a' else Some b'
      end
  end.

Definition verifiedAt (b : Backup) : option jsstr :=
  if decide (b_lastVerifyResult b = Some VerifyFailed) then None else b_lastVerifiedAt b.

Definition newGroup (b : Backup) : SourceGroup :=
  mkSourceGroup (sourceKey b) (b_sourceKind b) (b_sourceId b) (b_sourceName b) (b_hostId b)
    (b_hostName b) (b_node b) 1 (b_createdAt b) (b_sizeBytes b) (verifiedAt b).

Definition extendGroup (g : SourceGroup) (b : Backup) : SourceGroup :=
  mkSourceGroup (g_key g) (g_sourceKind g) (g_sourceId g) (g_sourceName g) (g_hostId g)
    (g_hostName g) (g_node g) (g_count g + 1)
    (if nlt (getTime (g_latest g)) (getTime (b_createdAt b)) then b_createdAt b else g_latest g)
    (nadd (g_totalBytes g) (b_sizeBytes b))
    (newer (g_lastVerifiedAt g) (verifiedAt b)).

(** One turn of the loop over the map from keys to groups, kept in the order in
    which the keys were first set. *)
Fixpoint addToGroups (groups : list SourceGroup) (b : Backup) : list SourceGroup :=
  match groups with
  | [] => [newGroup b]
  | g :: gs => if str_eqb (g_key g) (sourceKey b) then extendGroup g b :: gs else g :: addToGroups gs b
  end.

(** [(a, b) => time(b) - time(a)]: [a] stays before [b] unless that is positive. *)
Definition newest_first {A} (time : A → jsstr) (a b : A) : bool :=
  negb (nlt (of_Z 0) (nsub (getTime (time b)) (getTime (time a)))).

Definition groupSources (backups : list Backup) : list SourceGroup :=
  sort_by (newest_first g_latest) (fold_left addToGroups backups []).

(** The chains of the page: the points of each key, newest first. *)
Definition chainOf (backups : list Backup) (key : jsstr) : list Backup :=
  sort_by (newest_first b_createdAt) (List.filter (λ b, str_eqb (sourceKey b) key) backups).
End grouping.

(** ** Chains *)

(** [byId]: a later point with the same id replaces an earlier one. *)
Definition byId (backups : list Backup) : gmap jsstr Backup :=
  fold_left (λ m b, <[id_text (b_id b) := b]> m) backups ∅.

(** [depthOf(backup, guard)] with its memo table. *)
Fixpoint depthOf (ids : gmap jsstr Backup) (guard : nat) (backup : Backup) (depths : gmap jsstr Z)
    : Z * gmap jsstr Z :=
  let id := id_text (b_id backup) in
  match depths !! id with
  | Some cached => (cached, depths)
  | None =>
      let parent := match b_parentId backup with Some p => ids !! id_text p | None => None end in
      match parent, guard with
      | Some parent, S guard =>
          let '(d, depths) := depthOf ids guard parent depths in
          let depth := Z.min 6 (d + 1) in
          (depth, <[id := depth]> depths)
      | _, _ => (0, <[id := 0]> depths)
      end
  end.

Definition chainDepths (backups : list Backup) : gmap jsstr Z :=
  fold_left (λ depths b, (depthOf (byId backups) (length backups) b depths).2) backups ∅.

(** ** The page *)

Record Badge := mkBadge { badge_tone : jsstr; badge_label : jsstr; badge_at : option jsstr }.

Definition VerificationBadge (b : Backup) : Badge :=
  if decide (b_lastVerifyResult b = Some VerifyFailed)
  then mkBadge (u "fail") (u "Integrity check failed") (present (b_lastVerifiedAt b))
  else match present (b_lastVerifiedAt b) with
       | Some t => mkBadge (u "ok") (u "Integrity verified") (Some t)
       | None => mkBadge (u "neutral") (u "Not verified") None
       end.

(** What a row offers: browse, restore, verify, delete. *)
Record RowActions := mkRow { row_browse : bool; row_restore : bool; row_verify : bool; row_delete : bool;
                             row_denied : option jsstr }.

Definition BackupRow (can : Capabilities) (role : jsval) (b : Backup) : RowActions :=
  let denied := if operateJobs can then None else Some (roleDeniedReason role (u "restore, verify or prune")) in
  let browsable := bool_decide (b_sourceKind b = SourceAgent) in
  mkRow (browsable && operateJobs can) (operateJobs can) (operateJobs can) (operateJobs can) denied.

(** The keys shown expanded: the operator's choice, or the first group. *)
Definition openKeys (chosen : option (gset jsstr)) (groups : list SourceGroup) : gset jsstr :=
  match chosen with
  | Some keys => keys
  | None => match groups with g :: _ => {[g_key g]} | [] => ∅ end
  end.

Definition toggleKey (chosen : option (gset jsstr)) (groups : list SourceGroup) (key : jsstr) : option (gset jsstr) :=
  let next := openKeys chosen groups in
  Some (if decide (key ∈ next) then next ∖ {[key]} else next ∪ {[key]}).

Definition targetOf (targets : list Target) (b : Backup) : option Target :=
  List.find (λ t, str_eqb (id_text (tg_id t)) (id_text (b_targetId b))) targets.

(** ** Properties *)

(** The VMID is read back from every source id the server writes,
    whatever the host id, underscores included; an id without a separator or
    whose tail is not a numeral names no VMID. *)
Theorem sourceVMID_roundtrip host n :
  (Z.of_N n <= 2 ^ 53 → sourceVMID (Some (IdStr (host ++ u "_" ++ digits n))) = Some (of_Z (Z.of_N n)))
  ∧ (95%N ∉ host → sourceVMID (Some (IdStr host)) = None)
  ∧ (∀ tail, 95%N ∉ tail → all_digits tail = false → sourceVMID (Some (IdStr (host ++ u "_" ++ tail))) = None).
Proof.
  change (u "_") with [95%N]. cbn [app]. unfold sourceVMID. cbn [id_text]. split_and!.
  - intros Hn. rewrite after_last_app by (by apply digits_notin). rewrite all_digits_digits.
    unfold str_eqb. rewrite bool_decide_eq_false_2 by apply digits_nonempty.
    cbn [negb andb]. by rewrite num_of_str_print.
  - intros Hh. apply after_last_None in Hh. by rewrite Hh.
  - intros tail Ht Hd. rewrite after_last_app by done. by rewrite Hd, andb_false_r.
Qed.


(** The console shows a VMID for an id whose numeral the server's [Atoi] rejects
    as out of range. *)
Lemma sourceVMID_out_of_range :
  sourceVMID (Some (IdStr (u "h_99999999999999999999"))) = Some (of_Z 100000000000000000000).
Proof. vm_compute. reflexivity. Qed.

(** *** Depths *)
Section depths.
Context (ids : gmap jsstr Backup).

Definition parentOf (b : Backup) : option Backup :=
  match b_parentId b with Some p => ids !! id_text p | None => None end.

(** The number of ancestors, up to six. *)
Fixpoint ancestors (n : nat) (b : Backup) : Z :=
  match n, parentOf b with
  | S n, Some p => Z.min 6 (ancestors n p + 1)
  | _, _ => 0
  end.

Lemma ancestors_range n b : 0 <= ancestors n b <= 6.
Proof. revert b. induction n as [|n IH]; intros b; cbn; [lia|]. case_match; [|lia]. specialize (IH b0). lia. Qed.

Context (rank : jsstr → nat).
Context (rank_parent : ∀ id b p, ids !! id = Some b → parentOf b = Some p →
  (rank (id_text (b_id p)) < rank (id_text (b_id b)))%nat).
Context (ids_own : ∀ id b, ids !! id = Some b → id_text (b_id b) = id).

Abbreviation rk b := (rank (id_text (b_id b))).

Lemma parentOf_known b p : parentOf b = Some p → ids !! id_text (b_id p) = Some p.
Proof.
  unfold parentOf. destruct (b_parentId b) as [q|]; [|done]. intros H. by rewrite (ids_own _ _ H).
Qed.

Lemma ancestors_stable n m b : ids !! id_text (b_id b) = Some b →
  (rk b <= n)%nat → (rk b <= m)%nat → ancestors n b = ancestors m b.
Proof.
  revert m b. induction n as [|n IH]; intros m b Hb Hn Hm.
  - destruct m as [|m]; [done|]. cbn. destruct (parentOf b) as [p|] eqn:Ep; [|done].
    pose proof (rank_parent _ _ _ Hb Ep). lia.
  - destruct m as [|m]; cbn; destruct (parentOf b) as [p|] eqn:Ep; try done;
      pose proof (rank_parent _ _ _ Hb Ep); [lia|].
    by rewrite (IH m p) by (try lia; by eapply parentOf_known).
Qed.

Definition spec_depth (b : Backup) : Z := ancestors (rk b) b.

Lemma spec_depth_eq b : ids !! id_text (b_id b) = Some b →
  spec_depth b = match parentOf b with Some p => Z.min 6 (spec_depth p + 1) | None => 0 end.
Proof.
  intros Hb. unfold spec_depth. destruct (rk b) as [|n] eqn:En; cbn.
  - destruct (parentOf b) as [p|] eqn:Ep; [|done]. pose proof (rank_parent _ _ _ Hb Ep). lia.
  - destruct (parentOf b) as [p|] eqn:Ep; [|done]. pose proof (rank_parent _ _ _ Hb Ep).
    by rewrite (ancestors_stable n (rk p) p) by (try lia; by eapply parentOf_known).
Qed.

Definition memo_ok (depths : gmap jsstr Z) : Prop :=
  ∀ id d, depths !! id = Some d → ∃ b, ids !! id = Some b ∧ d = spec_depth b.

Lemma memo_insert depths b : memo_ok depths → ids !! id_text (b_id b) = Some b →
  memo_ok (<[id_text (b_id b) := spec_depth b]> depths).
Proof.
  intros Hm Hb id d [[<- <-]|[_ H]]%lookup_insert_Some; [eauto|by apply Hm].
Qed.

Lemma depthOf_spec guard b depths :
  memo_ok depths → ids !! id_text (b_id b) = Some b → (rk b <= guard)%nat →
  let r := depthOf ids guard b depths in
  r.1 = spec_depth b ∧ memo_ok r.2 ∧ r.2 !! id_text (b_id b) = Some (spec_depth b)
  ∧ (∀ id, is_Some (depths !! id) → is_Some (r.2 !! id)).
Proof.
  revert b depths. induction guard as [|g IH]; intros b depths Hm Hb Hg; cbn [depthOf]; cbv zeta.
  all: destruct (depths !! id_text (b_id b)) as [c|] eqn:Ec;
    [destruct (Hm _ _ Ec) as (b' & Hb' & ->); rewrite Hb in Hb'; injection Hb' as <-; done|].
  all: fold (parentOf b); pose proof (spec_depth_eq b Hb) as Es;
    destruct (parentOf b) as [p|] eqn:Ep.
  - pose proof (rank_parent _ _ _ Hb Ep). lia.
  - rewrite <- Es. cbn. split_and!; [done|by apply memo_insert|by rewrite lookup_insert_eq|].
    intros id Hid. destruct (decide (id_text (b_id b) = id)) as [->|]; [by rewrite lookup_insert_eq|by rewrite lookup_insert_ne].
  - pose proof (rank_parent _ _ _ Hb Ep) as Hr. pose proof (parentOf_known _ _ Ep) as Hp.
    destruct (IH p depths Hm Hp ltac:(lia)) as (E1 & E2 & E3 & E4).
    destruct (depthOf ids g p depths) as [d depths']. cbn [fst snd] in *. subst d. rewrite <- Es.
    split_and!; [done|by apply memo_insert|by rewrite lookup_insert_eq|].
    intros id Hid. destruct (decide (id_text (b_id b) = id)) as [->|];
      [by rewrite lookup_insert_eq|rewrite lookup_insert_ne by done; by apply E4].
  - rewrite <- Es. cbn. split_and!; [done|by apply memo_insert|by rewrite lookup_insert_eq|].
    intros id Hid. destruct (decide (id_text (b_id b) = id)) as [->|]; [by rewrite lookup_insert_eq|by rewrite lookup_insert_ne].
Qed.

Lemma depths_fold l guard depths :
  memo_ok depths → (∀ b, b ∈ l → ids !! id_text (b_id b) = Some b ∧ (rk b <= guard)%nat) →
  let r := fold_left (λ ds b, (depthOf ids guard b ds).2) l depths in
  memo_ok r ∧ (∀ id, is_Some (depths !! id) → is_Some (r !! id))
  ∧ (∀ b, b ∈ l → r !! id_text (b_id b) = Some (spec_depth b)).
Proof.
  revert depths. induction l as [|b l IH]; intros depths Hm Hl r.
  - split_and!; [done|done|]. intros b Hb. by apply not_elem_of_nil in Hb.
  - destruct (Hl b ltac:(set_solver)) as [Hb Hg].
    destruct (depthOf_spec guard b depths Hm Hb Hg) as (_ & Hm' & Hself & Hmono).
    destruct (IH _ Hm' ltac:(set_solver)) as (Hr & Hk & Hall). unfold r. cbn [fold_left].
    split_and!; [done| |].
    + intros id Hid. by apply Hk, Hmono.
    + intros b' [->|Hb']%elem_of_cons; [|by apply Hall].
      destruct (Hk (id_text (b_id b)) ltac:(by rewrite Hself)) as [d Hd].
      destruct (Hr _ _ Hd) as (b'' & Hb'' & ->). rewrite Hb in Hb''. injection Hb'' as <-. exact Hd.
Qed.
End depths.

Lemma byId_fold (l : list Backup) (m : gmap jsstr Backup) id b :
  fold_left (λ m b, <[id_text (b_id b) := b]> m) l m !! id = Some b →
  (b ∈ l ∧ id_text (b_id b) = id) ∨ m !! id = Some b.
Proof.
  revert m. induction l as [|c l IH]; intros m H; [by right|]. cbn [fold_left] in H.
  destruct (IH _ H) as [[Hin Hid]|Hm]; [left; set_solver|].
  apply lookup_insert_Some in Hm as [[<- <-]|[_ Hm]]; [left; set_solver|by right].
Qed.

Lemma byId_lookup (l : list Backup) b : NoDup (map (λ b, id_text (b_id b)) l) → b ∈ l → byId l !! id_text (b_id b) = Some b.
Proof.
  unfold byId. generalize (∅ : gmap jsstr Backup) as m.
  induction l as [|c l IH]; intros m Hn Hb; [by apply not_elem_of_nil in Hb|]. cbn [fold_left map] in *.
  apply NoDup_cons in Hn as [Hc Hn]. apply elem_of_cons in Hb as [->|Hb]; [|by apply IH].
  assert (Hk : ∀ (m : gmap jsstr Backup), id_text (b_id c) ∉ map (λ b, id_text (b_id b)) l →
    fold_left (λ m b, <[id_text (b_id b) := b]> m) l m !! id_text (b_id c) = m !! id_text (b_id c)).
  { clear. induction l as [|d l IH]; intros m Hc; [done|]. cbn [fold_left map] in *.
    apply not_elem_of_cons in Hc as [Hne Hc]. rewrite IH by done. by rewrite lookup_insert_ne. }
  rewrite Hk by done. by rewrite lookup_insert_eq.
Qed.

(** C25: on restore points with distinct ids whose parents come before them in
    some order, the memoised search terminates within its guard and gives every
    point its depth: none for a point without a listed parent, else one more
    than its parent's, capped at six. *)
Theorem chainDepths_spec backups (rank : jsstr → nat) :
  NoDup (map (λ b, id_text (b_id b)) backups) →
  (∀ b, b ∈ backups → (rank (id_text (b_id b)) < length backups)%nat) →
  (∀ b p, b ∈ backups → parentOf (byId backups) b = Some p →
     (rank (id_text (b_id p)) < rank (id_text (b_id b)))%nat) →
  ∀ b, b ∈ backups →
    ∃ d, chainDepths backups !! id_text (b_id b) = Some d ∧ 0 <= d <= 6
      ∧ match parentOf (byId backups) b with
        | None => d = 0
        | Some p => ∃ dp, chainDepths backups !! id_text (b_id p) = Some dp ∧ d = Z.min 6 (dp + 1)
        end.
Proof.
  intros Hn Hr Hp b Hb.
  assert (Hin : ∀ id c, byId backups !! id = Some c → c ∈ backups ∧ id_text (b_id c) = id).
  { intros id c H. apply byId_fold in H as [?|H]; [done|by rewrite lookup_empty in H]. }
  assert (Hrp : ∀ id c p, byId backups !! id = Some c → parentOf (byId backups) c = Some p →
    (rank (id_text (b_id p)) < rank (id_text (b_id c)))%nat).
  { intros id c p Hc. apply Hp. by destruct (Hin _ _ Hc). }
  assert (Hown : ∀ id c, byId backups !! id = Some c → id_text (b_id c) = id) by (intros id c Hc; by apply Hin).
  destruct (depths_fold (byId backups) rank Hrp Hown backups (length backups) ∅) as (_ & _ & Hall).
  { intros id d H. by rewrite lookup_empty in H. }
  { intros c Hc. split; [by apply byId_lookup|]. specialize (Hr c Hc). lia. }
  fold (chainDepths backups) in Hall. exists (spec_depth (byId backups) rank b).
  split; [by apply Hall|]. split; [apply ancestors_range|].
  rewrite (spec_depth_eq (byId backups) rank Hrp Hown) by (by apply byId_lookup).
  destruct (parentOf (byId backups) b) as [p|] eqn:Ep; [|done].
  eexists. split; [|done]. apply Hall.
  destruct (Hin (id_text (b_id p)) p) as [? _]; [|done]. by eapply parentOf_known.
Qed.

Definition sample_point (id parent : Z) (kind : BackupKind) : Backup :=
  mkBackup (IdNum (of_Z id)) (IdNum (of_Z 1)) SourceVm (IdStr (u "h1_101")) (u "db-01") (Some (IdStr (u "h1")))
    None None (IdNum (of_Z 1)) (u "2026-07-26") (of_Z 100) (of_Z 10) kind
    (if parent =? 0 then None else Some (IdNum (of_Z parent))) None None [(u "scsi0", of_Z 100)].

Lemma chainDepths_spec_witness :
  let l := [sample_point 3 2 Incremental; sample_point 2 1 Incremental; sample_point 1 0 Full] in
  chainDepths l !! u "3" = Some 2 ∧
  (∃ d, chainDepths l !! u "2" = Some d ∧ 0 <= d <= 6).
Proof.
  intros l. split; [vm_compute; reflexivity|].
  set (rank := λ s : jsstr, if str_eqb s (u "1") then 0%nat else if str_eqb s (u "2") then 1%nat else 2%nat).
  assert (Hn : NoDup (map (λ b, id_text (b_id b)) l)) by (apply (bool_decide_unpack _); vm_compute; exact I).
  assert (Hr : ∀ b, b ∈ l → (rank (id_text (b_id b)) < length l)%nat).
  { intros b Hb. unfold rank. cbn [length l]. repeat case_match; lia. }
  assert (Hp : ∀ b p, b ∈ l → parentOf (byId l) b = Some p →
    (rank (id_text (b_id p)) < rank (id_text (b_id b)))%nat).
  { assert (Hall : ∀ b, b ∈ l → match parentOf (byId l) b with
        | Some p => Nat.ltb (rank (id_text (b_id p))) (rank (id_text (b_id b))) | None => true end = true).
    { intros b Hb. repeat (apply elem_of_cons in Hb as [->|Hb]; [vm_compute; reflexivity|]).
      by apply not_elem_of_nil in Hb. }
    intros b p Hb E. specialize (Hall b Hb). rewrite E in Hall. by apply Nat.ltb_lt. }
  destruct (chainDepths_spec l rank Hn Hr Hp (sample_point 2 1 Incremental) ltac:(set_solver))
    as (d & Hd & Hrange & _).
  exists d. split; [exact Hd|exact Hrange].
Defined.

(** *** Groups *)
Section groups.
Context (getTime : jsstr → num).

Definition counted (key : jsstr) (l : list Backup) : Z :=
  Z.of_nat (length (List.filter (λ b, str_eqb (sourceKey b) key) l)).

Record groups_ok (seen : list Backup) (gs : list SourceGroup) : Prop := {
  ok_nodup : NoDup (map g_key gs);
  ok_cover : ∀ b, b ∈ seen → sourceKey b ∈ map g_key gs;
  ok_count : ∀ g, g ∈ gs → g_count g = counted (g_key g) seen ∧ 1 <= g_count g;
  ok_latest : ∀ g b, g ∈ gs → b ∈ seen → sourceKey b = g_key g →
    nlt (getTime (g_latest g)) (getTime (b_createdAt b)) = false;
}.

Lemma nlt_trans_false x y z : nlt x y = true → nlt x z = false → nlt y z = false.
Proof.
  destruct x as [|[]|x], y as [|[]|y], z as [|[]|z]; try done; cbn.
  intros Hxy Hxz. apply negb_true_iff in Hxy. apply negb_false_iff in Hxz.
  apply negb_false_iff. apply nle_Fin_false in Hxy. apply nle_Fin in Hxz. apply nle_Fin.
  eapply QArith_base.Qle_trans; [exact Hxz|]. by apply QArith_base.Qlt_le_weak.
Qed.

Lemma nlt_irrefl x : nlt x x = false.
Proof. destruct x as [|[]|q]; try done. cbn. apply negb_false_iff, nle_Fin, QArith_base.Qle_refl. Qed.

Lemma counted_snoc key l b :
  counted key (l ++ [b]) = counted key l + (if str_eqb (sourceKey b) key then 1 else 0).
Proof. unfold counted. rewrite List.filter_app, length_app. cbn. destruct (str_eqb _ _); cbn; lia. Qed.

Lemma addToGroups_keys gs b :
  map g_key (addToGroups getTime gs b) =
  if decide (sourceKey b ∈ map g_key gs) then map g_key gs else map g_key gs ++ [sourceKey b].
Proof.
  induction gs as [|g gs IH]; [done|]. cbn [addToGroups map]. unfold str_eqb.
  case_bool_decide as E.
  - rewrite decide_True by (rewrite E; set_solver). done.
  - cbn [map]. rewrite IH. repeat case_decide; set_solver.
Qed.

Lemma elem_of_addToGroups gs b g : NoDup (map g_key gs) → g ∈ addToGroups getTime gs b →
  (g ∈ gs ∧ g_key g ≠ sourceKey b)
  ∨ (∃ g0, g0 ∈ gs ∧ g_key g0 = sourceKey b ∧ g = extendGroup getTime g0 b)
  ∨ ((sourceKey b ∉ map g_key gs) ∧ g = newGroup b).
Proof.
  induction gs as [|g0 gs IH]; intros Hn Hg; cbn [addToGroups] in Hg.
  - right. right. apply list_elem_of_singleton in Hg. split; [set_solver|done].
  - cbn [map] in Hn. apply NoDup_cons in Hn as [Hk Hn]. unfold str_eqb in Hg. case_bool_decide as E.
    + apply elem_of_cons in Hg as [->|Hg]; [right; left; set_solver|].
      left. split; [set_solver|]. intros E'. apply Hk. rewrite E, <- E'. apply list_elem_of_In, in_map, list_elem_of_In, Hg.
    + apply elem_of_cons in Hg as [->|Hg]; [left; set_solver|].
      destruct (IH Hn Hg) as [[? ?]|[(g1 & ? & ? & ?)|[? ?]]]; [left; set_solver|right; left; set_solver|].
      right. right. cbn [map]. set_solver.
Qed.

Lemma addToGroups_ok seen gs b : groups_ok seen gs → groups_ok (seen ++ [b]) (addToGroups getTime gs b).
Proof.
  intros [Hn Hc Hk Hl]. split.
  - rewrite addToGroups_keys. case_decide; [done|]. apply NoDup_app. split_and!; [done| |apply NoDup_singleton].
    intros x Hx ->%list_elem_of_singleton. done.
  - intros c [Hcs| ->%list_elem_of_singleton]%elem_of_app; rewrite addToGroups_keys; case_decide; set_solver.
  - intros g Hg. destruct (elem_of_addToGroups gs b g Hn Hg) as [[Hin Hne]|[(g0 & Hin & E & ->)|[Hnew ->]]].
    + rewrite counted_snoc. destruct (Hk g Hin) as [-> ?]. unfold str_eqb.
      rewrite bool_decide_eq_false_2 by done. lia.
    + destruct (Hk g0 Hin) as [E1 E2]. cbn [extendGroup g_count g_key].
      rewrite counted_snoc. unfold str_eqb. rewrite bool_decide_eq_true_2 by done. lia.
    + cbn [newGroup g_count g_key]. rewrite counted_snoc. unfold str_eqb.
      rewrite bool_decide_eq_true_2 by done. split; [|lia].
      assert (E0 : counted (sourceKey b) seen = 0); [|lia]. unfold counted.
      destruct (List.filter _ seen) as [|c l] eqn:Ef; [done|]. exfalso. apply Hnew.
      assert (Hin : In c (List.filter (λ b0, str_eqb (sourceKey b0) (sourceKey b)) seen)) by (rewrite Ef; by left).
      apply filter_In in Hin as [Hin Ec]. apply bool_decide_eq_true in Ec. rewrite <- Ec.
      apply Hc. by apply list_elem_of_In.
  - intros g c Hg Hcs Hkey.
    destruct (elem_of_addToGroups gs b g Hn Hg) as [[Hin Hne]|[(g0 & Hin & E & ->)|[Hnew ->]]].
    + apply elem_of_app in Hcs as [Hcs| ->%list_elem_of_singleton]; [by apply Hl|]. by rewrite Hkey in Hne.
    + cbn [extendGroup g_latest g_key] in *.
      apply elem_of_app in Hcs as [Hcs| ->%list_elem_of_singleton].
      * specialize (Hl g0 c Hin Hcs Hkey). case_on_goal; [|done]. by eapply nlt_trans_false.
      * case_on_goal; [apply nlt_irrefl|done].
    + cbn [newGroup g_latest g_key] in *.
      apply elem_of_app in Hcs as [Hcs| ->%list_elem_of_singleton]; [|apply nlt_irrefl].
      exfalso. apply Hnew. rewrite <- Hkey. by apply Hc.
Qed.

Lemma groups_fold seen gs l : groups_ok seen gs → groups_ok (seen ++ l) (fold_left (addToGroups getTime) l gs).
Proof.
  revert seen gs. induction l as [|b l IH]; intros seen gs H; [by rewrite app_nil_r|].
  cbn [fold_left]. replace (seen ++ b :: l) with ((seen ++ [b]) ++ l) by (by rewrite <- app_assoc).
  apply IH. by apply addToGroups_ok.
Qed.

(** The groups of the page partition the restore points: one group per
    source key, every point counted in the group of its key and in no other, no
    group empty, the chain shown under a group holding exactly its points, and
    no point of a group dated after the newest the group reports. *)
Theorem groupSources_partition backups :
  let gs := groupSources getTime backups in
  NoDup (map g_key gs)
  ∧ (∀ key, key ∈ map g_key gs ↔ ∃ b, b ∈ backups ∧ sourceKey b = key)
  ∧ (∀ g, g ∈ gs → 1 <= g_count g ∧ g_count g = Z.of_nat (length (chainOf getTime backups (g_key g))))
  ∧ (∀ g b, g ∈ gs → b ∈ chainOf getTime backups (g_key g) ↔ b ∈ backups ∧ sourceKey b = g_key g)
  ∧ (∀ g b, g ∈ gs → b ∈ chainOf getTime backups (g_key g) →
       nlt (getTime (g_latest g)) (getTime (b_createdAt b)) = false).
Proof.
  intros gs. set (fs := fold_left (addToGroups getTime) backups []).
  assert (H : groups_ok backups fs).
  { apply (groups_fold [] [] backups). split; try (intros; set_solver). constructor. }
  assert (Hgs : gs ≡ₚ fs) by apply sort_by_perm.
  assert (Hchain : ∀ key b, b ∈ chainOf getTime backups key ↔ b ∈ backups ∧ sourceKey b = key).
  { intros key b. unfold chainOf. rewrite elem_of_sort_by, list_elem_of_In, filter_In, <- list_elem_of_In.
    unfold str_eqb. by rewrite bool_decide_eq_true. }
  assert (Hin : ∀ g, g ∈ gs → g ∈ fs) by (intros g; by rewrite Hgs).
  split_and!.
  - rewrite Hgs. apply H.
  - intros key. rewrite Hgs. split.
    + intros Hk. apply list_elem_of_In, in_map_iff in Hk as (g & <- & Hg%list_elem_of_In).
      destruct (ok_count _ _ H g Hg) as [E1 E2]. rewrite E1 in E2. unfold counted in E2.
      destruct (List.filter _ backups) as [|b l] eqn:Ef; [simpl in E2; lia|].
      assert (Hb : In b (List.filter (λ b0, str_eqb (sourceKey b0) (g_key g)) backups)) by (rewrite Ef; by left).
      apply filter_In in Hb as [Hb Ek]. apply bool_decide_eq_true in Ek. exists b. split; [by apply list_elem_of_In|done].
    + intros (b & Hb & <-). by apply (ok_cover _ _ H).
  - intros g Hg. destruct (ok_count _ _ H g (Hin g Hg)) as [E1 E2]. split; [done|].
    rewrite E1. unfold counted, chainOf. by rewrite length_sort_by.
  - intros g b Hg. apply Hchain.
  - intros g b Hg [Hb Hk]%Hchain. exact (ok_latest _ _ H g b (Hin g Hg) Hb Hk).
Qed.
End groups.
