(* ===== verification/Inventory.v ===== *)
(** * Audit entries, inventory rows and job sources (web/src/api.ts)

    Tolerant readers of the audit rows, the rows of the inventory and the job
    record, what a job backs up, and the tags of an inventory. *)
From S2P Require Import Prelude JsString JsNumber JsValue Policy Runs.

(** ** Audit rows *)

Record AuditEntry := mkAudit {
  au_id : ID;
  au_at : jsstr;
  au_actor : jsstr;
  au_actorId : jsval;
  au_action : jsstr;
  au_objectKind : jsstr;
  au_objectId : jsval;
  au_objectName : jsstr;
  au_result : jsstr;
  au_sourceIP : jsstr;
  au_detail : jsstr;
}.

(** [text(...keys)] over the row. *)
Fixpoint textOf (raw : jsval) (keys : list String.string) : jsstr :=
  match keys with
  | [] => []
  | key :: keys =>
      match get raw key with
      | VStr s => if str_eqb s [] then textOf raw keys else s
      | VNum n => str_of_num n
      | _ => textOf raw keys
      end
  end.

Definition or_else (a b : jsstr) : jsstr := if str_eqb a [] then b else a.

Definition normaliseAuditEntry (value : jsval) (index : Z) : AuditEntry :=
  let raw := if is_object value then value else VObj [] in
  mkAudit
    (match get raw "id" with VStr s => IdStr s | VNum n => IdNum n | _ => IdNum (of_Z index) end)
    (textOf raw ["at"; "timestamp"; "createdAt"]%string)
    (textOf raw ["actor"; "actorUsername"; "username"]%string)
    (coalesce (coalesce (get raw "actorId") (get raw "actorID")) VNull)
    (textOf raw ["action"]%string)
    (textOf raw ["objectKind"; "object_kind"]%string)
    (coalesce (coalesce (get raw "objectId") (get raw "objectID")) VNull)
    (textOf raw ["objectName"; "object_name"]%string)
    (or_else (textOf raw ["result"]%string) (u "ok"))
    (textOf raw ["sourceIP"; "sourceIp"; "source_ip"; "ip"]%string)
    (textOf raw ["detail"; "details"]%string).

Definition auditObjectText (entry : AuditEntry) : jsstr :=
  let name := trim (au_objectName entry) in
  let kind := trim (au_objectKind entry) in
  if negb (str_eqb name []) && negb (str_eqb kind []) then cat [kind; u " · "; name]
  else if negb (str_eqb name []) then name
  else if negb (str_eqb kind []) && negb (is_nullish (au_objectId entry))
          && negb (str_eqb (to_str (au_objectId entry)) [])
  then cat [kind; u " #"; to_str (au_objectId entry)]
  else or_else kind (u "—").

(** ** Inventory rows, agents and jobs *)

(** [tags] is declared an array of strings; readers do not rely on it. *)
Record CachedVM := mkVM {
  vm_vmid : num;
  vm_name : jsstr;
  vm_node : jsstr;
  vm_status : jsstr;
  vm_maxdisk : jsval;
  vm_maxmem : jsval;
  vm_uptime : jsval;
  vm_tags : jsval;
  vm_hostId : ID;
  vm_hostName : jsstr;
}.

Record Host := mkHost {
  ho_id : ID;
  ho_name : jsstr;
  ho_baseUrl : jsstr;
  ho_tokenId : jsstr;
  ho_insecureTLS : bool;
  ho_status : jsstr;
  ho_lastSeen : option jsstr;
}.

Record Agent := mkAgent {
  ag_id : ID;
  ag_hostname : jsstr;
  ag_os : jsstr;
  ag_arch : jsstr;
  ag_version : jsstr;
  ag_status : jsstr;
  ag_lastSeen : jsstr;
  ag_registeredAt : jsstr;
}.

(** The fields older servers send in another shape are read as they came. *)
Record Job := mkJob {
  jb_id : ID;
  jb_name : jsstr;
  jb_kind : JobKind;
  jb_targetId : ID;
  jb_targetName : jsstr;
  jb_schedule : jsval;
  jb_scheduleLabel : option jsstr;
  jb_retention : jsval;
  jb_policy : jsval;
  jb_enabled : bool;
  jb_sources : jsval;
  jb_tagFilter : option jsstr;
  jb_nextRun : option jsstr;
  jb_lastRun : option JobRun;
}.

(** ** Job sources

    [sources] is read as it came: any JSON value. *)
Definition isAgentJobSource (value : jsval) : bool :=
  is_object value && has value "agentId" && match get value "paths" with VArr _ => true | _ => false end.

Definition isVMJobSource (value : jsval) : bool :=
  is_object value && has value "vmid" && has value "hostId".

Definition vmSourcesOf (sources : jsval) : list jsval :=
  match sources with VArr l => List.filter isVMJobSource l | _ => [] end.

Definition agentSourceOf (sources : jsval) : option jsval :=
  if isAgentJobSource sources then Some sources
  else match sources with VArr l => List.find isAgentJobSource l | _ => None end.

(** ** Tags *)

Definition tagsOf (tags : jsval) : list jsstr :=
  match tags with
  | VArr l => List.filter (λ t, negb (str_eqb t [])) (only_strings l)
  | _ => []
  end.

Section tags.
(** [a.localeCompare(b) <= 0]. *)
Context (locale_le : jsstr → jsstr → bool).

(** The tags of every inventory row, once each, sorted. *)
Definition allTagsOf (vms : list jsval) : list jsstr :=
  sort_by locale_le (dedup (concat (map tagsOf vms))).
End tags.

(** The rows of an inventory that carry a tag; [tags] reads a row's field. *)
Definition vmsWithTag {A} (tags : A → jsval) (vms : list A) (tag : jsstr) : list A :=
  List.filter (λ vm, existsb (str_eqb tag) (tagsOf (tags vm))) vms.

(** ** Properties *)

Lemma elem_of_allTagsOf le vms tag :
  tag ∈ allTagsOf le vms ↔ ∃ vm, vm ∈ vms ∧ tag ∈ tagsOf vm.
Proof.
  unfold allTagsOf. rewrite elem_of_sort_by, elem_of_dedup, list_elem_of_In, in_concat.
  split.
  - intros (l & Hl & Ht). apply in_map_iff in Hl as (vm & <- & Hvm).
    exists vm. by rewrite !list_elem_of_In.
  - intros (vm & Hvm & Ht). exists (tagsOf vm).
    split; [apply in_map; by apply list_elem_of_In|by apply list_elem_of_In].
Qed.

Lemma elem_of_vmsWithTag {A} (tags : A → jsval) vms tag vm :
  vm ∈ vmsWithTag tags vms tag ↔ vm ∈ vms ∧ tag ∈ tagsOf (tags vm).
Proof.
  unfold vmsWithTag. rewrite list_elem_of_In, filter_In, <- list_elem_of_In. by rewrite <- elem_of_existsb.
Qed.

(** The tag picker offers exactly the tags that select something: each tag
    once, none empty, and a tag is offered exactly when at least one guest of
    the inventory would be selected by it. *)
Theorem tags_offered {A} (tags : A → jsval) le (vms : list A) :
  let offered := allTagsOf le (map tags vms) in
  NoDup offered ∧ ([] ∉ offered)
  ∧ ∀ tag, tag ∈ offered ↔ vmsWithTag tags vms tag ≠ [].
Proof.
  intros offered. unfold offered. split_and!.
  - unfold allTagsOf. rewrite sort_by_perm. apply NoDup_dedup.
  - rewrite elem_of_allTagsOf. intros (vm & _ & H). unfold tagsOf in H. destruct vm; try by apply not_elem_of_nil in H.
    by apply list_elem_of_In, filter_In in H as [_ H].
  - intros tag. rewrite elem_of_allTagsOf. split.
    + intros (t & Ht & Htag). apply list_elem_of_In, in_map_iff in Ht as (vm & <- & Hvm%list_elem_of_In).
      intros E. assert (Hin : vm ∈ vmsWithTag tags vms tag) by (by apply elem_of_vmsWithTag).
      rewrite E in Hin. by apply not_elem_of_nil in Hin.
    + intros Hne. destruct (vmsWithTag tags vms tag) as [|vm l] eqn:E; [done|].
      assert (Hin : vm ∈ vmsWithTag tags vms tag) by (rewrite E; set_solver).
      apply elem_of_vmsWithTag in Hin as [Hvm Ht]. exists (tags vm). split; [|done].
      apply list_elem_of_In, in_map. by apply list_elem_of_In.
Qed.
