(* ===== verification/Endpoints.v ===== *)
(** * The endpoints (web/src/api.ts)

    One definition per client function: the request it sends, [None] when
    encoding an id throws, and for the functions that normalise, what they make
    of the response. *)
From S2P Require Import Prelude JsString JsNumber JsValue Json Schedule Policy Retention Transport Roles Targets Runs Backups Inventory.

(** ** Building requests *)

Definition get_ (path : jsstr) : option Request := Some (mkRequest path GET None None).
Definition get_q (path : jsstr) (query : fields) : option Request := Some (mkRequest path GET None (Some query)).
Definition send_ (method : Method) (path : jsstr) (body : option jsval) : option Request :=
  Some (mkRequest path method body None).

(** [encodeURIComponent(String(id))] between two literals. *)
Definition by_id (method : Method) (prefix : jsstr) (id : ID) (suffix : jsstr)
    (body : option jsval) (query : option fields) : option Request :=
  (λ s, mkRequest (cat [prefix; s; suffix]) method body query) <$> encodeURIComponent (id_text id).

Definition opt_val {A} (f : A → jsval) (o : option A) : jsval := match o with Some x => f x | None => VUndef end.
Definition Z_val (z : Z) : jsval := VNum (of_Z z).

(** ** Set-up and sign-in *)

Definition getSetupStatus := get_ (u "/api/setup/status").
Definition credentials (username password : jsstr) : jsval :=
  VObj [(u "username", VStr username); (u "password", VStr password)].
Definition setup (username password : jsstr) := send_ POST (u "/api/setup") (Some (credentials username password)).
Definition login (username password : jsstr) := send_ POST (u "/api/login") (Some (credentials username password)).
Definition logout := send_ POST (u "/api/logout") None.
Definition getMe := get_ (u "/api/me").
Definition changePassword (current new : jsstr) :=
  send_ POST (u "/api/me/password") (Some (VObj [(u "currentPassword", VStr current); (u "newPassword", VStr new)])).

(** ** Users *)

Record UserCreate := mkUserCreate { uc_username : jsstr; uc_password : jsstr; uc_role : Role }.
Record UserPatch := mkUserPatch { up_role : option Role; up_password : option jsstr }.

Definition listUsers := get_ (u "/api/users").

(** Reading a property of null or undefined throws. *)
Definition get_opt (v : jsval) (k : String.string) : option jsval :=
  if is_nullish v then None else Some (get v k).

(** The own properties [{...v}] copies. *)
Definition spread (v : jsval) : fields :=
  match v with
  | VObj fs => fs
  | VArr l => zip_with (λ i x, (str_of_Z (Z.of_nat i), x)) (List.seq 0 (length l)) l
  | VStr s => zip_with (λ i c, (str_of_Z (Z.of_nat i), VStr [c])) (List.seq 0 (length s)) s
  | _ => []
  end.

Definition listUsers_result (users : jsval) : option (list jsval) :=
  match users with
  | VArr l => mapM (λ user, role ← get_opt user "role";
                            Some (VObj (set_field (u "role") (role_val (parseRole role)) (spread user)))) l
  | _ => Some []
  end.

Definition createUser (input : UserCreate) :=
  send_ POST (u "/api/users")
    (Some (VObj [(u "username", VStr (uc_username input)); (u "password", VStr (uc_password input));
                 (u "role", role_val (uc_role input))])).
Definition patchUser (id : ID) (input : UserPatch) :=
  by_id PATCH (u "/api/users/") id []
    (Some (VObj [(u "role", opt_val role_val (up_role input)); (u "password", opt_val VStr (up_password input))])) None.
Definition deleteUser (id : ID) := by_id DELETE (u "/api/users/") id [] None None.

(** ** Audit trail and updates *)

Definition listAudit (limit : option Z) (action actor : option jsstr) :=
  get_q (u "/api/audit") [(u "limit", opt_val Z_val limit); (u "action", opt_val VStr action); (u "actor", opt_val VStr actor)].

Definition listAudit_result (entries : jsval) : list AuditEntry :=
  match entries with
  | VArr l => zip_with (λ i e, normaliseAuditEntry e (Z.of_nat i)) (List.seq 0 (length l)) l
  | _ => []
  end.

Definition getUpdateStatus := get_ (u "/api/update/status").
Definition applyUpdate (force : bool) : option Request :=
  Some (mkRequest (u "/api/update/apply") POST None (if force then Some [(u "force", Z_val 1)] else None)).

(** ** Dashboard and posture *)

Definition getDashboard := get_ (u "/api/dashboard").
Definition getPosture := get_ (u "/api/posture").

(** [Number(v) || 0]. *)
Definition number_or_0 (v : jsval) : num := if truthy (VNum (to_num v)) then to_num v else of_Z 0.

Record Posture := mkPosture {
  po_verdict : jsval; po_protected : num; po_atRisk : num; po_unprotected : num;
  po_reasons : list jsval; po_workloads : list jsval;
}.

Definition getPosture_result (posture : jsval) : option Posture :=
  if is_nullish posture then None else
  let counts := coalesce (get posture "counts") (VObj []) in
  Some (mkPosture (coalesce (get posture "verdict") (VStr (u "unknown")))
    (number_or_0 (get counts "protected")) (number_or_0 (get counts "atRisk")) (number_or_0 (get counts "unprotected"))
    (array_or_nil (get posture "reasons")) (array_or_nil (get posture "workloads"))).

(** ** Hosts and inventory *)

Record HostCreate := mkHostCreate {
  hc_name : jsstr; hc_baseUrl : jsstr; hc_tokenId : jsstr; hc_tokenSecret : jsstr; hc_insecureTLS : bool }.

Definition listHosts := get_ (u "/api/hosts").
Definition createHost (input : HostCreate) :=
  send_ POST (u "/api/hosts")
    (Some (VObj [(u "name", VStr (hc_name input)); (u "baseUrl", VStr (hc_baseUrl input));
                 (u "tokenId", VStr (hc_tokenId input)); (u "tokenSecret", VStr (hc_tokenSecret input));
                 (u "insecureTLS", VBool (hc_insecureTLS input))])).
Definition testHost (id : ID) := by_id POST (u "/api/hosts/") id (u "/test") None None.
Definition deleteHost (id : ID) := by_id DELETE (u "/api/hosts/") id [] None None.
Definition getHostVMs (id : ID) := by_id GET (u "/api/hosts/") id (u "/vms") None None.
Definition listVMs := get_ (u "/api/vms").
Definition getFreeVMID (hostId : ID) := by_id GET (u "/api/hosts/") hostId (u "/free-vmid") None None.

(** ** Targets *)

Inductive TargetCreate :=
  | S3TargetCreate (name endpoint region bucket accessKey secretKey : jsstr) (pathStyle : bool)
  | FilesystemTargetCreate (name path : jsstr) (allowSameFilesystem : bool).

Definition targetCreate_val (input : TargetCreate) : jsval :=
  match input with
  | S3TargetCreate name endpoint region bucket accessKey secretKey pathStyle =>
      VObj [(u "kind", VStr (u "s3")); (u "name", VStr name); (u "endpoint", VStr endpoint);
            (u "region", VStr region); (u "bucket", VStr bucket); (u "accessKey", VStr accessKey);
            (u "secretKey", VStr secretKey); (u "pathStyle", VBool pathStyle)]
  | FilesystemTargetCreate name path allow =>
      VObj [(u "kind", VStr (u "filesystem")); (u "name", VStr name); (u "path", VStr path);
            (u "allowSameFilesystem", VBool allow)]
  end.

Definition kind_val (k : TargetKind) : jsval := VStr (match k with S3 => u "s3" | Filesystem => u "filesystem" end).

Definition normaliseTarget (target : jsval) : option jsval :=
  kind ← get_opt target "kind";
  Some (VObj (set_field (u "kind") (kind_val (parseTargetKind kind)) (spread target))).

Definition listTargets := get_ (u "/api/targets").
Definition listTargets_result (targets : jsval) : option (list jsval) :=
  match targets with VArr l => mapM normaliseTarget l | _ => Some [] end.
Definition createTarget (input : TargetCreate) := send_ POST (u "/api/targets") (Some (targetCreate_val input)).
Definition testTarget (id : ID) := by_id POST (u "/api/targets/") id (u "/test") None None.

(** The fields [testTarget] settles, and those it passes on as they came. *)
Record TargetTestResult := mkTargetTest {
  tt_ok : bool; tt_warnings : list TargetWarning; tt_filesystemType : option jsstr;
  tt_error : jsval; tt_freeBytes : jsval; tt_totalBytes : jsval }.

Definition testTarget_result (result : jsval) : TargetTestResult :=
  let raw := coalesce result (VObj []) in
  mkTargetTest (truthy (get result "ok"))
    (omap normaliseWarning (array_or_nil (get raw "warnings")))
    (match get raw "filesystemType" with
     | VStr s => Some s
     | _ => match get raw "fsType" with VStr s => Some s | _ => None end
     end)
    (get raw "error") (get raw "freeBytes") (get raw "totalBytes").

Definition deleteTarget (id : ID) := by_id DELETE (u "/api/targets/") id [] None None.

(** ** Jobs *)

Record JobCreate := mkJobCreate {
  jc_name : jsstr; jc_kind : JobKind; jc_targetId : ID; jc_schedule : Schedule;
  jc_retention : RetentionPolicy; jc_sources : jsval; jc_enabled : bool;
  jc_tagFilter : option jsstr; jc_policy : option JobPolicy;
}.

Definition jobKind_val (k : JobKind) : jsval := VStr (match k with JVm => u "vm" | JAgent => u "agent" end).

Definition jobCreate_val (j : JobCreate) : jsval :=
  VObj [(u "name", VStr (jc_name j)); (u "kind", jobKind_val (jc_kind j)); (u "targetId", id_val (jc_targetId j));
        (u "schedule", schedule_val (jc_schedule j)); (u "retention", retention_val (jc_retention j));
        (u "sources", jc_sources j); (u "enabled", VBool (jc_enabled j));
        (u "tagFilter", opt_val VStr (jc_tagFilter j)); (u "policy", opt_val policy_val (jc_policy j))].

Definition listJobs := get_ (u "/api/jobs").
Definition createJob (input : JobCreate) := send_ POST (u "/api/jobs") (Some (jobCreate_val input)).
Definition patchJob (id : ID) (input : jsval) := by_id PATCH (u "/api/jobs/") id [] (Some input) None.
Definition deleteJob (id : ID) := by_id DELETE (u "/api/jobs/") id [] None None.
Definition runJob (id : ID) := by_id POST (u "/api/jobs/") id (u "/run") None None.

Definition getRetentionPreview (jobId : ID) (candidate : option RetentionPolicy) :=
  by_id GET (u "/api/jobs/") jobId (u "/retention-preview") None
    ((λ r, [(u "keepLast", Z_val (keepLast r)); (u "keepDaily", Z_val (keepDaily r));
            (u "keepWeekly", Z_val (keepWeekly r)); (u "keepMonthly", Z_val (keepMonthly r));
            (u "keepYearly", Z_val (keepYearly r))]) <$> candidate).

Definition getRetentionPreview_result (preview : jsval) : option (list jsval * list jsval) :=
  if is_nullish preview then None
  else Some (array_or_nil (get preview "keeps"), array_or_nil (get preview "prunes")).

(** ** Runs *)

Definition listRuns (jobId : option ID) (limit : option Z) :=
  get_q (u "/api/runs") [(u "jobId", opt_val id_val jobId); (u "limit", opt_val Z_val limit)].
Definition getRun (id : ID) := by_id GET (u "/api/runs/") id [] None None.

(** The fields [getRun] replaces in the answer. *)
Definition getRun_result (detail : jsval) : option jsval :=
  if is_nullish detail then None else
  let destination := coalesce (coalesce (get detail "destination") (get detail "restore")) VNull in
  let fs := spread detail in
  let fs := set_field (u "sources") (VArr (array_or_nil (get detail "sources"))) fs in
  let fs := set_field (u "throughputBps")
              (match get detail "throughputBps" with VNum (Fin q) => VNum (Fin q) | _ => Z_val 0 end) fs in
  Some (VObj (set_field (u "destination") (if is_object destination then destination else VNull) fs)).

Definition cancelRun (id : ID) := by_id POST (u "/api/runs/") id (u "/cancel") None None.
Definition retryRun (id : ID) := by_id POST (u "/api/runs/") id (u "/retry") None None.
Definition getRunLog (id : ID) := by_id GET (u "/api/runs/") id (u "/log") None None.
Definition deleteRun (id : ID) := by_id DELETE (u "/api/runs/") id [] None None.

Inductive ClearRunsScope := ClearFinished | ClearFailed.
Definition clearRuns (scope : ClearRunsScope) (jobId : option ID) :=
  send_ POST (u "/api/runs/clear")
    (Some (VObj ([(u "scope", VStr (match scope with ClearFinished => u "finished" | ClearFailed => u "failed" end))]
                 ++ match jobId with Some id => [(u "jobId", id_val id)] | None => [] end))).

(** ** Restore points *)

Definition listBackups (sourceKind : option SourceKind) (sourceId targetId : option ID) :=
  get_q (u "/api/backups")
    [(u "sourceKind", opt_val (λ k, VStr (kind_word k)) sourceKind);
     (u "sourceId", opt_val id_val sourceId); (u "targetId", opt_val id_val targetId)].
Definition verifyBackup (id : ID) := by_id POST (u "/api/backups/") id (u "/verify") None None.
Definition deleteBackup (id : ID) := by_id DELETE (u "/api/backups/") id [] None None.
Definition browseBackup (id : ID) (path search : option jsstr) (limit : option Z) :=
  by_id GET (u "/api/backups/") id (u "/files") None
    (Some [(u "path", opt_val VStr path); (u "search", opt_val VStr search); (u "limit", opt_val Z_val limit)]).

(** A URL for the browser rather than a request. *)
Definition backupFileURL (id : ID) (path : jsstr) : option jsstr :=
  s ← encodeURIComponent (id_text id);
  p ← encodeURIComponent path;
  Some (cat [u "/api/backups/"; s; u "/files/download"; u "?path="; p]).

Inductive RestoreMode := Alongside | Overwrite.

#[export] Instance RestoreMode_eq_dec : EqDecision RestoreMode.
Proof. solve_decision. Defined.

Record RestoreVMTarget := mkVMTarget { rv_hostId : ID; rv_node : jsstr; rv_vmid : num; rv_storage : option jsstr }.
Record RestoreAgentTarget := mkAgentTarget { ra_agentId : ID; ra_destPath : jsstr }.
Record RestoreRequest := mkRestore {
  rr_backupId : ID; rr_mode : RestoreMode; rr_vm : option RestoreVMTarget;
  rr_agent : option RestoreAgentTarget; rr_confirmName : option jsstr }.

Definition restore_val (r : RestoreRequest) : jsval :=
  VObj [(u "backupId", id_val (rr_backupId r));
        (u "mode", VStr (match rr_mode r with Alongside => u "alongside" | Overwrite => u "overwrite" end));
        (u "vm", opt_val (λ v, VObj [(u "hostId", id_val (rv_hostId v)); (u "node", VStr (rv_node v));
                                     (u "vmid", VNum (rv_vmid v)); (u "storage", opt_val VStr (rv_storage v))]) (rr_vm r));
        (u "agent", opt_val (λ a, VObj [(u "agentId", id_val (ra_agentId a)); (u "destPath", VStr (ra_destPath a))]) (rr_agent r));
        (u "confirmName", opt_val VStr (rr_confirmName r))].

Definition createRestore (input : RestoreRequest) := send_ POST (u "/api/restores") (Some (restore_val input)).

(** ** Agents and helpers *)

Definition listAgents := get_ (u "/api/agents").
Definition createEnrollToken := send_ POST (u "/api/agents/enroll-token") None.
Definition deleteAgent (id : ID) := by_id DELETE (u "/api/agents/") id [] None None.

Record HelperDeployRequest := mkDeploy {
  hd_hostId : ID; hd_node : jsstr; hd_address : jsstr; hd_port : option num; hd_username : jsstr;
  hd_password : jsstr; hd_serverUrl : jsstr; hd_helperPort : option num; hd_hostKeyFingerprint : option jsstr }.

Definition deploy_val (d : HelperDeployRequest) : jsval :=
  VObj [(u "hostId", id_val (hd_hostId d)); (u "node", VStr (hd_node d)); (u "address", VStr (hd_address d));
        (u "port", opt_val VNum (hd_port d)); (u "username", VStr (hd_username d)); (u "password", VStr (hd_password d));
        (u "serverUrl", VStr (hd_serverUrl d)); (u "helperPort", opt_val VNum (hd_helperPort d));
        (u "hostKeyFingerprint", opt_val VStr (hd_hostKeyFingerprint d))].

Definition deployFingerprintOf (err : Thrown) : option jsstr :=
  match isApiError err with
  | Some e =>
      if negb (err_status e =? 409) then None
      else match get (err_body e) "fingerprint" with
           | VStr s => if str_eqb s [] then None else Some s
           | _ => None
           end
  | None => None
  end.

Definition deployHelper (req : HelperDeployRequest) := send_ POST (u "/api/helpers/deploy") (Some (deploy_val req)).
Definition listHelpers := get_ (u "/api/helpers").
Definition createHelperEnrollToken (hostId : ID) :=
  send_ POST (u "/api/helpers/enroll-token") (Some (VObj [(u "hostId", id_val hostId)])).
Definition assignHelper (id hostId : ID) :=
  by_id POST (u "/api/helpers/") id (u "/assign") (Some (VObj [(u "hostId", id_val hostId)])) None.
Definition deleteHelper (id : ID) := by_id DELETE (u "/api/helpers/") id [] None None.

(** [hostId] as the server sent it. *)
Definition isHelperUnassigned (status hostId : jsval) : bool :=
  is_str status "unassigned" || is_nullish hostId || str_eqb (to_str hostId) [].

(** ** Settings *)

Definition getSettings := get_ (u "/api/settings").
(** Everything but [timezone] is written back. *)
Definition putSettings (input : fields) :=
  send_ PUT (u "/api/settings") (Some (VObj (List.filter (λ kv, negb (str_eqb kv.1 (u "timezone"))) input))).
Definition testWebhook := send_ POST (u "/api/settings/test-webhook") None.

Definition AGENT_DOWNLOADS : jsstr * jsstr :=
  (u "/downloads/proxback-agent-linux-amd64", u "/downloads/proxback-agent-windows-amd64.exe").
Definition HELPER_DOWNLOAD : jsstr := u "/downloads/proxback-helper-linux-amd64".

(** ** Properties *)

(** The operations on one resource. *)
Inductive Operation :=
  | OpPatchUser | OpDeleteUser | OpTestHost | OpDeleteHost | OpHostVMs | OpFreeVMID
  | OpTestTarget | OpDeleteTarget | OpPatchJob | OpDeleteJob | OpRunJob | OpRetentionPreview
  | OpGetRun | OpCancelRun | OpRetryRun | OpRunLog | OpDeleteRun
  | OpVerifyBackup | OpDeleteBackup | OpBrowseBackup | OpDeleteAgent | OpAssignHelper | OpDeleteHelper.

(** The requests an operation on [id] can send. *)
Definition op_request (op : Operation) (id : ID) (r : Request) : Prop :=
  match op with
  | OpPatchUser => ∃ input, patchUser id input = Some r
  | OpDeleteUser => deleteUser id = Some r
  | OpTestHost => testHost id = Some r
  | OpDeleteHost => deleteHost id = Some r
  | OpHostVMs => getHostVMs id = Some r
  | OpFreeVMID => getFreeVMID id = Some r
  | OpTestTarget => testTarget id = Some r
  | OpDeleteTarget => deleteTarget id = Some r
  | OpPatchJob => ∃ input, patchJob id input = Some r
  | OpDeleteJob => deleteJob id = Some r
  | OpRunJob => runJob id = Some r
  | OpRetentionPreview => ∃ candidate, getRetentionPreview id candidate = Some r
  | OpGetRun => getRun id = Some r
  | OpCancelRun => cancelRun id = Some r
  | OpRetryRun => retryRun id = Some r
  | OpRunLog => getRunLog id = Some r
  | OpDeleteRun => deleteRun id = Some r
  | OpVerifyBackup => verifyBackup id = Some r
  | OpDeleteBackup => deleteBackup id = Some r
  | OpBrowseBackup => ∃ path search limit, browseBackup id path search limit = Some r
  | OpDeleteAgent => deleteAgent id = Some r
  | OpAssignHelper => ∃ hostId, assignHelper id hostId = Some r
  | OpDeleteHelper => deleteHelper id = Some r
  end.

(** Method, collection and sub-resource of an operation. *)
Definition op_shape (op : Operation) : Method * jsstr * option jsstr :=
  match op with
  | OpPatchUser => (PATCH, u "users", None) | OpDeleteUser => (DELETE, u "users", None)
  | OpTestHost => (POST, u "hosts", Some (u "test")) | OpDeleteHost => (DELETE, u "hosts", None)
  | OpHostVMs => (GET, u "hosts", Some (u "vms")) | OpFreeVMID => (GET, u "hosts", Some (u "free-vmid"))
  | OpTestTarget => (POST, u "targets", Some (u "test")) | OpDeleteTarget => (DELETE, u "targets", None)
  | OpPatchJob => (PATCH, u "jobs", None) | OpDeleteJob => (DELETE, u "jobs", None)
  | OpRunJob => (POST, u "jobs", Some (u "run"))
  | OpRetentionPreview => (GET, u "jobs", Some (u "retention-preview"))
  | OpGetRun => (GET, u "runs", None) | OpCancelRun => (POST, u "runs", Some (u "cancel"))
  | OpRetryRun => (POST, u "runs", Some (u "retry")) | OpRunLog => (GET, u "runs", Some (u "log"))
  | OpDeleteRun => (DELETE, u "runs", None)
  | OpVerifyBackup => (POST, u "backups", Some (u "verify")) | OpDeleteBackup => (DELETE, u "backups", None)
  | OpBrowseBackup => (GET, u "backups", Some (u "files")) | OpDeleteAgent => (DELETE, u "agents", None)
  | OpAssignHelper => (POST, u "helpers", Some (u "assign")) | OpDeleteHelper => (DELETE, u "helpers", None)
  end.

Definition shape_path (collection s : jsstr) (sub : option jsstr) : jsstr :=
  u "/api/" ++ collection ++ [47%N] ++ s ++ match sub with Some x => [47%N] ++ x | None => [] end.

Lemma by_id_path method prefix id suffix body query r :
  by_id method prefix id suffix body query = Some r →
  ∃ s, encodeURIComponent (id_text id) = Some s ∧ rq_method r = method ∧ rq_path r = prefix ++ s ++ suffix.
Proof.
  unfold by_id. intros H. apply fmap_Some in H as (s & Hs & ->). exists s. split_and!; [done..|].
  cbn [rq_path]. unfold cat. cbn [concat]. by rewrite app_nil_r.
Qed.

Lemma op_request_shape op id r : op_request op id r →
  ∃ s, encodeURIComponent (id_text id) = Some s
    ∧ rq_method r = (op_shape op).1.1 ∧ rq_path r = shape_path (op_shape op).1.2 s (op_shape op).2.
Proof.
  destruct op; cbn [op_request]; intros H;
    repeat match type of H with ex _ => destruct H as [? H] end;
    apply by_id_path in H as (s & Hs & Hm & Hp); exists s; rewrite Hm, Hp; split_and!; done.
Qed.

Lemma segment_no_slash s : forallb segment_char s = true → 47%N ∉ s.
Proof. intros H Hin. rewrite forallb_forall in H. apply list_elem_of_In in Hin. by specialize (H _ Hin). Qed.

Lemma shape_path_split op s : forallb segment_char s = true →
  split_on 47 (shape_path (op_shape op).1.2 s (op_shape op).2)
  = [[]; u "api"; (op_shape op).1.2; s] ++ match (op_shape op).2 with Some x => [x] | None => [] end.
Proof.
  intros Hs%segment_no_slash. unfold shape_path.
  assert (Hc : (47%N ∉ (op_shape op).1.2) ∧ match (op_shape op).2 with Some x => 47%N ∉ x | None => True end).
  { assert (Hb : ∀ l, negb (existsb (N.eqb 47) l) = true → 47%N ∉ l).
    { intros l Hl Hin. apply negb_true_iff in Hl. apply list_elem_of_In in Hin.
      assert (existsb (N.eqb 47) l = true) by (apply existsb_exists; by exists 47%N). congruence. }
    destruct op; cbn [op_shape fst snd]; split; try done; apply Hb; vm_compute; reflexivity. }
  destruct Hc as [Hc Hx].
  set (rest := match (op_shape op).2 with Some x => [47%N] ++ x | None => [] end).
  change (split_on 47 ([] ++ 47%N :: (u "api" ++ 47%N :: ((op_shape op).1.2 ++ 47%N :: (s ++ rest))))
    = [[]; u "api"; (op_shape op).1.2; s] ++ match (op_shape op).2 with Some x => [x] | None => [] end).
  rewrite split_on_cons by apply not_elem_of_nil.
  rewrite split_on_cons by (vm_compute; set_solver). rewrite split_on_cons by done.
  unfold rest. destruct (op_shape op).2 as [x|]; cbn [app].
  - rewrite split_on_cons by done. by rewrite split_on_single.
  - rewrite app_nil_r. by rewrite split_on_single.
Qed.

(** The method and path of a request on one resource determine both the
    operation and the id: whatever characters the ids contain, no two operations
    and no two resources are ever sent as the same request line.  (A URL parser
    further resolves the segments [.] and [..], which no server id is.) *)
Theorem endpoints_distinct op1 op2 id1 id2 r1 r2 :
  units_ok (id_text id1) → units_ok (id_text id2) →
  op_request op1 id1 r1 → op_request op2 id2 r2 →
  rq_method r1 = rq_method r2 → rq_path r1 = rq_path r2 →
  op1 = op2 ∧ id_text id1 = id_text id2.
Proof.
  intros Hu1 Hu2 H1 H2 Hm Hp.
  apply op_request_shape in H1 as (s1 & E1 & M1 & P1). apply op_request_shape in H2 as (s2 & E2 & M2 & P2).
  pose proof (encodeURIComponent_chars _ _ Hu1 E1) as C1. pose proof (encodeURIComponent_chars _ _ Hu2 E2) as C2.
  rewrite P1, P2 in Hp. apply (f_equal (split_on 47)) in Hp. rewrite !shape_path_split in Hp by done.
  cbn [app] in Hp. injection Hp as Hcoll Hs Hsub. subst s2.
  split; [|by eapply encodeURIComponent_inj].
  rewrite M1, M2 in Hm. clear - Hm Hcoll Hsub.
  assert (E : op_shape op1 = op_shape op2).
  { destruct (op_shape op1) as [[m1 c1] x1], (op_shape op2) as [[m2 c2] x2]. cbn in *. subst.
    by destruct x1, x2; simplify_eq. }
  assert (Hdec : op_shape op1 = op_shape op2 → op1 = op2); [|auto]. clear.
  assert (Hne : ∀ a b : Method * jsstr * option jsstr, bool_decide (a = b) = false → a ≠ b)
    by (intros a b H; by apply bool_decide_eq_false in H).
  destruct op1; destruct op2; try (intros _; reflexivity); intros H; exfalso; revert H;
    apply Hne; vm_compute; reflexivity.
Qed.

