(* ===== verification/Accounts.v ===== *)
(** * The server's accounts (internal/store/users.go, internal/api/handlers_users.go)

    The users table, the functions of the store that read and change it, and the
    handlers of the user endpoints.  A function that queries the database is a
    program over SQL statements, so that statements can fail and the statements
    of two requests can interleave; [sql] is what the text of each statement
    says.  Password hashing is a parameter. *)
From S2P Require Import Prelude JsString GoString.

(** ** Roles (store/users.go) *)

Abbreviation GoRole := bytes.

Definition RoleAdmin : GoRole := u "admin".
Definition RoleOperator : GoRole := u "operator".
Definition RoleViewer : GoRole := u "viewer".

Definition rank (r : GoRole) : Z :=
  if str_eqb r RoleAdmin then 3
  else if str_eqb r RoleOperator then 2
  else if str_eqb r RoleViewer then 1
  else 0.

Definition Valid (r : GoRole) : bool := 0 <? rank r.
Definition AtLeast (r other : GoRole) : bool := Valid r && Valid other && (rank other <=? rank r).
Definition ParseRole (v : bytes) : option GoRole := if Valid v then Some v else None.

(** ** Tables *)

Record User := mkUser {
  us_id : Z;
  us_name : bytes;
  us_role : GoRole;
  us_hash : bytes;
  us_created : Z;
  us_login : option Z;
}.

Record Session := mkSession { se_token : bytes; se_user : Z; se_created : Z; se_expires : Z }.

Record AuditRow := mkRow {
  au_id : Z;
  au_at : Z;
  au_actor : bytes;
  au_actorId : Z;
  au_action : bytes;
  au_kind : bytes;
  au_objectId : bytes;
  au_objectName : bytes;
  au_result : bytes;
  au_ip : bytes;
  au_detail : bytes;
}.

(** [t_next] and [t_nextAudit] are the ids AUTOINCREMENT gives next. *)
Record Tables := mkTables {
  t_users : list User;
  t_next : Z;
  t_sessions : list Session;
  t_audit : list AuditRow;
  t_nextAudit : Z;
}.

Definition with_role (role : GoRole) (x : User) : User :=
  mkUser (us_id x) (us_name x) role (us_hash x) (us_created x) (us_login x).
Definition with_hash (hash : bytes) (x : User) : User :=
  mkUser (us_id x) (us_name x) (us_role x) hash (us_created x) (us_login x).
Definition with_login (now : Z) (x : User) : User :=
  mkUser (us_id x) (us_name x) (us_role x) (us_hash x) (us_created x) (Some now).
Definition has_name (name : bytes) (x : User) : bool := str_eqb (us_name x) name.
Definition has_id (id : Z) (x : User) : bool := us_id x =? id.
Definition is_admin (x : User) : bool := str_eqb (us_role x) RoleAdmin.

(** ** Statements

    The result is what the code reads: a row, a count, the rows affected, the id
    inserted, [None] when the UNIQUE constraint on the name refuses, or whether a
    session was inserted, its token being the key. *)
Inductive Change :=
  | UpdateRole (role : GoRole) (id : Z)
  | UpdateHash (hash : bytes) (id : Z)
  | DeleteUserRow (id : Z).

Inductive Stmt :=
  | SelectUser (id : Z)
  | SelectUserNamed (name : bytes)
  | SelectCountUsers
  | SelectCountAdmins
  | InsertUser (name hash : bytes) (role : GoRole) (now : Z)
  | Apply (c : Change)
  | TouchLogin (now id : Z)
  | InsertSession (e : Session)
  | DeleteSessions (user : Z)
  | DeleteSessionsBut (user : Z) (token : bytes)
  | InsertAudit (row : AuditRow)
  | TrimAudit (cutoff : Z).

Definition result (s : Stmt) : Type :=
  match s with
  | SelectUser _ | SelectUserNamed _ => option User
  | SelectCountAdmins | SelectCountUsers | Apply _ | InsertAudit _ => Z
  | InsertUser _ _ _ _ => option Z
  | InsertSession _ => bool
  | TouchLogin _ _ | DeleteSessions _ | DeleteSessionsBut _ _ | TrimAudit _ => unit
  end.

Definition with_users (l : list User) (db : Tables) : Tables :=
  mkTables l (t_next db) (t_sessions db) (t_audit db) (t_nextAudit db).
Definition with_sessions (l : list Session) (db : Tables) : Tables :=
  mkTables (t_users db) (t_next db) l (t_audit db) (t_nextAudit db).

Definition affected (id : Z) (db : Tables) : Z := Z.of_nat (length (List.filter (has_id id) (t_users db))).

Definition stamp (id : Z) (r : AuditRow) : AuditRow :=
  mkRow id (au_at r) (au_actor r) (au_actorId r) (au_action r) (au_kind r) (au_objectId r) (au_objectName r)
    (au_result r) (au_ip r) (au_detail r).

Definition change (c : Change) (l : list User) : list User :=
  match c with
  | UpdateRole role id => map (λ x, if has_id id x then with_role role x else x) l
  | UpdateHash hash id => map (λ x, if has_id id x then with_hash hash x else x) l
  | DeleteUserRow id => List.filter (λ x, negb (has_id id x)) l
  end.

Definition change_key (c : Change) : Z :=
  match c with UpdateRole _ id | UpdateHash _ id | DeleteUserRow id => id end.

Definition sql (s : Stmt) (db : Tables) : result s * Tables :=
  match s return result s * Tables with
  | SelectUser id => (List.find (has_id id) (t_users db), db)
  | SelectUserNamed name => (List.find (has_name name) (t_users db), db)
  | SelectCountUsers => (Z.of_nat (length (t_users db)), db)
  | SelectCountAdmins => (Z.of_nat (length (List.filter is_admin (t_users db))), db)
  | InsertUser name hash role now =>
      if existsb (λ x, str_eqb (us_name x) name) (t_users db) then (None, db)
      else (Some (t_next db),
            mkTables (t_users db ++ [mkUser (t_next db) name role hash now None]) (t_next db + 1)
              (t_sessions db) (t_audit db) (t_nextAudit db))
  | Apply c => (affected (change_key c) db, with_users (change c (t_users db)) db)
  | TouchLogin now id => (tt, with_users (map (λ x, if has_id id x then with_login now x else x) (t_users db)) db)
  | InsertSession e =>
      if existsb (λ o, str_eqb (se_token o) (se_token e)) (t_sessions db) then (false, db)
      else (true, with_sessions (t_sessions db ++ [e]) db)
  | DeleteSessions user => (tt, with_sessions (List.filter (λ e, negb (se_user e =? user)) (t_sessions db)) db)
  | DeleteSessionsBut user token =>
      (tt, with_sessions (List.filter (λ e, negb ((se_user e =? user) && negb (str_eqb (se_token e) token)))
                            (t_sessions db)) db)
  | InsertAudit row =>
      (t_nextAudit db, mkTables (t_users db) (t_next db) (t_sessions db)
                         (t_audit db ++ [stamp (t_nextAudit db) row]) (t_nextAudit db + 1))
  | TrimAudit cutoff =>
      (tt, mkTables (t_users db) (t_next db) (t_sessions db)
             (List.filter (λ r, negb (au_id r <=? cutoff)) (t_audit db)) (t_nextAudit db))
  end.

(** ** Programs

    [Query s k] runs a statement and continues with its result, [None] when the
    database reports an error. *)
Inductive Prog (A : Type) : Type :=
  | Return (a : A)
  | Query (s : Stmt) (k : option (result s) → Prog A).
Arguments Return {A} a.
Arguments Query {A} s k.

Fixpoint bind {A B} (p : Prog A) (f : A → Prog B) : Prog B :=
  match p with
  | Return a => f a
  | Query s k => Query s (λ r, bind (k r) f)
  end.

(** One statement; [fails] tells whether the database refuses it. *)
Definition advance {A} (fails : bool) (p : Prog A) (db : Tables) : Prog A * Tables :=
  match p with
  | Return a => (Return a, db)
  | Query s k => if fails then (k None, db) else (k (Some (sql s db).1), (sql s db).2)
  end.

(** A request by itself; [errors] says which statements fail. *)
Fixpoint run {A} (errors : list bool) (p : Prog A) (db : Tables) : A * Tables :=
  match p with
  | Return a => (a, db)
  | Query s k =>
      if match errors with e :: _ => e | [] => false end then run (tail errors) (k None) db
      else run (tail errors) (k (Some (sql s db).1)) (sql s db).2
  end.

(** ** The store *)

Inductive StoreError := ErrNotFound | ErrLastAdmin | ErrDuplicateUser | ErrOther.

#[export] Instance StoreError_eq_dec : EqDecision StoreError.
Proof. solve_decision. Defined.

(** A query that finds the row it needs, or its error. *)
Definition UserByID (id : Z) : Prog (User + StoreError) :=
  Query (SelectUser id) (λ r, Return
    (match r with
     | None => inr ErrOther
     | Some None => inr ErrNotFound
     | Some (Some x) => inl x
     end)).

Definition CountAdmins : Prog (Z + StoreError) :=
  Query SelectCountAdmins (λ r, Return (match r with None => inr ErrOther | Some n => inl n end)).

(** A statement that must affect a row. *)
Definition must_affect (c : Change) : Prog (option StoreError) :=
  Query (Apply c) (λ r, Return (match r with
                        | None => Some ErrOther
                        | Some n => if n =? 0 then Some ErrNotFound else None
                        end)).

(** The check both refusals share. *)
Definition guard_last_admin (x : User) (k : Prog (option StoreError)) : Prog (option StoreError) :=
  if str_eqb (us_role x) RoleAdmin then
    bind CountAdmins (λ admins, match admins with
      | inr e => Return (Some e)
      | inl n => if n <=? 1 then Return (Some ErrLastAdmin) else k
      end)
  else k.

Definition UpdateUserRole (id : Z) (role : GoRole) : Prog (option StoreError) :=
  if negb (Valid role) then Return (Some ErrOther) else
  bind (UserByID id) (λ found, match found with
    | inr e => Return (Some e)
    | inl x =>
        if str_eqb (us_role x) role then Return None
        else guard_last_admin x (must_affect (UpdateRole role id))
    end).

Definition DeleteUser (id : Z) : Prog (option StoreError) :=
  bind (UserByID id) (λ found, match found with
    | inr e => Return (Some e)
    | inl x =>
        guard_last_admin x
          (Query (DeleteSessions id) (λ r, match r with
             | None => Return (Some ErrOther)
             | Some _ => must_affect (DeleteUserRow id)
             end))
    end).

Definition CreateUser (name hash : bytes) (role : GoRole) (now : Z) : Prog (User + StoreError) :=
  if negb (Valid role) then Return (inr ErrOther) else
  Query (InsertUser name hash role now) (λ r, Return
    (match r with
     | None => inr ErrOther
     | Some None => inr ErrDuplicateUser
     | Some (Some id) => inl (mkUser id name role hash now None)
     end)).

Definition UpdateUserPassword (id : Z) (hash : bytes) : Prog (option StoreError) := must_affect (UpdateHash hash id).

(** ** The audit trail (store/audit.go, api/handlers_audit.go) *)

Definition AuditRetention : Z := 50000.

Definition AppendAudit (row : AuditRow) : Prog unit :=
  Query (InsertAudit row) (λ r, match r with
    | None => Return tt
    | Some id => if 0 <? id - AuditRetention then Query (TrimAudit (id - AuditRetention)) (λ _, Return tt)
                 else Return tt
    end).

(** The signed-in user of a request, its session and its address. *)
Record Caller := mkCaller { ca_user : User; ca_token : bytes; ca_ip : bytes; ca_now : Z }.

(** An entry about a user; a failure to record is only logged. *)
Definition audit (c : Caller) (action result : bytes) (x : User) (detail : bytes) : Prog unit :=
  AppendAudit (mkRow 0 (ca_now c) (us_name (ca_user c)) (us_id (ca_user c)) action (u "user")
    (str_of_Z (us_id x)) (us_name x) (if str_eqb result [] then u "ok" else result) (ca_ip c) detail).

(** ** Handlers (api/handlers_users.go) *)

Inductive Reply :=
  | RError (status : Z) (message : bytes)
  | RUser (x : User)
  | ROk.

(** [strconv.ParseInt(s, 10, 64)]. *)
Definition ParseInt (s : bytes) : option Z :=
  let '(neg, ds) := match s with
                    | c :: s' => if N.eqb c 45 then (true, s') else if N.eqb c 43 then (false, s') else (false, s)
                    | [] => (false, [])
                    end in
  if negb (allDigits ds) then None else
  let n := (if neg then Z.opp else id) (Z.of_N (dec_val ds)) in
  if (n <? - 2 ^ 63) || (2 ^ 63 - 1 <? n) then None else Some n.

Definition MinPasswordLength : Z := 8.

Definition short (password : bytes) : bool := Z.of_nat (length password) <? MinPasswordLength.

Record createUserRequest := mkCreate { cr_name : bytes; cr_password : bytes; cr_role : bytes }.
Record patchUserRequest := mkPatch { pa_role : option bytes; pa_password : option bytes }.

Definition notFoundOr (e : StoreError) (text : StoreError → bytes) : Reply :=
  if decide (e = ErrNotFound) then RError 404 (u "user not found") else RError 500 (text e).

Definition quoted (s : bytes) : bytes := [34%N] ++ s ++ [34%N].
Definition role_message : bytes :=
  cat [u "role must be "; quoted RoleAdmin; u ", "; quoted RoleOperator; u " or "; quoted RoleViewer].

Section handlers.
(** [HashPassword] of package auth, and how an error other than those below reads. *)
Context (HashPassword : bytes → option bytes) (text : StoreError → bytes).

Definition CreateUserWithRole (name password : bytes) (role : GoRole) (now : Z) : Prog (User + StoreError) :=
  match HashPassword password with
  | None => Return (inr ErrOther)
  | Some hash => CreateUser name hash role now
  end.

Definition SetPassword (id : Z) (password : bytes) : Prog (option StoreError) :=
  match HashPassword password with
  | None => Return (Some ErrOther)
  | Some hash => UpdateUserPassword id hash
  end.

(** A body that does not decode comes as the decoder's message. *)
Definition handleCreateUser (c : Caller) (decoded : createUserRequest + bytes) : Prog Reply :=
  match decoded with
  | inr err => Return (RError 400 (cat [u "invalid JSON body: "; err]))
  | inl body =>
      let username := TrimSpace (cr_name body) in
      if str_eqb username [] then Return (RError 400 (u "username is required"))
      else if short (cr_password body) then Return (RError 400 (u "password must be at least 8 characters"))
      else match ParseRole (TrimSpace (cr_role body)) with
           | None => Return (RError 400 role_message)
           | Some role =>
               bind (CreateUserWithRole username (cr_password body) role (ca_now c)) (λ r, match r with
                 | inr ErrDuplicateUser => Return (RError 409 (cat [u "a user called "; username; u " already exists"]))
                 | inr e => Return (RError 500 (text e))
                 | inl x =>
                     bind (audit c (u "user.create") [] x (cat [u "role "; us_role x])) (λ _, Return (RUser x))
                 end)
           end
  end.

(** [Some] is the refusal; a role that is sent is parsed before anything changes. *)
Definition parse_patch (body : patchUserRequest) : option GoRole + Reply :=
  if is_none (pa_role body) && is_none (pa_password body)
  then inr (RError 400 (u "nothing to change: send role, password or both")) else
  let parsed := match pa_role body with
                | None => inl None
                | Some r => match ParseRole (TrimSpace r) with
                            | None => inr (RError 400 role_message)
                            | Some role => inl (Some role)
                            end
                end in
  match parsed, pa_password body with
  | inl _, Some password =>
      if short password then inr (RError 400 (u "password must be at least 8 characters")) else parsed
  | _, _ => parsed
  end.

(** The role part; [inr] is the answer to a refusal. *)
Definition patch_role (c : Caller) (x : User) (role : option GoRole) : Prog (list bytes + Reply) :=
  match role with
  | None => Return (inl [])
  | Some role =>
      if str_eqb role (us_role x) then Return (inl []) else
      bind (UpdateUserRole (us_id x) role) (λ r, match r with
        | Some ErrLastAdmin =>
            bind (audit c (u "user.modify") (u "error") x (u "refused: cannot demote the last admin")) (λ _,
              Return (inr (RError 409 (u "this is the last admin: demoting it would leave nobody able to administer ProxBack"))))
        | Some e => Return (inr (notFoundOr e text))
        | None => Return (inl [cat [u "role "; us_role x; u " to "; role]])
        end)
  end.

Definition patch_password (c : Caller) (x : User) (password : option bytes) : Prog (list bytes + Reply) :=
  match password with
  | None => Return (inl [])
  | Some password =>
      bind (SetPassword (us_id x) password) (λ r, match r with
        | Some e => Return (inr (notFoundOr e text))
        | None => Query (DeleteSessionsBut (us_id x) (ca_token c)) (λ _, Return (inl [u "password"]))
        end)
  end.

Definition handlePatchUser (c : Caller) (param : bytes) (decoded : patchUserRequest + bytes) : Prog Reply :=
  match ParseInt param with
  | None => Return (RError 404 (u "user not found"))
  | Some id =>
      bind (UserByID id) (λ found, match found with
        | inr e => Return (notFoundOr e text)
        | inl x =>
            match decoded with
            | inr err => Return (RError 400 (cat [u "invalid JSON body: "; err]))
            | inl body =>
                match parse_patch body with
                | inr reply => Return reply
                | inl role =>
                    bind (patch_role c x role) (λ r1, match r1 with
                      | inr reply => Return reply
                      | inl changed1 =>
                          bind (patch_password c x (pa_password body)) (λ r2, match r2 with
                            | inr reply => Return reply
                            | inl changed2 =>
                                bind (UserByID (us_id x)) (λ again, match again with
                                  | inr e => Return (RError 500 (text e))
                                  | inl updated =>
                                      let changed := changed1 ++ changed2 in
                                      if is_nil changed then Return (RUser updated)
                                      else bind (audit c (u "user.modify") [] updated
                                                   (cat [u "changed "; join (u ", ") changed]))
                                             (λ _, Return (RUser updated))
                                  end)
                            end)
                      end)
                end
            end
        end)
  end.

Definition handleDeleteUser (c : Caller) (param : bytes) : Prog Reply :=
  match ParseInt param with
  | None => Return (RError 404 (u "user not found"))
  | Some id =>
      bind (UserByID id) (λ found, match found with
        | inr e => Return (notFoundOr e text)
        | inl x =>
            bind (DeleteUser (us_id x)) (λ r, match r with
              | Some ErrLastAdmin =>
                  bind (audit c (u "user.delete") (u "error") x (u "refused: cannot delete the last admin")) (λ _,
                    Return (RError 409 (u "this is the last admin: deleting it would leave nobody able to administer ProxBack")))
              | Some e => Return (notFoundOr e text)
              | None =>
                  bind (audit c (u "user.delete") [] x (cat [u "role "; us_role x; u ", sessions revoked"])) (λ _, Return ROk)
              end)
        end)
  end.

(** The requests that change accounts. *)
Inductive AccountRequest :=
  | ReqCreate (decoded : createUserRequest + bytes)
  | ReqPatch (param : bytes) (decoded : patchUserRequest + bytes)
  | ReqDelete (param : bytes).

Definition serve (c : Caller) (r : AccountRequest) : Prog Reply :=
  match r with
  | ReqCreate decoded => handleCreateUser c decoded
  | ReqPatch param decoded => handlePatchUser c param decoded
  | ReqDelete param => handleDeleteUser c param
  end.

(** Requests served one after the other, with the statements that fail in each. *)
Definition serve_all (requests : list (Caller * AccountRequest * list bool)) (db : Tables) : Tables :=
  fold_left (λ db q, (run q.2 (serve q.1.1 q.1.2) db).2) requests db.

(** Two requests served at once: each choice runs one statement of the first or
    of the second. *)
Fixpoint interleave {A B} (first : list bool) (p : Prog A) (q : Prog B) (db : Tables) : Prog A * Prog B * Tables :=
  match first with
  | [] => (p, q, db)
  | b :: rest =>
      if b then let '(p', db') := advance false p db in interleave rest p' q db'
      else let '(q', db') := advance false q db in interleave rest p q' db'
  end.
End handlers.

Lemma ParseInt_str n : 0 <= n < 2 ^ 63 → ParseInt (str_of_Z n) = Some n.
Proof.
  intros H. unfold str_of_Z. rewrite (proj2 (Z.ltb_ge n 0)) by lia.
  pose proof (allDigits_digits (Z.to_N n)) as Hd. pose proof (dec_val_digits (Z.to_N n)) as Hv.
  pose proof (all_digits_digits (Z.to_N n)) as Ha.
  unfold ParseInt. destruct (digits (Z.to_N n)) as [|c s] eqn:E; [discriminate Hd|].
  assert (Hc : is_digit c = true) by (cbn in Ha; b2p; done). unfold is_digit in Hc.
  assert (N.eqb c 45 = false ∧ N.eqb c 43 = false) as [-> ->].
  { rewrite andb_true_iff, !N.leb_le in Hc. split; apply N.eqb_neq; lia. }
  rewrite Hd, Hv. cbn [negb id]. rewrite Z2N.id by lia.
  rewrite (proj2 (Z.ltb_ge _ _)), (proj2 (Z.ltb_ge _ _)) by lia. done.
Qed.

(** ** Reasoning about programs *)

(** [Q] holds of the result whichever statements fail. *)
Fixpoint wp {A} (p : Prog A) (Q : A → Tables → Prop) (db : Tables) : Prop :=
  match p with
  | Return a => Q a db
  | Query s k => wp (k None) Q db ∧ wp (k (Some (sql s db).1)) Q (sql s db).2
  end.

Lemma wp_run {A} (p : Prog A) Q db errors : wp p Q db → Q (run errors p db).1 (run errors p db).2.
Proof.
  revert db errors. induction p as [a|s k IH]; intros db errors H; [exact H|]. destruct H as [H1 H2].
  cbn [run]. destruct errors as [|[] errors]; by apply IH.
Qed.

Lemma wp_bind {A B} (p : Prog A) (f : A → Prog B) Q db :
  wp p (λ a db', wp (f a) Q db') db → wp (bind p f) Q db.
Proof.
  revert db. induction p as [a|s k IH]; intros db H; [exact H|]. destruct H as [H1 H2].
  cbn [bind wp]. split; by apply IH.
Qed.

Lemma wp_mono {A} (p : Prog A) (Q1 Q2 : A → Tables → Prop) db :
  wp p Q1 db → (∀ a db', Q1 a db' → Q2 a db') → wp p Q2 db.
Proof.
  intros H HQ. revert db H. induction p as [a|s k IH]; intros db H; [by apply HQ|]. destruct H as [H1 H2].
  split; by apply IH.
Qed.

(** ** The invariant *)

Definition admins (l : list User) : nat := length (List.filter is_admin l).

Definition accounts_ok (db : Tables) : Prop :=
  NoDup (map us_id (t_users db))
  ∧ Forall (λ x, us_id x < t_next db) (t_users db)
  ∧ NoDup (map us_name (t_users db))
  ∧ Forall (λ x, Valid (us_role x) = true) (t_users db)
  ∧ Forall (λ e, se_user e ∈ map us_id (t_users db)) (t_sessions db)
  ∧ (1 <= admins (t_users db))%nat.

(** The row a key selects, and the rows around it. *)
Lemma find_split l id x : NoDup (map us_id l) → List.find (has_id id) l = Some x →
  ∃ l1 l2, l = l1 ++ x :: l2 ∧ us_id x = id ∧ Forall (λ y, has_id id y = false) (l1 ++ l2).
Proof.
  induction l as [|y l IH]; intros Hn H; [discriminate|]. cbn [map] in Hn. apply NoDup_cons in Hn as [Hy Hn].
  cbn [List.find] in H. destruct (has_id id y) eqn:E.
  - injection H as <-. exists [], l. unfold has_id in E. b2p. split_and!; [done..|]. cbn [app].
    apply Forall_forall. intros z Hz. unfold has_id. apply Z.eqb_neq. intros Hid. apply Hy.
    rewrite E, <- Hid. by apply list_elem_of_fmap_2.
  - destruct (IH Hn H) as (l1 & l2 & -> & Hid & Hf). exists (y :: l1), l2. split_and!; [done..|].
    cbn [app]. by constructor.
Qed.

Lemma map_others {f : User → User} l id : Forall (λ y, has_id id y = false) l →
  map (λ y, if has_id id y then f y else y) l = l.
Proof. induction 1 as [|y l Hy _ IH]; cbn [map]; [done|]. by rewrite Hy, IH. Qed.

Lemma filter_others l id : Forall (λ y, has_id id y = false) l → List.filter (λ y, negb (has_id id y)) l = l.
Proof. induction 1 as [|y l Hy _ IH]; cbn [List.filter]; [done|]. by rewrite Hy, IH. Qed.

Lemma admins_app l1 l2 : admins (l1 ++ l2) = (admins l1 + admins l2)%nat.
Proof. unfold admins. by rewrite List.filter_app, length_app. Qed.

Lemma admins_cons x l : admins (x :: l) = ((if is_admin x then 1 else 0) + admins l)%nat.
Proof. unfold admins. cbn [List.filter]. by destruct (is_admin x). Qed.

(** Changing one column of one row. *)
Lemma update_split (f : User → User) l1 l2 x id : us_id x = id → Forall (λ y, has_id id y = false) (l1 ++ l2) →
  map (λ y, if has_id id y then f y else y) (l1 ++ x :: l2) = l1 ++ f x :: l2.
Proof.
  intros Hx Hf. apply Forall_app in Hf as [H1 H2]. rewrite map_app. cbn [map]. rewrite !map_others by done.
  unfold has_id at 1. by rewrite Hx, Z.eqb_refl.
Qed.

Lemma delete_split l1 l2 x id : us_id x = id → Forall (λ y, has_id id y = false) (l1 ++ l2) →
  List.filter (λ y, negb (has_id id y)) (l1 ++ x :: l2) = l1 ++ l2.
Proof.
  intros Hx Hf. apply Forall_app in Hf as [H1 H2]. rewrite List.filter_app. cbn [List.filter].
  unfold has_id at 2. rewrite Hx, Z.eqb_refl. cbn [negb]. by rewrite !filter_others.
Qed.

Lemma updated_ok (f : User → User) l1 l2 x db :
  t_users db = l1 ++ x :: l2 → us_id (f x) = us_id x → us_name (f x) = us_name x → Valid (us_role (f x)) = true →
  accounts_ok db → (1 <= admins (l1 ++ f x :: l2))%nat → accounts_ok (with_users (l1 ++ f x :: l2) db).
Proof.
  intros E Hid Hname Hrole (H1 & H2 & H3 & H4 & H5 & _) H6. unfold accounts_ok in *.
  cbn [with_users t_users t_next t_sessions]. rewrite E in *.
  rewrite !map_app in *. cbn [map] in *. rewrite Hid, Hname.
  apply Forall_app in H2 as [H2a H2b], H4 as [H4a H4b]. apply Forall_cons in H2b as [? ?], H4b as [? ?].
  split_and!; try done; apply Forall_app; split; try done; constructor; try done. by rewrite Hid.
Qed.

Lemma deleted_ok l1 l2 x db :
  t_users db = l1 ++ x :: l2 → accounts_ok db → (1 <= admins (l1 ++ l2))%nat →
  Forall (λ e, (se_user e =? us_id x) = false) (t_sessions db) → accounts_ok (with_users (l1 ++ l2) db).
Proof.
  intros E (H1 & H2 & H3 & H4 & H5 & _) H6 Hs. unfold accounts_ok in *.
  cbn [with_users t_users t_next t_sessions]. rewrite E in *.
  rewrite !map_app in *. cbn [map] in *.
  apply Forall_app in H2 as [H2a H2b], H4 as [H4a H4b]. apply Forall_cons in H2b as [? ?], H4b as [? ?].
  rewrite <- !Permutation_middle in H1, H3. apply NoDup_cons in H1 as [? ?], H3 as [? ?].
  split_and!; try done; try (by apply Forall_app).
  rewrite Forall_forall in *. intros e He. specialize (H5 e He). specialize (Hs e He). cbn in Hs. b2p.
  rewrite elem_of_app, elem_of_cons in H5. rewrite elem_of_app. naive_solver.
Qed.

(** ** The operations keep the invariant *)

Definition keeps {A} (P : Tables → Prop) (p : Prog A) : Prop := ∀ db, P db → wp p (λ _, P) db.

Lemma keeps_bind {A B} P (p : Prog A) (f : A → Prog B) : keeps P p → (∀ a, keeps P (f a)) → keeps P (bind p f).
Proof. intros Hp Hf db H. apply wp_bind. eapply wp_mono; [by apply Hp|]. intros a db' H'. by apply Hf. Qed.

Lemma keeps_return {A} P (a : A) : keeps P (Return a).
Proof. by intros db. Qed.

Lemma audit_keeps c action result x detail : keeps accounts_ok (audit c action result x detail).
Proof.
  intros db H. split; [exact H|]. cbn [sql fst snd]. destruct (0 <? t_nextAudit db - AuditRetention); [split|]; exact H.
Qed.

Lemma UserByID_spec id db : wp (UserByID id) (λ r db',
  db' = db ∧ match r with inl x => List.find (has_id id) (t_users db) = Some x | inr _ => True end) db.
Proof. split; [done|]. cbn [sql fst snd wp]. by destruct (List.find (has_id id) (t_users db)). Qed.

(** Past the check, an administrator is not the only one. *)
Lemma guard_spec x k Q db :
  (∀ e, Q (Some e) db) → ((us_role x = RoleAdmin → (1 < admins (t_users db))%nat) → wp k Q db) →
  wp (guard_last_admin x k) Q db.
Proof.
  intros He Hk. unfold guard_last_admin. unfold str_eqb. case_bool_decide as E; [|by apply Hk].
  split; [apply He|]. cbn [bind sql fst snd wp CountAdmins]. case_on_goal; [apply He|].
  apply Hk. intros _. b2p. unfold admins. lia.
Qed.

Lemma must_affect_spec c Q db :
  (∀ r, Q r db) → (∀ r, Q r (with_users (change c (t_users db)) db)) → wp (must_affect c) Q db.
Proof. intros H1 H2. split; [apply H1|]. case_on_goal; apply H2. Qed.

Ltac found H :=
  match goal with
  | Hok : accounts_ok ?db |- _ =>
      pose proof Hok as [Hnd _];
      destruct (find_split _ _ _ Hnd H) as (l1 & l2 & El & Hid & Hothers)
  end.

Lemma UpdateUserRole_keeps id role : keeps accounts_ok (UpdateUserRole id role).
Proof.
  intros db Hok. unfold UpdateUserRole. destruct (Valid role) eqn:Hv; [|done]. cbn [negb].
  apply wp_bind. eapply wp_mono; [apply UserByID_spec|]. intros [x|e] db' [-> Hx]; [|done].
  case_on_goal; [done|]. apply guard_spec; [done|]. intros Hadm. apply must_affect_spec; [done|]. intros _.
  found Hx. cbn [change]. rewrite El. rewrite update_split by done. eapply updated_ok; try done.
  rewrite El in Hadm. destruct Hok as (_ & _ & _ & _ & _ & Hone). rewrite El in Hone.
  rewrite !admins_app, !admins_cons in *. unfold is_admin in *. cbn [with_role us_role].
  destruct (str_eqb (us_role x) RoleAdmin) eqn:Ex; [|destruct (str_eqb role RoleAdmin); lia].
  unfold str_eqb in Ex. b2p. specialize (Hadm Ex). destruct (str_eqb role RoleAdmin); lia.
Qed.

Lemma UpdateUserPassword_keeps id hash : keeps accounts_ok (UpdateUserPassword id hash).
Proof.
  intros db Hok. apply must_affect_spec; [done|]. intros _. cbn [change].
  destruct (List.find (has_id id) (t_users db)) as [x|] eqn:Hx.
  - found Hx. rewrite El, update_split by done. eapply updated_ok; try done.
    + destruct Hok as (_ & _ & _ & Hr & _). rewrite El in Hr. apply Forall_app in Hr as [_ Hr].
      by apply Forall_cons in Hr as [? _].
    + destruct Hok as (_ & _ & _ & _ & _ & Hone). rewrite El in Hone.
      rewrite !admins_app, !admins_cons in *. exact Hone.
  - rewrite map_others; [by destruct db|]. apply Forall_forall. intros y Hy.
    by apply (List.find_none _ _ Hx), list_elem_of_In.
Qed.

Lemma DeleteSessions_keeps db (f : Session → bool) :
  accounts_ok db → accounts_ok (with_sessions (List.filter f (t_sessions db)) db).
Proof.
  intros (? & ? & ? & ? & Hs & ?). unfold accounts_ok. cbn [with_sessions t_users t_next t_sessions].
  split_and!; try done. rewrite Forall_forall in *. intros e He. apply Hs.
  apply list_elem_of_In in He. apply List.filter_In in He as [He _]. by apply list_elem_of_In.
Qed.

Lemma DeleteUser_keeps id : keeps accounts_ok (DeleteUser id).
Proof.
  intros db Hok. apply wp_bind. eapply wp_mono; [apply UserByID_spec|]. intros [x|e] db' [-> Hx]; [|done].
  apply guard_spec; [done|]. intros Hadm. split; [done|]. cbn [sql fst snd].
  pose proof (DeleteSessions_keeps db (λ e, negb (se_user e =? id)) Hok) as Hok'.
  apply must_affect_spec; [done|]. intros _. cbn [change].
  found Hx. cbn [with_sessions t_users] in El |- *. rewrite El, delete_split by done.
  eapply deleted_ok; try done.
  - rewrite El in Hadm. destruct Hok as (_ & _ & _ & _ & _ & Hone). rewrite El in Hone.
    rewrite !admins_app in *. rewrite admins_cons in Hone, Hadm. unfold is_admin in Hone, Hadm.
    destruct (str_eqb (us_role x) RoleAdmin) eqn:Ex; [|lia]. unfold str_eqb in Ex. b2p. specialize (Hadm Ex). lia.
  - rewrite Hid. cbn [t_sessions]. apply Forall_forall. intros e He. apply list_elem_of_In in He.
    apply List.filter_In in He as [_ He]. b2p. by apply Z.eqb_neq.
Qed.

Lemma CreateUser_keeps name hash role now : keeps accounts_ok (CreateUser name hash role now).
Proof.
  intros db Hok. unfold CreateUser. destruct (Valid role) eqn:Hv; [|done]. cbn [negb]. split; [done|].
  cbn [sql]. case_on_goal; [done|]. destruct Hok as (H1 & H2 & H3 & H4 & H5 & H6). unfold accounts_ok.
  cbn [fst snd wp t_users t_next t_sessions]. rewrite !map_app, admins_app. cbn [map].
  rewrite !(Permutation_app_comm _ [_]). cbn [app].
  split_and!.
  - constructor; [|done]. rewrite Forall_forall in H2. intros (y & Hy & Hin)%list_elem_of_fmap.
    specialize (H2 y Hin). cbn in *. lia.
  - constructor; [cbn; lia|]. eapply Forall_impl; [exact H2|]. cbn. lia.
  - constructor; [|done]. intros (y & Hy & Hin)%list_elem_of_fmap. apply list_elem_of_In in Hin.
    assert (existsb (λ x, str_eqb (us_name x) name) (t_users db) = true) by
      (apply existsb_exists; exists y; split; [done|by apply bool_decide_eq_true]). congruence.
  - by constructor.
  - eapply Forall_impl; [exact H5|]. cbn. intros e He. apply elem_of_app. by left.
  - lia.
Qed.

#[export] Hint Resolve keeps_bind keeps_return audit_keeps UpdateUserRole_keeps UpdateUserPassword_keeps
  DeleteUser_keeps CreateUser_keeps : console.

Section serving.
Context (HashPassword : bytes → option bytes) (text : StoreError → bytes).

Lemma CreateUserWithRole_keeps name password role now :
  keeps accounts_ok (CreateUserWithRole HashPassword name password role now).
Proof. unfold CreateUserWithRole. case_on_goal; auto with console. Qed.

Lemma patch_role_keeps c x role : keeps accounts_ok (patch_role text c x role).
Proof.
  unfold patch_role. destruct role as [role|]; [|auto with console]. case_on_goal; [auto with console|].
  apply keeps_bind; [auto with console|]. intros [[]|]; auto with console.
Qed.

Lemma patch_password_keeps c x password : keeps accounts_ok (patch_password HashPassword text c x password).
Proof.
  unfold patch_password, SetPassword. destruct password as [password|]; [|auto with console].
  apply keeps_bind; [case_on_goal; auto with console|]. intros [e|]; [auto with console|].
  intros db Hok. split; [done|]. cbn [sql fst snd wp]. by apply DeleteSessions_keeps.
Qed.

Lemma reading_keeps id : keeps accounts_ok (UserByID id).
Proof. intros db Hok. eapply wp_mono; [apply UserByID_spec|]. by intros r db' [-> _]. Qed.

#[local] Hint Resolve CreateUserWithRole_keeps patch_role_keeps patch_password_keeps reading_keeps : console.

Lemma serve_keeps c r : keeps accounts_ok (serve HashPassword text c r).
Proof.
  destruct r as [[body|err]|param decoded|param]; cbn [serve].
  - unfold handleCreateUser. cbv zeta. do 2 (case_on_goal; [auto with console|]). case_on_goal; [|auto with console].
    apply keeps_bind; [auto with console|]. intros [x|[]]; auto with console.
  - apply keeps_return.
  - unfold handlePatchUser. case_on_goal; [|auto with console].
    apply keeps_bind; [auto with console|]. intros [x|e]; [|auto with console].
    destruct decoded as [body|err]; [|auto with console]. case_on_goal; [|auto with console].
    apply keeps_bind; [auto with console|]. intros [c1|reply]; [|auto with console].
    apply keeps_bind; [auto with console|]. intros [c2|reply]; [|auto with console].
    apply keeps_bind; [auto with console|]. intros [x'|e]; [|auto with console].
    case_on_goal; auto with console.
  - unfold handleDeleteUser. case_on_goal; [|auto with console].
    apply keeps_bind; [auto with console|]. intros [x|e]; [|auto with console].
    apply keeps_bind; [auto with console|]. intros [[]|]; auto with console.
Qed.

(** C40: nobody locks everybody out: whatever account requests are served one
    after the other, by whomever, with any database statement failing at any
    point, an administrator remains, ids and names stay unique, every role is
    one of the three, and no session outlives its account. *)
Theorem last_admin_kept requests db :
  accounts_ok db → accounts_ok (serve_all HashPassword text requests db).
Proof.
  unfold serve_all. revert db. induction requests as [|[[c r] errors] requests IH]; intros db Hok; cbn [fold_left]; [done|].
  apply IH. apply (wp_run _ (λ _, accounts_ok)). by apply serve_keeps.
Qed.
End serving.

(** ** Two requests at once *)

Definition account (id : Z) (role : GoRole) : User := mkUser id (str_of_Z id) role [] 0 None.

Definition two_admins : Tables :=
  mkTables [account 1 RoleAdmin; account 2 RoleAdmin] 3 [mkSession (u "t") 1 0 1000; mkSession (u "s") 2 0 1000] [] 1.

Lemma two_admins_ok : accounts_ok two_admins.
Proof.
  unfold accounts_ok. split_and!.
  - apply (bool_decide_unpack _). vm_compute. exact I.
  - repeat constructor; vm_compute; reflexivity.
  - apply (bool_decide_unpack _). vm_compute. exact I.
  - repeat constructor; vm_compute; reflexivity.
  - apply (bool_decide_unpack _). vm_compute. exact I.
  - vm_compute. lia.
Qed.

Lemma last_admin_kept_witness :
  let c := mkCaller (account 1 RoleAdmin) (u "t") (u "10.0.0.1") 5 in
  let served := serve_all Some (λ _, []) [(c, ReqDelete (u "2"), []); (c, ReqDelete (u "1"), [])] two_admins in
  map us_id (t_users served) = [1] ∧ accounts_ok served.
Proof.
  intros c served. split; [vm_compute; reflexivity|].
  exact (last_admin_kept Some (λ _, []) _ two_admins two_admins_ok).
Defined.

(** The check and the change are separate statements: two administrators deleting
    each other at the same time both succeed, and no account is left that could
    sign in to administer. *)
Lemma both_deleted :
  let c1 := mkCaller (account 1 RoleAdmin) (u "t") (u "10.0.0.1") 5 in
  let c2 := mkCaller (account 2 RoleAdmin) (u "s") (u "10.0.0.2") 5 in
  let both := interleave [true; true; false; false; true; false; true; false; true; true; false; false; true; false]
                (serve Some (λ _, []) c1 (ReqDelete (u "2"))) (serve Some (λ _, []) c2 (ReqDelete (u "1"))) two_admins in
  accounts_ok two_admins ∧ both.1 = (Return ROk, Return ROk) ∧ t_users both.2 = [].
Proof.
  intros c1 c2 both. split; [apply two_admins_ok|]. vm_compute. auto.
Qed.

(** A role and a password sent together: the role is changed even when the
    password cannot be hashed, which the answer does not say. *)
Lemma half_applied :
  let c := mkCaller (account 1 RoleAdmin) (u "t") (u "10.0.0.1") 5 in
  let r := run [] (serve (λ _, None) (λ _, u "hash password") c
             (ReqPatch (u "2") (inl (mkPatch (Some RoleViewer) (Some (u "correct horse")))))) two_admins in
  r.1 = RError 500 (u "hash password") ∧ map us_role (t_users r.2) = [RoleAdmin; RoleViewer].
Proof. vm_compute. auto. Qed.
