(* ===== verification/ServerSignIn.v ===== *)
(** * The server's set-up and sign-in (internal/api/handlers_auth.go, internal/auth/auth.go)

    The first account, the verification of credentials and the session that
    either ends with, as programs over the statements of [Accounts].  Hashing,
    its check and the random token are parameters. *)
From S2P Require Import Prelude JsString GoString Accounts.

(** ** The store *)

Definition CountUsers : Prog (Z + StoreError) :=
  Query SelectCountUsers (λ r, Return (match r with None => inr ErrOther | Some n => inl n end)).

Definition UserByUsername (name : bytes) : Prog (User + StoreError) :=
  Query (SelectUserNamed name) (λ r, Return
    (match r with
     | None => inr ErrOther
     | Some None => inr ErrNotFound
     | Some (Some x) => inl x
     end)).

Definition TouchUserLogin (id now : Z) : Prog (option StoreError) :=
  Query (TouchLogin now id) (λ r, Return (match r with None => Some ErrOther | Some _ => None end)).

(** Times are in nanoseconds. *)
Definition SessionTTL : Z := 30 * 24 * 3600 * 1000000000.

Definition CreateSession (token : bytes) (user now : Z) : Prog (option StoreError) :=
  Query (InsertSession (mkSession token user now (now + SessionTTL))) (λ r, Return
    (match r with Some true => None | _ => Some ErrOther end)).

(** ** Package auth *)

Record Credentials := mkCredentials { cd_username : bytes; cd_password : bytes }.

(** [None] is [ErrInvalidCredentials]. *)
Abbreviation LoginError := (option StoreError).

Section auth.
(** bcrypt; the token drawn for the session, [None] when the source of
    randomness fails; how an error reads; the address and the time of the request. *)
Context (HashPassword : bytes → option bytes) (CheckPassword : bytes → bytes → bool).
Context (random : option bytes) (text : StoreError → bytes) (ip : bytes) (now : Z).

Definition NeedsSetup : Prog (bool + StoreError) :=
  bind CountUsers (λ r, Return (match r with inr e => inr e | inl n => inl (n =? 0) end)).

Definition CreateFirstUser (name password : bytes) : Prog (User + StoreError) :=
  CreateUserWithRole HashPassword name password RoleAdmin now.

Definition Login (name password : bytes) : Prog (User + LoginError) :=
  bind (UserByUsername name) (λ found, Return
    (match found with
     | inr ErrNotFound => inr None
     | inr e => inr (Some e)
     | inl x => if CheckPassword (us_hash x) password then inl x else inr None
     end)).

Definition StartSession (user : Z) : Prog (bytes + StoreError) :=
  match random with
  | None => Return (inr ErrOther)
  | Some token => bind (CreateSession token user now) (λ r, Return (match r with Some e => inr e | None => inl token end))
  end.

(** ** Handlers *)

(** The answer, and the session cookie it sets. *)
Abbreviation Answer := (Accounts.Reply * option bytes)%type.

Definition refuse (status : Z) (message : bytes) : Prog Answer := Return (RError status message, None).
Definition serverError (e : StoreError) : Prog Answer := refuse 500 (text e).

(** An entry that names its own actor. *)
Definition audit_as (actor : bytes) (actorId : Z) (action : bytes) (objectId result detail : bytes) : Prog unit :=
  AppendAudit (mkRow 0 now actor actorId action (u "user") objectId actor
    (if str_eqb result [] then u "ok" else result) ip detail).

Definition handleSetup (decoded : Credentials + bytes) : Prog Answer :=
  match decoded with
  | inr err => refuse 400 (cat [u "invalid JSON body: "; err])
  | inl body =>
      let username := TrimSpace (cd_username body) in
      if str_eqb username [] || str_eqb (cd_password body) [] then refuse 400 (u "username and password are required")
      else if short (cd_password body) then refuse 400 (u "password must be at least 8 characters")
      else bind NeedsSetup (λ needs, match needs with
        | inr e => serverError e
        | inl false => refuse 409 (u "setup has already been completed")
        | inl true =>
            bind (CreateFirstUser username (cd_password body)) (λ created, match created with
              | inr e => serverError e
              | inl x =>
                  bind (StartSession (us_id x)) (λ session, match session with
                    | inr e => serverError e
                    | inl token =>
                        bind (audit_as (us_name x) (us_id x) (u "user.create") (str_of_Z (us_id x)) []
                                (cat [u "first-run setup, role "; us_role x]))
                          (λ _, Return (RUser x, Some token))
                    end)
              end)
        end)
  end.

Definition handleLogin (decoded : Credentials + bytes) : Prog Answer :=
  match decoded with
  | inr err => refuse 400 (cat [u "invalid JSON body: "; err])
  | inl body =>
      let username := TrimSpace (cd_username body) in
      bind (Login username (cd_password body)) (λ r, match r with
        | inr None =>
            bind (audit_as username 0 (u "session.signin_failed") [] (u "denied") (u "invalid username or password"))
              (λ _, refuse 401 (u "invalid username or password"))
        | inr (Some e) => serverError e
        | inl x =>
            bind (StartSession (us_id x)) (λ session, match session with
              | inr e => serverError e
              | inl token =>
                  bind (TouchUserLogin (us_id x) now) (λ _,
                  bind (audit_as (us_name x) (us_id x) (u "session.signin") [] [] (cat [u "role "; us_role x]))
                    (λ _, Return (RUser x, Some token)))
              end)
        end)
  end.
End auth.

(** ** Properties *)

Section properties.
Context (HashPassword : bytes → option bytes) (CheckPassword : bytes → bytes → bool).
Context (random : option bytes) (text : StoreError → bytes) (ip : bytes) (now : Z).

(** A program that leaves the accounts and their hashes alone. *)
Lemma audit_as_users actor id action object result detail db :
  wp (audit_as ip now actor id action object result detail)
     (λ _ db', t_users db' = t_users db ∧ t_sessions db' = t_sessions db ∧ t_next db' = t_next db) db.
Proof. split; [done|]. cbn [sql fst snd]. case_on_goal; by split. Qed.

Lemma StartSession_spec user db :
  wp (StartSession random now user) (λ r db', t_users db' = t_users db ∧ t_next db' = t_next db ∧
    match r with
    | inl token => random = Some token ∧ t_sessions db' = t_sessions db ++ [mkSession token user now (now + SessionTTL)]
    | inr _ => db' = db
    end) db.
Proof.
  unfold StartSession. destruct random as [token|]; [|done]. split; [done|]. cbn [sql fst snd].
  case_on_goal; by split_and!.
Qed.

Lemma TouchUserLogin_spec id db :
  wp (TouchUserLogin id now) (λ _ db', t_sessions db' = t_sessions db ∧ t_next db' = t_next db ∧
    (t_users db' = t_users db ∨ t_users db' = map (λ x, if has_id id x then with_login now x else x) (t_users db))) db.
Proof. split; cbn [sql fst snd wp with_users t_users t_sessions t_next]; split_and!; auto. Qed.

(** Signing in tells exactly what the table holds. *)
Lemma Login_spec name password db :
  wp (Login CheckPassword name password) (λ r db', db' = db ∧
    match r with
    | inl x => List.find (has_name name) (t_users db) = Some x ∧ CheckPassword (us_hash x) password = true
    | inr None => ∀ x, List.find (has_name name) (t_users db) = Some x → CheckPassword (us_hash x) password = false
    | inr (Some e) => e = ErrOther
    end) db.
Proof.
  split; [done|]. cbn [sql fst snd wp bind]. destruct (List.find _ _) as [x|] eqn:E; [|done].
  destruct (CheckPassword _ _) eqn:Ec; (split; [done|]); [by split|]. intros y [= <-]. done.
Qed.

(** Whoever is signed in exists, and the cookie names a session of theirs. *)
Definition opens (db db' : Tables) (a : Accounts.Reply * option bytes) : Prop :=
  match a with
  | (RUser x, Some token) =>
      t_sessions db' = t_sessions db ++ [mkSession token (us_id x) now (now + SessionTTL)]
  | (RUser _, None) => False
  | (_, cookie) => cookie = None ∧ t_sessions db' = t_sessions db
  end.

Lemma login_outcome body db :
  wp (handleLogin CheckPassword random text ip now (inl body)) (λ a db',
    opens db db' a
    ∧ match a.1 with
      | RUser x => List.find (has_name (TrimSpace (cd_username body))) (t_users db) = Some x ∧ CheckPassword (us_hash x) (cd_password body) = true
      | RError status _ =>
          if status =? 401
          then ∀ x, List.find (has_name (TrimSpace (cd_username body))) (t_users db) = Some x → CheckPassword (us_hash x) (cd_password body) = false
          else status = 500
      | ROk => False
      end) db.
Proof.
  unfold handleLogin. cbv zeta. apply wp_bind. eapply wp_mono; [apply Login_spec|].
  intros [x|[e|]] db1 [-> Hl]; [|by split|].
  - apply wp_bind. eapply wp_mono; [apply StartSession_spec|]. intros [token|e] db2 (_ & _ & H); [|by subst db2].
    destruct H as [_ Hs].
    apply wp_bind. eapply wp_mono; [apply TouchUserLogin_spec|]. intros _ db3 [H3 _].
    apply wp_bind. eapply wp_mono; [apply audit_as_users|]. intros _ db4 (_ & H4 & _). split; [|done]. cbn [opens]. by rewrite H4, H3.
  - apply wp_bind. eapply wp_mono; [apply audit_as_users|]. intros _ db2 (_ & H2 & _). by split.
Qed.

(** Set-up, where there is nobody yet. *)
Lemma setup_outcome body db : t_users db = [] → TrimSpace (cd_username body) ≠ [] → short (cd_password body) = false →
  wp (handleSetup HashPassword random text ip now (inl body)) (λ a db',
    opens db db' a
    ∧ match a.1 with
      | RUser x => t_users db' = [x] ∧ us_name x = TrimSpace (cd_username body) ∧ us_role x = RoleAdmin
                   ∧ HashPassword (cd_password body) = Some (us_hash x)
      | RError status _ => status = 500
      | ROk => False
      end) db.
Proof.
  intros He Hn Hp. unfold handleSetup. cbv zeta. rewrite Hp.
  assert (str_eqb (TrimSpace (cd_username body)) [] || str_eqb (cd_password body) [] = false) as ->.
  { apply orb_false_iff. split; apply str_eqb_false; [done|]. by intros E; rewrite E in Hp. }
  split; [done|]. cbn [sql fst snd bind]. rewrite He. cbn [length Z.of_nat Z.eqb].
  unfold CreateFirstUser, CreateUserWithRole. destruct (HashPassword (cd_password body)) as [hash|] eqn:Eh; [|done].
  split; [done|]. cbn [sql fst snd bind]. rewrite He. cbn [existsb app fst snd].
  apply wp_bind. eapply wp_mono; [apply StartSession_spec|]. cbn [t_users t_sessions].
  intros [token|e] db2 (Hu & _ & H); [|subst db2; by split]. destruct H as [_ Hs]. cbn [us_id] in Hs.
  apply wp_bind. eapply wp_mono; [apply audit_as_users|]. intros _ db3 (H3u & H3 & _). cbn [wp opens fst us_id]. split; [by rewrite H3|].
  rewrite H3u, Hu. by split_and!.
Qed.

(** Where somebody is, set-up changes nothing. *)
Lemma setup_once decoded db : t_users db ≠ [] →
  wp (handleSetup HashPassword random text ip now decoded) (λ a db', db' = db ∧ a.2 = None ∧
    ∃ status m, a.1 = RError status m) db.
Proof.
  intros Hu. destruct decoded as [body|err]; [|split_and!; [done..|]; by eexists _, _].
  unfold handleSetup. cbv zeta. do 2 (case_on_goal; [split_and!; [done..|]; by eexists _, _|]).
  split; [split_and!; [done..|]; by eexists _, _|]. cbn [sql fst snd bind].
  destruct (t_users db) as [|x l]; [done|]. cbn [length]. rewrite (proj2 (Z.eqb_neq _ _)) by lia.
  split_and!; [done..|]. by eexists _, _.
Qed.
End properties.

(** ** Together with the accounts *)

Lemma touched_ok db (f : User → User) :
  (∀ x, us_id (f x) = us_id x ∧ us_name (f x) = us_name x ∧ us_role (f x) = us_role x) →
  accounts_ok db → accounts_ok (with_users (map f (t_users db)) db).
Proof.
  intros Hf (H1 & H2 & H3 & H4 & H5 & H6). unfold accounts_ok. cbn [with_users t_users t_next t_sessions].
  assert (map us_id (map f (t_users db)) = map us_id (t_users db)) as Hid by (rewrite map_map; apply map_ext; apply Hf).
  assert (map us_name (map f (t_users db)) = map us_name (t_users db)) as Hname by (rewrite map_map; apply map_ext; apply Hf).
  rewrite Hid, Hname. split_and!; try done.
  - apply Forall_map. eapply Forall_impl; [exact H2|]. cbn. intros x Hx. by rewrite (proj1 (Hf x)).
  - apply Forall_map. eapply Forall_impl; [exact H4|]. cbn. intros x Hx. by rewrite (proj2 (proj2 (Hf x))).
  - enough (admins (map f (t_users db)) = admins (t_users db)) as -> by done.
    unfold admins. clear -Hf. induction (t_users db) as [|x l IH]; [done|]. cbn [map List.filter].
    assert (is_admin (f x) = is_admin x) as -> by (unfold is_admin; by rewrite (proj2 (proj2 (Hf x)))).
    destruct (is_admin x); cbn [length]; by rewrite IH.
Qed.

Lemma session_ok db token user now : accounts_ok db → user ∈ map us_id (t_users db) →
  accounts_ok (with_sessions (t_sessions db ++ [mkSession token user now (now + SessionTTL)]) db).
Proof.
  intros (? & ? & ? & ? & Hs & ?) Hu. unfold accounts_ok. cbn [with_sessions t_users t_next t_sessions].
  split_and!; try done. apply Forall_app. split; [done|]. by repeat constructor.
Qed.

Lemma audit_as_keeps ip now actor id action object result detail : keeps accounts_ok (audit_as ip now actor id action object result detail).
Proof. intros db H. split; [exact H|]. cbn [sql fst snd]. case_on_goal; [split|]; exact H. Qed.

Lemma audited_keeps {A} ip now actor id action object result detail (a : A) :
  keeps accounts_ok (bind (audit_as ip now actor id action object result detail) (λ _, Return a)).
Proof. apply keeps_bind; [apply audit_as_keeps|]. intros _. apply keeps_return. Qed.

#[export] Hint Resolve audit_as_keeps audited_keeps : console.

(** Signing in keeps what the administration of accounts relies on. *)
Lemma login_keeps CheckPassword random text ip now decoded :
  keeps accounts_ok (handleLogin CheckPassword random text ip now decoded).
Proof.
  intros db Hok. destruct decoded as [body|err]; [|done]. unfold handleLogin. cbv zeta.
  apply wp_bind. eapply wp_mono; [apply Login_spec|]. intros [x|[e|]] db1 [-> Hl]; [|done|].
  - unfold StartSession. destruct random as [token|]; [|done]. split; [done|]. cbn [sql fst snd]. case_on_goal; [done|].
    destruct Hl as [[Hx _]%List.find_some _]. cbn [bind].
    assert (accounts_ok (with_sessions (t_sessions db ++ [mkSession token (us_id x) now (now + SessionTTL)]) db)) as Hs.
    { apply session_ok; [done|]. by apply list_elem_of_In, in_map. }
    split; apply audited_keeps; [exact Hs|]. cbn [sql snd].
    apply (touched_ok _ (λ y, if has_id (us_id x) y then with_login now y else y)); [|exact Hs]. intros y. by case_match.
  - by apply audited_keeps.
Qed.

Lemma setup_keeps HashPassword random text ip now decoded :
  keeps accounts_ok (handleSetup HashPassword random text ip now decoded).
Proof.
  intros db Hok. eapply wp_mono; [apply setup_once|by intros a db' [-> _]].
  destruct Hok as (_ & _ & _ & _ & _ & H). intros E. rewrite E in H. cbn in H. lia.
Qed.

(** The account that set-up reports signs in: with the same name and password,
    the server answers with that account and never with a refusal. *)
Lemma setup_then_login HashPassword CheckPassword random text ip now random' text' ip' now' body db :
  (∀ p h, HashPassword p = Some h → CheckPassword h p = true) →
  t_users db = [] → TrimSpace (cd_username body) ≠ [] → short (cd_password body) = false →
  wp (handleSetup HashPassword random text ip now (inl body)) (λ a db1, ∀ x, a.1 = RUser x →
    wp (handleLogin CheckPassword random' text' ip' now' (inl body)) (λ b _,
      b.1 = RUser x ∨ ∃ m, b.1 = RError 500 m) db1) db.
Proof.
  intros Hc He Hn Hp. eapply wp_mono; [by apply setup_outcome|]. intros [a cookie] db1 [_ Ha] x Hx. cbn [fst] in *. subst a.
  destruct Ha as (Hu & Hname & _ & Hh). eapply wp_mono; [apply login_outcome|]. intros [b cookie'] db2 [_ Hb]. cbn [fst] in *.
  assert (List.find (has_name (TrimSpace (cd_username body))) (t_users db1) = Some x) as Ef.
  { rewrite Hu. cbn [List.find]. unfold has_name. by rewrite Hname, (proj2 (str_eqb_true _ _) eq_refl). }
  destruct b as [status m|y|]; [|left|done].
  - destruct (status =? 401).
    + specialize (Hb x Ef). by rewrite (Hc _ _ Hh) in Hb.
    + right. subst status. by eexists.
  - destruct Hb as [Hy _]. congruence.
Qed.

(** ** What is left of a set-up that fails

    The account is inserted before the session: when the session cannot be
    stored the answer is an error, and trying again is refused as complete. *)
Definition nobody : Tables := mkTables [] 1 [] [] 1.

Lemma setup_half_done : ∃ a db b,
  let p errors := run errors (handleSetup Some (Some (u "t")) (λ _, u "database is locked") (u "10.0.0.1") 5
                                (inl (mkCredentials (u "root") (u "correct horse")))) in
  p [false; false; true] nobody = (a, db) ∧ a = (RError 500 (u "database is locked"), None)
  ∧ map us_name (t_users db) = [u "root"]
  ∧ (p [] db).1 = b ∧ b = (RError 409 (u "setup has already been completed"), None).
Proof. eexists _, _, _. split_and!; vm_compute; reflexivity. Qed.

(** The check and the insertion are separate statements: of two set-ups at once
    both succeed, and the installation has two owners. *)
Lemma two_owners :
  let p name := handleSetup Some (Some (name ++ u "-t")) (λ _, []) (u "10.0.0.1") 5 (inl (mkCredentials name (u "correct horse"))) in
  let '(p1, p2, db) := interleave [true; false; true; false] (p (u "alice")) (p (u "mallory")) nobody in
  map (λ x, (us_name x, us_role x)) (t_users db) = [(u "alice", RoleAdmin); (u "mallory", RoleAdmin)]
  ∧ (run [] p1 db).1.1 = RUser (mkUser 1 (u "alice") RoleAdmin (u "correct horse") 5 None)
  ∧ (run [] p2 db).1.1 = RUser (mkUser 2 (u "mallory") RoleAdmin (u "correct horse") 5 None).
Proof. vm_compute. by split_and!. Qed.
