(* ===== verification/ServerSettings.v ===== *)
(** * The server's settings (internal/store/settings.go, internal/api/handlers_misc.go)

    The key/value table the settings live in, how they are read back with their
    defaults, and the handler that changes them.  [url.Parse] is a parameter:
    the scheme and the host it finds, or its error. *)
From stdpp Require Import gmap.
From S2P Require Import Prelude JsString JsNumber JsValue GoString ServerSchedule Accounts.

Abbreviation Table := (gmap bytes bytes).

Record GoSettings := mkGoSettings {
  ServerName : bytes;
  Concurrency : Z;
  WebhookURL : bytes;
  NotifyOnText : bytes;
  UploadConcurrency : Z;
  CompressionText : bytes;
  UploadLimitMbps : Z;
}.

Definition MinUploadConcurrency : Z := 1.
Definition MaxUploadConcurrency : Z := 16.
Definition MinUploadLimitMbps : Z := 0.
Definition MaxUploadLimitMbps : Z := 10000.

Definition ValidNotifyOn (v : bytes) : bool := existsb (str_eqb v) [u "off"; u "failures"; u "all"].
Definition ValidCompression (v : bytes) : bool := existsb (str_eqb v) [u "zstd"; u "off"].

Definition within (lo hi n : Z) : bool := negb ((n <? lo) || (hi <? n)).

(** ** The table *)

(** [strconv.Atoi] of a stored number, when it passes the check. *)
Definition stored_int (kv : Table) (key : bytes) (ok : Z → bool) (fallback : Z) : Z :=
  match kv !! key with
  | Some v => match ParseInt v with Some n => if ok n then n else fallback | None => fallback end
  | None => fallback
  end.

Definition stored_text (kv : Table) (key : bytes) (ok : bytes → bool) (fallback : bytes) : bytes :=
  match kv !! key with Some v => if ok v then v else fallback | None => fallback end.

Definition ReadSettings (kv : Table) : GoSettings :=
  mkGoSettings
    (stored_text kv (u "serverName") (λ _, true) (u "ProxBack"))
    (stored_int kv (u "concurrency") (λ n, 0 <? n) 2)
    (stored_text kv (u "webhookUrl") (λ _, true) [])
    (stored_text kv (u "notifyOn") ValidNotifyOn (u "off"))
    (stored_int kv (u "uploadConcurrency") (within MinUploadConcurrency MaxUploadConcurrency) 4)
    (stored_text kv (u "compression") ValidCompression (u "zstd"))
    (stored_int kv (u "uploadLimitMbps") (within MinUploadLimitMbps MaxUploadLimitMbps) 0).

Definition normalizeSettings (s : GoSettings) : GoSettings :=
  mkGoSettings
    (if str_eqb (ServerName s) [] then u "ProxBack" else ServerName s)
    (if Concurrency s <=? 0 then 2 else Concurrency s)
    (WebhookURL s)
    (if ValidNotifyOn (NotifyOnText s) then NotifyOnText s else u "off")
    (if within MinUploadConcurrency MaxUploadConcurrency (UploadConcurrency s) then UploadConcurrency s else 4)
    (if ValidCompression (CompressionText s) then CompressionText s else u "zstd")
    (if within MinUploadLimitMbps MaxUploadLimitMbps (UploadLimitMbps s) then UploadLimitMbps s else 0).

Definition SaveSettings (st : GoSettings) (kv : Table) : Table :=
  let s := normalizeSettings st in
  <[u "uploadLimitMbps" := str_of_Z (UploadLimitMbps s)]>
  (<[u "compression" := CompressionText s]>
  (<[u "uploadConcurrency" := str_of_Z (UploadConcurrency s)]>
  (<[u "notifyOn" := NotifyOnText s]>
  (<[u "webhookUrl" := WebhookURL s]>
  (<[u "concurrency" := str_of_Z (Concurrency s)]>
  (<[u "serverName" := ServerName s]> kv)))))).

(** ** The handler *)

(** The body's pointers: nil for a field that is absent or null. *)
Record SettingsBody := mkBody {
  bd_serverName : option bytes;
  bd_concurrency : option Z;
  bd_webhookUrl : option bytes;
  bd_notifyOn : option bytes;
  bd_uploadConcurrency : option Z;
  bd_compression : option bytes;
  bd_uploadLimitMbps : option Z;
}.

(** Decoding a pointer field; [None] is a type error. *)
Definition dec_ptr {A} (dec : jsval → option A) (v : jsval) : option (option A) :=
  if is_nullish v then Some None else Some <$> dec v.

Definition decodeSettings (v : jsval) : option SettingsBody :=
  match v with
  | VObj _ =>
      a ← dec_ptr dec_string (get v "serverName");
      b ← dec_ptr dec_int (get v "concurrency");
      c ← dec_ptr dec_string (get v "webhookUrl");
      d ← dec_ptr dec_string (get v "notifyOn");
      e ← dec_ptr dec_int (get v "uploadConcurrency");
      f ← dec_ptr dec_string (get v "compression");
      g ← dec_ptr dec_int (get v "uploadLimitMbps");
      Some (mkBody a b c d e f g)
  | VUndef | VNull => Some (mkBody None None None None None None None)
  | _ => None
  end.

Section handler.
(** The scheme and the host [url.Parse] finds. *)
Context (Parse : bytes → option (bytes * bytes)).

Definition validateWebhookURL (raw : bytes) : bool :=
  if str_eqb raw [] then true else
  match Parse raw with
  | None => false
  | Some (scheme, host) =>
      negb ((negb (str_eqb scheme (u "http")) && negb (str_eqb scheme (u "https"))) || str_eqb host [])
  end.

(** Why a body is refused, in the order the handler looks. *)
Inductive SettingsRefusal :=
  | BadConcurrency | BadWebhook | BadNotifyOn | BadUploadConcurrency | BadCompression | BadUploadLimit.

(** A field that is sent must pass its check. *)
Definition refused {A} (field : option A) (ok : A → bool) : bool :=
  match field with Some x => negb (ok x) | None => false end.

Definition settingsRefusal (b : SettingsBody) : option SettingsRefusal :=
  if refused (bd_concurrency b) (λ n, 1 <=? n) then Some BadConcurrency
  else if refused (bd_webhookUrl b) (λ raw, validateWebhookURL (TrimSpace raw)) then Some BadWebhook
  else if refused (bd_notifyOn b) ValidNotifyOn then Some BadNotifyOn
  else if refused (bd_uploadConcurrency b) (within MinUploadConcurrency MaxUploadConcurrency) then Some BadUploadConcurrency
  else if refused (bd_compression b) ValidCompression then Some BadCompression
  else if refused (bd_uploadLimitMbps b) (within MinUploadLimitMbps MaxUploadLimitMbps) then Some BadUploadLimit
  else None.

Definition applyBody (b : SettingsBody) (s : GoSettings) : GoSettings :=
  mkGoSettings
    (match bd_serverName b with Some n => TrimSpace n | None => ServerName s end)
    (default (Concurrency s) (bd_concurrency b))
    (match bd_webhookUrl b with Some n => TrimSpace n | None => WebhookURL s end)
    (default (NotifyOnText s) (bd_notifyOn b))
    (default (UploadConcurrency s) (bd_uploadConcurrency b))
    (default (CompressionText s) (bd_compression b))
    (default (UploadLimitMbps s) (bd_uploadLimitMbps b)).

(** The settings answered, with the table they were read from; the concurrency
    answered is also the scheduler's from then on. *)
Definition handlePutSettings (b : SettingsBody) (kv : Table) : (GoSettings * Table) + SettingsRefusal :=
  match settingsRefusal b with
  | Some r => inr r
  | None => let kv' := SaveSettings (applyBody b (ReadSettings kv)) kv in inl (ReadSettings kv', kv')
  end.
End handler.

(** ** Round trip *)

Lemma within_spec lo hi n : within lo hi n = true ↔ lo <= n <= hi.
Proof. unfold within. rewrite negb_true_iff, orb_false_iff, !Z.ltb_ge. lia. Qed.

Lemma stored_int_saved (kv : Table) key ok d n : kv !! key = @Some bytes (str_of_Z n) → ok n = true → 0 <= n < 2 ^ 63 →
  stored_int kv key ok d = n.
Proof. intros E Ho Hn. unfold stored_int. by rewrite E, ParseInt_str, Ho. Qed.

Lemma stored_text_saved (kv : Table) key ok d v : kv !! key = @Some bytes v → ok v = true → stored_text kv key ok d = v.
Proof. intros E Ho. unfold stored_text. by rewrite E, Ho. Qed.

Ltac find_key := repeat (rewrite lookup_insert_ne by discriminate); apply lookup_insert_eq.

(** What is in the domain of every setting. *)
Definition settings_ok (s : GoSettings) : Prop :=
  ServerName s ≠ [] ∧ 0 < Concurrency s < 2 ^ 63 ∧ ValidNotifyOn (NotifyOnText s) = true
  ∧ within MinUploadConcurrency MaxUploadConcurrency (UploadConcurrency s) = true
  ∧ ValidCompression (CompressionText s) = true
  ∧ within MinUploadLimitMbps MaxUploadLimitMbps (UploadLimitMbps s) = true.

Lemma normalize_ok s : Concurrency s < 2 ^ 63 → settings_ok (normalizeSettings s).
Proof.
  intros Hc. unfold settings_ok, normalizeSettings.
  cbn [ServerName Concurrency NotifyOnText UploadConcurrency CompressionText UploadLimitMbps].
  split_and!.
  - unfold str_eqb. case_bool_decide; [discriminate|done].
  - destruct (Z.leb_spec (Concurrency s) 0); lia.
  - destruct (Z.leb_spec (Concurrency s) 0); lia.
  - by case_match.
  - by case_match.
  - by case_match.
  - by case_match.
Qed.

Lemma normalize_id s : settings_ok s → normalizeSettings s = s.
Proof.
  intros (Hn & Hc & H1 & H2 & H3 & H4). unfold normalizeSettings. rewrite H1, H2, H3, H4.
  rewrite (proj2 (Z.leb_gt _ _)) by lia. unfold str_eqb. rewrite bool_decide_eq_false_2 by done. by destruct s.
Qed.

Lemma settings_ok_kept s : settings_ok s → ∀ kv, ReadSettings (SaveSettings s kv) = s.
Proof.
  intros Hs kv. unfold SaveSettings. cbv zeta. rewrite normalize_id by done.
  destruct Hs as (Hn & Hc & H1 & H2 & H3 & H4).
  pose proof (proj1 (within_spec _ _ _) H2) as B2. pose proof (proj1 (within_spec _ _ _) H4) as B4.
  unfold MinUploadConcurrency, MaxUploadConcurrency, MinUploadLimitMbps, MaxUploadLimitMbps in B2, B4.
  unfold ReadSettings. destruct s as [name conc hook notify up comp limit].
  cbn [ServerName Concurrency WebhookURL NotifyOnText UploadConcurrency CompressionText UploadLimitMbps] in *.
  f_equal; (apply stored_int_saved || apply stored_text_saved); try done; try lia; try find_key.
Qed.

(** What is saved is what is read back: the normalised settings. *)
Lemma read_saved s kv : Concurrency s < 2 ^ 63 → ReadSettings (SaveSettings s kv) = normalizeSettings s.
Proof.
  intros Hc. pose proof (normalize_ok s Hc) as Hok. unfold SaveSettings. cbv zeta.
  pose proof (settings_ok_kept _ Hok kv) as E. unfold SaveSettings in E. cbv zeta in E.
  by rewrite normalize_id in E.
Qed.
