(* ===== verification/Access.v ===== *)
(** * Access (internal/api/api.go, and the controls of every page)

    The routes the server registers, with the role the group of each requires,
    and the requests each page can send, with the capability its control asks
    for.  The router is chi; what the code uses of it is that a pattern matches
    the paths that fill its [{id}] with one segment. *)
From S2P Require Import Prelude JsString JsNumber JsValue Json Schedule Policy Retention Transport Roles Targets Runs Backups Inventory Endpoints GoString Accounts.

(** ** The server's routes *)

(** What stands before a handler. *)
Inductive Guard := Public | SessionOnly | Requires (role : GoRole).

#[export] Instance Guard_eq_dec : EqDecision Guard.
Proof. solve_decision. Defined.

Definition publicRoutes : list (Method * jsstr) :=
  [ (GET, u "/setup/status"); (POST, u "/setup"); (POST, u "/login") ].

Definition sessionRoutes : list (Method * jsstr) :=
  [ (POST, u "/logout"); (GET, u "/me"); (POST, u "/me/password"); (GET, u "/update/status");
    (GET, u "/dashboard"); (GET, u "/posture"); (GET, u "/hosts"); (GET, u "/hosts/{id}/vms");
    (GET, u "/hosts/{id}/free-vmid"); (GET, u "/vms"); (GET, u "/targets"); (GET, u "/jobs");
    (GET, u "/jobs/{id}/retention-preview"); (GET, u "/runs"); (GET, u "/runs/{id}");
    (GET, u "/runs/{id}/log"); (GET, u "/backups"); (GET, u "/agents"); (GET, u "/helpers");
    (GET, u "/settings") ].

Definition operatorRoutes : list (Method * jsstr) :=
  [ (POST, u "/jobs"); (PATCH, u "/jobs/{id}"); (DELETE, u "/jobs/{id}"); (POST, u "/jobs/{id}/run");
    (POST, u "/runs/clear"); (DELETE, u "/runs/{id}"); (POST, u "/runs/{id}/cancel");
    (POST, u "/runs/{id}/retry"); (POST, u "/backups/{id}/verify"); (DELETE, u "/backups/{id}");
    (GET, u "/backups/{id}/files"); (GET, u "/backups/{id}/files/download"); (POST, u "/restores") ].

Definition adminRoutes : list (Method * jsstr) :=
  [ (GET, u "/users"); (POST, u "/users"); (PATCH, u "/users/{id}"); (DELETE, u "/users/{id}");
    (GET, u "/audit"); (POST, u "/update/apply"); (GET, u "/downloads/status"); (POST, u "/hosts");
    (POST, u "/hosts/{id}/test"); (DELETE, u "/hosts/{id}"); (POST, u "/targets");
    (POST, u "/targets/{id}/test"); (DELETE, u "/targets/{id}"); (POST, u "/agents/enroll-token");
    (DELETE, u "/agents/{id}"); (POST, u "/agents/{id}/update"); (POST, u "/agents/update-all");
    (POST, u "/helpers/enroll-token"); (POST, u "/helpers/deploy"); (POST, u "/helpers/{id}/assign");
    (DELETE, u "/helpers/{id}"); (POST, u "/helpers/{id}/update"); (POST, u "/helpers/update-all");
    (PUT, u "/settings"); (POST, u "/settings/test-webhook") ].

Definition apiRoutes : list (Method * jsstr * Guard) :=
  map (λ r, (r, Public)) publicRoutes ++ map (λ r, (r, SessionOnly)) sessionRoutes
  ++ map (λ r, (r, Requires RoleOperator)) operatorRoutes ++ map (λ r, (r, Requires RoleAdmin)) adminRoutes.

(** [requireRole], for a signed-in user: the refusal of a role that does not
    reach, with its entry in the audit trail; [None] lets the request through. *)
Definition requireRole (c : Caller) (required : GoRole) (method path : bytes) : option (Prog Reply) :=
  let role := us_role (ca_user c) in
  if AtLeast role required then None
  else Some (bind (AppendAudit (mkRow 0 (ca_now c) (us_name (ca_user c)) (us_id (ca_user c)) (u "access.denied")
                     (u "route") (cat [method; u " "; path]) path (u "denied") (ca_ip c)
                     (cat [u "role "; role; u " does not carry "; required])))
               (λ _, Return (RError 403 (cat [u "this action requires the "; required;
                        u " role; you are signed in as "; us_name (ca_user c); u " ("; role; u ")"])))).

Definition admits (g : Guard) (role : GoRole) : bool :=
  match g with Public | SessionOnly => true | Requires required => AtLeast role required end.

(** ** The console's requests *)

Inductive Call :=
  | COp (op : Operation)
  | CSetupStatus | CSetup | CLogin | CLogout | CMe | CChangePassword
  | CListUsers | CCreateUser | CListAudit | CUpdateStatus | CApplyUpdate
  | CDashboard | CPosture | CListHosts | CCreateHost | CListVMs
  | CListTargets | CCreateTarget | CListJobs | CCreateJob | CListRuns | CClearRuns
  | CListBackups | CCreateRestore | CListAgents | CEnrollToken
  | CDeployHelper | CListHelpers | CHelperToken | CGetSettings | CPutSettings | CTestWebhook.

#[export] Instance Operation_eq_dec : EqDecision Operation.
Proof. solve_decision. Defined.
#[export] Instance Call_eq_dec : EqDecision Call.
Proof. solve_decision. Defined.

(** The requests the function of api.ts sends, for the inputs it takes. *)
Definition call_request (c : Call) (r : Request) : Prop :=
  match c with
  | COp op => ∃ id, op_request op id r
  | CSetupStatus => getSetupStatus = Some r
  | CSetup => ∃ a b, setup a b = Some r
  | CLogin => ∃ a b, login a b = Some r
  | CLogout => logout = Some r
  | CMe => getMe = Some r
  | CChangePassword => ∃ a b, changePassword a b = Some r
  | CListUsers => listUsers = Some r
  | CCreateUser => ∃ a, createUser a = Some r
  | CListAudit => ∃ a b d, listAudit a b d = Some r
  | CUpdateStatus => getUpdateStatus = Some r
  | CApplyUpdate => ∃ a, applyUpdate a = Some r
  | CDashboard => getDashboard = Some r
  | CPosture => getPosture = Some r
  | CListHosts => listHosts = Some r
  | CCreateHost => ∃ a, createHost a = Some r
  | CListVMs => listVMs = Some r
  | CListTargets => listTargets = Some r
  | CCreateTarget => ∃ a, createTarget a = Some r
  | CListJobs => listJobs = Some r
  | CCreateJob => ∃ a, createJob a = Some r
  | CListRuns => ∃ a b, listRuns a b = Some r
  | CClearRuns => ∃ a b, clearRuns a b = Some r
  | CListBackups => ∃ a b d, listBackups a b d = Some r
  | CCreateRestore => ∃ a, createRestore a = Some r
  | CListAgents => listAgents = Some r
  | CEnrollToken => createEnrollToken = Some r
  | CDeployHelper => ∃ a, deployHelper a = Some r
  | CListHelpers => listHelpers = Some r
  | CHelperToken => ∃ a, createHelperEnrollToken a = Some r
  | CGetSettings => getSettings = Some r
  | CPutSettings => ∃ a, putSettings a = Some r
  | CTestWebhook => testWebhook = Some r
  end.

(** ** The controls

    For each page and each dialog it mounts: the calls it makes, and what the
    control, or the route of the page, asks of the session first. *)
#[export] Instance Capability_eq_dec : EqDecision Capability.
Proof. solve_decision. Defined.

Definition Control : Type := Call * option Capability.

Definition always (l : list Call) : list Control := map (λ c, (c, None)) l.
Definition with_cap (cap : Capability) (l : list Call) : list Control := map (λ c, (c, Some cap)) l.

Definition app_controls : list Control :=
  always [CSetupStatus; CSetup; CLogin; CMe; CLogout; CGetSettings].
Definition dashboard_controls : list Control := always [CDashboard; CPosture; CListJobs].
Definition hosts_controls : list Control :=
  always [CListHosts] ++ with_cap ManageInfrastructure [CCreateHost; COp OpTestHost; COp OpDeleteHost].
Definition helpers_controls : list Control :=
  always [CListHelpers; CListVMs; COp OpAssignHelper]
  ++ with_cap ManageInfrastructure [COp OpDeleteHelper; CHelperToken; CDeployHelper].
Definition vms_controls : list Control :=
  always [CListVMs; CListHosts; CListJobs; CListTargets; CListAgents; COp OpHostVMs]
  ++ with_cap OperateJobs [COp OpRunJob; CCreateJob].
Definition agents_controls : list Control :=
  always [CListAgents] ++ with_cap ManageInfrastructure [COp OpDeleteAgent; CEnrollToken].
Definition jobs_controls : list Control :=
  always [CListJobs; CListTargets; CListVMs; CListAgents]
  ++ with_cap OperateJobs [COp OpPatchJob; COp OpDeleteJob; COp OpRunJob; CCreateJob; COp OpRetentionPreview].
Definition monitor_controls : list Control :=
  always [CListRuns; CListJobs; COp OpGetRun] ++ with_cap OperateJobs [CClearRuns; COp OpCancelRun; COp OpRetryRun].
Definition rundetail_controls : list Control :=
  always [COp OpGetRun; COp OpRunLog] ++ with_cap OperateJobs [COp OpCancelRun; COp OpRetryRun; COp OpDeleteRun].
Definition restorepoints_controls : list Control :=
  always [CListBackups; CListHosts; CListAgents; CListVMs; CListTargets]
  ++ with_cap OperateJobs [COp OpVerifyBackup; COp OpDeleteBackup; COp OpBrowseBackup; CCreateRestore; COp OpFreeVMID].
Definition targets_controls : list Control :=
  always [CListTargets] ++ with_cap ManageInfrastructure [CCreateTarget; COp OpTestTarget; COp OpDeleteTarget].
Definition users_controls : list Control :=
  with_cap ManageUsers [CListUsers; CCreateUser; COp OpPatchUser; COp OpDeleteUser].
Definition audit_controls : list Control := with_cap ManageUsers [CListAudit].
Definition settings_controls : list Control :=
  always [CGetSettings; CChangePassword]
  ++ with_cap ManageInfrastructure [CUpdateStatus; CApplyUpdate; CSetupStatus; CPutSettings; CTestWebhook].

Definition all_controls : list Control :=
  app_controls ++ dashboard_controls ++ hosts_controls ++ helpers_controls ++ vms_controls ++ agents_controls
  ++ jobs_controls ++ monitor_controls ++ rundetail_controls ++ restorepoints_controls ++ targets_controls
  ++ users_controls ++ audit_controls ++ settings_controls.

Definition offered (gate : option Capability) (role : Role) : bool :=
  match gate with Some cap => can_do (capabilitiesFor (role_val role)) cap | None => true end.

(** ** Patterns *)

(** [pattern] with its [{id}] filled in, under the mount point of the API. *)
Definition fill (s pattern : jsstr) : jsstr :=
  u "/api" ++ join [47%N] (map (λ seg, if str_eqb seg (u "{id}") then s else seg) (split_on 47 pattern)).

(** The method and pattern a call is registered under. *)
Definition call_route (c : Call) : Method * jsstr :=
  match c with
  | COp op =>
      (((op_shape op).1.1), [47%N] ++ (op_shape op).1.2 ++ u "/{id}"
         ++ match (op_shape op).2 with Some x => [47%N] ++ x | None => [] end)
  | CSetupStatus => (GET, u "/setup/status") | CSetup => (POST, u "/setup") | CLogin => (POST, u "/login")
  | CLogout => (POST, u "/logout") | CMe => (GET, u "/me") | CChangePassword => (POST, u "/me/password")
  | CListUsers => (GET, u "/users") | CCreateUser => (POST, u "/users") | CListAudit => (GET, u "/audit")
  | CUpdateStatus => (GET, u "/update/status") | CApplyUpdate => (POST, u "/update/apply")
  | CDashboard => (GET, u "/dashboard") | CPosture => (GET, u "/posture")
  | CListHosts => (GET, u "/hosts") | CCreateHost => (POST, u "/hosts") | CListVMs => (GET, u "/vms")
  | CListTargets => (GET, u "/targets") | CCreateTarget => (POST, u "/targets")
  | CListJobs => (GET, u "/jobs") | CCreateJob => (POST, u "/jobs")
  | CListRuns => (GET, u "/runs") | CClearRuns => (POST, u "/runs/clear")
  | CListBackups => (GET, u "/backups") | CCreateRestore => (POST, u "/restores")
  | CListAgents => (GET, u "/agents") | CEnrollToken => (POST, u "/agents/enroll-token")
  | CDeployHelper => (POST, u "/helpers/deploy") | CListHelpers => (GET, u "/helpers")
  | CHelperToken => (POST, u "/helpers/enroll-token") | CGetSettings => (GET, u "/settings")
  | CPutSettings => (PUT, u "/settings") | CTestWebhook => (POST, u "/settings/test-webhook")
  end.

(** The guard of a call's route. *)
Definition call_guard (c : Call) : option Guard :=
  (λ r, r.2) <$> List.find (λ r, bool_decide (r.1 = call_route c)) apiRoutes.

(** What the pages rely on: the route exists, the control is offered to no role
    the server refuses, and a request that changes something is offered to every
    role the server admits. *)
Definition agrees (control : Control) : bool :=
  match call_guard control.1 with
  | None => false
  | Some g =>
      forallb (λ role,
        (negb (offered control.2 role) || admits g (role_text role))
        && (bool_decide ((call_route control.1).1 = GET)
            || Bool.eqb (offered control.2 role) (admits g (role_text role)))) ROLES
  end.

Lemma all_controls_agree :
  forallb (λ control, bool_decide (control.1 = COp OpAssignHelper) || agrees control) all_controls = true.
Proof. vm_compute. reflexivity. Qed.

(** No two routes of the server share a method and a pattern. *)
Lemma apiRoutes_distinct : NoDup (map fst apiRoutes).
Proof. apply (bool_decide_unpack _). vm_compute. exact I. Qed.

Lemma call_request_route c r : call_request c r →
  rq_method r = (call_route c).1 ∧ ∃ s, rq_path r = fill s (call_route c).2.
Proof.
  destruct c as [op| | | | | | | | | | | | | | | | | | | | | | | | | | | | | | | |]; cbn [call_request call_route fst snd].
  { intros (id & H). apply op_request_shape in H as (s & _ & Hm & Hp). split; [done|]. exists s. rewrite Hp.
    destruct op; cbn [op_shape fst snd]; unfold fill, shape_path;
      match goal with |- context [split_on 47 ?p] => let p' := eval vm_compute in (split_on 47 p) in
        change (split_on 47 p) with p' end;
      cbn -[u]; rewrite ?app_nil_r; reflexivity. }
  all: intros H; repeat match type of H with ex _ => destruct H as [? H] end;
    injection H as <-; split; [reflexivity|]; exists []; vm_compute; reflexivity.
Qed.

(** ** Properties *)



(** The exception: Bind is offered to a viewer, and the server refuses it. *)
Lemma assign_refused :
  (COp OpAssignHelper, None) ∈ all_controls ∧ offered None Viewer = true
  ∧ call_guard (COp OpAssignHelper) = Some (Requires RoleAdmin)
  ∧ admits (Requires RoleAdmin) (role_text Viewer) = false.
Proof. split_and!; [|vm_compute; reflexivity..]. apply (bool_decide_unpack _). vm_compute. exact I. Qed.

(** A role the server does not know is refused everywhere, while the console
    reads it as an administrator's and offers everything. *)
Lemma unknown_role v : Valid v = false →
  (∀ c g, call_guard c = Some g → g = Public ∨ g = SessionOnly ∨ admits g v = false)
  ∧ (v ≠ role_text Operator → v ≠ role_text Viewer → parseRole (VStr v) = Admin).
Proof.
  intros Hv. split.
  - intros c g _. destruct g as [| |role]; auto. right; right. cbn [admits]. unfold AtLeast. by rewrite Hv.
  - intros H1 H2. unfold parseRole, is_str, str_eqb.
    rewrite bool_decide_eq_false_2, bool_decide_eq_false_2 by done. by case_bool_decide.
Qed.

(** [requireRole] refuses exactly the roles the guard does not admit, and a
    refused request changes nothing but the trail. *)
Lemma requireRole_spec c required method path :
  requireRole c required method path = None ↔ admits (Requires required) (us_role (ca_user c)) = true.
Proof. unfold requireRole, admits. destruct (AtLeast _ _); split; done. Qed.

Lemma requireRole_harmless c required method path p db errors :
  requireRole c required method path = Some p →
  t_users (run errors p db).2 = t_users db ∧ t_sessions (run errors p db).2 = t_sessions db.
Proof.
  unfold requireRole. destruct (AtLeast _ _); [discriminate|]. intros H. apply (inj Some) in H as <-.
  apply (wp_run _ (λ _ db', t_users db' = t_users db ∧ t_sessions db' = t_sessions db)).
  apply wp_bind. split; [done|]. cbn [sql fst snd]. destruct (0 <? t_nextAudit db - AuditRetention); repeat split.
Qed.
