(* ===== verification/Widgets.v ===== *)
(** * Shared hooks and providers (components/Toast.tsx, components/Confirm.tsx, lib/useAsync.ts, lib/useServerTimezone.ts)

    The toasts and their timers, the confirmation dialog and the promises it
    settles, the loader every page reads through, and the cached time zone. *)
From S2P Require Import Prelude JsString JsNumber JsValue Transport.

(** ** Toasts *)

Inductive ToastKind := ToastSuccess | ToastError | ToastInfo.

(** What a caller of [useToast] asks for. *)
Record ToastCall := mkCall { tc_kind : ToastKind; tc_title : jsstr; tc_detail : option jsstr; tc_action : option jsstr }.

Record Toast := mkToast { to_id : Z; to_call : ToastCall }.

(** Timers are pairs of the time they fire at and the toast they dismiss. *)
Record Toasts := mkToasts { ts_toasts : list Toast; ts_next : Z; ts_timers : list (Z * Z); ts_now : Z }.

Definition dismiss (id : Z) (l : list Toast) : list Toast := List.filter (λ t, negb (to_id t =? id)) l.

(** [slice(-n)]. *)
Definition last_n {A} (n : nat) (l : list A) : list A := drop (length l - n) l.

Definition toast_life (c : ToastCall) : Z :=
  match tc_kind c with ToastError => 8000 | _ => if is_none (tc_action c) then 4500 else 8000 end.

Definition push (c : ToastCall) (s : Toasts) : Toasts :=
  let id := ts_next s in
  mkToasts (last_n 4 (ts_toasts s) ++ [mkToast id c]) (id + 1)
    (ts_timers s ++ [(ts_now s + toast_life c, id)]) (ts_now s).

(** Time passes: every timer that is due has fired. *)
Definition elapse (ms : Z) (s : Toasts) : Toasts :=
  let now := ts_now s + Z.max 0 ms in
  let '(due, waiting) := partition (λ t, t.1 <=? now) (ts_timers s) in
  mkToasts (foldr (λ t, dismiss t.2) (ts_toasts s) due) (ts_next s) waiting now.

Inductive ToastMsg :=
  | Push (c : ToastCall)
  | Dismiss (id : Z)
  | Elapse (ms : Z).

Definition toast_step (s : Toasts) (m : ToastMsg) : Toasts :=
  match m with
  | Push c => push c s
  | Dismiss id => mkToasts (dismiss id (ts_toasts s)) (ts_next s) (ts_timers s) (ts_now s)
  | Elapse ms => elapse ms s
  end.

Definition noToasts : Toasts := mkToasts [] 1 [] 0.

Definition toast_run (ms : list ToastMsg) : Toasts := fold_left toast_step ms noToasts.

(** ** The confirmation dialog *)

Record ConfirmOptions := mkOptions {
  co_title : jsstr;
  co_confirmLabel : option jsstr;
  co_cancelLabel : option jsstr;
  co_destructive : option bool;
}.

(** The promise of every call so far, with its value once it is settled; the
    dialog shows [cf_options] and [cf_resolver] is the promise it will settle. *)
Record Confirm := mkConfirm {
  cf_options : option ConfirmOptions;
  cf_resolver : option nat;
  cf_promises : list (ConfirmOptions * option bool);
}.

Definition confirm (next : ConfirmOptions) (c : Confirm) : Confirm :=
  mkConfirm (Some next) (Some (length (cf_promises c))) (cf_promises c ++ [(next, None)]).

(** A promise takes the first value only. *)
Definition resolve (i : nat) (value : bool) (l : list (ConfirmOptions * option bool)) : list (ConfirmOptions * option bool) :=
  alter (λ p, (p.1, match p.2 with None => Some value | v => v end)) i l.

Definition settle (value : bool) (c : Confirm) : Confirm :=
  mkConfirm None None
    (match cf_resolver c with Some i => resolve i value (cf_promises c) | None => cf_promises c end).

(** The buttons of the dialog: their labels and whether the second is red. *)
Definition confirm_buttons (c : Confirm) : jsstr * jsstr * bool :=
  let label d o := match cf_options c with Some x => default d (o x) | None => d end in
  (label (u "Cancel") co_cancelLabel, label (u "Delete") co_confirmLabel,
   match cf_options c with Some x => negb (bool_decide (co_destructive x = Some false)) | None => true end).

(** The operator's side: [PressCancel] is also Escape, the scrim and the cross. *)
Inductive ConfirmMsg := AskConfirm (o : ConfirmOptions) | PressCancel | PressConfirm.

Definition confirm_offered (c : Confirm) (m : ConfirmMsg) : bool :=
  match m with AskConfirm _ => true | _ => negb (is_none (cf_options c)) end.

Definition confirm_step (c : Confirm) (m : ConfirmMsg) : Confirm :=
  match m with
  | AskConfirm o => confirm o c
  | PressCancel => settle false c
  | PressConfirm => settle true c
  end.

Definition noConfirm : Confirm := mkConfirm None None [].

(** ** The loader of a page

    [L] is the identity of the loader, [T] what it reads. *)
Section async.
Context {T L : Type} (engineText : jsstr).

Record Async := mkAsync {
  as_data : option T;
  as_loading : bool;
  as_error : option jsstr;
  as_loader : L;
  as_pending : list L;
  as_mounted : bool;
}.

Definition run_loader (showLoading : bool) (a : Async) : Async :=
  mkAsync (as_data a) (as_loading a || showLoading) (as_error a) (as_loader a) (as_pending a ++ [as_loader a]) (as_mounted a).

Definition mountAsync (loader : L) : Async := run_loader true (mkAsync None true None loader [] true).

Inductive AsyncMsg :=
  | Reload
  | Refresh
  | SetData (next : T)
  | NewLoader (loader : L)
  | Unmount
  | Settled (i : nat) (answer : T + Thrown).

Definition async_offered (a : Async) (m : AsyncMsg) : bool :=
  match m with
  | Settled i _ => negb (is_none (as_pending a !! i))
  | _ => as_mounted a
  end.

Definition async_step (a : Async) (m : AsyncMsg) : Async :=
  match m with
  | Reload => run_loader true a
  | Refresh => run_loader false a
  | SetData next => mkAsync (Some next) (as_loading a) (as_error a) (as_loader a) (as_pending a) (as_mounted a)
  | NewLoader loader =>
      run_loader true (mkAsync (as_data a) (as_loading a) (as_error a) loader (as_pending a) (as_mounted a))
  | Unmount => mkAsync (as_data a) (as_loading a) (as_error a) (as_loader a) (as_pending a) false
  | Settled i answer =>
      let rest := delete i (as_pending a) in
      if as_mounted a then
        match answer with
        | inl next => mkAsync (Some next) false None (as_loader a) rest true
        | inr err => mkAsync (as_data a) false (Some (errorMessage engineText err)) (as_loader a) rest true
        end
      else mkAsync (as_data a) (as_loading a) (as_error a) (as_loader a) rest false
  end.

Inductive async_run (loader : L) : Async → Prop :=
  | async_mount : async_run loader (mountAsync loader)
  | async_next a m : async_run loader a → async_offered a m = true → async_run loader (async_step a m).

Lemma async_loading loader a : async_run loader a → as_mounted a = true → as_loading a = true → as_pending a ≠ [].
Proof.
  induction 1 as [|a m Hr IH Ho]; [done|]. intros Hm Hl. destruct m; cbn [async_step] in *.
  - cbn [run_loader as_pending]. by destruct (as_pending a).
  - cbn [run_loader as_pending]. by destruct (as_pending a).
  - by apply IH.
  - cbn [run_loader as_pending]. by destruct (as_pending a).
  - discriminate Hm.
  - destruct (as_mounted a); [|discriminate Hm]. by destruct answer.
Qed.
End async.
Arguments Async : clear implicits.
Arguments AsyncMsg : clear implicits.

(** A page whose loader changed while a read was under way ends up showing what
    the earlier loader read, when that answer comes last. *)
Lemma stale_answer_wins : ∃ a : Async jsstr jsstr,
  async_run [] (u "all jobs") a ∧ as_pending a = [] ∧ as_loader a = u "one job" ∧ as_data a = Some (u "runs of all jobs").
Proof.
  eexists. split.
  - eapply (async_next _ _ _ (Settled 0 (inl (u "runs of all jobs")))).
    + eapply (async_next _ _ _ (Settled 1 (inl (u "runs of one job")))).
      * eapply (async_next _ _ _ (NewLoader (u "one job"))); [apply async_mount|reflexivity].
      * reflexivity.
    + reflexivity.
  - vm_compute. auto.
Qed.

(** ** The server's time zone

    One cached value and at most one request for the whole page; [hk_value] is
    what each mounted hook shows. *)
Record Hook := mkHook { hk_enabled : bool; hk_value : option jsstr; hk_waiting : bool }.
Record Zone := mkZone { zn_cached : option jsstr; zn_inflight : bool; zn_hooks : list Hook }.

Inductive ZoneMsg :=
  | MountHook (enabled : bool)
  | EnableHook (i : nat) (enabled : bool)
  | ZoneRead (timezone : option jsstr)
  | ZoneFailed.

(** The effect of a hook on [enabled]. *)
Definition zone_effect (enabled : bool) (value : option jsstr) (z : Zone) : Hook * bool :=
  if negb enabled || negb (is_none (zn_cached z)) then (mkHook enabled value false, zn_inflight z)
  else (mkHook enabled value true, true).

Definition deliver (value : jsstr) (h : Hook) : Hook :=
  if hk_waiting h then mkHook (hk_enabled h) (Some value) false else h.

Definition zone_step (z : Zone) (m : ZoneMsg) : Zone :=
  match m with
  | MountHook enabled =>
      let '(h, inflight) := zone_effect enabled (zn_cached z) z in
      mkZone (zn_cached z) inflight (zn_hooks z ++ [h])
  | EnableHook i enabled =>
      match zn_hooks z !! i with
      | None => z
      | Some h =>
          if Bool.eqb (hk_enabled h) enabled then z else
          let '(h', inflight) := zone_effect enabled (hk_value h) z in
          mkZone (zn_cached z) inflight (<[i := h']> (zn_hooks z))
      end
  | ZoneRead timezone =>
      let value := default [] timezone in
      mkZone (Some value) (zn_inflight z) (map (deliver value) (zn_hooks z))
  | ZoneFailed => mkZone (zn_cached z) false (map (deliver []) (zn_hooks z))
  end.

(** What a hook returns. *)
Definition zone_of (h : Hook) : option jsstr := match hk_value h with Some [] => None | v => v end.

(** A hook mounted disabled, and enabled once the zone has been read, never
    learns it: its effect returns before it looks at the cache. *)
Lemma zone_missed :
  let z := fold_left zone_step [MountHook false; MountHook true; ZoneRead (Some (u "Europe/Paris")); EnableHook 0 true]
             (mkZone None false []) in
  zn_cached z = Some (u "Europe/Paris") ∧ map zone_of (zn_hooks z) = [None; Some (u "Europe/Paris")].
Proof. vm_compute. auto. Qed.

(** ** Toasts come and go *)

Definition toasts_ok (s : Toasts) : Prop :=
  (length (ts_toasts s) <= 5)%nat
  ∧ NoDup (map to_id (ts_toasts s))
  ∧ Forall (λ t, to_id t < ts_next s ∧ ∃ due, (due, to_id t) ∈ ts_timers s) (ts_toasts s)
  ∧ Forall (λ t, ts_now s < t.1 <= ts_now s + 8000 ∧ t.2 < ts_next s) (ts_timers s).

Lemma toast_life_range c : 0 < toast_life c <= 8000.
Proof. unfold toast_life. destruct (tc_kind c), (is_none (tc_action c)); lia. Qed.

Lemma elem_of_dismiss t id l : t ∈ dismiss id l ↔ t ∈ l ∧ to_id t ≠ id.
Proof.
  unfold dismiss. rewrite !list_elem_of_In, List.filter_In, negb_true_iff, Z.eqb_neq. done.
Qed.

Lemma dismiss_sublist id l : dismiss id l `sublist_of` l.
Proof. induction l as [|t l IH]; cbn; [done|]. destruct (negb _); by constructor. Qed.

Lemma last_n_sublist {A} n (l : list A) : last_n n l `sublist_of` l.
Proof. apply sublist_drop. Qed.

Lemma map_sublist {A B} (f : A → B) l1 l2 : l1 `sublist_of` l2 → map f l1 `sublist_of` map f l2.
Proof. induction 1; cbn; by constructor. Qed.

(** Fewer toasts, with their timers left. *)
Lemma fewer_ok s l timers now :
  toasts_ok s → l `sublist_of` ts_toasts s →
  (∀ t, t ∈ l → ∃ due, (due, to_id t) ∈ timers) →
  Forall (λ t, now < t.1 <= now + 8000 ∧ t.2 < ts_next s) timers →
  toasts_ok (mkToasts l (ts_next s) timers now).
Proof.
  intros (H1 & H2 & H3 & _) Hl Ht Hd. unfold toasts_ok. cbn [ts_toasts ts_next ts_timers ts_now]. split_and!; [| | |done].
  - apply sublist_length in Hl. lia.
  - eapply sublist_NoDup; [exact H2|]. by apply map_sublist.
  - rewrite Forall_forall in *. intros t Hin. split; [|by apply Ht]. apply H3. by eapply elem_of_sublist.
Qed.

Lemma dismiss_all_elem t due l : t ∈ foldr (λ d : Z * Z, dismiss d.2) l due ↔ t ∈ l ∧ to_id t ∉ map snd due.
Proof.
  induction due as [|d due IH]; cbn [foldr map]; [set_solver|]. rewrite elem_of_dismiss, IH, not_elem_of_cons. naive_solver.
Qed.

Lemma dismiss_all_sublist due l : foldr (λ d : Z * Z, dismiss d.2) l due `sublist_of` l.
Proof. induction due as [|d due IH]; cbn [foldr]; [done|]. etrans; [apply dismiss_sublist|exact IH]. Qed.

Lemma elem_of_partition {A} (f : A → bool) l x :
  (x ∈ (partition f l).1 ↔ x ∈ l ∧ f x = true) ∧ (x ∈ (partition f l).2 ↔ x ∈ l ∧ f x = false).
Proof. rewrite partition_as_filter. cbn [fst snd]. rewrite !list_elem_of_In, !List.filter_In, negb_true_iff. done. Qed.

Lemma split_timers f (l : list (Z * Z)) due waiting : partition f l = (due, waiting) →
  ∀ x, (x ∈ due ↔ x ∈ l ∧ f x = true) ∧ (x ∈ waiting ↔ x ∈ l ∧ f x = false).
Proof. intros E x. pose proof (elem_of_partition f l x) as H. by rewrite E in H. Qed.

Lemma elapse_ok ms s : toasts_ok s → toasts_ok (elapse ms s).
Proof.
  intros Hs. unfold elapse.
  destruct (partition _ (ts_timers s)) as [due waiting] eqn:E.
  pose proof (split_timers _ _ _ _ E) as Hp.
  pose proof Hs as (_ & _ & H3 & H4). rewrite Forall_forall in H3. rewrite Forall_forall in H4.
  apply fewer_ok; [done|apply dismiss_all_sublist| |].
  - intros t [Ht Hn]%dismiss_all_elem. destruct (H3 t Ht) as [_ [d Hd]]. exists d. apply Hp. split; [done|].
    destruct (d <=? ts_now s + Z.max 0 ms) eqn:Ed; [|done]. exfalso. apply Hn.
    change (to_id t) with (d, to_id t).2. apply list_elem_of_fmap_2. by apply Hp.
  - apply Forall_forall. intros x [Hx Hf]%Hp. specialize (H4 x Hx). b2p. lia.
Qed.

Lemma push_ok c s : toasts_ok s → toasts_ok (push c s).
Proof.
  intros (H1 & H2 & H3 & H4). pose proof (toast_life_range c) as Hlife.
  pose proof (last_n_sublist 4 (ts_toasts s)) as Hsub. rewrite Forall_forall in H3. rewrite Forall_forall in H4.
  unfold push, toasts_ok. cbn [ts_toasts ts_next ts_timers ts_now]. split_and!.
  - rewrite length_app. unfold last_n. rewrite length_drop. cbn. lia.
  - rewrite map_app. apply NoDup_app. split_and!; [by eapply sublist_NoDup, map_sublist| |by apply NoDup_singleton].
    intros i (t & -> & Ht)%list_elem_of_fmap. cbn. rewrite list_elem_of_singleton.
    destruct (H3 t (elem_of_sublist _ _ _ Ht Hsub)) as [? _]. lia.
  - apply Forall_app. split; [|constructor; [|constructor]].
    + apply Forall_forall. intros t Ht. destruct (H3 t (elem_of_sublist _ _ _ Ht Hsub)) as [? [d Hd]].
      split; [lia|]. exists d. apply elem_of_app. by left.
    + cbn. split; [lia|]. eexists. apply elem_of_app. right. by apply list_elem_of_singleton.
  - apply Forall_app. split; [|repeat constructor; cbn; lia].
    apply Forall_forall. intros x Hx. specialize (H4 x Hx). lia.
Qed.

Lemma toast_run_ok ms : toasts_ok (toast_run ms).
Proof.
  unfold toast_run. assert (H0 : toasts_ok noToasts).
  { unfold toasts_ok. cbn. split_and!; [lia|constructor..]. }
  revert H0. generalize noToasts. induction ms as [|m ms IH]; intros s Hs; cbn [fold_left]; [done|].
  apply IH. destruct m as [c|id|t]; cbn [toast_step]; [by apply push_ok| |by apply elapse_ok].
  pose proof Hs as (_ & _ & H3 & H4). rewrite Forall_forall in H3.
  apply fewer_ok; [done|apply dismiss_sublist| |done]. intros t [Ht _]%elem_of_dismiss. by apply H3.
Qed.



(** ** What the confirmation dialog answers *)

Inductive confirm_run : Confirm → Prop :=
  | confirm_start : confirm_run noConfirm
  | confirm_more c m : confirm_run c → confirm_offered c m = true → confirm_run (confirm_step c m).

(** The promise the dialog will settle is the one its options came with. *)
Lemma confirm_shown c : confirm_run c →
  match cf_options c with
  | Some o => ∃ i, cf_resolver c = Some i ∧ cf_promises c !! i = Some (o, None)
  | None => cf_resolver c = None
  end.
Proof.
  induction 1 as [|c m _ IH Ho]; [done|]. destruct m; cbn [confirm_step settle cf_options cf_resolver]; [|done..].
  exists (length (cf_promises c)). split; [done|]. cbn [confirm cf_promises]. by rewrite lookup_app_r, Nat.sub_diag.
Qed.

(** A step leaves every promise alone but the one on display, which the
    confirming button resolves to true and everything else to false. *)
Lemma confirm_honest c m i p : confirm_run c → confirm_offered c m = true → cf_promises c !! i = Some p →
  cf_promises (confirm_step c m) !! i = Some p
  ∨ (p.2 = None ∧ cf_options c = Some p.1
     ∧ ((m = PressConfirm ∧ cf_promises (confirm_step c m) !! i = Some (p.1, Some true))
        ∨ (m = PressCancel ∧ cf_promises (confirm_step c m) !! i = Some (p.1, Some false)))).
Proof.
  intros Hr Ho Hp. pose proof (confirm_shown c Hr) as Hs.
  destruct m as [o| |]; cbn [confirm_step]; [left; cbn [confirm cf_promises]; by apply lookup_app_l_Some|..].
  all: cbn [confirm_offered] in Ho; destruct (cf_options c) as [o|]; [|discriminate Ho];
    destruct Hs as (j & Hj & Hpj); unfold settle; rewrite Hj; cbn [cf_promises]; unfold resolve;
    destruct (decide (i = j)) as [->|Hij]; [|left; by rewrite list_lookup_alter_ne];
    assert (p = (o, None)) as -> by congruence;
    right; split; [done|]; split; [done|]; rewrite list_lookup_alter_eq, Hp; cbn; first [by left|by right].
Qed.

(** A question asked while another is on display takes its place: the first
    caller is never answered. *)
Lemma first_unanswered :
  let ask t := AskConfirm (mkOptions t None None None) in
  let c := fold_left confirm_step [ask (u "Cancel this run?"); ask (u "Delete user"); PressConfirm] noConfirm in
  cf_options c = None ∧ map snd (cf_promises c) = [None; Some true].
Proof. vm_compute. auto. Qed.
