(* ===== verification/Ui.v ===== *)
(** * Shared primitives (web/src/components/ui.tsx)

    What the primitives every page is built of decide: the tone of a status, when
    a control is disabled, what a field says, how full a bar or a gauge is, and
    the points of a sparkline.  Colours and spacing are left out. *)
From Stdlib Require Import QArith Lqa.
From S2P Require Import Prelude JsString JsNumber JsValue Backups.
#[local] Open Scope Z_scope.

(** ** Statuses *)

Inductive PillTone := ToneOk | ToneWarn | ToneFail | ToneBrand | ToneNeutral.
#[export] Instance PillTone_eq_dec : EqDecision PillTone.
Proof. solve_decision. Defined.

Definition tone_words : list (list String.string * PillTone) :=
  [ (["online"; "ok"; "success"; "connected"; "healthy"; "passed"; "verified"], ToneOk);
    (["running"], ToneBrand);
    (["stopped"; "offline"; "paused"; "suspended"; "canceled"; "cancelled"; "disabled"], ToneNeutral);
    (["error"; "failed"; "unreachable"], ToneFail);
    (["warning"; "degraded"; "pending"; "limited"; "unassigned"], ToneWarn) ]%string.

Definition toneForStatus (toLowerCase : jsstr → jsstr) (status : option jsstr) : PillTone :=
  let word := toLowerCase (default [] status) in
  match List.find (λ r, existsb (λ w, str_eqb word (u w)) r.1) tone_words with Some r => r.2 | None => ToneNeutral end.

(** Tone, label and whether it pulses. *)
Definition StatusPill (tone : PillTone) (label : jsstr) (pulse : bool) : PillTone * jsstr * bool := (tone, label, pulse).
Definition RunStatusPill (status : jsstr) : PillTone * jsstr * bool :=
  StatusPill (if str_eqb status (u "success") then ToneOk else if str_eqb status (u "failed") then ToneFail
              else if str_eqb status (u "running") then ToneBrand else ToneNeutral)
    status (str_eqb status (u "running")).

(** ** Controls *)

(** [Button] and [IconButton]: whether a click is felt, and whether it spins. *)
Definition button_disabled (disabled loading : bool) : bool := disabled || loading.

(** A control: its label or tooltip, its spoken label, whether it can be pressed, whether it spins. *)
Record ControlView := mkControlView { cv_label : jsstr; cv_spoken : option jsstr; cv_live : bool; cv_spins : bool }.

(** The reason is the tooltip of a disabled tile only. *)
Definition tile_title (disabled : bool) (disabledReason : option jsstr) : option jsstr := if disabled then disabledReason else None.

(** [Segmented]: each option and whether it is the one chosen. *)
Definition Segmented {A} `{EqDecision A} (value : A) (options : list (A * jsstr)) : list (A * jsstr * bool) :=
  map (λ o, (o, bool_decide (o.1 = value))) options.

(** [Field]: the line below the control, whether it is an error, and whether the
    control is described by it. *)
Definition field_note (hint error : option jsstr) : option (jsstr * bool) :=
  match present error with Some e => Some (e, true) | None => (λ h, (h, false)) <$> present hint end.
Definition field_described (hint error : option jsstr) : bool := negb (is_none (present hint)) || negb (is_none (present error)).

(** [Toggle]: what a click asks for. *)
Definition toggle_click (checked : bool) : bool := negb checked.

(** ** Bars and gauges *)

(** [Math.max(0, Math.min(100, Number.isFinite(value) ? value : 0))]. *)
Definition bar_pct (value : num) : num := clamp_num 0 100 (if is_finite value then value else of_Z 0).

(** [ProgressBar]: [aria-valuenow] and the width of the fill. *)
Definition ProgressBar (value : num) : num * jsstr := (nround (bar_pct value), cat [str_of_num (bar_pct value); u "%"]).

(** [ArcProgress]: the length of the arc and how much of it is left undrawn;
    [PI] is [Math.PI]. *)
Definition arc_sweep (PI : num) (size thickness : Z) : num :=
  nmul (nmul (nmul (of_Z 2) PI) (ndiv (of_Z (size - thickness)) (of_Z 2))) (Fin (3 # 4)).
Definition ArcProgress (PI : num) (value : num) (size thickness : Z) : num * num :=
  let sweep := arc_sweep PI size thickness in
  (sweep, nmul sweep (nsub (of_Z 1) (ndiv (bar_pct value) (of_Z 100)))).

(** ** Sparkline *)

Definition clean (values : list num) : list num := List.filter (λ v, is_finite v && nle (of_Z 0) v) values.
Definition peak (values : list num) : num := foldr nmax (of_Z 1) values.
Definition padding : Z := 3.

Definition spark_points (width height : Z) (values : list num) : list (num * num) :=
  let usableH := height - padding * 2 in
  let n := Z.of_nat (length values) in
  imap (λ index value,
    (if n =? 1 then of_Z width else nmul (ndiv (of_Z (Z.of_nat index)) (of_Z (n - 1))) (of_Z width),
     nsub (of_Z (padding + usableH)) (nmul (ndiv value (peak values)) (of_Z usableH)))) values.

Definition point_text (p : num * num) : jsstr := cat [to_fixed 1 p.1; u ","; to_fixed 1 p.2].

(** The line and the area below it; [None] for the dashed line of fewer than two
    samples. *)
Definition Sparkline (width height : Z) (values : list num) : option (jsstr * jsstr) :=
  let points := spark_points width height (clean values) in
  let line := join (u " ") (map point_text points) in
  match points, last points with
  | p :: _ :: _, Some q =>
      Some (line, cat [to_fixed 1 p.1; u ","; str_of_Z height; u " "; line; u " "; to_fixed 1 q.1; u ","; str_of_Z height])
  | _, _ => None
  end.

(** ** Properties *)

(** A bar is between empty and full, and says what it was given when that is a
    percentage. *)
Lemma bar_pct_range value : ∃ a, bar_pct value = Fin a ∧ (0 <= a <= 100)%Q.
Proof.
  unfold bar_pct. destruct value as [| |q]; cbn [is_finite]; by apply clamp_num_bounds.
Qed.

Lemma elem_clean v values : v ∈ clean values → ∃ q, v = Fin q ∧ (0 <= q)%Q.
Proof.
  unfold clean. rewrite list_elem_of_In, filter_In. intros [_ [Hf Hv]%andb_true_iff]. destruct v as [| |q]; try done.
  exists q. split; [done|]. by apply nle_Fin in Hv.
Qed.

Lemma peak_spec values : Forall (λ v, ∃ q, v = Fin q ∧ (0 <= q)%Q) values →
  ∃ m, peak values = Fin m ∧ (1 <= m)%Q ∧ ∀ q, Fin q ∈ values → (q <= m)%Q.
Proof.
  induction 1 as [|v values (q & -> & Hq) _ (m & E & Hm & Hall)]; cbn [peak foldr].
  - exists 1%Q. split_and!; [done|lra|]. intros q Hq. by apply elem_of_nil in Hq.
  - fold (peak values). rewrite E. cbn [nmax]. destruct (nle (Fin q) (Fin m)) eqn:C.
    + apply nle_Fin in C. exists m. split_and!; [done|done|]. intros x [[= ->]|Hx]%elem_of_cons; auto.
    + apply nle_Fin_false in C. exists q. split_and!; [done|lra|]. intros x [[= ->]|Hx]%elem_of_cons; [lra|]. specialize (Hall x Hx). lra.
Qed.

(** A part of a whole, times a size, stays within the size. *)
Lemma share_range p q n : (0 <= p)%Q → (p <= q)%Q → (0 < q)%Q → 0 <= n <= 2 ^ 53 →
  ∃ a, nmul (ndiv (Fin p) (Fin q)) (of_Z n) = Fin a ∧ (0 <= a <= inject_Z n)%Q.
Proof.
  intros Hp Hpq Hq Hn. unfold ndiv. rewrite qzero_pos by done.
  destruct (rnd_range (p / q) 1) as (x & -> & Hx0 & Hx1); [lia| | |].
  - apply Qle_shift_div_l; [done|lra].
  - apply Qle_shift_div_r; [done|]. change (inject_Z 1) with 1%Q. lra.
  - cbn [nmul of_Z]. change (inject_Z 1) with 1%Q in Hx1. assert (H0 : (0 <= inject_Z n)%Q) by (change 0%Q with (inject_Z 0); rewrite <- Zle_Qle; lia).
    apply (rnd_range (x * inject_Z n) n); [lia|by apply Qmult_le_0_compat|].
    pose proof (Qmult_le_compat_r x 1 (inject_Z n) Hx1 H0). lra.
Qed.

Lemma rnd_between lo hi q : 0 <= lo → hi <= 2 ^ 53 → (inject_Z lo <= q)%Q → (q <= inject_Z hi)%Q →
  ∃ a, rnd q = Fin a ∧ (inject_Z lo <= a <= inject_Z hi)%Q.
Proof.
  intros Hlo Hhi H1 H2. assert (Hz : (0 <= inject_Z lo)%Q) by (change 0%Q with (inject_Z 0); by rewrite <- Zle_Qle).
  assert (Hle : lo <= hi) by (rewrite Zle_Qle; lra).
  destruct (rnd_range q hi) as (a & E & Ha0 & Ha1); [lia|lra|done|]. exists a. split; [done|]. split; [|done].
  destruct (rnd_mono (inject_Z lo) q a Hz H1 E) as (b & Eb & _ & Hb). rewrite rnd_Z in Eb by lia. by injection Eb as <-.
Qed.

(** Every point of a sparkline lies in its box, whatever the samples. *)
Lemma sparkline_in_box width height values x y : 0 <= width <= 2 ^ 53 → 2 * padding <= height <= 2 ^ 53 →
  (x, y) ∈ spark_points width height (clean values) →
  ∃ a b, x = Fin a ∧ y = Fin b ∧ (0 <= a <= inject_Z width)%Q ∧ (inject_Z padding <= b <= inject_Z (height - padding))%Q.
Proof.
  intros Hw Hh Hin. set (l := clean values) in *. assert (Hl : Forall (λ v, ∃ q, v = Fin q ∧ (0 <= q)%Q) l) by (apply Forall_forall; intros v; apply elem_clean).
  unfold spark_points in Hin. apply list_elem_of_lookup in Hin as [i Hi]. rewrite list_lookup_imap in Hi.
  destruct (l !! i) as [v|] eqn:Ev; [|done]. cbn [fmap option_fmap option_map] in Hi. injection Hi as <- <-.
  rewrite Forall_forall in Hl. pose proof (list_elem_of_lookup_2 _ _ _ Ev) as Hv. destruct (Hl v Hv) as (q & -> & Hq).
  destruct (peak_spec l) as (m & -> & Hm & Hall); [by apply Forall_forall|]. specialize (Hall q Hv).
  destruct (share_range q m (height - padding * 2)) as (p & -> & Hp0 & Hp1); [done|done|lra|unfold padding in *; lia|].
  assert (Hx : ∃ a, (if Z.of_nat (length l) =? 1 then of_Z width else
      nmul (ndiv (of_Z (Z.of_nat i)) (of_Z (Z.of_nat (length l) - 1))) (of_Z width)) = Fin a ∧ (0 <= a <= inject_Z width)%Q).
  { apply lookup_lt_Some in Ev. destruct (Z.eqb_spec (Z.of_nat (length l)) 1).
    - eexists. split; [reflexivity|]. split; [change 0%Q with (inject_Z 0); rewrite <- Zle_Qle; lia|apply Qle_refl].
    - apply share_range; [change 0%Q with (inject_Z 0); rewrite <- Zle_Qle; lia|rewrite <- Zle_Qle; lia| |done].
      change 0%Q with (inject_Z 0). rewrite <- Zlt_Qlt. lia. }
  destruct Hx as (a & Ea & Ha).
  assert (E : (inject_Z (height - padding) - inject_Z padding == inject_Z (height - padding * 2))%Q).
  { unfold Qminus. rewrite <- inject_Z_opp, <- inject_Z_plus. replace (height - padding + - padding) with (height - padding * 2) by lia. reflexivity. }
  destruct (rnd_between padding (height - padding) (inject_Z (height - padding) + Qred (- p))) as (b & Eb & Hb);
    [unfold padding in *; lia|unfold padding in *; lia|rewrite Qred_correct; lra|rewrite Qred_correct; lra|].
  exists a, b. split; [exact Ea|]. split; [|done]. replace (padding + (height - padding * 2)) with (height - padding) by (unfold padding; lia).
  exact Eb.
Qed.
