(* ===== verification/SettingsPage.v ===== *)
(** * The settings page (web/src/pages/SettingsPage.tsx)

    The settings form with its three cards that share one PUT, the webhook
    test, and the password card.  What the server does with a PUT is
    [ServerSettings]; the software update card is [UpdateCard]. *)
From S2P Require Import Prelude JsString JsNumber JsValue Json Transport Endpoints GoString ServerSchedule Accounts ServerSettings Widgets.

(** ** Settings as the console has them *)

Inductive NotifyOn := NotifyOff | NotifyFailures | NotifyAll.
Inductive Compression := CompressZstd | CompressOff.

#[export] Instance NotifyOn_eq_dec : EqDecision NotifyOn.
Proof. solve_decision. Defined.
#[export] Instance Compression_eq_dec : EqDecision Compression.
Proof. solve_decision. Defined.

Definition notify_text (n : NotifyOn) : jsstr :=
  match n with NotifyOff => u "off" | NotifyFailures => u "failures" | NotifyAll => u "all" end.
Definition compression_text (c : Compression) : jsstr :=
  match c with CompressZstd => u "zstd" | CompressOff => u "off" end.

Record Settings := mkSettings {
  ss_serverName : jsstr;
  ss_concurrency : num;
  ss_webhookUrl : jsstr;
  ss_notifyOn : NotifyOn;
  ss_uploadConcurrency : num;
  ss_compression : Compression;
  ss_uploadLimitMbps : num;
  ss_timezone : option jsstr;
}.

Definition MAX_CONCURRENCY : Z := 32.
Definition MAX_UPLOAD_CONCURRENCY : Z := 16.
Definition MAX_UPLOAD_LIMIT : Z := 10000.

Definition DEFAULT_SETTINGS : Settings :=
  mkSettings [] (of_Z 2) [] NotifyOff (of_Z 4) CompressZstd (of_Z 0) None.

Definition settings_fields (s : Settings) : fields :=
  [(u "serverName", VStr (ss_serverName s)); (u "concurrency", VNum (ss_concurrency s));
   (u "webhookUrl", VStr (ss_webhookUrl s)); (u "notifyOn", VStr (notify_text (ss_notifyOn s)));
   (u "uploadConcurrency", VNum (ss_uploadConcurrency s));
   (u "compression", VStr (compression_text (ss_compression s)));
   (u "uploadLimitMbps", VNum (ss_uploadLimitMbps s)); (u "timezone", opt_val VStr (ss_timezone s))].

(** ** The form *)

Inductive SaveCard := ServerCard | NotificationsCard | PerformanceCard.

#[export] Instance SaveCard_eq_dec : EqDecision SaveCard.
Proof. solve_decision. Defined.

(** [/^https?:\/\//i]. *)
Definition http_url (s : jsstr) : bool :=
  starts_with (u "http://") (map lower s) || starts_with (u "https://") (map lower s).

(** [!Number.isInteger(n) || n < lo || n > hi]. *)
Definition out_of_range (n : num) (lo hi : Z) : bool := negb (isInteger n) || nlt n (of_Z lo) || nlt (of_Z hi) n.

(** Why the form is not sent. *)
Definition persistProblem (form : Settings) : option jsstr :=
  let serverName := trim (ss_serverName form) in
  let webhookUrl := trim (ss_webhookUrl form) in
  if str_eqb serverName [] then Some (u "Give this server a display name.")
  else if out_of_range (ss_concurrency form) 1 MAX_CONCURRENCY
  then Some (cat [u "Concurrency must be a whole number between 1 and "; str_of_Z MAX_CONCURRENCY; u "."])
  else if negb (str_eqb webhookUrl []) && negb (http_url webhookUrl)
  then Some (u "The webhook URL must start with http:// or https://.")
  else if str_eqb webhookUrl [] && negb (bool_decide (ss_notifyOn form = NotifyOff))
  then Some (u "Add a webhook URL, or set notifications to Off.")
  else if out_of_range (ss_uploadConcurrency form) 1 MAX_UPLOAD_CONCURRENCY
  then Some (cat [u "Parallel transfers must be a whole number between 1 and "; str_of_Z MAX_UPLOAD_CONCURRENCY; u "."])
  else if out_of_range (ss_uploadLimitMbps form) 0 MAX_UPLOAD_LIMIT
  then Some (cat [u "The upload limit must be a whole number between 0 and "; str_of_Z MAX_UPLOAD_LIMIT; u " Mbps."])
  else None.

(** What is sent for a form. *)
Definition persistInput (form : Settings) : Settings :=
  mkSettings (trim (ss_serverName form)) (ss_concurrency form) (trim (ss_webhookUrl form)) (ss_notifyOn form)
    (ss_uploadConcurrency form) (ss_compression form) (ss_uploadLimitMbps form) None.

Definition dirty_card (card : SaveCard) (data form : Settings) : bool :=
  match card with
  | ServerCard =>
      negb (str_eqb (ss_serverName data) (ss_serverName form)) || negb (neqb (ss_concurrency data) (ss_concurrency form))
  | NotificationsCard =>
      negb (str_eqb (ss_webhookUrl data) (ss_webhookUrl form)) || negb (bool_decide (ss_notifyOn data = ss_notifyOn form))
  | PerformanceCard =>
      negb (neqb (ss_uploadConcurrency data) (ss_uploadConcurrency form))
      || negb (bool_decide (ss_compression data = ss_compression form))
      || negb (neqb (ss_uploadLimitMbps data) (ss_uploadLimitMbps form))
  end.

(** What Discard puts back. *)
Definition discard (card : SaveCard) (data form : Settings) : Settings :=
  match card with
  | ServerCard =>
      mkSettings (ss_serverName data) (ss_concurrency data) (ss_webhookUrl form) (ss_notifyOn form)
        (ss_uploadConcurrency form) (ss_compression form) (ss_uploadLimitMbps form) (ss_timezone form)
  | NotificationsCard =>
      mkSettings (ss_serverName form) (ss_concurrency form) (ss_webhookUrl data) (ss_notifyOn data)
        (ss_uploadConcurrency form) (ss_compression form) (ss_uploadLimitMbps form) (ss_timezone form)
  | PerformanceCard =>
      mkSettings (ss_serverName form) (ss_concurrency form) (ss_webhookUrl form) (ss_notifyOn form)
        (ss_uploadConcurrency data) (ss_compression data) (ss_uploadLimitMbps data) (ss_timezone form)
  end.

Inductive SettingsEdit :=
  | EName (t : jsstr)
  | EConcurrency (t : jsstr)
  | EWebhook (t : jsstr)
  | ENotify (n : NotifyOn)
  | EUploads (t : jsstr)
  | ECompression (c : Compression)
  | ELimit (t : jsstr).

(** [patch]: the text of a number field is converted as it is typed. *)
Definition patchSettings (e : SettingsEdit) (f : Settings) : Settings :=
  mkSettings
    (match e with EName t => t | _ => ss_serverName f end)
    (match e with EConcurrency t => num_of_str t | _ => ss_concurrency f end)
    (match e with EWebhook t => t | _ => ss_webhookUrl f end)
    (match e with ENotify n => n | _ => ss_notifyOn f end)
    (match e with EUploads t => num_of_str t | _ => ss_uploadConcurrency f end)
    (match e with ECompression c => c | _ => ss_compression f end)
    (match e with ELimit t => num_of_str t | _ => ss_uploadLimitMbps f end)
    (ss_timezone f).

(** ** The page *)

Record CardErrors := mkErrors { er_server : option jsstr; er_notify : option jsstr; er_perf : option jsstr }.

Definition noErrors : CardErrors := mkErrors None None None.

(** The error shown under one card. *)
Definition fail_card (card : SaveCard) (message : jsstr) (e : CardErrors) : CardErrors :=
  match card with
  | ServerCard => mkErrors (Some message) (er_notify e) (er_perf e)
  | NotificationsCard => mkErrors (er_server e) (Some message) (er_perf e)
  | PerformanceCard => mkErrors (er_server e) (er_notify e) (Some message)
  end.

(** [sp_puts] are the PUTs under way; [sp_waiting] says, for each read under
    way, which card's save waits for it; [sp_named] are the names handed to the
    top bar and [sp_said] the toasts, the latest first. *)
Record SettingsState := mkPage {
  sp_async : Async Settings unit;
  sp_waiting : list (option SaveCard);
  sp_form : Settings;
  sp_submitting : option SaveCard;
  sp_error : CardErrors;
  sp_puts : list (SaveCard * Settings);
  sp_testing : bool;
  sp_named : list jsstr;
  sp_said : list ToastCall;
}.

Inductive SettingsMsg :=
  | SEdit (e : SettingsEdit)
  | SDiscard (card : SaveCard)
  | SSave (card : SaveCard)
  (** The answer to a PUT under way. *)
  | SSaved (i : nat) (saved : Settings)
  | SRefused (i : nat) (err : Thrown)
  | SReload
  (** The answer to a read under way. *)
  | SRead (i : nat) (answer : Settings + Thrown)
  | STest
  | STested (answer : (bool * option jsstr) + Thrown).

Definition sp_data (s : SettingsState) : option Settings := as_data (sp_async s).

Definition card_dirty (card : SaveCard) (s : SettingsState) : bool :=
  match sp_data s with Some data => dirty_card card data (sp_form s) | None => false end.

Definition with_sform (form : Settings) (s : SettingsState) : SettingsState :=
  mkPage (sp_async s) (sp_waiting s) form (sp_submitting s) (sp_error s) (sp_puts s) (sp_testing s) (sp_named s) (sp_said s).
Definition with_serror (e : CardErrors) (s : SettingsState) : SettingsState :=
  mkPage (sp_async s) (sp_waiting s) (sp_form s) (sp_submitting s) e (sp_puts s) (sp_testing s) (sp_named s) (sp_said s).

Definition saved_title (card : SaveCard) : jsstr :=
  match card with
  | ServerCard => u "Settings saved."
  | NotificationsCard => u "Notification settings saved."
  | PerformanceCard => u "Performance settings saved — they apply to the next run."
  end.

Section page.
(** How the engine words its own exceptions. *)
Context (engineText : jsstr).

Definition mountSettings : SettingsState :=
  mkPage (mountAsync tt) [None] DEFAULT_SETTINGS None noErrors [] false [] [].

Definition reload_for (who : option SaveCard) (s : SettingsState) : SettingsState :=
  mkPage (run_loader true (sp_async s)) (sp_waiting s ++ [who]) (sp_form s) (sp_submitting s) (sp_error s)
    (sp_puts s) (sp_testing s) (sp_named s) (sp_said s).

Definition persist (card : SaveCard) (s : SettingsState) : SettingsState :=
  match persistProblem (sp_form s) with
  | Some message => with_serror (fail_card card message noErrors) s
  | None =>
      mkPage (sp_async s) (sp_waiting s) (sp_form s) (Some card) noErrors
        (sp_puts s ++ [(card, persistInput (sp_form s))]) (sp_testing s) (sp_named s) (sp_said s)
  end.

(** The server card replaces the loading and the error blocks. *)
Definition server_shown (s : SettingsState) : bool :=
  let failed := match as_error (sp_async s) with Some e => negb (str_eqb e []) | None => false end in
  negb (as_loading (sp_async s) && is_none (sp_data s)) && negb (failed && is_none (sp_data s)).

(** A [Button] that is loading is disabled. *)
Definition settings_offered (s : SettingsState) (m : SettingsMsg) : bool :=
  match m with
  | SEdit (EName _) | SEdit (EConcurrency _) => server_shown s
  | SEdit _ => negb (is_none (sp_data s))
  | SDiscard ServerCard => card_dirty ServerCard s && is_none (sp_submitting s)
  | SDiscard card => card_dirty card s && negb (bool_decide (sp_submitting s = Some card))
  | SSave card => card_dirty card s && negb (bool_decide (sp_submitting s = Some card))
  | SSaved i _ | SRefused i _ => negb (is_none (sp_puts s !! i))
  | SReload => negb (as_loading (sp_async s))
  | SRead i _ => negb (is_none (as_pending (sp_async s) !! i))
  | STest =>
      match sp_data s with
      | Some data => negb (str_eqb (ss_webhookUrl data) []) && negb (card_dirty NotificationsCard s) && negb (sp_testing s)
      | None => false
      end
  | STested _ => sp_testing s
  end.

(** [onTest]'s last words. *)
Definition test_said (answer : (bool * option jsstr) + Thrown) : ToastCall :=
  match answer with
  | inl (true, _) =>
      mkCall ToastSuccess (u "Test notification sent.") (Some (u "A sample run.finished payload went to the saved URL.")) None
  | inl (false, error) =>
      mkCall ToastError (u "The endpoint did not accept the test") (Some (default (u "No further detail was reported.") error)) None
  | inr err => mkCall ToastError (u "Could not send the test") (Some (errorMessage engineText err)) None
  end.

Definition settings_step (s : SettingsState) (m : SettingsMsg) : SettingsState :=
  match m with
  | SEdit e => with_sform (patchSettings e (sp_form s)) s
  | SDiscard card => match sp_data s with Some data => with_sform (discard card data (sp_form s)) s | None => s end
  | SSave card => persist card s
  | SSaved i saved =>
      match sp_puts s !! i with
      | None => s
      | Some (card, _) =>
          reload_for (Some card)
            (mkPage (sp_async s) (sp_waiting s) saved (sp_submitting s) (sp_error s) (delete i (sp_puts s)) (sp_testing s)
               (ss_serverName saved :: sp_named s) (mkCall ToastSuccess (saved_title card) None None :: sp_said s))
      end
  | SRefused i err =>
      match sp_puts s !! i with
      | None => s
      | Some (card, _) =>
          let message := errorMessage engineText err in
          mkPage (sp_async s) (sp_waiting s) (sp_form s) None (fail_card card message (sp_error s)) (delete i (sp_puts s))
            (sp_testing s) (sp_named s) (mkCall ToastError (u "Could not save settings") (Some message) None :: sp_said s)
      end
  | SReload => reload_for None s
  | SRead i answer =>
      (* New data overwrite the form; a save that waited for them is over. *)
      mkPage (async_step engineText (sp_async s) (Settled i answer)) (delete i (sp_waiting s))
        (match answer with inl data => data | inr _ => sp_form s end)
        (match sp_waiting s !! i with Some (Some _) => None | _ => sp_submitting s end)
        (sp_error s) (sp_puts s) (sp_testing s) (sp_named s) (sp_said s)
  | STest =>
      mkPage (sp_async s) (sp_waiting s) (sp_form s) (sp_submitting s) (sp_error s) (sp_puts s) true (sp_named s) (sp_said s)
  | STested answer =>
      mkPage (sp_async s) (sp_waiting s) (sp_form s) (sp_submitting s) (sp_error s) (sp_puts s) false (sp_named s)
        (test_said answer :: sp_said s)
  end.

Inductive settings_run : SettingsState → Prop :=
  | settings_mount : settings_run mountSettings
  | settings_next s m : settings_run s → settings_offered s m = true → settings_run (settings_step s m).
End page.

(** ** The password card *)

Record PasswordCard := mkPassword {
  pw_current : jsstr; pw_next : jsstr; pw_confirm : jsstr;
  pw_submitting : bool; pw_error : option jsstr; pw_must : bool;
  pw_sent : list (jsstr * jsstr); pw_said : list ToastCall;
}.

Inductive PasswordMsg :=
  | WCurrent (t : jsstr)
  | WNext (t : jsstr)
  | WConfirm (t : jsstr)
  | WSubmit
  | WAnswer (answer : option Thrown).

(** Why the passwords are not sent; [length] counts UTF-16 units. *)
Definition passwordProblem (c : PasswordCard) : option jsstr :=
  if str_eqb (pw_current c) [] || str_eqb (pw_next c) [] then Some (u "Enter your current password and the new one.")
  else if Z.of_nat (length (pw_next c)) <? 8 then Some (u "The new password must be at least 8 characters.")
  else if negb (str_eqb (pw_next c) (pw_confirm c)) then Some (u "The new passwords do not match.")
  else None.

Definition password_step (engineText : jsstr) (c : PasswordCard) (m : PasswordMsg) : PasswordCard :=
  match m with
  | WCurrent t => mkPassword t (pw_next c) (pw_confirm c) (pw_submitting c) (pw_error c) (pw_must c) (pw_sent c) (pw_said c)
  | WNext t => mkPassword (pw_current c) t (pw_confirm c) (pw_submitting c) (pw_error c) (pw_must c) (pw_sent c) (pw_said c)
  | WConfirm t => mkPassword (pw_current c) (pw_next c) t (pw_submitting c) (pw_error c) (pw_must c) (pw_sent c) (pw_said c)
  | WSubmit =>
      match passwordProblem c with
      | Some message =>
          mkPassword (pw_current c) (pw_next c) (pw_confirm c) (pw_submitting c) (Some message) (pw_must c) (pw_sent c) (pw_said c)
      | None =>
          mkPassword (pw_current c) (pw_next c) (pw_confirm c) true None (pw_must c)
            ((pw_current c, pw_next c) :: pw_sent c) (pw_said c)
      end
  | WAnswer None =>
      mkPassword [] [] [] false (pw_error c) false (pw_sent c)
        (mkCall ToastSuccess (u "Password changed.") (Some (u "Other signed-in sessions have been revoked.")) None :: pw_said c)
  | WAnswer (Some err) =>
      let message := errorMessage engineText err in
      mkPassword (pw_current c) (pw_next c) (pw_confirm c) false (Some message) (pw_must c) (pw_sent c)
        (mkCall ToastError (u "Could not change the password") (Some message) None :: pw_said c)
  end.

Definition mountPassword (must : bool) : PasswordCard := mkPassword [] [] [] false None must [] [].

(** ** What the server makes of a form *)

(** The settings a form asks for; a name the server sees as blank becomes its
    default. *)
Definition go_settings (f : Settings) : GoSettings :=
  let name := TrimSpace (go_string (ss_serverName f)) in
  mkGoSettings (if str_eqb name [] then u "ProxBack" else name) (num_Z (ss_concurrency f))
    (TrimSpace (go_string (ss_webhookUrl f))) (notify_text (ss_notifyOn f)) (num_Z (ss_uploadConcurrency f))
    (compression_text (ss_compression f)) (num_Z (ss_uploadLimitMbps f)).

(** The body of a PUT. *)
Definition put_body (input : Settings) : jsval :=
  default VUndef (r ← putSettings (settings_fields input); rq_body r).

(** What the console checks before it sends. *)
Definition sendable (f : Settings) : Prop :=
  out_of_range (ss_concurrency f) 1 MAX_CONCURRENCY = false
  ∧ out_of_range (ss_uploadConcurrency f) 1 MAX_UPLOAD_CONCURRENCY = false
  ∧ out_of_range (ss_uploadLimitMbps f) 0 MAX_UPLOAD_LIMIT = false
  ∧ (ss_webhookUrl f = [] ∨ http_url (ss_webhookUrl f) = true)
  ∧ (ss_webhookUrl f = [] → ss_notifyOn f = NotifyOff)
  ∧ ss_serverName f ≠ [] ∧ trim (ss_serverName f) = ss_serverName f.

Lemma persist_sendable f : persistProblem f = None → sendable (persistInput f).
Proof.
  unfold persistProblem, sendable. cbv zeta.
  cbn [persistInput ss_serverName ss_concurrency ss_webhookUrl ss_notifyOn ss_uploadConcurrency ss_uploadLimitMbps].
  rewrite trim_idem. destruct (str_eqb (trim (ss_serverName f)) []) eqn:E1; [discriminate|].
  destruct (out_of_range (ss_concurrency f) _ _) eqn:E2; [discriminate|].
  destruct (negb _ && negb (http_url _)) eqn:E3; [discriminate|].
  destruct (str_eqb _ [] && _) eqn:E4; [discriminate|].
  destruct (out_of_range (ss_uploadConcurrency f) _ _) eqn:E5; [discriminate|].
  destruct (out_of_range (ss_uploadLimitMbps f) _ _) eqn:E6; [discriminate|]. intros _.
  unfold str_eqb in *. rewrite andb_false_iff, !negb_false_iff, bool_decide_eq_true in E3.
  rewrite andb_false_iff, negb_false_iff, bool_decide_eq_true, bool_decide_eq_false in E4.
  apply bool_decide_eq_false in E1. naive_solver.
Qed.

Lemma in_range_int n lo hi : out_of_range n lo hi = false → - 2 ^ 63 <= lo → hi < 2 ^ 63 →
  dec_int (VNum n) = Some (num_Z n) ∧ lo <= num_Z n <= hi.
Proof.
  unfold out_of_range. rewrite !orb_false_iff, negb_false_iff. intros [[Hi Hl] Hh] H1 H2.
  destruct (isInteger_range n lo hi Hi Hl Hh) as [(q & E & Hr & Hn) Hb]. split; [|done].
  subst n. cbn [dec_int]. rewrite Hr. cbv zeta. rewrite Hn.
  rewrite (proj2 (Z.leb_le _ _)), (proj2 (Z.ltb_lt _ _)) by lia. done.
Qed.

Lemma put_body_eq f : put_body f =
  VObj [(u "serverName", VStr (ss_serverName f)); (u "concurrency", VNum (ss_concurrency f));
        (u "webhookUrl", VStr (ss_webhookUrl f)); (u "notifyOn", VStr (notify_text (ss_notifyOn f)));
        (u "uploadConcurrency", VNum (ss_uploadConcurrency f));
        (u "compression", VStr (compression_text (ss_compression f)));
        (u "uploadLimitMbps", VNum (ss_uploadLimitMbps f))].
Proof. reflexivity. Qed.

Lemma go_notify n : go_string (notify_text n) = notify_text n ∧ ValidNotifyOn (notify_text n) = true.
Proof. destruct n; by split. Qed.
Lemma go_compression c : go_string (compression_text c) = compression_text c ∧ ValidCompression (compression_text c) = true.
Proof. destruct c; by split. Qed.

(** What the server decodes. *)
Definition sent_body (f : Settings) : SettingsBody :=
  mkBody (Some (go_string (ss_serverName f))) (Some (num_Z (ss_concurrency f))) (Some (go_string (ss_webhookUrl f)))
    (Some (notify_text (ss_notifyOn f))) (Some (num_Z (ss_uploadConcurrency f)))
    (Some (compression_text (ss_compression f))) (Some (num_Z (ss_uploadLimitMbps f))).

Lemma decode_put f : sendable f → decodeSettings (put_body f) = Some (sent_body f).
Proof.
  intros (H1 & H2 & H3 & _). rewrite put_body_eq.
  destruct (in_range_int _ _ _ H1) as [D1 _]; [unfold MAX_CONCURRENCY; lia..|].
  destruct (in_range_int _ _ _ H2) as [D2 _]; [unfold MAX_UPLOAD_CONCURRENCY; lia..|].
  destruct (in_range_int _ _ _ H3) as [D3 _]; [unfold MAX_UPLOAD_LIMIT; lia..|].
  unfold decodeSettings, get. js_eval. unfold dec_ptr. cbn [is_nullish]. rewrite D1, D2, D3.
  cbn [dec_string fmap option_fmap option_map mbind option_bind].
  unfold sent_body. by rewrite (proj1 (go_notify _)), (proj1 (go_compression _)).
Qed.

Lemma put_refusal Parse f : sendable f →
  settingsRefusal Parse (sent_body f) =
  (if validateWebhookURL Parse (WebhookURL (go_settings f)) then None else Some BadWebhook).
Proof.
  intros (H1 & H2 & H3 & _).
  destruct (in_range_int _ _ _ H1) as [_ B1]; [unfold MAX_CONCURRENCY; lia..|].
  destruct (in_range_int _ _ _ H2) as [_ B2]; [unfold MAX_UPLOAD_CONCURRENCY; lia..|].
  destruct (in_range_int _ _ _ H3) as [_ B3]; [unfold MAX_UPLOAD_LIMIT; lia..|].
  unfold settingsRefusal, refused, sent_body.
  cbn [bd_concurrency bd_webhookUrl bd_notifyOn bd_uploadConcurrency bd_compression bd_uploadLimitMbps].
  rewrite (proj2 (go_notify _)), (proj2 (go_compression _)), (proj2 (Z.leb_le 1 _)) by lia.
  rewrite (proj2 (within_spec MinUploadConcurrency _ _)), (proj2 (within_spec MinUploadLimitMbps _ _)) by done.
  cbn [go_settings WebhookURL negb]. by destruct (validateWebhookURL _ _).
Qed.

Lemma go_settings_ok f : sendable f → settings_ok (go_settings f).
Proof.
  intros (H1 & H2 & H3 & _).
  destruct (in_range_int _ _ _ H1) as [_ B1]; [unfold MAX_CONCURRENCY; lia..|].
  destruct (in_range_int _ _ _ H2) as [_ B2]; [unfold MAX_UPLOAD_CONCURRENCY; lia..|].
  destruct (in_range_int _ _ _ H3) as [_ B3]; [unfold MAX_UPLOAD_LIMIT; lia..|].
  unfold settings_ok, go_settings. cbv zeta.
  cbn [ServerName Concurrency WebhookURL NotifyOnText UploadConcurrency CompressionText UploadLimitMbps].
  rewrite (proj2 (go_notify _)), (proj2 (go_compression _)). unfold MAX_CONCURRENCY in B1.
  split_and!; try done; try lia; try by apply within_spec.
  unfold str_eqb. case_bool_decide; [discriminate|done].
Qed.

Lemma apply_put f s : normalizeSettings (applyBody (sent_body f) s) = normalizeSettings (go_settings f).
Proof.
  unfold normalizeSettings, go_settings, applyBody, sent_body. cbv zeta.
  cbn [ServerName Concurrency WebhookURL NotifyOnText UploadConcurrency CompressionText UploadLimitMbps
       bd_serverName bd_concurrency bd_webhookUrl bd_notifyOn bd_uploadConcurrency bd_compression bd_uploadLimitMbps default].
  f_equal. unfold str_eqb. do 2 case_bool_decide; done.
Qed.

Lemma put_answer Parse f kv : sendable f →
  handlePutSettings Parse (sent_body f) kv =
  (if validateWebhookURL Parse (WebhookURL (go_settings f))
   then inl (go_settings f, SaveSettings (go_settings f) kv) else inr BadWebhook).
Proof.
  intros Hf. unfold handlePutSettings. rewrite put_refusal by done.
  destruct (validateWebhookURL _ _); [|done]. cbv zeta.
  replace (SaveSettings (applyBody (sent_body f) (ReadSettings kv)) kv) with (SaveSettings (go_settings f) kv)
    by (unfold SaveSettings; by rewrite apply_put).
  by rewrite settings_ok_kept by by apply go_settings_ok.
Qed.

(** ** The page's invariant *)

(** Every PUT under way passed the console's checks; every read has its waiter;
    a card whose button spins has a request under way. *)
Definition settings_inv (s : SettingsState) : Prop :=
  Forall (λ p, sendable p.2) (sp_puts s)
  ∧ length (sp_waiting s) = length (as_pending (sp_async s))
  ∧ as_mounted (sp_async s) = true
  ∧ (∀ card, sp_submitting s = Some card → card ∈ map fst (sp_puts s) ∨ Some card ∈ sp_waiting s).

Lemma elem_of_delete {A} (l : list A) i x y : x ∈ l → l !! i = Some y → x = y ∨ x ∈ delete i l.
Proof.
  intros Hx Hi. apply list_elem_of_lookup in Hx as [j Hj]. destruct (decide (i = j)) as [->|Hne]; [left; congruence|right].
  rewrite <- (take_drop_middle l i y Hi) in Hj. rewrite delete_take_drop.
  apply list_elem_of_lookup. destruct (decide (j < i)%nat).
  - exists j. rewrite lookup_app_l in Hj |- *; [done|..]; rewrite length_take; apply lookup_lt_Some in Hi; lia.
  - exists (pred j). apply lookup_lt_Some in Hi as Hlt.
    rewrite lookup_app_r in Hj |- *; rewrite ?length_take in *; [|lia..].
    replace (j - i `min` length l)%nat with (S (pred j - i `min` length l)) in Hj by lia. exact Hj.
Qed.

Section invariant.
Context (engineText : jsstr).

Lemma settings_step_inv s m : settings_inv s → settings_offered s m = true → settings_inv (settings_step engineText s m).
Proof.
  intros (H1 & H2 & H3 & H4) Ho. unfold settings_inv. destruct m as [e|card|card|i saved|i err| |i answer| |answer];
    cbn [settings_step]; try done.
  - by destruct (sp_data s).
  - unfold persist. destruct (persistProblem (sp_form s)) eqn:E; [done|].
    cbn [sp_puts sp_waiting sp_async sp_submitting]. split_and!; [|done..|].
    + apply Forall_app. split; [done|]. constructor; [|constructor]. by apply persist_sendable.
    + intros c [= <-]. left. rewrite map_app. set_solver.
  - destruct (sp_puts s !! i) as [[card sent]|] eqn:E; [|done].
    cbn [reload_for run_loader sp_puts sp_waiting sp_async sp_submitting as_pending as_mounted].
    split_and!; [by apply Forall_delete|rewrite !length_app; cbn; lia|done|].
    intros c Hc. rewrite elem_of_app. destruct (H4 c Hc) as [Hin|]; [|by auto].
    apply list_elem_of_fmap in Hin as (p & -> & Hp). destruct (elem_of_delete _ _ _ _ Hp E) as [->|Hd].
    + right. right. by apply list_elem_of_singleton.
    + left. by apply list_elem_of_fmap_2.
  - destruct (sp_puts s !! i) as [[card sent]|] eqn:E; [|done].
    cbn [sp_puts sp_waiting sp_async sp_submitting]. split_and!; [by apply Forall_delete|done..].
  - cbn [reload_for run_loader sp_puts sp_waiting sp_async sp_submitting as_pending as_mounted].
    split_and!; [done|rewrite !length_app; cbn; lia|done|]. intros c Hc. rewrite elem_of_app. destruct (H4 c Hc); auto.
  - cbn [sp_puts sp_waiting sp_async sp_submitting async_step]. rewrite H3.
    cbn [settings_offered] in Ho. rewrite negb_true_iff in Ho.
    destruct (as_pending (sp_async s) !! i) eqn:Ei; [|discriminate Ho]. apply lookup_lt_Some in Ei.
    assert (Hl : length (delete i (sp_waiting s)) = length (delete i (as_pending (sp_async s)))).
    { rewrite !length_delete by (apply lookup_lt_is_Some; lia). by rewrite H2. }
    split_and!; [done|by destruct answer|by destruct answer|].
    destruct (sp_waiting s !! i) as [[who|]|] eqn:Ew; [done| |].
    + intros c Hc. destruct (H4 c Hc) as [|Hw]; [by left|].
      destruct (elem_of_delete _ _ _ _ Hw Ew) as [|]; [done|by right].
    + apply lookup_ge_None in Ew. lia.
Qed.

Lemma settings_run_inv s : settings_run engineText s → settings_inv s.
Proof. induction 1 as [|s m _ IH Ho]; [by split_and!|by apply settings_step_inv]. Qed.

(** A button never spins for ever: while one does, a request is under way. *)
Lemma spinner_live s card : settings_run engineText s → sp_submitting s = Some card →
  sp_puts s ≠ [] ∨ as_pending (sp_async s) ≠ [].
Proof.
  intros Hr Hc. destruct (settings_run_inv s Hr) as (_ & H2 & _ & H4). destruct (H4 card Hc) as [H|H].
  - left. intros E. by rewrite E in H; apply elem_of_nil in H.
  - right. intros E. rewrite E in H2. destruct (sp_waiting s); [by apply elem_of_nil in H|discriminate H2].
Qed.

(** C23: whatever the operator does, what the page sends the server decodes and, if
    the webhook is a URL it can use, stores and reads back exactly: the only
    refusal left is the webhook's, and an empty webhook is never refused. *)
Theorem settings_stored Parse s card sent kv :
  settings_run engineText s → (card, sent) ∈ sp_puts s →
  ∃ b, decodeSettings (put_body sent) = Some b
  ∧ match handlePutSettings Parse b kv with
    | inl (answered, kv') => answered = go_settings sent ∧ ReadSettings kv' = go_settings sent
    | inr refusal =>
        refusal = BadWebhook ∧ ss_webhookUrl sent ≠ [] ∧ validateWebhookURL Parse (WebhookURL (go_settings sent)) = false
    end.
Proof.
  intros Hr Hin. destruct (settings_run_inv s Hr) as (H1 & _). rewrite Forall_forall in H1.
  specialize (H1 _ Hin). cbn in H1. exists (sent_body sent). split; [by apply decode_put|].
  rewrite put_answer by done. destruct (validateWebhookURL _ _) eqn:E.
  - split; [done|]. by apply settings_ok_kept, go_settings_ok.
  - split_and!; [done| |done]. intros C. unfold go_settings in E. cbv zeta in E. cbn [WebhookURL] in E.
    rewrite C in E. discriminate E.
Qed.
End invariant.

(** A new password the console accepts is never too short for the server. *)
Lemma password_long_enough c : passwordProblem c = None → short (go_string (pw_next c)) = false ∧ pw_next c = pw_confirm c.
Proof.
  unfold passwordProblem, short. destruct (_ || _); [discriminate|].
  destruct (Z.ltb_spec (Z.of_nat (length (pw_next c))) 8); [discriminate|].
  unfold str_eqb. case_bool_decide; [|discriminate]. intros _. split; [|done].
  pose proof (go_string_longer (pw_next c)). apply Z.ltb_ge. unfold MinPasswordLength. lia.
Qed.

(** ** Witnesses and examples *)

Definition stored_settings : Settings :=
  mkSettings (u "pve-backup") (of_Z 2) [] NotifyOff (of_Z 4) CompressZstd (of_Z 0) (Some (u "UTC")).

Definition renaming : list SettingsMsg :=
  [SRead 0 (inl stored_settings); SEdit (EName (u " Vault ")); SEdit (EWebhook (u "https://ntfy.sh/x")); SSave ServerCard].

Definition after (ms : list SettingsMsg) : SettingsState := fold_left (settings_step (u "")) ms mountSettings.

Lemma settings_stored_witness : ∃ b, decodeSettings (put_body (persistInput (patchSettings (EWebhook (u "https://ntfy.sh/x"))
    (patchSettings (EName (u " Vault ")) stored_settings)))) = Some b
  ∧ match handlePutSettings (λ _, Some (u "https", u "ntfy.sh")) b ∅ with
    | inl (answered, _) => ServerName answered = u "Vault" | inr _ => False
    end.
Proof.
  destruct (settings_stored (u "") (λ _, Some (u "https", u "ntfy.sh")) (after renaming) ServerCard
    (persistInput (patchSettings (EWebhook (u "https://ntfy.sh/x")) (patchSettings (EName (u " Vault ")) stored_settings))) ∅)
    as (b & Hb & Ha).
  - unfold after, renaming. cbn [fold_left]. repeat (apply settings_next; [|vm_compute; reflexivity]). apply settings_mount.
  - apply list_elem_of_lookup. exists 0%nat. vm_compute. reflexivity.
  - exists b. split; [exact Hb|].
    assert (decodeSettings (put_body (persistInput (patchSettings (EWebhook (u "https://ntfy.sh/x"))
      (patchSettings (EName (u " Vault ")) stored_settings)))) = Some b) as E by exact Hb.
    vm_compute in E. injection E as <-. vm_compute. reflexivity.
Defined.

(** Saving one card sends the unsaved edits of the others with it. *)
Lemma saves_every_card :
  map (λ p, (p.1, ss_webhookUrl p.2)) (sp_puts (after renaming)) = [(ServerCard, u "https://ntfy.sh/x")].
Proof. vm_compute. reflexivity. Qed.

(** What is typed while a save is under way is lost: the answer replaces the
    whole form. *)
Lemma typed_while_saving :
  let s := after (renaming ++ [SEdit (EConcurrency (u "8")); SSaved 0 stored_settings]) in
  neqb (ss_concurrency (sp_form s)) (of_Z 2) = true ∧ ss_serverName (sp_form s) = u "pve-backup".
Proof. vm_compute. auto. Qed.
