(* ===== verification/UpdateCard.v ===== *)
(** * The software update card (web/src/pages/SettingsPage.tsx, SoftwareUpdateCard)

    Checking for a release, the confirmation, the install request with its
    override, and the poll that waits for the restarted server. *)
From S2P Require Import Prelude JsString JsNumber JsValue Transport Endpoints Widgets.

Record UpdateStatus := mkStatus {
  us_currentVersion : jsstr;
  us_latestVersion : option jsstr;
  us_updateAvailable : bool;
  us_releaseNotes : option jsstr;
  us_releaseUrl : option jsstr;
  us_assetAvailable : bool;
  us_checkError : option jsstr;
}.

Record UpdateApplyResult := mkApplied { ua_version : jsstr; ua_restarting : bool }.

(** A poll: when it started, whether its interval still runs, and how many of
    its requests are unanswered. *)
Record Poll := mkPoll { po_started : Z; po_running : bool; po_asked : nat }.

(** [up_asking] is the confirmation on screen, with its [force]; [up_sent] are
    the install requests so far, the latest first, and [up_waiting] those not
    answered yet; [up_reloaded] is set when the page reloads itself. *)
Record UpdateState := mkUpdate {
  up_async : Async UpdateStatus unit;
  up_applying : bool;
  up_restarting : bool;
  up_blocked : option jsstr;
  up_asking : option bool;
  up_sent : list bool;
  up_waiting : list bool;
  up_polls : list Poll;
  up_now : Z;
  up_reloaded : bool;
  up_said : list ToastCall;
}.

Inductive UpdateMsg :=
  | UInstall
  | UWait
  | UInstallAnyway
  | UAnswer (ok : bool)
  (** The answer to an install request. *)
  | UApplied (i : nat) (result : UpdateApplyResult)
  | UFailed (i : nat) (err : Thrown)
  | UCheckAgain
  | UChecked (i : nat) (answer : UpdateStatus + Thrown)
  (** Two seconds pass, the interval of every running poll fires; a poll is answered. *)
  | UTick
  | UPolled (i : nat) (ok : bool).

(** [/in progress/i.test(message)]. *)
Fixpoint mentions (needle s : jsstr) : bool :=
  starts_with needle s || match s with [] => false | _ :: s' => mentions needle s' end.

Definition in_progress (message : jsstr) : bool := mentions (u "in progress") (map lower message).

(** The server refused because runs are in flight. *)
Definition runs_in_flight (err : Thrown) : option jsstr :=
  match isApiError err with
  | Some e => if isConflict e && in_progress (err_message e) then Some (err_message e) else None
  | None => None
  end.

(** The refusal an override is offered for: an unforced install's. *)
Definition override_offer (force : bool) (err : Thrown) : option jsstr :=
  if force then None else runs_in_flight err.

Section update.
(** How the engine words its own exceptions. *)
Context (engineText : jsstr).

Definition mountUpdate : UpdateState :=
  mkUpdate (mountAsync tt) false false None None [] [] [] 0 false [].

Definition up_status (s : UpdateState) : option UpdateStatus := as_data (up_async s).

Definition with_asking (asking : option bool) (s : UpdateState) : UpdateState :=
  mkUpdate (up_async s) (up_applying s) (up_restarting s) (up_blocked s) asking (up_sent s) (up_waiting s) (up_polls s)
    (up_now s) (up_reloaded s) (up_said s).
Definition with_blocked (blocked : option jsstr) (s : UpdateState) : UpdateState :=
  mkUpdate (up_async s) (up_applying s) (up_restarting s) blocked (up_asking s) (up_sent s) (up_waiting s) (up_polls s)
    (up_now s) (up_reloaded s) (up_said s).
Definition with_polls (polls : list Poll) (now : Z) (reloaded : bool) (s : UpdateState) : UpdateState :=
  mkUpdate (up_async s) (up_applying s) (up_restarting s) (up_blocked s) (up_asking s) (up_sent s) (up_waiting s) polls
    now reloaded (up_said s).
Definition with_async (a : Async UpdateStatus unit) (s : UpdateState) : UpdateState :=
  mkUpdate a (up_applying s) (up_restarting s) (up_blocked s) (up_asking s) (up_sent s) (up_waiting s) (up_polls s)
    (up_now s) (up_reloaded s) (up_said s).

(** [install(force)] up to its confirmation. *)
Definition install (force : bool) (s : UpdateState) : UpdateState :=
  match up_status s with None => s | Some _ => with_asking (Some force) s end.

(** The rest of it, once the dialog is answered. *)
Definition install_confirmed (force : bool) (s : UpdateState) : UpdateState :=
  mkUpdate (up_async s) true (up_restarting s) (up_blocked s) None (force :: up_sent s) (up_waiting s ++ [force])
    (up_polls s) (up_now s) (up_reloaded s) (up_said s).

(** The card shows its buttons: not restarting, and a status to show. *)
Definition status_shown (s : UpdateState) : option UpdateStatus :=
  if up_restarting s then None else up_status s.

(** The dialog covers the page: its buttons are the only ones in reach. *)
Definition update_offered (s : UpdateState) (m : UpdateMsg) : bool :=
  match m with
  | UInstall =>
      match status_shown s with
      | Some st => us_updateAvailable st && us_assetAvailable st && negb (up_applying s) && is_none (up_asking s)
      | None => false
      end
  | UWait => negb (is_none (status_shown s)) && negb (is_none (up_blocked s)) && is_none (up_asking s)
  | UInstallAnyway =>
      negb (is_none (status_shown s)) && negb (is_none (up_blocked s)) && negb (up_applying s) && is_none (up_asking s)
  | UAnswer _ => negb (is_none (up_asking s))
  | UApplied i _ | UFailed i _ => negb (is_none (up_waiting s !! i))
  | UCheckAgain => negb (is_none (status_shown s)) && negb (as_loading (up_async s)) && is_none (up_asking s)
  | UChecked i _ => negb (is_none (as_pending (up_async s) !! i))
  | UTick => true
  | UPolled i _ => match up_polls s !! i with Some p => (0 <? po_asked p)%nat | None => false end
  end.

Definition tick_poll (p : Poll) : Poll :=
  if po_running p then mkPoll (po_started p) true (S (po_asked p)) else p.

Definition update_step (s : UpdateState) (m : UpdateMsg) : UpdateState :=
  match m with
  | UInstall => install false s
  | UWait => with_blocked None s
  | UInstallAnyway => install true (with_blocked None s)
  | UAnswer ok =>
      match up_asking s with
      | Some force => if ok then install_confirmed force s else with_asking None s
      | None => s
      end
  | UApplied i result =>
      let rest := delete i (up_waiting s) in
      if ua_restarting result then
        mkUpdate (up_async s) (up_applying s) true (up_blocked s) (up_asking s) (up_sent s) rest
          (up_polls s ++ [mkPoll (up_now s) true 0]) (up_now s) (up_reloaded s) (up_said s)
      else
        mkUpdate (run_loader true (up_async s)) (up_applying s) (up_restarting s) (up_blocked s) (up_asking s) (up_sent s) rest
          (up_polls s) (up_now s) (up_reloaded s)
          (mkCall ToastSuccess (cat [u "Version "; ua_version result; u " installed."])
             (Some (u "Restart the ProxBack service to start running it.")) None :: up_said s)
  | UFailed i err =>
      match up_waiting s !! i with
      | None => s
      | Some force =>
          let rest := delete i (up_waiting s) in
          match override_offer force err with
          | Some message =>
              mkUpdate (up_async s) false (up_restarting s) (Some message) (up_asking s) (up_sent s) rest (up_polls s)
                (up_now s) (up_reloaded s) (up_said s)
          | None =>
              mkUpdate (up_async s) false (up_restarting s) (up_blocked s) (up_asking s) (up_sent s) rest (up_polls s)
                (up_now s) (up_reloaded s)
                (mkCall ToastError (u "Update failed") (Some (errorMessage engineText err)) None :: up_said s)
          end
      end
  | UCheckAgain => with_async (run_loader true (up_async s)) s
  | UChecked i answer => with_async (async_step engineText (up_async s) (Settled i answer)) s
  | UTick => with_polls (map tick_poll (up_polls s)) (up_now s + 2000) (up_reloaded s) s
  | UPolled i ok =>
      match up_polls s !! i with
      | None => s
      | Some p =>
          let stop := ok || (120000 <? up_now s - po_started p) in
          with_polls (<[i := mkPoll (po_started p) (po_running p && negb stop) (pred (po_asked p))]> (up_polls s))
            (up_now s) (up_reloaded s || ok) s
      end
  end.

Definition update_run (ms : list UpdateMsg) : UpdateState := fold_left update_step ms mountUpdate.

(** Every message was on offer when it was sent. *)
Fixpoint offered_from (s : UpdateState) (ms : list UpdateMsg) : bool :=
  match ms with [] => true | m :: ms => update_offered s m && offered_from (update_step s m) ms end.
End update.

(** ** When an install is forced *)

Definition count_of (b : bool) (l : list bool) : nat := length (List.filter (Bool.eqb b) l).

#[local] Arguments count_of : simpl never.

Section counting.
Context (engineText : jsstr).

(** The operator's confirmations in a trace, and the refusals of unforced
    installs for runs in flight. *)
Definition confirms_now (s : UpdateState) (m : UpdateMsg) : nat :=
  match m, up_asking s with UAnswer true, Some _ => 1 | _, _ => 0 end.

Definition refuses_now (s : UpdateState) (m : UpdateMsg) : nat :=
  match m with
  | UFailed i err =>
      match up_waiting s !! i with
      | Some force => if negb force && negb (is_none (runs_in_flight err)) then 1 else 0
      | None => 0
      end
  | _ => 0
  end.

Fixpoint tally (f : UpdateState → UpdateMsg → nat) (s : UpdateState) (ms : list UpdateMsg) : nat :=
  match ms with [] => 0 | m :: ms => f s m + tally f (update_step engineText s m) ms end.

(** One refusal is behind every forced request, pending question and notice;
    every refusal answered an unforced request; every request was confirmed. *)
Definition asks_force (o : option bool) : bool := match o with Some true => true | _ => false end.
Definition token (b : bool) : nat := if b then 1 else 0.

Definition install_inv (refusals confirmed : nat) (s : UpdateState) : Prop :=
  (count_of true (up_sent s) + token (asks_force (up_asking s)) + token (negb (is_none (up_blocked s))) <= refusals)%nat
  ∧ (refusals + count_of false (up_waiting s) <= count_of false (up_sent s))%nat
  ∧ (length (up_sent s) = confirmed)%nat.

Lemma count_of_app b l k : count_of b (l ++ k) = (count_of b l + count_of b k)%nat.
Proof. unfold count_of. by rewrite List.filter_app, length_app. Qed.

Lemma count_of_delete b l i x : l !! i = Some x → (count_of b (delete i l) + token (Bool.eqb b x) = count_of b l)%nat.
Proof.
  intros H. rewrite <- (take_drop_middle l i x H) at 2. rewrite delete_take_drop, !count_of_app.
  unfold count_of at 4, token. cbn [List.filter]. destruct (Bool.eqb b x); cbn [length]; unfold count_of; lia.
Qed.

Lemma install_step_inv r c s m : install_inv r c s → update_offered s m = true →
  install_inv (r + refuses_now s m) (c + confirms_now s m) (update_step engineText s m).
Proof.
  unfold install_inv, refuses_now, confirms_now. intros (H1 & H2 & H3) Ho.
  destruct m as [| | |ok|i result|i err| |i answer| |i ok]; cbn [update_step update_offered] in *.
  all: unfold install, install_confirmed.
  - destruct (up_status s); cbn; lia.
  - cbn. lia.
  - destruct (up_blocked s); [|by rewrite !andb_false_r in Ho]. unfold up_status. cbn [with_blocked up_async].
    destruct (up_asking s) eqn:Ea; [by rewrite andb_false_r in Ho|].
    destruct (as_data (up_async s)); cbn in *; rewrite ?Ea; cbn; lia.
  - destruct (up_asking s) as [force|]; [|discriminate Ho]. destruct ok; [|cbn; lia].
    cbn [up_sent up_asking up_blocked up_waiting asks_force]. rewrite count_of_app.
    destruct force; unfold count_of in *; cbn in *; lia.
  - destruct (up_waiting s !! i) as [force|] eqn:E; [|discriminate Ho].
    pose proof (count_of_delete false _ _ _ E). destruct (ua_restarting result); cbn; lia.
  - destruct (up_waiting s !! i) as [force|] eqn:E; [|discriminate Ho].
    pose proof (count_of_delete false _ _ _ E) as Hd.
    unfold override_offer. destruct force; [cbn; lia|]. destruct (runs_in_flight err); [|cbn; lia].
    destruct (up_blocked s); cbn in *; lia.
  - cbn. lia.
  - cbn. lia.
  - cbn. lia.
  - destruct (up_polls s !! i); cbn; lia.
Qed.

Lemma install_run_inv ms s r c : install_inv r c s → offered_from engineText s ms = true →
  install_inv (r + tally refuses_now s ms) (c + tally confirms_now s ms) (fold_left (update_step engineText) ms s).
Proof.
  revert s r c. induction ms as [|m ms IH]; intros s r c Hi Ho; cbn [tally fold_left].
  { by rewrite !Nat.add_0_r. }
  cbn [offered_from] in Ho. apply andb_true_iff in Ho as [Hm Ho]. rewrite !Nat.add_assoc.
  apply IH; [by apply install_step_inv|done].
Qed.

(** C33: an update that cancels running work is asked for at most once per
    refusal of an ordinary install, every refusal answered an ordinary install
    the operator had confirmed, and every request at all was confirmed. *)
Theorem forced_after_refusal ms : offered_from engineText mountUpdate ms = true →
  let s := update_run engineText ms in
  (count_of true (up_sent s) <= tally refuses_now mountUpdate ms)%nat
  ∧ (tally refuses_now mountUpdate ms <= count_of false (up_sent s))%nat
  ∧ length (up_sent s) = tally confirms_now mountUpdate ms.
Proof.
  intros Ho s. destruct (install_run_inv ms mountUpdate 0 0) as (H1 & H2 & H3); [by split_and!|done|].
  unfold s, update_run. cbn [Nat.add] in *. split_and!; [lia|lia|done].
Qed.
End counting.

Definition release : UpdateStatus := mkStatus (u "0.4.0") (Some (u "0.4.1")) true None None true None.
Definition conflict : Thrown := ThrownApi (mkApiError 409 (u "2 runs are in progress") [] VUndef).
Definition forcing : list UpdateMsg :=
  [UChecked 0 (inl release); UInstall; UAnswer true; UFailed 0 conflict; UInstallAnyway; UAnswer true].

Lemma forced_after_refusal_witness :
  up_sent (update_run (u "") forcing) = [true; false] ∧ tally (u "") refuses_now mountUpdate forcing = 1%nat
  ∧ (count_of true (up_sent (update_run (u "") forcing)) <= tally (u "") refuses_now mountUpdate forcing)%nat.
Proof. split_and!; [reflexivity..|]. apply (forced_after_refusal (u "") forcing). vm_compute. reflexivity. Defined.

(** After an install that does not restart the server the card stays busy: no
    install is on offer again until the page is left. *)
Lemma stays_busy engineText ms s : up_applying s = true → up_waiting s = [] → up_asking s = None →
  offered_from engineText s ms = true → up_applying (fold_left (update_step engineText) ms s) = true.
Proof.
  revert s. induction ms as [|m ms IH]; intros s Ha Hw Hk Ho; [done|]. cbn [fold_left offered_from] in *.
  apply andb_true_iff in Ho as [Hm Ho]. revert Ho.
  destruct m as [| | |ok|i result|i err| |i answer| |i ok]; cbn [update_offered update_step] in *.
  all: try (rewrite Hw in Hm; discriminate Hm). all: try (rewrite Hk in Hm; discriminate Hm).
  all: try (apply IH; done).
  - destruct (status_shown s); [|discriminate Hm]. rewrite Ha in Hm. b2p. discriminate.
  - rewrite Ha in Hm. b2p. discriminate.
  - destruct (up_polls s !! i); apply IH; done.
Qed.

(** A server that is still the old one answers the first poll: the page reloads
    two seconds after the request was accepted. *)
Lemma reloads_at_once :
  up_reloaded (update_run (u "") [UChecked 0 (inl release); UInstall; UAnswer true;
    UApplied 0 (mkApplied (u "0.4.1") true); UTick; UPolled 0 true]) = true.
Proof. vm_compute. reflexivity. Qed.
