(* ===== verification/UsersPage.v ===== *)
(** * The users page (web/src/pages/UsersPage.tsx)

    The table of accounts, its three dialogs and the deletion, with every
    request they send, and what the server ([Accounts]) answers to them. *)
From S2P Require Import Prelude JsString JsNumber JsValue Json NextRun Transport Roles Endpoints GoString ServerSchedule Accounts ServerSettings Widgets.

(** ** Data *)

Record UserAccount := mkAccount {
  ac_id : ID;
  ac_username : jsstr;
  ac_role : Role;
  ac_createdAt : jsstr;
  ac_lastLoginAt : option jsstr;
}.

(** [ROLES.indexOf(role)]. *)
Definition role_index (r : Role) : Z := match r with Admin => 0 | Operator => 1 | Viewer => 2 end.

Definition adminCount (users : list UserAccount) : Z :=
  Z.of_nat (length (List.filter (λ x, bool_decide (ac_role x = Admin)) users)).

Definition lastAdmin (users : list UserAccount) (user : UserAccount) : bool :=
  bool_decide (ac_role user = Admin) && (adminCount users <=? 1).

(** ** State *)

Record AddUser := mkAdd { ad_username : jsstr; ad_password : jsstr; ad_role : Role; ad_submitting : bool; ad_error : option jsstr }.
Record ChangeRole := mkChange { cg_role : Role; cg_submitting : bool; cg_error : option jsstr; cg_seeded : option jsstr }.
Record ResetPassword := mkReset { rp_password : jsstr; rp_submitting : bool; rp_error : option jsstr }.

(** A request under way, with what its handler still needs. *)
Inductive UserFlight :=
  | FlyCreate (input : UserCreate)
  | FlyRole (user : UserAccount) (role : Role)
  | FlyPassword (user : UserAccount) (password : jsstr)
  | FlyDelete (user : UserAccount).

Record UsersState := mkUsers {
  un_async : Async (list UserAccount) unit;
  un_addOpen : bool;
  un_add : AddUser;
  un_roleFor : option UserAccount;
  un_change : ChangeRole;
  un_passwordFor : option UserAccount;
  un_reset : ResetPassword;
  un_asking : option UserAccount;
  un_deleting : option jsstr;
  un_flights : list UserFlight;
  un_signOuts : nat;
  un_said : list ToastCall;
}.

Inductive UsersMsg :=
  | NAdd | NAddClose
  | NUsername (t : jsstr) | NPassword (t : jsstr) | NRole (r : Role) | NAddSubmit
  | NChangeRole (user : UserAccount) | NRoleClose | NPickRole (r : Role) | NRoleSubmit
  | NReset (user : UserAccount) | NResetClose | NResetPassword (t : jsstr) | NResetSubmit
  | NDelete (user : UserAccount) | NConfirm (ok : bool)
  | NReload | NRead (i : nat) (answer : list UserAccount + Thrown)
  (** The answer to a request under way; a created account comes with its name. *)
  | NAnswered (i : nat) (answer : jsstr + Thrown).

Definition add_blank : AddUser := mkAdd [] [] Operator false None.

Definition with_add (open : bool) (f : AddUser) (s : UsersState) : UsersState :=
  mkUsers (un_async s) open f (un_roleFor s) (un_change s) (un_passwordFor s) (un_reset s) (un_asking s) (un_deleting s)
    (un_flights s) (un_signOuts s) (un_said s).
Definition with_change (user : option UserAccount) (f : ChangeRole) (s : UsersState) : UsersState :=
  mkUsers (un_async s) (un_addOpen s) (un_add s) user f (un_passwordFor s) (un_reset s) (un_asking s) (un_deleting s)
    (un_flights s) (un_signOuts s) (un_said s).
Definition with_reset (user : option UserAccount) (f : ResetPassword) (s : UsersState) : UsersState :=
  mkUsers (un_async s) (un_addOpen s) (un_add s) (un_roleFor s) (un_change s) user f (un_asking s) (un_deleting s)
    (un_flights s) (un_signOuts s) (un_said s).
Definition with_delete (asking : option UserAccount) (deleting : option jsstr) (s : UsersState) : UsersState :=
  mkUsers (un_async s) (un_addOpen s) (un_add s) (un_roleFor s) (un_change s) (un_passwordFor s) (un_reset s) asking deleting
    (un_flights s) (un_signOuts s) (un_said s).
Definition with_users_async (a : Async (list UserAccount) unit) (s : UsersState) : UsersState :=
  mkUsers a (un_addOpen s) (un_add s) (un_roleFor s) (un_change s) (un_passwordFor s) (un_reset s) (un_asking s)
    (un_deleting s) (un_flights s) (un_signOuts s) (un_said s).
Definition fly (f : UserFlight) (s : UsersState) : UsersState :=
  mkUsers (un_async s) (un_addOpen s) (un_add s) (un_roleFor s) (un_change s) (un_passwordFor s) (un_reset s) (un_asking s)
    (un_deleting s) (un_flights s ++ [f]) (un_signOuts s) (un_said s).
Definition land (i : nat) (said : ToastCall) (s : UsersState) : UsersState :=
  mkUsers (un_async s) (un_addOpen s) (un_add s) (un_roleFor s) (un_change s) (un_passwordFor s) (un_reset s) (un_asking s)
    (un_deleting s) (delete i (un_flights s)) (un_signOuts s) (said :: un_said s).
Definition sign_out (s : UsersState) : UsersState :=
  mkUsers (un_async s) (un_addOpen s) (un_add s) (un_roleFor s) (un_change s) (un_passwordFor s) (un_reset s) (un_asking s)
    (un_deleting s) (un_flights s) (S (un_signOuts s)) (un_said s).

Section page.
(** How the engine words its own exceptions, how it compares names, and the
    account that is signed in. *)
Context (engineText : jsstr) (locale_le : jsstr → jsstr → bool) (me : ID).

(** The order of the table. *)
Definition user_le (a b : UserAccount) : bool :=
  (role_index (ac_role a) <? role_index (ac_role b))
  || ((role_index (ac_role a) =? role_index (ac_role b)) && locale_le (ac_username a) (ac_username b)).

Definition users_of (s : UsersState) : list UserAccount := sort_by user_le (default [] (as_data (un_async s))).

Definition self (user : UserAccount) : bool := str_eqb (id_text (ac_id user)) (id_text me).

Definition mountUsers : UsersState :=
  mkUsers (mountAsync tt) false add_blank None (mkChange Viewer false None None) None (mkReset [] false None) None None [] 0 [].

(** The change-role dialog is seeded while it renders. *)
Definition seed (s : UsersState) : UsersState :=
  let key := (λ x, id_text (ac_id x)) <$> un_roleFor s in
  if decide (key = cg_seeded (un_change s)) then s
  else with_change (un_roleFor s)
         (mkChange (match un_roleFor s with Some x => ac_role x | None => Viewer end) (cg_submitting (un_change s)) None key) s.

Definition short_password (password : jsstr) : option jsstr :=
  if Z.of_nat (length password) <? MIN_PASSWORD_LENGTH
  then Some (cat [u "The password must be at least "; str_of_Z MIN_PASSWORD_LENGTH; u " characters."]) else None.

Definition addProblem (f : AddUser) : option jsstr :=
  if str_eqb (trim (ad_username f)) [] then Some (u "Enter a username.") else short_password (ad_password f).

Definition add_submit (s : UsersState) : UsersState :=
  let f := un_add s in
  match addProblem f with
  | Some message => with_add (un_addOpen s) (mkAdd (ad_username f) (ad_password f) (ad_role f) (ad_submitting f) (Some message)) s
  | None =>
      fly (FlyCreate (mkUserCreate (trim (ad_username f)) (ad_password f) (ad_role f)))
        (with_add (un_addOpen s) (mkAdd (ad_username f) (ad_password f) (ad_role f) true None) s)
  end.

Definition role_submit (s : UsersState) : UsersState :=
  let f := un_change s in
  match un_roleFor s with
  | None => s
  | Some user =>
      if decide (cg_role f = ac_role user) then with_change None f s
      else fly (FlyRole user (cg_role f)) (with_change (Some user) (mkChange (cg_role f) true None (cg_seeded f)) s)
  end.

Definition reset_submit (s : UsersState) : UsersState :=
  let f := un_reset s in
  match un_passwordFor s with
  | None => s
  | Some user =>
      match short_password (rp_password f) with
      | Some message => with_reset (Some user) (mkReset (rp_password f) (rp_submitting f) (Some message)) s
      | None => fly (FlyPassword user (rp_password f)) (with_reset (Some user) (mkReset (rp_password f) true None) s)
      end
  end.

(** What a handler does once its request is answered. *)
Definition refresh_users (s : UsersState) : UsersState := with_users_async (run_loader false (un_async s)) s.

Definition answered (i : nat) (f : UserFlight) (answer : jsstr + Thrown) (s : UsersState) : UsersState :=
  match f, answer with
  | FlyCreate input, inl username =>
      refresh_users (with_add false add_blank
        (land i (mkCall ToastSuccess (cat [u "User “"; username; u "” added."])
                   (Some (cat [u "Signed in as "; map lower (ROLE_LABEL (uc_role input)); u "."])) None) s))
  | FlyCreate _, inr err =>
      let message := errorMessage engineText err in let f := un_add s in
      with_add (un_addOpen s) (mkAdd (ad_username f) (ad_password f) (ad_role f) false (Some message))
        (land i (mkCall ToastError (u "Could not add user") (Some message) None) s)
  | FlyRole user role, inl _ =>
      let f := un_change s in
      refresh_users (with_change None (mkChange (cg_role f) false (cg_error f) (cg_seeded f))
        (land i (mkCall ToastSuccess (cat [ac_username user; u " is now "; map lower (ROLE_LABEL role); u "."]) None None) s))
  | FlyRole _ _, inr err =>
      let message := errorMessage engineText err in let f := un_change s in
      with_change (un_roleFor s) (mkChange (cg_role f) false (Some message) (cg_seeded f))
        (land i (mkCall ToastError (u "Could not change the role") (Some message) None) s)
  | FlyPassword user _, inl _ =>
      with_reset None (mkReset [] false None)
        (land i (mkCall ToastSuccess (cat [u "Password reset for "; ac_username user; u "."])
                   (Some (u "Tell them to change it after signing in.")) None) s)
  | FlyPassword _ _, inr err =>
      let message := errorMessage engineText err in
      with_reset (un_passwordFor s) (mkReset (rp_password (un_reset s)) false (Some message))
        (land i (mkCall ToastError (u "Could not reset the password") (Some message) None) s)
  | FlyDelete user, inl _ =>
      let s' := with_delete (un_asking s) None
                  (land i (mkCall ToastSuccess (cat [u "User “"; ac_username user; u "” deleted."]) None None) s) in
      if self user then sign_out s' else refresh_users s'
  | FlyDelete _, inr err =>
      with_delete (un_asking s) None
        (land i (mkCall ToastError (u "Could not delete the user") (Some (errorMessage engineText err)) None) s)
  end.

(** A dialog covers the table. *)
Definition covered (s : UsersState) : bool :=
  un_addOpen s || negb (is_none (un_roleFor s)) || negb (is_none (un_passwordFor s)) || negb (is_none (un_asking s)).

Definition row_offered (user : UserAccount) (s : UsersState) : Prop := user ∈ users_of s ∧ covered s = false.

Definition users_offered (s : UsersState) (m : UsersMsg) : Prop :=
  match m with
  | NAdd => covered s = false
  | NAddClose | NUsername _ | NPassword _ | NRole _ => un_addOpen s = true
  | NAddSubmit => un_addOpen s = true ∧ ad_submitting (un_add s) = false
  | NChangeRole user => row_offered user s ∧ lastAdmin (users_of s) user = false
  | NRoleClose | NPickRole _ => un_roleFor s ≠ None
  | NRoleSubmit => cg_submitting (un_change s) = false ∧ ∃ user, un_roleFor s = Some user ∧ cg_role (un_change s) ≠ ac_role user
  | NReset user => row_offered user s
  | NResetClose | NResetPassword _ => un_passwordFor s ≠ None
  | NResetSubmit => un_passwordFor s ≠ None ∧ rp_submitting (un_reset s) = false
  | NDelete user =>
      row_offered user s ∧ lastAdmin (users_of s) user = false ∧ un_deleting s ≠ Some (id_text (ac_id user))
  | NConfirm _ => un_asking s ≠ None
  | NReload => as_loading (un_async s) = false
  | NRead i _ => is_Some (as_pending (un_async s) !! i)
  | NAnswered i _ => is_Some (un_flights s !! i)
  end.

Definition users_act (s : UsersState) (m : UsersMsg) : UsersState :=
  let a := un_add s in let c := un_change s in
  match m with
  | NAdd => with_add true a s
  | NAddClose => with_add false (mkAdd [] [] Operator (ad_submitting a) None) s
  | NUsername t => with_add (un_addOpen s) (mkAdd t (ad_password a) (ad_role a) (ad_submitting a) (ad_error a)) s
  | NPassword t => with_add (un_addOpen s) (mkAdd (ad_username a) t (ad_role a) (ad_submitting a) (ad_error a)) s
  | NRole r => with_add (un_addOpen s) (mkAdd (ad_username a) (ad_password a) r (ad_submitting a) (ad_error a)) s
  | NAddSubmit => add_submit s
  | NChangeRole user => with_change (Some user) c s
  | NRoleClose => with_change None c s
  | NPickRole r => with_change (un_roleFor s) (mkChange r (cg_submitting c) (cg_error c) (cg_seeded c)) s
  | NRoleSubmit => role_submit s
  | NReset user => with_reset (Some user) (un_reset s) s
  | NResetClose => with_reset None (mkReset [] (rp_submitting (un_reset s)) None) s
  | NResetPassword t => with_reset (un_passwordFor s) (mkReset t (rp_submitting (un_reset s)) (rp_error (un_reset s))) s
  | NResetSubmit => reset_submit s
  | NDelete user => with_delete (Some user) (un_deleting s) s
  | NConfirm ok =>
      match un_asking s with
      | Some user =>
          if ok then fly (FlyDelete user) (with_delete None (Some (id_text (ac_id user))) s)
          else with_delete None (un_deleting s) s
      | None => s
      end
  | NReload => with_users_async (run_loader true (un_async s)) s
  | NRead i answer => with_users_async (async_step engineText (un_async s) (Settled i answer)) s
  | NAnswered i answer => match un_flights s !! i with Some f => answered i f answer s | None => s end
  end.

Definition users_step (s : UsersState) (m : UsersMsg) : UsersState := seed (users_act s m).

Inductive users_run : UsersState → Prop :=
  | users_mount : users_run mountUsers
  | users_next s m : users_run s → users_offered s m → users_run (users_step s m).
End page.

(** ** What the server answers *)

(** The struct tags of [createUserRequest] and [patchUserRequest]. *)
Definition decodeCreate (v : jsval) : option createUserRequest :=
  match v with
  | VObj _ =>
      name ← dec_string (get v "username"); password ← dec_string (get v "password"); role ← dec_string (get v "role");
      Some (mkCreate name password role)
  | VUndef | VNull => Some (mkCreate [] [] [])
  | _ => None
  end.

Definition decodePatch (v : jsval) : option patchUserRequest :=
  match v with
  | VObj _ =>
      role ← dec_ptr dec_string (get v "role"); password ← dec_ptr dec_string (get v "password");
      Some (mkPatch role password)
  | VUndef | VNull => Some (mkPatch None None)
  | _ => None
  end.

(** The body of a request; the decoder's message when it does not decode. *)
Definition body_of {A} (decode : jsval → option A) (r : Request) : A + bytes :=
  match decode (default VUndef (rq_body r)) with Some x => inl x | None => inr [] end.

(** A request under way, as the server reads it; [None] when its path cannot be
    written. *)
Definition request_of (f : UserFlight) : option AccountRequest :=
  let patch user input :=
    (λ r, ReqPatch (go_string (id_text (ac_id user))) (body_of decodePatch r)) <$> patchUser (ac_id user) input in
  match f with
  | FlyCreate input => (λ r, ReqCreate (body_of decodeCreate r)) <$> createUser input
  | FlyRole user role => patch user (mkUserPatch (Some role) None)
  | FlyPassword user password => patch user (mkUserPatch None (Some password))
  | FlyDelete user => (λ _, ReqDelete (go_string (id_text (ac_id user)))) <$> deleteUser (ac_id user)
  end.

Lemma go_role r : go_string (role_text r) = role_text r ∧ TrimSpace (role_text r) = role_text r
  ∧ ParseRole (role_text r) = Some (role_text r).
Proof. destruct r; by split_and!. Qed.

Lemma request_create input : request_of (FlyCreate input) =
  Some (ReqCreate (inl (mkCreate (go_string (uc_username input)) (go_string (uc_password input)) (role_text (uc_role input))))).
Proof. destruct input as [name password []]; reflexivity. Qed.

Lemma request_role user role : request_of (FlyRole user role) =
  (λ _, ReqPatch (go_string (id_text (ac_id user))) (inl (mkPatch (Some (role_text role)) None))) <$> encodeURIComponent (id_text (ac_id user)).
Proof. cbn [request_of]. unfold patchUser, by_id. destruct (encodeURIComponent _); [|done]. by destruct role. Qed.

Lemma request_password user password : request_of (FlyPassword user password) =
  (λ _, ReqPatch (go_string (id_text (ac_id user))) (inl (mkPatch None (Some (go_string password))))) <$> encodeURIComponent (id_text (ac_id user)).
Proof. cbn [request_of]. unfold patchUser, by_id. by destruct (encodeURIComponent _). Qed.

(** *** The page's invariant: what it sends passed its checks *)

Definition flight_ok (f : UserFlight) : Prop :=
  match f with
  | FlyCreate input => trim (uc_username input) ≠ [] ∧ 8 <= Z.of_nat (length (uc_password input))
  | FlyPassword _ password => 8 <= Z.of_nat (length password)
  | FlyRole user role => role ≠ ac_role user
  | FlyDelete _ => True
  end.

Lemma short_password_spec p : short_password p = None ↔ 8 <= Z.of_nat (length p).
Proof. unfold short_password, MIN_PASSWORD_LENGTH. destruct (Z.ltb_spec (Z.of_nat (length p)) 8); split; (done || lia). Qed.

Section sent.
Context (engineText : jsstr) (locale_le : jsstr → jsstr → bool) (me : ID).

Lemma seed_flights s : un_flights (seed s) = un_flights s.
Proof. unfold seed. by case_decide. Qed.

Lemma answered_flights i f answer s :
  un_flights (answered engineText me i f answer s) = delete i (un_flights s).
Proof. destruct f, answer; try done. cbn [answered]. by destruct (self me user). Qed.

Lemma users_flights_ok s : users_run engineText locale_le me s → Forall flight_ok (un_flights s).
Proof.
  induction 1 as [|s m _ IH Ho]; [constructor|]. unfold users_step. rewrite seed_flights.
  destruct m; cbn [users_act] in *; try exact IH.
  - unfold add_submit, addProblem, str_eqb. case_bool_decide; [exact IH|].
    destruct (short_password _) eqn:E; [exact IH|]. apply short_password_spec in E. cbn [fly un_flights with_add].
    apply Forall_app. split; [exact IH|]. repeat constructor; cbn [uc_username uc_password]; [by rewrite trim_idem|done].
  - unfold role_submit. destruct (un_roleFor s); [|exact IH]. case_decide; [exact IH|]. cbn [fly un_flights with_change].
    apply Forall_app. split; [exact IH|]. by repeat constructor.
  - unfold reset_submit. destruct (un_passwordFor s); [|exact IH]. destruct (short_password _) eqn:E; [exact IH|].
    apply short_password_spec in E. cbn [fly un_flights with_reset]. apply Forall_app. split; [exact IH|]. by repeat constructor.
  - destruct (un_asking s); [|exact IH]. destruct ok; [|exact IH]. cbn [fly un_flights with_delete].
    apply Forall_app. split; [exact IH|]. by repeat constructor.
  - destruct (un_flights s !! i); [|exact IH]. rewrite answered_flights. by apply Forall_delete.
Qed.
End sent.

(** *** Nothing the page sends is a bad request *)

Lemma wp_any {A} (p : Prog A) (Q : A → Tables → Prop) db : (∀ a db', Q a db') → wp p Q db.
Proof. intros HQ. revert db. induction p as [a|s k IH]; intros db; [apply HQ|]. split; apply IH. Qed.

Lemma wp_bind_any {A B} (p : Prog A) (f : A → Prog B) Q db : (∀ a db', wp (f a) Q db') → wp (bind p f) Q db.
Proof. intros H. apply wp_bind, wp_any, H. Qed.

Definition not_bad (r : Accounts.Reply) : Prop := ∀ m, r ≠ RError 400 m.

(** A step that may answer early. *)
Definition step_not_bad {A} (r : A + Accounts.Reply) : Prop := match r with inl _ => True | inr reply => not_bad reply end.

Lemma notFound_not_bad e text : not_bad (notFoundOr e text).
Proof. unfold notFoundOr. intros m. by case_decide. Qed.

#[export] Hint Resolve notFound_not_bad : console.

(** An answer, after the audit entry it may need. *)
Ltac reply := solve [ apply wp_bind_any; by intros ? ? ? | by intros ? | cbn; auto with console ].

Section accepted.
Context (HashPassword : bytes → option bytes) (text : StoreError → bytes) (c : Caller).

Lemma patch_role_not_bad x role db : wp (patch_role text c x role) (λ r _, step_not_bad r) db.
Proof.
  unfold patch_role. destruct role as [role|]; [|done]. case_on_goal; [done|]. apply wp_bind_any.
  intros [[]|] db'; reply.
Qed.

Lemma patch_password_not_bad x password db : wp (patch_password HashPassword text c x password) (λ r _, step_not_bad r) db.
Proof.
  unfold patch_password. destruct password as [password|]; [|done]. apply wp_bind_any.
  intros [e|] db'; reply.
Qed.

Lemma patch_accepted id body role db : parse_patch body = inl role →
  wp (handlePatchUser HashPassword text c id (inl body)) (λ r _, not_bad r) db.
Proof.
  intros Hp. unfold handlePatchUser. destruct (ParseInt id); [|reply].
  apply wp_bind_any. intros [x|e] db1; [|reply]. rewrite Hp.
  apply wp_bind. eapply wp_mono; [apply patch_role_not_bad|]. intros [c1|reply] db2 Hr; [|exact Hr].
  apply wp_bind. eapply wp_mono; [apply patch_password_not_bad|]. intros [c2|reply] db3 Hr'; [|exact Hr'].
  apply wp_bind_any. intros [updated|e] db4; [|reply]. cbv zeta. case_on_goal; reply.
Qed.

Lemma create_accepted body role db : TrimSpace (cr_name body) ≠ [] → short (cr_password body) = false →
  ParseRole (TrimSpace (cr_role body)) = Some role →
  wp (handleCreateUser HashPassword text c (inl body)) (λ r _, not_bad r) db.
Proof.
  intros Hn Hs Hr. unfold handleCreateUser. cbv zeta. rewrite Hs, Hr. unfold str_eqb.
  rewrite bool_decide_eq_false_2 by done. apply wp_bind_any. intros [x|[]] db'; reply.
Qed.

Lemma delete_accepted id db : wp (handleDeleteUser text c id) (λ r _, not_bad r) db.
Proof.
  unfold handleDeleteUser. destruct (ParseInt id); [|reply].
  apply wp_bind_any. intros [x|e] db1; [|reply].
  apply wp_bind_any. intros [[]|] db2; reply.
Qed.

Lemma long_password p : 8 <= Z.of_nat (length p) → short (go_string p) = false.
Proof. intros H. pose proof (go_string_longer p). apply Z.ltb_ge. unfold MinPasswordLength. lia. Qed.

End accepted.

(** *** The disabled controls are the ones the server refuses *)

(** A row of the list, from the row of the table: [toUserDTO] and [listUsers]. *)
Definition row_of (x : User) : UserAccount :=
  mkAccount (IdNum (of_Z (us_id x))) (us_name x) (parseRole (VStr (us_role x))) [] None.

Lemma role_of_go r : Valid r = true →
  parseRole (VStr r) = (if str_eqb r RoleAdmin then Admin else if str_eqb r RoleOperator then Operator else Viewer).
Proof.
  unfold Valid, rank, parseRole, is_str, str_eqb, RoleAdmin, RoleOperator, RoleViewer.
  repeat case_bool_decide; simplify_eq; done.
Qed.

Lemma row_admin x : Valid (us_role x) = true → bool_decide (ac_role (row_of x) = Admin) = is_admin x.
Proof.
  intros Hv. unfold row_of, is_admin. cbn [ac_role]. rewrite role_of_go by done. repeat case_on_goal; done.
Qed.

Lemma rows_admins users : Forall (λ x, Valid (us_role x) = true) users →
  adminCount (map row_of users) = Z.of_nat (admins users).
Proof.
  unfold adminCount, admins. induction 1 as [|x users Hx _ IH]; cbn [map List.filter]; [done|].
  rewrite row_admin by done. destruct (is_admin x); cbn [length]; lia.
Qed.

Lemma adminCount_perm l k : l ≡ₚ k → adminCount l = adminCount k.
Proof.
  unfold adminCount. induction 1 as [|x l k _ IH|x y l|l k m _ IH1 _ IH2]; cbn [List.filter]; [done| | |lia].
  - destruct (bool_decide _); cbn [length]; lia.
  - by do 2 destruct (bool_decide _).
Qed.

Lemma run_bind {A B} (p : Prog A) (f : A → Prog B) db : run [] (bind p f) db = run [] (f (run [] p db).1) (run [] p db).2.
Proof. revert db. induction p as [a|s k IH]; intros db; [done|]. cbn [bind run tail]. apply IH. Qed.

Section refused.
Context (HashPassword : bytes → option bytes) (text : StoreError → bytes) (c : Caller).

(** The server's answer to a request, with no database error. *)
Definition served (f : UserFlight) (db : Tables) : option Accounts.Reply :=
  (λ r, (run [] (serve HashPassword text c r) db).1) <$> request_of f.

Definition refused_last (reply : option Accounts.Reply) : Prop := ∃ m, reply = Some (RError 409 m).

Lemma digits_ascii s : all_digits s = true → ascii s.
Proof.
  unfold all_digits, ascii. rewrite forallb_forall, Forall_forall. intros H d Hd%list_elem_of_In.
  specialize (H d Hd). unfold is_digit in H. rewrite andb_true_iff, !N.leb_le in H. lia.
Qed.

Lemma row_param x : 0 <= us_id x <= 2 ^ 53 → go_string (id_text (ac_id (row_of x))) = str_of_Z (us_id x)
  ∧ is_Some (encodeURIComponent (id_text (ac_id (row_of x)))).
Proof.
  intros Hx. cbn [row_of ac_id id_text]. rewrite str_of_num_Z by lia. rewrite str_of_Z_digits by lia.
  pose proof (digits_ascii _ (all_digits_digits (Z.to_N (us_id x)))) as Ha. split; [by apply go_string_ascii|].
  unfold encodeURIComponent. rewrite utf8_ascii by done. by eexists.
Qed.

Lemma find_user x users : NoDup (map us_id users) → x ∈ users → List.find (has_id (us_id x)) users = Some x.
Proof.
  induction users as [|y users IH]; intros Hn Hx; [by apply elem_of_nil in Hx|]. cbn [map] in Hn.
  apply NoDup_cons in Hn as [Hy Hn]. cbn [List.find]. unfold has_id at 1. destruct (Z.eqb_spec (us_id y) (us_id x)) as [E|E].
  - apply elem_of_cons in Hx as [->|Hx]; [done|]. exfalso. apply Hy. rewrite E. by apply list_elem_of_fmap_2.
  - apply elem_of_cons in Hx as [->|Hx]; [done|]. by apply IH.
Qed.

(** The server's own test. *)
Definition only_admin (db : Tables) (x : User) : bool := is_admin x && (Z.of_nat (admins (t_users db)) <=? 1).

Lemma run_UserByID id x db : List.find (has_id id) (t_users db) = Some x → run [] (UserByID id) db = (inl x, db).
Proof. intros E. unfold UserByID. cbn [run sql fst snd]. by rewrite E. Qed.

Lemma run_guard x k db : run [] (guard_last_admin x k) db =
  if only_admin db x then (Some ErrLastAdmin, db) else run [] k db.
Proof.
  unfold guard_last_admin, only_admin. change (str_eqb (us_role x) RoleAdmin) with (is_admin x).
  destruct (is_admin x); [|done]. rewrite run_bind. cbn [CountAdmins run sql fst snd tail andb].
  fold (admins (t_users db)). by destruct (Z.of_nat _ <=? 1).
Qed.

Lemma run_must_affect ch db : ∃ r, (run [] (must_affect ch) db).1 = r ∧ r ≠ Some ErrLastAdmin.
Proof. cbn. eexists. split; [reflexivity|]. by case_on_goal. Qed.

Lemma run_delete x db : List.find (has_id (us_id x)) (t_users db) = Some x →
  ((run [] (DeleteUser (us_id x)) db).1 = Some ErrLastAdmin ↔ only_admin db x = true).
Proof.
  intros E. unfold DeleteUser. rewrite run_bind, (run_UserByID _ _ _ E). cbn [fst snd]. rewrite run_guard.
  destruct (only_admin db x); [done|]. cbn [run sql fst snd tail].
  destruct (run_must_affect (DeleteUserRow (us_id x)) (with_sessions (List.filter (λ e, negb (se_user e =? us_id x)) (t_sessions db)) db)) as (r & Hr & Hne).
  rewrite Hr. done.
Qed.

Lemma run_update x role db : List.find (has_id (us_id x)) (t_users db) = Some x → Valid role = true →
  str_eqb (us_role x) role = false →
  ((run [] (UpdateUserRole (us_id x) role) db).1 = Some ErrLastAdmin ↔ only_admin db x = true).
Proof.
  intros E Hv Hr. unfold UpdateUserRole. rewrite Hv. cbn [negb]. rewrite run_bind, (run_UserByID _ _ _ E). cbn [fst snd].
  rewrite Hr, run_guard. destruct (only_admin db x); [done|].
  destruct (run_must_affect (UpdateRole role (us_id x)) db) as (r & -> & Hne). done.
Qed.
Lemma refused_found e : ¬ refused_last (Some (notFoundOr e text)).
Proof. intros [m [= H]]. unfold notFoundOr in H. by case_decide. Qed.

Lemma served_delete x db : List.find (has_id (us_id x)) (t_users db) = Some x → 0 <= us_id x <= 2 ^ 53 →
  (refused_last (served (FlyDelete (row_of x)) db) ↔ only_admin db x = true).
Proof.
  intros E Hx. destruct (row_param x Hx) as [Ep [w Ew]]. rewrite <- (run_delete x db E).
  unfold served. cbn [request_of]. unfold deleteUser, by_id. rewrite Ew. cbn [fmap option_fmap option_map serve].
  unfold handleDeleteUser. rewrite Ep, ParseInt_str by lia. rewrite run_bind, (run_UserByID _ _ _ E). cbn [fst snd].
  rewrite run_bind. set (r := run [] (DeleteUser (us_id x)) db). destruct r as [[e|] db']; cbn [fst snd].
  - destruct (decide (e = ErrLastAdmin)) as [->|Hne].
    + rewrite run_bind. split; [done|]. by eexists.
    + split; [|congruence]. destruct e; try done; intros H; by apply refused_found in H.
  - rewrite run_bind. split; [|done]. intros [m [= H]].
Qed.

Lemma served_role x role db : List.find (has_id (us_id x)) (t_users db) = Some x → 0 <= us_id x <= 2 ^ 53 →
  Valid (us_role x) = true → role ≠ ac_role (row_of x) →
  (refused_last (served (FlyRole (row_of x) role) db) ↔ only_admin db x = true).
Proof.
  intros E Hx Hv Hne. destruct (row_param x Hx) as [Ep [w Ew]].
  assert (Hr : str_eqb (us_role x) (role_text role) = false).
  { unfold str_eqb. apply bool_decide_eq_false. intros C. apply Hne. cbn [row_of ac_role]. rewrite C. symmetry. apply parseRole_val. }
  rewrite <- (run_update x (role_text role) db E) by (done || by destruct role).
  unfold served. rewrite request_role, Ew. cbn [fmap option_fmap option_map serve].
  unfold handlePatchUser. rewrite Ep, ParseInt_str by lia. rewrite run_bind, (run_UserByID _ _ _ E). cbn [fst snd].
  unfold parse_patch. cbn [pa_role pa_password is_none andb].
  rewrite (proj1 (proj2 (go_role _))), (proj2 (proj2 (go_role _))). rewrite run_bind. unfold patch_role at 1 2.
  assert (Hr' : str_eqb (role_text role) (us_role x) = false).
  { revert Hr. unfold str_eqb. rewrite !bool_decide_eq_false. congruence. }
  rewrite Hr', run_bind. set (r := run [] (UpdateUserRole (us_id x) (role_text role)) db). destruct r as [[e|] db']; cbn [fst snd].
  - destruct (decide (e = ErrLastAdmin)) as [->|Hn].
    + rewrite run_bind. cbn. split; [done|]. by eexists.
    + split; [|congruence]. destruct e; try done; cbn [run fst snd]; intros H; by apply refused_found in H.
  - split; [|done]. cbn [run fst snd patch_password bind]. rewrite run_bind.
    destruct (run [] (UserByID (us_id x)) db') as [[y|e] db'']; cbn [fst snd]; [|by intros [m [= H]]].
    cbn [is_nil app]. rewrite run_bind. by intros [m [= H]].
Qed.

(** C31: the console disables exactly what the server would refuse: when the
    table shows the accounts the database holds, deleting an account, or giving
    it another role, is answered with the last-administrator conflict if and
    only if the row's controls are disabled. *)
Theorem last_admin_predicted locale_le s db x :
  accounts_ok db → as_data (un_async s) = Some (map row_of (t_users db)) → x ∈ t_users db → 0 <= us_id x <= 2 ^ 53 →
  let disabled := lastAdmin (users_of locale_le s) (row_of x) in
  (refused_last (served (FlyDelete (row_of x)) db) ↔ disabled = true)
  ∧ (∀ role, role ≠ ac_role (row_of x) → (refused_last (served (FlyRole (row_of x) role) db) ↔ disabled = true)).
Proof.
  intros (Hids & _ & _ & Hv & _) Hd Hx Hb disabled.
  assert (Hvx : Valid (us_role x) = true) by (rewrite Forall_forall in Hv; by apply Hv).
  assert (Ed : disabled = only_admin db x).
  { unfold disabled, lastAdmin, only_admin. rewrite row_admin by done. f_equal. unfold users_of. rewrite Hd.
    rewrite (adminCount_perm _ (map row_of (t_users db)) (sort_by_perm _ _)). by rewrite rows_admins. }
  rewrite Ed. pose proof (find_user _ _ Hids Hx) as E. split; [by apply served_delete|]. intros role Hr. by apply served_role.
Qed.
End refused.

(** ** Witnesses and examples *)

Definition one_admin : Tables := mkTables [account 1 RoleAdmin; account 2 RoleViewer] 3 [] [] 1.

Lemma one_admin_ok : accounts_ok one_admin.
Proof.
  unfold accounts_ok. split_and!.
  - apply (bool_decide_unpack _). vm_compute. exact I.
  - repeat constructor.
  - apply (bool_decide_unpack _). vm_compute. exact I.
  - repeat constructor.
  - constructor.
  - vm_compute. lia.
Qed.

Definition showing (db : Tables) : UsersState :=
  users_step (u "") (IdNum (of_Z 1)) mountUsers (NRead 0 (inl (map row_of (t_users db)))).

Definition somebody : Caller := mkCaller (account 2 RoleViewer) [] [] 0.

Lemma last_admin_predicted_witness :
  refused_last (served (λ p, Some p) (λ _, []) somebody (FlyDelete (row_of (account 1 RoleAdmin))) one_admin)
  ∧ ¬ refused_last (served (λ p, Some p) (λ _, []) somebody (FlyDelete (row_of (account 2 RoleViewer))) one_admin).
Proof.
  split.
  - refine (proj2 (proj1 (last_admin_predicted (λ p, Some p) (λ _, []) somebody (λ _ _, true) (showing one_admin) one_admin
      (account 1 RoleAdmin) one_admin_ok eq_refl _ _)) _).
    + left.
    + cbn. lia.
    + vm_compute. reflexivity.
  - intros H.
    refine (_ (proj1 (proj1 (last_admin_predicted (λ p, Some p) (λ _, []) somebody (λ _ _, true) (showing one_admin) one_admin
      (account 2 RoleViewer) one_admin_ok eq_refl _ _)) H)).
    + vm_compute. discriminate.
    + right. left.
    + cbn. lia.
Defined.

Definition adding : list UsersMsg := [NAdd; NUsername (u " jo "); NPassword (u "12345678"); NAddSubmit].


(** The dialogs can be closed while their request is under way: the refusal of
    one account's change is then shown in the dialog of another. *)
Lemma refusal_in_another_dialog :
  let a := row_of (account 1 RoleAdmin) in let b := row_of (account 2 RoleViewer) in
  let s := fold_left (users_step (u "") (IdNum (of_Z 1)))
             [NChangeRole b; NPickRole Operator; NRoleSubmit; NRoleClose; NChangeRole a; NAnswered 0 (inr (ThrownError (u "refused")))]
             mountUsers in
  un_roleFor s = Some a ∧ cg_error (un_change s) = Some (u "refused").
Proof. vm_compute. auto. Qed.
