(* ===== verification/RunView.v ===== *)
(** * One run in detail (web/src/components/RunDetailModal.tsx)

    The dialog over one run: its loads, its poll while the run goes on, and the
    requests that cancel, retry and delete it. *)
From S2P Require Import Prelude JsString JsNumber JsValue Transport Format Runs Widgets.

(** ** State *)

Record RunLogLine := mkLine { ll_ts : jsstr; ll_line : jsstr }.

(** Why a load was started: opening (its signal may have been aborted), the
    two-second poll, or a cancellation that waits for it. *)
Inductive LoadKind := LoadOpen (aborted : bool) | LoadPoll | LoadAfterCancel.
Record RunLoad := mkLoad { ld_id : ID; ld_kind : LoadKind }.

Inductive RunAct := ActCancel | ActRetry | ActDelete.

#[export] Instance RunAct_eq_dec : EqDecision RunAct.
Proof. solve_decision. Defined.

(** A request, with the run on display and the run the dialog was open for when
    its handler was made. *)
Record RunRequest := mkRunRequest { rr_act : RunAct; rr_run : RunDetail; rr_open : option ID }.

(** [dt_acts] are the requests under way and [dt_sent] all that were sent, each
    with the run on display; [dt_asking] is the deletion being confirmed;
    [dt_changed] counts the calls of [onChanged]. *)
Record DetailState := mkDetailState {
  dt_runId : option ID;
  dt_run : option RunDetail;
  dt_lines : list RunLogLine;
  dt_loading : bool;
  dt_error : option jsstr;
  dt_busy : bool;
  dt_loads : list RunLoad;
  dt_asking : option RunDetail;
  dt_acts : list RunRequest;
  dt_sent : list (RunAct * RunDetail);
  dt_changed : nat;
  dt_said : list ToastCall;
}.

Inductive DetailMsg :=
  (** The page: another run, or none. *)
  | DtShow (id : option ID)
  | DtTick
  | DtLoaded (i : nat) (answer : (RunDetail * option (list RunLogLine)) + Thrown)
  | DtCancel | DtRetry | DtDelete
  | DtConfirm (ok : bool)
  | DtDone (i : nat) (answer : option Thrown).

Definition with_loads (loads : list RunLoad) (loading : bool) (s : DetailState) : DetailState :=
  mkDetailState (dt_runId s) (dt_run s) (dt_lines s) loading (dt_error s) (dt_busy s) loads (dt_asking s) (dt_acts s)
    (dt_sent s) (dt_changed s) (dt_said s).
Definition with_shown (run : option RunDetail) (lines : list RunLogLine) (error : option jsstr) (s : DetailState) : DetailState :=
  mkDetailState (dt_runId s) run lines (dt_loading s) error (dt_busy s) (dt_loads s) (dt_asking s) (dt_acts s)
    (dt_sent s) (dt_changed s) (dt_said s).
Definition with_busy (busy : bool) (s : DetailState) : DetailState :=
  mkDetailState (dt_runId s) (dt_run s) (dt_lines s) (dt_loading s) (dt_error s) busy (dt_loads s) (dt_asking s) (dt_acts s)
    (dt_sent s) (dt_changed s) (dt_said s).
Definition with_dasking (asking : option RunDetail) (s : DetailState) : DetailState :=
  mkDetailState (dt_runId s) (dt_run s) (dt_lines s) (dt_loading s) (dt_error s) (dt_busy s) (dt_loads s) asking (dt_acts s)
    (dt_sent s) (dt_changed s) (dt_said s).
Definition act (a : RunAct) (run : RunDetail) (s : DetailState) : DetailState :=
  mkDetailState (dt_runId s) (dt_run s) (dt_lines s) (dt_loading s) (dt_error s) true (dt_loads s) (dt_asking s)
    (dt_acts s ++ [mkRunRequest a run (dt_runId s)]) ((a, run) :: dt_sent s) (dt_changed s) (dt_said s).
Definition acted (i : nat) (changed : nat) (said : ToastCall) (s : DetailState) : DetailState :=
  mkDetailState (dt_runId s) (dt_run s) (dt_lines s) (dt_loading s) (dt_error s) (dt_busy s) (dt_loads s) (dt_asking s)
    (delete i (dt_acts s)) (dt_sent s) (changed + dt_changed s) (said :: dt_said s).

Definition noDetail : DetailState := mkDetailState None None [] false None false [] None [] [] 0 [].

(** ** Operations *)

Definition status_of (s : DetailState) : option RunStatus := (λ d, run_status (d_run d)) <$> dt_run s.

Definition running (s : DetailState) : bool := bool_decide (status_of s = Some RRunning).
Definition failed (s : DetailState) : bool :=
  bool_decide (status_of s = Some RFailed) || bool_decide (status_of s = Some RCanceled).

(** [load()] of the render that knew [runId]. *)
Definition start_load (runId : option ID) (kind : LoadKind) (s : DetailState) : DetailState :=
  match runId with
  | Some id => with_loads (dt_loads s ++ [mkLoad id kind]) (dt_loading s) s
  | None => s
  end.

Definition abort (l : RunLoad) : RunLoad :=
  match ld_kind l with LoadOpen _ => mkLoad (ld_id l) (LoadOpen true) | _ => l end.

(** The effect on [runId]. *)
Definition show_run (id : option ID) (s : DetailState) : DetailState :=
  if decide (id_text <$> id = id_text <$> dt_runId s) then s else
  let s := mkDetailState id (dt_run s) (dt_lines s) (dt_loading s) (dt_error s) (dt_busy s) (map abort (dt_loads s))
             (dt_asking s) (dt_acts s) (dt_sent s) (dt_changed s) (dt_said s) in
  match id with
  | None => with_shown None [] None s
  | Some _ => let s := start_load id (LoadOpen false) s in with_loads (dt_loads s) true s
  end.

Section dialog.
(** How the engine words its own exceptions, and whether the role may operate. *)
Context (engineText : jsstr) (canOperate : bool).

Definition detail_offered (s : DetailState) (m : DetailMsg) : bool :=
  let press := negb (is_none (dt_runId s)) && is_none (dt_asking s) && negb (is_none (dt_run s))
               && negb (dt_busy s) && canOperate in
  match m with
  | DtShow _ => is_none (dt_asking s)
  | DtTick => negb (is_none (dt_runId s)) && running s
  | DtLoaded i _ => negb (is_none (dt_loads s !! i))
  | DtCancel => press && running s
  | DtRetry => press && failed s
  | DtDelete => press && negb (running s)
  | DtConfirm _ => negb (is_none (dt_asking s))
  | DtDone i _ => negb (is_none (dt_acts s !! i))
  end.

Definition loaded (i : nat) (answer : (RunDetail * option (list RunLogLine)) + Thrown) (s : DetailState) : DetailState :=
  match dt_loads s !! i with
  | None => s
  | Some l =>
      let s := with_loads (delete i (dt_loads s)) (match ld_kind l with LoadOpen _ => false | _ => dt_loading s end) s in
      let s := match ld_kind l, answer with
               | LoadOpen true, _ | _, inr ThrownAbort => s
               | _, inl (detail, lines) => with_shown (Some detail) (default [] lines) None s
               | _, inr err => with_shown (dt_run s) (dt_lines s) (Some (errorMessage engineText err)) s
               end in
      match ld_kind l with
      | LoadAfterCancel =>
          with_busy false
            (mkDetailState (dt_runId s) (dt_run s) (dt_lines s) (dt_loading s) (dt_error s) (dt_busy s) (dt_loads s)
               (dt_asking s) (dt_acts s) (dt_sent s) (S (dt_changed s)) (dt_said s))
      | _ => s
      end
  end.

(** A request is answered: what is said, who is told, what follows. *)
Definition act_done (i : nat) (answer : option Thrown) (s : DetailState) : DetailState :=
  match dt_acts s !! i with
  | None => s
  | Some (mkRunRequest a run open) =>
      match a, answer with
      | ActCancel, None =>
          start_load open LoadAfterCancel (acted i 0 (mkCall ToastInfo (u "Cancellation requested.") None None) s)
      | ActRetry, None =>
          with_busy false (show_run None
            (acted i 1 (mkCall ToastSuccess (cat [u "Retrying “"; run_jobName (d_run run); u "”."])
                          (Some (u "Watch it on the Monitor page.")) None) s))
      | ActDelete, None =>
          with_busy false (show_run None (acted i 1 (mkCall ToastSuccess (u "Run deleted from history.") None None) s))
      | _, Some err =>
          let title := match a with
                       | ActCancel => u "Could not cancel the run"
                       | ActRetry => u "Could not retry the run"
                       | ActDelete => u "Could not delete the run"
                       end in
          with_busy false (acted i 0 (mkCall ToastError title (Some (errorMessage engineText err)) None) s)
      end
  end.

Definition detail_step (s : DetailState) (m : DetailMsg) : DetailState :=
  match m with
  | DtShow id => show_run id s
  | DtTick => start_load (dt_runId s) LoadPoll s
  | DtLoaded i answer => loaded i answer s
  | DtCancel => match dt_run s with Some run => act ActCancel run s | None => s end
  | DtRetry => match dt_run s with Some run => act ActRetry run s | None => s end
  | DtDelete => with_dasking (dt_run s) s
  | DtConfirm ok =>
      match dt_asking s with
      | Some run => if ok then act ActDelete run (with_dasking None s) else with_dasking None s
      | None => s
      end
  | DtDone i answer => act_done i answer s
  end.

Inductive detail_run : DetailState → Prop :=
  | detail_mount : detail_run noDetail
  | detail_next s m : detail_run s → detail_offered s m = true → detail_run (detail_step s m).
End dialog.

(** ** What it shows *)

(** Where a restore put the data, persisted with the run. *)
Record RestoreDestination := mkDestination {
  de_host : option jsstr; de_node : option jsstr; de_vmid : option num; de_storage : option jsstr;
  de_mode : option jsstr; de_destPath : option jsstr;
}.

(** [filter(Boolean)]. *)
Definition non_empty (s : option jsstr) : option jsstr := match s with Some [] => None | _ => s end.

(** The rows of the list: label and value. *)
Definition destinationRows (d : RestoreDestination) : list (jsstr * jsstr) :=
  [(u "Mode", if bool_decide (de_mode d = Some (u "overwrite")) then u "Overwrite original" else u "Restore alongside");
   (u "Destination",
    match non_empty (de_destPath d) with
    | Some path => path
    | None =>
        let parts := omap non_empty [de_host d; (λ v, cat [u "VMID "; str_of_num v]) <$> de_vmid d; de_node d] in
        let text := join (u " / ") parts in if str_eqb text [] then u "—" else text
    end)]
  ++ match non_empty (de_storage d) with Some storage => [(u "Storage", storage)] | None => [] end.

Inductive DetailBody := BodyLoading | BodyError (message : jsstr) | BodyRun (run : RunDetail) | BodyEmpty.

Definition detail_body (s : DetailState) : DetailBody :=
  match dt_run s with
  | Some run => BodyRun run
  | None =>
      if dt_loading s then BodyLoading else
      match non_empty (dt_error s) with Some message => BodyError message | None => BodyEmpty end
  end.

Section view.
Context (Math_log : num → num) (Date_parse : jsstr → option Z) (localeDate : Z → jsstr).

Definition detail_title (s : DetailState) : jsstr :=
  match dt_run s with Some d => run_jobName (d_run d) | None => u "Run detail" end.

Definition detail_subtitle (now : Z) (s : DetailState) : option jsstr :=
  (λ d, cat [u "Started "; formatDate Date_parse localeDate (Some (run_startedAt (d_run d))); u " · ";
             match non_empty (run_finishedAt (d_run d)) with
             | Some t => cat [u "finished "; formatRelative Date_parse localeDate (Some t) now]
             | None => u "in progress"
             end]) <$> dt_run s.

(** The metric strip. *)
Definition detail_figures (now : Z) (d : RunDetail) : list (jsstr * jsstr) :=
  let run := d_run d in let reduction := runReduction run in
  [(u "Source data processed", formatBytes Math_log (VNum (run_bytesProcessed run)) 1);
   (u "Transferred to target", formatBytes Math_log (VNum (run_bytesUploaded run)) 1);
   (u "Data reduction",
    if r_applies reduction
    then cat [formatReduction (VNum (r_pct reduction)); match r_ratio reduction with Some r => formatRatio (VNum r) | None => [] end]
    else u "—");
   (u "Duration", formatDuration Date_parse (Some (run_startedAt run)) (run_finishedAt run) now)].

(** The throughput and the progress of a run that is going on. *)
Definition detail_progress (d : RunDetail) : option (jsstr * jsstr) :=
  match run_status (d_run d) with
  | RRunning => Some (formatThroughput Math_log (VNum (d_throughputBps d)), cat [to_fixed 0 (clampPct (VNum (run_progressPct (d_run d)))); u "%"])
  | _ => None
  end.
End view.

(** ** What the dialog promises *)

(** Its buttons are busy exactly while a request, or the load that follows a
    cancellation, is under way, and there is never more than one. *)
Definition after_cancel (l : RunLoad) : bool := match ld_kind l with LoadAfterCancel => true | _ => false end.

Definition in_hand (s : DetailState) : nat := (length (dt_acts s) + length (List.filter after_cancel (dt_loads s)))%nat.

(** A request names a run on display, in a state the request is meant for. *)
Definition act_ok (a : RunAct) (run : RunDetail) : Prop :=
  match a with
  | ActCancel => run_status (d_run run) = RRunning
  | ActRetry => run_status (d_run run) = RFailed ∨ run_status (d_run run) = RCanceled
  | ActDelete => run_status (d_run run) ≠ RRunning
  end.

Definition detail_inv (canOperate : bool) (s : DetailState) : Prop :=
  in_hand s = (if dt_busy s then 1 else 0)%nat
  ∧ Forall (λ p, act_ok p.1 p.2 ∧ canOperate = true) (dt_sent s)
  ∧ Forall (λ r, rr_open r ≠ None) (dt_acts s)
  ∧ (∀ run, dt_asking s = Some run → dt_busy s = false ∧ act_ok ActDelete run ∧ canOperate = true ∧ dt_runId s ≠ None).

Section invariant.
Context (engineText : jsstr) (canOperate : bool).

Lemma abort_after l : after_cancel (abort l) = after_cancel l.
Proof. unfold abort, after_cancel. by destruct (ld_kind l) eqn:E; cbn; rewrite ?E. Qed.

Lemma filter_abort l : length (List.filter after_cancel (map abort l)) = length (List.filter after_cancel l).
Proof. induction l as [|x l IH]; cbn [map List.filter]; [done|]. rewrite abort_after. destruct (after_cancel x); cbn [length]; lia. Qed.

Lemma filter_delete l i x : l !! i = Some x →
  length (List.filter after_cancel l) = ((if after_cancel x then 1 else 0) + length (List.filter after_cancel (delete i l)))%nat.
Proof.
  intros H. rewrite <- (take_drop_middle l i x H) at 1. rewrite delete_take_drop, !List.filter_app, !length_app.
  cbn [List.filter]. destruct (after_cancel x); cbn [length]; lia.
Qed.

Lemma show_run_kept id s :
  let s' := show_run id s in
  in_hand s' = in_hand s ∧ dt_busy s' = dt_busy s ∧ dt_sent s' = dt_sent s ∧ dt_acts s' = dt_acts s ∧ dt_asking s' = dt_asking s.
Proof.
  intros s'. unfold s', show_run. case_decide; [done|]. unfold in_hand.
  destruct id as [id|]; cbn; split_and!; try done.
  - rewrite List.filter_app, length_app, filter_abort. cbn. lia.
  - by rewrite filter_abort.
Qed.

Lemma pressed s (p : bool) : negb (is_none (dt_runId s)) && is_none (dt_asking s) && negb (is_none (dt_run s))
  && negb (dt_busy s) && canOperate && p = true →
  dt_runId s ≠ None ∧ dt_asking s = None ∧ (∃ run, dt_run s = Some run) ∧ dt_busy s = false ∧ canOperate = true ∧ p = true.
Proof.
  rewrite !andb_true_iff, !negb_true_iff. intros (((((H1 & H2) & H3) & H4) & H5) & H6). split_and!; try done.
  - by destruct (dt_runId s).
  - by destruct (dt_asking s).
  - destruct (dt_run s); [by eexists|done].
Qed.

Lemma act_inv a run s : detail_inv canOperate s → dt_busy s = false → dt_asking s = None → dt_runId s ≠ None →
  act_ok a run → canOperate = true → detail_inv canOperate (act a run s).
Proof.
  intros (H1 & H2 & H3 & _) Hb Ha Hi Hok Hc. rewrite Hb in H1. unfold detail_inv, act, in_hand in *.
  cbn [dt_acts dt_loads dt_busy dt_sent dt_asking]. rewrite length_app, Ha. cbn [length]. split_and!; [lia| | |done].
  - by constructor.
  - apply Forall_app. split; [done|]. by repeat constructor.
Qed.

(** A request or load that ends, the dialog free again. *)
Lemma freed_inv s s' : detail_inv canOperate s → dt_busy s = true →
  S (in_hand s') = in_hand s → dt_busy s' = false → dt_sent s' = dt_sent s → dt_acts s' ⊆ dt_acts s → dt_asking s' = dt_asking s →
  detail_inv canOperate s'.
Proof.
  intros (H1 & H2 & H3 & H4) Hb Eh Eb Es Ea Ek. rewrite Hb in H1. unfold detail_inv. rewrite Eb, Es, Ek. split_and!; [lia|done| |].
  - rewrite Forall_forall in *. auto.
  - intros run Hr. destruct (H4 run Hr) as (Hb' & _). congruence.
Qed.
Lemma loaded_spec i answer s l : dt_loads s !! i = Some l →
  let s' := loaded engineText i answer s in
  dt_loads s' = delete i (dt_loads s) ∧ dt_acts s' = dt_acts s ∧ dt_sent s' = dt_sent s ∧ dt_asking s' = dt_asking s
  ∧ dt_runId s' = dt_runId s ∧ dt_busy s' = (if after_cancel l then false else dt_busy s).
Proof.
  intros E s'. unfold s', loaded. rewrite E. unfold after_cancel.
  destruct (ld_kind l) as [[]| |], answer as [[d lines]|[]]; by split_and!.
Qed.

(** The end of a request, with or without closing the dialog. *)
Lemma done_inv i (closes : bool) changed said s :
  detail_inv canOperate s → (i < length (dt_acts s))%nat → dt_busy s = true →
  let s' := acted i changed said s in
  detail_inv canOperate (with_busy false (if closes then show_run None s' else s')).
Proof.
  intros Hinv Hi Hb s'. destruct (show_run_kept None s') as (E1 & E2 & E3 & E4 & E5).
  assert (Hsub : delete i (dt_acts s) ⊆ dt_acts s) by (intros x Hx; eapply elem_of_sublist; [exact Hx|apply sublist_delete]).
  assert (Hh : S (in_hand s') = in_hand s).
  { unfold in_hand, s'. cbn [acted dt_acts dt_loads]. rewrite length_delete by (by apply lookup_lt_is_Some). lia. }
  apply (freed_inv s); try done; destruct closes; cbn [with_busy dt_sent dt_acts dt_asking]; rewrite ?E3, ?E4, ?E5; try done.
  change (in_hand (with_busy false (show_run None s'))) with (in_hand (show_run None s')). by rewrite E1.
Qed.

Lemma act_done_inv i answer s : detail_inv canOperate s → negb (is_none (dt_acts s !! i)) = true →
  detail_inv canOperate (act_done engineText i answer s).
Proof.
  intros Hinv Ho. pose proof Hinv as (H1 & H2 & H3 & H4). unfold act_done.
  destruct (dt_acts s !! i) as [[a run open]|] eqn:E; [|discriminate Ho].
  apply lookup_lt_Some in E as Hlt.
  assert (Hb : dt_busy s = true) by (unfold in_hand in H1; destruct (dt_busy s); [done|lia]).
  destruct a, answer as [err|]; try (by apply (done_inv i false)); try (by apply (done_inv i true)).
  rewrite Forall_forall in H3. pose proof (H3 _ (list_elem_of_lookup_2 _ _ _ E)) as Hopen. cbn in Hopen.
  destruct open as [id|]; [|done]. unfold start_load, detail_inv, in_hand in *.
  cbn [acted with_loads dt_acts dt_loads dt_busy dt_sent dt_asking]. split_and!; [|done| |].
  - rewrite List.filter_app, !length_app, length_delete by (by apply lookup_lt_is_Some). cbn. rewrite Hb in *. lia.
  - apply Forall_delete. by apply Forall_forall.
  - intros r Hr. destruct (H4 r Hr) as [Hb' _]. congruence.
Qed.

Lemma detail_step_inv s m : detail_inv canOperate s → detail_offered canOperate s m = true →
  detail_inv canOperate (detail_step engineText s m).
Proof.
  intros Hinv Ho. pose proof Hinv as (H1 & H2 & H3 & H4). destruct m as [id| |i answer| | | |ok|i answer]; cbn [detail_step].
  - destruct (show_run_kept id s) as (E1 & E2 & E3 & E4 & E5). unfold detail_inv. rewrite E1, E2, E3, E4, E5.
    split_and!; try done. intros run Hr. cbn [detail_offered] in Ho. by rewrite Hr in Ho.
  - unfold start_load. destruct (dt_runId s) eqn:Er; [|done]. unfold detail_inv, in_hand in *.
    cbn [with_loads dt_acts dt_loads dt_busy dt_sent dt_asking dt_runId]. rewrite List.filter_app, !length_app. cbn [List.filter after_cancel ld_kind length].
    rewrite Er. split_and!; [lia|done..|]. intros run Hr. destruct (H4 run Hr) as (? & ? & ? & _). done.
  - cbn [detail_offered] in Ho. destruct (dt_loads s !! i) as [l|] eqn:E; [|discriminate Ho].
    destruct (loaded_spec i answer s l E) as (E1 & E2 & E3 & E4 & E5 & E6). pose proof (filter_delete _ _ _ E) as Hl.
    unfold detail_inv, in_hand in *. rewrite E1, E2, E3, E4, E5, E6. destruct (after_cancel l) eqn:Ea.
    + assert (Hb : dt_busy s = true) by (destruct (dt_busy s); [done|lia]). rewrite Hb in *. split_and!; [lia|done..|].
      intros run Hr. destruct (H4 run Hr) as [Hb' _]. congruence.
    + split_and!; [lia|done..].
  - apply pressed in Ho as (Hi & Ha & (run & Er) & Hb & Hc & Hp). rewrite Er. apply act_inv; try done.
    unfold running, status_of in Hp. rewrite Er in Hp. b2p. by injection Hp.
  - apply pressed in Ho as (Hi & Ha & (run & Er) & Hb & Hc & Hp). rewrite Er. apply act_inv; try done.
    unfold failed, status_of in Hp. rewrite Er in Hp. cbn in Hp. rewrite orb_true_iff, !bool_decide_eq_true in Hp.
    cbn. destruct Hp as [[= ->]|[= ->]]; auto.
  - apply pressed in Ho as (Hi & Ha & (run & Er) & Hb & Hc & Hp).
    unfold detail_inv, in_hand in *. cbn [with_dasking dt_acts dt_loads dt_busy dt_sent dt_asking dt_runId].
    split_and!; try done. intros r Hr. rewrite Er in Hr. injection Hr as <-. split_and!; try done. cbn.
    unfold running, status_of in Hp. rewrite Er in Hp. cbn in Hp. rewrite negb_true_iff, bool_decide_eq_false in Hp. congruence.
  - destruct (dt_asking s) as [run|] eqn:Ea; [|done]. destruct (H4 run eq_refl) as (Hb & Hok & Hc & Hi).
    assert (Hinv' : detail_inv canOperate (with_dasking None s)) by done.
    destruct ok; [by apply act_inv|done].
  - by apply act_done_inv.
Qed.

Lemma detail_run_inv s : detail_run engineText canOperate s → detail_inv canOperate s.
Proof. induction 1 as [|s m _ IH Ho]; [by split_and!|by apply detail_step_inv]. Qed.
End invariant.

(** C8: the dialog acts only on the run it displays: in every session a
    cancellation was asked for a running run, a retry for a failed or canceled
    one and a deletion for one that is over, each only by a role that may
    operate; at most one such request is under way, and the buttons are busy
    exactly while it, or the load that follows a cancellation, is. *)
Theorem run_requests engineText canOperate s : detail_run engineText canOperate s →
  Forall (λ p, act_ok p.1 p.2 ∧ canOperate = true) (dt_sent s)
  ∧ (dt_busy s = true ↔ dt_acts s ≠ [] ∨ ∃ l, l ∈ dt_loads s ∧ ld_kind l = LoadAfterCancel)
  ∧ (length (dt_acts s) <= 1)%nat.
Proof.
  intros Hr. destruct (detail_run_inv _ _ _ Hr) as (H1 & H2 & H3 & H4). unfold in_hand in H1.
  split_and!; [done| |destruct (dt_busy s); lia].
  assert (Hex : (∃ l, l ∈ dt_loads s ∧ ld_kind l = LoadAfterCancel) ↔ List.filter after_cancel (dt_loads s) ≠ []).
  { split.
    - intros (l & Hl & Ek) C. assert (Hin : l ∈ List.filter after_cancel (dt_loads s)).
      { apply list_elem_of_In, List.filter_In. split; [by apply list_elem_of_In|]. unfold after_cancel. by rewrite Ek. }
      rewrite C in Hin. by apply elem_of_nil in Hin.
    - intros Hn. destruct (List.filter after_cancel (dt_loads s)) as [|l k] eqn:E; [done|].
      assert (Hin : In l (List.filter after_cancel (dt_loads s))) by (rewrite E; by left).
      apply List.filter_In in Hin as [Hl Ha]. exists l. split; [by apply list_elem_of_In|]. unfold after_cancel in Ha.
      by destruct (ld_kind l). }
  rewrite Hex. destruct (dt_acts s), (List.filter after_cancel (dt_loads s)), (dt_busy s); cbn in H1; try lia; naive_solver.
Qed.

(** ** Witness and example *)

Definition some_run (id : Z) (status : RunStatus) : RunDetail :=
  mkDetail (mkRun (IdNum (of_Z id)) (IdNum (of_Z 1)) (u "nightly") None status [] None (of_Z 0) (of_Z 0) (of_Z 1) None None None
              (of_Z 0) []) [] (of_Z 0).

(** Each message, when it is on offer. *)
Fixpoint detail_perform (s : DetailState) (ms : list DetailMsg) : option DetailState :=
  match ms with
  | [] => Some s
  | m :: ms => if detail_offered true s m then detail_perform (detail_step [] s m) ms else None
  end.

Lemma detail_perform_run ms s s' : detail_run [] true s → detail_perform s ms = Some s' → detail_run [] true s'.
Proof.
  revert s. induction ms as [|m ms IH]; intros s Hr; cbn [detail_perform]; [by intros [= <-]|].
  destruct (detail_offered true s m) eqn:E; [|done]. apply IH. by apply detail_next.
Qed.

Definition retrying : list DetailMsg := [DtShow (Some (IdNum (of_Z 1))); DtLoaded 0 (inl (some_run 1 RFailed, None)); DtRetry].

Lemma run_requests_witness :
  match detail_perform noDetail retrying with
  | Some s => Forall (λ p, act_ok p.1 p.2 ∧ true = true) (dt_sent s) ∧ length (dt_sent s) = 1%nat ∧ dt_busy s = true
  | None => False
  end.
Proof.
  destruct (detail_perform noDetail retrying) as [s|] eqn:E; [|vm_compute in E; discriminate E].
  pose proof (run_requests [] true s (detail_perform_run _ _ _ (detail_mount [] true) E)) as (H & _).
  split; [exact H|]. vm_compute in E. injection E as <-. vm_compute. auto.
Defined.

(** A cancellation answered after the dialog was closed and opened for another
    run loads the first run again: the dialog stays open for the second, shows
    the first, no longer polls, and deletes the first. *)
Lemma wrong_run_shown :
  match detail_perform noDetail
    [ DtShow (Some (IdNum (of_Z 1))); DtLoaded 0 (inl (some_run 1 RRunning, None)); DtCancel; DtShow None;
      DtShow (Some (IdNum (of_Z 2))); DtLoaded 0 (inl (some_run 2 RSuccess, None)); DtDone 0 None;
      DtLoaded 0 (inl (some_run 1 RCanceled, None)); DtDelete; DtConfirm true ] with
  | Some s => dt_runId s = Some (IdNum (of_Z 2)) ∧ detail_offered true s DtTick = false
              ∧ map (λ p, id_text (run_id (d_run p.2))) (dt_sent s) = [u "1"; u "1"]
  | None => False
  end.
Proof. vm_compute. auto. Qed.
