(* ===== verification/Monitor.v ===== *)
(** * The monitor (web/src/pages/MonitorPage.tsx)

    The runs of all jobs or of one, the cards of those in flight with their
    throughput history, and the requests that cancel, retry and clear. *)
From stdpp Require Import gmap.
From S2P Require Import Prelude JsString JsNumber JsValue Transport Endpoints Runs Widgets.

(** ** What the page loads *)

Record MonitorJob := mkMonitorJob { mj_id : ID; mj_name : jsstr }.
Record MonitorData := mkMonitor { mo_runs : list JobRun; mo_jobs : list MonitorJob; mo_live : list RunDetail }.

Definition RUN_LIMIT : Z := 100.

Definition is_running (r : JobRun) : bool := bool_decide (run_status r = RRunning).

(** The loader once the two lists are there; [getRun] answers [None] when it
    fails, and the run stays in the table. *)
Definition monitor_data (getRun : ID → option RunDetail) (runs : list JobRun) (jobs : list MonitorJob) : MonitorData :=
  mkMonitor runs jobs (omap (λ r, getRun (run_id r)) (List.filter is_running runs)).

(** The list it asks for; [jobId] is the parameter of the URL or ["all"]. *)
Definition monitor_request (jobId : jsstr) : option Request :=
  if str_eqb jobId (u "all") then listRuns None (Some RUN_LIMIT) else listRuns (Some (IdStr jobId)) (Some RUN_LIMIT).

(** ** State *)

Abbreviation Samples := (gmap jsstr (list num)).

(** The effect on [data]: one more sample for every live run, and no other run. *)
Definition sampleLive (live : list RunDetail) (current : Samples) : Samples :=
  fold_left (λ next d, <[id_text (run_id (d_run d)) := appendSample (current !! id_text (run_id (d_run d))) (d_throughputBps d)]> next)
    live ∅.

Inductive MonitorAsk := AskCancelRow (run : JobRun) | AskCancelLive (detail : RunDetail) | AskClear (scope : ClearRunsScope).

(** A request under way; the rows tell the page to refresh, clearing reloads. *)
Inductive MonitorFlight :=
  | FlightCancelRow (run : JobRun)
  | FlightRetryRow (run : JobRun)
  | FlightCancelLive (detail : RunDetail)
  | FlightClear (scope : ClearRunsScope).

(** What a row of the table waits for. *)
Inductive RowBusy := BusyCancel | BusyRetry.

#[export] Instance RowBusy_eq_dec : EqDecision RowBusy.
Proof. solve_decision. Defined.

(** Questions and requests come with the filter of the render they were asked
    in: its handlers reload with that render's loader.  [mn_waiting] says which
    reads the Clear button waits for. *)
Record MonitorState := mkMonitorState {
  mn_async : Async MonitorData jsstr;
  mn_waiting : list bool;
  mn_samples : Samples;
  mn_openRun : option ID;
  mn_clearing : bool;
  mn_busy : gmap jsstr RowBusy;
  mn_asking : option (MonitorAsk * jsstr);
  mn_flights : list (MonitorFlight * jsstr);
  mn_said : list ToastCall;
}.

Inductive MonitorMsg :=
  | MFilter (jobId : jsstr)
  (** The browser's own navigation. *)
  | MNavigate (jobId : jsstr)
  | MRefresh | MTick
  | MRead (i : nat) (answer : MonitorData + Thrown)
  | MOpen (id : ID) | MCloseRun
  (** The run dialog changed something; its render knew [jobId]. *)
  | MChanged (jobId : jsstr)
  | MClear (scope : ClearRunsScope)
  | MCancelRow (run : JobRun) | MRetryRow (run : JobRun) | MCancelLive (detail : RunDetail)
  | MConfirm (ok : bool)
  (** The answer to a request under way; clearing comes with the runs removed. *)
  | MAnswered (i : nat) (answer : num + Thrown).

Definition key_of (r : JobRun) : jsstr := id_text (run_id r).
Definition live_key (d : RunDetail) : jsstr := id_text (run_id (d_run d)).

Section page.
(** How the engine words its own exceptions, and whether the role may operate. *)
Context (engineText : jsstr) (canOperate : bool).

Definition mn_data (s : MonitorState) : option MonitorData := as_data (mn_async s).
Definition jobIdParam (s : MonitorState) : jsstr := as_loader (mn_async s).
Definition runs_of (s : MonitorState) : list JobRun := match mn_data s with Some d => mo_runs d | None => [] end.
Definition live_of (s : MonitorState) : list RunDetail := match mn_data s with Some d => mo_live d | None => [] end.

Definition anyRunning (s : MonitorState) : bool := negb (is_nil (live_of s)) || existsb is_running (runs_of s).

(** Runs rendered as a live card are not repeated in the table. *)
Definition liveIds (s : MonitorState) : list jsstr := map live_key (live_of s).
Definition history (s : MonitorState) : list JobRun :=
  List.filter (λ r, negb (existsb (str_eqb (key_of r)) (liveIds s))) (runs_of s).
Definition finishedCount (s : MonitorState) : Z := Z.of_nat (length (List.filter (λ r, negb (is_running r)) (runs_of s))).

Definition mountMonitor (jobId : jsstr) : MonitorState := mkMonitorState (mountAsync jobId) [false] ∅ None false ∅ None [] [].

Definition with_masync (a : Async MonitorData jsstr) (waiting : list bool) (s : MonitorState) : MonitorState :=
  mkMonitorState a waiting (mn_samples s) (mn_openRun s) (mn_clearing s) (mn_busy s) (mn_asking s) (mn_flights s) (mn_said s).
Definition with_open_run (id : option ID) (s : MonitorState) : MonitorState :=
  mkMonitorState (mn_async s) (mn_waiting s) (mn_samples s) id (mn_clearing s) (mn_busy s) (mn_asking s) (mn_flights s) (mn_said s).
Definition with_masking (asking : option (MonitorAsk * jsstr)) (s : MonitorState) : MonitorState :=
  mkMonitorState (mn_async s) (mn_waiting s) (mn_samples s) (mn_openRun s) (mn_clearing s) (mn_busy s) asking (mn_flights s) (mn_said s).
Definition with_clearing (clearing : bool) (s : MonitorState) : MonitorState :=
  mkMonitorState (mn_async s) (mn_waiting s) (mn_samples s) (mn_openRun s) clearing (mn_busy s) (mn_asking s) (mn_flights s) (mn_said s).

(** A row's [setBusy]; a row that is gone has no state to set. *)
Definition set_row (run : JobRun) (busy : option RowBusy) (s : MonitorState) : MonitorState :=
  mkMonitorState (mn_async s) (mn_waiting s) (mn_samples s) (mn_openRun s) (mn_clearing s)
    (if existsb (str_eqb (key_of run)) (map key_of (history s)) then partial_alter (λ _, busy) (key_of run) (mn_busy s) else mn_busy s)
    (mn_asking s) (mn_flights s) (mn_said s).
Definition row_busy (b : RowBusy) (run : JobRun) (s : MonitorState) : bool := bool_decide (mn_busy s !! key_of run = Some b).

(** New data: samples are taken, and rows that left the table lose their state. *)
Definition data_changed (s : MonitorState) : MonitorState :=
  match mn_data s with
  | None => s
  | Some d =>
      mkMonitorState (mn_async s) (mn_waiting s) (sampleLive (mo_live d) (mn_samples s)) (mn_openRun s) (mn_clearing s)
        (filter (λ kv, existsb (str_eqb kv.1) (map key_of (history s)) = true) (mn_busy s))
        (mn_asking s) (mn_flights s) (mn_said s)
  end.

Definition take_off (f : MonitorFlight * jsstr) (s : MonitorState) : MonitorState :=
  mkMonitorState (mn_async s) (mn_waiting s) (mn_samples s) (mn_openRun s) (mn_clearing s) (mn_busy s) (mn_asking s) (mn_flights s ++ [f]) (mn_said s).
Definition touch_down (i : nat) (said : ToastCall) (s : MonitorState) : MonitorState :=
  mkMonitorState (mn_async s) (mn_waiting s) (mn_samples s) (mn_openRun s) (mn_clearing s) (mn_busy s) (mn_asking s) (delete i (mn_flights s)) (said :: mn_said s).

(** A read for [jobId], which Clear may wait for. *)
Definition read (jobId : jsstr) (showLoading waits : bool) (s : MonitorState) : MonitorState :=
  let a := mn_async s in
  with_masync (mkAsync (as_data a) (as_loading a || showLoading) (as_error a) (as_loader a) (as_pending a ++ [jobId]) (as_mounted a))
    (mn_waiting s ++ [waits]) s.

(** Whether a dialog covers the page. *)
Definition uncovered (s : MonitorState) : bool := is_none (mn_asking s) && is_none (mn_openRun s).

Definition monitor_offered (s : MonitorState) (m : MonitorMsg) : Prop :=
  match m with
  | MFilter jobId => uncovered s = true ∧ (jobId = u "all" ∨ ∃ d j, mn_data s = Some d ∧ j ∈ mo_jobs d ∧ id_text (mj_id j) = jobId)
  | MNavigate _ => True
  | MRefresh => uncovered s = true ∧ as_loading (mn_async s) = false
  | MTick => anyRunning s = true
  | MRead i _ => is_Some (as_pending (mn_async s) !! i)
  | MOpen id => uncovered s = true ∧ ((∃ r, r ∈ history s ∧ run_id r = id) ∨ ∃ d, d ∈ live_of s ∧ run_id (d_run d) = id)
  | MCloseRun => mn_openRun s ≠ None
  | MChanged _ => True
  | MClear scope =>
      scope = ClearFinished ∧ uncovered s = true ∧ 0 < finishedCount s ∧ canOperate = true ∧ mn_clearing s = false
  | MCancelRow run =>
      uncovered s = true ∧ run ∈ history s ∧ run_status run = RRunning ∧ canOperate = true ∧ row_busy BusyCancel run s = false
  | MRetryRow run =>
      uncovered s = true ∧ run ∈ history s ∧ run_status run = RFailed ∧ canOperate = true ∧ row_busy BusyRetry run s = false
  | MCancelLive detail => uncovered s = true ∧ detail ∈ live_of s ∧ canOperate = true
  | MConfirm _ => mn_asking s ≠ None
  | MAnswered i _ => is_Some (mn_flights s !! i)
  end.

Definition confirmed (a : MonitorAsk) (jobId : jsstr) (s : MonitorState) : MonitorState :=
  match a with
  | AskCancelRow run => take_off (FlightCancelRow run, jobId) (set_row run (Some BusyCancel) s)
  | AskCancelLive detail => take_off (FlightCancelLive detail, jobId) s
  | AskClear scope => take_off (FlightClear scope, jobId) (with_clearing true s)
  end.

Definition deleted_text (n : num) : jsstr :=
  if neqb n (of_Z 1) then u "1 run removed from history." else cat [str_of_num n; u " runs removed from history."].

Definition requested : ToastCall :=
  mkCall ToastSuccess (u "Cancellation requested.") (Some (u "The run stops at the next safe boundary.")) None.

Definition trouble (title : jsstr) (err : Thrown) : ToastCall := mkCall ToastError title (Some (errorMessage engineText err)) None.

(** The rest of a handler, once its request is answered. *)
Definition monitor_answered (i : nat) (f : MonitorFlight) (jobId : jsstr) (answer : num + Thrown) (s : MonitorState) : MonitorState :=
  match f, answer with
  | FlightCancelRow run, inl _ => set_row run None (read jobId false false (touch_down i requested s))
  | FlightCancelRow run, inr err => set_row run None (touch_down i (trouble (u "Could not cancel run") err) s)
  | FlightRetryRow run, inl _ =>
      set_row run None (read jobId false false (touch_down i
        (mkCall ToastSuccess (cat [u "Retrying “"; run_jobName run; u "”."]) (Some (u "The new run appears at the top of this page.")) None) s))
  | FlightRetryRow run, inr err => set_row run None (touch_down i (trouble (u "Could not retry run") err) s)
  | FlightCancelLive _, inl _ => read jobId false false (touch_down i requested s)
  | FlightCancelLive _, inr err => touch_down i (trouble (u "Could not cancel run") err) s
  | FlightClear _, inl n =>
      (* The button stays busy until the reload is answered. *)
      read jobId true true (touch_down i (mkCall ToastSuccess (deleted_text n) None None) s)
  | FlightClear _, inr err => with_clearing false (touch_down i (trouble (u "Could not clear run history") err) s)
  end.

Definition monitor_step (s : MonitorState) (m : MonitorMsg) : MonitorState :=
  match m with
  | MFilter jobId | MNavigate jobId =>
      if str_eqb jobId (jobIdParam s) then s
      else with_masync (async_step engineText (mn_async s) (NewLoader jobId)) (mn_waiting s ++ [false]) s
  | MRefresh => read (jobIdParam s) true false s
  | MTick => read (jobIdParam s) false false s
  | MChanged jobId => read jobId false false s
  | MRead i answer =>
      let waited := default false (mn_waiting s !! i) in
      let s := with_masync (async_step engineText (mn_async s) (Settled i answer)) (delete i (mn_waiting s)) s in
      let s := match answer with inl _ => data_changed s | inr _ => s end in
      if waited then with_clearing false s else s
  | MOpen id => with_open_run (Some id) s
  | MCloseRun => with_open_run None s
  | MClear scope => with_masking (Some (AskClear scope, jobIdParam s)) s
  | MCancelRow run => with_masking (Some (AskCancelRow run, jobIdParam s)) s
  | MRetryRow run => take_off (FlightRetryRow run, jobIdParam s) (set_row run (Some BusyRetry) s)
  | MCancelLive detail => with_masking (Some (AskCancelLive detail, jobIdParam s)) s
  | MConfirm ok =>
      match mn_asking s with
      | Some (a, jobId) => if ok then confirmed a jobId (with_masking None s) else with_masking None s
      | None => s
      end
  | MAnswered i answer => match mn_flights s !! i with Some (f, jobId) => monitor_answered i f jobId answer s | None => s end
  end.

Inductive monitor_run (jobId : jsstr) : MonitorState → Prop :=
  | monitor_mount : monitor_run jobId (mountMonitor jobId)
  | monitor_next s m : monitor_run jobId s → monitor_offered s m → monitor_run jobId (monitor_step s m).
End page.

(** ** The throughput histories *)

Definition history_ok (l : list num) : Prop :=
  (1 <= length l <= 60)%nat ∧ Forall (λ x, is_finite x = true ∧ nle (of_Z 0) x = true) l.

Definition samples_ok (m : Samples) : Prop := map_Forall (λ _, history_ok) m.

Lemma appendSample_ok samples value : (∀ l, samples = Some l → history_ok l) → history_ok (appendSample samples value).
Proof.
  intros H. pose proof (appendSample_window samples value) as (H1 & _ & H3 & H4 & H5). cbv zeta in *.
  unfold SAMPLE_CAP in *. destruct samples as [l|].
  - destruct (H l eq_refl) as [Hl Hf]. split; [|by apply H3].
    destruct (Z.eq_dec (Z.of_nat (length l)) 60) as [E|Hne].
    + rewrite (H5 E), length_app. destruct l; cbn in *; lia.
    + rewrite H4 by lia. rewrite length_app. cbn. lia.
  - split; [|by apply H3]. rewrite H4 by (cbn; lia). cbn. lia.
Qed.

Lemma sampleLive_from live current next : samples_ok current → samples_ok next →
  let m := fold_left (λ next d, <[live_key d := appendSample (current !! live_key d) (d_throughputBps d)]> next) live next in
  samples_ok m ∧ ∀ k, is_Some (m !! k) ↔ is_Some (next !! k) ∨ k ∈ map live_key live.
Proof.
  intros Hc. revert next. induction live as [|d live IH]; intros next Hn; cbn [fold_left map].
  - split; [done|]. intros k. set_solver.
  - destruct (IH (<[live_key d := appendSample (current !! live_key d) (d_throughputBps d)]> next)) as [H1 H2].
    + apply map_Forall_insert_2; [|done]. apply appendSample_ok. intros l Hl. by apply (Hc (live_key d)).
    + split; [done|]. intros k. rewrite H2, elem_of_cons. destruct (decide (live_key d = k)) as [<-|Hne].
      * rewrite lookup_insert_eq. split; [auto|]. intros _. left. by eexists.
      * rewrite lookup_insert_ne by done. naive_solver.
Qed.

Lemma sampleLive_ok live current : samples_ok current →
  samples_ok (sampleLive live current) ∧ ∀ k, is_Some (sampleLive live current !! k) ↔ k ∈ map live_key live.
Proof.
  intros Hc. destruct (sampleLive_from live current ∅ Hc) as [H1 H2]; [by apply map_Forall_empty|].
  split; [exact H1|]. intros k. etrans; [exact (H2 k)|]. rewrite lookup_empty. split; [intros [[? ?]|?]; done|auto].
Qed.

(** ** The page's invariant *)

(** What a request was asked for, and by whom. *)
Definition flight_fits (canOperate : bool) (f : MonitorFlight) : Prop :=
  canOperate = true ∧
  match f with
  | FlightCancelRow run => run_status run = RRunning
  | FlightRetryRow run => run_status run = RFailed
  | FlightCancelLive _ | FlightClear ClearFinished => True
  | FlightClear ClearFailed => False
  end.

Definition ask_fits (canOperate : bool) (a : MonitorAsk) : Prop :=
  flight_fits canOperate
    (match a with AskCancelRow run => FlightCancelRow run | AskCancelLive d => FlightCancelLive d | AskClear s => FlightClear s end).

Definition is_clear (f : MonitorFlight) : bool := match f with FlightClear _ => true | _ => false end.

Definition monitor_inv (canOperate : bool) (s : MonitorState) : Prop :=
  samples_ok (mn_samples s)
  ∧ (∀ d, mn_data s = Some d → ∀ k, is_Some (mn_samples s !! k) ↔ k ∈ map live_key (mo_live d))
  ∧ Forall (λ f, flight_fits canOperate f.1) (mn_flights s)
  ∧ (∀ a jobId, mn_asking s = Some (a, jobId) → ask_fits canOperate a)
  ∧ length (mn_waiting s) = length (as_pending (mn_async s))
  ∧ as_mounted (mn_async s) = true
  ∧ (mn_clearing s = true → existsb (λ p, is_clear p.1) (mn_flights s) = true ∨ true ∈ mn_waiting s).

Lemma existsb_delete {A} (f : A → bool) l i x : l !! i = Some x → existsb f l = true → f x = true ∨ existsb f (delete i l) = true.
Proof.
  intros H E. rewrite <- (take_drop_middle l i x H), existsb_app in E. cbn [existsb] in E.
  rewrite delete_take_drop, existsb_app, orb_true_iff. rewrite !orb_true_iff in E. tauto.
Qed.

Section invariant.
Context (engineText : jsstr) (canOperate : bool).
Abbreviation inv := (monitor_inv canOperate).

Lemma read_inv jobId showLoading waits s : inv s → inv (read jobId showLoading waits s).
Proof.
  intros (H1 & H2 & H3 & H4 & H5 & H6 & H7). unfold monitor_inv, read, with_masync. cbv zeta.
  cbn [mn_samples mn_data mn_async mn_flights mn_asking mn_waiting mn_clearing as_data as_pending as_mounted].
  split_and!; try done; [by rewrite !length_app, H5|]. intros Hc. destruct (H7 Hc); [by left|right]. set_solver.
Qed.

Lemma set_row_inv run busy s : inv s → inv (set_row run busy s).
Proof. done. Qed.

Lemma masking_inv asking s : inv s → (∀ a jobId, asking = Some (a, jobId) → ask_fits canOperate a) → inv (with_masking asking s).
Proof. intros (H1 & H2 & H3 & H4 & H5 & H6 & H7) Ha. by split_and!. Qed.

Lemma take_off_inv f jobId s : inv s → flight_fits canOperate f → inv (take_off (f, jobId) s).
Proof.
  intros (H1 & H2 & H3 & H4 & H5 & H6 & H7) Hf. unfold monitor_inv, take_off.
  cbn [mn_samples mn_async mn_flights mn_asking mn_waiting mn_clearing]. split_and!; try done.
  - apply Forall_app. split; [done|]. by apply Forall_singleton.
  - intros Hc. destruct (H7 Hc) as [E|]; [left|by right]. by rewrite existsb_app, E.
Qed.

(** A request that ends, unless it is the clearing. *)
Lemma touch_down_inv i said f jobId s : inv s → mn_flights s !! i = Some (f, jobId) → is_clear f = false →
  inv (touch_down i said s).
Proof.
  intros (H1 & H2 & H3 & H4 & H5 & H6 & H7) E Hf. unfold monitor_inv, touch_down.
  cbn [mn_samples mn_async mn_flights mn_asking mn_waiting mn_clearing]. split_and!; try done; [by apply Forall_delete|].
  intros Hc. destruct (H7 Hc) as [Ee|]; [left|by right].
  destruct (existsb_delete _ _ _ _ E Ee) as [C|]; [|done]. cbn in C. congruence.
Qed.

Lemma clear_done_inv i said jobId jobId' s f : inv s → mn_flights s !! i = Some (f, jobId) → 
  inv (read jobId' true true (touch_down i said s)) ∧ inv (with_clearing false (touch_down i said s)).
Proof.
  intros (H1 & H2 & H3 & H4 & H5 & H6 & H7) E. unfold monitor_inv, read, with_masync, with_clearing, touch_down. cbv zeta.
  cbn [mn_samples mn_data mn_async mn_flights mn_asking mn_waiting mn_clearing as_data as_pending as_mounted].
  split; split_and!; try done; try (by apply Forall_delete).
  - by rewrite !length_app, H5.
  - intros _. right. set_solver.
Qed.

Lemma clear_start_inv scope jobId s : inv s → flight_fits canOperate (FlightClear scope) →
  inv (take_off (FlightClear scope, jobId) (with_clearing true s)).
Proof.
  intros (H1 & H2 & H3 & H4 & H5 & H6 & H7) Hf. unfold monitor_inv, take_off, with_clearing.
  cbn [mn_samples mn_async mn_flights mn_asking mn_waiting mn_clearing]. split_and!; try done.
  - apply Forall_app. split; [done|]. by apply Forall_singleton.
  - intros _. left. by rewrite existsb_app, orb_true_r.
Qed.

Lemma answered_inv i f jobId answer s : inv s → mn_flights s !! i = Some (f, jobId) →
  inv (monitor_answered engineText i f jobId answer s).
Proof.
  intros Hi E. destruct f as [run|run|d|scope], answer as [n|err]; cbn [monitor_answered].
  all: try apply set_row_inv; try (by eapply touch_down_inv); try (by apply read_inv; eapply touch_down_inv).
  - by eapply clear_done_inv.
  - by eapply clear_done_inv.
Qed.

Lemma MRead_inv i answer s : inv s → is_Some (as_pending (mn_async s) !! i) → inv (monitor_step engineText s (MRead i answer)).
Proof.
  intros (H1 & H2 & H3 & H4 & H5 & H6 & H7) [l Hl]. cbn [monitor_step].
  assert (Hlen : length (delete i (mn_waiting s)) = length (delete i (as_pending (mn_async s)))).
  { apply lookup_lt_Some in Hl. rewrite !length_delete by (apply lookup_lt_is_Some; lia). by rewrite H5. }
  assert (Hw : mn_clearing s = true → default false (mn_waiting s !! i) = false →
    existsb (λ p, is_clear p.1) (mn_flights s) = true ∨ true ∈ delete i (mn_waiting s)).
  { intros Hc Hd. destruct (H7 Hc) as [|Hin]; [by left|right]. apply lookup_lt_Some in Hl. rewrite <- H5 in Hl.
    apply lookup_lt_is_Some in Hl as [w Ew]. rewrite Ew in Hd. cbn in Hd. subst w.
    apply list_elem_of_lookup in Hin as [j Hj]. assert (i ≠ j) by (intros ->; congruence).
    rewrite <- (take_drop_middle _ _ _ Ew) in Hj. rewrite delete_take_drop. apply list_elem_of_lookup_2 in Hj.
    rewrite elem_of_app, elem_of_cons in Hj. rewrite elem_of_app. naive_solver. }
  cbn [async_step]. rewrite H6. destruct answer as [d|err].
  - destruct (sampleLive_ok (mo_live d) (mn_samples s) H1) as [S1 S2].
    unfold monitor_inv. destruct (default false (mn_waiting s !! i)) eqn:Ed; split_and!; try done; try (by intros ? [= <-]).
    intros Hc. by apply Hw.
  - unfold monitor_inv. destruct (default false (mn_waiting s !! i)) eqn:Ed; split_and!; try done. intros Hc. by apply Hw.
Qed.

Lemma monitor_step_inv s m : inv s → monitor_offered canOperate s m → inv (monitor_step engineText s m).
Proof.
  intros Hi Ho. assert (Hload : ∀ jobId, inv (with_masync (async_step engineText (mn_async s) (NewLoader jobId)) (mn_waiting s ++ [false]) s)).
  { intros jobId. destruct Hi as (H1 & H2 & H3 & H4 & H5 & H6 & H7). unfold monitor_inv, with_masync.
    cbn [async_step run_loader mn_samples mn_data mn_async mn_flights mn_asking mn_waiting mn_clearing as_data as_pending as_mounted].
    split_and!; try done; [by rewrite !length_app, H5|]. intros Hc. destruct (H7 Hc); [by left|right]. set_solver. }
  destruct m as [jobId|jobId| | |i answer|id| |jobId|scope|run|run|d|ok|i answer]; cbn [monitor_offered] in Ho.
  - cbn [monitor_step]. by destruct (str_eqb jobId (jobIdParam s)).
  - cbn [monitor_step]. by destruct (str_eqb jobId (jobIdParam s)).
  - by apply read_inv.
  - by apply read_inv.
  - by apply MRead_inv.
  - exact Hi.
  - exact Hi.
  - by apply read_inv.
  - destruct Ho as (-> & _ & _ & Hc & _). apply masking_inv; [done|]. by intros a jobId [= <- <-].
  - destruct Ho as (_ & _ & Hr & Hc & _). apply masking_inv; [done|]. by intros a jobId [= <- <-].
  - destruct Ho as (_ & _ & Hr & Hc & _). by apply take_off_inv.
  - destruct Ho as (_ & _ & Hc). apply masking_inv; [done|]. by intros a jobId [= <- <-].
  - cbn [monitor_step]. destruct (mn_asking s) as [[a jobId]|] eqn:Ea; [|done].
    pose proof Hi as (_ & _ & _ & H4 & _). specialize (H4 a jobId Ea).
    assert (Hn : inv (with_masking None s)) by (by apply masking_inv).
    destruct ok; [|done]. destruct a as [run|d|scope]; cbn [confirmed]; [by apply take_off_inv..|by apply clear_start_inv].
  - cbn [monitor_step]. destruct (mn_flights s !! i) as [[f jobId]|] eqn:E; [|done]. by apply answered_inv.
Qed.

Lemma monitor_run_inv jobId s : monitor_run engineText canOperate jobId s → inv s.
Proof.
  induction 1 as [|s m _ IH Ho]; [|by apply monitor_step_inv]. split_and!; try done; try (by constructor).
Qed.
End invariant.

(** C17: the monitor keeps exactly the histories it shows and asks only for what
    it offered: in every session there is one history for each run in flight and
    for no other, of at least one and at most sixty non-negative rates; every
    request under way cancels a running run, retries a failed one or clears the
    finished ones, for a role that may operate; and Clear is busy only while its
    request or the reload it waits for is under way. *)
Theorem monitor_session engineText canOperate jobId s : monitor_run engineText canOperate jobId s →
  (∀ d, mn_data s = Some d → ∀ k, is_Some (mn_samples s !! k) ↔ k ∈ map live_key (mo_live d))
  ∧ (∀ k l, mn_samples s !! k = Some l → history_ok l)
  ∧ Forall (λ f, flight_fits canOperate f.1) (mn_flights s)
  ∧ (mn_clearing s = true → (∃ f, f ∈ mn_flights s ∧ is_clear f.1 = true) ∨ as_pending (mn_async s) ≠ []).
Proof.
  intros Hr. destruct (monitor_run_inv _ _ _ _ Hr) as (H1 & H2 & H3 & _ & H5 & _ & H7). split_and!; try done.
  intros Hc. destruct (H7 Hc) as [E|Hw].
  - left. apply existsb_exists in E as (f & Hf & Ef). exists f. split; [by apply list_elem_of_In|done].
  - right. intros C. rewrite C in H5. destruct (mn_waiting s); [by apply elem_of_nil in Hw|discriminate H5].
Qed.

(** Every run is shown exactly once, as a card or as a row. *)
Lemma shown_once getRun runs jobs r :
  (∀ id d, getRun id = Some d → id_text (run_id (d_run d)) = id_text id) →
  NoDup (map key_of runs) → r ∈ runs →
  let d := monitor_data getRun runs jobs in
  let s := mkMonitorState (mkAsync (Some d) false None [] [] true) [] ∅ None false ∅ None [] [] in
  (r ∈ history s ↔ ¬ key_of r ∈ liveIds s)
  ∧ (key_of r ∈ liveIds s ↔ run_status r = RRunning ∧ getRun (run_id r) ≠ None).
Proof.
  intros Hid Hn Hr d s. split.
  - unfold history. rewrite list_elem_of_In, List.filter_In, negb_true_iff, <- not_true_iff_false, <- elem_of_existsb.
    unfold runs_of, mn_data. cbn [mn_async as_data mo_runs d monitor_data]. rewrite <- list_elem_of_In. tauto.
  - unfold liveIds, live_of, mn_data. cbn [mn_async as_data mo_live d monitor_data]. rewrite list_elem_of_fmap. split.
    + intros (x & Ek & Hx). apply list_elem_of_omap in Hx as (q & Hq & Eq). apply list_elem_of_In, List.filter_In in Hq as [Hq Hrun].
      apply list_elem_of_In in Hq. assert (q = r) as ->.
      { unfold live_key in Ek. rewrite (Hid _ _ Eq) in Ek. change (key_of r = key_of q) in Ek.
        apply list_elem_of_lookup in Hq as [a Ha], Hr as [b Hb].
        assert (a = b) as <-; [|congruence]. eapply (NoDup_lookup (map key_of runs)); [exact Hn| |].
        - change (map key_of runs) with (key_of <$> runs). by rewrite list_lookup_fmap, Ha.
        - change (map key_of runs) with (key_of <$> runs). rewrite list_lookup_fmap, Hb. cbn. by rewrite Ek. }
      unfold is_running in Hrun. b2p. split; [done|congruence].
    + intros [Hrun Hg]. destruct (getRun (run_id r)) as [x|] eqn:E; [|done]. exists x. split.
      * unfold live_key. by rewrite (Hid _ _ E).
      * apply list_elem_of_omap. exists r. split; [|done]. apply list_elem_of_In, List.filter_In.
        split; [by apply list_elem_of_In|]. unfold is_running. by apply bool_decide_eq_true.
Qed.

(** ** Witness and example *)

Definition going : RunDetail :=
  mkDetail (mkRun (IdNum (of_Z 7)) (IdNum (of_Z 1)) (u "nightly") None RRunning [] None (of_Z 0) (of_Z 0) (of_Z 1) None None None
              (of_Z 0) []) [] (of_Z 1000).

Definition one_live : MonitorData := monitor_data (λ _, Some going) [d_run going] [mkMonitorJob (IdNum (of_Z 1)) (u "nightly")].

Definition watching : list MonitorMsg := [MRead 0 (inl one_live); MTick; MRead 0 (inl one_live)].

Definition monitored (jobId : jsstr) (ms : list MonitorMsg) : MonitorState := fold_left (monitor_step []) ms (mountMonitor jobId).

Lemma monitor_session_witness :
  let s := monitored (u "all") watching in
  history_ok [of_Z 1000; of_Z 1000] ∧ mn_samples s !! u "7" = Some [of_Z 1000; of_Z 1000] ∧ mn_flights s = [].
Proof.
  intros s. assert (Hr : monitor_run [] true (u "all") s).
  { unfold s, monitored, watching. cbn [fold_left]. repeat apply monitor_next; [apply monitor_mount|..]; vm_compute; eauto. }
  destruct (monitor_session [] true (u "all") s Hr) as (_ & H & _).
  split; [|split; vm_compute; reflexivity]. apply (H (u "7")). vm_compute. reflexivity.
Defined.

(** The handlers reload with the filter of the render they were made in: runs
    cleared under one filter and reloaded under another show the first. *)
Lemma old_filter_reloaded :
  let s := monitored (u "1")
    [ MRead 0 (inl (mkMonitor [] [mkMonitorJob (IdNum (of_Z 2)) (u "weekly")] [])); MClear ClearFinished; MConfirm true;
      MNavigate (u "2"); MRead 0 (inl (mkMonitor [] [] [])); MAnswered 0 (inl (of_Z 3)) ] in
  jobIdParam s = u "2" ∧ as_pending (mn_async s) = [u "1"].
Proof. vm_compute. auto. Qed.
