(* ===== verification/ServerTargets.v ===== *)
(** * Creating a storage target on the server (internal/api/handlers_infra.go, internal/s3target/s3target.go, internal/blobstore/fscheck.go)

    The request, how it is settled or refused before anything is probed, and the
    codes of the warnings a probe reports.  [strings.ToLower] is a parameter. *)
From S2P Require Import Prelude JsString JsNumber JsValue GoString ServerSchedule.

Record createTargetRequest := mkCreateTarget {
  ct_name : bytes; ct_kind : bytes; ct_path : bytes; ct_endpoint : bytes; ct_region : bytes; ct_bucket : bytes;
  ct_accessKey : bytes; ct_secretKey : bytes; ct_pathStyle : bool; ct_allow : bool;
}.

Definition TargetKindS3 : bytes := u "s3".
Definition TargetKindFilesystem : bytes := u "filesystem".

Inductive TargetRefusal :=
  | NameRequired | PathRequired | S3FieldsSet (fields : list bytes) | BucketRequired | PathOnS3 | AllowOnS3 | UnknownKind (kind : bytes).

Definition empty (s : bytes) : bool := str_eqb s [].

Definition with_kind_region (kind region : bytes) (b : createTargetRequest) : createTargetRequest :=
  mkCreateTarget (ct_name b) kind (ct_path b) (ct_endpoint b) region (ct_bucket b) (ct_accessKey b) (ct_secretKey b)
    (ct_pathStyle b) (ct_allow b).

(** The object storage fields that are set. *)
Definition s3Fields (b : createTargetRequest) : list bytes :=
  omap (λ f : bytes * bool, if f.2 then Some f.1 else None)
    [(u "endpoint", negb (empty (ct_endpoint b))); (u "region", negb (empty (ct_region b)));
     (u "bucket", negb (empty (ct_bucket b))); (u "accessKey", negb (empty (ct_accessKey b)));
     (u "secretKey", negb (empty (ct_secretKey b))); (u "pathStyle", ct_pathStyle b)].

Section normalize.
Context (ToLower : bytes → bytes).

Definition normalize (b0 : createTargetRequest) : createTargetRequest + TargetRefusal :=
  let b := mkCreateTarget (TrimSpace (ct_name b0)) (ToLower (TrimSpace (ct_kind b0))) (TrimSpace (ct_path b0))
             (TrimSpace (ct_endpoint b0)) (TrimSpace (ct_region b0)) (TrimSpace (ct_bucket b0))
             (ct_accessKey b0) (ct_secretKey b0) (ct_pathStyle b0) (ct_allow b0) in
  if empty (ct_name b) then inr NameRequired else
  let kind := if negb (empty (ct_kind b)) then ct_kind b
              else if negb (empty (ct_path b)) then TargetKindFilesystem else TargetKindS3 in
  if str_eqb kind TargetKindFilesystem then
    if empty (ct_path b) then inr PathRequired
    else match s3Fields b with
         | [] => inl (with_kind_region kind (ct_region b) b)
         | set => inr (S3FieldsSet set)
         end
  else if str_eqb kind TargetKindS3 then
    if empty (ct_bucket b) then inr BucketRequired
    else if negb (empty (ct_path b)) then inr PathOnS3
    else if ct_allow b then inr AllowOnS3
    else inl (with_kind_region kind (if empty (ct_region b) then u "us-east-1" else ct_region b) b)
  else inr (UnknownKind kind).
End normalize.

Fixpoint trim_right_slash (s : bytes) : bytes :=
  match s with
  | [] => []
  | c :: s' => match trim_right_slash s' with [] => if N.eqb c 47 then [] else [c] | r => c :: r end
  end.

Fixpoint has_scheme (s : bytes) : bool :=
  starts_with (u "://") s || match s with [] => false | _ :: s' => has_scheme s' end.

Definition NormalizeEndpoint (endpoint : bytes) : bytes :=
  let e := trim_right_slash (TrimSpace endpoint) in
  if empty e then [] else if has_scheme e then e else u "https://" ++ e.

(** ** What a probe warns of *)

Definition WarnNotMountPoint : bytes := u "not_a_mount_point".
Definition WarnMountPointUnknown : bytes := u "mount_point_unknown".
Definition WarnSameFilesystemAsDataDir : bytes := u "same_filesystem_as_data_dir".
Definition WarnSameFilesystemUnknown : bytes := u "same_filesystem_unknown".
Definition WarnCapacityUnknown : bytes := u "capacity_unknown".

(** ** Decoding *)

Definition dec_bool (v : jsval) : option bool :=
  match v with VBool b => Some b | VUndef | VNull => Some false | _ => None end.

Definition decodeTarget (v : jsval) : option createTargetRequest :=
  match v with
  | VObj _ =>
      name ← dec_string (get v "name"); kind ← dec_string (get v "kind"); path ← dec_string (get v "path");
      endpoint ← dec_string (get v "endpoint"); region ← dec_string (get v "region"); bucket ← dec_string (get v "bucket");
      access ← dec_string (get v "accessKey"); secret ← dec_string (get v "secretKey");
      style ← dec_bool (get v "pathStyle"); allow ← dec_bool (get v "allowSameFilesystem");
      Some (mkCreateTarget name kind path endpoint region bucket access secret style allow)
  | VUndef | VNull => Some (mkCreateTarget [] [] [] [] [] [] [] [] false false)
  | _ => None
  end.

(** [strings.ToLower] leaves ASCII text without capitals alone. *)
Class LowerAscii (ToLower : bytes → bytes) : Prop := {
  lower_ascii s : Forall (λ c, (c < 128)%N ∧ ¬ (65 <= c <= 90)%N) s → ToLower s = s
}.
