(* ===== verification/TargetsPage.v ===== *)
(** * The storage targets page (web/src/pages/TargetsPage.tsx)

    The dialog that adds a target, kind first, and the probe that follows; the
    cards with their test and removal.  What the server does with the request
    is [ServerTargets]. *)
From stdpp Require Import gmap.
From S2P Require Import Prelude JsString JsNumber JsValue Json Transport Targets Format Endpoints GoString ServerSchedule ServerTargets Widgets.

(** ** The dialog *)

Record S3Form := mkS3 {
  s3_name : jsstr; s3_endpoint : jsstr; s3_region : jsstr; s3_bucket : jsstr; s3_accessKey : jsstr; s3_secretKey : jsstr;
  s3_pathStyle : bool;
}.
Record FilesystemForm := mkFs { fs_name : jsstr; fs_path : jsstr; fs_allow : bool }.

Definition EMPTY_S3 : S3Form := mkS3 [] [] [] [] [] [] false.
Definition EMPTY_FS : FilesystemForm := mkFs [] [] false.

Record AddTarget := mkAddTarget {
  at_open : bool; at_kind : option TargetKind; at_s3 : S3Form; at_fs : FilesystemForm; at_submitting : bool; at_error : option jsstr;
}.

Definition is_separator (c : N) : bool := N.eqb c 47 || N.eqb c 92.

Fixpoint drop_separators (s : jsstr) : jsstr :=
  match s with c :: s' => if is_separator c then drop_separators s' else s | [] => [] end.

(** [path.trim().replace(/(?!^)[/\\]+$/, '')]: the first character stays. *)
Definition normalPath (path : jsstr) : jsstr :=
  match trim path with [] => [] | c :: s => c :: rev (drop_separators (rev s)) end.

Definition is_letter (c : N) : bool := ((65 <=? c) && (c <=? 90) || (97 <=? c) && (c <=? 122))%N.

(** [/^([/~]|[A-Za-z]:[/\\]|\\\\)/]. *)
Definition absolutePath (s : jsstr) : bool :=
  match s with
  | c :: s' =>
      N.eqb c 47 || N.eqb c 126
      || match s' with
         | d :: s'' =>
             (is_letter c && N.eqb d 58 && match s'' with e :: _ => is_separator e | [] => false end)
             || (N.eqb c 92 && N.eqb d 92)
         | [] => false
         end
  | [] => false
  end.

Definition s3Problem (f : S3Form) : option jsstr :=
  if negb (non_blank (s3_name f)) then Some (u "Give the target a display name.")
  else if negb (non_blank (s3_endpoint f)) then Some (u "Enter the S3 endpoint URL.")
  else if negb (non_blank (s3_bucket f)) then Some (u "Enter the bucket name.")
  else if negb (non_blank (s3_accessKey f)) then Some (u "Enter the access key.")
  else if negb (non_blank (s3_secretKey f)) then Some (u "Enter the secret key.")
  else None.

Definition s3Payload (f : S3Form) : TargetCreate :=
  S3TargetCreate (trim (s3_name f)) (strip_slashes (trim (s3_endpoint f))) (trim (s3_region f)) (trim (s3_bucket f))
    (trim (s3_accessKey f)) (s3_secretKey f) (s3_pathStyle f).

Definition filesystemProblem (f : FilesystemForm) : option jsstr :=
  if negb (non_blank (fs_name f)) then Some (u "Give the target a display name.")
  else if str_eqb (normalPath (fs_path f)) [] then Some (u "Enter the directory ProxBack should write into.")
  else if negb (absolutePath (normalPath (fs_path f)))
  then Some (u "Enter an absolute path, for example /mnt/nas/proxback.")
  else None.

Definition filesystemPayload (f : FilesystemForm) : TargetCreate :=
  FilesystemTargetCreate (trim (fs_name f)) (normalPath (fs_path f)) (fs_allow f).

Definition addTargetProblem (d : AddTarget) : option jsstr :=
  match at_kind d with Some Filesystem => filesystemProblem (at_fs d) | _ => s3Problem (at_s3 d) end.
Definition addTargetPayload (d : AddTarget) : TargetCreate :=
  match at_kind d with Some Filesystem => filesystemPayload (at_fs d) | _ => s3Payload (at_s3 d) end.

(** ** The page *)

Record CardState := mkCardState { cs_testing : bool; cs_deleting : bool; cs_result : option TargetTestResult }.
Definition blankCard : CardState := mkCardState false false None.

(** A request under way: a creation, the probe after it, a card's test, a removal. *)
Inductive TargetFlight :=
  | FlyAdd (input : TargetCreate) | FlyProbe (target : Target) | FlyTest (target : Target) | FlyRemove (target : Target).

Inductive TargetAnswer := GotTarget (target : Target) | GotTest (result : TargetTestResult) | GotRemoved | GotThrown (err : Thrown).

Record TargetsState := mkTargets {
  tp_async : Async (list Target) unit;
  tp_add : AddTarget;
  tp_cards : gmap jsstr CardState;
  tp_asking : option Target;
  tp_flights : list TargetFlight;
  tp_said : list ToastCall;
}.

Inductive TargetsMsg :=
  | GAdd | GAddClose | GKind (kind : option TargetKind) | GS3 (f : S3Form) | GFs (f : FilesystemForm) | GSubmit
  | GTest (target : Target) | GRemove (target : Target) | GConfirm (ok : bool)
  | GReload | GRead (i : nat) (answer : list Target + Thrown)
  | GAnswered (i : nat) (answer : TargetAnswer).

Definition target_key (t : Target) : jsstr := id_text (tg_id t).

(** The targets shown: the first of each id. *)
Fixpoint first_of_each (seen : list ID) (l : list Target) : list Target :=
  match l with
  | [] => []
  | t :: l => if existsb (same_id (tg_id t)) seen then first_of_each seen l else t :: first_of_each (tg_id t :: seen) l
  end.

Definition targets_of (s : TargetsState) : list Target := first_of_each [] (default [] (as_data (tp_async s))).
Definition card_of (t : Target) (s : TargetsState) : CardState := default blankCard (tp_cards s !! target_key t).

(** The notes above the cards. *)
Definition local_count (l : list Target) : Z := Z.of_nat (length (List.filter (λ t, bool_decide (tg_kind t = Filesystem)) l)).
Definition offsite_count (l : list Target) : Z := Z.of_nat (length l) - local_count l.

Definition with_tasync (a : Async (list Target) unit) (s : TargetsState) : TargetsState :=
  mkTargets a (tp_add s) (tp_cards s) (tp_asking s) (tp_flights s) (tp_said s).
Definition with_dialog (d : AddTarget) (s : TargetsState) : TargetsState :=
  mkTargets (tp_async s) d (tp_cards s) (tp_asking s) (tp_flights s) (tp_said s).
Definition with_tasking (asking : option Target) (s : TargetsState) : TargetsState :=
  mkTargets (tp_async s) (tp_add s) (tp_cards s) asking (tp_flights s) (tp_said s).
Definition launch (f : TargetFlight) (s : TargetsState) : TargetsState :=
  mkTargets (tp_async s) (tp_add s) (tp_cards s) (tp_asking s) (tp_flights s ++ [f]) (tp_said s).
Definition settled (i : nat) (said : list ToastCall) (s : TargetsState) : TargetsState :=
  mkTargets (tp_async s) (tp_add s) (tp_cards s) (tp_asking s) (delete i (tp_flights s)) (said ++ tp_said s).

(** A card's own state; a card that is gone keeps none. *)
Definition set_card (t : Target) (f : CardState → CardState) (s : TargetsState) : TargetsState :=
  if existsb (str_eqb (target_key t)) (map target_key (targets_of s))
  then mkTargets (tp_async s) (tp_add s) (<[target_key t := f (card_of t s)]> (tp_cards s)) (tp_asking s) (tp_flights s) (tp_said s)
  else s.
Definition prune_cards (s : TargetsState) : TargetsState :=
  mkTargets (tp_async s) (tp_add s) (filter (λ kv, existsb (str_eqb kv.1) (map target_key (targets_of s)) = true) (tp_cards s))
    (tp_asking s) (tp_flights s) (tp_said s).

Definition refresh_targets (s : TargetsState) : TargetsState := with_tasync (run_loader false (tp_async s)) s.

Definition set_kind (k : option TargetKind) (d : AddTarget) : AddTarget :=
  mkAddTarget (at_open d) k (at_s3 d) (at_fs d) (at_submitting d) (at_error d).
Definition set_submitting (b : bool) (error : option jsstr) (d : AddTarget) : AddTarget :=
  mkAddTarget (at_open d) (at_kind d) (at_s3 d) (at_fs d) b error.
Definition close_add (d : AddTarget) : AddTarget := mkAddTarget false None EMPTY_S3 EMPTY_FS (at_submitting d) None.

Section page.
(** How the engine words its own exceptions, and whether the role may change
    infrastructure. *)
Context (engineText : jsstr) (canManage : bool).

Definition mountTargets : TargetsState :=
  mkTargets (mountAsync tt) (mkAddTarget false None EMPTY_S3 EMPTY_FS false None) ∅ None [] [].

Definition targets_uncovered (s : TargetsState) : bool := negb (at_open (tp_add s)) && is_none (tp_asking s).

Definition targets_offered (s : TargetsState) (m : TargetsMsg) : Prop :=
  let d := tp_add s in
  match m with
  | GAdd => targets_uncovered s = true ∧ canManage = true
  | GAddClose => at_open d = true
  | GKind k => at_open d = true ∧ is_none k ≠ is_none (at_kind d)
  | GS3 _ => at_open d = true ∧ at_kind d = Some S3
  | GFs _ => at_open d = true ∧ at_kind d = Some Filesystem
  | GSubmit => at_open d = true ∧ at_kind d ≠ None ∧ at_submitting d = false
  | GTest t => targets_uncovered s = true ∧ t ∈ targets_of s ∧ canManage = true ∧ cs_testing (card_of t s) = false
  | GRemove t => targets_uncovered s = true ∧ t ∈ targets_of s ∧ canManage = true ∧ cs_deleting (card_of t s) = false
  | GConfirm _ => tp_asking s ≠ None
  | GReload => targets_uncovered s = true ∧ as_loading (tp_async s) = false
  | GRead i _ => is_Some (as_pending (tp_async s) !! i)
  | GAnswered i answer =>
      match tp_flights s !! i, answer with
      | Some (FlyAdd _), GotTarget _ | Some (FlyProbe _), GotTest _ | Some (FlyTest _), GotTest _
      | Some (FlyRemove _), GotRemoved | Some _, GotThrown _ => True
      | _, _ => False
      end
  end.

Definition refusal_text (v : jsval) : jsstr := if is_nullish v then u "The probe was refused." else to_str v.

(** What the probe after a creation says, and what a card's test says. *)
Definition probe_said (t : Target) (r : TargetTestResult) : ToastCall :=
  if negb (tt_ok r) then mkCall ToastError (cat [tg_name t; u " is not usable yet"]) (Some (refusal_text (tt_error r))) None
  else match tt_warnings r with
       | w :: _ => mkCall ToastInfo (cat [tg_name t; u " is writable, with warnings"]) (describeTargetWarning w) None
       | [] => mkCall ToastSuccess (cat [tg_name t; u " is writable."]) None None
       end.
Definition test_said (t : Target) (r : TargetTestResult) : ToastCall :=
  if negb (tt_ok r) then mkCall ToastError (cat [tg_name t; u " is not usable"]) (Some (refusal_text (tt_error r))) None
  else match tt_warnings r with
       | _ :: _ => mkCall ToastInfo (cat [tg_name t; u " is writable, with warnings"]) (Some (u "See the target card for details.")) None
       | [] => mkCall ToastSuccess (cat [tg_name t; u " is writable."]) None None
       end.

Definition checking (input : TargetCreate) : jsstr :=
  match input with S3TargetCreate _ _ _ _ _ _ _ => u "Checking bucket access…" | _ => u "Checking the path…" end.

Definition target_answered (i : nat) (f : TargetFlight) (answer : TargetAnswer) (s : TargetsState) : TargetsState :=
  let failed title err := mkCall ToastError title (Some (errorMessage engineText err)) None in
  match f, answer with
  | FlyAdd input, GotTarget t =>
      launch (FlyProbe t)
        (with_dialog (close_add (tp_add s))
          (settled i [mkCall ToastSuccess (cat [u "Target “"; tg_name t; u "” added."]) (Some (checking input)) None] s))
  | FlyAdd _, GotThrown err =>
      with_dialog (set_submitting false (Some (errorMessage engineText err)) (tp_add s))
        (settled i [failed (u "Could not add target") err] s)
  | FlyProbe t, GotTest r =>
      with_dialog (set_submitting false (at_error (tp_add s)) (tp_add s)) (refresh_targets (settled i [probe_said t r] s))
  | FlyProbe _, GotThrown err =>
      with_dialog (set_submitting false (at_error (tp_add s)) (tp_add s)) (refresh_targets (settled i [failed (u "Test failed") err] s))
  | FlyTest t, GotTest r =>
      set_card t (λ c, mkCardState false (cs_deleting c) (Some r)) (refresh_targets (settled i [test_said t r] s))
  | FlyTest t, GotThrown err =>
      set_card t (λ c, mkCardState false (cs_deleting c) (cs_result c)) (settled i [failed (u "Test failed") err] s)
  | FlyRemove t, GotRemoved =>
      set_card t (λ c, mkCardState (cs_testing c) false (cs_result c))
        (refresh_targets (settled i [mkCall ToastSuccess (cat [u "Target “"; tg_name t; u "” removed."]) None None] s))
  | FlyRemove t, GotThrown err =>
      set_card t (λ c, mkCardState (cs_testing c) false (cs_result c)) (settled i [failed (u "Could not remove target") err] s)
  | _, _ => s
  end.

Definition submit_target (s : TargetsState) : TargetsState :=
  match addTargetProblem (tp_add s) with
  | Some message => with_dialog (set_submitting false (Some message) (tp_add s)) s
  | None => launch (FlyAdd (addTargetPayload (tp_add s))) (with_dialog (set_submitting true None (tp_add s)) s)
  end.

Definition targets_step (s : TargetsState) (m : TargetsMsg) : TargetsState :=
  let d := tp_add s in
  match m with
  | GAdd => with_dialog (mkAddTarget true (at_kind d) (at_s3 d) (at_fs d) (at_submitting d) (at_error d)) s
  | GAddClose => with_dialog (close_add d) s
  | GKind k => with_dialog (set_kind k d) s
  | GS3 f => with_dialog (mkAddTarget (at_open d) (at_kind d) f (at_fs d) (at_submitting d) (at_error d)) s
  | GFs f => with_dialog (mkAddTarget (at_open d) (at_kind d) (at_s3 d) f (at_submitting d) (at_error d)) s
  | GSubmit => submit_target s
  | GTest t => launch (FlyTest t) (set_card t (λ c, mkCardState true (cs_deleting c) (cs_result c)) s)
  | GRemove t => with_tasking (Some t) s
  | GConfirm ok =>
      match tp_asking s with
      | Some t =>
          if ok then launch (FlyRemove t) (set_card t (λ c, mkCardState (cs_testing c) true (cs_result c)) (with_tasking None s))
          else with_tasking None s
      | None => s
      end
  | GReload => with_tasync (run_loader true (tp_async s)) s
  | GRead i answer => prune_cards (with_tasync (async_step engineText (tp_async s) (Settled i answer)) s)
  | GAnswered i answer => match tp_flights s !! i with Some f => target_answered i f answer s | None => s end
  end.

Inductive targets_run : TargetsState → Prop :=
  | targets_mount : targets_run mountTargets
  | targets_next s m : targets_run s → targets_offered s m → targets_run (targets_step s m).
End page.

(** ** What is sent *)

Definition sendable_target (input : TargetCreate) : Prop :=
  match input with
  | S3TargetCreate name endpoint region bucket accessKey secretKey _ =>
      name ≠ [] ∧ bucket ≠ [] ∧ accessKey ≠ [] ∧ non_blank secretKey = true
  | FilesystemTargetCreate name path _ => name ≠ [] ∧ absolutePath path = true
  end.

Lemma payload_sendable d : addTargetProblem d = None → sendable_target (addTargetPayload d).
Proof.
  unfold addTargetProblem, addTargetPayload.
  assert (Hs3 : s3Problem (at_s3 d) = None → sendable_target (s3Payload (at_s3 d))).
  { unfold s3Problem. destruct (negb (non_blank (s3_name _))) eqn:E1; [discriminate|].
    destruct (negb (non_blank (s3_endpoint _))) eqn:E2; [discriminate|].
    destruct (negb (non_blank (s3_bucket _))) eqn:E3; [discriminate|].
    destruct (negb (non_blank (s3_accessKey _))) eqn:E4; [discriminate|].
    destruct (negb (non_blank (s3_secretKey _))) eqn:E5; [discriminate|]. intros _. cbn.
    apply negb_false_iff in E5. auto using non_blank_neg. }
  destruct (at_kind d) as [[]|]; [exact Hs3| |exact Hs3]. unfold filesystemProblem.
  destruct (negb (non_blank (fs_name _))) eqn:E1; [discriminate|]. destruct (str_eqb _ []); [discriminate|].
  destruct (negb (absolutePath _)) eqn:E2; [discriminate|]. intros _. cbn. apply negb_false_iff in E2. auto using non_blank_neg.
Qed.

Definition target_flight_ok (f : TargetFlight) : Prop := match f with FlyAdd input => sendable_target input | _ => True end.

Section sent.
Context (engineText : jsstr) (canManage : bool).

Lemma set_card_flights t f s : tp_flights (set_card t f s) = tp_flights s.
Proof. unfold set_card. by destruct (existsb _ _). Qed.

Lemma launch_ok f s : target_flight_ok f → Forall target_flight_ok (tp_flights s) → Forall target_flight_ok (tp_flights (launch f s)).
Proof. intros Hf Hs. cbn [launch tp_flights]. apply Forall_app. split; [done|]. by apply Forall_singleton. Qed.

Lemma target_answered_ok i f answer s : Forall target_flight_ok (tp_flights s) →
  Forall target_flight_ok (tp_flights (target_answered engineText i f answer s)).
Proof.
  intros Hs. assert (Hd : Forall target_flight_ok (delete i (tp_flights s))) by (by apply Forall_delete).
  destruct f, answer; cbn [target_answered]; rewrite ?set_card_flights; try done. by apply launch_ok.
Qed.

Lemma targets_flights_ok s : targets_run engineText canManage s → Forall target_flight_ok (tp_flights s).
Proof.
  induction 1 as [|s m _ IH Ho]; [constructor|]. destruct m; cbn [targets_step]; try exact IH.
  - unfold submit_target. destruct (addTargetProblem (tp_add s)) eqn:E; [done|]. apply launch_ok; [|done]. by apply payload_sendable.
  - apply launch_ok; [done|]. by rewrite set_card_flights.
  - destruct (tp_asking s); [|done]. destruct ok; [|done]. apply launch_ok; [done|]. by rewrite set_card_flights.
  - destruct (tp_flights s !! i); [|done]. by apply target_answered_ok.
Qed.
End sent.

(** ** What the server makes of it *)

(** The body of a creation. *)
Definition target_body (input : TargetCreate) : jsval := default VUndef (r ← createTarget input; rq_body r).

Definition target_request (input : TargetCreate) : createTargetRequest :=
  match input with
  | S3TargetCreate name endpoint region bucket accessKey secretKey pathStyle =>
      mkCreateTarget (go_string name) TargetKindS3 [] (go_string endpoint) (go_string region) (go_string bucket)
        (go_string accessKey) (go_string secretKey) pathStyle false
  | FilesystemTargetCreate name path allow =>
      mkCreateTarget (go_string name) TargetKindFilesystem (go_string path) [] [] [] [] [] false allow
  end.

Lemma decode_target input : decodeTarget (target_body input) = Some (target_request input).
Proof. destruct input; reflexivity. Qed.

Lemma go_string_cons c s : (c < 128)%N → go_string (c :: s) = c :: go_string s.
Proof.
  intros Hc. unfold go_string. cbn [scalar_values].
  assert (is_high c = false ∧ is_low c = false) as [-> ->].
  { unfold is_high, is_low. rewrite !andb_false_iff, !N.leb_gt. lia. }
  destruct (utf8_longer (length s) s) as (b & E & _); [done|]. cbn [utf8].
  assert (is_high c = false ∧ is_low c = false) as [-> ->].
  { unfold is_high, is_low. rewrite !andb_false_iff, !N.leb_gt. lia. }
  rewrite E. cbn [fmap option_fmap option_map default]. by rewrite (proj2 (N.ltb_lt _ _) Hc).
Qed.

Lemma absolute_not_blank path : absolutePath path = true → TrimSpace (go_string path) ≠ [].
Proof.
  destruct path as [|c s]; [discriminate|]. intros H. assert (Hc : graphic c = true ∧ (c < 128)%N).
  { unfold absolutePath, is_letter in H. unfold graphic. rewrite andb_true_iff, !N.leb_le.
    rewrite !orb_true_iff, !N.eqb_eq in H. destruct H as [[->| ->]|H]; [lia|lia|].
    destruct s as [|d s]; [discriminate|]. rewrite !orb_true_iff, !andb_true_iff, !orb_true_iff, !andb_true_iff, !N.leb_le, !N.eqb_eq in H. lia. }
  destruct Hc. rewrite go_string_cons by done. by apply TrimSpace_graphic.
Qed.

Lemma empty_false s : s ≠ [] → empty s = false.
Proof. apply str_eqb_false. Qed.

(** What the server keeps of a creation it does not refuse, and the two
    refusals left: a name or a bucket of characters only Go takes for space. *)
Definition settled_as (input : TargetCreate) (r : createTargetRequest + TargetRefusal) : Prop :=
  match input, r with
  | FilesystemTargetCreate name path allow, inl b =>
      ct_kind b = TargetKindFilesystem ∧ ct_name b = TrimSpace (go_string name) ∧ ct_path b = TrimSpace (go_string path) ∧
      absolutePath path = true ∧ ct_allow b = allow
  | S3TargetCreate name endpoint region bucket accessKey secretKey pathStyle, inl b =>
      ct_kind b = TargetKindS3 ∧ ct_name b = TrimSpace (go_string name) ∧ ct_bucket b = TrimSpace (go_string bucket) ∧
      ct_endpoint b = TrimSpace (go_string endpoint) ∧ ct_secretKey b = go_string secretKey ∧ ct_pathStyle b = pathStyle ∧
      ct_region b = (if empty (TrimSpace (go_string region)) then u "us-east-1" else TrimSpace (go_string region))
  | FilesystemTargetCreate name _ _, inr NameRequired | S3TargetCreate name _ _ _ _ _ _, inr NameRequired =>
      TrimSpace (go_string name) = []
  | S3TargetCreate _ _ _ bucket _ _ _, inr BucketRequired => TrimSpace (go_string bucket) = []
  | _, _ => False
  end.

Section accepted.
Context (ToLower : bytes → bytes) `{!LowerAscii ToLower}.

Lemma lower_kinds : ToLower TargetKindS3 = TargetKindS3 ∧ ToLower TargetKindFilesystem = TargetKindFilesystem.
Proof.
  split; apply lower_ascii; apply Forall_forall; intros c Hc; unfold TargetKindS3, TargetKindFilesystem in Hc; cbv in Hc;
    repeat (apply elem_of_cons in Hc as [->|Hc]; [lia|]); by apply elem_of_nil in Hc.
Qed.

Lemma sendable_settles input : sendable_target input → settled_as input (normalize ToLower (target_request input)).
Proof.
  destruct lower_kinds as [E1 E2].
  destruct input as [name endpoint region bucket access secret style|name path allow]; intros Hs; unfold normalize;
    cbn [target_request ct_name ct_kind ct_path ct_endpoint ct_region ct_bucket ct_accessKey ct_secretKey ct_pathStyle ct_allow];
    rewrite ?TrimSpace_nil.
  - change (TrimSpace TargetKindS3) with TargetKindS3. rewrite E1.
    destruct (empty (TrimSpace (go_string name))) eqn:En; [by apply str_eqb_true in En|].
    change (empty TargetKindS3) with false. cbn [negb]. change (str_eqb TargetKindS3 TargetKindFilesystem) with false.
    change (str_eqb TargetKindS3 TargetKindS3) with true. change (empty []) with true. cbn [negb].
    destruct (empty (TrimSpace (go_string bucket))) eqn:Eb; [by apply str_eqb_true in Eb|]. by cbn.
  - destruct Hs as [Hn Hp]. change (TrimSpace TargetKindFilesystem) with TargetKindFilesystem. rewrite E2.
    destruct (empty (TrimSpace (go_string name))) eqn:En; [by apply str_eqb_true in En|].
    change (empty TargetKindFilesystem) with false. cbn [negb]. change (str_eqb TargetKindFilesystem TargetKindFilesystem) with true.
    cbn match. rewrite empty_false by (by apply absolute_not_blank). by cbn.
Qed.
End accepted.


Definition lower (c : N) : N := if ((65 <=? c) && (c <=? 90))%N then (c + 32)%N else c.

Lemma lower_LowerAscii : LowerAscii (map lower).
Proof.
  constructor. intros s H. induction H as [|c s [_ Hc] _ IH]; [done|]. cbn [map]. rewrite IH. f_equal. unfold lower.
  destruct (N.leb_spec 65 c), (N.leb_spec c 90); cbn; try done; lia.
Qed.

Definition nas_typed : list TargetsMsg :=
  [GAdd; GKind (Some Filesystem); GFs (mkFs (u " nas-primary ") (u "/mnt/nas/proxback//") false); GSubmit].

Definition nas_sent : TargetsState := fold_left (targets_step []) nas_typed mountTargets.

Lemma nas_sent_run : targets_run [] true nas_sent.
Proof. unfold nas_sent, nas_typed. cbn [fold_left]. repeat (apply targets_next; [|done]). apply targets_mount. Qed.


(** ** Where the page falls short *)

(** A drive root loses its separator and is then not an absolute path. *)
Lemma drive_root_refused : filesystemProblem (mkFs (u "usb") (u "C:\") false) = Some (u "Enter an absolute path, for example /mnt/nas/proxback.").
Proof. vm_compute. reflexivity. Qed.

(** A name relative to the server's working directory passes for absolute. *)
Lemma tilde_is_absolute : filesystemProblem (mkFs (u "nas") (u "~backups") false) = None.
Proof. vm_compute. reflexivity. Qed.

(** The console has no words of its own for the one refusal turned warning the
    server reports: the code is [WarnSameFilesystemAsDataDir]. *)
Lemma same_filesystem_not_worded message :
  describeTargetWarning (mkWarning WarnSameFilesystemAsDataDir message) = Some message.
Proof. reflexivity. Qed.

(** The dialog can be closed and opened again while its request is under way;
    the answer then closes the dialog that was opened since and throws away
    what was typed in it. *)
Lemma answer_closes_reopened t : ∃ s, targets_run [] true s ∧
  at_open (tp_add s) = true ∧ fs_name (at_fs (tp_add s)) = u "second" ∧
  targets_offered true s (GAnswered 0 (GotTarget t)) ∧
  let s' := targets_step [] s (GAnswered 0 (GotTarget t)) in
  at_open (tp_add s') = false ∧ fs_name (at_fs (tp_add s')) = [].
Proof.
  exists (fold_left (targets_step []) [GAddClose; GAdd; GKind (Some Filesystem); GFs (mkFs (u "second") [] false)] nas_sent).
  split; [|split_and!; [reflexivity|reflexivity| |split; reflexivity]].
  - cbn [fold_left]. do 4 (apply targets_next; [|done]). exact nas_sent_run.
  - vm_compute. exact I.
Qed.
