(* ===== verification/ServerPosture.v ===== *)
(** * The server's protection posture (internal/api/posture.go)

    What the server says about every workload: which job governs it, whether
    its newest restore point is as recent as that job's schedule promises, and
    the verdict that follows.  The database is the lists its queries return. *)
From Stdlib Require Import QArith.
From stdpp Require Import gmap.
From S2P Require Import Prelude JsString JsNumber JsValue GoString ServerSchedule.
#[local] Open Scope Z_scope.

Definition given {A} (o : option A) : bool := match o with Some _ => true | None => false end.

(** ** Durations *)

(** Instants and durations are int64 nanoseconds; [Time.Sub] saturates. *)
Definition maxDuration : Z := 2 ^ 63 - 1.
Definition minDuration : Z := - 2 ^ 63.
Definition Sub (t v : Z) : Z := Z.max minDuration (Z.min maxDuration (t - v)).
Definition Hour : Z := 3600 * 10 ^ 9.

(** [Duration.Hours]: the whole hours and the rest, added as float64. *)
Definition Hours (d : Z) : num :=
  nadd (rnd (inject_Z (Z.quot d Hour))) (ndiv (rnd (inject_Z (Z.rem d Hour))) (of_Z Hour)).

Section rpo.
Context (ToLower : bytes → bytes).

Definition RPO (s : GoSchedule) : option Z :=
  let kind := Kind (Normalized ToLower s) in
  if str_eqb kind (u "hourly") then Some Hour
  else if str_eqb kind (u "daily") then Some (24 * Hour)
  else if str_eqb kind (u "weekly") then Some (168 * Hour)
  else if str_eqb kind (u "monthly") then Some (720 * Hour)
  else None.
End rpo.

Definition RPOGrace (rpo : Z) : Z := let grace := Z.quot rpo 4 in if grace <? Hour then Hour else grace.

(** ** The rows the queries return *)

Definition SourceVM : bytes := u "vm".
Definition SourceAgent : bytes := u "agent".
Definition SourceFailed : bytes := u "failed".

Record GoJobSource := mkJobSrc { jsrc_hostID : bytes; jsrc_vmid : Z; jsrc_name : bytes; jsrc_agentID : bytes; jsrc_paths : list bytes }.

Record GoJob := mkGoJob {
  gj_name : bytes; gj_kind : bytes; gj_schedule : GoSchedule; gj_enabled : bool; gj_sources : list GoJobSource; gj_tagFilter : bytes;
}.

Record VM := mkVM { vm_vmid : Z; vm_name : bytes; vm_node : bytes; vm_tags : list bytes; vm_hostID : bytes; vm_hostName : bytes }.
Record AgentRow := mkAgentRow { agr_id : bytes; agr_hostname : bytes }.
Record PointRow := mkPoint { pt_sourceKind : bytes; pt_sourceID : bytes; pt_createdAt : Z; pt_lastVerifiedAt : option Z }.
Record SourceOutcome := mkOutcome { so_status : bytes; so_finishedAt : Z }.

(** ** The evaluation *)

Inductive Status := Protected | AtRisk | Unprotected | Unknown.
#[export] Instance Status_eq_dec : EqDecision Status.
Proof. solve_decision. Defined.
Definition status_text (s : Status) : bytes :=
  match s with Protected => u "protected" | AtRisk => u "at_risk" | Unprotected => u "unprotected" | Unknown => u "unknown" end.

Definition ReasonNoJob : bytes := u "no_job".
Definition ReasonNoRestorePoints : bytes := u "no_restore_points".
Definition ReasonLastRunFailed : bytes := u "last_run_failed".
Definition ReasonRPOExceeded : bytes := u "rpo_exceeded".

Record postureCountsDTO := mkCounts { pc_protected : Z; pc_atRisk : Z; pc_unprotected : Z }.
Record postureReasonDTO := mkReason { pr_code : bytes; pr_workloads : Z; pr_detail : bytes }.

Record postureWorkloadDTO := mkRow {
  pw_kind : bytes; pw_id : bytes; pw_name : bytes; pw_vmid : Z; pw_hostName : bytes; pw_node : bytes;
  pw_policy : bytes; pw_enabled : bool; pw_rpoHours : option num; pw_lastSuccessAt : option Z; pw_ageHours : option num;
  pw_withinRpo : option bool; pw_lastFailureAt : option Z; pw_lastVerifiedAt : option Z; pw_restorePoints : Z; pw_status : Status;
}.

Record postureDTO := mkPostureDTO {
  pd_verdict : Status; pd_counts : postureCountsDTO; pd_reasons : list postureReasonDTO; pd_workloads : list postureWorkloadDTO;
}.

Record postureWorkload := mkWk {
  wk_kind : bytes; wk_id : bytes; wk_name : bytes; wk_vmid : Z; wk_hostName : bytes; wk_node : bytes; wk_job : option GoJob;
  wk_lastSuccessAt : option Z; wk_lastFailureAt : option Z; wk_lastOutcomeFailed : bool; wk_lastVerifiedAt : option Z; wk_restorePoints : Z;
}.

(** [reasons[code]++]. *)
Definition bump (code : bytes) (reasons : gmap bytes Z) : gmap bytes Z := <[code := default 0 (reasons !! code) + 1]> reasons.

Definition reason_details : list (bytes * bytes) :=
  [ (ReasonNoJob, u "in no enabled backup job"); (ReasonNoRestorePoints, u "in a job but with no restore point yet");
    (ReasonLastRunFailed, u "their most recent backup attempt failed");
    (ReasonRPOExceeded, u "their newest restore point is older than the job's schedule allows") ].

Definition reason_order (code : bytes) : Z :=
  if str_eqb code ReasonNoRestorePoints then 1 else if str_eqb code ReasonLastRunFailed then 2
  else if str_eqb code ReasonRPOExceeded then 3 else 0.

Definition reason_detail (code : bytes) : bytes :=
  match List.find (λ kv, str_eqb kv.1 code) reason_details with Some kv => kv.2 | None => [] end.

(** The map is walked in no order of its own; the sort gives it one. *)
Definition postureReasons (counts : gmap bytes Z) : list postureReasonDTO :=
  sort_by (λ a b, reason_order (pr_code a) <=? reason_order (pr_code b))
    (map (λ kv : bytes * Z, mkReason kv.1 kv.2 (reason_detail kv.1)) (filter (λ kv : bytes * Z, kv.2 ≠ 0) (map_to_list counts))).

Section evaluate.
Context (ToLower : bytes → bytes).

(** One workload: its row, and the reasons counted so far. *)
Definition judge (now : Z) (w : postureWorkload) (reasons : gmap bytes Z) : postureWorkloadDTO * gmap bytes Z :=
  let age := (λ t, let h := Hours (Sub now t) in if nlt h (of_Z 0) then of_Z 0 else h) <$> wk_lastSuccessAt w in
  let row policy enabled rpoHours within status :=
    mkRow (wk_kind w) (wk_id w) (wk_name w) (wk_vmid w) (wk_hostName w) (wk_node w) policy enabled rpoHours
      (wk_lastSuccessAt w) age within (wk_lastFailureAt w) (wk_lastVerifiedAt w) (wk_restorePoints w) status in
  match wk_job w with
  | None => (row [] false None None Unprotected, bump ReasonNoJob reasons)
  | Some job =>
      let rpo := RPO ToLower (gj_schedule job) in
      let '(status, reasons) := if wk_restorePoints w =? 0 then (AtRisk, bump ReasonNoRestorePoints reasons) else (Protected, reasons) in
      let '(status, reasons) := if wk_lastOutcomeFailed w then (AtRisk, bump ReasonLastRunFailed reasons) else (status, reasons) in
      match rpo with
      | None => (row (gj_name job) (gj_enabled job) None None status, reasons)
      | Some rpo =>
          let deadline := rpo + RPOGrace rpo in
          let within := match wk_lastSuccessAt w with Some t => Sub now t <=? deadline | None => false end in
          let '(status, reasons) :=
            if negb within && (0 <? wk_restorePoints w) then (AtRisk, bump ReasonRPOExceeded reasons) else (status, reasons) in
          (row (gj_name job) (gj_enabled job) (Some (Hours rpo)) (Some within) status, reasons)
      end
  end.

Definition count_posture (s : Status) (c : postureCountsDTO) : postureCountsDTO :=
  match s with
  | Protected => mkCounts (pc_protected c + 1) (pc_atRisk c) (pc_unprotected c)
  | AtRisk => mkCounts (pc_protected c) (pc_atRisk c + 1) (pc_unprotected c)
  | _ => mkCounts (pc_protected c) (pc_atRisk c) (pc_unprotected c + 1)
  end.

(** The loop over the workloads. *)
Definition judge_next (now : Z) (acc : list postureWorkloadDTO * postureCountsDTO * gmap bytes Z) (w : postureWorkload) :=
  let '(rows, counts, reasons) := acc in
  let '(d, reasons) := judge now w reasons in
  (rows ++ [d], count_posture (pw_status d) counts, reasons).

Definition evaluatePosture (workloads : list postureWorkload) (now : Z) : postureDTO :=
  match workloads with
  | [] => mkPostureDTO Unknown (mkCounts 0 0 0) [] []
  | _ =>
      let '(rows, counts, reasons) := fold_left (judge_next now) workloads ([], mkCounts 0 0 0, ∅) in
      let verdict := if 0 <? pc_unprotected counts then Unprotected else if 0 <? pc_atRisk counts then AtRisk else Protected in
      mkPostureDTO verdict counts (postureReasons reasons) rows
  end.

(** ** The governing job *)

Definition moreProtective (rpo : option Z) (name : bytes) (bestRpo : option Z) (bestName : bytes) : bool :=
  if negb (Bool.eqb (given rpo) (given bestRpo)) then given rpo
  else match rpo, bestRpo with
       | Some r, Some b => if negb (r =? b) then r <? b else bytes_ltb name bestName
       | _, _ => bytes_ltb name bestName
       end.

Definition better (j best : GoJob) : bool :=
  moreProtective (RPO ToLower (gj_schedule j)) (gj_name j) (RPO ToLower (gj_schedule best)) (gj_name best).

Definition governingJob (jobs : list GoJob) (member : GoJob → bool) : option GoJob :=
  fold_left (λ best j,
    if negb (gj_enabled j) || negb (member j) then best
    else match best with
         | None => Some j
         | Some b => if better j b then Some j else best
         end) jobs None.

Definition HasTag (v : VM) (tag : bytes) : bool :=
  let want := ToLower (TrimSpace tag) in
  if str_eqb want [] then false else existsb (λ t, str_eqb t want) (vm_tags v).

Definition jobCoversVM (j : GoJob) (vm : VM) : bool :=
  if negb (str_eqb (gj_kind j) SourceVM) then false
  else if negb (str_eqb (gj_tagFilter j) []) then HasTag vm (gj_tagFilter j)
  else existsb (λ s, str_eqb (jsrc_hostID s) (vm_hostID vm) && (jsrc_vmid s =? vm_vmid vm)) (gj_sources j).

Definition jobCoversAgent (j : GoJob) (agentID : bytes) : bool :=
  if negb (str_eqb (gj_kind j) SourceAgent) then false
  else existsb (λ s, str_eqb (jsrc_agentID s) agentID) (gj_sources j).

(** ** The handler *)

Record pointStats := mkStats { ps_count : Z; ps_newest : option Z; ps_verifiedAt : option Z }.

Definition later (t : Z) (best : option Z) : option Z :=
  match best with None => Some t | Some b => if b <? t then Some t else best end.

Definition add_point (points : gmap bytes pointStats) (b : PointRow) : gmap bytes pointStats :=
  let key := pt_sourceKind b ++ u "/" ++ pt_sourceID b in
  let st := default (mkStats 0 None None) (points !! key) in
  <[key := mkStats (ps_count st + 1) (later (pt_createdAt b) (ps_newest st))
             (match pt_lastVerifiedAt b with Some v => later v (ps_verifiedAt st) | None => ps_verifiedAt st end)]> points.

Definition fold_points (backups : list PointRow) : gmap bytes pointStats := fold_left add_point backups ∅.

Definition VMSourceID (hostID : bytes) (vmid : Z) : bytes := hostID ++ u "_" ++ str_of_Z vmid.

Definition workload_of (points : gmap bytes pointStats) (outcomes : gmap bytes SourceOutcome)
    (kind id name : bytes) (vmid : Z) (hostName node : bytes) (job : option GoJob) : postureWorkload :=
  let st := default (mkStats 0 None None) (points !! (kind ++ u "/" ++ id)) in
  let failed := o ← outcomes !! id; if str_eqb (so_status o) SourceFailed then Some (so_finishedAt o) else None in
  mkWk kind id name vmid hostName node job (ps_newest st) failed (given failed) (ps_verifiedAt st) (ps_count st).

Definition vm_workload jobs points outcomes (vm : VM) : postureWorkload :=
  workload_of points outcomes SourceVM (VMSourceID (vm_hostID vm) (vm_vmid vm)) (vm_name vm) (vm_vmid vm) (vm_hostName vm) (vm_node vm)
    (governingJob jobs (λ j, jobCoversVM j vm)).
Definition agent_workload jobs points outcomes (a : AgentRow) : postureWorkload :=
  workload_of points outcomes SourceAgent (agr_id a) (agr_hostname a) 0 [] [] (governingJob jobs (λ j, jobCoversAgent j (agr_id a))).

(** [None]: a query failed, and the answer is an internal error. *)
Definition handlePosture (jobs : option (list GoJob)) (vms : option (list VM)) (agents : option (list AgentRow))
    (backups : option (list PointRow)) (outcomes : option (gmap bytes SourceOutcome)) (now : Z) : option postureDTO :=
  jobs ← jobs; vms ← vms; agents ← agents; backups ← backups; outcomes ← outcomes;
  let points := fold_points backups in
  Some (evaluatePosture (map (vm_workload jobs points outcomes) vms ++ map (agent_workload jobs points outcomes) agents) now).
End evaluate.

(** ** The answer

    What the console parses of it: a field tagged [omitempty] is absent when its
    pointer is nil, its text empty or its number 0. *)

Section wire.
(** [time.Time]'s encoding. *)
Context (rfc3339 : Z → jsstr).

Definition text_val (s : bytes) : jsval := VStr (utf8_to_utf16 s).
Definition int_val (n : Z) : jsval := VNum (rnd (inject_Z n)).
Definition time_val (t : Z) : jsval := VStr (rfc3339 t).

Definition workload_val (d : postureWorkloadDTO) : jsval :=
  struct_val
    [ (u "kind", Some (text_val (pw_kind d))); (u "id", Some (text_val (pw_id d))); (u "name", Some (text_val (pw_name d)));
      (u "vmid", if pw_vmid d =? 0 then None else Some (int_val (pw_vmid d)));
      (u "hostName", Some (text_val (pw_hostName d))); (u "node", Some (text_val (pw_node d)));
      (u "policy", if str_eqb (pw_policy d) [] then None else Some (text_val (pw_policy d)));
      (u "enabled", Some (VBool (pw_enabled d))); (u "rpoHours", VNum <$> pw_rpoHours d);
      (u "lastSuccessAt", time_val <$> pw_lastSuccessAt d); (u "ageHours", VNum <$> pw_ageHours d);
      (u "withinRpo", VBool <$> pw_withinRpo d); (u "lastFailureAt", time_val <$> pw_lastFailureAt d);
      (u "lastVerifiedAt", time_val <$> pw_lastVerifiedAt d); (u "restorePoints", Some (int_val (pw_restorePoints d)));
      (u "status", Some (text_val (status_text (pw_status d)))) ].

Definition reason_val (r : postureReasonDTO) : jsval :=
  VObj [(u "code", text_val (pr_code r)); (u "workloads", int_val (pr_workloads r)); (u "detail", text_val (pr_detail r))].

Definition counts_val (c : postureCountsDTO) : jsval :=
  VObj [(u "protected", int_val (pc_protected c)); (u "atRisk", int_val (pc_atRisk c)); (u "unprotected", int_val (pc_unprotected c))].

Definition posture_val (p : postureDTO) : jsval :=
  VObj [(u "verdict", text_val (status_text (pd_verdict p))); (u "counts", counts_val (pd_counts p));
        (u "reasons", VArr (map reason_val (pd_reasons p))); (u "workloads", VArr (map workload_val (pd_workloads p)))].
End wire.

(** ** What the evaluation says *)

Section spec.
Context (ToLower : bytes → bytes).

(** The newest restore point is too old for what the job promises. *)
Definition overdue (now : Z) (w : postureWorkload) (rpo : Z) : bool :=
  match wk_lastSuccessAt w with Some t => rpo + RPOGrace rpo <? Sub now t | None => true end.

(** Why a workload is not protected. *)
Definition reasons_of (now : Z) (w : postureWorkload) : list bytes :=
  match wk_job w with
  | None => [ReasonNoJob]
  | Some job =>
      (if wk_restorePoints w =? 0 then [ReasonNoRestorePoints] else [])
      ++ (if wk_lastOutcomeFailed w then [ReasonLastRunFailed] else [])
      ++ (match RPO ToLower (gj_schedule job) with
          | Some rpo => if overdue now w rpo && (0 <? wk_restorePoints w) then [ReasonRPOExceeded] else []
          | None => []
          end)
  end.

Definition posture_status (now : Z) (w : postureWorkload) : Status :=
  match wk_job w with
  | None => Unprotected
  | Some _ => match reasons_of now w with [] => Protected | _ => AtRisk end
  end.

Definition posture_row (now : Z) (w : postureWorkload) : postureWorkloadDTO := (judge ToLower now w ∅).1.

Definition bump_all : list bytes → gmap bytes Z → gmap bytes Z := fold_left (λ m code, bump code m).

Lemma judge_spec now w m :
  judge ToLower now w m = (posture_row now w, bump_all (reasons_of now w) m) ∧ pw_status (posture_row now w) = posture_status now w ∧
  pw_id (posture_row now w) = wk_id w ∧ pw_kind (posture_row now w) = wk_kind w.
Proof.
  unfold posture_row, posture_status, reasons_of, judge, overdue. destruct (wk_job w) as [job|]; [|done]. cbv beta iota zeta.
  destruct (RPO ToLower (gj_schedule job)) as [rpo|].
  - destruct (wk_lastSuccessAt w) as [t|]; rewrite <- ?Z.leb_antisym;
      rewrite ?(Z.ltb_antisym (Sub now _)); rewrite ?Z.leb_antisym;
      destruct (wk_restorePoints w =? 0), (wk_lastOutcomeFailed w), (0 <? wk_restorePoints w); rewrite ?andb_true_r, ?andb_false_r;
      try done; try (by destruct (_ <? _)).
  - by destruct (wk_restorePoints w =? 0), (wk_lastOutcomeFailed w).
Qed.

Definition times (code : bytes) (codes : list bytes) : Z := Z.of_nat (length (filter (λ c, c = code) codes)).

Lemma times_app code l k : times code (l ++ k) = times code l + times code k.
Proof. unfold times. rewrite filter_app, length_app. lia. Qed.

Lemma times_pos code l : 0 < times code l ↔ code ∈ l.
Proof.
  unfold times. split.
  - destruct (filter _ l) as [|c k] eqn:E; cbn [length]; [lia|]. intros _.
    assert (H : c ∈ filter (λ c, c = code) l) by (rewrite E; by constructor). by apply list_elem_of_filter in H as [-> H].
  - intros H. assert (Hf : code ∈ filter (λ c, c = code) l) by (by apply list_elem_of_filter). destruct (filter _ l); [by apply elem_of_nil in Hf|]. cbn [length]. lia.
Qed.

Lemma bump_all_count codes m code : default 0 (bump_all codes m !! code) = default 0 (m !! code) + times code codes.
Proof.
  revert m. unfold bump_all. induction codes as [|c codes IH]; intros m; cbn [fold_left]; [unfold times; cbn; lia|].
  rewrite IH. unfold bump, times. rewrite filter_cons. destruct (decide (c = code)) as [->|Hne].
  - rewrite lookup_insert_eq. cbn [default length]. unfold id. lia.
  - by rewrite lookup_insert_ne.
Qed.

Lemma judge_all now ws rows counts m :
  fold_left (judge_next ToLower now) ws (rows, counts, m) =
  (rows ++ map (posture_row now) ws, fold_left (λ c w, count_posture (posture_status now w) c) ws counts,
   bump_all (concat (map (reasons_of now) ws)) m).
Proof.
  revert rows counts m. induction ws as [|w ws IH]; intros rows counts m; cbn [fold_left map concat].
  - by rewrite app_nil_r.
  - unfold judge_next at 2. destruct (judge_spec now w m) as (-> & -> & _). rewrite IH, <- app_assoc.
    unfold bump_all at 3. by rewrite fold_left_app.
Qed.

(** How many workloads are in a status. *)
Definition in_status (now : Z) (s : Status) (ws : list postureWorkload) : Z :=
  Z.of_nat (length (filter (λ w, posture_status now w = s) ws)).

Lemma status_known now w : posture_status now w ≠ Unknown.
Proof. unfold posture_status. destruct (wk_job w); [|done]. by destruct (reasons_of now w). Qed.

Lemma count_statuses now ws c :
  fold_left (λ c w, count_posture (posture_status now w) c) ws c =
  mkCounts (pc_protected c + in_status now Protected ws) (pc_atRisk c + in_status now AtRisk ws)
    (pc_unprotected c + in_status now Unprotected ws).
Proof.
  revert c. unfold in_status. induction ws as [|w ws IH]; intros c; cbn [fold_left].
  - destruct c. cbn. by rewrite !Z.add_0_r.
  - rewrite IH, !filter_cons. pose proof (status_known now w).
    destruct (posture_status now w); try done; cbn [count_posture pc_protected pc_atRisk pc_unprotected decide];
      repeat case_decide; try done; cbn [length]; f_equal; lia.
Qed.

Lemma in_status_pos now s ws : 0 < in_status now s ws ↔ ∃ w, w ∈ ws ∧ posture_status now w = s.
Proof.
  unfold in_status. split.
  - destruct (filter _ ws) as [|w l] eqn:E; cbn [length]; [lia|]. intros _. exists w.
    assert (H : w ∈ filter (λ w, posture_status now w = s) ws) by (rewrite E; by constructor). apply list_elem_of_filter in H. tauto.
  - intros (w & Hw & Hs). assert (Hf : w ∈ filter (λ w, posture_status now w = s) ws) by (by apply list_elem_of_filter).
    destruct (filter _ ws); [by apply elem_of_nil in Hf|]. cbn [length]. lia.
Qed.

(** ** The reasons, worst first *)

Definition reason_codes : list bytes := [ReasonNoJob; ReasonNoRestorePoints; ReasonLastRunFailed; ReasonRPOExceeded].

Lemma reasons_of_codes now w : reasons_of now w ⊆ reason_codes.
Proof.
  unfold reasons_of. destruct (wk_job w) as [job|]; [|set_solver]. destruct (RPO ToLower (gj_schedule job));
    repeat case_match; set_solver.
Qed.

Definition reasons_in_order (codes : list bytes) : list postureReasonDTO :=
  map (λ c, mkReason c (times c codes) (reason_detail c)) (filter (λ c, times c codes ≠ 0) reason_codes).

Lemma bump_all_known codes code : default 0 (bump_all codes ∅ !! code) = times code codes.
Proof. rewrite bump_all_count, lookup_empty. cbn. lia. Qed.

Lemma reason_ranks c c' : c ∈ reason_codes → c' ∈ reason_codes → reason_order c = reason_order c' → c = c'.
Proof.
  unfold reason_codes. rewrite !list_elem_of_In. cbn [In].
  intros [<-|[<-|[<-|[<-|[]]]]] [<-|[<-|[<-|[<-|[]]]]] H; try reflexivity; exfalso; revert H; vm_compute; discriminate.
Qed.

Lemma reasons_in_order_sorted codes :
  StronglySorted (λ a b, (reason_order (pr_code a) <=? reason_order (pr_code b)) = true) (reasons_in_order codes).
Proof.
  unfold reasons_in_order, reason_codes. rewrite !filter_cons, filter_nil.
  repeat case_decide; cbn [map]; repeat constructor.
Qed.

Lemma NoDup_reason_codes : NoDup reason_codes.
Proof. apply (bool_decide_unpack _). vm_compute. exact I. Qed.

Lemma postureReasons_spec codes : codes ⊆ reason_codes → postureReasons (bump_all codes ∅) = reasons_in_order codes.
Proof.
  intros Hsub. unfold postureReasons. set (m := bump_all codes ∅).
  set (entries := map _ (filter (λ kv : bytes * Z, kv.2 ≠ 0) (map_to_list m))).
  assert (Hin : ∀ r, r ∈ entries ↔ times (pr_code r) codes ≠ 0 ∧ r = mkReason (pr_code r) (times (pr_code r) codes) (reason_detail (pr_code r))).
  { intros r. unfold entries. rewrite list_elem_of_fmap. setoid_rewrite list_elem_of_filter. split.
    - intros ([c n] & -> & Hn & Hc%elem_of_map_to_list). cbn [fst snd pr_code] in *.
      pose proof (bump_all_known codes c) as E. fold m in E. rewrite Hc in E. cbn in E. subst n. done.
    - intros [Hn E]. exists (pr_code r, times (pr_code r) codes). split_and!; [exact E|done|]. apply elem_of_map_to_list.
      pose proof (bump_all_known codes (pr_code r)) as Em. fold m in Em. destruct (m !! pr_code r) as [n|]; cbn in Em; [by subst n|congruence]. }
  assert (Hcode : ∀ r, r ∈ entries → pr_code r ∈ reason_codes).
  { intros r [Hn _]%Hin. apply Hsub, times_pos. unfold times in *. lia. }
  assert (Hperm : entries ≡ₚ reasons_in_order codes).
  { apply NoDup_Permutation.
    - apply NoDup_fmap_2_strong; [|apply NoDup_filter, NoDup_map_to_list]. intros [] [] _ _ [= -> ->]. done.
    - apply NoDup_fmap_2_strong; [|apply NoDup_filter, NoDup_reason_codes]. intros ? ? _ _ [= ->]. done.
    - intros r. rewrite Hin. unfold reasons_in_order. rewrite list_elem_of_fmap. setoid_rewrite list_elem_of_filter. split.
      + intros [Hn E]. exists (pr_code r). split_and!; [exact E|done|]. apply Hcode, Hin. done.
      + intros (c & -> & Hn & _). done. }
  eapply StronglySorted_unique_strong; [| |apply reasons_in_order_sorted|by rewrite sort_by_perm].
  - intros r r' Hr Hr' H1 H2. rewrite elem_of_sort_by in Hr. rewrite <- Hperm in Hr'. apply Z.leb_le in H1, H2.
    pose proof (reason_ranks _ _ (Hcode _ Hr) (Hcode _ Hr') ltac:(lia)) as E.
    apply Hin in Hr as [_ ->]. apply Hin in Hr' as [_ ->]. cbn [pr_code] in E. by rewrite E.
  - apply Sorted_StronglySorted; [intros a b c H1 H2; apply Z.leb_le in H1, H2; apply Z.leb_le; lia|].
    apply sort_by_sorted. intros a b H. apply Z.leb_gt in H. apply Z.leb_le. lia.
Qed.

(** Everything the evaluation says. *)
Lemma evaluatePosture_spec ws now : ws ≠ [] →
  evaluatePosture ToLower ws now =
  mkPostureDTO
    (if 0 <? in_status now Unprotected ws then Unprotected else if 0 <? in_status now AtRisk ws then AtRisk else Protected)
    (mkCounts (in_status now Protected ws) (in_status now AtRisk ws) (in_status now Unprotected ws))
    (reasons_in_order (concat (map (reasons_of now) ws))) (map (posture_row now) ws).
Proof.
  intros Hne. unfold evaluatePosture. destruct ws as [|w ws']; [done|]. rewrite judge_all, count_statuses, postureReasons_spec; [done|].
  intros c Hc. apply list_elem_of_In, in_concat in Hc as (l & Hl & Hc). apply in_map_iff in Hl as (x & <- & _).
  apply (reasons_of_codes now x). by apply list_elem_of_In.
Qed.

Lemma in_status_total ws now :
  in_status now Protected ws + in_status now AtRisk ws + in_status now Unprotected ws = Z.of_nat (length ws).
Proof.
  unfold in_status. induction ws as [|w ws IH]; [done|]. rewrite !filter_cons. pose proof (status_known now w).
  destruct (posture_status now w); try done; repeat case_decide; try done; cbn [length]; lia.
Qed.
End spec.

(** ** The governing job *)

Section governing.
Context (ToLower : bytes → bytes).

Lemma better_trans a b c : better ToLower a b = true → better ToLower b c = true → better ToLower a c = true.
Proof.
  unfold better, moreProtective, given. generalize (gj_name a) (gj_name b) (gj_name c). intros n1 n2 n3.
  destruct (RPO ToLower (gj_schedule a)) as [r1|], (RPO ToLower (gj_schedule b)) as [r2|], (RPO ToLower (gj_schedule c)) as [r3|];
    cbn [Bool.eqb negb]; try done; try apply bytes_ltb_trans.
  destruct (Z.eqb_spec r1 r2), (Z.eqb_spec r2 r3), (Z.eqb_spec r1 r3); cbn [negb]; rewrite ?Z.ltb_lt; try lia.
  apply bytes_ltb_trans.
Qed.

Lemma better_irrefl a : better ToLower a a = false.
Proof.
  unfold better, moreProtective. rewrite eqb_reflx. cbn [negb]. destruct (RPO _ _) as [r|]; [|apply bytes_ltb_irrefl].
  rewrite Z.eqb_refl. apply bytes_ltb_irrefl.
Qed.

(** The candidate so far governs the jobs seen so far. *)
Definition governs (member : GoJob → bool) (seen : list GoJob) (best : option GoJob) : Prop :=
  match best with
  | None => ∀ j, j ∈ seen → gj_enabled j = true → member j = false
  | Some b => b ∈ seen ∧ gj_enabled b = true ∧ member b = true ∧
      ∀ j, j ∈ seen → gj_enabled j = true → member j = true → better ToLower j b = false
  end.

Lemma governingJob_spec jobs member : governs member jobs (governingJob ToLower jobs member).
Proof.
  unfold governingJob. set (f := λ best j, _).
  enough (H : ∀ js seen best, governs member seen best → governs member (seen ++ js) (fold_left f js best)).
  { apply (H jobs [] None). intros j Hj. by apply elem_of_nil in Hj. }
  induction js as [|j js IH]; intros seen best Hb; cbn [fold_left]; [by rewrite app_nil_r|].
  replace (seen ++ j :: js) with ((seen ++ [j]) ++ js) by (by rewrite <- app_assoc). apply IH. clear IH. unfold f.
  assert (Hin : ∀ k, k ∈ seen ++ [j] ↔ k ∈ seen ∨ k = j) by (intros k; by rewrite elem_of_app, list_elem_of_singleton).
  destruct (gj_enabled j) eqn:Ee, (member j) eqn:Em; cbn [negb orb]; destruct best as [b|]; cbn [governs] in *;
    try (destruct Hb as (Hb & He & Hm & Hall)).
  - destruct (better ToLower j b) eqn:Ej; cbn [governs].
    + split_and!; [set_solver|done|done|]. intros k [Hk| ->]%Hin ??; [|apply better_irrefl].
      apply not_true_is_false. intros C. pose proof (better_trans _ _ _ C Ej) as D. rewrite (Hall k Hk) in D; done.
    + split_and!; [set_solver|done|done|]. intros k [Hk| ->]%Hin ??; [by apply Hall|done].
  - split_and!; [set_solver|done|done|]. intros k [Hk| ->]%Hin ??; [|apply better_irrefl]. pose proof (Hb k Hk ltac:(assumption)). congruence.
  - split_and!; [set_solver|done|done|]. intros k [Hk| ->]%Hin ??; [by apply Hall|congruence].
  - intros k [Hk| ->]%Hin ?; [by apply Hb|done].
  - split_and!; [set_solver|done|done|]. intros k [Hk| ->]%Hin ??; [by apply Hall|congruence].
  - intros k [Hk| ->]%Hin ?; [by apply Hb|congruence].
  - split_and!; [set_solver|done|done|]. intros k [Hk| ->]%Hin ??; [by apply Hall|congruence].
  - intros k [Hk| ->]%Hin ?; [by apply Hb|congruence].
Qed.
End governing.

(** ** The restore points of one workload *)

Definition point_key (b : PointRow) : bytes := pt_sourceKind b ++ u "/" ++ pt_sourceID b.

(** [t] is the latest of the instants [l]. *)
Definition latest (t : option Z) (l : list Z) : Prop :=
  match t with None => l = [] | Some t => t ∈ l ∧ ∀ v, v ∈ l → v <= t end.

Lemma latest_later t l v : latest t l → latest (Some match t with Some b => if b <? v then v else b | None => v end) (l ++ [v]).
Proof.
  destruct t as [t|]; cbn [latest].
  - intros [Ht Hmax]. destruct (Z.ltb_spec t v); split; try set_solver; intros x [Hx| ->%list_elem_of_singleton]%elem_of_app; try lia;
      specialize (Hmax x Hx); lia.
  - intros ->. split; [set_solver|]. intros x Hx. apply list_elem_of_singleton in Hx. lia.
Qed.

Lemma later_Some v t : later v t = Some match t with Some b => if b <? v then v else b | None => v end.
Proof. unfold later. destruct t as [t|]; [|done]. by destruct (t <? v). Qed.

Definition points_at (key : bytes) (backups : list PointRow) : list PointRow := filter (λ b, point_key b = key) backups.

(** What is folded for a key: how many points, the newest, the last verification. *)
Definition stats_ok (l : list PointRow) (st : pointStats) : Prop :=
  ps_count st = Z.of_nat (length l) ∧ latest (ps_newest st) (map pt_createdAt l) ∧ latest (ps_verifiedAt st) (omap pt_lastVerifiedAt l).

Lemma fold_points_spec backups key : stats_ok (points_at key backups) (default (mkStats 0 None None) (fold_points backups !! key)).
Proof.
  unfold fold_points.
  enough (H : ∀ bs seen points, stats_ok (points_at key seen) (default (mkStats 0 None None) (points !! key)) →
            stats_ok (points_at key (seen ++ bs)) (default (mkStats 0 None None) (fold_left add_point bs points !! key))).
  { apply (H backups [] ∅). by rewrite lookup_empty. }
  induction bs as [|b bs IH]; intros seen points Hs; cbn [fold_left]; [by rewrite app_nil_r|].
  replace (seen ++ b :: bs) with ((seen ++ [b]) ++ bs) by (by rewrite <- app_assoc). apply IH. clear IH.
  unfold points_at in *. rewrite filter_app, filter_cons, filter_nil. unfold add_point. fold (point_key b).
  destruct (decide (point_key b = key)) as [<-|Hne]; [|by rewrite app_nil_r, lookup_insert_ne].
  rewrite lookup_insert_eq. set (st := default _ (points !! point_key b)) in *. destruct Hs as (Hc & Hn & Hv). unfold stats_ok.
  change (default ?a (Some ?b)) with b.
  cbn [ps_count ps_newest ps_verifiedAt]. rewrite length_app, map_app, omap_app. split_and!.
  - rewrite Hc. cbn [length]. lia.
  - rewrite later_Some. by apply latest_later.
  - cbn [omap list_omap]. destruct (pt_lastVerifiedAt b); [|by rewrite app_nil_r]. rewrite later_Some. by apply latest_later.
Qed.

(** ** What protects a workload *)

Definition known_kind (b : PointRow) : Prop := pt_sourceKind b = SourceVM ∨ pt_sourceKind b = SourceAgent.

Lemma point_key_inj b kind id : known_kind b → kind = SourceVM ∨ kind = SourceAgent →
  point_key b = kind ++ u "/" ++ id ↔ pt_sourceKind b = kind ∧ pt_sourceID b = id.
Proof.
  unfold known_kind, point_key. intros Hb Hk. split; [|by intros [-> ->]].
  destruct Hb as [-> | ->], Hk as [-> | ->]; intros H; cbv -[pt_sourceID] in H; try discriminate H;
    (split; [reflexivity|]); injection H; auto.
Qed.

(** A guest's restore points are found under its own id only. *)
Lemma VMSourceID_inj h h' n n' : 0 <= n → 0 <= n' → VMSourceID h n = VMSourceID h' n' → h = h' ∧ n = n'.
Proof.
  intros Hn Hn'. unfold VMSourceID.
  assert (Ez : ∀ m, 0 <= m → str_of_Z m = digits (Z.to_N m)) by (intros m Hm; unfold str_of_Z; destruct (Z.ltb_spec m 0); [lia|done]).
  assert (Hd : ∀ m, 0 <= m → 95%N ∉ str_of_Z m).
  { intros m Hm. rewrite Ez by done. by apply digits_notin. }
  assert (Hgo : ∀ h h' d d' : bytes, 95%N ∉ d → 95%N ∉ d' → h ++ 95%N :: d = h' ++ 95%N :: d' → h = h' ∧ d = d').
  { clear. intros h h' d d' Hd Hd' H. revert h' H. induction h as [|x h IH]; intros [|x' h']; cbn [app]; intros [= ].
    - done.
    - subst. set_solver.
    - subst. set_solver.
    - subst. edestruct IH as [-> ->]; done. }
  intros H. apply Hgo in H as [-> H]; [|by apply Hd..]. split; [done|]. rewrite !Ez in H by done.
  apply digits_inj in H. lia.
Qed.

Section safe.
Context (ToLower : bytes → bytes).

(** An enabled job covers it, none that promises more does, its last attempt did
    not fail, and its newest restore point is as recent as that job promises. *)
Definition safe (jobs : list GoJob) (backups : list PointRow) (outcomes : gmap bytes SourceOutcome) (now : Z)
    (kind id : bytes) (covers : GoJob → Prop) : Prop :=
  ∃ j, j ∈ jobs ∧ gj_enabled j = true ∧ covers j ∧
    (∀ k, k ∈ jobs → gj_enabled k = true → covers k → better ToLower k j = false) ∧
    (∀ o, outcomes !! id = Some o → so_status o ≠ SourceFailed) ∧
    ∃ b, b ∈ backups ∧ pt_sourceKind b = kind ∧ pt_sourceID b = id ∧
      (∀ b', b' ∈ backups → pt_sourceKind b' = kind → pt_sourceID b' = id → pt_createdAt b' <= pt_createdAt b) ∧
      ∀ rpo, RPO ToLower (gj_schedule j) = Some rpo → Sub now (pt_createdAt b) <= rpo + RPOGrace rpo.

Lemma same_promise j k : better ToLower j k = false → better ToLower k j = false → RPO ToLower (gj_schedule j) = RPO ToLower (gj_schedule k).
Proof.
  unfold better, moreProtective, given. destruct (RPO ToLower (gj_schedule j)) as [r|], (RPO ToLower (gj_schedule k)) as [r'|]; cbn [Bool.eqb negb]; try done.
  destruct (Z.eqb_spec r r') as [->|]; [done|]. destruct (Z.eqb_spec r' r); [lia|]. cbn [negb]. rewrite !Z.ltb_ge. lia.
Qed.

Lemma reasons_nil now w j : wk_job w = Some j →
  reasons_of ToLower now w = [] ↔
  wk_restorePoints w ≠ 0 ∧ wk_lastOutcomeFailed w = false ∧
  ∀ rpo, RPO ToLower (gj_schedule j) = Some rpo → overdue now w rpo && (0 <? wk_restorePoints w) = false.
Proof.
  intros E. unfold reasons_of. rewrite E. destruct (Z.eqb_spec (wk_restorePoints w) 0) as [E0|E0]; [split; [done|tauto]|].
  destruct (wk_lastOutcomeFailed w); [split; [done|naive_solver]|]. cbn [app].
  destruct (RPO ToLower (gj_schedule j)) as [rpo|]; [|naive_solver]. destruct (overdue now w rpo && _) eqn:Eo.
  - split; [done|]. intros (_ & _ & H). specialize (H rpo eq_refl). congruence.
  - split; [|done]. intros _. split_and!; [done|done|]. by intros ? [= <-].
Qed.

Section one.
Context (jobs : list GoJob) (backups : list PointRow) (outcomes : gmap bytes SourceOutcome) (now : Z).
Context (kind id name : bytes) (vmid : Z) (hostName node : bytes) (covers : GoJob → bool).
Context (Hkinds : Forall known_kind backups) (Hkind : kind = SourceVM ∨ kind = SourceAgent).

Let w := workload_of (fold_points backups) outcomes kind id name vmid hostName node (governingJob ToLower jobs covers).

Lemma point_at b : b ∈ points_at (kind ++ u "/" ++ id) backups ↔ b ∈ backups ∧ pt_sourceKind b = kind ∧ pt_sourceID b = id.
Proof.
  unfold points_at. rewrite list_elem_of_filter. rewrite Forall_forall in Hkinds. split.
  - intros [H Hb]. split; [done|]. apply point_key_inj in H; auto.
  - intros [Hb H]. split; [|done]. apply point_key_inj; auto.
Qed.

Lemma not_failed : wk_lastOutcomeFailed w = false ↔ ∀ o, outcomes !! id = Some o → so_status o ≠ SourceFailed.
Proof.
  unfold w, workload_of. cbn [wk_lastOutcomeFailed]. destruct (outcomes !! id) as [o|]; cbn; [|naive_solver].
  destruct (str_eqb (so_status o) SourceFailed) eqn:E; cbn.
  - apply str_eqb_true in E. split; [done|]. intros H. by specialize (H o eq_refl).
  - apply str_eqb_false in E. split; [|done]. by intros _ ? [= <-].
Qed.

Lemma workload_unprotected : posture_status ToLower now w = Unprotected ↔ ∀ j, j ∈ jobs → gj_enabled j = true → covers j = false.
Proof.
  pose proof (governingJob_spec ToLower jobs covers) as Hg. unfold posture_status, w, workload_of. cbn [wk_job].
  destruct (governingJob ToLower jobs covers) as [g|]; cbn [governs] in Hg; [|done]. destruct Hg as (H1 & H2 & H3 & _). split.
  - by destruct (reasons_of _ _ _).
  - intros H. rewrite H in H3; done.
Qed.

Lemma workload_protected : posture_status ToLower now w = Protected ↔ safe jobs backups outcomes now kind id (λ j, covers j = true).
Proof.
  pose proof not_failed as Hnf.
  pose proof (governingJob_spec ToLower jobs covers) as Hg. pose proof (fold_points_spec backups (kind ++ u "/" ++ id)) as (Hc & Hn & _).
  change (wk_restorePoints w = Z.of_nat (length (points_at (kind ++ u "/" ++ id) backups))) in Hc.
  change (latest (wk_lastSuccessAt w) (map pt_createdAt (points_at (kind ++ u "/" ++ id) backups))) in Hn.
  unfold posture_status, safe. change (wk_job w) with (governingJob ToLower jobs covers).
  destruct (governingJob ToLower jobs covers) as [g|] eqn:Eg; cbn [governs] in Hg.
  2:{ split; [done|]. intros (j & Hj & He & Hm & _). rewrite Hg in Hm; done. }
  destruct Hg as (Hg1 & Hg2 & Hg3 & Hg4).
  assert (E : wk_job w = Some g) by reflexivity. pose proof (reasons_nil now w g E) as Hr.
  transitivity (reasons_of ToLower now w = []); [by destruct (reasons_of ToLower now w)|]. rewrite Hr. clear Hr. split.
  - intros (H1 & H2 & H3). exists g. split_and!; try done; [by apply Hnf|].
    destruct (wk_lastSuccessAt w) as [t|] eqn:Et; [|cbn [latest] in Hn; apply map_eq_nil in Hn; rewrite Hn in Hc; done].
    destruct Hn as [Hin Hmax]. apply list_elem_of_fmap in Hin as (b & -> & Hb). apply point_at in Hb as (Hb & Hk & Hi).
    exists b. split_and!; try done.
    + intros b' Hb' Hk' Hi'. apply Hmax. apply list_elem_of_fmap. exists b'. split; [done|]. by apply point_at.
    + intros rpo Hrpo. specialize (H3 rpo Hrpo). unfold overdue in H3. rewrite Et in H3.
      apply andb_false_iff in H3 as [H3|H3]; [by apply Z.ltb_ge in H3|]. apply Z.ltb_ge in H3. lia.
  - intros (j & Hj & He & Hm & Hbest & Hf & b & Hb & Hk & Hi & Hmax & Hrpo).
    assert (Hp : b ∈ points_at (kind ++ u "/" ++ id) backups) by (by apply point_at).
    rewrite (same_promise j g) in Hrpo by auto. split_and!; [|by apply Hnf|].
    + rewrite Hc. destruct (points_at _ backups); [by apply elem_of_nil in Hp|]. cbn [length]. lia.
    + intros rpo Er. specialize (Hrpo rpo Er). unfold overdue. destruct (wk_lastSuccessAt w) as [t|].
      * destruct Hn as [Hin Hnew]. apply list_elem_of_fmap in Hin as (b' & -> & Hb'). apply point_at in Hb' as (Hb' & Hk' & Hi').
        specialize (Hmax b' Hb' Hk' Hi').
        assert (pt_createdAt b <= pt_createdAt b') by (apply Hnew, list_elem_of_fmap; exists b; split; [done|by apply point_at]).
        replace (pt_createdAt b') with (pt_createdAt b) by lia. apply andb_false_iff. left. by apply Z.ltb_ge.
      * cbn [latest] in Hn. apply map_eq_nil in Hn. rewrite Hn in Hp. by apply elem_of_nil in Hp.
Qed.
End one.
End safe.

(** ** The verdict *)

Definition rows_in (s : Status) (rows : list postureWorkloadDTO) : Z :=
  Z.of_nat (length (filter (λ d, pw_status d = s) rows)).

(** The verdict, the counts and the reasons are those of the rows. *)
Definition verdict_honest (p : postureDTO) : Prop :=
  (pd_verdict p = Unknown ↔ pd_workloads p = []) ∧
  (pd_verdict p = Protected ↔ pd_workloads p ≠ [] ∧ ∀ d, d ∈ pd_workloads p → pw_status d = Protected) ∧
  (pd_verdict p = Unprotected ↔ ∃ d, d ∈ pd_workloads p ∧ pw_status d = Unprotected) ∧
  pd_counts p = mkCounts (rows_in Protected (pd_workloads p)) (rows_in AtRisk (pd_workloads p)) (rows_in Unprotected (pd_workloads p)) ∧
  rows_in Protected (pd_workloads p) + rows_in AtRisk (pd_workloads p) + rows_in Unprotected (pd_workloads p) = Z.of_nat (length (pd_workloads p)) ∧
  (pd_reasons p = [] ↔ pd_verdict p = Unknown ∨ pd_verdict p = Protected) ∧
  StronglySorted (λ a b, (reason_order (pr_code a) <=? reason_order (pr_code b)) = true) (pd_reasons p) ∧
  Forall (λ r, 0 < pr_workloads r <= Z.of_nat (length (pd_workloads p)) ∧ pr_detail r = reason_detail (pr_code r)) (pd_reasons p).

Lemma concat_map_nil {A B} (f : A → list B) l : (∀ x, x ∈ l → f x = []) → concat (map f l) = [].
Proof. induction l as [|x l IH]; intros H; [done|]. cbn [map concat]. rewrite H, IH by set_solver. done. Qed.

Section verdict.
Context (ToLower : bytes → bytes).

Lemma reason_once now w c : times c (reasons_of ToLower now w) <= 1.
Proof.
  assert (Hn : NoDup (reasons_of ToLower now w)).
  { unfold reasons_of. destruct (wk_job w) as [job|]; [|apply NoDup_singleton].
    destruct (RPO ToLower (gj_schedule job)); repeat case_match; apply (bool_decide_unpack _); vm_compute; exact I. }
  unfold times. destruct (filter _ _) as [|a [|b l]] eqn:E; cbn [length]; [lia..|].
  assert (H : NoDup (a :: b :: l)) by (rewrite <- E; by apply NoDup_filter).
  assert (Ha : a = c ∧ b = c).
  { split; [assert (Hi : a ∈ a :: b :: l) by set_solver|assert (Hi : b ∈ a :: b :: l) by set_solver];
      rewrite <- E in Hi; by apply list_elem_of_filter in Hi as [? _]. }
  destruct Ha as [-> ->]. inversion H; set_solver.
Qed.

Lemma reasons_bound now ws c : times c (concat (map (reasons_of ToLower now) ws)) <= Z.of_nat (length ws).
Proof.
  induction ws as [|w ws IH]; [done|]. cbn [map concat length]. rewrite times_app. pose proof (reason_once now w c). lia.
Qed.

Lemma row_status now w : pw_status (posture_row ToLower now w) = posture_status ToLower now w.
Proof. apply (judge_spec ToLower now w ∅). Qed.

Lemma rows_in_status now s ws : rows_in s (map (posture_row ToLower now) ws) = in_status ToLower now s ws.
Proof.
  unfold rows_in, in_status. induction ws as [|w ws IH]; [done|]. cbn [map]. rewrite !filter_cons, row_status.
  case_decide; cbn [length]; lia.
Qed.

Lemma elem_row now ws s : (∃ d, d ∈ map (posture_row ToLower now) ws ∧ pw_status d = s) ↔ 0 < in_status ToLower now s ws.
Proof.
  rewrite in_status_pos. setoid_rewrite list_elem_of_fmap. split.
  - intros (d & (w & -> & Hw) & <-). exists w. split; [done|]. by rewrite row_status.
  - intros (w & Hw & <-). exists (posture_row ToLower now w). split; [eauto|]. apply row_status.
Qed.

Lemma no_reasons now ws : reasons_in_order (concat (map (reasons_of ToLower now) ws)) = [] ↔
  in_status ToLower now Unprotected ws = 0 ∧ in_status ToLower now AtRisk ws = 0.
Proof.
  assert (Hs : ∀ s, in_status ToLower now s ws = 0 ↔ ∀ w, w ∈ ws → posture_status ToLower now w ≠ s).
  { intros s. split; [|intros H].
    - intros H w Hw Ew. assert (0 < in_status ToLower now s ws) by (apply in_status_pos; eauto). lia.
    - assert (0 <= in_status ToLower now s ws) by apply Nat2Z.is_nonneg.
      destruct (Z.eq_dec (in_status ToLower now s ws) 0); [done|].
      assert (Hp : 0 < in_status ToLower now s ws) by lia. apply in_status_pos in Hp as (w & Hw & Ew). by apply H in Ew. }
  rewrite !Hs. transitivity (∀ w, w ∈ ws → reasons_of ToLower now w = []).
  - split.
    + intros E w Hw. destruct (reasons_of ToLower now w) as [|c l] eqn:Er; [done|]. exfalso.
      assert (Hc : c ∈ reasons_of ToLower now w) by (rewrite Er; by constructor).
      assert (Ht : 0 < times c (concat (map (reasons_of ToLower now) ws))).
      { apply times_pos, list_elem_of_In, in_concat. eexists. split; [by apply in_map, list_elem_of_In|by apply list_elem_of_In]. }
      assert (Hr : mkReason c (times c (concat (map (reasons_of ToLower now) ws))) (reason_detail c) ∈
                   reasons_in_order (concat (map (reasons_of ToLower now) ws))).
      { apply list_elem_of_fmap. exists c. split; [done|]. apply list_elem_of_filter. split; [lia|].
        by apply (reasons_of_codes ToLower now w). }
      rewrite E in Hr. by apply elem_of_nil in Hr.
    + intros H. replace (concat _) with (@nil bytes); [reflexivity|]. symmetry. by apply concat_map_nil.
  - unfold posture_status. split.
    + intros H. split; intros w Hw; specialize (H w Hw); rewrite H; destruct (wk_job w) eqn:E; try done;
        unfold reasons_of in H; rewrite E in H; done.
    + intros [H1 H2] w Hw. specialize (H1 w Hw). specialize (H2 w Hw). destruct (wk_job w); [|done].
      by destruct (reasons_of ToLower now w).
Qed.

Lemma verdict_rule un risk : 0 <= un → 0 <= risk →
  let v := if 0 <? un then Unprotected else if 0 <? risk then AtRisk else Protected in
  (v = Protected ↔ un = 0 ∧ risk = 0) ∧ (v = Unprotected ↔ 0 < un) ∧ v ≠ Unknown.
Proof. intros H1 H2. cbv zeta. destruct (Z.ltb_spec 0 un), (Z.ltb_spec 0 risk); split_and!; try split; intros; try done; try lia. Qed.

Lemma evaluated_honest ws now : verdict_honest (evaluatePosture ToLower ws now).
Proof.
  destruct (decide (ws = [])) as [->|Hne].
  { unfold verdict_honest, rows_in. cbn. split_and!; try done; try (split; [done|]); try tauto; try (by intros (d & Hd & _); apply elem_of_nil in Hd); constructor. }
  rewrite evaluatePosture_spec by done. unfold verdict_honest. cbn [pd_verdict pd_workloads pd_counts pd_reasons].
  assert (Hmap : map (posture_row ToLower now) ws ≠ []) by (by destruct ws).
  rewrite elem_row, no_reasons, !rows_in_status, length_map. pose proof (in_status_total ToLower ws now) as Ht.
  assert (Hp : ∀ s, 0 <= in_status ToLower now s ws) by (intros; apply Nat2Z.is_nonneg).
  pose proof (Hp Unprotected). pose proof (Hp AtRisk).
  assert (Hall : (∀ d, d ∈ map (posture_row ToLower now) ws → pw_status d = Protected) ↔
                 in_status ToLower now Unprotected ws = 0 ∧ in_status ToLower now AtRisk ws = 0).
  { pose proof (elem_row now ws Unprotected) as [_ Hu]. pose proof (elem_row now ws AtRisk) as [_ Ha]. split.
    - intros Hd. split; [destruct (Z.eq_dec (in_status ToLower now Unprotected ws) 0)|destruct (Z.eq_dec (in_status ToLower now AtRisk ws) 0)];
        try done; exfalso.
      + destruct Hu as (d & Hin & Es); [lia|]. rewrite Hd in Es; done.
      + destruct Ha as (d & Hin & Es); [lia|]. rewrite Hd in Es; done.
    - intros [E1 E2] d Hin. destruct (pw_status d) eqn:Es; [done| | |].
      + assert (0 < in_status ToLower now AtRisk ws) by (apply elem_row; eauto). lia.
      + assert (0 < in_status ToLower now Unprotected ws) by (apply elem_row; eauto). lia.
      + apply list_elem_of_fmap in Hin as (w & -> & _). rewrite row_status in Es. by apply status_known in Es. }
  rewrite Hall.
  destruct (verdict_rule (in_status ToLower now Unprotected ws) (in_status ToLower now AtRisk ws)) as (V1 & V2 & V3); [done..|].
  split_and!; [split; done|rewrite V1; tauto|exact V2|done|lia|rewrite V1; tauto| |].
  - apply reasons_in_order_sorted.
  - apply Forall_forall. intros r Hr. apply list_elem_of_fmap in Hr as (c & -> & Hc). apply list_elem_of_filter in Hc as [Hc _].
    cbn [pr_workloads pr_code pr_detail]. split; [|done]. pose proof (reasons_bound now ws c). unfold times in *. lia.
Qed.
End verdict.

(** ** Which guests and agents a job covers *)

(** The tag of the filter, or the guest itself, is listed. *)
Definition covers_vm (ToLower : bytes → bytes) (vm : VM) (j : GoJob) : Prop :=
  gj_kind j = SourceVM ∧
  if decide (gj_tagFilter j = [])
  then ∃ s, s ∈ gj_sources j ∧ jsrc_hostID s = vm_hostID vm ∧ jsrc_vmid s = vm_vmid vm
  else ToLower (TrimSpace (gj_tagFilter j)) ≠ [] ∧ ToLower (TrimSpace (gj_tagFilter j)) ∈ vm_tags vm.

Definition covers_agent (agentID : bytes) (j : GoJob) : Prop :=
  gj_kind j = SourceAgent ∧ ∃ s, s ∈ gj_sources j ∧ jsrc_agentID s = agentID.

Lemma jobCoversVM_spec ToLower j vm : jobCoversVM ToLower j vm = true ↔ covers_vm ToLower vm j.
Proof.
  unfold jobCoversVM, covers_vm, HasTag. destruct (str_eqb (gj_kind j) SourceVM) eqn:Ek; cbn [negb].
  2:{ apply str_eqb_false in Ek. split; [done|]. by intros [? _]. }
  apply str_eqb_true in Ek. destruct (decide (gj_tagFilter j = [])) as [->|Hne].
  - change (str_eqb [] []) with true. cbn [negb]. rewrite existsb_exists. split.
    + intros (s & Hs & H). apply andb_true_iff in H as [H1 H2]. apply str_eqb_true in H1. apply Z.eqb_eq in H2.
      split; [done|]. exists s. split; [by apply list_elem_of_In|done].
    + intros (_ & s & Hs & H1 & H2). exists s. split; [by apply list_elem_of_In|]. apply andb_true_iff.
      by rewrite str_eqb_true, Z.eqb_eq.
  - rewrite (proj2 (str_eqb_false _ _) Hne). cbn [negb]. destruct (str_eqb (ToLower _) []) eqn:Et.
    { apply str_eqb_true in Et. split; [done|]. by intros (_ & H & _). }
    apply str_eqb_false in Et. rewrite existsb_exists. setoid_rewrite str_eqb_true. setoid_rewrite <- list_elem_of_In. naive_solver.
Qed.

Lemma jobCoversAgent_spec j id : jobCoversAgent j id = true ↔ covers_agent id j.
Proof.
  unfold jobCoversAgent, covers_agent. destruct (str_eqb (gj_kind j) SourceAgent) eqn:Ek; cbn [negb].
  2:{ apply str_eqb_false in Ek. split; [done|]. by intros [? _]. }
  apply str_eqb_true in Ek. rewrite existsb_exists. setoid_rewrite str_eqb_true. setoid_rewrite <- list_elem_of_In. naive_solver.
Qed.

(** A workload's row: protected exactly when the workload is safe, unprotected
    exactly when nothing even tries. *)
Definition row_honest (ToLower : bytes → bytes) jobs backups outcomes now kind id (covers : GoJob → Prop) (d : postureWorkloadDTO) : Prop :=
  pw_kind d = kind ∧ pw_id d = id ∧
  (pw_status d = Protected ↔ safe ToLower jobs backups outcomes now kind id covers) ∧
  (pw_status d = Unprotected ↔ ∀ j, j ∈ jobs → gj_enabled j = true → ¬ covers j).

Lemma safe_proper ToLower jobs backups outcomes now kind id (c c' : GoJob → Prop) : (∀ j, c j ↔ c' j) →
  safe ToLower jobs backups outcomes now kind id c ↔ safe ToLower jobs backups outcomes now kind id c'.
Proof. intros H. unfold safe. by setoid_rewrite H. Qed.

Lemma uncovered_proper (jobs : list GoJob) (c : GoJob → bool) (c' : GoJob → Prop) : (∀ j, c j = true ↔ c' j) →
  (∀ j, j ∈ jobs → gj_enabled j = true → c j = false) ↔ (∀ j, j ∈ jobs → gj_enabled j = true → ¬ c' j).
Proof. intros H. setoid_rewrite <- H. setoid_rewrite not_true_iff_false. done. Qed.

(** C20: the posture is honest.  One row per guest and per agent, in order; a row
    is protected exactly when the most demanding of the enabled jobs that cover
    that very workload has its promise kept by a restore point of that very
    workload and its last attempt did not fail; and unprotected exactly when no
    enabled job covers it.  The verdict is protected exactly when there is a
    workload and every one is protected, unprotected exactly when one is, unknown
    exactly for an empty estate; the counts are those of the rows, and whatever is
    not protected comes with reasons, worst first, none counted more often than
    there are workloads. *)
Theorem posture_honest (ToLower : bytes → bytes) jobs vms agents backups outcomes now p :
  Forall known_kind backups →
  handlePosture ToLower (Some jobs) (Some vms) (Some agents) (Some backups) (Some outcomes) now = Some p →
  (∃ rows rows', pd_workloads p = rows ++ rows' ∧
    Forall2 (λ vm, row_honest ToLower jobs backups outcomes now SourceVM (VMSourceID (vm_hostID vm) (vm_vmid vm))
               (covers_vm ToLower vm)) vms rows ∧
    Forall2 (λ a, row_honest ToLower jobs backups outcomes now SourceAgent (agr_id a) (covers_agent (agr_id a))) agents rows') ∧
  verdict_honest p.
Proof.
  intros Hk [= <-]. split; [|apply evaluated_honest].
  set (points := fold_points backups).
  exists (map (posture_row ToLower now) (map (vm_workload ToLower jobs points outcomes) vms)),
         (map (posture_row ToLower now) (map (agent_workload ToLower jobs points outcomes) agents)). split_and!.
  - rewrite <- map_app. set (ws := map _ vms ++ map _ agents). destruct (decide (ws = [])) as [->|Hne]; [done|].
    by rewrite evaluatePosture_spec.
  - rewrite map_map. apply Forall2_fmap_r, Forall_Forall2_diag, Forall_forall. intros vm _.
    destruct (judge_spec ToLower now (vm_workload ToLower jobs points outcomes vm) ∅) as (_ & Es & Ei & Ek).
    unfold row_honest, compose.
    rewrite Es, Ei, Ek. split_and!; [done|done| |].
    + rewrite <- (safe_proper _ _ _ _ _ _ _ _ _ (λ j, jobCoversVM_spec ToLower j vm)). apply workload_protected; auto.
    + rewrite <- (uncovered_proper _ _ _ (λ j, jobCoversVM_spec ToLower j vm)). apply workload_unprotected.
  - rewrite map_map. apply Forall2_fmap_r, Forall_Forall2_diag, Forall_forall. intros a _.
    destruct (judge_spec ToLower now (agent_workload ToLower jobs points outcomes a) ∅) as (_ & Es & Ei & Ek).
    unfold row_honest, compose.
    rewrite Es, Ei, Ek. split_and!; [done|done| |].
    + rewrite <- (safe_proper _ _ _ _ _ _ _ _ _ (λ j, jobCoversAgent_spec j (agr_id a))). apply workload_protected; auto.
    + rewrite <- (uncovered_proper _ _ _ (λ j, jobCoversAgent_spec j (agr_id a))). apply workload_unprotected.
Qed.

(** Two guests under a nightly job; the second one's last attempt failed. *)
Definition nightly : GoJob :=
  mkGoJob (u "nightly") SourceVM (mkGo (u "daily") 0 (u "02:00") [] 0 []) true [mkJobSrc (u "h1") 100 (u "web-01") [] []; mkJobSrc (u "h1") 101 (u "db-01") [] []] [].
Definition estate_vms : list VM :=
  [mkVM 100 (u "web-01") (u "pve1") [] (u "h1") (u "lab"); mkVM 101 (u "db-01") (u "pve1") [] (u "h1") (u "lab")].
Definition estate_points : list PointRow :=
  [mkPoint SourceVM (u "h1_100") (1 * Hour) None; mkPoint SourceVM (u "h1_100") (25 * Hour) (Some (26 * Hour));
   mkPoint SourceVM (u "h1_101") (25 * Hour) None].
Definition estate_outcomes : gmap bytes SourceOutcome :=
  {[ u "h1_100" := mkOutcome (u "success") (25 * Hour); u "h1_101" := mkOutcome SourceFailed (49 * Hour) ]}.
Definition estate_posture : postureDTO :=
  default (mkPostureDTO Unknown (mkCounts 0 0 0) [] [])
    (handlePosture id (Some [nightly]) (Some estate_vms) (Some []) (Some estate_points) (Some estate_outcomes) (50 * Hour)).

Lemma posture_honest_witness :
  map pw_status (pd_workloads estate_posture) = [Protected; AtRisk] ∧ pd_verdict estate_posture = AtRisk ∧
  map pr_code (pd_reasons estate_posture) = [ReasonLastRunFailed] ∧ verdict_honest estate_posture.
Proof.
  split_and!; [vm_compute; reflexivity..|].
  refine (proj2 (posture_honest id [nightly] estate_vms [] estate_points estate_outcomes (50 * Hour) estate_posture _ _)).
  - unfold estate_points. repeat (apply List.Forall_cons; [left; reflexivity|]). apply List.Forall_nil.
  - vm_compute. reflexivity.
Defined.
