(* ===== verification/Dashboard.v ===== *)
(** * The dashboard (web/src/pages/DashboardPage.tsx)

    The estate's verdict with the reasons behind it, the posture of every
    workload, the figures of the last day; and that what is shown is what the
    server ([ServerPosture]) evaluated. *)
From Stdlib Require Import QArith Lqa.
From S2P Require Import Prelude JsString JsNumber JsValue Transport Endpoints Format Runs Backups Ui Inventory Widgets GoString ServerPosture.
#[local] Open Scope Z_scope.

(** ** What the page loads *)

Record Last24h := mkLast24h { d24_succeeded : num; d24_failed : num; d24_running : num }.

Record DashboardStats := mkStats {
  st_vmCount : num; st_agentCount : num; st_hostCount : num; st_targetCount : num; st_jobCount : num;
  st_last24h : Last24h; st_storageBytes : num; st_dedupSavedBytes : num; st_recentRuns : list JobRun;
}.

Inductive PostureVerdict := VerdictProtected | VerdictAtRisk | VerdictUnprotected | VerdictUnknown.
Inductive WorkloadStatus := WProtected | WAtRisk | WUnprotected.
#[export] Instance PostureVerdict_eq_dec : EqDecision PostureVerdict.
Proof. solve_decision. Defined.
#[export] Instance WorkloadStatus_eq_dec : EqDecision WorkloadStatus.
Proof. solve_decision. Defined.

Record PostureReason := mkReasonRow { rs_code : jsstr; rs_workloads : num; rs_detail : jsstr }.

Record PostureWorkload := mkPostureRow {
  w_kind : jsstr; w_id : jsstr; w_name : jsstr; w_vmid : option num; w_hostName : jsstr; w_node : jsstr; w_policy : option jsstr;
  w_enabled : bool; w_rpoHours : jsval; w_lastSuccessAt : option jsstr; w_ageHours : jsval; w_withinRpo : option bool;
  w_lastFailureAt : option jsstr; w_lastVerifiedAt : option jsstr; w_restorePoints : num; w_status : WorkloadStatus;
}.

(** A posture whose parts have the types the interface declares. *)
Record PostureData := mkPostureData {
  pu_verdict : PostureVerdict; pu_protected : num; pu_atRisk : num; pu_unprotected : num;
  pu_reasons : list PostureReason; pu_workloads : list PostureWorkload;
}.

Definition verdict_of (v : jsval) : option PostureVerdict :=
  if is_str v "protected" then Some VerdictProtected else if is_str v "at_risk" then Some VerdictAtRisk
  else if is_str v "unprotected" then Some VerdictUnprotected else if is_str v "unknown" then Some VerdictUnknown else None.
Definition workload_status_of (v : jsval) : option WorkloadStatus :=
  if is_str v "protected" then Some WProtected else if is_str v "at_risk" then Some WAtRisk
  else if is_str v "unprotected" then Some WUnprotected else None.

Definition a_string (v : jsval) : option jsstr := match v with VStr s => Some s | _ => None end.
Definition a_number (v : jsval) : option num := match v with VNum n => Some n | _ => None end.
Definition a_bool (v : jsval) : option bool := match v with VBool b => Some b | _ => None end.
(** [f?: T | null]. *)
Definition optional {A} (read : jsval → option A) (v : jsval) : option (option A) :=
  match v with VUndef | VNull => Some None | _ => Some <$> read v end.

Definition reason_of (v : jsval) : option PostureReason :=
  code ← a_string (get v "code"); n ← a_number (get v "workloads"); detail ← a_string (get v "detail");
  Some (mkReasonRow code n detail).

Definition workload_row_of (v : jsval) : option PostureWorkload :=
  kind ← a_string (get v "kind"); id ← a_string (get v "id"); name ← a_string (get v "name");
  vmid ← optional a_number (get v "vmid"); hostName ← a_string (get v "hostName"); node ← a_string (get v "node");
  policy ← optional a_string (get v "policy"); enabled ← a_bool (get v "enabled");
  success ← optional a_string (get v "lastSuccessAt"); within ← optional a_bool (get v "withinRpo");
  failure ← optional a_string (get v "lastFailureAt"); verified ← optional a_string (get v "lastVerifiedAt");
  points ← a_number (get v "restorePoints"); status ← workload_status_of (get v "status");
  Some (mkPostureRow kind id name vmid hostName node policy enabled (get v "rpoHours") success (get v "ageHours") within
          failure verified points status).

Definition posture_data (p : Posture) : option PostureData :=
  verdict ← verdict_of (po_verdict p); reasons ← mapM reason_of (po_reasons p); rows ← mapM workload_row_of (po_workloads p);
  Some (mkPostureData verdict (po_protected p) (po_atRisk p) (po_unprotected p) reasons rows).

Record DashboardData := mkDashboard {
  da_stats : DashboardStats; da_jobs : list Job; da_posture : option PostureData; da_postureError : option jsstr;
}.

(** The loader: a posture the server cannot evaluate does not fail the page. *)
Definition dashboard_data (engineText : jsstr) (stats : DashboardStats) (jobs : list Job) (posture : PostureData + Thrown) : DashboardData :=
  match posture with
  | inl p => mkDashboard stats jobs (Some p) None
  | inr err => mkDashboard stats jobs None (Some (errorMessage engineText err))
  end.

(** ** The verdict *)

Definition VERDICT_LABEL (v : PostureVerdict) : jsstr :=
  match v with
  | VerdictProtected => u "Protected" | VerdictAtRisk => u "At risk" | VerdictUnprotected => u "Unprotected" | VerdictUnknown => u "Unknown"
  end.

Definition STATUS_LABEL (s : WorkloadStatus) : jsstr :=
  match s with WProtected => u "Protected" | WAtRisk => u "At risk" | WUnprotected => u "Unprotected" end.

Definition VERDICT_TONE (v : PostureVerdict) : PillTone :=
  match v with VerdictProtected => ToneOk | VerdictAtRisk => ToneWarn | VerdictUnprotected => ToneFail | VerdictUnknown => ToneNeutral end.
Definition STATUS_TONE (s : WorkloadStatus) : PillTone :=
  match s with WProtected => ToneOk | WAtRisk => ToneWarn | WUnprotected => ToneFail end.

Record SetupRoute := mkRoute { ro_label : jsstr; ro_to : jsstr; ro_hint : jsstr }.

Definition zero (n : num) : bool := neqb n (of_Z 0).

Definition setupRoute (stats : DashboardStats) : SetupRoute :=
  if zero (st_hostCount stats) then
    mkRoute (u "Add a Proxmox host") (u "/hosts") (u "No cluster is connected yet, so there is nothing to evaluate.")
  else if zero (st_targetCount stats) then
    mkRoute (u "Add a storage target") (u "/targets") (u "Backups need somewhere to go before any workload can be protected.")
  else if zero (st_jobCount stats) then
    mkRoute (u "Create a backup job") (u "/jobs") (u "No workload is covered by a job, so no recovery point exists to evaluate.")
  else mkRoute (u "Review backup jobs") (u "/jobs") (u "No job has completed a run yet, so there is no evidence to report.").

Definition posture_total (p : PostureData) : num := nadd (nadd (pu_protected p) (pu_atRisk p)) (pu_unprotected p).
Definition posture_empty (p : PostureData) : bool := bool_decide (pu_verdict p = VerdictUnknown) || zero (posture_total p).

(** ** The workloads *)

Inductive PostureFilter := FilterAll | FilterStatus (s : WorkloadStatus).
#[export] Instance PostureFilter_eq_dec : EqDecision PostureFilter.
Proof. solve_decision. Defined.

Definition FILTERS : list (PostureFilter * jsstr) :=
  [ (FilterAll, u "All"); (FilterStatus WAtRisk, u "At risk"); (FilterStatus WUnprotected, u "Unprotected");
    (FilterStatus WProtected, u "Protected") ].

Definition STATUS_WEIGHT (s : WorkloadStatus) : Z := match s with WUnprotected => 0 | WAtRisk => 1 | WProtected => 2 end.

(** What each chip counts. *)
Definition chip_count (workloads : list PostureWorkload) (f : PostureFilter) : Z :=
  match f with
  | FilterAll => Z.of_nat (length workloads)
  | FilterStatus s => fold_left (λ n w, if bool_decide (w_status w = s) then n + 1 else n) workloads 0
  end.

Section dashboard.
(** [a.localeCompare(b) <= 0], [Math.log], [toLocaleString], [Date.parse] and the
    local rendering of a date are the engine's. *)
Context (locale_le : jsstr → jsstr → bool) (Math_log : num → num) (toLocaleString : num → jsstr).
Context (Date_parse : jsstr → option Z) (localeDate : Z → jsstr).

(** The comparator's answer is at most 0. *)
Definition row_le (a b : PostureWorkload) : bool :=
  if negb (STATUS_WEIGHT (w_status a) =? STATUS_WEIGHT (w_status b))
  then STATUS_WEIGHT (w_status a) <=? STATUS_WEIGHT (w_status b)
  else locale_le (w_name a) (w_name b).

Definition posture_rows (workloads : list PostureWorkload) (f : PostureFilter) : list PostureWorkload :=
  sort_by row_le
    (match f with FilterAll => workloads | FilterStatus s => List.filter (λ w, bool_decide (w_status w = s)) workloads end).

(** One row: the age against the objective is amber when it is overdue. *)
Record RowView := mkRowView {
  rv_identity : jsstr * option jsstr * option jsstr; rv_policy : jsstr; rv_disabled : bool;
  rv_success : jsstr; rv_rpo : option (jsstr * bool); rv_failure : option jsstr; rv_verified : jsstr; rv_points : jsstr; rv_status : jsstr;
}.

Definition row_view (now : Z) (w : PostureWorkload) : RowView :=
  let overdue := bool_decide (w_withinRpo w = Some false) in
  mkRowView (WorkloadIdentity (mkWorkload (Some (w_hostName w)) (w_name w) (w_vmid w) (Some (w_node w))))
    (default (u "No policy") (present (w_policy w)))
    (negb (is_none (present (w_policy w))) && negb (w_enabled w))
    (match present (w_lastSuccessAt w) with Some t => formatRelative Date_parse localeDate (Some t) now | None => u "Never" end)
    (match present (w_lastSuccessAt w) with Some _ => (λ rpo, (rpo, overdue)) <$> describeRpo (w_ageHours w) (w_rpoHours w) | None => None end)
    ((λ t, cat [u "Last run failed "; formatRelative Date_parse localeDate (Some t) now]) <$> present (w_lastFailureAt w))
    (match present (w_lastVerifiedAt w) with Some t => formatRelative Date_parse localeDate (Some t) now | None => u "Not verified" end)
    (formatCount toLocaleString (VNum (w_restorePoints w))) (STATUS_LABEL (w_status w)).

(** The panel: the verdict, either what to set up or the counts, the runs under
    way, and every reason. *)
Record PanelView := mkPanel {
  vp_label : jsstr; vp_setup : option SetupRoute; vp_counts : option (jsstr * jsstr * jsstr); vp_running : option num;
  vp_reasons : list (jsstr * jsstr * jsstr);
}.

Definition verdict_panel (p : PostureData) (stats : DashboardStats) (running : num) : PanelView :=
  let empty := posture_empty p in
  let count n := formatCount toLocaleString (VNum n) in
  mkPanel (VERDICT_LABEL (pu_verdict p)) (if empty then Some (setupRoute stats) else None)
    (if empty then None else Some (count (pu_protected p), count (pu_atRisk p), count (pu_unprotected p)))
    (if nlt (of_Z 0) running then Some running else None)
    (map (λ r, (count (rs_workloads r), rs_detail r, rs_code r)) (pu_reasons p)).

(** ** Tiles, outcomes and storage *)

Definition count_tiles (stats : DashboardStats) : list (jsstr * jsstr * jsstr) :=
  let count n := formatCount toLocaleString (VNum n) in
  [ (u "Virtual machines", count (st_vmCount stats), u "/vms"); (u "Proxmox hosts", count (st_hostCount stats), u "/hosts");
    (u "Agents", count (st_agentCount stats), u "/agents"); (u "Storage targets", count (st_targetCount stats), u "/targets");
    (u "Backup jobs", count (st_jobCount stats), u "/jobs") ].

Definition outcome_slices (stats : DashboardStats) : list (jsstr * num) :=
  [ (u "Succeeded", d24_succeeded (st_last24h stats)); (u "Failed", d24_failed (st_last24h stats)); (u "Running", d24_running (st_last24h stats)) ].
Definition outcome_total (stats : DashboardStats) : num := fold_left (λ sum slice, nadd sum slice.2) (outcome_slices stats) (of_Z 0).

(** The two figures of the storage card, their sum, and the share avoided. *)
Record StorageView := mkStorage { so_stored : num; so_avoided : num; so_logical : num; so_avoidedPct : num }.

Definition storage_view (stats : DashboardStats) : StorageView :=
  let stored := nmax (of_Z 0) (st_storageBytes stats) in
  let avoided := nmax (of_Z 0) (st_dedupSavedBytes stats) in
  let logical := nadd stored avoided in
  mkStorage stored avoided logical (if nlt (of_Z 0) logical then nmul (ndiv avoided logical) (of_Z 100) else of_Z 0).

(** The widths of the bar, in per cent. *)
Definition storage_bar (v : StorageView) : num * num :=
  (nsub (of_Z 100) (clampPct (VNum (so_avoidedPct v))), clampPct (VNum (so_avoidedPct v))).

(** ** Recent runs and the next one *)

Definition ReductionCell (run : JobRun) : jsstr * option jsstr :=
  let reduction := runReduction run in
  if negb (r_applies reduction) then (u "—", None)
  else (formatReduction (VNum (r_pct reduction)), (λ r, formatRatio (VNum r)) <$> r_ratio reduction).

(** Under the job's name: the progress of a run in flight, else its error. *)
Definition run_note (run : JobRun) : option jsstr :=
  if bool_decide (run_status run = RRunning) then Some (cat [to_fixed 0 (clampPct (VNum (run_progressPct run))); u "%"])
  else present (run_error run).

(** [new Date(a.nextRun) - new Date(b.nextRun)], for dates the engine reads. *)
Definition sooner (a b : Job) : bool :=
  match jb_nextRun a ≫= Date_parse, jb_nextRun b ≫= Date_parse with Some x, Some y => x <=? y | _, _ => true end.

Definition next_run (jobs : list Job) : option Job :=
  head (sort_by sooner (List.filter (λ j, jb_enabled j && negb (is_none (present (jb_nextRun j)))) jobs)).

Definition posture_hint (jobs : list Job) (now : Z) : jsstr :=
  match next_run jobs with
  | Some j => cat [u "Next run "; formatRelative Date_parse localeDate (jb_nextRun j) now; u " · "; jb_name j]
  | None => u "No enabled job has a schedule"
  end.

(** What is offered to an operator with no host or no target. *)
Definition first_steps (stats : DashboardStats) : option (jsstr * jsstr) :=
  if zero (st_hostCount stats) then Some (u "Add your first Proxmox host", u "/hosts")
  else if zero (st_targetCount stats) then Some (u "Add a storage target", u "/targets") else None.

(** ** The page *)

Record DashboardState := mkDash { db_async : Async DashboardData unit; db_filter : PostureFilter }.

Inductive DashboardMsg :=
  | DbReload | DbTick | DbFilter (f : PostureFilter) | DbRead (i : nat) (answer : DashboardData + Thrown).

Definition has_running (d : DashboardData) : bool :=
  nlt (of_Z 0) (d24_running (st_last24h (da_stats d))) || existsb (λ r, bool_decide (run_status r = RRunning)) (st_recentRuns (da_stats d)).

(** The table of workloads is on the page. *)
Definition table_of (s : DashboardState) : option (list PostureWorkload) :=
  d ← as_data (db_async s); p ← da_posture d;
  match pu_workloads p with [] => None | l => Some l end.

Inductive DashboardPart := Skeleton | PageError (message : jsstr) | Loaded (d : DashboardData).

Definition dashboard_part (s : DashboardState) : option DashboardPart :=
  match as_data (db_async s), as_error (db_async s) with
  | Some d, _ => Some (Loaded d)
  | None, error =>
      if as_loading (db_async s) then Some Skeleton else PageError <$> present error
  end.

(** The panel, or why there is none. *)
Definition posture_error (d : DashboardData) : option jsstr :=
  match da_posture d with
  | Some _ => None
  | None => Some (default (u "The server did not answer the posture request. Until it does, this console cannot state whether the estate is recoverable.")
                    (da_postureError d))
  end.

Context (engineText : jsstr).

Definition mountDashboard : DashboardState := mkDash (mountAsync tt) FilterAll.

(** A table that leaves the page forgets its filter. *)
Definition settle_table (s : DashboardState) : DashboardState :=
  if is_none (table_of s) then mkDash (db_async s) FilterAll else s.

Definition dashboard_offered (s : DashboardState) (m : DashboardMsg) : Prop :=
  match m with
  | DbReload => as_loading (db_async s) = false ∨ ∃ d, as_data (db_async s) = Some d ∧ da_posture d = None
  | DbTick => match as_data (db_async s) with Some d => has_running d = true | None => False end
  | DbFilter _ => is_Some (table_of s)
  | DbRead i _ => is_Some (as_pending (db_async s) !! i)
  end.

Definition dashboard_step (s : DashboardState) (m : DashboardMsg) : DashboardState :=
  match m with
  | DbReload => mkDash (run_loader true (db_async s)) (db_filter s)
  | DbTick => mkDash (run_loader false (db_async s)) (db_filter s)
  | DbFilter f => mkDash (db_async s) f
  | DbRead i answer => settle_table (mkDash (async_step engineText (db_async s) (Settled i answer)) (db_filter s))
  end.

(** The rows on the page. *)
Definition shown_rows (s : DashboardState) : list PostureWorkload :=
  match table_of s with Some l => posture_rows l (db_filter s) | None => [] end.

Inductive dashboard_run : DashboardState → Prop :=
  | dashboard_mount : dashboard_run mountDashboard
  | dashboard_next s m : dashboard_run s → dashboard_offered s m → dashboard_run (dashboard_step s m).
End dashboard.

(** ** What arrives is what the server evaluated *)

Definition client_verdict (s : Status) : PostureVerdict :=
  match s with Protected => VerdictProtected | AtRisk => VerdictAtRisk | Unprotected => VerdictUnprotected | Unknown => VerdictUnknown end.
Definition client_status (s : Status) : WorkloadStatus := match s with Protected => WProtected | AtRisk => WAtRisk | _ => WUnprotected end.

Section arrives.
Context (rfc3339 : Z → jsstr).

Definition js_num (n : Z) : num := rnd (inject_Z n).

(** A row of the server as the page has it. *)
Definition client_row (d : postureWorkloadDTO) : PostureWorkload :=
  mkPostureRow (utf8_to_utf16 (pw_kind d)) (utf8_to_utf16 (pw_id d)) (utf8_to_utf16 (pw_name d))
    (if pw_vmid d =? 0 then None else Some (js_num (pw_vmid d))) (utf8_to_utf16 (pw_hostName d)) (utf8_to_utf16 (pw_node d))
    (if str_eqb (pw_policy d) [] then None else Some (utf8_to_utf16 (pw_policy d))) (pw_enabled d)
    (opt_val VNum (pw_rpoHours d)) (rfc3339 <$> pw_lastSuccessAt d) (opt_val VNum (pw_ageHours d)) (pw_withinRpo d)
    (rfc3339 <$> pw_lastFailureAt d) (rfc3339 <$> pw_lastVerifiedAt d) (js_num (pw_restorePoints d)) (client_status (pw_status d)).

Definition client_reason (r : postureReasonDTO) : PostureReason :=
  mkReasonRow (utf8_to_utf16 (pr_code r)) (js_num (pr_workloads r)) (utf8_to_utf16 (pr_detail r)).

Lemma optional_num (o : option num) : optional a_number (default VUndef (VNum <$> o)) = Some o.
Proof. by destruct o. Qed.
Lemma optional_bool (o : option bool) : optional a_bool (default VUndef (VBool <$> o)) = Some o.
Proof. by destruct o. Qed.
Lemma optional_time (o : option Z) : optional a_string (default VUndef (time_val rfc3339 <$> o)) = Some (rfc3339 <$> o).
Proof. by destruct o. Qed.
Lemma val_of_num (o : option num) : default VUndef (VNum <$> o) = opt_val VNum o.
Proof. by destruct o. Qed.

(** Reads one field of a row the server wrote. *)
Lemma row_field d k : get (workload_val rfc3339 d) k =
  match List.find (λ f, str_eqb f.1 (u k))
    [ (u "kind", Some (text_val (pw_kind d))); (u "id", Some (text_val (pw_id d))); (u "name", Some (text_val (pw_name d)));
      (u "vmid", if pw_vmid d =? 0 then None else Some (int_val (pw_vmid d)));
      (u "hostName", Some (text_val (pw_hostName d))); (u "node", Some (text_val (pw_node d)));
      (u "policy", if str_eqb (pw_policy d) [] then None else Some (text_val (pw_policy d)));
      (u "enabled", Some (VBool (pw_enabled d))); (u "rpoHours", VNum <$> pw_rpoHours d);
      (u "lastSuccessAt", time_val rfc3339 <$> pw_lastSuccessAt d); (u "ageHours", VNum <$> pw_ageHours d);
      (u "withinRpo", VBool <$> pw_withinRpo d); (u "lastFailureAt", time_val rfc3339 <$> pw_lastFailureAt d);
      (u "lastVerifiedAt", time_val rfc3339 <$> pw_lastVerifiedAt d); (u "restorePoints", Some (int_val (pw_restorePoints d)));
      (u "status", Some (text_val (status_text (pw_status d)))) ]
  with Some f => default VUndef f.2 | None => VUndef end.
Proof. apply get_struct. apply (bool_decide_unpack _). vm_compute. exact I. Qed.

Lemma status_arrives s : s ≠ Unknown → workload_status_of (text_val (status_text s)) = Some (client_status s).
Proof. by destruct s. Qed.

Lemma row_arrives d : pw_status d ≠ Unknown → workload_row_of (workload_val rfc3339 d) = Some (client_row d).
Proof.
  intros Hs. unfold workload_row_of. rewrite !row_field. cbn [List.find fst snd]. js_literals. cbn [from_option id snd].
  rewrite status_arrives, optional_bool, !optional_time, !val_of_num by done. unfold client_row, text_val, int_val, js_num.
  destruct (pw_vmid d =? 0), (str_eqb (pw_policy d) []); reflexivity.
Qed.

Lemma reason_arrives r : reason_of (reason_val r) = Some (client_reason r).
Proof. reflexivity. Qed.

Lemma js_num_exact n : 0 <= n <= 2 ^ 53 → js_num n = of_Z n.
Proof. intros H. apply rnd_Z. lia. Qed.

Lemma number_arrives n : 0 <= n <= 2 ^ 53 → number_or_0 (int_val n) = of_Z n.
Proof.
  intros H. unfold number_or_0, int_val. rewrite rnd_Z by lia. cbn [to_num truthy is_NaN orb].
  rewrite neqb_Z. destruct (Z.eqb_spec n 0) as [->|]; done.
Qed.

Lemma verdict_arrives s : verdict_of (text_val (status_text s)) = Some (client_verdict s).
Proof. by destruct s. Qed.

(** The posture of the page, for one the server evaluated. *)
Definition client_posture (p : postureDTO) : PostureData :=
  mkPostureData (client_verdict (pd_verdict p)) (of_Z (pc_protected (pd_counts p))) (of_Z (pc_atRisk (pd_counts p)))
    (of_Z (pc_unprotected (pd_counts p))) (map client_reason (pd_reasons p)) (map client_row (pd_workloads p)).

Lemma mapM_arrives {A B} (read : jsval → option B) (f : A → jsval) (g : A → B) l :
  (∀ x, x ∈ l → read (f x) = Some (g x)) → mapM read (map f l) = Some (map g l).
Proof.
  induction l as [|x l IH]; intros H; [done|]. cbn [map mapM]. rewrite H by constructor. cbn [mbind option_bind].
  rewrite IH; [done|]. intros y Hy. apply H. by constructor.
Qed.

Lemma posture_arrives p : Forall (λ d, pw_status d ≠ Unknown) (pd_workloads p) →
  0 <= pc_protected (pd_counts p) <= 2 ^ 53 → 0 <= pc_atRisk (pd_counts p) <= 2 ^ 53 → 0 <= pc_unprotected (pd_counts p) <= 2 ^ 53 →
  (getPosture_result (posture_val rfc3339 p) ≫= posture_data) = Some (client_posture p).
Proof.
  intros Hs H1 H2 H3. unfold getPosture_result, posture_val. js_eval. cbn [mbind option_bind]. unfold posture_data.
  cbn [po_verdict po_protected po_atRisk po_unprotected po_reasons po_workloads array_or_nil].
  rewrite (mapM_arrives reason_of reason_val client_reason) by done.
  rewrite (mapM_arrives workload_row_of (workload_val rfc3339) client_row)
    by (intros d Hd; apply row_arrives; rewrite Forall_forall in Hs; by apply Hs).
  unfold counts_val. js_eval. rewrite !number_arrives by done.
  change (coalesce (text_val ?s) _) with (text_val s). by rewrite verdict_arrives.
Qed.
End arrives.

(** ** Overdue in both places *)

(** The hours of a span are at least its whole hours, and less than one more. *)
Lemma Hours_whole d : 0 <= d <= maxDuration → ∃ a, Hours d = Fin a ∧ (inject_Z (d / Hour) <= a <= inject_Z (d / Hour + 1))%Q.
Proof.
  intros Hd. unfold Hours. assert (Hh : 0 < Hour) by reflexivity.
  rewrite Z.quot_div_nonneg, Z.rem_mod_nonneg by lia. pose proof (Z.mod_pos_bound d Hour Hh) as Hr.
  assert (Hq : 0 <= d / Hour <= 2 ^ 53 - 1).
  { split; [apply Z.div_pos; lia|]. transitivity (maxDuration / Hour); [apply Z.div_le_mono; lia|]. vm_compute. discriminate. }
  assert (Hb : Hour <= 2 ^ 53) by (vm_compute; discriminate).
  rewrite (rnd_Z (d / Hour)), (rnd_Z (d mod Hour)) by lia. unfold of_Z at 2 3, ndiv. rewrite qzero_pos by reflexivity.
  assert (H0 : (0 <= inject_Z (d mod Hour) / inject_Z Hour)%Q).
  { apply Qle_shift_div_l; [reflexivity|]. rewrite Qmult_0_l. change 0%Q with (inject_Z 0). rewrite <- Zle_Qle. lia. }
  assert (H1 : (inject_Z (d mod Hour) / inject_Z Hour <= inject_Z 1)%Q).
  { apply Qle_shift_div_r; [reflexivity|]. rewrite <- inject_Z_mult, <- Zle_Qle. lia. }
  destruct (rnd_range _ 1 ltac:(lia) H0 H1) as (x & -> & Hx0 & Hx1). unfold of_Z, nadd.
  assert (Hq0 : (0 <= inject_Z (d / Hour))%Q) by (change 0%Q with (inject_Z 0); rewrite <- Zle_Qle; lia).
  destruct (rnd_range (inject_Z (d / Hour) + x) (d / Hour + 1)) as (a & Ha & Ha0 & Ha1);
    [lia|lra|rewrite inject_Z_plus; lra|].
  exists a. split; [done|]. split; [|done].
  destruct (rnd_mono (inject_Z (d / Hour)) (inject_Z (d / Hour) + x)%Q a Hq0 ltac:(lra) Ha) as (b & Eb & _ & Hba).
  rewrite rnd_Z in Eb by lia. injection Eb as <-. done.
Qed.

(** What a job can promise, and how it reads in hours. *)
Lemma RPO_hours ToLower s rpo : RPO ToLower s = Some rpo → ∃ k, rpo = k * Hour ∧ 1 <= k <= 720 ∧ Hours rpo = of_Z k.
Proof.
  unfold RPO. intros H. destruct (str_eqb _ _); [injection H as <-; exists 1; split_and!; reflexivity || lia|].
  destruct (str_eqb _ _); [injection H as <-; exists 24; split_and!; reflexivity || lia|].
  destruct (str_eqb _ _); [injection H as <-; exists 168; split_and!; reflexivity || lia|].
  destruct (str_eqb _ _); [|discriminate H]. injection H as <-. exists 720. split_and!; reflexivity || lia.
Qed.

(** Beyond the objective and its grace, the console words the age as over it. *)
Lemma overdue_worded ToLower s rpo d : RPO ToLower s = Some rpo → rpo + RPOGrace rpo < d <= maxDuration →
  nlt (Hours d) (of_Z 0) = false ∧
  ∃ over, describeRpo (VNum (Hours d)) (VNum (Hours rpo)) =
    Some (cat [formatHours (VNum (Fin over)); u " over "; formatHours (VNum (Hours rpo)); u " RPO"]) ∧ (1 <= over)%Q.
Proof.
  intros Hrpo Hd. destruct (RPO_hours _ _ _ Hrpo) as (k & -> & Hk & ->).
  assert (Hg : Hour <= RPOGrace (k * Hour)) by (unfold RPOGrace; destruct (Z.ltb_spec (Z.quot (k * Hour) 4) Hour); lia).
  assert (Hh : 0 < Hour) by reflexivity.
  assert (Hq : k + 1 <= d / Hour) by (apply Z.div_le_lower_bound; nia).
  assert (Hq' : d / Hour <= 2 ^ 53 - 1).
  { transitivity (maxDuration / Hour); [apply Z.div_le_mono; lia|]. vm_compute. discriminate. }
  destruct (Hours_whole d) as (a & -> & Ha0 & Ha1); [nia|].
  assert (Hq0 : 0 <= d / Hour) by lia.
  rewrite Zle_Qle, inject_Z_plus in Hq. change (inject_Z 1) with 1%Q in Hq.
  assert (Hk0 : (1 <= inject_Z k)%Q) by (change 1%Q with (inject_Z 1); rewrite <- Zle_Qle; lia).
  split.
  { apply not_true_is_false. unfold of_Z. rewrite nlt_Fin. change (inject_Z 0) with 0%Q. lra. }
  unfold describeRpo. change (finite (VNum (of_Z k))) with (Some (inject_Z k)). cbn [finite].
  destruct (nle (Fin (inject_Z k)) (of_Z 0)) eqn:E0; [apply nle_Fin in E0; change (inject_Z 0) with 0%Q in E0; lra|].
  unfold nsub, nneg, nadd.
  assert (Hs : (1 <= a + Qred (- inject_Z k))%Q) by (rewrite Qred_correct; lra).
  destruct (rnd_range (a + Qred (- inject_Z k)) (d / Hour + 1)) as (o & Ho & _ & _); [lia|lra|rewrite Qred_correct; lra|].
  destruct (rnd_mono (inject_Z 1) (a + Qred (- inject_Z k))%Q o ltac:(discriminate) Hs Ho) as (b & Hb & _ & Hbo).
  rewrite rnd_Z in Hb by lia. injection Hb as <-. change (inject_Z 1) with 1%Q in Hbo. rewrite Ho.
  destruct (nle (Fin o) _) eqn:E1; [apply nle_Fin in E1; change (inject_Z 0) with 0%Q in E1; lra|].
  exists o. split; done.
Qed.

(** ** The page and the evaluation agree *)

Lemma nadd_Z a b : - 2 ^ 53 <= a + b <= 2 ^ 53 → nadd (of_Z a) (of_Z b) = of_Z (a + b).
Proof.
  intros H. rewrite <- (rnd_Z (a + b)) by done. unfold nadd, of_Z. f_equal. unfold Qplus, inject_Z. cbn [Qnum Qden]. f_equal; lia.
Qed.

Lemma fold_count {A} (p : A → bool) l n : fold_left (λ n x, if p x then n + 1 else n) l n = n + Z.of_nat (length (List.filter p l)).
Proof.
  revert n. induction l as [|x l IH]; intros n; cbn [fold_left List.filter length]; [lia|]. rewrite IH.
  destruct (p x); cbn [length]; lia.
Qed.

Section agree.
Context (rfc3339 : Z → jsstr).

Lemma chip_status rows s : s ≠ Unknown → Forall (λ d, pw_status d ≠ Unknown) rows →
  chip_count (map (client_row rfc3339) rows) (FilterStatus (client_status s)) = rows_in s rows.
Proof.
  intros Hs H. unfold chip_count, rows_in. rewrite fold_count. induction H as [|d rows Hd _ IH]; [done|].
  cbn [map List.filter w_status client_row]. rewrite filter_cons.
  destruct (decide (pw_status d = s)) as [->|Hne].
  - rewrite bool_decide_eq_true_2 by done. cbn [length]. lia.
  - rewrite bool_decide_eq_false_2; [exact IH|]. intros E. apply Hne. by destruct (pw_status d), s.
Qed.

Lemma evaluated_known ToLower ws at_ : Forall (λ d, pw_status d ≠ Unknown) (pd_workloads (evaluatePosture ToLower ws at_)).
Proof.
  destruct (decide (ws = [])) as [->|Hne]; [constructor|]. rewrite evaluatePosture_spec by done. cbn [pd_workloads].
  apply Forall_forall. intros d Hd. apply list_elem_of_fmap in Hd as (w & -> & _). rewrite row_status. apply status_known.
Qed.

Lemma evaluated_length ToLower ws at_ : length (pd_workloads (evaluatePosture ToLower ws at_)) = length ws.
Proof. destruct (decide (ws = [])) as [->|Hne]; [done|]. rewrite evaluatePosture_spec by done. cbn [pd_workloads]. apply length_map. Qed.

(** An overdue row with a restore point carries the age and the objective the
    server judged it by. *)
Lemma overdue_row ToLower ws at_ d : d ∈ pd_workloads (evaluatePosture ToLower ws at_) →
  pw_withinRpo d = Some false → ∀ t, pw_lastSuccessAt d = Some t →
  ∃ s rpo, RPO ToLower s = Some rpo ∧ rpo + RPOGrace rpo < Sub at_ t ∧ pw_rpoHours d = Some (Hours rpo) ∧
    pw_ageHours d = Some (if nlt (Hours (Sub at_ t)) (of_Z 0) then of_Z 0 else Hours (Sub at_ t)).
Proof.
  destruct (decide (ws = [])) as [->|Hne]; [intros Hd; by apply elem_of_nil in Hd|].
  rewrite evaluatePosture_spec by done. cbn [pd_workloads]. intros Hd. apply list_elem_of_fmap in Hd as (w & -> & _).
  unfold posture_row, judge. destruct (wk_job w) as [job|]; [|done].
  destruct (RPO ToLower (gj_schedule job)) as [rpo|] eqn:Er.
  - intros Hw t Ht. exists (gj_schedule job), rpo. split; [done|]. revert Hw Ht.
    destruct (wk_restorePoints w =? 0), (wk_lastOutcomeFailed w); destruct (negb _ && _);
      cbn [fst pw_withinRpo pw_lastSuccessAt pw_rpoHours pw_ageHours]; intros Hw Ht; rewrite Ht in *; injection Hw as Hw;
      apply Z.leb_gt in Hw; done.
  - by destruct (wk_restorePoints w =? 0), (wk_lastOutcomeFailed w).
Qed.
End agree.

Section agrees.
Context (locale_le : jsstr → jsstr → bool) (toLocaleString : num → jsstr) (Date_parse : jsstr → option Z) (localeDate : Z → jsstr).

(** The chips, the counts of the panel and the rows behind each chip are those of
    the answer, and what is empty is shown as such. *)
Definition shows (rfc3339 : Z → jsstr) (p : postureDTO) (v : PostureData) : Prop :=
  let chip s := chip_count (pu_workloads v) (FilterStatus s) in
  chip_count (pu_workloads v) FilterAll = Z.of_nat (length (pd_workloads p)) ∧
  chip WProtected = pc_protected (pd_counts p) ∧ chip WAtRisk = pc_atRisk (pd_counts p) ∧ chip WUnprotected = pc_unprotected (pd_counts p) ∧
  pu_protected v = of_Z (chip WProtected) ∧ pu_atRisk v = of_Z (chip WAtRisk) ∧ pu_unprotected v = of_Z (chip WUnprotected) ∧
  pu_verdict v = client_verdict (pd_verdict p) ∧
  (posture_empty v = true ↔ pd_workloads p = []) ∧
  (∀ f, posture_rows locale_le (pu_workloads v) f ≡ₚ
        map (client_row rfc3339) (filter (λ d, f = FilterAll ∨ f = FilterStatus (client_status (pw_status d))) (pd_workloads p))) ∧
  (∀ f, Sorted (λ a b, STATUS_WEIGHT (w_status a) <= STATUS_WEIGHT (w_status b)) (posture_rows locale_le (pu_workloads v) f)).

Lemma rows_behind rfc3339 rows f : posture_rows locale_le (map (client_row rfc3339) rows) f ≡ₚ
  map (client_row rfc3339) (filter (λ d, f = FilterAll ∨ f = FilterStatus (client_status (pw_status d))) rows).
Proof.
  unfold posture_rows. rewrite sort_by_perm. apply reflexive_eq. destruct f as [|s].
  - f_equal. symmetry. induction rows as [|d rows IH]; [done|]. rewrite filter_cons, decide_True by (by left). by rewrite IH.
  - induction rows as [|d rows IH]; [done|]. cbn [map List.filter w_status client_row]. rewrite filter_cons.
    destruct (decide (FilterStatus s = FilterAll ∨ FilterStatus s = FilterStatus (client_status (pw_status d)))) as [[|[= ->]]|Hne]; [done| |].
    + rewrite bool_decide_eq_true_2 by done. cbn [map]. by rewrite IH.
    + rewrite bool_decide_eq_false_2; [done|]. intros E. apply Hne. right. by rewrite E.
Qed.

Lemma rows_by_weight (Htotal : ∀ a b, locale_le a b = false → locale_le b a = true) l f :
  Sorted (λ a b, STATUS_WEIGHT (w_status a) <= STATUS_WEIGHT (w_status b)) (posture_rows locale_le l f).
Proof.
  unfold posture_rows. eapply Sorted_mono; [|apply sort_by_sorted].
  - intros a b H. cbv beta in H. unfold row_le in H. destruct (Z.eqb_spec (STATUS_WEIGHT (w_status a)) (STATUS_WEIGHT (w_status b))); [lia|].
    cbn [negb] in H. by apply Z.leb_le.
  - intros a b. unfold row_le. rewrite (Z.eqb_sym (STATUS_WEIGHT (w_status b))).
    destruct (_ =? _); cbn [negb]; [apply Htotal|]. rewrite Z.leb_gt, Z.leb_le. lia.
Qed.

Lemma total_empty p : verdict_honest p → 0 <= Z.of_nat (length (pd_workloads p)) <= 2 ^ 53 →
  bool_decide (client_verdict (pd_verdict p) = VerdictUnknown)
  || zero (nadd (nadd (of_Z (pc_protected (pd_counts p))) (of_Z (pc_atRisk (pd_counts p)))) (of_Z (pc_unprotected (pd_counts p)))) = true ↔
  pd_workloads p = [].
Proof.
  intros (Hu & _ & _ & Hc & Ht & _) Hl. rewrite Hc. cbn [pc_protected pc_atRisk pc_unprotected].
  assert (Hp : ∀ s, 0 <= rows_in s (pd_workloads p)) by (intros; apply Nat2Z.is_nonneg).
  pose proof (Hp Protected). pose proof (Hp AtRisk). pose proof (Hp Unprotected).
  rewrite !nadd_Z by lia. unfold zero. rewrite neqb_Z, Ht, orb_true_iff, bool_decide_eq_true, Z.eqb_eq. split.
  - intros [H'|H']; [apply Hu; by destruct (pd_verdict p)|]. destruct (pd_workloads p); [done|]. cbn [length] in H'. lia.
  - intros E. right. by rewrite E.
Qed.
End agrees.


(** A daily job, and a newest restore point 31 hours old. *)
Definition late_workload : postureWorkload :=
  mkWk SourceVM (u "h1_100") (u "web-01") 100 (u "lab") (u "pve1") (Some nightly) (Some 0) None false None 2.


(** ** Details *)

(** A read whose posture failed takes the table off the page; the filter that was
    chosen is gone when it comes back. *)
Lemma filter_forgotten engineText d d' : da_posture d' = None →
  let s := mkDash (mkAsync (Some d) false None tt [tt] true) (FilterStatus WAtRisk) in
  db_filter (dashboard_step engineText s (DbRead 0 (inl d'))) = FilterAll.
Proof. intros H. cbn. unfold settle_table, table_of. cbn. by rewrite H. Qed.
