(* ===== verification/VmsPage.v ===== *)
(** * The virtual machines page (web/src/pages/VirtualMachinesPage.tsx)

    The cached inventory of every cluster: its filters, the job that protects
    each guest, backing one up, and polling every host again.  That a guest is
    shown as protected exactly when the server holds it for covered is
    [Protection]. *)
From stdpp Require Import gmap.
From S2P Require Import Prelude JsString JsNumber JsValue Policy Transport Targets Format Runs Backups Ui Roles Inventory Endpoints Widgets.

Record VMsData := mkVMs {
  vd_vms : list CachedVM; vd_hosts : list Host; vd_jobs : list Job; vd_targets : list Target; vd_agents : list Agent;
}.

(** [source.vmid === vm.vmid]. *)
Definition same_vmid (v : jsval) (n : num) : bool := match v with VNum m => neqb m n | _ => false end.

(** The first enabled job that protects this guest, else any job that does. *)
Definition protects (vm : CachedVM) (job : Job) : bool :=
  if negb (bool_decide (jb_kind job = JVm)) then false
  else match present (jb_tagFilter job) with
       | Some tag => existsb (str_eqb tag) (tagsOf (vm_tags vm))
       | None =>
           existsb (λ source, str_eqb (to_str (get source "hostId")) (id_text (vm_hostId vm))
                              && same_vmid (get source "vmid") (vm_vmid vm)) (vmSourcesOf (jb_sources job))
       end.

Definition jobForVM (jobs : list Job) (vm : CachedVM) : option Job :=
  let matches := List.filter (protects vm) jobs in
  match List.find jb_enabled matches with Some job => Some job | None => head matches end.

(** What a card says of a guest's protection; the amber edge is for what no
    enabled job covers. *)
Definition card_protection (job : option Job) : jsstr :=
  match job with
  | Some j => if jb_enabled j then cat [u "Protected by “"; jb_name j; u "”"]
              else cat [u "Only “"; jb_name j; u "”, which is disabled"]
  | None => u "Not in any job"
  end.
Definition amber_edge (job : option Job) : bool := match job with Some j => negb (jb_enabled j) | None => true end.
Definition backup_label (job : option Job) : jsstr := match job with Some _ => u "Backup Now" | None => u "Backup Now — create job" end.
Definition uptime_text (vm : CachedVM) : jsstr :=
  if str_eqb (vm_status vm) (u "running") then cat [u "Up "; formatUptime (vm_uptime vm)] else u "Not running".

(** ** Filters *)

Definition card_key (vm : CachedVM) : jsstr := cat [id_text (vm_hostId vm); u ":"; str_of_num (vm_vmid vm)].

Section filters.
(** [toLowerCase] and [a.localeCompare(b) <= 0]. *)
Context (toLowerCase : jsstr → jsstr) (locale_le : jsstr → jsstr → bool).

(** [counts.set(tag, (counts.get(tag) ?? 0) + 1)], for a tag the map has. *)
Definition add_count (counts : list (jsstr * Z)) (tag : jsstr) : list (jsstr * Z) :=
  map (λ c, if str_eqb c.1 tag then (c.1, c.2 + 1) else c) counts.

Definition tagCounts (vms : list CachedVM) : list (jsstr * Z) :=
  fold_left (λ counts vm, fold_left add_count (tagsOf (vm_tags vm)) counts) vms
    (map (λ tag, (tag, 0)) (allTagsOf locale_le (map vm_tags vms))).

Record Filters := mkFilters { fi_query : jsstr; fi_host : jsstr; fi_tags : list jsstr }.
Definition noFilters : Filters := mkFilters [] (u "all") [].

Definition passes (f : Filters) (vm : CachedVM) : bool :=
  let needle := toLowerCase (trim (fi_query f)) in
  let tags := tagsOf (vm_tags vm) in
  if negb (str_eqb (fi_host f) (u "all")) && negb (str_eqb (id_text (vm_hostId vm)) (fi_host f)) then false
  else if negb (forallb (λ tag, existsb (str_eqb tag) tags) (fi_tags f)) then false
  else if str_eqb needle [] then true
  else includes needle (toLowerCase (vm_name vm)) || includes needle (str_of_num (vm_vmid vm))
       || includes needle (toLowerCase (vm_node vm)) || includes needle (toLowerCase (vm_hostName vm))
       || existsb (includes needle) tags.

Definition filtered (f : Filters) (vms : list CachedVM) : list CachedVM := List.filter (passes f) vms.

Definition toggleTag (tag : jsstr) (tags : list jsstr) : list jsstr :=
  if existsb (str_eqb tag) tags then List.filter (λ item, negb (str_eqb item tag)) tags else tags ++ [tag].

(** ** The page *)

(** A request under way: every host's inventory, or a run of a job. *)
Inductive VmFlight := FlyInventory (hosts : list Host) | FlyRun (vm : CachedVM) (job : Job).

(** How many guests each host listed; [None] for a host that failed. *)
Inductive VmAnswer := GotInventories (found : list (option Z)) | GotRun | GotFailure (err : Thrown).

(** [vp_waiting] says, for each read under way, which refresh of the inventory
    waits for it: how many hosts were asked, how many answered, how many guests
    they listed. *)
Record VmsState := mkVms {
  vp_async : Async VMsData unit;
  vp_waiting : list (option (Z * Z * Z));
  vp_filters : Filters;
  vp_refreshing : bool;
  vp_busy : option jsstr;
  vp_wizardVM : option CachedVM;
  vp_wizardOpen : bool;
  vp_flights : list VmFlight;
  vp_said : list ToastCall;
  vp_left : option jsstr;
}.

Inductive VmsMsg :=
  | VmQuery (text : jsstr) | VmHost (host : jsstr) | VmTag (tag : jsstr) | VmClearTags | VmClearFilters
  | VmRefresh | VmBackup (vm : CachedVM) | VmWizardClose | VmWizardSaved | VmRetry
  | VmRead (i : nat) (answer : VMsData + Thrown)
  | VmAnswered (i : nat) (answer : VmAnswer).

Definition vms_of (s : VmsState) : list CachedVM := match as_data (vp_async s) with Some d => vd_vms d | None => [] end.
Definition hosts_of (s : VmsState) : list Host := match as_data (vp_async s) with Some d => vd_hosts d | None => [] end.
Definition jobs_of (s : VmsState) : list Job := match as_data (vp_async s) with Some d => vd_jobs d | None => [] end.

Definition mountVms : VmsState := mkVms (mountAsync tt) [None] noFilters false None None false [] [] None.

Definition with_filters (f : Filters) (s : VmsState) : VmsState :=
  mkVms (vp_async s) (vp_waiting s) f (vp_refreshing s) (vp_busy s) (vp_wizardVM s) (vp_wizardOpen s) (vp_flights s) (vp_said s) (vp_left s).
Definition with_wizard (vm : option CachedVM) (open : bool) (s : VmsState) : VmsState :=
  mkVms (vp_async s) (vp_waiting s) (vp_filters s) (vp_refreshing s) (vp_busy s) vm open (vp_flights s) (vp_said s) (vp_left s).
Definition with_busy (busy : option jsstr) (s : VmsState) : VmsState :=
  mkVms (vp_async s) (vp_waiting s) (vp_filters s) (vp_refreshing s) busy (vp_wizardVM s) (vp_wizardOpen s) (vp_flights s) (vp_said s) (vp_left s).
Definition with_refreshing (b : bool) (s : VmsState) : VmsState :=
  mkVms (vp_async s) (vp_waiting s) (vp_filters s) b (vp_busy s) (vp_wizardVM s) (vp_wizardOpen s) (vp_flights s) (vp_said s) (vp_left s).
Definition vms_say (c : ToastCall) (s : VmsState) : VmsState :=
  mkVms (vp_async s) (vp_waiting s) (vp_filters s) (vp_refreshing s) (vp_busy s) (vp_wizardVM s) (vp_wizardOpen s) (vp_flights s)
    (c :: vp_said s) (vp_left s).
Definition vms_send (f : VmFlight) (s : VmsState) : VmsState :=
  mkVms (vp_async s) (vp_waiting s) (vp_filters s) (vp_refreshing s) (vp_busy s) (vp_wizardVM s) (vp_wizardOpen s) (vp_flights s ++ [f])
    (vp_said s) (vp_left s).
Definition vms_landed (i : nat) (s : VmsState) : VmsState :=
  mkVms (vp_async s) (vp_waiting s) (vp_filters s) (vp_refreshing s) (vp_busy s) (vp_wizardVM s) (vp_wizardOpen s) (delete i (vp_flights s))
    (vp_said s) (vp_left s).
(** A read, and who waits for it. *)
Definition vms_read (loud : bool) (waits : option (Z * Z * Z)) (s : VmsState) : VmsState :=
  mkVms (run_loader loud (vp_async s)) (vp_waiting s ++ [waits]) (vp_filters s) (vp_refreshing s) (vp_busy s) (vp_wizardVM s)
    (vp_wizardOpen s) (vp_flights s) (vp_said s) (vp_left s).
(** The page gives way to another. *)
Definition vms_leave (engineText : jsstr) (to_ : option jsstr) (s : VmsState) : VmsState :=
  mkVms (async_step engineText (vp_async s) Unmount) (vp_waiting s) (vp_filters s) (vp_refreshing s) (vp_busy s) (vp_wizardVM s)
    (vp_wizardOpen s) (vp_flights s) (vp_said s) to_.

Context (engineText : jsstr) (canOperate : bool).

Definition inventory_said (asked ok found : Z) : ToastCall :=
  if asked - ok =? 0 then
    mkCall ToastSuccess (u "Inventory refreshed.")
      (Some (cat [str_of_Z found; u " "; if found =? 1 then u "virtual machine" else u "virtual machines"; u " across "; str_of_Z ok; u " ";
                  if ok =? 1 then u "host" else u "hosts"; u "."])) None
  else
    mkCall ToastError (u "Some hosts could not be reached.")
      (Some (cat [str_of_Z ok; u " of "; str_of_Z asked; u " hosts answered. Check host status on the Proxmox Hosts page."])) None.

Definition vms_offered (s : VmsState) (m : VmsMsg) : Prop :=
  match m with
  | VmAnswered i answer =>
      match vp_flights s !! i, answer with
      | Some (FlyInventory hosts), GotInventories found => length found = length hosts
      | Some (FlyRun _ _), GotRun | Some (FlyRun _ _), GotFailure _ => True
      | _, _ => False
      end
  | VmRead i _ => is_Some (as_pending (vp_async s) !! i)
  | _ =>
      vp_left s = None ∧
      match m with
      | VmQuery _ | VmHost _ | VmClearTags => vp_wizardOpen s = false ∧ vms_of s ≠ []
      | VmTag tag => vp_wizardOpen s = false ∧ tag ∈ map fst (tagCounts (vms_of s))
      | VmClearFilters => vp_wizardOpen s = false ∧ vms_of s ≠ [] ∧ filtered (vp_filters s) (vms_of s) = []
      | VmRefresh => vp_wizardOpen s = false ∧ vp_refreshing s = false
      | VmBackup vm =>
          vp_wizardOpen s = false ∧ vm ∈ filtered (vp_filters s) (vms_of s) ∧ canOperate = true ∧ vp_busy s ≠ Some (card_key vm)
      | VmWizardClose | VmWizardSaved => vp_wizardOpen s = true
      | VmRetry => as_data (vp_async s) = None ∧ as_loading (vp_async s) = false
      | _ => False
      end
  end.

(** [onBackupNow]. *)
Definition backup_now (vm : CachedVM) (s : VmsState) : VmsState :=
  match jobForVM (jobs_of s) vm with
  | None => with_wizard (Some vm) true s
  | Some job => vms_send (FlyRun vm job) (with_busy (Some (card_key vm)) s)
  end.

Definition vms_answered (f : VmFlight) (answer : VmAnswer) (s : VmsState) : VmsState :=
  match f, answer with
  | FlyInventory hosts, GotInventories found =>
      vms_read false (Some (Z.of_nat (length hosts), Z.of_nat (length (omap id found)), fold_left Z.add (omap id found) 0)) s
  | FlyRun vm job, GotRun =>
      let started := vms_say (mkCall ToastSuccess (cat [u "Backup of "; vm_name vm; u " started."])
                                (Some (cat [u "Running job “"; jb_name job; u "”."])) None) s in
      with_busy None
        match encodeURIComponent (id_text (jb_id job)) with
        | Some e => vms_leave engineText (Some (cat [u "/monitor?jobId="; e])) started
        | None => vms_say (mkCall ToastError (cat [u "Could not back up "; vm_name vm]) (Some engineText) None) started
        end
  | FlyRun vm job, GotFailure err =>
      with_busy None (vms_say (mkCall ToastError (cat [u "Could not back up "; vm_name vm]) (Some (errorMessage engineText err)) None) s)
  | _, _ => s
  end.

Definition vms_step (s : VmsState) (m : VmsMsg) : VmsState :=
  let f := vp_filters s in
  match m with
  | VmQuery text => with_filters (mkFilters text (fi_host f) (fi_tags f)) s
  | VmHost host => with_filters (mkFilters (fi_query f) host (fi_tags f)) s
  | VmTag tag => with_filters (mkFilters (fi_query f) (fi_host f) (toggleTag tag (fi_tags f))) s
  | VmClearTags => with_filters (mkFilters (fi_query f) (fi_host f) []) s
  | VmClearFilters => with_filters noFilters s
  | VmRefresh =>
      match hosts_of s with
      | [] => vms_say (mkCall ToastInfo (u "No Proxmox hosts to inventory.") (Some (u "Add a host first.")) None) s
      | hosts => vms_send (FlyInventory hosts) (with_refreshing true s)
      end
  | VmBackup vm => backup_now vm s
  | VmWizardClose => with_wizard (vp_wizardVM s) false s
  | VmWizardSaved => vms_read false None s
  | VmRetry => vms_read true None s
  | VmRead i answer =>
      let waits := mjoin (vp_waiting s !! i) in
      let s' := mkVms (async_step engineText (vp_async s) (Settled i answer)) (delete i (vp_waiting s)) (vp_filters s) (vp_refreshing s)
                  (vp_busy s) (vp_wizardVM s) (vp_wizardOpen s) (vp_flights s) (vp_said s) (vp_left s) in
      match waits with
      | Some (asked, ok, found) => with_refreshing false (vms_say (inventory_said asked ok found) s')
      | None => s'
      end
  | VmAnswered i answer => match vp_flights s !! i with Some f => vms_answered f answer (vms_landed i s) | None => s end
  end.

Inductive vms_run : VmsState → Prop :=
  | vms_mount : vms_run mountVms
  | vms_next s m : vms_run s → vms_offered s m → vms_run (vms_step s m).
End filters.

(** ** What is drawn *)

Record VMCardView := mkVmCard {
  vc_workload : WorkloadRef; vc_status : PillTone * jsstr * bool; vc_disk : jsstr; vc_memory : jsstr; vc_tags : list jsstr;
  vc_uptime : jsstr; vc_protection : jsstr; vc_amber : bool;
  (** Label, whether it can be pressed, whether it spins, tooltip, spoken label. *)
  vc_button : jsstr * bool * bool * option jsstr * option jsstr;
}.

Inductive VmsBody :=
  | VmsSkeleton | VmsFailed (message : jsstr) | VmsNone (description : jsstr) (add_host : bool)
  | VmsGrid (shown : jsstr) (hosts : list (jsstr * jsstr)) (tags : list (jsstr * Z * bool)) (clear : option jsstr)
      (cards : list VMCardView).

Section view.
Context (toLowerCase : jsstr → jsstr) (locale_le : jsstr → jsstr → bool) (Math_log : num → num) (toLocaleString : num → jsstr) (role : Role).

Definition VMCard (vm : CachedVM) (job : option Job) (busy : bool) : VMCardView :=
  let can := operateJobs (capabilitiesFor (VStr (role_text role))) in
  let denied := if can then None else Some (roleDeniedReason (VStr (role_text role)) (u "start backups")) in
  mkVmCard (mkWorkload (Some (vm_hostName vm)) (vm_name vm) (Some (vm_vmid vm)) (Some (vm_node vm)))
    (StatusPill (toneForStatus toLowerCase (Some (vm_status vm))) (vm_status vm) false)
    (formatBytes Math_log (vm_maxdisk vm) 1) (formatBytes Math_log (vm_maxmem vm) 1) (tagsOf (vm_tags vm))
    (uptime_text vm) (card_protection job) (amber_edge job)
    (backup_label job, negb (button_disabled (negb can) busy), busy, denied,
     (λ d, cat [u "Back up "; vm_name vm; u " now — "; d]) <$> denied).

Definition clear_label (n : nat) : option jsstr :=
  match n with
  | O => None
  | S O => Some (u "Clear tag")
  | _ => Some (cat [u "Clear "; str_of_Z (Z.of_nat n); u " tags — showing VMs with all of them"])
  end.

(** An empty grid is the filter that matches nothing. *)
Definition vms_body (s : VmsState) : VmsBody :=
  let vms := vms_of s in
  let found := filtered toLowerCase (vp_filters s) vms in
  match as_data (vp_async s) with
  | None => if as_loading (vp_async s) then VmsSkeleton else
      match present (as_error (vp_async s)) with
      | Some e => VmsFailed e
      | None => VmsNone (u "ProxBack has no Proxmox hosts yet. Add one with an API token and its guests appear here.") true
      end
  | Some _ =>
      if is_nil vms then
        if is_nil (hosts_of s) then VmsNone (u "ProxBack has no Proxmox hosts yet. Add one with an API token and its guests appear here.") true
        else VmsNone (u "Your hosts are configured but the inventory is empty. Refresh the inventory to re-poll each host.") false
      else
        VmsGrid (cat [formatCount toLocaleString (VNum (of_Z (Z.of_nat (length found)))); u " of ";
                      formatCount toLocaleString (VNum (of_Z (Z.of_nat (length vms)))); u " shown"])
          ((u "all", u "All hosts") :: map (λ h, (id_text (ho_id h), ho_name h)) (hosts_of s))
          (map (λ c, (c.1, c.2, existsb (str_eqb c.1) (fi_tags (vp_filters s)))) (tagCounts locale_le vms))
          (if is_nil (tagCounts locale_le vms) then None else clear_label (length (fi_tags (vp_filters s))))
          (map (λ vm, VMCard vm (jobForVM (jobs_of s) vm) (bool_decide (vp_busy s = Some (card_key vm)))) found)
  end.
End view.

(** ** Properties *)

(** How often a tag is listed. *)
Definition occurrences (tag : jsstr) (tags : list jsstr) : Z := Z.of_nat (length (List.filter (str_eqb tag) tags)).

Lemma add_counts tags counts :
  fold_left add_count tags counts = map (λ c, (c.1, c.2 + occurrences c.1 tags)) counts.
Proof.
  revert counts. induction tags as [|t tags IH]; intros counts; cbn [fold_left].
  - rewrite <- (map_id counts) at 1. apply map_ext. intros [tag n]. by cbn; rewrite Z.add_0_r.
  - rewrite IH. unfold add_count. rewrite map_map. apply map_ext. intros [tag n]. unfold occurrences. cbn [List.filter fst snd].
    destruct (str_eqb tag t); cbn [fst snd length]; f_equal; lia.
Qed.

Lemma occurrences_once tag tags : NoDup tags → occurrences tag tags = if existsb (str_eqb tag) tags then 1 else 0.
Proof.
  unfold occurrences. induction 1 as [|t tags Ht _ IH]; [done|]. cbn [List.filter existsb]. destruct (str_eqb tag t) eqn:E; cbn [orb length]; [|done].
  apply str_eqb_true in E as ->. replace (existsb _ tags) with false in IH; [lia|].
  symmetry. apply not_true_iff_false. by rewrite <- elem_of_existsb.
Qed.

(** The number beside a tag is the number of guests that carry it, as long as
    no guest lists a tag twice. *)
Lemma tagCounts_spec le vms : Forall (λ vm, NoDup (tagsOf (vm_tags vm))) vms →
  tagCounts le vms = map (λ tag, (tag, Z.of_nat (length (vmsWithTag vm_tags vms tag)))) (allTagsOf le (map vm_tags vms)).
Proof.
  intros Hn. unfold tagCounts.
  enough (H : ∀ counts, fold_left (λ counts vm, fold_left add_count (tagsOf (vm_tags vm)) counts) vms counts =
                        map (λ c, (c.1, c.2 + Z.of_nat (length (vmsWithTag vm_tags vms c.1)))) counts).
  { rewrite H, map_map. by apply map_ext. }
  induction Hn as [|vm vms Hvm _ IH]; intros counts; cbn [fold_left].
  - rewrite <- (map_id counts) at 1. apply map_ext. intros [tag n]. by cbn; rewrite Z.add_0_r.
  - rewrite IH, add_counts, map_map. apply map_ext. intros [tag n]. cbn [fst snd]. rewrite (occurrences_once _ _ Hvm).
    unfold vmsWithTag. cbn [List.filter]. destruct (existsb (str_eqb tag) _); cbn [length]; f_equal; lia.
Qed.

(** A chip clicked twice is as it was, and one click is felt by that chip only. *)
Lemma elem_of_toggleTag tag tags t : t ∈ toggleTag tag tags ↔ if str_eqb t tag then tag ∉ tags else t ∈ tags.
Proof.
  unfold toggleTag. destruct (existsb (str_eqb tag) tags) eqn:E.
  - apply elem_of_existsb in E. rewrite list_elem_of_In, filter_In, <- list_elem_of_In. destruct (str_eqb t tag) eqn:Et; cbn [negb]; naive_solver.
  - apply not_true_iff_false in E. rewrite <- elem_of_existsb in E. rewrite elem_of_app, list_elem_of_singleton.
    destruct (str_eqb t tag) eqn:Et.
    + apply str_eqb_true in Et as ->. naive_solver.
    + apply str_eqb_false in Et. naive_solver.
Qed.

(** With nothing typed, the guests shown are those of the host chosen that
    carry every tag selected. *)
Lemma filtered_nothing_typed toLowerCase f vms vm : toLowerCase [] = [] → non_blank (fi_query f) = false →
  vm ∈ filtered toLowerCase f vms ↔
  vm ∈ vms ∧ (fi_host f = u "all" ∨ id_text (vm_hostId vm) = fi_host f) ∧ ∀ tag, tag ∈ fi_tags f → tag ∈ tagsOf (vm_tags vm).
Proof.
  intros Hl Hq. apply negb_false_iff, str_eqb_true in Hq. unfold filtered, passes. rewrite list_elem_of_In, filter_In, <- list_elem_of_In, Hq, Hl.
  change (str_eqb [] []) with true. cbv beta iota zeta. apply and_iff_compat_l.
  assert (Ha : forallb (λ tag, existsb (str_eqb tag) (tagsOf (vm_tags vm))) (fi_tags f) = true ↔ ∀ tag, tag ∈ fi_tags f → tag ∈ tagsOf (vm_tags vm)).
  { rewrite forallb_forall. by setoid_rewrite <- elem_of_existsb; setoid_rewrite <- list_elem_of_In. }
  assert (Hh : negb (str_eqb (fi_host f) (u "all")) && negb (str_eqb (id_text (vm_hostId vm)) (fi_host f)) = false ↔
               fi_host f = u "all" ∨ id_text (vm_hostId vm) = fi_host f).
  { by rewrite andb_false_iff, !negb_false_iff, !str_eqb_true. }
  rewrite <- Ha, <- Hh. destruct (_ && _), (forallb _ _); cbn [negb]; naive_solver.
Qed.

(** The amber edge: no enabled job protects the guest. *)
Lemma amber_spec jobs vm : amber_edge (jobForVM jobs vm) = true ↔ ∀ j, j ∈ jobs → jb_enabled j = true → protects vm j = false.
Proof.
  unfold jobForVM. destruct (List.find jb_enabled _) as [j|] eqn:E.
  - apply List.find_some in E as [Hin He]. apply filter_In in Hin as [Hin Hp]. cbn [amber_edge]. rewrite He. split; [done|].
    intros H. rewrite H in Hp; [done|by apply list_elem_of_In|done].
  - assert (Hall : ∀ j, j ∈ jobs → jb_enabled j = true → protects vm j = false).
    { intros j Hj He. apply not_true_is_false. intros Hp. pose proof (List.find_none _ _ E j) as Hn. rewrite He in Hn.
      discriminate Hn. apply filter_In. by rewrite <- list_elem_of_In. }
    split; [done|]. intros _. destruct (head _) as [j|] eqn:Eh; [|done]. cbn [amber_edge].
    assert (Hj : j ∈ List.filter (protects vm) jobs) by (destruct (List.filter _ _); [done|injection Eh as ->; by left]).
    apply list_elem_of_In, filter_In in Hj as [Hj Hp]. destruct (jb_enabled j) eqn:He; [|done].
    rewrite Hall in Hp; [done|by apply list_elem_of_In|done].
Qed.

(** The job a card names, and a click runs, is one that protects the guest. *)
Lemma jobForVM_protects jobs vm j : jobForVM jobs vm = Some j → j ∈ jobs ∧ protects vm j = true.
Proof.
  unfold jobForVM. intros H. assert (Hj : j ∈ List.filter (protects vm) jobs).
  { destruct (List.find jb_enabled _) as [k|] eqn:E.
    - injection H as ->. apply List.find_some in E as [Hin _]. by apply list_elem_of_In.
    - destruct (List.filter _ _); [done|]. injection H as ->. by left. }
  by rewrite list_elem_of_In, filter_In, <- list_elem_of_In in Hj.
Qed.

(** ** The session *)

Definition is_inventory (f : VmFlight) : bool := match f with FlyInventory _ => true | FlyRun _ _ => false end.

(** The refreshes of the inventory under way: hosts being asked, or the cached
    list being read after they answered. *)
Definition refreshes (s : VmsState) : Z :=
  Z.of_nat (length (List.filter is_inventory (vp_flights s)) + length (omap id (vp_waiting s))).

(** Every read under way has its entry in [vp_waiting], and the refresh button
    spins exactly while one refresh is under way. *)
Definition vms_ok (s : VmsState) : Prop :=
  length (vp_waiting s) = length (as_pending (vp_async s)) ∧ refreshes s = if vp_refreshing s then 1 else 0.

Lemma omap_delete {A} (l : list (option A)) i x : l !! i = Some x →
  (length (omap id l) = length (omap id (delete i l)) + match x with Some _ => 1 | None => 0 end)%nat.
Proof.
  intros H. rewrite <- (take_drop_middle l i x H) at 1. rewrite delete_take_drop, !omap_app, !length_app.
  destruct x; cbn [omap list_omap id length]; lia.
Qed.

Section session.
Context (engineText : jsstr) (canOperate : bool) (toLowerCase : jsstr → jsstr) (locale_le : jsstr → jsstr → bool).

Lemma read_ok loud waits s n : length (vp_waiting s) = length (as_pending (vp_async s)) → refreshes s = n →
  length (vp_waiting (vms_read loud waits s)) = length (as_pending (vp_async (vms_read loud waits s))) ∧
  refreshes (vms_read loud waits s) = n + match waits with Some _ => 1 | None => 0 end.
Proof.
  unfold refreshes. intros Hl <-. cbn [vms_read vp_waiting vp_async vp_flights run_loader as_pending].
  rewrite !length_app, omap_app, length_app, Hl. split; [done|]. destruct waits; simpl; lia.
Qed.

Lemma vms_step_ok s m : vms_ok s → vms_offered toLowerCase locale_le canOperate s m → vms_ok (vms_step engineText s m).
Proof.
  intros [Hl Hr] Ho. destruct m as [text|host|tag| | | |vm| | | |i answer|i answer]; cbn [vms_step].
  all: try (split; [exact Hl|exact Hr]).
  - destruct (hosts_of s) as [|h hs]; [by split|]. destruct Ho as (_ & _ & Hn). rewrite Hn in Hr.
    split; [exact Hl|]. unfold refreshes in *. cbn [vms_send with_refreshing vp_flights vp_waiting vp_refreshing].
    rewrite List.filter_app, length_app. cbn [List.filter is_inventory length]. lia.
  - unfold backup_now. destruct (jobForVM _ _); [|by split]. split; [exact Hl|].
    unfold refreshes in *. cbn [vms_send with_busy vp_flights vp_waiting vp_refreshing]. rewrite List.filter_app, length_app.
    cbn [List.filter is_inventory length]. lia.
  - destruct (read_ok false None s _ Hl Hr) as [Hl' Hr']. split; [exact Hl'|]. rewrite Hr'. cbn [vms_read vp_refreshing]. lia.
  - destruct (read_ok true None s _ Hl Hr) as [Hl' Hr']. split; [exact Hl'|]. rewrite Hr'. cbn [vms_read vp_refreshing]. lia.
  - set (waits := mjoin (vp_waiting s !! i)).
    destruct Ho as [a Ha]. assert (Hw : ∃ x, vp_waiting s !! i = Some x) by (apply lookup_lt_is_Some; rewrite Hl; by apply lookup_lt_is_Some; exists a).
    destruct Hw as [x Hx]. replace waits with x by (unfold waits; by rewrite Hx). clear waits.
    pose proof (omap_delete _ _ _ Hx) as Hd.
    assert (Hl' : length (delete i (vp_waiting s)) = length (as_pending (async_step engineText (vp_async s) (Settled i answer)))).
    { rewrite length_delete by eauto. cbn [async_step]. destruct (as_mounted _), answer; cbn [as_pending]; rewrite length_delete by eauto; lia. }
    destruct x as [[[asked ok] found]|]; (split; [exact Hl'|]); unfold refreshes in *; cbn [vms_say with_refreshing vp_flights vp_waiting vp_refreshing];
      destruct (vp_refreshing s); lia.
  - cbn [vms_offered] in Ho. destruct (vp_flights s !! i) as [f|] eqn:Ef; [|done]. pose proof (count_filter_delete is_inventory _ _ _ Ef) as Hd.
    unfold vms_answered. destruct f as [hosts|vm job]; cbn [is_inventory] in Hd.
    + destruct answer as [found| |err]; [|done..]. set (waits := Some _).
      destruct (read_ok false waits (vms_landed i s) (refreshes s - 1)) as [Hl' Hr']; [exact Hl|unfold refreshes; cbn [vms_landed vp_flights vp_waiting]; lia|].
      split; [exact Hl'|]. rewrite Hr', Hr. cbn [vms_read vms_landed vp_refreshing waits]. unfold waits. lia.
    + destruct answer as [found| |err]; [done| |].
      * destruct (encodeURIComponent _); (split; [exact Hl|]); unfold refreshes in *;
          cbn [vms_leave vms_say vms_landed with_busy vp_flights vp_waiting vp_refreshing]; lia.
      * split; [exact Hl|]. unfold refreshes in *. cbn [vms_say vms_landed with_busy vp_flights vp_waiting vp_refreshing]. lia.
Qed.

Lemma vms_run_ok s : vms_run toLowerCase locale_le engineText canOperate s → vms_ok s.
Proof. induction 1 as [|s m _ IH Ho]; [by split|]. by apply vms_step_ok. Qed.
End session.

(** ** A second backup hides the first

    One guest's key is remembered as busy.  Starting a second guest's backup
    overwrites it, and the first guest's button is offered again while its own
    run request is still under way. *)
Definition guest (name : jsstr) (vmid : Z) : CachedVM :=
  mkVM (of_Z vmid) name (u "pve1") (u "running") VNull VNull VNull (VArr []) (IdStr (u "h1")) (u "lab").
Definition guest_source (vmid : Z) : jsval := VObj [(u "hostId", VStr (u "h1")); (u "vmid", VNum (of_Z vmid))].
Definition both_nightly : Job :=
  mkJob (IdStr (u "j1")) (u "Nightly") JVm (IdStr (u "t1")) (u "nas") VNull None VNull VNull true
    (VArr [guest_source 100; guest_source 101]) None None None.
Definition two_guests : VMsData := mkVMs [guest (u "web") 100; guest (u "db") 101] [] [both_nightly] [] [].

Definition web_guest : CachedVM := guest (u "web") 100.
Definition db_guest : CachedVM := guest (u "db") 101.

Lemma both_protected : jobForVM [both_nightly] web_guest = Some both_nightly ∧ jobForVM [both_nightly] db_guest = Some both_nightly ∧
  card_key web_guest ≠ card_key db_guest.
Proof. split_and!; [reflexivity..|]. vm_compute. discriminate. Qed.

Lemma busy_overwritten : ∃ s, vms_run id (λ _ _, true) [] true s ∧
  FlyRun web_guest both_nightly ∈ vp_flights s ∧ vms_offered id (λ _ _, true) true s (VmBackup web_guest).
Proof.
  destruct both_protected as (Ew & Ed & Hne).
  assert (Hin : ∀ vm, vm ∈ [web_guest; db_guest] → vm ∈ filtered id noFilters [web_guest; db_guest]) 
    by (intros vm H; apply filtered_nothing_typed; [done..|]; split_and!; [done|by left|intros t Ht; by apply elem_of_nil in Ht]).
  set (loaded := vms_step [] mountVms (VmRead 0 (inl two_guests))).
  set (first := vms_send (FlyRun web_guest both_nightly) (with_busy (Some (card_key web_guest)) loaded)).
  set (second := vms_send (FlyRun db_guest both_nightly) (with_busy (Some (card_key db_guest)) first)).
  assert (E1 : vms_step [] loaded (VmBackup web_guest) = first).
  { change (vms_step [] loaded (VmBackup web_guest)) with
      match jobForVM [both_nightly] web_guest with None => with_wizard (Some web_guest) true loaded | Some job => vms_send (FlyRun web_guest job) (with_busy (Some (card_key web_guest)) loaded) end.
    by rewrite Ew. }
  assert (E2 : vms_step [] first (VmBackup db_guest) = second).
  { change (vms_step [] first (VmBackup db_guest)) with
      match jobForVM [both_nightly] db_guest with None => with_wizard (Some db_guest) true first | Some job => vms_send (FlyRun db_guest job) (with_busy (Some (card_key db_guest)) first) end.
    by rewrite Ed. }
  assert (H0 : vms_run id (λ _ _, true) [] true loaded) by (apply vms_next; [constructor|by eexists]).
  assert (Hoff : ∀ s vm, vms_of s = [web_guest; db_guest] → vp_filters s = noFilters → vp_left s = None → vp_wizardOpen s = false →
            vm ∈ [web_guest; db_guest] → vp_busy s ≠ Some (card_key vm) → vms_offered id (λ _ _, true) true s (VmBackup vm)).
  { intros s vm Ev Ef El Ew' Hvm Hb. cbn [vms_offered]. rewrite Ev, Ef. split_and!; [exact El|exact Ew'|by apply Hin|reflexivity|exact Hb]. }
  assert (H1 : vms_run id (λ _ _, true) [] true first).
  { rewrite <- E1. apply vms_next; [exact H0|]. apply Hoff; [reflexivity..|by left|discriminate]. }
  exists second. split_and!.
  - rewrite <- E2. apply vms_next; [exact H1|]. apply Hoff; [reflexivity..|by right; left|].
    change (Some (card_key web_guest) ≠ Some (card_key db_guest)). congruence.
  - change (FlyRun web_guest both_nightly ∈ [FlyRun web_guest both_nightly; FlyRun db_guest both_nightly]). by left.
  - apply Hoff; [reflexivity..|by left|]. change (Some (card_key db_guest) ≠ Some (card_key web_guest)). congruence.
Qed.
