(* ===== verification/Protection.v ===== *)
(** * Protection, on both sides of the wire

    The virtual machines page (VmsPage) draws an amber edge around every guest
    that no enabled job covers; the server (ServerPosture) counts the same
    guests as unprotected.  Each side decides from its own copy of the jobs and
    of the inventory; here the copies are related by what the job and inventory
    endpoints encode, and the two decisions compared. *)
From Stdlib Require Import QArith.
From stdpp Require Import gmap.
From S2P Require Import Prelude JsString JsNumber JsValue Policy GoString ServerSchedule ServerPosture Backups Format Dashboard Inventory VmsPage.
#[local] Open Scope Z_scope.

(** ** What the endpoints send *)

(** [JobSource]'s encoding. *)
Definition source_val (s : GoJobSource) : jsval :=
  let text (b : bytes) := if str_eqb b [] then None else Some (text_val b) in
  struct_val
    [ (u "hostId", text (jsrc_hostID s)); (u "vmid", if jsrc_vmid s =? 0 then None else Some (int_val (jsrc_vmid s)));
      (u "name", text (jsrc_name s)); (u "agentId", text (jsrc_agentID s));
      (u "paths", match jsrc_paths s with [] => None | ps => Some (VArr (map text_val ps)) end) ].

(** [tagFilter] is null for a job with a fixed list of sources. *)
Definition tagFilter_sent (g : GoJob) : option jsstr :=
  if str_eqb (gj_tagFilter g) [] then None else Some (utf8_to_utf16 (gj_tagFilter g)).

(** The console's copy of a job says what the server's job says. *)
Record job_sent (g : GoJob) (j : Job) : Prop := {
  sent_name : jb_name j = utf8_to_utf16 (gj_name g);
  sent_kind : jb_kind j = JVm ↔ gj_kind g = SourceVM;
  sent_enabled : jb_enabled j = gj_enabled g;
  sent_sources : jb_sources j = VArr (map source_val (gj_sources g));
  sent_filter : jb_tagFilter j = tagFilter_sent g;
}.

(** And its copy of a guest. *)
Record vm_sent (g : VM) (v : CachedVM) : Prop := {
  sent_vmid : vm_vmid v = rnd (inject_Z (ServerPosture.vm_vmid g));
  sent_host : vm_hostId v = IdStr (utf8_to_utf16 (ServerPosture.vm_hostID g));
  sent_tags : vm_tags v = VArr (map text_val (ServerPosture.vm_tags g));
}.

(** Text that survives the encoding, as valid UTF-8 does. *)
Definition sound_text (b : bytes) : Prop := go_string (utf8_to_utf16 b) = b.

(** What the server stores: ids of a guest, a filter and tags already
    normalised. *)
Record guest_ok (g : VM) : Prop := {
  ok_host : sound_text (ServerPosture.vm_hostID g) ∧ ServerPosture.vm_hostID g ≠ [];
  ok_vmid : 1 <= ServerPosture.vm_vmid g <= 2 ^ 53;
  ok_tags : Forall (λ t, sound_text t ∧ t ≠ []) (ServerPosture.vm_tags g);
}.

Record job_ok (ToLower : bytes → bytes) (g : GoJob) : Prop := {
  ok_sources : Forall (λ s, sound_text (jsrc_hostID s) ∧ 0 <= jsrc_vmid s <= 2 ^ 53) (gj_sources g);
  ok_filter : sound_text (gj_tagFilter g) ∧ ToLower (TrimSpace (gj_tagFilter g)) = gj_tagFilter g;
}.

(** ** Properties *)

Lemma sound_inj a b : sound_text a → sound_text b → utf8_to_utf16 a = utf8_to_utf16 b → a = b.
Proof. unfold sound_text. congruence. Qed.

Lemma sound_eqb a b : sound_text a → sound_text b → str_eqb (utf8_to_utf16 a) (utf8_to_utf16 b) = str_eqb a b.
Proof.
  intros Ha Hb. destruct (str_eqb a b) eqn:E.
  - apply str_eqb_true in E as ->. by apply str_eqb_true.
  - apply str_eqb_false in E. apply str_eqb_false. intros H. by apply E, sound_inj.
Qed.

Lemma sound_empty a : sound_text a → str_eqb (utf8_to_utf16 a) [] = str_eqb a [].
Proof. intros H. rewrite <- (sound_eqb a []); done. Qed.

Lemma source_fields : NoDup [u "hostId"; u "vmid"; u "name"; u "agentId"; u "paths"].
Proof. apply (bool_decide_unpack _). vm_compute. exact I. Qed.

(** A source of the console's copy names the guest exactly when the server's does. *)
Lemma source_names g v s : guest_ok g → vm_sent g v → sound_text (jsrc_hostID s) → 0 <= jsrc_vmid s <= 2 ^ 53 →
  isVMJobSource (source_val s) && (str_eqb (to_str (get (source_val s) "hostId")) (id_text (vm_hostId v))
                                   && same_vmid (get (source_val s) "vmid") (vm_vmid v)) =
  str_eqb (jsrc_hostID s) (ServerPosture.vm_hostID g) && (jsrc_vmid s =? ServerPosture.vm_vmid g).
Proof.
  intros [[Hh Hne] Hn _] [Ev Eh _] Hs Hv. unfold isVMJobSource, source_val. rewrite !get_struct, !has_struct by apply source_fields.
  cbn [List.find fst snd]. js_literals. cbn [from_option id snd is_object struct_val].
  destruct (Z.eqb_spec (jsrc_vmid s) 0) as [E0|E0].
  { rewrite E0. destruct (Z.eqb_spec 0 (ServerPosture.vm_vmid g)); [lia|]. by rewrite !andb_false_r. }
  destruct (str_eqb (jsrc_hostID s) []) eqn:Ee.
  { apply str_eqb_true in Ee. rewrite Ee. symmetry. cbn [andb default]. apply andb_false_iff. left. apply str_eqb_false. congruence. }
  cbn [andb default to_str text_val int_val same_vmid id]. rewrite Eh, Ev. cbn [id_text]. rewrite sound_eqb by done.
  by rewrite !rnd_Z, neqb_Z by lia.
Qed.

Lemma existsb_filter {A} (p q : A → bool) l : existsb q (List.filter p l) = existsb (λ x, p x && q x) l.
Proof. induction l as [|x l IH]; [done|]. cbn [List.filter existsb]. destruct (p x); cbn [existsb andb orb]; by rewrite IH. Qed.

Lemma existsb_map {A B} (f : A → B) q l : existsb q (map f l) = existsb (λ x, q (f x)) l.
Proof. induction l as [|x l IH]; [done|]. cbn [map existsb]. by rewrite IH. Qed.

Lemma existsb_ext_in {A} (p q : A → bool) l : (∀ x, x ∈ l → p x = q x) → existsb p l = existsb q l.
Proof. induction l as [|x l IH]; intros H; [done|]. cbn [existsb]. rewrite H, IH by set_solver. done. Qed.

Lemma tags_arrive tags : Forall (λ t, sound_text t ∧ t ≠ []) tags → tagsOf (VArr (map text_val tags)) = map utf8_to_utf16 tags.
Proof.
  unfold tagsOf, only_strings. induction 1 as [|t tags [Ht Hne] _ IH]; [done|]. cbn [map omap list_omap text_val List.filter].
  rewrite (sound_empty t Ht), (proj2 (str_eqb_false _ _) Hne). cbn [negb]. by rewrite IH.
Qed.

(** The page decides that a job protects a guest exactly when the server decides
    that it covers it. *)
Lemma protects_covers ToLower g v gj j : guest_ok g → vm_sent g v → job_ok ToLower gj → job_sent gj j →
  protects v j = jobCoversVM ToLower gj g.
Proof.
  intros Hg Hv [Hsrc [Hf Hnorm]] [_ Hk _ Esrc Ef]. unfold protects, jobCoversVM, HasTag.
  replace (bool_decide (jb_kind j = JVm)) with (str_eqb (gj_kind gj) SourceVM).
  2:{ destruct (str_eqb _ _) eqn:E; symmetry; [apply bool_decide_eq_true_2, Hk; by apply str_eqb_true|].
      apply bool_decide_eq_false_2. rewrite Hk. by apply str_eqb_false. }
  destruct (str_eqb (gj_kind gj) SourceVM); [|done]. cbn [negb]. rewrite Ef, Esrc, Hnorm. unfold tagFilter_sent, present.
  destruct (str_eqb (gj_tagFilter gj) []) eqn:Ee; cbn [negb].
  - cbn [vmSourcesOf]. rewrite existsb_filter, existsb_map. apply existsb_ext_in. intros s Hs.
    rewrite Forall_forall in Hsrc. specialize (Hsrc s Hs) as [Hs1 Hs2]. by apply source_names.
  - rewrite (sound_empty _ Hf), Ee. destruct Hv as [_ _ ->]. destruct Hg as [_ _ Ht]. rewrite tags_arrive by done.
    rewrite existsb_map. apply existsb_ext_in. intros t Hin. rewrite Forall_forall in Ht. destruct (Ht t Hin) as [Hst _].
    rewrite sound_eqb by done. apply Bool.eq_iff_eq_true. rewrite !str_eqb_true. split; congruence.
Qed.

(** A copy of the jobs, and of the guests. *)
Definition jobs_sent (ToLower : bytes → bytes) : list GoJob → list Job → Prop := Forall2 (λ g j, job_ok ToLower g ∧ job_sent g j).
Definition vms_sent : list VM → list CachedVM → Prop := Forall2 (λ g v, guest_ok g ∧ vm_sent g v).

Lemma Forall2_elem_l {A B} (R : A → B → Prop) l k x : Forall2 R l k → x ∈ l → ∃ y, y ∈ k ∧ R x y.
Proof. intros H [i Hi]%list_elem_of_lookup. destruct (Forall2_lookup_l _ _ _ _ _ H Hi) as (y & Hy & HR). exists y. split; [by eapply list_elem_of_lookup_2|done]. Qed.
Lemma Forall2_elem_r {A B} (R : A → B → Prop) l k y : Forall2 R l k → y ∈ k → ∃ x, x ∈ l ∧ R x y.
Proof. intros H [i Hi]%list_elem_of_lookup. destruct (Forall2_lookup_r _ _ _ _ _ H Hi) as (x & Hx & HR). exists x. split; [by eapply list_elem_of_lookup_2|done]. Qed.

Lemma amber_uncovered ToLower gjobs jobs g v : jobs_sent ToLower gjobs jobs → guest_ok g → vm_sent g v →
  amber_edge (jobForVM jobs v) = true ↔ ∀ gj, gj ∈ gjobs → gj_enabled gj = true → jobCoversVM ToLower gj g = false.
Proof.
  intros Hjobs Hg Hv. rewrite amber_spec. split.
  - intros H gj Hin He. destruct (Forall2_elem_l _ _ _ _ Hjobs Hin) as (j & Hj & Hok & Hs).
    rewrite <- (protects_covers ToLower g v gj j) by done. apply H; [done|]. by rewrite (sent_enabled _ _ Hs).
  - intros H j Hin He. destruct (Forall2_elem_r _ _ _ _ Hjobs Hin) as (gj & Hgj & Hok & Hs).
    rewrite (protects_covers ToLower g v gj j) by done. apply H; [done|]. by rewrite <- (sent_enabled _ _ Hs).
Qed.

(** The guests with an amber edge. *)
Definition amber_guests (jobs : list Job) (vms : list CachedVM) : list CachedVM :=
  List.filter (λ v, amber_edge (jobForVM jobs v)) vms.

Lemma row_vmid ToLower now w : pw_vmid (posture_row ToLower now w) = wk_vmid w.
Proof.
  unfold posture_row, judge. destruct (wk_job w) as [job|]; [|done]. cbv beta iota zeta. destruct (RPO _ _);
    destruct (wk_restorePoints w =? 0), (wk_lastOutcomeFailed w); try done; by destruct (negb _ && _).
Qed.

Lemma rows_in_app s l k : rows_in s (l ++ k) = rows_in s l + rows_in s k.
Proof. unfold rows_in. rewrite filter_app, length_app. lia. Qed.

Lemma rows_amber jobs vms rows :
  Forall2 (λ v d, amber_edge (jobForVM jobs v) = true ↔ pw_status d = Unprotected) vms rows →
  rows_in Unprotected rows = Z.of_nat (length (amber_guests jobs vms)).
Proof.
  unfold rows_in, amber_guests. induction 1 as [|v d vms rows H _ IH]; [done|]. rewrite filter_cons. cbn [List.filter].
  destruct (amber_edge (jobForVM jobs v)), (decide (pw_status d = Unprotected)); cbn [length]; naive_solver lia.
Qed.

(** C27: what the virtual machines page marks as unprotected is what the server
    counts as unprotected.  For the same jobs and the same guests, a guest's card
    has the amber edge exactly when that guest's row of the posture is
    unprotected, and the number of unprotected workloads the dashboard counts is
    the number of amber cards plus the agents that are unprotected; and the job a
    card names, and a click on Backup Now runs, is one the server too holds to
    cover that guest. *)
Theorem protected_agrees (ToLower : bytes → bytes) gjobs gvms agents backups outcomes now p jobs vms :
  jobs_sent ToLower gjobs jobs → vms_sent gvms vms →
  handlePosture ToLower (Some gjobs) (Some gvms) (Some agents) (Some backups) (Some outcomes) now = Some p →
  (∃ rows rows', pd_workloads p = rows ++ rows' ∧ length rows' = length agents ∧
    Forall2 (λ v d, pw_kind d = SourceVM ∧ vm_vmid v = rnd (inject_Z (pw_vmid d)) ∧
                    (amber_edge (jobForVM jobs v) = true ↔ pw_status d = Unprotected)) vms rows ∧
    pc_unprotected (pd_counts p) = Z.of_nat (length (amber_guests jobs vms)) + rows_in Unprotected rows') ∧
  ∀ v j, v ∈ vms → jobForVM jobs v = Some j →
    ∃ g gj, g ∈ gvms ∧ vm_sent g v ∧ gj ∈ gjobs ∧ job_sent gj j ∧ jobCoversVM ToLower gj g = true.
Proof.
  intros Hjobs Hvms [= <-]. set (points := fold_points backups). split.
  - set (rows := map (posture_row ToLower now) (map (vm_workload ToLower gjobs points outcomes) gvms)).
    set (rows' := map (posture_row ToLower now) (map (agent_workload ToLower gjobs points outcomes) agents)).
    exists rows, rows'.
    assert (E : pd_workloads (evaluatePosture ToLower (map (vm_workload ToLower gjobs points outcomes) gvms ++
                   map (agent_workload ToLower gjobs points outcomes) agents) now) = rows ++ rows').
    { unfold rows, rows'. rewrite <- map_app. set (ws := map _ gvms ++ map _ agents).
      destruct (decide (ws = [])) as [->|Hne]; [done|]. by rewrite evaluatePosture_spec. }
    assert (Hrows : Forall2 (λ v d, pw_kind d = SourceVM ∧ vm_vmid v = rnd (inject_Z (pw_vmid d)) ∧
                    (amber_edge (jobForVM jobs v) = true ↔ pw_status d = Unprotected)) vms rows).
    { unfold rows. rewrite map_map. apply Forall2_fmap_r, Forall2_flip. eapply Forall2_impl; [exact Hvms|].
      intros g v [Hg Hv]. set (w := vm_workload ToLower gjobs points outcomes g).
      destruct (judge_spec ToLower now w ∅) as (_ & Es & _ & Ek). unfold compose, flip. rewrite Es, Ek, row_vmid.
      split_and!; [done|by apply sent_vmid|]. rewrite (amber_uncovered ToLower gjobs jobs g v) by done.
      symmetry. apply workload_unprotected. }
    split_and!; [exact E|unfold rows'; by rewrite !length_map|exact Hrows|].
    pose proof (evaluated_honest ToLower (map (vm_workload ToLower gjobs points outcomes) gvms ++
                   map (agent_workload ToLower gjobs points outcomes) agents) now) as (_ & _ & _ & Ec & _).
    rewrite E in Ec. rewrite Ec. cbn [pc_unprotected]. rewrite rows_in_app, (rows_amber jobs vms rows); [done|].
    eapply Forall2_impl; [exact Hrows|]. naive_solver.
  - intros v j Hin Hj. apply jobForVM_protects in Hj as [Hj Hp]. destruct (Forall2_elem_r _ _ _ _ Hvms Hin) as (g & Hgin & Hg & Hv).
    destruct (Forall2_elem_r _ _ _ _ Hjobs Hj) as (gj & Hgj & Hok & Hs). exists g, gj. split_and!; try done.
    by rewrite <- (protects_covers ToLower g v gj j).
Qed.

(** ** An estate *)

(** The console's copies of a job and of a guest. *)
Definition console_job (g : GoJob) : Job :=
  mkJob (IdStr (u "j")) (utf8_to_utf16 (gj_name g)) (if str_eqb (gj_kind g) SourceVM then JVm else JAgent) (IdStr (u "t1")) (u "nas")
    VNull None VNull VNull (gj_enabled g) (VArr (map source_val (gj_sources g))) (tagFilter_sent g) None None.
Definition console_vm (g : VM) : CachedVM :=
  Inventory.mkVM (rnd (inject_Z (ServerPosture.vm_vmid g))) (utf8_to_utf16 (ServerPosture.vm_name g)) (utf8_to_utf16 (ServerPosture.vm_node g))
    (u "running") VNull VNull VNull (VArr (map text_val (ServerPosture.vm_tags g))) (IdStr (utf8_to_utf16 (vm_hostID g)))
    (utf8_to_utf16 (ServerPosture.vm_hostName g)).

Lemma console_job_sent g : job_sent g (console_job g).
Proof.
  split; try done. cbn [console_job jb_kind]. destruct (str_eqb (gj_kind g) SourceVM) eqn:E.
  - apply str_eqb_true in E. by split.
  - apply str_eqb_false in E. split; [done|]. intros H. by destruct E.
Qed.
Lemma console_vm_sent g : vm_sent g (console_vm g).
Proof. done. Qed.

(** [nightly] covers guests 100 and 101; a tag covers 103; nothing covers 102. *)
Definition tagged : GoJob := mkGoJob (u "prod") SourceVM (mkGo (u "daily") 0 (u "04:00") [] 0 []) true [] (u "prod").
Definition three_vms : list VM := estate_vms ++
  [ServerPosture.mkVM 102 (u "test") (u "pve1") [] (u "h1") (u "lab"); ServerPosture.mkVM 103 (u "mail") (u "pve2") [u "linux"; u "prod"] (u "h1") (u "lab")].

Lemma three_jobs : jobs_sent id [nightly; tagged] (map console_job [nightly; tagged]).
Proof.
  apply Forall2_fmap_r, Forall_Forall2_diag. repeat (apply List.Forall_cons; [split; [|apply console_job_sent]|]); [..|apply List.Forall_nil].
  - split; [|split; vm_compute; reflexivity]. repeat (apply List.Forall_cons; [split; [vm_compute; reflexivity|vm_compute; split; discriminate]|]). apply List.Forall_nil.
  - split; [apply List.Forall_nil|split; vm_compute; reflexivity].
Qed.

Lemma three_guests : vms_sent three_vms (map console_vm three_vms).
Proof.
  apply Forall2_fmap_r, Forall_Forall2_diag.
  repeat (apply List.Forall_cons; [split; [split; [split; [vm_compute; reflexivity|discriminate]|vm_compute; split; discriminate|]|apply console_vm_sent]|]);
    [..|apply List.Forall_nil].
  all: repeat (apply List.Forall_cons; [split; [vm_compute; reflexivity|discriminate]|]); apply List.Forall_nil.
Qed.

Lemma protected_agrees_witness :
  let p := evaluatePosture id (map (vm_workload id [nightly; tagged] (fold_points estate_points) estate_outcomes) three_vms) (50 * Hour) in
  pc_unprotected (pd_counts p) = 1 ∧
  ∃ rows rows', pd_workloads p = rows ++ rows' ∧ length rows' = 0%nat ∧
    Forall2 (λ v d, pw_kind d = SourceVM ∧ vm_vmid v = rnd (inject_Z (pw_vmid d)) ∧
                    (amber_edge (jobForVM (map console_job [nightly; tagged]) v) = true ↔ pw_status d = Unprotected)) (map console_vm three_vms) rows ∧
    pc_unprotected (pd_counts p) = Z.of_nat (length (amber_guests (map console_job [nightly; tagged]) (map console_vm three_vms))) + rows_in Unprotected rows'.
Proof.
  split; [vm_compute; reflexivity|].
  exact (proj1 (protected_agrees id [nightly; tagged] three_vms [] estate_points estate_outcomes (50 * Hour) _ _ _ three_jobs three_guests
                  ltac:(cbn [handlePosture mbind option_bind map]; rewrite app_nil_r; reflexivity))).
Defined.

(** The card names the first enabled job of the list; the dashboard names the
    one that promises most. *)
Definition weekly_first : GoJob :=
  mkGoJob (u "weekly") SourceVM (mkGo (u "weekly") 0 (u "02:00") [0] 0 []) true [mkJobSrc (u "h1") 100 (u "web-01") [] []] [].

Lemma two_policies_named :
  let jobs := [weekly_first; nightly] in
  let web := ServerPosture.mkVM 100 (u "web-01") (u "pve1") [] (u "h1") (u "lab") in
  (jb_name <$> jobForVM (map console_job jobs) (console_vm web)) = Some (u "weekly") ∧
  (gj_name <$> governingJob id jobs (λ j, jobCoversVM id j web)) = Some (u "nightly").
Proof. split; vm_compute; reflexivity. Qed.
