(* ===== verification/ServerBrowse.v ===== *)
(** * Looking inside a restore point, on the server (internal/browse/index.go, internal/api/handlers_browse.go)

    What the index of a restore point is made of, how a folder is listed and a
    name searched, and which file a download finds.  The archive is the list of
    headers the tar reader yields; the index of a restore point, cached or built,
    is a parameter of the handlers. *)
From stdpp Require Import gmap.
From S2P Require Import Prelude JsString GoString.

Abbreviation slash := 47%N.

Record Entry := mkEntry {
  e_path : bytes; e_size : Z; e_mode : Z; e_mtime : Z; e_dir : bool; e_link : bytes; e_stream : bytes; e_offset : Z;
}.
#[export] Instance Entry_eq_dec : EqDecision Entry.
Proof. solve_decision. Defined.

Record Index := mkIndex { ix_entries : list Entry; ix_truncated : bool }.
Definition MaxIndexEntries : Z := 2000000.

(** ** Paths *)

(** [strings.TrimPrefix(s, "/")] and [strings.Trim(s, "/")]. *)
Definition trim_slash (s : bytes) : bytes := match s with c :: s' => if N.eqb c slash then s' else s | [] => s end.
Fixpoint trim_slashes_left (s : bytes) : bytes := match s with c :: s' => if N.eqb c slash then trim_slashes_left s' else s | [] => s end.
Definition Trim_slashes (s : bytes) : bytes := rev (trim_slashes_left (rev (trim_slashes_left s))).

(** [path.Clean] of a path that begins with a slash: empty and [.] elements are
    dropped, [..] takes the element before it, and nothing climbs above the root. *)
Definition clean_element (acc : list bytes) (element : bytes) : list bytes :=
  if str_eqb element [] || str_eqb element (u ".") then acc
  else if str_eqb element (u "..") then removelast acc
  else acc ++ [element].
Definition Clean_rooted (p : bytes) : bytes := slash :: join [slash] (fold_left clean_element (split_on slash p) []).

(** [path.Base]. *)
Definition Base (p : bytes) : bytes :=
  if str_eqb p [] then u "."
  else let p := rev (trim_slashes_left (rev p)) in
       let p := default p (after_last slash p) in
       if str_eqb p [] then u "/" else p.

Definition normalizePath (name : bytes) : bytes :=
  let p := map (λ c, if N.eqb c 92 then slash else c) name in
  let p := match p with a :: b :: rest => if N.eqb b 58 then a :: rest else p | _ => p end in
  let p := trim_slash (Clean_rooted (slash :: p)) in
  if str_eqb p (u ".") || str_eqb p (u "..") then [] else p.

(** ** Indexing *)

Inductive TypeFlag := TypeDir | TypeSymlink | TypeLink | TypeOther.
Record Header := mkHeader { h_name : bytes; h_size : Z; h_mode : Z; h_mtime : Z; h_type : TypeFlag; h_link : bytes; h_offset : Z }.

Definition has_suffix_slash (s : bytes) : bool := match last s with Some 47%N => true | _ => false end.

Definition entry_of (stream : bytes) (h : Header) (name : bytes) : Entry :=
  let isDir := match h_type h with TypeDir => true | _ => has_suffix_slash (h_name h) end in
  mkEntry name (h_size h) (h_mode h) (h_mtime h) isDir (match h_type h with TypeSymlink | TypeLink => h_link h | _ => [] end) stream
    (if negb isDir && (0 <? h_size h) then h_offset h else 0).

(** The members the reader yields and whether it then fails; [None] is its error
    when nothing was read. *)
Fixpoint IndexTar_from (stream : bytes) (headers : list Header) (broken : bool) (entries : list Entry) : option (list Entry * bool) :=
  match headers with
  | [] => if broken then if is_nil entries then None else Some (entries, true) else Some (entries, false)
  | h :: headers =>
      let name := normalizePath (h_name h) in
      if str_eqb name [] then IndexTar_from stream headers broken entries
      else let entries := entries ++ [entry_of stream h name] in
           if MaxIndexEntries <=? Z.of_nat (length entries) then Some (entries, true) else IndexTar_from stream headers broken entries
  end.
Definition IndexTar (stream : bytes) (headers : list Header) (broken : bool) := IndexTar_from stream headers broken [].

(** [BrowseIndex] of an agent's restore point, stream after stream. *)
Definition add_stream (idx : option Index) (s : bytes * list Header * bool) : option Index :=
  idx ← idx; '(entries, truncated) ← IndexTar s.1.1 s.1.2 s.2;
  Some (mkIndex (ix_entries idx ++ entries) (ix_truncated idx || truncated)).
Definition BrowseIndex (streams : list (bytes * list Header * bool)) : option Index :=
  fold_left add_stream streams (Some (mkIndex [] false)).

(** ** Listing, searching, finding *)

(** What follows the prefix. *)
Definition rest_of (prefix : bytes) (e : Entry) : option bytes := strip_prefix prefix (e_path e).

(** The text before the first slash, when there is one. *)
Fixpoint before_slash (s : bytes) : option bytes :=
  match s with [] => None | c :: s => if N.eqb c slash then Some [] else cons c <$> before_slash s end.

Definition placeholder (path : bytes) : Entry := mkEntry path 0 0 0 true [] [] 0.

Definition list_entry (dir prefix : bytes) (acc : gmap bytes nat * list Entry) (e : Entry) : gmap bytes nat * list Entry :=
  let '(seen, out) := acc in
  match rest_of prefix e with
  | None => acc
  | Some rest =>
      if str_eqb (e_path e) dir || str_eqb rest [] then acc
      else match before_slash rest with
           | Some name =>
               match seen !! name with
               | Some _ => acc
               | None => (<[name := length out]> seen, out ++ [placeholder (prefix ++ name)])
               end
           | None =>
               match seen !! rest with
               | Some at_ => (seen, <[at_ := e]> out)
               | None => (<[rest := length out]> seen, out ++ [e])
               end
           end
  end.

Section go.
Context (ToLower : bytes → bytes).

Definition entry_less (a b : Entry) : bool :=
  if negb (Bool.eqb (e_dir a) (e_dir b)) then e_dir a
  else bytes_ltb (ToLower (Base (e_path a))) (ToLower (Base (e_path b))).

(** [sort.SliceStable]. *)
Definition sortEntries (out : list Entry) : list Entry := sort_by (λ a b, negb (entry_less b a)) out.

Definition Children (entries : list Entry) (dir : bytes) : list Entry :=
  let dir := Trim_slashes (normalizePath dir) in
  let prefix := if str_eqb dir [] then [] else dir ++ [slash] in
  sortEntries (fold_left (list_entry dir prefix) entries (∅, [])).2.

Definition matches (q : bytes) (e : Entry) : bool := negb (e_dir e) && includes q (ToLower (Base (e_path e))).

Definition Search (entries : list Entry) (query : bytes) (limit : Z) : list Entry :=
  let q := ToLower (TrimSpace query) in
  if str_eqb q [] then []
  else let limit := if limit <=? 0 then 200 else limit in
       sortEntries (take (Z.to_nat limit) (List.filter (matches q) entries)).

Definition Find (entries : list Entry) (p : bytes) : option Entry :=
  List.find (λ e, str_eqb (e_path e) (normalizePath p)) entries.

(** ** The handlers

    [index] is [BrowseIndex]: the index of a restore point, or that it has none. *)
Record browseListResponse := mkListing { bl_path : bytes; bl_entries : list Entry; bl_truncated : bool }.

Definition handleBrowseBackup (index : option Index) (search dir : bytes) (limit : Z) : option browseListResponse :=
  idx ← index;
  let q := TrimSpace search in
  Some (if str_eqb q [] then mkListing (Trim_slashes dir) (Children (ix_entries idx) dir) (ix_truncated idx)
        else mkListing [] (Search (ix_entries idx) q limit) false).

(** The entry a download streams. *)
Definition handleDownloadBackupFile (index : option Index) (filePath : bytes) : option Entry :=
  if str_eqb (TrimSpace filePath) [] then None
  else idx ← index; e ← Find (ix_entries idx) filePath; if e_dir e then None else Some e.
End go.

(** ** Paths that are normalised *)

Definition good (seg : bytes) : Prop := seg ≠ [] ∧ seg ≠ u "." ∧ seg ≠ u ".." ∧ (slash ∉ seg) ∧ (92%N ∉ seg).
Definition normal (p : bytes) : Prop := ∃ segs, Forall good segs ∧ p = join [slash] segs.

Lemma elem_split_on c s p : p ∈ split_on c s → (c ∉ p) ∧ ∀ x, x ∈ p → x ∈ s.
Proof.
  revert p. induction s as [|d s IH]; intros p; cbn [split_on].
  - intros ->%list_elem_of_singleton. split; set_solver.
  - destruct (N.eqb_spec c d) as [->|Hne].
    + intros [->|H]%elem_of_cons; [split; set_solver|]. destruct (IH p H). set_solver.
    + destruct (split_on c s) as [|w ws] eqn:E.
      * intros ->%list_elem_of_singleton. set_solver.
      * intros [->|H]%elem_of_cons; [destruct (IH w); set_solver|destruct (IH p); set_solver].
Qed.

Lemma clean_good segs acc : Forall good acc → Forall (λ p, (slash ∉ p) ∧ (92%N ∉ p)) segs → Forall good (fold_left clean_element segs acc).
Proof.
  intros Hd Hs. revert acc Hd. induction Hs as [|seg segs [H1 H2] _ IH]; intros acc Hd; cbn [fold_left]; [done|]. apply IH.
  unfold clean_element. destruct (str_eqb seg []) eqn:E1; [done|]. destruct (str_eqb seg (u ".")) eqn:E2; [done|].
  destruct (str_eqb seg (u "..")) eqn:E3.
  - cbn [orb]. clear -Hd. induction Hd as [|x l Hx Hl IH]; [constructor|]. cbn [removelast]. destruct l; [constructor|by constructor].
  - cbn [orb]. apply str_eqb_false in E1, E2, E3. apply Forall_app. split; [done|]. by apply Forall_singleton.
Qed.

Lemma clean_fixed segs acc : Forall good segs → fold_left clean_element segs acc = acc ++ segs.
Proof.
  intros H. revert acc. induction H as [|seg segs (H1 & H2 & H3 & _) _ IH]; intros acc; cbn [fold_left]; [by rewrite app_nil_r|].
  unfold clean_element. rewrite (proj2 (str_eqb_false _ _) H1), (proj2 (str_eqb_false _ _) H2), (proj2 (str_eqb_false _ _) H3). cbn [orb].
  rewrite IH. by rewrite <- app_assoc.
Qed.

Lemma join_dots segs : Forall good segs → str_eqb (join [slash] segs) (u ".") || str_eqb (join [slash] segs) (u "..") = false.
Proof.
  intros H. apply orb_false_iff. rewrite !str_eqb_false. destruct H as [|s [|s' segs] (H1 & H2 & H3 & _) _]; [split; discriminate|by split|].
  change (join [slash] (s :: s' :: segs)) with (s ++ slash :: join [slash] (s' :: segs)).
  assert (Hin : slash ∈ s ++ slash :: join [slash] (s' :: segs)) by set_solver.
  split; intros E; rewrite E in Hin; revert Hin; vm_compute; set_solver.
Qed.

Lemma normalizePath_normal name : normal (normalizePath name).
Proof.
  unfold normalizePath. set (p := map _ name). set (p' := match p with a :: b :: rest => if N.eqb b 58 then a :: rest else p | _ => p end).
  assert (Hb : 92%N ∉ p').
  { assert (Hp : 92%N ∉ p) by (intros (c & Hc & _)%list_elem_of_fmap; destruct (N.eqb_spec c 92); congruence).
    intros H. apply Hp. unfold p' in H. destruct p as [|a [|b l]]; [done|done|]. destruct (N.eqb b 58); set_solver. }
  cbn [trim_slash Clean_rooted]. change (N.eqb slash slash) with true. cbv beta iota zeta.
  assert (Hg : Forall good (fold_left clean_element (split_on slash (slash :: p')) [])).
  { apply clean_good; [constructor|]. apply Forall_forall. intros s Hs. apply elem_split_on in Hs as [H1 H2]. split; [done|].
    intros H. apply H2 in H. set_solver. }
  rewrite (join_dots _ Hg). eexists. by split.
Qed.

(** A drive letter is what a colon in second position is taken for. *)
Definition drive_like (p : bytes) : bool := match p with _ :: b :: _ => N.eqb b 58 | _ => false end.

Lemma good_bytes segs : Forall good segs → 92%N ∉ join [slash] segs.
Proof.
  induction 1 as [|s segs (_ & _ & _ & _ & H) Hs IH]; [set_solver|]. destruct segs as [|s' segs]; [done|].
  change (join [slash] (s :: s' :: segs)) with (s ++ [slash] ++ join [slash] (s' :: segs)). rewrite !elem_of_app, list_elem_of_singleton.
  intros [?|[?|?]]; done.
Qed.

Lemma no_backslash l : 92%N ∉ l → map (λ c, if N.eqb c 92 then slash else c) l = l.
Proof.
  induction l as [|c l IH]; intros H; [done|]. apply not_elem_of_cons in H as [Hc Hl]. cbn [map].
  rewrite IH by done. by rewrite (proj2 (N.eqb_neq c 92)) by congruence.
Qed.

Lemma normalizePath_fixed p : normal p → drive_like p = false → normalizePath p = p.
Proof.
  intros (segs & Hg & ->) Hd. unfold normalizePath.
  rewrite (no_backslash _ (good_bytes _ Hg)).
  replace (match join [slash] segs with a :: b :: rest => _ | _ => _ end) with (join [slash] segs).
  2:{ unfold drive_like in Hd. destruct (join [slash] segs) as [|a [|b l]]; [done..|]. by rewrite Hd. }
  cbn [trim_slash Clean_rooted]. change (N.eqb slash slash) with true. cbv beta iota zeta.
  assert (E : fold_left clean_element (split_on slash (slash :: join [slash] segs)) [] = segs).
  { change (split_on slash (slash :: join [slash] segs)) with ([] :: split_on slash (join [slash] segs)). cbn [fold_left].
    change (clean_element [] []) with (@nil bytes). destruct (decide (segs = [])) as [->|Hne]; [done|].
    rewrite split_on_join; [by apply clean_fixed|done|]. eapply Forall_impl; [exact Hg|]. by intros s (_ & _ & _ & H & _). }
  by rewrite E, (join_dots _ Hg).
Qed.

(** ** Listings *)

(** The immediate child of the folder an entry lies at or below, and whether the
    entry is that child itself. *)
Definition child_of (dir prefix : bytes) (e : Entry) : option (bytes * bool) :=
  rest ← rest_of prefix e;
  if str_eqb (e_path e) dir || str_eqb rest [] then None
  else Some match before_slash rest with Some name => (name, false) | None => (rest, true) end.

(** What the loop has gathered of the entries read so far. *)
Record listed (dir prefix : bytes) (es : list Entry) (acc : gmap bytes nat * list Entry) : Prop := {
  li_seen : ∀ name i, acc.1 !! name = Some i → ∃ o, acc.2 !! i = Some o ∧ e_path o = prefix ++ name;
  li_out : ∀ i o, acc.2 !! i = Some o → ∃ name, e_path o = prefix ++ name ∧ acc.1 !! name = Some i;
  li_from : ∀ o, o ∈ acc.2 → ∃ e name real, e ∈ es ∧ child_of dir prefix e = Some (name, real) ∧ e_path o = prefix ++ name ∧
              o = if real : bool then e else placeholder (prefix ++ name);
  li_child : ∀ e name real, e ∈ es → child_of dir prefix e = Some (name, real) → is_Some (acc.1 !! name);
  li_real : ∀ e name, e ∈ es → child_of dir prefix e = Some (name, true) → ∃ o, o ∈ es ∧ o ∈ acc.2 ∧ e_path o = e_path e;
}.

Lemma child_real dir prefix e name : child_of dir prefix e = Some (name, true) → e_path e = prefix ++ name.
Proof.
  unfold child_of, rest_of. destruct (strip_prefix prefix (e_path e)) as [rest|] eqn:E; [|done]. cbn [mbind option_bind].
  destruct (_ || _); [done|]. apply strip_prefix_Some in E. destruct (before_slash rest); [done|]. by intros [= <-].
Qed.

Lemma list_entry_spec dir prefix acc e : list_entry dir prefix acc e =
  match child_of dir prefix e with
  | None => acc
  | Some (name, real) =>
      match acc.1 !! name with
      | Some at_ => if real : bool then (acc.1, <[at_ := e]> acc.2) else acc
      | None => (<[name := length acc.2]> acc.1, acc.2 ++ [if real then e else placeholder (prefix ++ name)])
      end
  end.
Proof.
  unfold list_entry, child_of. destruct acc as [seen out], (rest_of prefix e) as [rest|]; [|done]. cbn [mbind option_bind fst snd].
  destruct (_ || _); [done|]. by destruct (before_slash rest).
Qed.

Lemma listed_snoc_nothing dir prefix es acc e : child_of dir prefix e = None → listed dir prefix es acc → listed dir prefix (es ++ [e]) acc.
Proof.
  intros E []. split; [done|done|..].
  - intros o Ho. destruct (li_from0 o Ho) as (e' & name & real & He & H). exists e', name, real. split; [set_solver|done].
  - intros e' name real [He| ->%list_elem_of_singleton]%elem_of_app; [by eauto|congruence].
  - intros e' name [He| ->%list_elem_of_singleton]%elem_of_app; [|congruence]. intros H. destruct (li_real0 e' name He H) as (o & Ho & H1 & H2).
    exists o. split_and!; [set_solver|done..].
Qed.

Lemma elem_of_insert_at {A} (l : list A) i x y : y ∈ <[i:=x]> l → y = x ∨ y ∈ l.
Proof. intros [j Hj]%list_elem_of_lookup. apply list_lookup_insert_Some in Hj as [(_ & <- & _)|[_ Hj]]; [by left|right; by eapply list_elem_of_lookup_2]. Qed.

Lemma listed_replace dir prefix es seen out e name at_ : child_of dir prefix e = Some (name, true) → seen !! name = Some at_ →
  listed dir prefix es (seen, out) → listed dir prefix (es ++ [e]) (seen, <[at_ := e]> out).
Proof.
  intros Ec Es []. cbn [fst snd] in *. pose proof (child_real _ _ _ _ Ec) as Ep. destruct (li_seen0 _ _ Es) as (o & Ho & Eo).
  assert (Hlt : (at_ < length out)%nat) by (by eapply lookup_lt_Some). split; cbn [fst snd].
  - intros name' i Hi. destruct (decide (i = at_)) as [->|Hne].
    + exists e. rewrite list_lookup_insert_eq by done. split; [done|]. destruct (li_seen0 _ _ Hi) as (o' & Ho' & Eo'). congruence.
    + rewrite list_lookup_insert_ne by done. by apply li_seen0.
  - intros i o' Hi. apply list_lookup_insert_Some in Hi as [(-> & <- & _)|[_ Hi]]; [by exists name|by apply li_out0].
  - intros o' [->|H]%elem_of_insert_at.
    + exists e, name, true. split_and!; [set_solver|done..].
    + destruct (li_from0 o' H) as (e' & n' & real & He & Hr). exists e', n', real. split; [set_solver|done].
  - intros e' name' real [He| ->%list_elem_of_singleton]%elem_of_app; [by eauto|]. rewrite Ec. intros [= <- <-]. by exists at_.
  - intros e' name' [He| ->%list_elem_of_singleton]%elem_of_app Hc.
    + destruct (li_real0 e' name' He Hc) as (o' & Hin & Ho' & Eo'). apply list_elem_of_lookup in Ho' as [i Hi].
      destruct (decide (i = at_)) as [->|Hne].
      * exists e. split_and!; [set_solver|apply list_elem_of_lookup; exists at_; by apply list_lookup_insert_eq|congruence].
      * exists o'. split_and!; [set_solver|apply list_elem_of_lookup; exists i; by rewrite list_lookup_insert_ne|done].
    + exists e. split_and!; [set_solver|apply list_elem_of_lookup; exists at_; by apply list_lookup_insert_eq|done].
Qed.

Lemma listed_add dir prefix es seen out e name real : child_of dir prefix e = Some (name, real) → seen !! name = None →
  listed dir prefix es (seen, out) →
  listed dir prefix (es ++ [e]) (<[name := length out]> seen, out ++ [if real then e else placeholder (prefix ++ name)]).
Proof.
  intros Ec Es []. cbn [fst snd] in *. set (o := if real then e else _).
  assert (Ep : e_path o = prefix ++ name) by (unfold o; destruct real; [by eapply child_real|done]).
  assert (Hold : ∀ n i, seen !! n = Some i → (i < length out)%nat).
  { intros n i Hi. destruct (li_seen0 n i Hi) as (o' & Ho' & _). by eapply lookup_lt_Some. }
  assert (Hn : o ∈ out ++ [o]) by set_solver.
  split; cbn [fst snd].
  - intros n i. destruct (decide (n = name)) as [->|Hne].
    + rewrite lookup_insert_eq. intros [= <-]. exists o. split; [by apply list_lookup_middle|done].
    + rewrite lookup_insert_ne by done. intros Hi. destruct (li_seen0 n i Hi) as (o' & Ho' & E). exists o'. by rewrite lookup_app_l by eauto.
  - intros i o' [Hi|[Hge Hi]]%lookup_app_Some.
    + destruct (li_out0 i o' Hi) as (n & E & Hs). exists n. split; [done|]. rewrite lookup_insert_ne; [done|]. intros ->. congruence.
    + apply list_lookup_singleton_Some in Hi as [Hi <-]. exists name. split; [done|]. rewrite lookup_insert_eq. f_equal. lia.
  - intros o' [H| ->%list_elem_of_singleton]%elem_of_app.
    + destruct (li_from0 o' H) as (e' & n' & r & He & Hr). exists e', n', r. split; [set_solver|done].
    + exists e, name, real. split_and!; [set_solver|done..].
  - intros e' n r [He| ->%list_elem_of_singleton]%elem_of_app Hc.
    + destruct (decide (n = name)) as [->|]; [by rewrite lookup_insert_eq|]. rewrite lookup_insert_ne by done. by eapply li_child0.
    + assert (n = name) as -> by congruence. by rewrite lookup_insert_eq.
  - intros e' n [He| ->%list_elem_of_singleton]%elem_of_app Hc.
    + destruct (li_real0 e' n He Hc) as (o' & H1 & H2 & H3). exists o'. set_solver.
    + assert (real = true) as -> by congruence. exists e. split_and!; [set_solver|exact Hn|done].
Qed.

Lemma list_entry_listed dir prefix es acc e : listed dir prefix es acc → listed dir prefix (es ++ [e]) (list_entry dir prefix acc e).
Proof.
  intros H. rewrite list_entry_spec. destruct (child_of dir prefix e) as [[name real]|] eqn:Ec; [|by apply listed_snoc_nothing].
  destruct acc as [seen out]. cbn [fst snd]. destruct (seen !! name) as [at_|] eqn:Es; [|by apply listed_add].
  destruct real; [by eapply listed_replace|]. destruct H. split; [done|done|..].
  - intros o Ho. destruct (li_from0 o Ho) as (e' & n & r & He & Hr). exists e', n, r. split; [set_solver|done].
  - intros e' n r [He| ->%list_elem_of_singleton]%elem_of_app Hc; [by eauto|]. assert (n = name) as -> by congruence. by exists at_.
  - intros e' n [He| ->%list_elem_of_singleton]%elem_of_app Hc; [|congruence]. destruct (li_real0 e' n He Hc) as (o & H1 & H2). exists o. set_solver.
Qed.

Lemma listing_listed dir prefix es : listed dir prefix es (fold_left (list_entry dir prefix) es (∅, [])).
Proof.
  enough (H : ∀ js seen acc, listed dir prefix seen acc → listed dir prefix (seen ++ js) (fold_left (list_entry dir prefix) js acc)).
  { apply (H es [] (∅, [])). split; cbn [fst snd]; try (by intros ?? H'; rewrite lookup_empty in H'); try (intros * Hx; by apply elem_of_nil in Hx).
    intros i o Hi. by rewrite lookup_nil in Hi. }
  induction js as [|j js IH]; intros seen acc Ha; cbn [fold_left]; [by rewrite app_nil_r|].
  replace (seen ++ j :: js) with ((seen ++ [j]) ++ js) by (by rewrite <- app_assoc). by apply IH, list_entry_listed.
Qed.

Definition folder (dir : bytes) : bytes := Trim_slashes (normalizePath dir).
Definition prefix_of (dir : bytes) : bytes := if str_eqb (folder dir) [] then [] else folder dir ++ [slash].

Section children.
Context (ToLower : bytes → bytes).

Lemma elem_of_Children es dir o :
  o ∈ Children ToLower es dir ↔ o ∈ (fold_left (list_entry (folder dir) (prefix_of dir)) es (∅, [])).2.
Proof. unfold Children, sortEntries. by rewrite elem_of_sort_by. Qed.

(** A folder lists each immediate child once. *)
Lemma Children_once es dir : NoDup (map e_path (Children ToLower es dir)).
Proof.
  pose proof (listing_listed (folder dir) (prefix_of dir) es) as []. unfold Children, sortEntries. rewrite sort_by_perm.
  fold (folder dir) (prefix_of dir). set (out := (fold_left _ _ _).2) in *. apply NoDup_alt. intros i j p Hi Hj.
  apply list_lookup_fmap_Some in Hi as (o & -> & Hi). apply list_lookup_fmap_Some in Hj as (o' & E & Hj).
  destruct (li_out0 i o Hi) as (n & En & Hn). destruct (li_out0 j o' Hj) as (n' & En' & Hn').
  rewrite En, En' in E. apply app_inv_head in E as <-. congruence.
Qed.

(** What a folder lists: the entries of the index that are its immediate
    children, and a folder for every name below which there is an entry. *)
Lemma Children_paths es dir p :
  p ∈ map e_path (Children ToLower es dir) ↔
  ∃ e name real, e ∈ es ∧ child_of (folder dir) (prefix_of dir) e = Some (name, real) ∧ p = prefix_of dir ++ name.
Proof.
  pose proof (listing_listed (folder dir) (prefix_of dir) es) as []. rewrite list_elem_of_fmap. split.
  - intros (o & -> & Ho%elem_of_Children). destruct (li_from0 o Ho) as (e & name & real & He & Hc & Ep & _). by exists e, name, real.
  - intros (e & name & real & He & Hc & ->). destruct (li_child0 e name real He Hc) as [i Hi].
    destruct (li_seen0 name i Hi) as (o & Ho & E). exists o. split; [done|]. apply elem_of_Children. by eapply list_elem_of_lookup_2.
Qed.

Lemma Children_file es dir o : o ∈ Children ToLower es dir → e_dir o = false → o ∈ es.
Proof.
  pose proof (listing_listed (folder dir) (prefix_of dir) es) as []. intros Ho%elem_of_Children Hd.
  destruct (li_from0 o Ho) as (e & name & [] & He & _ & _ & ->); [done|discriminate].
Qed.

(** An entry of the index is listed as it is in its folder. *)
Lemma Children_real es dir e name : NoDup (map e_path es) → e ∈ es → child_of (folder dir) (prefix_of dir) e = Some (name, true) →
  e ∈ Children ToLower es dir.
Proof.
  intros Hn He Hc. pose proof (listing_listed (folder dir) (prefix_of dir) es) as []. destruct (li_real0 e name He Hc) as (o & H1 & H2 & E).
  apply elem_of_Children. replace e with o; [done|].
  apply list_elem_of_lookup in H1 as [i Hi], He as [j Hj]. assert (i = j) as ->; [|congruence].
  eapply (NoDup_lookup _ i j (e_path e) Hn); rewrite list_lookup_fmap_Some; eauto.
Qed.

Lemma Search_file es query limit o : o ∈ Search ToLower es query limit → o ∈ es ∧ e_dir o = false.
Proof.
  unfold Search. destruct (str_eqb _ []); [by intros H%elem_of_nil|]. unfold sortEntries. rewrite elem_of_sort_by.
  intros H%elem_of_take. destruct H as (i & Hi & _). apply list_elem_of_lookup_2, list_elem_of_In, filter_In in Hi as [Hin Hm].
  split; [by apply list_elem_of_In|]. unfold matches in Hm. by destruct (e_dir o).
Qed.

(** ** Every file listed can be downloaded *)

(** The paths of an index are its own: none occurs twice, none is taken for a
    Windows path, none is blank. *)
Definition plain (es : list Entry) : Prop :=
  NoDup (map e_path es) ∧ Forall (λ e, normal (e_path e) ∧ drive_like (e_path e) = false ∧ TrimSpace (e_path e) ≠ []) es.

Lemma Find_own es e : NoDup (map e_path es) → e ∈ es → normalizePath (e_path e) = e_path e → Find es (e_path e) = Some e.
Proof.
  intros Hn He E. unfold Find. rewrite E. induction es as [|x es IH]; [by apply elem_of_nil in He|].
  cbn [map] in Hn. apply NoDup_cons in Hn as [Hx Hn]. cbn [List.find]. apply elem_of_cons in He as [->|He].
  - by rewrite (proj2 (str_eqb_true _ _) eq_refl).
  - destruct (str_eqb (e_path x) (e_path e)) eqn:Ex; [|by apply IH]. apply str_eqb_true in Ex. exfalso. apply Hx. rewrite Ex.
    apply list_elem_of_fmap. by exists e.
Qed.

Lemma listed_file idx search dir limit r e : handleBrowseBackup ToLower (Some idx) search dir limit = Some r →
  e ∈ bl_entries r → e_dir e = false → e ∈ ix_entries idx.
Proof.
  cbn [handleBrowseBackup mbind option_bind]. intros [= <-]. destruct (str_eqb _ []); cbn [bl_entries].
  - apply Children_file.
  - intros H _. by apply Search_file in H as [H _].
Qed.

Lemma listed_downloads idx search dir limit r e : plain (ix_entries idx) → handleBrowseBackup ToLower (Some idx) search dir limit = Some r →
  e ∈ bl_entries r → e_dir e = false → handleDownloadBackupFile (Some idx) (e_path e) = Some e.
Proof.
  intros [Hn Hp] Hr He Hd. assert (Hin : e ∈ ix_entries idx) by (by eapply listed_file). rewrite Forall_forall in Hp.
  destruct (Hp e Hin) as (H1 & H2 & H3). unfold handleDownloadBackupFile. rewrite (proj2 (str_eqb_false _ _) H3). cbn [mbind option_bind].
  rewrite (Find_own _ e) by (try done; by apply normalizePath_fixed). cbn [mbind option_bind]. by rewrite Hd.
Qed.
End children.

(** ** Indexes *)

Definition normal_entry (e : Entry) : Prop := normal (e_path e) ∧ e_path e ≠ [].

Lemma IndexTar_from_ok stream headers broken entries r : Forall normal_entry entries → Z.of_nat (length entries) < MaxIndexEntries →
  IndexTar_from stream headers broken entries = Some r →
  Forall normal_entry r.1 ∧ Z.of_nat (length r.1) <= MaxIndexEntries ∧ (r.2 = false → Z.of_nat (length r.1) < MaxIndexEntries).
Proof.
  revert entries. induction headers as [|h headers IH]; intros entries Hf Hl; cbn [IndexTar_from].
  - destruct broken; [destruct (is_nil entries); [done|]|]; intros [= <-]; cbn [fst snd]; split_and!; (done || lia).
  - destruct (str_eqb (normalizePath (h_name h)) []) eqn:En; [by apply IH|]. apply str_eqb_false in En.
    assert (Hf' : Forall normal_entry (entries ++ [entry_of stream h (normalizePath (h_name h))])).
    { apply Forall_app. split; [done|]. apply Forall_singleton. split; [apply normalizePath_normal|done]. }
    destruct (Z.leb_spec MaxIndexEntries (Z.of_nat (length (entries ++ [entry_of stream h (normalizePath (h_name h))])))) as [Hm|Hm].
    + intros [= <-]. cbn [fst snd]. split_and!; [done| |done]. rewrite length_app in *. cbn [length] in *. lia.
    + by apply IH.
Qed.

(** Whatever the archive calls its members, no path of an index climbs out of it,
    and no stream adds more than the cap. *)
Lemma BrowseIndex_normal streams idx : BrowseIndex streams = Some idx →
  Forall normal_entry (ix_entries idx) ∧ Z.of_nat (length (ix_entries idx)) <= MaxIndexEntries * Z.of_nat (length streams).
Proof.
  unfold BrowseIndex.
  enough (H : ∀ ss k acc, (∀ i, acc = Some i → Forall normal_entry (ix_entries i) ∧ Z.of_nat (length (ix_entries i)) <= MaxIndexEntries * k) →
            fold_left add_stream ss acc = Some idx →
            Forall normal_entry (ix_entries idx) ∧ Z.of_nat (length (ix_entries idx)) <= MaxIndexEntries * (k + Z.of_nat (length ss))).
  { intros E. apply (H streams 0 _) in E; [done|]. intros i [= <-]. by split; [constructor|]. }
  induction ss as [|s ss IH]; intros k acc Ha; cbn [fold_left].
  - intros E. rewrite Z.add_0_r. by apply Ha.
  - intros E. replace (k + Z.of_nat (length (s :: ss))) with (k + 1 + Z.of_nat (length ss)) by (cbn [length]; lia).
    eapply IH; [|exact E]. intros i Ei. unfold add_stream in Ei. destruct acc as [idx0|]; [|done]. cbn [mbind option_bind] in Ei.
    destruct (IndexTar s.1.1 s.1.2 s.2) as [[entries truncated]|] eqn:Et; [|done]. injection Ei as <-. cbn [ix_entries].
    destruct (Ha idx0 eq_refl) as [Hf Hl]. apply IndexTar_from_ok in Et as (Hf' & Hl' & _); [|constructor|done]. cbn [fst] in *.
    split; [by apply Forall_app|]. rewrite length_app. lia.
Qed.

(** ** Details *)

Definition file_of (stream path : bytes) (size : Z) : Entry := mkEntry path size 0 0 false [] stream 0.

(** A file whose name has a colon in second place is listed, and not found: its
    colon is taken for a drive's when it is asked for. *)
Lemma colon_not_found :
  let idx := mkIndex [file_of (u "data") (u "a:notes") 5] false in
  (e_path <$> Children id (ix_entries idx) [] ) = [u "a:notes"] ∧ handleDownloadBackupFile (Some idx) (u "a:notes") = None.
Proof. split; vm_compute; reflexivity. Qed.

(** Of two members with one path the listing shows the last, and a download
    streams the first. *)
Lemma another_version_downloaded :
  let idx := mkIndex [file_of (u "data") (u "etc/conf") 5; file_of (u "data") (u "etc/conf") 9] false in
  (e_size <$> Children id (ix_entries idx) (u "etc")) = [9] ∧ (e_size <$> handleDownloadBackupFile (Some idx) (u "etc/conf")) = Some 5.
Proof. split; vm_compute; reflexivity. Qed.

(** A search never finds a file the index leaves out, and never says the index
    was cut short. *)
Lemma search_hides_truncation (ToLower : bytes → bytes) idx query dir limit r : TrimSpace query ≠ [] →
  handleBrowseBackup ToLower (Some idx) query dir limit = Some r →
  bl_truncated r = false ∧ ∀ e, e ∈ bl_entries r → e ∈ ix_entries idx.
Proof.
  intros Hq. cbn [handleBrowseBackup mbind option_bind]. rewrite (proj2 (str_eqb_false _ _) Hq). intros [= <-]. split; [done|].
  cbn [bl_entries]. intros e He. by apply Search_file in He as [H _].
Qed.
