(* ===== verification/ServerAudit.v ===== *)
(** * The server's audit trail (internal/store/audit.go, internal/api/handlers_audit.go)

    The table of audit entries: appending, trimming and reading it.  Every
    statement may fail; an append that fails is logged and never fails the
    operation it describes. *)
From S2P Require Import Prelude JsString JsNumber JsValue GoString Accounts.

Record GoAudit := mkGoAudit {
  ga_id : Z; ga_at : Z; ga_actor : bytes; ga_actorID : Z; ga_action : bytes; ga_objectKind : bytes; ga_objectID : bytes;
  ga_objectName : bytes; ga_result : bytes; ga_sourceIP : bytes; ga_detail : bytes;
}.

Definition AuditRetention : Z := 50000.
Definition AuditOK : bytes := u "ok".
Definition AuditDenied : bytes := u "denied".
Definition AuditError : bytes := u "error".
Definition DefaultAuditLimit : Z := 100.
Definition MaxAuditLimit : Z := 1000.

(** [audit_log] in the order of its ids, and the id SQLite gave last. *)
Record AuditTable := mkAuditTable { at_rows : list GoAudit; at_last : Z }.
Definition noAudit : AuditTable := mkAuditTable [] 0.

(** What a caller records; the time is the current one when it names none. *)
Record AuditEvent := mkEvent {
  ev_at : option Z; ev_actor : bytes; ev_actorID : Z; ev_action : bytes; ev_objectKind : bytes; ev_objectID : bytes;
  ev_objectName : bytes; ev_result : bytes; ev_sourceIP : bytes; ev_detail : bytes;
}.

Definition row_of_event (now id : Z) (e : AuditEvent) : GoAudit :=
  mkGoAudit id (default now (ev_at e)) (ev_actor e) (ev_actorID e) (ev_action e) (ev_objectKind e) (ev_objectID e) (ev_objectName e)
    (if str_eqb (ev_result e) [] then AuditOK else ev_result e) (ev_sourceIP e) (ev_detail e).

(** [inserted] and [trimmed] say which statements succeed. *)
Definition AppendAudit (now : Z) (inserted trimmed : bool) (e : AuditEvent) (t : AuditTable) : AuditTable :=
  if str_eqb (ev_action e) [] then t
  else if negb inserted then t
  else
    let id := at_last t + 1 in
    let t := mkAuditTable (at_rows t ++ [row_of_event now id e]) id in
    let cutoff := id - AuditRetention in
    if (0 <? AuditRetention) && (0 <? cutoff) && trimmed
    then mkAuditTable (List.filter (λ r, cutoff <? ga_id r) (at_rows t)) id
    else t.

(** [audit]: who did it is the user of the request, unless the caller says. *)
Definition audit (now : Z) (user : option (bytes * Z)) (clientIP : bytes) (inserted trimmed : bool) (e : AuditEvent) (t : AuditTable) : AuditTable :=
  let '(actor, actorID) :=
    if str_eqb (ev_actor e) [] && (ev_actorID e =? 0) then match user with Some u => u | None => (ev_actor e, ev_actorID e) end
    else (ev_actor e, ev_actorID e) in
  AppendAudit now inserted trimmed
    (mkEvent (ev_at e) actor actorID (ev_action e) (ev_objectKind e) (ev_objectID e) (ev_objectName e) (ev_result e)
       (if str_eqb (ev_sourceIP e) [] then clientIP else ev_sourceIP e) (ev_detail e)) t.

(** ** Reading *)

Record AuditFilter := mkAuditFilter { af_limit : Z; af_action : bytes; af_actor : bytes }.

Definition selected (f : AuditFilter) (r : GoAudit) : bool :=
  let action := TrimSpace (af_action f) in
  let actor := TrimSpace (af_actor f) in
  (if str_eqb action [] then true else str_eqb (ga_action r) action) && (if str_eqb actor [] then true else str_eqb (ga_actor r) actor).

(** [ORDER BY id DESC LIMIT ?]. *)
Definition AuditEntries (f : AuditFilter) (t : AuditTable) : list GoAudit :=
  let limit := if af_limit f <=? 0 then DefaultAuditLimit else af_limit f in
  let limit := if MaxAuditLimit <? limit then MaxAuditLimit else limit in
  take (Z.to_nat limit) (List.filter (selected f) (rev (at_rows t))).

(** The handler, on the text of its parameters; [None] is the 400. *)
Definition handleListAudit (limit action actor : bytes) (t : AuditTable) : option (list GoAudit) :=
  let raw := TrimSpace limit in
  n ← if str_eqb raw [] then Some 0 else match ParseInt raw with Some n => if n <? 1 then None else Some n | None => None end;
  Some (AuditEntries (mkAuditFilter n (TrimSpace action) (TrimSpace actor)) t).

(** ** The trail *)

(** A table, and every entry ever recorded in it, oldest first. *)
Inductive trail : AuditTable → list GoAudit → Prop :=
  | trail_new : trail noAudit []
  | trail_append now inserted trimmed e t all : trail t all →
      trail (AppendAudit now inserted trimmed e t)
        (all ++ if str_eqb (ev_action e) [] || negb inserted then [] else [row_of_event now (at_last t + 1) e]).

(** Ids count the entries from [o]. *)
Definition numbered (o : Z) (l : list GoAudit) : Prop := ∀ i r, l !! i = Some r → ga_id r = o + Z.of_nat i + 1.

Lemma numbered_tail o r l : numbered o (r :: l) → ga_id r = o + 1 ∧ numbered (o + 1) l.
Proof. intros H. split; [rewrite (H 0%nat r) by done; lia|]. intros i x Hi. rewrite (H (S i) x) by done. lia. Qed.

Lemma filter_numbered c o l : numbered o l → List.filter (λ r, c <? ga_id r) l = drop (Z.to_nat (c - o)) l.
Proof.
  revert o. induction l as [|r l IH]; intros o H; [by rewrite drop_nil|]. apply numbered_tail in H as [Hr Hl]. cbn [List.filter].
  rewrite Hr, (IH (o + 1) Hl). destruct (Z.ltb_spec c (o + 1)).
  - replace (Z.to_nat (c - o)) with 0%nat by lia. replace (Z.to_nat (c - (o + 1))) with 0%nat by lia. done.
  - replace (Z.to_nat (c - o)) with (S (Z.to_nat (c - (o + 1)))) by lia. done.
Qed.

Lemma numbered_drop k l : numbered 0 l → numbered (Z.of_nat k) (drop k l).
Proof. intros H i r Hi. rewrite lookup_drop in Hi. rewrite (H _ _ Hi). lia. Qed.

(** The table is what was recorded less its oldest entries, and never lacks one
    of the newest [AuditRetention]; it holds no more than those once a trim
    succeeds. *)
Definition keeps_newest (t : AuditTable) (all : list GoAudit) : Prop :=
  at_last t = Z.of_nat (length all) ∧ numbered 0 all ∧
  ∃ k, at_rows t = drop k all ∧ Z.of_nat k <= Z.max 0 (Z.of_nat (length all) - AuditRetention).

Lemma trail_keeps_newest t all : trail t all → keeps_newest t all.
Proof.
  induction 1 as [|now inserted trimmed e t all _ (El & Hn & k & Er & Hk)].
  { split; [done|]. split; [by intros i r Hi|]. exists 0%nat. split; [done|]. unfold AuditRetention. cbn [length]. lia. }
  unfold AppendAudit. destruct (str_eqb (ev_action e) []); cbn [orb]; [rewrite app_nil_r; by split_and!; [| |exists k]|].
  destruct inserted; cbn [negb]; [|rewrite app_nil_r; by split_and!; [| |exists k]].
  set (row := row_of_event now (at_last t + 1) e).
  assert (Hn' : numbered 0 (all ++ [row])).
  { intros i r [Hi|[Hge Hi]]%lookup_app_Some; [by apply Hn|]. apply list_lookup_singleton_Some in Hi as [Hi <-]. cbn [row row_of_event ga_id].
    rewrite El. lia. }
  assert (Ekd : at_rows t ++ [row] = drop k (all ++ [row])).
  { rewrite Er. unfold AuditRetention in Hk. rewrite drop_app_le by lia. done. }
  assert (Elast : at_last t + 1 = Z.of_nat (length (all ++ [row]))) by (rewrite length_app; cbn [length]; lia).
  destruct ((0 <? AuditRetention) && _ && trimmed) eqn:Et; (split_and!; [exact Elast|exact Hn'|]).
  - exists (k + Z.to_nat (at_last t + 1 - AuditRetention - Z.of_nat k))%nat. cbn [at_rows]. apply andb_true_iff in Et as [[_ Hc]%andb_true_iff _].
    apply Z.ltb_lt in Hc. rewrite Ekd, (filter_numbered _ (Z.of_nat k)) by (by apply numbered_drop). rewrite drop_drop. split; [done|].
    unfold AuditRetention in *. rewrite length_app in *. cbn [length] in *. lia.
  - exists k. split; [exact Ekd|]. unfold AuditRetention in *. rewrite length_app in *. cbn [length] in *. lia.
Qed.

(** A trim that succeeds leaves exactly the newest. *)
Lemma trimmed_exact now e t all : trail t all → ev_action e ≠ [] →
  Z.of_nat (length (at_rows (AppendAudit now true true e t))) = Z.min AuditRetention (Z.of_nat (length all) + 1).
Proof.
  intros Ht Ha. pose proof (trail_keeps_newest _ _ Ht) as (El & Hn & k & Er & Hk).
  pose proof (trail_keeps_newest _ _ (trail_append now true true e t all Ht)) as (_ & Hn' & _).
  unfold AppendAudit. rewrite (proj2 (str_eqb_false _ _) Ha) in *. cbn [negb orb] in *. set (row := row_of_event now (at_last t + 1) e) in *.
  assert (Ekd : at_rows t ++ [row] = drop k (all ++ [row])).
  { rewrite Er. unfold AuditRetention in Hk. rewrite drop_app_le by lia. done. }
  destruct (Z.ltb_spec 0 (at_last t + 1 - AuditRetention)) as [Hc|Hc]; cbn [at_rows andb].
  - change (0 <? AuditRetention) with true. cbn [andb at_rows]. rewrite Ekd, (filter_numbered _ (Z.of_nat k)) by (by apply numbered_drop).
    rewrite drop_drop, length_drop, length_app. cbn [length]. unfold AuditRetention in *. lia.
  - rewrite andb_false_r. cbn [andb at_rows]. rewrite Ekd, length_drop, length_app. cbn [length]. unfold AuditRetention in *. lia.
Qed.

(** Five thousand entries cannot be had: a page is capped. *)
Lemma entries_capped f t : Z.of_nat (length (AuditEntries f t)) <= MaxAuditLimit.
Proof.
  unfold AuditEntries, MaxAuditLimit. rewrite length_take.
  destruct (af_limit f <=? 0); repeat case_match; b2p; unfold DefaultAuditLimit in *; lia.
Qed.
