(* ===== verification/AuditPage.v ===== *)
(** * The audit page (web/src/pages/AuditPage.tsx)

    The trail of every change, its staged filters and what each row says, with
    the server's trail (ServerAudit) behind it. *)
From S2P Require Import Prelude JsString JsNumber JsValue GoString ServerSchedule Accounts Transport Format Backups Ui Inventory Endpoints Widgets ServerPosture ServerAudit.

Definition LIMITS : list Z := [100; 250; 500; 1000; 5000].
Definition DEFAULT_LIMIT : Z := 250.

Definition toneForResult (result : jsstr) : PillTone :=
  if str_eqb result (u "ok") then ToneOk else if str_eqb result (u "denied") then ToneFail
  else if str_eqb result (u "error") then ToneWarn else ToneNeutral.

(** [action.replace(/[._]/g, ' · ')]. *)
Definition actionText (action : jsstr) : jsstr :=
  if str_eqb action [] then u "—" else concat (map (λ c, if N.eqb c 46 || N.eqb c 95 then u " · " else [c]) action).

(** ** The page *)

(** The filters applied are the identity of the loader. *)
Record AuditQuery := mkAuditQuery { aq_limit : Z; aq_action : jsstr; aq_actor : jsstr }.
#[export] Instance AuditQuery_eq_dec : EqDecision AuditQuery.
Proof. solve_decision. Defined.

Record AuditState := mkAuditState { ap_async : Async (list AuditEntry) AuditQuery; ap_actionDraft : jsstr; ap_actorDraft : jsstr }.

Inductive AuditMsg :=
  | AuAction (text : jsstr) | AuActor (text : jsstr) | AuLimit (n : Z) | AuApply | AuClear | AuReload
  | AuAnswer (i : nat) (answer : list AuditEntry + Thrown).

Definition mountAudit : AuditState := mkAuditState (mountAsync (mkAuditQuery DEFAULT_LIMIT [] [])) [] [].

Definition entries (s : AuditState) : list AuditEntry := default [] (as_data (ap_async s)).
Definition applied (s : AuditState) : AuditQuery := as_loader (ap_async s).
Definition is_filtered (s : AuditState) : bool := negb (str_eqb (aq_action (applied s)) []) || negb (str_eqb (aq_actor (applied s)) []).
Definition is_denied (e : AuditEntry) : bool := str_eqb (au_result e) (u "denied").
Definition denied_count (s : AuditState) : Z := Z.of_nat (length (List.filter is_denied (entries s))).

(** [[...new Set(…filter(Boolean))].sort()]. *)
Definition suggestions (field : AuditEntry → jsstr) (s : AuditState) : list jsstr :=
  sort_by (λ a b, negb (bytes_ltb b a)) (dedup (List.filter (λ t, negb (str_eqb t [])) (map field (entries s)))).
Definition actionOptions : AuditState → list jsstr := suggestions au_action.
Definition actorOptions : AuditState → list jsstr := suggestions au_actor.

(** What [loader] asks for. *)
Definition audit_request (q : AuditQuery) : option Request :=
  listAudit (Some (aq_limit q)) (present (Some (aq_action q))) (present (Some (aq_actor q))).

Section page.
Context (engineText : jsstr).

(** The loader is another only when a filter changed. *)
Definition with_query (q : AuditQuery) (a : Async (list AuditEntry) AuditQuery) :=
  if bool_decide (q = as_loader a) then a else async_step engineText a (NewLoader q).

Definition audit_step (s : AuditState) (m : AuditMsg) : AuditState :=
  let q := applied s in
  match m with
  | AuAction text => mkAuditState (ap_async s) text (ap_actorDraft s)
  | AuActor text => mkAuditState (ap_async s) (ap_actionDraft s) text
  | AuLimit n => mkAuditState (with_query (mkAuditQuery n (aq_action q) (aq_actor q)) (ap_async s)) (ap_actionDraft s) (ap_actorDraft s)
  | AuApply =>
      mkAuditState (with_query (mkAuditQuery (aq_limit q) (trim (ap_actionDraft s)) (trim (ap_actorDraft s))) (ap_async s))
        (ap_actionDraft s) (ap_actorDraft s)
  | AuClear => mkAuditState (with_query (mkAuditQuery (aq_limit q) [] []) (ap_async s)) [] []
  | AuReload => mkAuditState (async_step engineText (ap_async s) Reload) (ap_actionDraft s) (ap_actorDraft s)
  | AuAnswer i answer => mkAuditState (async_step engineText (ap_async s) (Settled i answer)) (ap_actionDraft s) (ap_actorDraft s)
  end.

(** Refresh is off while reading; the button of an empty trail is not. *)
Definition reload_offered (s : AuditState) : bool :=
  negb (as_loading (ap_async s)) || (negb (is_none (as_data (ap_async s))) && is_nil (entries s) && negb (is_filtered s)).

(** [answers] is what the server may say to a query; [calm] limits the sessions
    to those where the answers come in the order they were asked for, and none
    is a failure. *)
Definition audit_offered (answers : AuditQuery → list AuditEntry → Prop) (calm : bool) (s : AuditState) (m : AuditMsg) : Prop :=
  match m with
  | AuAction _ | AuActor _ | AuApply => True
  | AuLimit n => n ∈ LIMITS
  | AuClear => is_filtered s = true
  | AuReload => reload_offered s = true
  | AuAnswer i answer =>
      ∃ q, as_pending (ap_async s) !! i = Some q ∧
        match answer with inl data => answers q data | inr _ => calm = false end ∧ (calm = true → i = 0%nat)
  end.

Inductive audit_run answers (calm : bool) : AuditState → Prop :=
  | audit_mount : audit_run answers calm mountAudit
  | audit_next s m : audit_run answers calm s → audit_offered answers calm s m → audit_run answers calm (audit_step s m).
End page.

(** ** What is drawn *)

Record AuditRowView := mkAuditRow {
  ar_when : jsstr * jsstr; ar_actor : jsstr; ar_action : jsstr; ar_object : jsstr; ar_result : PillTone * jsstr * bool;
  ar_denied : bool; ar_errored : bool; ar_ip : jsstr; ar_detail : option jsstr;
}.

Inductive AuditBody :=
  | AuditSkeleton | AuditFailed (message : jsstr) | AuditEmpty (title description : jsstr) (clear : bool)
  | AuditTable_ (subtitle : jsstr) (rows : list AuditRowView).

Section view.
Context (relative absolute : jsstr → jsstr).

(** [relative] and [absolute] are [formatRelative] and [formatDateTime] at the
    moment of drawing. *)
Definition AuditRow (e : AuditEntry) : AuditRowView :=
  mkAuditRow (relative (au_at e), absolute (au_at e)) (or_else (au_actor e) (u "—")) (actionText (au_action e)) (auditObjectText e)
    (StatusPill (toneForResult (au_result e)) (or_else (au_result e) (u "unknown")) false) (is_denied e)
    (str_eqb (au_result e) (u "error")) (or_else (au_sourceIP e) (u "—")) (present (Some (au_detail e))).

Definition audit_subtitle (s : AuditState) : jsstr :=
  let n := str_of_Z (Z.of_nat (length (entries s))) in
  if 0 <? denied_count s then cat [n; u " entries · "; str_of_Z (denied_count s); u " refused because of the actor's role"]
  else cat [n; u " entries · none refused"].

Definition audit_body (s : AuditState) : AuditBody :=
  let a := ap_async s in
  if as_loading a && is_none (as_data a) then AuditSkeleton
  else match (if is_none (as_data a) then present (as_error a) else None) with
       | Some e => AuditFailed e
       | None =>
           if is_nil (entries s) then
             if is_filtered s then
               AuditEmpty (u "Nothing matches these filters") (u "No entry matches this action and actor. Clear the filters to see the whole trail.") true
             else
               AuditEmpty (u "Nothing recorded yet")
                 (u "The trail fills as people sign in and change things. An empty trail on a running server means nothing has been changed since it was installed.") false
           else AuditTable_ (audit_subtitle s) (map AuditRow (entries s))
       end.
End view.

(** ** With the server behind it *)

Section served.
Context (rfc3339 : Z → jsstr).

(** The encoding of [store.AuditEntry]. *)
Definition audit_val (r : GoAudit) : jsval :=
  VObj [ (u "id", int_val (ga_id r)); (u "at", time_val rfc3339 (ga_at r)); (u "actor", text_val (ga_actor r));
         (u "actorId", int_val (ga_actorID r)); (u "action", text_val (ga_action r)); (u "objectKind", text_val (ga_objectKind r));
         (u "objectId", text_val (ga_objectID r)); (u "objectName", text_val (ga_objectName r)); (u "result", text_val (ga_result r));
         (u "sourceIp", text_val (ga_sourceIP r)); (u "detail", text_val (ga_detail r)) ].

(** The entry the page makes of it. *)
Definition client_audit (r : GoAudit) : AuditEntry :=
  mkAudit (IdNum (rnd (QArith_base.inject_Z (ga_id r)))) (rfc3339 (ga_at r)) (utf8_to_utf16 (ga_actor r)) (int_val (ga_actorID r))
    (utf8_to_utf16 (ga_action r)) (utf8_to_utf16 (ga_objectKind r)) (text_val (ga_objectID r)) (utf8_to_utf16 (ga_objectName r))
    (or_else (utf8_to_utf16 (ga_result r)) (u "ok")) (utf8_to_utf16 (ga_sourceIP r)) (utf8_to_utf16 (ga_detail r)).

Lemma textOf_none raw keys : Forall (λ k, get raw k = VUndef) keys → textOf raw keys = [].
Proof. induction 1 as [|k keys Hk _ IH]; [done|]. cbn [textOf]. by rewrite Hk. Qed.

Lemma textOf_one raw before key after s : Forall (λ k, get raw k = VUndef) before → get raw key = VStr s →
  Forall (λ k, get raw k = VUndef) after → textOf raw (before ++ key :: after) = s.
Proof.
  induction 1 as [|k before Hk _ IH]; intros Hs Ha; cbn [app textOf].
  - rewrite Hs, (textOf_none _ _ Ha). destruct (str_eqb s []) eqn:E; [by apply str_eqb_true in E|done].
  - rewrite Hk. by apply IH.
Qed.

Ltac absent := repeat (apply List.Forall_cons; [cbn [get]; js_eval; reflexivity|]); apply List.Forall_nil.

Lemma row_arrives_audit r i : normaliseAuditEntry (audit_val r) i = client_audit r.
Proof.
  unfold normaliseAuditEntry, client_audit. set (o := audit_val r). change (is_object o) with true. cbv beta iota zeta.
  assert (Eid : get o "id" = int_val (ga_id r)) by (unfold o, audit_val; js_eval; done).
  assert (Ea : get o "actorId" = int_val (ga_actorID r)) by (unfold o, audit_val; js_eval; done).
  assert (Eo : get o "objectId" = text_val (ga_objectID r)) by (unfold o, audit_val; js_eval; done).
  rewrite Eid, Ea, Eo. cbn [coalesce is_nullish int_val text_val].
  f_equal.
  - refine (textOf_one o [] "at" ["timestamp"; "createdAt"]%string _ _ _ _); unfold o, audit_val; [absent| |absent]. js_eval. done.
  - refine (textOf_one o [] "actor" ["actorUsername"; "username"]%string _ _ _ _); unfold o, audit_val; [absent| |absent]. js_eval. done.
  - refine (textOf_one o [] "action" [] _ _ _ _); unfold o, audit_val; [absent| |absent]. js_eval. done.
  - refine (textOf_one o [] "objectKind" ["object_kind"]%string _ _ _ _); unfold o, audit_val; [absent| |absent]. js_eval. done.
  - refine (textOf_one o [] "objectName" ["object_name"]%string _ _ _ _); unfold o, audit_val; [absent| |absent]. js_eval. done.
  - f_equal. refine (textOf_one o [] "result" [] _ _ _ _); unfold o, audit_val; [absent| |absent]. js_eval. done.
  - refine (textOf_one o ["sourceIP"%string] "sourceIp" ["source_ip"; "ip"]%string _ _ _ _); unfold o, audit_val; [absent| |absent]. js_eval. done.
  - refine (textOf_one o [] "detail" ["details"]%string _ _ _ _); unfold o, audit_val; [absent| |absent]. js_eval. done.
Qed.

Lemma rows_arrive rows : listAudit_result (VArr (map audit_val rows)) = map client_audit rows.
Proof.
  unfold listAudit_result. generalize 0%nat. induction rows as [|r rows IH]; intros n; [done|].
  cbn [map length List.seq zip_with]. by rewrite row_arrives_audit, IH.
Qed.

(** What the server answers to a query, from the trail as it then is. *)
Definition trail_answers (q : AuditQuery) (data : list AuditEntry) : Prop :=
  ∃ t all rows, trail t all ∧
    handleListAudit (str_of_Z (aq_limit q)) (go_string (aq_action q)) (go_string (aq_actor q)) t = Some rows ∧
    data = listAudit_result (VArr (map audit_val rows)).

(** An entry the filters ask for. *)
Definition asked_for (q : AuditQuery) (r : GoAudit) : bool :=
  let action := TrimSpace (go_string (aq_action q)) in
  let actor := TrimSpace (go_string (aq_actor q)) in
  (str_eqb action [] || str_eqb (ga_action r) action) && (str_eqb actor [] || str_eqb (ga_actor r) actor).

Lemma answered_rows q data : aq_limit q ∈ LIMITS → trail_answers q data →
  ∃ t all, trail t all ∧
    data = map client_audit (take (Z.to_nat (Z.min (aq_limit q) MaxAuditLimit)) (List.filter (asked_for q) (rev (at_rows t)))).
Proof.
  intros Hl (t & all & rows & Ht & Hr & ->). exists t, all. split; [done|]. rewrite rows_arrive. f_equal.
  assert (Hb : 100 <= aq_limit q <= 5000).
  { unfold LIMITS in Hl. rewrite !elem_of_cons in Hl. destruct Hl as [E|[E|[E|[E|[E|Hl]]]]]; [lia..|by apply elem_of_nil in Hl]. }
  unfold handleListAudit in Hr.
  assert (Et : TrimSpace (str_of_Z (aq_limit q)) = str_of_Z (aq_limit q)).
  { apply word_TrimSpace. unfold str_of_Z. destruct (Z.ltb_spec (aq_limit q) 0); [lia|apply digits_word]. }
  assert (En : str_of_Z (aq_limit q) ≠ []).
  { unfold str_of_Z. destruct (Z.ltb_spec (aq_limit q) 0); [lia|]. apply digits_nonempty. }
  rewrite Et, (proj2 (str_eqb_false _ _) En), ParseInt_str in Hr by lia.
  destruct (Z.ltb_spec (aq_limit q) 1); [lia|]. cbn [mbind option_bind] in Hr. injection Hr as <-.
  unfold AuditEntries. cbn [af_limit]. destruct (Z.leb_spec (aq_limit q) 0); [lia|].
  replace (if MaxAuditLimit <? aq_limit q then MaxAuditLimit else aq_limit q) with (Z.min (aq_limit q) MaxAuditLimit)
    by (destruct (Z.ltb_spec MaxAuditLimit (aq_limit q)); lia).
  f_equal. apply List.filter_ext. intros r. unfold selected, asked_for. cbn [af_action af_actor]. rewrite !TrimSpace_idem.
  by destruct (str_eqb (TrimSpace (go_string (aq_action q))) []), (str_eqb (TrimSpace (go_string (aq_actor q))) []).
Qed.
End served.

(** ** The session *)

Section session.
Context (engineText : jsstr) (answers : AuditQuery → list AuditEntry → Prop).

(** The last read under way is for the filters applied; once none is, the page
    holds its answer. *)
Definition audit_ok (s : AuditState) : Prop :=
  let a := ap_async s in
  as_mounted a = true ∧ aq_limit (as_loader a) ∈ LIMITS ∧
  match last (as_pending a) with
  | Some q => q = as_loader a
  | None => ∃ data, as_data a = Some data ∧ answers (as_loader a) data ∧ as_error a = None ∧ as_loading a = false
  end.

Lemma with_query_ok q s : audit_ok s → aq_limit q ∈ LIMITS →
  audit_ok (mkAuditState (with_query engineText q (ap_async s)) (ap_actionDraft s) (ap_actorDraft s)).
Proof.
  intros (Hm & Hl & Hp) Hq. unfold with_query. case_bool_decide as E; [by split_and!|]. split_and!; [done|done|].
  cbn [ap_async async_step run_loader as_pending as_loader]. by rewrite last_snoc.
Qed.

Lemma audit_step_ok s m : audit_ok s → audit_offered answers true s m → audit_ok (audit_step engineText s m).
Proof.
  intros Hs Ho. pose proof Hs as (Hm & Hl & Hp). destruct m as [text|text|n| | | |i answer]; cbn [audit_step audit_offered] in *.
  - by split_and!.
  - by split_and!.
  - by apply (with_query_ok _ s).
  - by apply (with_query_ok _ s).
  - pose proof (with_query_ok (mkAuditQuery (aq_limit (applied s)) [] []) s Hs Hl) as H. by split_and!; destruct H as (? & ? & ?).
  - split_and!; [done|done|]. cbn [ap_async async_step run_loader as_pending as_loader]. by rewrite last_snoc.
  - destruct Ho as (q & Hq & Ha & Hi). rewrite (Hi eq_refl) in *. destruct answer as [data|err]; [|discriminate].
    unfold audit_ok. cbn [ap_async async_step]. rewrite Hm. cbn [as_mounted as_loader as_pending as_data as_error as_loading].
    destruct (as_pending (ap_async s)) as [|p ps] eqn:Ep; [done|]. cbn in Hq. injection Hq as ->. split_and!; [done|done|].
    change (delete 0%nat (q :: ps)) with ps. destruct ps as [|p' ps]; [cbn in Hp; subst q; by exists data|].
    rewrite last_cons_cons in Hp. destruct (last (p' :: ps)) eqn:El; [exact Hp|]. by apply last_None in El.
Qed.

Lemma audit_run_ok s : audit_run engineText answers true s → audit_ok s.
Proof.
  induction 1 as [|s m _ IH Ho]; [|by apply audit_step_ok]. split_and!; [done| |done].
  cbn. unfold DEFAULT_LIMIT, LIMITS. set_solver.
Qed.
End session.


(** A viewer tried to delete a host. *)
Definition probe : AuditEvent := mkEvent (Some 5) (u "kim") 2 (u "access.denied") (u "route") (u "/api/hosts/h1") [] AuditDenied (u "10.0.0.9") [].
Definition probed : AuditTable := AppendAudit 7 true true probe noAudit.
Definition at_time : Z → jsstr := λ _, u "2026-08-01T00:00:00Z".
Definition probed_rows : list AuditEntry := listAudit_result (VArr (map (audit_val at_time) (at_rows probed))).

Lemma probed_answers q : q = mkAuditQuery DEFAULT_LIMIT [] [] → trail_answers at_time q probed_rows.
Proof.
  intros ->. exists probed, (([] : list GoAudit) ++ [row_of_event 7 1 probe]), (at_rows probed). split; [exact (trail_append 7 true true probe noAudit [] trail_new)|].
  split; [vm_compute; reflexivity|reflexivity].
Qed.


(** ** Out of order, or with a failure *)

(** A filter applied while the first read is under way: its answer comes first,
    the first read's last, and the page shows the unfiltered trail under the
    filter. *)
Lemma stale_filter (answers : AuditQuery → list AuditEntry → Prop) old new :
  answers (mkAuditQuery DEFAULT_LIMIT [] []) old → answers (mkAuditQuery DEFAULT_LIMIT (u "user.create") []) new →
  ∃ s, audit_run [] answers false s ∧ as_pending (ap_async s) = [] ∧ aq_action (applied s) = u "user.create" ∧ entries s = old.
Proof.
  intros Ho Hn. set (s1 := audit_step [] mountAudit (AuAction (u "user.create"))). set (s2 := audit_step [] s1 AuApply).
  set (s3 := audit_step [] s2 (AuAnswer 1 (inl new))). exists (audit_step [] s3 (AuAnswer 0 (inl old))). split_and!; try reflexivity.
  apply audit_next.
  - apply audit_next; [by repeat apply audit_next; [apply audit_mount| |]|]. eexists. split; [reflexivity|]. by split.
  - eexists. split; [reflexivity|]. by split.
Qed.

(** A read that fails after a filter was applied leaves the rows of the filter
    before it on the page, and its failure is not said. *)
Lemma failed_filter (relative absolute : jsstr → jsstr) (answers : AuditQuery → list AuditEntry → Prop) old err : old ≠ [] →
  answers (mkAuditQuery DEFAULT_LIMIT [] []) old →
  ∃ s, audit_run [] answers false s ∧ as_pending (ap_async s) = [] ∧ aq_action (applied s) = u "user.create" ∧
    as_error (ap_async s) = Some (errorMessage [] err) ∧ audit_body relative absolute s = AuditTable_ (audit_subtitle s) (map (AuditRow relative absolute) old).
Proof.
  intros Hne Ho. set (s1 := audit_step [] mountAudit (AuAnswer 0 (inl old))). set (s2 := audit_step [] s1 (AuAction (u "user.create"))).
  set (s3 := audit_step [] s2 AuApply). exists (audit_step [] s3 (AuAnswer 0 (inr err))). split_and!; try reflexivity.
  - apply audit_next; [|eexists; split; [reflexivity|done]]. apply audit_next; [|done]. apply audit_next; [|done].
    apply audit_next; [apply audit_mount|]. eexists. split; [reflexivity|]. by split.
  - unfold audit_body. change (entries _) with old. by destruct old.
Qed.
