(* ===== verification/Helpers.v ===== *)
(** * The node helpers section (web/src/components/HelpersSection.tsx)

    The nodes of each cluster, the nodes no helper covers, the helpers no
    cluster claims, and the operations of the section: binding, removing,
    issuing a token. *)
From S2P Require Import Prelude JsString JsNumber JsValue Transport Inventory Endpoints Widgets.

Record Helper := mkHelper {
  he_id : ID;
  he_node : jsstr;
  he_address : jsstr;
  he_port : num;
  he_version : jsstr;
  he_status : jsval;
  he_lastSeen : jsval;
  he_hostId : jsval;
  he_hostName : option jsstr;
}.

Definition unassigned_helper (h : Helper) : bool := isHelperUnassigned (he_status h) (he_hostId h).

Definition helperInstallCommand (origin token : jsstr) : jsstr :=
  join (u " && ")
    [ cat [u "curl -fsSL "; origin; HELPER_DOWNLOAD; u " -o /usr/local/bin/proxback-helper"];
      u "chmod +x /usr/local/bin/proxback-helper";
      cat [u "/usr/local/bin/proxback-helper --server "; origin; u " --token "; token; u " --install"] ].

(** ** Nodes by cluster *)

(** The default order of [sort] on strings. *)
Fixpoint units_le (a b : jsstr) : bool :=
  match a, b with
  | [], _ => true
  | _ :: _, [] => false
  | x :: a', y :: b' => (x <? y)%N || ((x =? y)%N && units_le a' b')
  end.

(** One virtual machine, into an object keyed by cluster. *)
Fixpoint add_node (key node : jsstr) (m : list (jsstr * list jsstr)) : list (jsstr * list jsstr) :=
  match m with
  | [] => [(key, [node])]
  | (k, nodes) :: m' =>
      if str_eqb k key then (k, if existsb (str_eqb node) nodes then nodes else nodes ++ [node]) :: m'
      else (k, nodes) :: add_node key node m'
  end.

Definition nodesByHost (vms : list CachedVM) : list (jsstr * list jsstr) :=
  map (λ kv, (kv.1, sort_by units_le kv.2))
    (fold_left (λ m vm, add_node (id_text (vm_hostId vm)) (vm_node vm) m) vms []).

(** [Object.entries] lists the keys that are array indices first, in order. *)
Definition is_index (k : jsstr) : bool :=
  negb (str_eqb k []) && all_digits k && str_eqb (digits (dec_val k)) k && (dec_val k <? 4294967295)%N.

Definition entries {A} (m : list (jsstr * A)) : list (jsstr * A) :=
  sort_by (λ a b, (dec_val a.1 <=? dec_val b.1)%N) (List.filter (λ kv, is_index kv.1) m)
  ++ List.filter (λ kv, negb (is_index kv.1)) m.

(** ** Coverage *)

Record Gap := mkGap { gp_hostId : jsstr; gp_hostName : jsstr; gp_node : jsstr }.

Definition place (hostId node : jsstr) : jsstr := cat [hostId; u ":"; node].

Definition covered (helpers : list Helper) : list jsstr :=
  map (λ h, place (to_str (he_hostId h)) (he_node h)) (List.filter (λ h, negb (unassigned_helper h)) helpers).

Definition host_name (hosts : list Host) (hostId : jsstr) : jsstr :=
  match List.find (λ h, str_eqb (id_text (ho_id h)) hostId) hosts with Some h => ho_name h | None => hostId end.

Definition uncovered (hosts : list Host) (helpers : list Helper) (vms : list CachedVM) : list Gap :=
  concat (map (λ kv,
    omap (λ node, if existsb (str_eqb (place kv.1 node)) (covered helpers) then None
                  else Some (mkGap kv.1 (host_name hosts kv.1) node)) kv.2)
    (entries (nodesByHost vms))).

Definition uncoveredText (gaps : list Gap) : jsstr :=
  match gaps with
  | [g] => cat [gp_hostName g; u " / "; gp_node g; u " has no helper — workloads on it cannot be image-backed-up yet."]
  | _ => cat [str_of_Z (Z.of_nat (length gaps)); u " nodes have no helper: ";
              join (u ", ") (map (λ g, cat [gp_hostName g; u " / "; gp_node g]) gaps); u "."]
  end.

Definition unassignedText (n : Z) : jsstr :=
  if n =? 1 then u "1 helper is not bound to a cluster and is not being used."
  else cat [str_of_Z n; u " helpers are not bound to a cluster and are not being used."].

(** ** The section *)

Inductive HelperRequest :=
  | AskToken (hostId : jsstr)
  | RemoveHelper (h : Helper)
  | BindHelper (h : Helper) (hostId name : jsstr).

(** [hs_rows] is the state of the Bind control of each helper, [hs_asked] the
    removals waiting for the confirmation dialog, [hs_refreshed] how often the
    list was asked for again. *)
Record HelpersSection := mkSection {
  hs_hosts : list Host;
  hs_helpers : list Helper;
  hs_vms : list CachedVM;
  hs_token : option jsstr;
  hs_tokenHostId : jsstr;
  hs_generating : bool;
  hs_deleting : option jsstr;
  hs_rows : list (jsstr * (jsstr * bool));
  hs_asked : list Helper;
  hs_pending : list HelperRequest;
  hs_said : list ToastCall;
  hs_refreshed : nat;
}.

Inductive HelpersMsg :=
  | HData (hosts : list Host) (helpers : list Helper) (vms : list CachedVM)
  | HTokenHost (t : jsstr)
  | HGenerate
  | HBindHost (key t : jsstr)
  | HBind (h : Helper)
  | HRemove (h : Helper)
  | HAnswer (i : nat) (ok : bool)
  | HDone (i : nat) (token : jsstr)
  | HFailed (i : nat) (err : Thrown).

Definition row_of (s : HelpersSection) (h : Helper) : jsstr * bool :=
  match List.find (λ kv, str_eqb kv.1 (id_text (he_id h))) (hs_rows s) with Some kv => kv.2 | None => ([], false) end.

Definition set_row (key : jsstr) (v : jsstr * bool) (rows : list (jsstr * (jsstr * bool))) :=
  (key, v) :: List.filter (λ kv, negb (str_eqb kv.1 key)) rows.

Section section.
Context (engineText : jsstr).

Definition helpers_offered (s : HelpersSection) (m : HelpersMsg) : bool :=
  match m with
  | HData _ _ _ | HTokenHost _ | HBindHost _ _ => true
  | HGenerate => negb (str_eqb (hs_tokenHostId s) []) && negb (hs_generating s)
  | HBind h => unassigned_helper h && negb (str_eqb (row_of s h).1 []) && negb (row_of s h).2
  | HRemove h => negb (bool_decide (hs_deleting s = Some (id_text (he_id h))))
  | HAnswer i _ => negb (is_none (hs_asked s !! i))
  | HDone i _ | HFailed i _ => negb (is_none (hs_pending s !! i))
  end.

Definition update_section (s : HelpersSection) (token : option jsstr) (generating : bool) (deleting : option jsstr)
    (rows : list (jsstr * (jsstr * bool))) (asked : list Helper) (pending : list HelperRequest)
    (said : list ToastCall) (refreshed : nat) : HelpersSection :=
  mkSection (hs_hosts s) (hs_helpers s) (hs_vms s) token (hs_tokenHostId s) generating deleting rows asked pending said refreshed.

Definition say (kind : ToastKind) (title : jsstr) (detail : option jsstr) (s : HelpersSection) : list ToastCall :=
  mkCall kind title detail None :: hs_said s.

Definition helpers_step (s : HelpersSection) (m : HelpersMsg) : HelpersSection :=
  match m with
  | HData hosts helpers vms =>
      mkSection hosts helpers vms (hs_token s) (hs_tokenHostId s) (hs_generating s) (hs_deleting s) (hs_rows s)
        (hs_asked s) (hs_pending s) (hs_said s) (hs_refreshed s)
  | HTokenHost t =>
      mkSection (hs_hosts s) (hs_helpers s) (hs_vms s) (hs_token s) t (hs_generating s) (hs_deleting s) (hs_rows s)
        (hs_asked s) (hs_pending s) (hs_said s) (hs_refreshed s)
  | HGenerate =>
      update_section s (hs_token s) true (hs_deleting s) (hs_rows s) (hs_asked s)
        (hs_pending s ++ [AskToken (hs_tokenHostId s)]) (hs_said s) (hs_refreshed s)
  | HBindHost key t =>
      update_section s (hs_token s) (hs_generating s) (hs_deleting s)
        (set_row key (t, match List.find (λ kv, str_eqb kv.1 key) (hs_rows s) with Some kv => kv.2.2 | None => false end) (hs_rows s))
        (hs_asked s) (hs_pending s) (hs_said s) (hs_refreshed s)
  | HBind h =>
      let hostId := (row_of s h).1 in
      let name := match List.find (λ x, str_eqb (id_text (ho_id x)) hostId) (hs_hosts s) with
                  | Some x => ho_name x | None => u "the selected cluster" end in
      if str_eqb hostId [] then s else
      update_section s (hs_token s) (hs_generating s) (hs_deleting s) (set_row (id_text (he_id h)) (hostId, true) (hs_rows s))
        (hs_asked s) (hs_pending s ++ [BindHelper h hostId name]) (hs_said s) (hs_refreshed s)
  | HRemove h =>
      update_section s (hs_token s) (hs_generating s) (hs_deleting s) (hs_rows s)
        (hs_asked s ++ [h]) (hs_pending s) (hs_said s) (hs_refreshed s)
  | HAnswer i ok =>
      match hs_asked s !! i with
      | None => s
      | Some h =>
          update_section s (hs_token s) (hs_generating s) (if ok then Some (id_text (he_id h)) else hs_deleting s) (hs_rows s)
            (delete i (hs_asked s)) (hs_pending s ++ (if ok then [RemoveHelper h] else [])) (hs_said s) (hs_refreshed s)
      end
  | HDone i token =>
      let rest := delete i (hs_pending s) in
      match hs_pending s !! i with
      | None => s
      | Some (AskToken _) =>
          update_section s (Some token) false (hs_deleting s) (hs_rows s) (hs_asked s) rest
            (say ToastSuccess (u "Helper enrollment token generated.")
               (Some (u "Single use, expires in 24 hours, and carries the cluster — the node never has to know its own.")) s)
            (hs_refreshed s)
      | Some (RemoveHelper h) =>
          update_section s (hs_token s) (hs_generating s) None (hs_rows s) (hs_asked s) rest
            (say ToastSuccess (cat [u "Helper for “"; he_node h; u "” removed."]) None s) (S (hs_refreshed s))
      | Some (BindHelper h _ name) =>
          update_section s (hs_token s) (hs_generating s) (hs_deleting s)
            (set_row (id_text (he_id h)) ((row_of s h).1, false) (hs_rows s)) (hs_asked s) rest
            (say ToastSuccess (cat [u "Helper for "; he_node h; u " bound to "; name; u "."])
               (Some (u "It can now be used to route backups and restores for that node.")) s) (S (hs_refreshed s))
      end
  | HFailed i err =>
      let rest := delete i (hs_pending s) in
      let message := Some (errorMessage engineText err) in
      match hs_pending s !! i with
      | None => s
      | Some (AskToken _) =>
          update_section s (hs_token s) false (hs_deleting s) (hs_rows s) (hs_asked s) rest
            (say ToastError (u "Could not generate token") message s) (hs_refreshed s)
      | Some (RemoveHelper h) =>
          update_section s (hs_token s) (hs_generating s) None (hs_rows s) (hs_asked s) rest
            (say ToastError (u "Could not remove helper") message s) (hs_refreshed s)
      | Some (BindHelper h _ _) =>
          update_section s (hs_token s) (hs_generating s) (hs_deleting s)
            (set_row (id_text (he_id h)) ((row_of s h).1, false) (hs_rows s)) (hs_asked s) rest
            (say ToastError (u "Could not bind the helper") message s) (hs_refreshed s)
      end
  end.
End section.

(** ** Coverage is exact *)

Definition on_node (m : list (jsstr * list jsstr)) (k n : jsstr) : Prop := Exists (λ kv, kv.1 = k ∧ n ∈ kv.2) m.

Lemma on_add_node key node m k n : on_node (add_node key node m) k n ↔ (k = key ∧ n = node) ∨ on_node m k n.
Proof.
  unfold on_node. induction m as [|[k0 nodes0] m IH]; cbn [add_node].
  { rewrite Exists_cons, !Exists_nil. cbn [fst snd]. rewrite list_elem_of_singleton. naive_solver. }
  unfold str_eqb at 1. case_bool_decide as E; rewrite !Exists_cons; cbn [fst snd].
  - destruct (existsb (str_eqb node) nodes0) eqn:Ex.
    + apply elem_of_existsb in Ex. naive_solver.
    + rewrite elem_of_app, list_elem_of_singleton. naive_solver.
  - rewrite IH. naive_solver.
Qed.

Lemma on_nodesByHost vms k n :
  on_node (nodesByHost vms) k n ↔ ∃ vm, vm ∈ vms ∧ id_text (vm_hostId vm) = k ∧ vm_node vm = n.
Proof.
  assert (Hf : ∀ m, on_node (fold_left (λ m vm, add_node (id_text (vm_hostId vm)) (vm_node vm) m) vms m) k n
                ↔ on_node m k n ∨ ∃ vm, vm ∈ vms ∧ id_text (vm_hostId vm) = k ∧ vm_node vm = n).
  { induction vms as [|vm vms IH]; intros m; cbn [fold_left]; [set_solver|]. rewrite IH, on_add_node. set_solver. }
  transitivity (on_node (fold_left (λ m vm, add_node (id_text (vm_hostId vm)) (vm_node vm) m) vms []) k n).
  - unfold nodesByHost, on_node. rewrite !Exists_exists. split.
    + intros (x & (kv & -> & Hkv)%list_elem_of_fmap & Hk & Hn). cbn in *. exists kv. by rewrite elem_of_sort_by in Hn.
    + intros (kv & Hkv & Hk & Hn). exists (kv.1, sort_by units_le kv.2). split; [apply list_elem_of_fmap; by exists kv|].
      cbn. by rewrite elem_of_sort_by.
  - rewrite Hf. unfold on_node. rewrite Exists_nil. naive_solver.
Qed.

Lemma elem_of_entries {A} (m : list (jsstr * A)) kv : kv ∈ entries m ↔ kv ∈ m.
Proof.
  unfold entries. rewrite elem_of_app, elem_of_sort_by, !list_elem_of_In, !List.filter_In.
  destruct (is_index kv.1); cbn; naive_solver.
Qed.

Lemma place_inj h1 n1 h2 n2 : 58%N ∉ h1 → 58%N ∉ h2 → place h1 n1 = place h2 n2 → h1 = h2 ∧ n1 = n2.
Proof.
  unfold place, cat. cbn [concat]. change (u ":") with [58%N]. rewrite !app_nil_r. cbn [app].
  revert h2. induction h1 as [|c h1 IH]; intros [|d h2] H1 H2 H; cbn [app] in H.
  - by injection H.
  - injection H as <- _. by destruct (H2 (list_elem_of_here _ _)).
  - injection H as -> _. by destruct (H1 (list_elem_of_here _ _)).
  - injection H as -> H. apply not_elem_of_cons in H1 as [_ H1], H2 as [_ H2].
    destruct (IH h2 H1 H2 H) as [-> ->]. done.
Qed.

Lemma elem_of_covered helpers h n : 58%N ∉ h → Forall (λ x, 58%N ∉ to_str (he_hostId x)) helpers →
  place h n ∈ covered helpers ↔
  ∃ x, x ∈ helpers ∧ unassigned_helper x = false ∧ to_str (he_hostId x) = h ∧ he_node x = n.
Proof.
  intros Hh Hall. unfold covered. rewrite list_elem_of_fmap. rewrite Forall_forall in Hall. split.
  - intros (x & E & Hx). apply list_elem_of_In, List.filter_In in Hx as [Hx Hf]. apply list_elem_of_In in Hx.
    apply place_inj in E as [-> ->]; [|done|by apply Hall]. exists x. by apply negb_true_iff in Hf.
  - intros (x & Hx & Hf & <- & <-). exists x. split; [done|]. apply list_elem_of_In, List.filter_In.
    split; [by apply list_elem_of_In|by apply negb_true_iff].
Qed.

(** The section reports exactly the nodes of the inventory that no helper bound
    to their cluster covers: a helper of the same node name in another cluster,
    or one not bound to any, does not count.  Cluster ids hold no colon. *)
Lemma gaps_exact hosts helpers vms h n :
  Forall (λ vm, 58%N ∉ id_text (vm_hostId vm)) vms → Forall (λ x, 58%N ∉ to_str (he_hostId x)) helpers →
  (∃ g, g ∈ uncovered hosts helpers vms ∧ gp_hostId g = h ∧ gp_node g = n)
  ↔ (∃ vm, vm ∈ vms ∧ id_text (vm_hostId vm) = h ∧ vm_node vm = n)
    ∧ ¬ ∃ x, x ∈ helpers ∧ unassigned_helper x = false ∧ to_str (he_hostId x) = h ∧ he_node x = n.
Proof.
  intros Hvms Hhelpers. rewrite <- on_nodesByHost. unfold on_node. rewrite Exists_exists.
  assert (Hcolon : (∃ vm, vm ∈ vms ∧ id_text (vm_hostId vm) = h ∧ vm_node vm = n) → 58%N ∉ h).
  { intros (vm & Hvm & <- & _). rewrite Forall_forall in Hvms. by apply Hvms. }
  rewrite <- on_nodesByHost in Hcolon. unfold on_node in Hcolon. rewrite Exists_exists in Hcolon.
  unfold uncovered. setoid_rewrite list_elem_of_In. setoid_rewrite in_concat. setoid_rewrite <- list_elem_of_In. split.
  - intros (g & (l & Hl & Hg) & <- & <-). apply list_elem_of_fmap in Hl as (kv & -> & Hkv).
    rewrite elem_of_entries in Hkv. apply list_elem_of_omap in Hg as (node & Hnode & E).
    destruct (existsb _ _) eqn:Ec; [done|]. injection E as <-. cbn [gp_hostId gp_node].
    assert (Hex : ∃ x, x ∈ nodesByHost vms ∧ x.1 = kv.1 ∧ node ∈ x.2) by eauto. split; [done|].
    specialize (Hcolon Hex). rewrite <- (elem_of_covered helpers kv.1 node Hcolon Hhelpers).
    rewrite elem_of_existsb. congruence.
  - intros [(kv & Hkv & <- & Hn) Hno]. specialize (Hcolon (ex_intro _ kv (conj Hkv (conj eq_refl Hn)))).
    rewrite <- (elem_of_covered helpers kv.1 n Hcolon Hhelpers) in Hno.
    exists (mkGap kv.1 (host_name hosts kv.1) n). split; [|done].
    eexists. split; [apply list_elem_of_fmap; exists kv; split; [reflexivity|by apply elem_of_entries]|].
    apply list_elem_of_omap. exists n. split; [done|]. destruct (existsb _ _) eqn:Ec; [|done].
    by apply elem_of_existsb in Ec.
Qed.
