(* ===== verification/Deploy.v ===== *)
(** * Deploying a node helper (web/src/components/DeployHelperModal.tsx)

    The dialog that installs a helper over SSH: its fields, the host-key
    confirmation, the requests under way and what it tells the operator. *)
From S2P Require Import Prelude JsString JsNumber JsValue Json Transport Targets Inventory Endpoints Widgets.

(** ** State *)

Record DeployForm := mkDeployForm {
  df_hostId : jsstr;
  df_node : jsstr;
  df_address : jsstr;
  df_port : jsstr;
  df_username : jsstr;
  df_password : jsstr;
  df_helperPort : jsstr;
}.

(** What the section passes: the clusters, their nodes and the address to start
    with. *)
Record DeployProps := mkProps { dp_hosts : list Host; dp_nodes : list (jsstr * list jsstr); dp_default : option jsstr }.

(** [dg_pending] are the requests under way, each with the node as it was typed, [dg_said] the toasts pushed and
    [dg_deployed] how often the section was told to refresh. *)
Record Deploy := mkDialog {
  dg_open : bool;
  dg_props : DeployProps;
  dg_form : DeployForm;
  dg_fingerprint : option jsstr;
  dg_submitting : bool;
  dg_error : option jsstr;
  dg_log : list jsstr;
  dg_pending : list (HelperDeployRequest * jsstr);
  dg_said : list ToastCall;
  dg_deployed : nat;
}.

(** [nodesByHost[key] ?? []]. *)
Definition nodes_of (nodes : list (jsstr * list jsstr)) (key : jsstr) : list jsstr :=
  match List.find (λ kv, str_eqb kv.1 key) nodes with Some kv => kv.2 | None => [] end.

(** [nodesByHost[key]?.[0] ?? '']. *)
Definition first_node (nodes : list (jsstr * list jsstr)) (key : jsstr) : jsstr := default [] (head (nodes_of nodes key)).

(** The effect on [open], [hosts], [nodesByHost] and [defaultAddress]. *)
Definition deployReset (d : Deploy) : Deploy :=
  if negb (dg_open d) then d else
  let p := dg_props d in
  let firstHost := match dp_hosts p with h :: _ => id_text (ho_id h) | [] => [] end in
  mkDialog true p
    (mkDeployForm firstHost (first_node (dp_nodes p) firstHost) (default [] (dp_default p)) (u "22") (u "root") [] (u "8007"))
    None false None [] (dg_pending d) (dg_said d) (dg_deployed d).

(** [Number(text) || fallback]. *)
Definition number_or (text : jsstr) (fallback : Z) : num :=
  let n := num_of_str text in if truthy (VNum n) then n else of_Z fallback.

(** ** Operations *)

Inductive DeployMsg :=
  (** The section: opening, closing, new data. *)
  | DOpen
  | DClose
  | DProps (p : DeployProps)
  | DHost (t : jsstr)
  | DNode (t : jsstr)
  | DAddress (t : jsstr)
  | DPort (t : jsstr)
  | DUsername (t : jsstr)
  | DPassword (t : jsstr)
  | DHelperPort (t : jsstr)
  | DSubmit
  (** The answer to one of the requests under way. *)
  | DInstalled (i : nat) (helperOnline : bool) (log : option (list jsstr))
  | DFailed (i : nat) (err : Thrown).

Definition with_dform (f : DeployForm → DeployForm) (d : Deploy) : Deploy :=
  mkDialog (dg_open d) (dg_props d) (f (dg_form d)) (dg_fingerprint d) (dg_submitting d) (dg_error d) (dg_log d)
    (dg_pending d) (dg_said d) (dg_deployed d).
Definition with_open (open : bool) (d : Deploy) : Deploy :=
  mkDialog open (dg_props d) (dg_form d) (dg_fingerprint d) (dg_submitting d) (dg_error d) (dg_log d)
    (dg_pending d) (dg_said d) (dg_deployed d).
Definition with_derror (error : option jsstr) (d : Deploy) : Deploy :=
  mkDialog (dg_open d) (dg_props d) (dg_form d) (dg_fingerprint d) (dg_submitting d) error (dg_log d)
    (dg_pending d) (dg_said d) (dg_deployed d).

Definition set_dhost (t node : jsstr) (f : DeployForm) : DeployForm :=
  mkDeployForm t node (df_address f) (df_port f) (df_username f) (df_password f) (df_helperPort f).
Definition set_dnode (t : jsstr) (f : DeployForm) : DeployForm :=
  mkDeployForm (df_hostId f) t (df_address f) (df_port f) (df_username f) (df_password f) (df_helperPort f).
Definition set_daddress (t : jsstr) (f : DeployForm) : DeployForm :=
  mkDeployForm (df_hostId f) (df_node f) t (df_port f) (df_username f) (df_password f) (df_helperPort f).
Definition set_dport (t : jsstr) (f : DeployForm) : DeployForm :=
  mkDeployForm (df_hostId f) (df_node f) (df_address f) t (df_username f) (df_password f) (df_helperPort f).
Definition set_dusername (t : jsstr) (f : DeployForm) : DeployForm :=
  mkDeployForm (df_hostId f) (df_node f) (df_address f) (df_port f) t (df_password f) (df_helperPort f).
Definition set_dpassword (t : jsstr) (f : DeployForm) : DeployForm :=
  mkDeployForm (df_hostId f) (df_node f) (df_address f) (df_port f) (df_username f) t (df_helperPort f).
Definition set_dhelperPort (t : jsstr) (f : DeployForm) : DeployForm :=
  mkDeployForm (df_hostId f) (df_node f) (df_address f) (df_port f) (df_username f) (df_password f) t.

Section dialog.
(** How the engine words its own exceptions, and the page's origin. *)
Context (engineText origin : jsstr).

(** Why the form is not sent. *)
Definition deployProblem (f : DeployForm) : option jsstr :=
  if str_eqb (df_hostId f) [] then Some (u "Choose which cluster this node belongs to.")
  else if negb (non_blank (df_node f)) then Some (u "Choose which Proxmox node to deploy to.")
  else if negb (non_blank (df_address f)) then Some (u "Enter the node's SSH address.")
  else if negb (non_blank (df_username f)) then Some (u "Enter the SSH username (usually root).")
  else if str_eqb (df_password f) [] then Some (u "Enter the SSH password.")
  else None.

(** A fingerprint that is empty is not confirmed. *)
Definition deployPayload (d : Deploy) : HelperDeployRequest :=
  let f := dg_form d in
  mkDeploy (IdStr (df_hostId f)) (trim (df_node f)) (trim (df_address f)) (Some (number_or (df_port f) 22))
    (trim (df_username f)) (df_password f) origin (Some (number_or (df_helperPort f) 8007))
    (match dg_fingerprint d with Some [] => None | fp => fp end).

Definition deploySubmit (d : Deploy) : Deploy :=
  match deployProblem (dg_form d) with
  | Some message => with_derror (Some message) d
  | None =>
      mkDialog (dg_open d) (dg_props d) (dg_form d) (dg_fingerprint d) true None (dg_log d)
        (dg_pending d ++ [(deployPayload d, df_node (dg_form d))]) (dg_said d) (dg_deployed d)
  end.

Definition deploy_offered (d : Deploy) (m : DeployMsg) : bool :=
  match m with
  | DOpen => negb (dg_open d)
  | DProps _ => true
  | DInstalled i _ _ | DFailed i _ => negb (is_none (dg_pending d !! i))
  | DHost t => dg_open d && (str_eqb t [] || existsb (λ h, str_eqb (id_text (ho_id h)) t) (dp_hosts (dg_props d)))
  | DNode t =>
      let nodes := nodes_of (dp_nodes (dg_props d)) (df_hostId (dg_form d)) in
      dg_open d && (is_nil nodes || existsb (str_eqb t) nodes)
  | DSubmit => dg_open d && negb (dg_submitting d)
  (* Cancel is disabled while submitting, but Escape, the scrim and the cross close all the same. *)
  | _ => dg_open d
  end.

Definition deploy_step (d : Deploy) (m : DeployMsg) : Deploy :=
  match m with
  | DOpen => deployReset (with_open true d)
  | DClose => with_open false d
  | DProps p =>
      deployReset (mkDialog (dg_open d) p (dg_form d) (dg_fingerprint d) (dg_submitting d) (dg_error d) (dg_log d)
                     (dg_pending d) (dg_said d) (dg_deployed d))
  | DHost t => with_dform (set_dhost t (first_node (dp_nodes (dg_props d)) t)) d
  | DNode t => with_dform (set_dnode t) d
  | DAddress t => with_dform (set_daddress t) d
  | DPort t => with_dform (set_dport t) d
  | DUsername t => with_dform (set_dusername t) d
  | DPassword t => with_dform (set_dpassword t) d
  | DHelperPort t => with_dform (set_dhelperPort t) d
  | DSubmit => deploySubmit (with_derror None d)
  | DInstalled i helperOnline log =>
      match dg_pending d !! i with
      | None => d
      | Some (_, node) =>
          mkDialog false (dg_props d) (set_dpassword [] (dg_form d)) (dg_fingerprint d) false (dg_error d)
            (default [] log) (delete i (dg_pending d))
            (mkCall ToastSuccess (cat [u "Node helper installed on "; node; u "."])
               (Some (if helperOnline then u "It has registered and is online."
                      else u "It should register within a few seconds.")) None :: dg_said d)
            (S (dg_deployed d))
      end
  | DFailed i err =>
      let fp := deployFingerprintOf err in
      mkDialog (dg_open d) (dg_props d) (dg_form d) (if is_none fp then dg_fingerprint d else fp) false
        (if is_none fp then Some (errorMessage engineText err) else None) (dg_log d)
        (delete i (dg_pending d)) (dg_said d) (dg_deployed d)
  end.

Definition mountDeploy (p : DeployProps) : Deploy :=
  mkDialog false p (mkDeployForm [] [] [] (u "22") (u "root") [] (u "8007")) None false None [] [] [] 0.

Definition deployLabel (d : Deploy) : jsstr :=
  if is_none (match dg_fingerprint d with Some [] => None | fp => fp end) then u "Install helper" else u "Trust and install".

(** The fingerprints the server has reported in a run. *)
Inductive deploy_run : Deploy → list jsstr → Prop :=
  | deploy_mount p : deploy_run (mountDeploy p) []
  | deploy_next d m reported : deploy_run d reported → deploy_offered d m = true →
      deploy_run (deploy_step d m)
        (match m with DFailed _ err => option_list (deployFingerprintOf err) ++ reported | _ => reported end).
End dialog.

(** ** Properties *)

(** What every request names. *)
Definition request_ok (reported : list jsstr) (r : HelperDeployRequest) : Prop :=
  id_text (hd_hostId r) ≠ [] ∧ hd_node r ≠ [] ∧ hd_address r ≠ [] ∧ hd_username r ≠ [] ∧ hd_password r ≠ []
  ∧ (∃ n, hd_port r = Some n ∧ truthy (VNum n) = true) ∧ (∃ n, hd_helperPort r = Some n ∧ truthy (VNum n) = true)
  ∧ (∀ f, hd_hostKeyFingerprint r = Some f → f ∈ reported).

Definition deploy_inv (d : Deploy) (reported : list jsstr) : Prop :=
  (∀ f, dg_fingerprint d = Some f → f ∈ reported ∧ f ≠ [])
  ∧ Forall (λ p, request_ok reported p.1) (dg_pending d).

Lemma number_or_truthy text fallback : (0 < fallback)%Z → truthy (VNum (number_or text fallback)) = true.
Proof.
  intros H. unfold number_or. destruct (truthy (VNum (num_of_str text))) eqn:E; [exact E|].
  unfold truthy, of_Z. cbn. by destruct fallback.
Qed.

Lemma request_ok_more r reported more : request_ok reported r → request_ok (more ++ reported) r.
Proof.
  intros (?&?&?&?&?&?&?&Hf). split_and!; try done. intros f Hr. apply elem_of_app. right. by apply Hf.
Qed.

Lemma fingerprint_nonempty err f : deployFingerprintOf err = Some f → f ≠ [].
Proof.
  unfold deployFingerprintOf. destruct (isApiError err); [|done]. case_on_goal; [done|].
  destruct (get _ _); try done. case_on_goal; [done|]. intros [= <-]. unfold str_eqb in *. by b2p.
Qed.

Lemma deployProblem_none f : deployProblem f = None →
  df_hostId f ≠ [] ∧ trim (df_node f) ≠ [] ∧ trim (df_address f) ≠ [] ∧ trim (df_username f) ≠ [] ∧ df_password f ≠ [].
Proof.
  unfold deployProblem, non_blank, str_eqb. repeat case_on_goal; try discriminate. intros _. b2p. done.
Qed.

Lemma payload_ok origin d reported : deploy_inv d reported → deployProblem (dg_form d) = None →
  request_ok reported (deployPayload origin d).
Proof.
  intros [Hf _] H. apply deployProblem_none in H as (H1 & H2 & H3 & H4 & H5).
  unfold deployPayload, request_ok.
  cbn [hd_hostId hd_node hd_address hd_username hd_password hd_port hd_helperPort hd_hostKeyFingerprint id_text].
  split_and!; try done.
  - eexists. split; [done|]. by apply number_or_truthy.
  - eexists. split; [done|]. by apply number_or_truthy.
  - intros f Hd. apply Hf. by destruct (dg_fingerprint d) as [[]|].
Qed.

Lemma reset_inv d reported : deploy_inv d reported → deploy_inv (deployReset d) reported.
Proof. intros [Hf Hp]. unfold deployReset. case_on_goal; [done|]. split; [by intros f|exact Hp]. Qed.

Lemma Forall_delete {A} (P : A → Prop) i l : Forall P l → Forall P (delete i l).
Proof. rewrite !Forall_forall. intros H x Hx. apply H. by eapply list_elem_of_delete_inv. Qed.

Lemma deploy_run_inv engineText origin d reported : deploy_run engineText origin d reported → deploy_inv d reported.
Proof.
  induction 1 as [p|d m reported _ IH Ho]; [by split|].
  destruct m; cbn [deploy_step]; try exact IH; try (by apply reset_inv).
  - unfold deploySubmit. cbn [with_derror dg_form]. destruct (deployProblem (dg_form d)) eqn:E; [exact IH|].
    destruct IH as [Hf Hp]. split; [exact Hf|]. cbn [dg_pending]. apply Forall_app. split; [exact Hp|].
    constructor; [|constructor]. cbn [fst]. by apply (payload_ok origin (with_derror None d)).
  - destruct (dg_pending d !! i) as [[sent node]|]; [|exact IH]. destruct IH as [Hf Hp]. split; [exact Hf|].
    by apply Forall_delete.
  - destruct IH as [Hf Hp]. split.
    + cbn [dg_fingerprint]. intros f. destruct (deployFingerprintOf err) as [fp|] eqn:E; cbn [is_none option_list app].
      * intros [= <-]. split; [left|by eapply fingerprint_nonempty].
      * apply Hf.
    + cbn [dg_pending]. apply Forall_delete. eapply Forall_impl; [exact Hp|]. intros x. apply request_ok_more.
Qed.

(** C7: nothing is installed on a node whose key the operator was not shown: in
    every session every request names a cluster, a node, an address, an account
    and two ports, and the key it vouches for, if any, is one the server reported
    and the dialog was showing, under the label that says so, when the button was
    pressed; opening the dialog forgets the key and the password. *)
Theorem deploy_trust engineText origin d reported :
  deploy_run engineText origin d reported →
  Forall (λ p, request_ok reported p.1) (dg_pending d)
  ∧ (∀ p, p ∈ dg_pending (deploy_step engineText origin d DSubmit) → p ∈ dg_pending d
       ∨ (hd_hostKeyFingerprint p.1 = dg_fingerprint d
          ∧ deployLabel d = (if is_none (hd_hostKeyFingerprint p.1) then u "Install helper" else u "Trust and install")))
  ∧ (let d' := deploy_step engineText origin d DOpen in dg_fingerprint d' = None ∧ df_password (dg_form d') = []).
Proof.
  intros Hr. pose proof (deploy_run_inv _ _ _ _ Hr) as [Hf Hp]. split_and!; [done| |by unfold deploy_step, deployReset; cbn..].
  intros p. cbn [deploy_step]. unfold deploySubmit. cbn [with_derror dg_form]. destruct (deployProblem (dg_form d)); [by left|].
  cbn [dg_pending]. rewrite elem_of_app, list_elem_of_singleton. intros [?| ->]; [by left|]. right.
  unfold deployPayload, deployLabel. cbn [fst hd_hostKeyFingerprint dg_fingerprint].
  change (dg_fingerprint (with_derror None d)) with (dg_fingerprint d).
  destruct (dg_fingerprint d) as [[|c f]|] eqn:E; [by destruct (Hf [] eq_refl) as [_ ?]|done..].
Qed.

Definition sample_session (fp : jsstr) : list DeployMsg :=
  [ DOpen; DAddress (u "10.0.0.5"); DPassword (u "secret"); DNode (u "pve1"); DSubmit;
    DFailed 0 (ThrownApi (mkApiError 409 (u "confirm the host key") (u "/api/helpers/deploy")
                 (VObj [(u "fingerprint", VStr fp)]))) ].

Definition sample_props : DeployProps :=
  mkProps [mkHost (IdStr (u "h1")) (u "cluster") (u "https://10.0.0.4:8006") [] false (u "online") None] [] (Some (u "10.0.0.4")).

(** The steps of a session, when each is offered. *)
Fixpoint deploy_perform (engineText origin : jsstr) (d : Deploy) (ms : list DeployMsg) : option Deploy :=
  match ms with
  | [] => Some d
  | m :: ms => if deploy_offered d m then deploy_perform engineText origin (deploy_step engineText origin d m) ms else None
  end.

Lemma deploy_perform_run engineText origin ms d d' reported :
  deploy_run engineText origin d reported → deploy_perform engineText origin d ms = Some d' →
  ∃ reported', deploy_run engineText origin d' reported'.
Proof.
  revert d reported. induction ms as [|m ms IH]; intros d reported Hr; cbn [deploy_perform].
  - intros [= <-]. by eexists.
  - case_on_goal; [|done]. intros H. eapply IH; [by apply deploy_next|exact H].
Qed.

Lemma deploy_trust_witness :
  match deploy_perform [] [] (mountDeploy sample_props) (sample_session (u "SHA256:abc")) with
  | Some d =>
      deployLabel d = u "Trust and install" ∧ dg_pending d = []
      ∧ ∃ reported, Forall (λ p, request_ok reported p.1) (dg_pending d)
  | None => False
  end.
Proof.
  destruct (deploy_perform [] [] (mountDeploy sample_props) (sample_session (u "SHA256:abc"))) as [d|] eqn:E;
    [|vm_compute in E; discriminate E].
  destruct (deploy_perform_run _ _ _ _ _ _ (deploy_mount [] [] sample_props) E) as [reported Hr].
  pose proof (deploy_trust [] [] d reported Hr) as (H & _ & _).
  assert (Hd : deploy_perform [] [] (mountDeploy sample_props) (sample_session (u "SHA256:abc")) = Some d) by exact E.
  vm_compute in Hd. injection Hd as <-.
  split; [vm_compute; reflexivity|]. split; [vm_compute; reflexivity|]. by exists reported.
Defined.

(** The key stays confirmed when the address is changed, and a refusal that
    arrives after the dialog was closed and opened again for another node shows
    its key there: in both the key of one node is vouched for on another. *)
Lemma key_of_another_node :
  let sent ms := match deploy_perform [] [] (mountDeploy sample_props) ms with
                 | Some d => map (λ p, (hd_address p.1, hd_hostKeyFingerprint p.1)) (dg_pending d)
                 | None => []
                 end in
  let refusal := last (sample_session (u "SHA256:abc")) in
  sent (sample_session (u "SHA256:abc") ++ [DAddress (u "10.0.0.6"); DSubmit])
    = [(u "10.0.0.6", Some (u "SHA256:abc"))]
  ∧ sent (take 5 (sample_session (u "SHA256:abc")) ++ [DClose; DOpen; DAddress (u "10.0.0.6"); DPassword (u "secret"); DNode (u "pve2")]
          ++ option_list refusal ++ [DSubmit])
    = [(u "10.0.0.6", Some (u "SHA256:abc"))].
Proof. vm_compute. auto. Qed.
