(* ===== verification/JobWizard.v ===== *)
(** * The job wizard (web/src/components/JobWizard.tsx)

    The six-step form that creates and edits a backup job: its state, what each
    step requires, the operations its render offers, and the request its last
    step sends.  The schedule, retention and protection steps are the controls
    of Control.v, used only through that interface. *)
From S2P Require Import Prelude JsString JsNumber JsValue Schedule Calendar NextRun ScheduleText ScheduleEditor Policy Retention Control Json Transport Targets Runs Backups Inventory Endpoints.

Definition STEPS : list jsstr :=
  [u "Sources"; u "Target"; u "Schedule"; u "Retention"; u "Protection"; u "Review"].

Definition lastStep : Z := Z.of_nat (length STEPS) - 1.

Definition DEFAULT_SCHEDULE : Schedule := DailySchedule (u "02:00").

Inductive VMSourceMode := Manual | ByTag.

#[export] Instance VMSourceMode_eq_dec : EqDecision VMSourceMode.
Proof. solve_decision. Defined.

(** An id is [''] when nothing was chosen. *)
Definition no_id : ID := IdStr [].
Definition chosen (id : ID) : bool := match id with IdStr s => negb (str_eqb s []) | IdNum _ => true end.

Record WizardState := mkState {
  s_name : jsstr;
  s_kind : JobKind;
  s_sourceMode : VMSourceMode;
  s_selectedVMs : list CachedVM;
  s_tagFilter : jsstr;
  s_agentId : ID;
  s_paths : list jsstr;
  s_targetId : ID;
  s_schedule : Schedule;
  s_retention : RetentionPolicy;
  s_policy : JobPolicy;
  s_enabled : bool;
}.

(** [`${String(hostId)}:${vmid}`]. *)
Definition vmKey (hostId vmid : jsval) : jsstr := cat [to_str hostId; u ":"; to_str vmid].
Definition rowKey (vm : CachedVM) : jsstr := vmKey (id_val (vm_hostId vm)) (VNum (vm_vmid vm)).
Definition sourceRefKey (source : jsval) : jsstr := vmKey (get source "hostId") (get source "vmid").

Definition has_key (keys : list jsstr) (vm : CachedVM) : bool := existsb (str_eqb (rowKey vm)) keys.

(** [agentSource?.agentId ?? '']. *)
Definition agentIdOf (source : option jsval) : ID :=
  match source with
  | Some a => match get a "agentId" with VStr s => IdStr s | VNum n => IdNum n | _ => no_id end
  | None => no_id
  end.

(** [agentSource?.paths ?? []]; the paths are strings. *)
Definition pathsOf (source : option jsval) : list jsstr :=
  match source with Some a => only_strings (array_or_nil (get a "paths")) | None => [] end.

Definition initialState (editJob : option Job) (initialVM : option CachedVM) (vms : list CachedVM) : WizardState :=
  match editJob with
  | Some job =>
      let agentSource := agentSourceOf (jb_sources job) in
      let wanted := map sourceRefKey (vmSourcesOf (jb_sources job)) in
      let tagFilter := match jb_tagFilter job with Some t => t | None => [] end in
      mkState (jb_name job) (jb_kind job) (if str_eqb tagFilter [] then Manual else ByTag)
        (List.filter (has_key wanted) vms) tagFilter (agentIdOf agentSource) (pathsOf agentSource)
        (jb_targetId job) (parseSchedule (jb_schedule job)) (parseRetention (jb_retention job))
        (parsePolicy (jb_policy job)) (jb_enabled job)
  | None =>
      mkState (match initialVM with Some vm => cat [u "Backup — "; vm_name vm] | None => [] end)
        JVm Manual (match initialVM with Some vm => [vm] | None => [] end) [] no_id [] no_id
        DEFAULT_SCHEDULE DEFAULT_RETENTION DEFAULT_POLICY true
  end.

(** ** What the form computes from its state *)

Definition byTag (s : WizardState) : bool :=
  bool_decide (s_kind s = JVm) && bool_decide (s_sourceMode s = ByTag).

Definition stepValid (s : WizardState) (index : Z) : bool :=
  if index =? 0 then
    if negb (non_blank (s_name s)) then false
    else if bool_decide (s_kind s = JAgent) then chosen (s_agentId s) && negb (is_nil (s_paths s))
    else if byTag s then negb (str_eqb (s_tagFilter s) []) else negb (is_nil (s_selectedVMs s))
  else if index =? 1 then chosen (s_targetId s)
  else if index =? 2 then isScheduleComplete (s_schedule s)
  else if index =? 3 then 1 <=? retentionRuleCount (s_retention s)
  else true.

Definition toggleVM (vm : CachedVM) (selected : list CachedVM) : list CachedVM :=
  let key := rowKey vm in
  if existsb (λ item, str_eqb (rowKey item) key) selected
  then List.filter (λ item, negb (str_eqb (rowKey item) key)) selected
  else selected ++ [vm].

(** [addPath]: the new paths and the new draft. *)
Definition addPath (paths : list jsstr) (pathDraft : jsstr) : list jsstr * jsstr :=
  let value := trim pathDraft in
  if str_eqb value [] then (paths, pathDraft)
  else if includes_str paths value then (paths, [])
  else (paths ++ [value], []).

(** A VM of a fixed list on the wire. *)
Definition vmSource (vm : CachedVM) : jsval :=
  VObj [(u "hostId", id_val (vm_hostId vm)); (u "vmid", VNum (vm_vmid vm)); (u "name", VStr (vm_name vm))].

Definition sources (s : WizardState) : jsval :=
  match s_kind s with
  | JVm => if byTag s then VArr [] else VArr (map vmSource (s_selectedVMs s))
  | JAgent => VObj [(u "agentId", id_val (s_agentId s)); (u "paths", VArr (map VStr (s_paths s)))]
  end.

(** The payload of [onSubmit]. *)
Definition payload (s : WizardState) : JobCreate :=
  mkJobCreate (trim (s_name s)) (s_kind s) (s_targetId s) (s_schedule s) (s_retention s) (sources s)
    (s_enabled s)
    (match s_kind s with JVm => Some (if byTag s then s_tagFilter s else []) | JAgent => None end)
    (Some (s_policy s)).

(** ** The component *)

Record Props := mkProps {
  p_targets : list Target;
  p_vms : list CachedVM;
  p_agents : list Agent;
  p_initialVM : option CachedVM;
  p_editJob : option Job;
}.

(** A save under way: the job it edits and what it sent. *)
Record Submission := mkSubmission { sub_editJob : option Job; sub_payload : JobCreate }.

(** [w_submitting] holds the save whose promise has not settled; [submitting]
    is whether there is one.  [w_editor] and [w_drafts] belong to the controls
    of steps 2 and 4, which exist while their step is shown. *)
Record Wizard := mkWizard {
  w_props : Props;
  w_open : bool;
  w_step : Z;
  w_state : WizardState;
  w_pathDraft : jsstr;
  w_query : jsstr;
  w_submitting : option Submission;
  w_error : option jsstr;
  w_editor : Editor;
  w_drafts : jsstr * jsstr;
}.

(** A row of a list is named by its position. *)
Inductive WizardMsg :=
  (** The page: fresh data, and opening the form. *)
  | Refresh (targets : list Target) (vms : list CachedVM) (agents : list Agent)
  | Open (initialVM : option CachedVM) (editJob : option Job)
  (** The frame: Cancel, Escape, the scrim and the close button; the footer. *)
  | Close
  | Back
  | Continue
  | Submit
  (** Step 0. *)
  | SetName (text : jsstr)
  | SetKind (kind : JobKind)
  | SetMode (mode : VMSourceMode)
  | PickTag (tag : jsstr)
  | TypeQuery (text : jsstr)
  | ToggleVM (row : nat)
  | PickAgent (row : nat)
  | TypePathDraft (text : jsstr)
  | AddInclude
  | RemoveInclude (path : jsstr)
  (** Steps 1 to 5. *)
  | PickTarget (row : nat)
  | EditSchedule (msg : EditorMsg)
  | EditRetention (msg : RetentionMsg)
  | EditPolicy (msg : PolicyMsg)
  | SetEnabled (checked : bool)
  (** The save settles. *)
  | Saved
  | Failed (err : Thrown).

Definition with_state (w : Wizard) (s : WizardState) : Wizard :=
  mkWizard (w_props w) (w_open w) (w_step w) s (w_pathDraft w) (w_query w) (w_submitting w) (w_error w)
    (w_editor w) (w_drafts w).

(** [setStep]: the step's control is mounted on the current value. *)
Definition goto (step : Z) (w : Wizard) : Wizard :=
  mkWizard (w_props w) (w_open w) step (w_state w) (w_pathDraft w) (w_query w) (w_submitting w) (w_error w)
    (control_mount (s_schedule (w_state w)))
    (@control_mount _ _ _ (policy_control (s_kind (w_state w))) (s_policy (w_state w))).

(** The effect of [open] becoming true; [submitting] is left as it is. *)
Definition openWizard (props : Props) (submitting : option Submission) : Wizard :=
  let s := initialState (p_editJob props) (p_initialVM props) (p_vms props) in
  goto 0 (mkWizard props true 0 s [] [] submitting None (control_mount (s_schedule s)) ([], [])).

(** [patch] of one field. *)
Definition set_selected (vms : list CachedVM) (s : WizardState) : WizardState :=
  mkState (s_name s) (s_kind s) (s_sourceMode s) vms (s_tagFilter s) (s_agentId s) (s_paths s)
    (s_targetId s) (s_schedule s) (s_retention s) (s_policy s) (s_enabled s).
Definition set_tag (tag : jsstr) (s : WizardState) : WizardState :=
  mkState (s_name s) (s_kind s) (s_sourceMode s) (s_selectedVMs s) tag (s_agentId s) (s_paths s)
    (s_targetId s) (s_schedule s) (s_retention s) (s_policy s) (s_enabled s).
Definition set_name (name : jsstr) (s : WizardState) : WizardState :=
  mkState name (s_kind s) (s_sourceMode s) (s_selectedVMs s) (s_tagFilter s) (s_agentId s) (s_paths s)
    (s_targetId s) (s_schedule s) (s_retention s) (s_policy s) (s_enabled s).
Definition set_jobKind (kind : JobKind) (s : WizardState) : WizardState :=
  mkState (s_name s) kind (s_sourceMode s) (s_selectedVMs s) (s_tagFilter s) (s_agentId s) (s_paths s)
    (s_targetId s) (s_schedule s) (s_retention s) (s_policy s) (s_enabled s).
Definition set_mode (mode : VMSourceMode) (s : WizardState) : WizardState :=
  mkState (s_name s) (s_kind s) mode (s_selectedVMs s) (s_tagFilter s) (s_agentId s) (s_paths s)
    (s_targetId s) (s_schedule s) (s_retention s) (s_policy s) (s_enabled s).
Definition set_agent (agentId : ID) (s : WizardState) : WizardState :=
  mkState (s_name s) (s_kind s) (s_sourceMode s) (s_selectedVMs s) (s_tagFilter s) agentId (s_paths s)
    (s_targetId s) (s_schedule s) (s_retention s) (s_policy s) (s_enabled s).
Definition set_includes (paths : list jsstr) (s : WizardState) : WizardState :=
  mkState (s_name s) (s_kind s) (s_sourceMode s) (s_selectedVMs s) (s_tagFilter s) (s_agentId s) paths
    (s_targetId s) (s_schedule s) (s_retention s) (s_policy s) (s_enabled s).
Definition set_target (targetId : ID) (s : WizardState) : WizardState :=
  mkState (s_name s) (s_kind s) (s_sourceMode s) (s_selectedVMs s) (s_tagFilter s) (s_agentId s) (s_paths s)
    targetId (s_schedule s) (s_retention s) (s_policy s) (s_enabled s).
Definition set_schedule (schedule : Schedule) (s : WizardState) : WizardState :=
  mkState (s_name s) (s_kind s) (s_sourceMode s) (s_selectedVMs s) (s_tagFilter s) (s_agentId s) (s_paths s)
    (s_targetId s) schedule (s_retention s) (s_policy s) (s_enabled s).
Definition set_retention (retention : RetentionPolicy) (s : WizardState) : WizardState :=
  mkState (s_name s) (s_kind s) (s_sourceMode s) (s_selectedVMs s) (s_tagFilter s) (s_agentId s) (s_paths s)
    (s_targetId s) (s_schedule s) retention (s_policy s) (s_enabled s).
Definition set_policy (policy : JobPolicy) (s : WizardState) : WizardState :=
  mkState (s_name s) (s_kind s) (s_sourceMode s) (s_selectedVMs s) (s_tagFilter s) (s_agentId s) (s_paths s)
    (s_targetId s) (s_schedule s) (s_retention s) policy (s_enabled s).
Definition set_enabled (enabled : bool) (s : WizardState) : WizardState :=
  mkState (s_name s) (s_kind s) (s_sourceMode s) (s_selectedVMs s) (s_tagFilter s) (s_agentId s) (s_paths s)
    (s_targetId s) (s_schedule s) (s_retention s) (s_policy s) enabled.

(** ** Picking guests *)

Lemma toggleVM_keys vm l k :
  k ∈ map rowKey (toggleVM vm l) ↔ (if decide (k = rowKey vm) then k ∉ map rowKey l else k ∈ map rowKey l).
Proof.
  unfold toggleVM. destruct (existsb _ l) eqn:E.
  - apply existsb_exists in E as (x & Hx & Ex%bool_decide_eq_true).
    rewrite list_elem_of_In, in_map_iff. setoid_rewrite filter_In. setoid_rewrite negb_true_iff.
    unfold str_eqb. setoid_rewrite bool_decide_eq_false. destruct (decide (k = rowKey vm)) as [->|Hk].
    + split; [by intros (y & Ey & _ & Hy)|]. intros H. destruct H. rewrite <- Ex.
      by apply list_elem_of_In, in_map.
    + rewrite list_elem_of_In, in_map_iff. split; [intros (y & Ey & Hy & _)|intros (y & Ey & Hy)]; exists y; [done|].
      split_and!; [done..|]. by rewrite Ey.
  - assert (Hn : rowKey vm ∉ map rowKey l).
    { intros (x & Ex & Hx)%list_elem_of_In%in_map_iff. apply not_true_iff_false in E. apply E.
      apply existsb_exists. exists x. split; [done|]. by apply bool_decide_eq_true. }
    rewrite map_app, elem_of_app. cbn [map]. rewrite list_elem_of_singleton.
    destruct (decide (k = rowKey vm)); naive_solver.
Qed.

Lemma toggleVM_NoDup vm l : NoDup (map rowKey l) → NoDup (map rowKey (toggleVM vm l)).
Proof.
  intros H. pose proof (toggleVM_keys vm l (rowKey vm)) as Hk. rewrite decide_True in Hk by done.
  unfold toggleVM in *. destruct (existsb _ l); [by apply NoDup_map_filter|].
  rewrite map_app. apply NoDup_app. split_and!; [done| |apply NoDup_singleton].
  cbn [map]. intros k Hkl ->%list_elem_of_singleton. rewrite map_app in Hk. set_solver.
Qed.

Lemma vmid_text z : 0 <= z <= 2 ^ 53 → str_of_num (of_Z z) = digits (Z.to_N z).
Proof. intros H. rewrite str_of_num_Z by lia. unfold str_of_Z. by destruct (Z.ltb_spec z 0); [lia|]. Qed.

(** A key names one guest: the host's text and the VMID. *)
Lemma rowKey_inj a b i j : vm_vmid a = of_Z i → vm_vmid b = of_Z j →
  0 <= i <= 2 ^ 53 → 0 <= j <= 2 ^ 53 → rowKey a = rowKey b →
  id_text (vm_hostId a) = id_text (vm_hostId b) ∧ i = j.
Proof.
  intros Ea Eb Hi Hj. unfold rowKey, vmKey. rewrite Ea, Eb. cbn [to_str].
  assert (Ht : ∀ id, to_str (id_val id) = id_text id) by (by intros []).
  rewrite !Ht, (vmid_text i), (vmid_text j) by done. unfold cat. cbn [concat]. rewrite !app_nil_r.
  change (u ":") with [58%N]. cbn [app]. intros E. pose proof (f_equal (after_last 58) E) as E'.
  rewrite !after_last_app in E' by auto with console. injection E' as E'. rewrite E' in E.
  apply app_inv_tail in E. split; [done|]. apply digits_inj in E'. lia.
Qed.

(** Pressing a guest's row toggles that guest and no other: a different
    VMID, or the same VMID on another host, keeps its state; no guest is ever
    listed twice, and pressing the row twice restores the selection. *)
Theorem toggle_guest vm l i :
  NoDup (map rowKey l) → vm_vmid vm = of_Z i → 0 <= i <= 2 ^ 53 →
  let l' := toggleVM vm l in
  NoDup (map rowKey l')
  ∧ (rowKey vm ∈ map rowKey l' ↔ rowKey vm ∉ map rowKey l)
  ∧ (∀ other j, vm_vmid other = of_Z j → 0 <= j <= 2 ^ 53 →
      id_text (vm_hostId other) ≠ id_text (vm_hostId vm) ∨ j ≠ i →
      (rowKey other ∈ map rowKey l' ↔ rowKey other ∈ map rowKey l))
  ∧ map rowKey (toggleVM vm l') ≡ₚ map rowKey l.
Proof.
  intros Hn Ei Hi l'. pose proof (toggleVM_NoDup vm l Hn) as Hn'. unfold l'. split_and!; [done| | |].
  - rewrite toggleVM_keys. by rewrite decide_True.
  - intros other j Ej Hj Hne. rewrite toggleVM_keys. rewrite decide_False; [done|].
    intros E. destruct (rowKey_inj other vm j i Ej Ei Hj Hi E) as [??]. by destruct Hne.
  - apply NoDup_Permutation; [by apply toggleVM_NoDup|done|]. intros k. rewrite (toggleVM_keys vm (toggleVM vm l)).
    destruct (decide (k = rowKey vm)) as [->|Hk]; rewrite (toggleVM_keys vm l);
      [rewrite decide_True by done|by rewrite decide_False].
    destruct (decide (rowKey vm ∈ map rowKey l)); tauto.
Qed.

(** ** The payload *)

Lemma sourceRefKey_vmSource vm : sourceRefKey (vmSource vm) = rowKey vm.
Proof. unfold sourceRefKey, vmSource, rowKey. by js_eval. Qed.

Lemma vmSourcesOf_vmSources l : vmSourcesOf (VArr (map vmSource l)) = map vmSource l.
Proof.
  unfold vmSourcesOf. induction l as [|vm l IH]; [done|]. cbn [map List.filter].
  assert (E : isVMJobSource (vmSource vm) = true) by (unfold isVMJobSource, vmSource; by js_eval).
  by rewrite E, IH.
Qed.

Lemma source_keys l : map sourceRefKey (vmSourcesOf (VArr (map vmSource l))) = map rowKey l.
Proof. rewrite vmSourcesOf_vmSources, map_map. apply map_ext, sourceRefKey_vmSource. Qed.

Lemma agent_source s : s_kind s = JAgent →
  agentIdOf (agentSourceOf (sources s)) = s_agentId s ∧ pathsOf (agentSourceOf (sources s)) = s_paths s.
Proof.
  intros E. unfold sources. rewrite E. unfold agentSourceOf, isAgentJobSource. js_eval.
  unfold agentIdOf, pathsOf. js_eval. cbn [array_or_nil]. rewrite only_strings_map.
  split; [|done]. by destruct (s_agentId s).
Qed.

(** What the server is sent: read back with the code's own readers. *)
Record payload_ok (p : JobCreate) : Prop := {
  pl_name : jc_name p ≠ [] ∧ trim (jc_name p) = jc_name p;
  pl_target : chosen (jc_targetId p) = true;
  pl_schedule : isScheduleComplete (jc_schedule p) = true
    ∧ parseSchedule (schedule_val (jc_schedule p)) = jc_schedule p;
  pl_retention : 1 <= retentionRuleCount (jc_retention p)
    ∧ parseRetention (retention_val (jc_retention p)) = jc_retention p;
  pl_policy : ∃ policy, jc_policy p = Some policy
    ∧ parsePolicy (policy_val policy) = set_window (complete_window (window policy)) policy;
  pl_sources :
    match jc_kind p with
    | JVm => ∃ tag, jc_tagFilter p = Some tag
        ∧ (if decide (tag = [])
           then vmSourcesOf (jc_sources p) ≠ [] ∧ NoDup (map sourceRefKey (vmSourcesOf (jc_sources p)))
           else jc_sources p = VArr [])
    | JAgent => jc_tagFilter p = None
        ∧ chosen (agentIdOf (agentSourceOf (jc_sources p))) = true
        ∧ pathsOf (agentSourceOf (jc_sources p)) ≠ []
    end;
}.

Lemma is_nil_false {A} (l : list A) : is_nil l = false ↔ l ≠ [].
Proof. by destruct l. Qed.

Lemma sources_ok s : stepValid s 0 = true → NoDup (map rowKey (s_selectedVMs s)) →
  match s_kind s with
  | JVm => ∃ tag, jc_tagFilter (payload s) = Some tag
      ∧ (if decide (tag = [])
         then vmSourcesOf (sources s) ≠ [] ∧ NoDup (map sourceRefKey (vmSourcesOf (sources s)))
         else sources s = VArr [])
  | JAgent => jc_tagFilter (payload s) = None
      ∧ chosen (agentIdOf (agentSourceOf (sources s))) = true ∧ pathsOf (agentSourceOf (sources s)) ≠ []
  end.
Proof.
  unfold stepValid. cbn [Z.eqb]. destruct (negb (non_blank (s_name s))); [done|].
  destruct (s_kind s) eqn:Ek; cbn [payload jc_tagFilter]; rewrite Ek; rewrite ?bool_decide_eq_false_2 by done.
  - intros Hv Hn. eexists. split; [done|]. unfold sources. rewrite Ek. destruct (byTag s).
    + unfold str_eqb in Hv. b2p. by rewrite decide_False.
    + rewrite decide_True, source_keys, vmSourcesOf_vmSources by done. b2p. split; [|done].
      rewrite is_nil_false in Hv. by destruct (s_selectedVMs s).
  - rewrite bool_decide_eq_true_2 by done. intros Hv Hn. b2p.
    destruct (agent_source s Ek) as [-> ->]. rewrite is_nil_false in H0. done.
Qed.

(** ** Editing a job *)

Lemma has_key_spec keys vm : has_key keys vm = true ↔ rowKey vm ∈ keys.
Proof. unfold has_key. by rewrite <- elem_of_existsb. Qed.

Lemma selected_keys wanted vms k :
  k ∈ map rowKey (List.filter (has_key wanted) vms) ↔ k ∈ wanted ∧ k ∈ map rowKey vms.
Proof.
  rewrite !list_elem_of_In, !in_map_iff. setoid_rewrite filter_In. setoid_rewrite has_key_spec.
  setoid_rewrite <- list_elem_of_In. naive_solver.
Qed.

(** Opening a job for editing and saving it untouched sends its own name
    (trimmed), kind, target, schedule, retention, policy and enabled flag as the
    console reads them; a tag job keeps its tag, an agent job its agent and
    paths, and a fixed-list job exactly those of its guests that the cached
    inventory still lists. *)
Theorem edit_untouched job initialVM vms :
  let p := payload (initialState (Some job) initialVM vms) in
  (jc_name p = trim (jb_name job) ∧ jc_kind p = jb_kind job ∧ jc_targetId p = jb_targetId job
   ∧ jc_schedule p = parseSchedule (jb_schedule job) ∧ jc_retention p = parseRetention (jb_retention job)
   ∧ jc_policy p = Some (parsePolicy (jb_policy job)) ∧ jc_enabled p = jb_enabled job)
  ∧ match jb_kind job with
    | JVm =>
        match present (jb_tagFilter job) with
        | Some tag => jc_tagFilter p = Some tag ∧ jc_sources p = VArr []
        | None => jc_tagFilter p = Some []
            ∧ ∀ k, k ∈ map sourceRefKey (vmSourcesOf (jc_sources p))
                   ↔ k ∈ map sourceRefKey (vmSourcesOf (jb_sources job)) ∧ k ∈ map rowKey vms
        end
    | JAgent => jc_tagFilter p = None
        ∧ agentIdOf (agentSourceOf (jc_sources p)) = agentIdOf (agentSourceOf (jb_sources job))
        ∧ pathsOf (agentSourceOf (jc_sources p)) = pathsOf (agentSourceOf (jb_sources job))
    end.
Proof.
  intros p. split; [done|]. set (s := initialState (Some job) initialVM vms) in p.
  destruct (jb_kind job) eqn:Ek.
  - unfold p, payload, sources, byTag, present. change (s_kind s) with (jb_kind job). rewrite Ek.
    cbn [jc_tagFilter jc_sources]. cbn [s initialState s_sourceMode s_tagFilter s_selectedVMs].
    rewrite (bool_decide_eq_true_2 (JVm = JVm)) by done. cbn [andb].
    destruct (jb_tagFilter job) as [[|c t]|]; split; try done; intros k;
      change (bool_decide _) with false; cbn match; by rewrite source_keys, selected_keys.
  - unfold p. cbn [payload jc_sources jc_tagFilter]. change (s_kind s) with (jb_kind job). rewrite Ek.
    split; [done|]. by apply agent_source.
Qed.

(** Saving an edited job drops the guests the cached inventory does not list:
    here the only one, and the form then refuses to leave its first step. *)
Lemma edit_drops_missing job : jb_kind job = JVm → jb_tagFilter job = None →
  vmSourcesOf (jc_sources (payload (initialState (Some job) None []))) = [].
Proof. intros Ek Et. unfold payload, sources, byTag, initialState. by rewrite Ek, Et. Qed.

Section wizard.
(** [toLowerCase] and [a.localeCompare(b) <= 0]. *)
Context (toLowerCase : jsstr → jsstr) (locale_le : jsstr → jsstr → bool).
(** How the engine words its own exceptions. *)
Context (engineText : jsstr).

Definition filteredVMs (vms : list CachedVM) (query : jsstr) : list CachedVM :=
  let needle := toLowerCase (trim query) in
  if str_eqb needle [] then vms
  else List.filter (λ vm,
    includes needle (toLowerCase (vm_name vm)) || includes needle (str_of_num (vm_vmid vm))
    || includes needle (toLowerCase (vm_node vm)) || includes needle (toLowerCase (vm_hostName vm))) vms.

Definition availableTags (vms : list CachedVM) : list jsstr := allTagsOf locale_le (map vm_tags vms).

Definition tagMatches (vms : list CachedVM) (tagFilter : jsstr) : list CachedVM :=
  if str_eqb tagFilter [] then [] else vmsWithTag vm_tags vms tagFilter.

Definition isLast (w : Wizard) : bool := w_step w =? lastStep.

(** Whether the component offers an operation: the button is rendered and not
    disabled, or the event can happen. *)
Definition wizard_offered (w : Wizard) (msg : WizardMsg) : bool :=
  let s := w_state w in
  let at_step (i : Z) : bool := w_open w && (w_step w =? i) in
  let vms := p_vms (w_props w) in
  match msg with
  | Refresh _ _ _ => true
  | Open _ _ => negb (w_open w)
  | Close => w_open w
  | Back => w_open w && negb (w_step w =? 0) && is_none (w_submitting w)
  | Continue => w_open w && negb (isLast w) && stepValid s (w_step w)
  | Submit => w_open w && isLast w && is_none (w_submitting w)
  | SetName _ => at_step 0
  | SetKind _ => at_step 0 && is_none (p_editJob (w_props w))
  | SetMode _ => at_step 0 && bool_decide (s_kind s = JVm)
  | PickTag tag => at_step 0 && byTag s && includes_str (availableTags vms) tag
  | TypeQuery _ => at_step 0 && bool_decide (s_kind s = JVm) && negb (byTag s)
  | ToggleVM row => at_step 0 && bool_decide (s_kind s = JVm) && negb (byTag s)
      && negb (is_none (filteredVMs vms (w_query w) !! row))
  | PickAgent row => at_step 0 && bool_decide (s_kind s = JAgent)
      && negb (is_none (p_agents (w_props w) !! row))
  | TypePathDraft _ | AddInclude => at_step 0 && bool_decide (s_kind s = JAgent)
  | RemoveInclude path => at_step 0 && bool_decide (s_kind s = JAgent) && includes_str (s_paths s) path
  | PickTarget row => at_step 1 && negb (is_none (p_targets (w_props w) !! row))
  | EditSchedule m => at_step 2 && control_offered (w_editor w) (s_schedule s) m
  | EditRetention m => at_step 3 && control_offered tt (s_retention s) m
  | EditPolicy m => at_step 4 && @control_offered _ _ _ (policy_control (s_kind s)) (w_drafts w) (s_policy s) m
  | SetEnabled _ => at_step 5
  | Saved | Failed _ => negb (is_none (w_submitting w))
  end.

Definition wizard_update (w : Wizard) (msg : WizardMsg) : Wizard :=
  let '(mkWizard props open step s draft query submitting error editor drafts) := w in
  let patch f := mkWizard props open step (f s) draft query submitting error editor drafts in
  match msg with
  | Refresh targets vms agents =>
      mkWizard (mkProps targets vms agents (p_initialVM props) (p_editJob props))
        open step s draft query submitting error editor drafts
  | Open initialVM editJob =>
      openWizard (mkProps (p_targets props) (p_vms props) (p_agents props) initialVM editJob) submitting
  | Close => mkWizard props false step s draft query submitting error editor drafts
  | Back => goto (Z.max 0 (step - 1)) w
  | Continue => goto (Z.min lastStep (step + 1)) w
  | Submit =>
      mkWizard props open step s draft query (Some (mkSubmission (p_editJob props) (payload s))) None editor drafts
  | SetName text => patch (set_name text)
  | SetKind kind => patch (set_jobKind kind)
  | SetMode mode => patch (set_mode mode)
  | PickTag tag => patch (set_tag (if str_eqb (s_tagFilter s) tag then [] else tag))
  | TypeQuery text => mkWizard props open step s draft text submitting error editor drafts
  | ToggleVM row =>
      match filteredVMs (p_vms props) query !! row with
      | Some vm => patch (set_selected (toggleVM vm (s_selectedVMs s)))
      | None => w
      end
  | PickAgent row =>
      match p_agents props !! row with Some agent => patch (set_agent (ag_id agent)) | None => w end
  | TypePathDraft text => mkWizard props open step s text query submitting error editor drafts
  | AddInclude =>
      let r := addPath (s_paths s) draft in
      mkWizard props open step (set_includes r.1 s) r.2 query submitting error editor drafts
  | RemoveInclude path => patch (set_includes (List.filter (λ item, negb (str_eqb item path)) (s_paths s)))
  | PickTarget row =>
      match p_targets props !! row with Some target => patch (set_target (tg_id target)) | None => w end
  | EditSchedule m =>
      let r := control_step editor (s_schedule s) m in
      mkWizard props open step (set_schedule r.2 s) draft query submitting error r.1 drafts
  | EditRetention m => patch (set_retention (control_step tt (s_retention s) m).2)
  | EditPolicy m =>
      let r := @control_step _ _ _ (policy_control (s_kind s)) drafts (s_policy s) m in
      mkWizard props open step (set_policy r.2 s) draft query submitting error editor r.1
  | SetEnabled checked => patch (set_enabled checked)
  | Saved => mkWizard props false step s draft query None error editor drafts
  | Failed err =>
      mkWizard props open step s draft query None (Some (errorMessage engineText err)) editor drafts
  end.

(** What the component does besides changing its state. *)
Inductive Effect :=
  | Send (request : option Request)
  | ToastSuccess (title : jsstr) (detail : option jsstr)
  | ToastError (title detail : jsstr)
  | OnSaved
  | OnClose.

Definition wizard_effects (w : Wizard) (msg : WizardMsg) : list Effect :=
  match msg, w_submitting w with
  | Close, _ => [OnClose]
  | Submit, _ =>
      let p := payload (w_state w) in
      [Send match p_editJob (w_props w) with
            | Some job => patchJob (jb_id job) (jobCreate_val p)
            | None => createJob p
            end]
  | Saved, Some (mkSubmission (Some _) p) =>
      [ToastSuccess (cat [u "Job “"; jc_name p; u "” updated."]) None; OnSaved; OnClose]
  | Saved, Some (mkSubmission None p) =>
      [ToastSuccess (cat [u "Job “"; jc_name p; u "” created."])
         (Some (if isManualSchedule (jc_schedule p) then u "Run it from the Backup Jobs page."
                else describeSchedule (schedule_val (jc_schedule p)))); OnSaved; OnClose]
  | Failed err, Some (mkSubmission editJob _) =>
      [ToastError (match editJob with Some _ => u "Could not update job" | None => u "Could not create job" end)
         (errorMessage engineText err)]
  | _, _ => []
  end.

(** ** Runs *)

(** The inventory lists each guest once. *)
Definition inventory_ok (vms : list CachedVM) : Prop := NoDup (map rowKey vms).

Definition msg_ok (msg : WizardMsg) : Prop :=
  match msg with Refresh _ vms _ => inventory_ok vms | _ => True end.

Inductive wizard_run : Wizard → Prop :=
  | wizard_open props : inventory_ok (p_vms props) → wizard_run (openWizard props None)
  | wizard_step w msg : wizard_run w → wizard_offered w msg = true → msg_ok msg →
      wizard_run (wizard_update w msg).

(** ** The invariant *)

Definition steps_valid (s : WizardState) (step : Z) : Prop :=
  ∀ i, 0 <= i < step → stepValid s i = true.

Record state_ok (s : WizardState) : Prop := {
  st_schedule : good_schedule (s_schedule s);
  st_retention : valid_retention (s_retention s);
  st_policy : good_policy (s_policy s);
  st_selected : NoDup (map rowKey (s_selectedVMs s));
}.

Record wizard_ok (w : Wizard) : Prop := {
  wz_inventory : inventory_ok (p_vms (w_props w));
  wz_step : 0 <= w_step w <= lastStep;
  wz_state : state_ok (w_state w);
  wz_editor : editor_inv (w_editor w) (s_schedule (w_state w));
  wz_kind : ∀ job, p_editJob (w_props w) = Some job → s_kind (w_state w) = jb_kind job;
  wz_valid : steps_valid (w_state w) (w_step w);
}.

Lemma initialState_ok props : inventory_ok (p_vms props) →
  let s := initialState (p_editJob props) (p_initialVM props) (p_vms props) in
  state_ok s ∧ ∀ job, p_editJob props = Some job → s_kind s = jb_kind job.
Proof.
  intros Hi. destruct (p_editJob props) as [job|] eqn:E; cbn [initialState].
  - split; [split|].
    + apply good_valid, parseSchedule_normal.
    + apply parseRetention_valid.
    + apply good_policy_valid, parsePolicy_normal.
    + by apply NoDup_map_filter.
    + by intros ? [= ->].
  - split; [split|]; [| | | |done].
    + by apply good_valid.
    + repeat split; cbn; lia.
    + apply good_policy_valid. split; [apply fields_default|done].
    + cbn [s_selectedVMs]. destruct (p_initialVM props); [apply NoDup_singleton|constructor].
Qed.

Lemma goto_ok w step : wizard_ok w → 0 <= step <= lastStep → steps_valid (w_state w) step →
  wizard_ok (goto step w).
Proof.
  intros [Hi Hs [] He Hk Hv] Hstep Hvalid. split; cbn [goto w_props w_step w_state w_editor]; try done.
  by apply mount_inv.
Qed.

Lemma openWizard_ok props sub : inventory_ok (p_vms props) → wizard_ok (openWizard props sub).
Proof.
  intros Hi. destruct (initialState_ok props Hi) as [Hs Hk].
  split; cbn [openWizard goto w_props w_step w_state w_editor]; try done.
  - by apply mount_inv, Hs.
  - intros i Hi'. lia.
Qed.

(** An edit of the fields of the current step. *)
Lemma edit_ok w s' draft query sub err editor drafts :
  wizard_ok w → state_ok s' → editor_inv editor (s_schedule s') →
  (∀ job, p_editJob (w_props w) = Some job → s_kind s' = jb_kind job) →
  (∀ i, 0 <= i < w_step w → stepValid s' i = stepValid (w_state w) i) →
  wizard_ok (mkWizard (w_props w) (w_open w) (w_step w) s' draft query sub err editor drafts).
Proof.
  intros [Hi Hs _ _ _ Hv] Hs' He Hk Hsame. split; cbn [w_props w_step w_state w_editor]; try done.
  intros i Hr. rewrite Hsame by done. by apply Hv.
Qed.

Ltac wizard_fields :=
  cbn [w_props w_open w_step w_state w_pathDraft w_query w_submitting w_error w_editor w_drafts
       s_name s_kind s_sourceMode s_selectedVMs s_tagFilter s_agentId s_paths s_targetId s_schedule
       s_retention s_policy s_enabled set_name set_jobKind set_mode set_tag set_selected set_agent
       set_includes set_target set_schedule set_retention set_policy set_enabled] in *.

(** The steps before the current one do not read its fields. *)
Ltac earlier_steps :=
  let i := fresh "i" in let Hi := fresh in let H := fresh in
  intros i Hi; first
    [ reflexivity
    | exfalso; lia
    | assert (H : i = 0 ∨ i = 1 ∨ i = 2 ∨ i = 3 ∨ i = 4) by lia; destruct_or! H; subst i;
      first [reflexivity | exfalso; lia] ].

Lemma update_wizard_ok w msg :
  wizard_ok w → wizard_offered w msg = true → msg_ok msg → wizard_ok (wizard_update w msg).
Proof.
  intros Hw Ho Hm. pose proof Hw as [Hi Hs [Hsch Hret Hpol Hsel] He Hk Hv].
  pose proof (λ s' d q sub err ed dr, edit_ok w s' d q sub err ed dr Hw) as Hedit.
  destruct w as [props open step s draft query sub err ed dr].
  destruct msg; cbn [wizard_offered] in Ho; b2p; cbn [wizard_update]; wizard_fields; subst;
    try (apply Hedit; [by split| | |]; wizard_fields; [done|done|earlier_steps]).
  - split; wizard_fields; done.
  - by apply openWizard_ok.
  - split; wizard_fields; done.
  - apply goto_ok; wizard_fields; [done|lia|]. intros i Hr. apply Hv. lia.
  - apply goto_ok; wizard_fields; [done|unfold lastStep in *; cbn in *; lia|]. intros i Hr.
    destruct (decide (i = step)) as [->|]; [done|]. apply Hv. lia.
  - (* SetKind *)
    apply Hedit; [by split|done| |earlier_steps]. intros job E. wizard_fields. by rewrite E in *.
  - (* ToggleVM *)
    case_on_goal; [|done]. apply Hedit; [split; wizard_fields; auto using toggleVM_NoDup|done|done|earlier_steps].
  - (* PickAgent *)
    case_on_goal; [|done]. apply Hedit; [by split|done|done|earlier_steps].
  - (* PickTarget *)
    case_on_goal; [|done]. apply Hedit; [by split|done|done|earlier_steps].
  - (* EditSchedule *)
    pose proof (step_inv _ _ _ He ltac:(eassumption)) as Hc.
    apply Hedit; [split; wizard_fields; auto|done|done|earlier_steps]. by eapply inv_good.
  - (* EditRetention *)
    pose proof (step_inv tt _ _ Hret ltac:(eassumption)) as Hc.
    apply Hedit; [by split|done|done|earlier_steps].
  - (* EditPolicy *)
    pose proof (step_inv (ControlLaws := policy_laws (s_kind s)) dr _ _ Hpol ltac:(eassumption)) as Hc.
    apply Hedit; [by split|done|done|earlier_steps].
  - (* Saved *)
    by split.
Qed.

Lemma wizard_run_ok w : wizard_run w → wizard_ok w.
Proof. induction 1; [by apply openWizard_ok|by apply update_wizard_ok]. Qed.

(** ** Saving is well formed *)

(** C29: however the wizard is used - fresh data arriving, steps revisited, the
    form closed and reopened - whenever it offers to save, the payload it sends
    is a well-formed job: a trimmed non-empty name, a target, a complete
    schedule and at least one retention rule that both read back as sent, a
    policy that reads back as shown, and sources that resolve to something: a
    tag with no fixed list, a non-empty list of distinct guests with no tag, or
    an agent with at least one path and no tag.  An edited job keeps its kind. *)
Theorem wizard_submits_well_formed w :
  wizard_run w → wizard_offered w Submit = true →
  payload_ok (payload (w_state w))
  ∧ ∀ job, p_editJob (w_props w) = Some job → jc_kind (payload (w_state w)) = jb_kind job.
Proof.
  intros Hr Ho. destruct (wizard_run_ok w Hr) as [_ _ [Hs Hret Hpol Hsel] _ Hk Hv].
  cbn [wizard_offered] in Ho. b2p. unfold isLast in *. b2p. rewrite H1 in Hv.
  pose proof (Hv 0 ltac:(done)) as V0. pose proof (Hv 1 ltac:(done)) as V1.
  pose proof (Hv 2 ltac:(done)) as V2. pose proof (Hv 3 ltac:(done)) as V3.
  split; [|exact Hk]. split; cbn [payload jc_name jc_targetId jc_schedule jc_retention jc_policy].
  - split; [|apply trim_idem]. unfold stepValid in V0. cbn [Z.eqb] in V0. unfold non_blank, str_eqb in V0.
    intros E. rewrite E in V0. discriminate V0.
  - exact V1.
  - split; [exact V2|]. by apply parseSchedule_val, good_complete.
  - split; [by apply Z.leb_le|]. by apply parseRetention_val.
  - eexists. split; [done|]. destruct Hpol as [Hf Hw]. rewrite parsePolicy_val by done.
    by destruct (s_policy (w_state w)).
  - by apply sources_ok.
Qed.

(** A list of operations, each of which must be offered. *)
Fixpoint perform (w : Wizard) (msgs : list WizardMsg) : option Wizard :=
  match msgs with
  | [] => Some w
  | m :: ms => if wizard_offered w m then perform (wizard_update w m) ms else None
  end.

Lemma perform_run msgs w w' :
  wizard_run w → Forall msg_ok msgs → perform w msgs = Some w' → wizard_run w'.
Proof.
  revert w. induction msgs as [|m ms IH]; intros w Hw Hm; cbn [perform]; [by intros [= <-]|].
  inversion Hm; subst. destruct (wizard_offered w m) eqn:E; [|done].
  apply IH; [|done]. by apply wizard_step.
Qed.

(** ** Saving *)

Definition settles (msg : WizardMsg) : bool := match msg with Saved | Failed _ => true | _ => false end.

(** While a save is under way nothing else starts one. *)
Lemma perform_pending msgs w w' sub :
  w_submitting w = Some sub → Forall (λ m, settles m = false) msgs → perform w msgs = Some w' →
  w_submitting w' = Some sub.
Proof.
  revert w. induction msgs as [|m ms IH]; intros w Hw Hm; cbn [perform]; [by intros [= <-]|].
  inversion Hm; subst. destruct (wizard_offered w m) eqn:E; [|done]. apply IH; [|done].
  destruct w. cbn [w_submitting] in Hw. subst. destruct m; try done; cbn [wizard_update]; try case_on_goal; try done.
  cbn [wizard_offered w_submitting is_none] in E. by rewrite andb_false_r in E.
Qed.

(** Pressing save sends exactly one request, with the form's payload; until
    it settles no sequence of operations offers saving again; a failure keeps
    the form as it was with the error shown and save offered again with the
    same request, and success closes the form. *)
Theorem save_once w :
  wizard_offered w Submit = true →
  let p := payload (w_state w) in
  let w1 := wizard_update w Submit in
  wizard_effects w Submit =
    [Send (match p_editJob (w_props w) with
           | Some job => patchJob (jb_id job) (jobCreate_val p)
           | None => createJob p
           end)]
  ∧ (∀ msgs w2, Forall (λ m, settles m = false) msgs → perform w1 msgs = Some w2 →
      wizard_offered w2 Submit = false ∧ wizard_offered w2 Saved = true)
  ∧ (∀ err, let w2 := wizard_update w1 (Failed err) in
      w_state w2 = w_state w ∧ w_error w2 = Some (errorMessage engineText err)
      ∧ wizard_offered w2 Submit = true ∧ wizard_effects w2 Submit = wizard_effects w Submit)
  ∧ w_open (wizard_update w1 Saved) = false ∧ OnSaved ∈ wizard_effects w1 Saved.
Proof.
  intros Ho p w1. split_and!.
  - unfold wizard_effects. by destruct (w_submitting w).
  - intros msgs w2 Hm Hp.
    assert (E : ∃ sub, w_submitting w1 = Some sub) by (destruct w; by eexists). destruct E as [sub E].
    pose proof (perform_pending msgs w1 w2 sub E Hm Hp) as E2. cbn [wizard_offered]. rewrite E2.
    cbn [is_none negb]. by rewrite andb_false_r.
  - intros err w2. destruct w. cbn [wizard_offered w_submitting] in Ho. b2p.
    unfold w2, w1. split_and!; try done; cbn [wizard_update wizard_offered w_submitting w_open isLast w_step is_none] in *.
    unfold isLast in *. cbn [w_step] in *. by rewrite H, H1.
  - by destruct w.
  - unfold w1. destruct w as [props ? ? ? ? ? ? ? ? ?]. cbn. destruct (p_editJob props); set_solver.
Qed.

(** The frame can be closed while a save is under way.  Its success then closes
    the form again although it was reopened for another job, and its failure is
    shown on that job's form. *)
Lemma stale_save w initialVM editJob err :
  wizard_offered w Submit = true →
  ∃ w2, perform w [Submit; Close; Open initialVM editJob] = Some w2
    ∧ w_state w2 = initialState editJob initialVM (p_vms (w_props w)) ∧ w_open w2 = true
    ∧ wizard_offered w2 Saved = true ∧ w_open (wizard_update w2 Saved) = false
    ∧ w_error (wizard_update w2 (Failed err)) = Some (errorMessage engineText err).
Proof.
  intros Ho. destruct w as [[] open ????????]. cbn [perform]. rewrite Ho.
  cbn [wizard_offered w_open w_submitting] in Ho. b2p. cbn in *. subst. by eexists.
Qed.

(** Leaving the schedule step while no weekday is chosen and coming back shows
    Sunday chosen, while the form still holds no day and refuses to go on. *)
Lemma sunday_not_held w time :
  w_step w = 2 → s_schedule (w_state w) = WeeklySchedule time [] →
  let w' := goto 2 w in
  toSchedule (e_draft (w_editor w')) = WeeklySchedule time [0] ∧ stepValid (w_state w') 2 = false.
Proof. intros _ E. cbn [goto w_editor w_state]. unfold stepValid. cbn [Z.eqb]. by rewrite E. Qed.
End wizard.

(** ** Witnesses *)

Definition sample_vm (name : jsstr) (vmid : Z) : CachedVM :=
  mkVM (of_Z vmid) name (u "node-1") (u "running") (VNum (of_Z 0)) (VNum (of_Z 0)) (VNum (of_Z 0)) (VArr [])
    (IdNum (of_Z 1)) (u "pve").

Definition sample_props : Props :=
  mkProps [mkTarget (IdNum (of_Z 7)) (u "nas") Filesystem (Some (u "/mnt/nas")) [] [] [] false (u "ok") VUndef VUndef false]
    [sample_vm (u "db-01") 101; sample_vm (u "web-01") 102] [] None None.

(** Naming the job, picking a guest and the target, and leaving the rest. *)
Definition sample_session : list WizardMsg :=
  [SetName (u " nightly "); ToggleVM 1; Continue; PickTarget 0; Continue; Continue; Continue; Continue].

Definition sample_wizard : Wizard :=
  match perform id (λ _ _, true) [] (openWizard sample_props None) sample_session with
  | Some w => w
  | None => openWizard sample_props None
  end.

Lemma sample_run : wizard_run id (λ _ _, true) [] sample_wizard.
Proof.
  eapply (perform_run _ _ _ sample_session (openWizard sample_props None)).
  - constructor. unfold inventory_ok. apply NoDup_ListNoDup. vm_compute. repeat constructor; simpl; intuition discriminate.
  - repeat constructor.
  - vm_compute. reflexivity.
Qed.

Lemma wizard_submits_well_formed_witness :
  let p := payload (w_state sample_wizard) in
  jc_name p = u "nightly" ∧ vmSourcesOf (jc_sources p) = [vmSource (sample_vm (u "web-01") 102)]
  ∧ payload_ok p.
Proof.
  intros p. split; [vm_compute; reflexivity|]. split; [vm_compute; reflexivity|].
  refine (proj1 (wizard_submits_well_formed id (λ _ _, true) [] sample_wizard sample_run _)). vm_compute. reflexivity.
Defined.

