(* ===== verification/JobWizardView.v ===== *)
(** * What the job wizard shows (web/src/components/JobWizard.tsx)

    The step rail, the tiles, chips and rows of each step, and the review, as
    functions of the wizard's state; and how operations change what is shown. *)
From S2P Require Import Prelude JsString JsNumber JsValue Schedule Calendar NextRun ScheduleText ScheduleEditor Policy Retention Control Json Transport Targets Format Runs Backups Inventory Endpoints JobWizard.

(** ** The step rail *)

Record RailItem := mkRail { rail_label : jsstr; rail_done : bool; rail_active : bool; rail_badge : option jsstr }.

(** A finished step shows a check mark in place of its number. *)
Definition StepRail (step : Z) : list RailItem :=
  imap (λ index label,
    let index := Z.of_nat index in
    let done := index <? step in
    mkRail label done (index =? step) (if done then None else Some (str_of_Z (index + 1)))) STEPS.

(** ** Tiles *)

(** [tile_disabled] is the reason, when the tile is disabled. *)
Record Tile := mkTile {
  tile_title : jsstr;
  tile_description : jsstr;
  tile_selected : bool;
  tile_disabled : option jsstr;
  tile_badge : option jsstr;
  tile_meta : option jsstr;
}.

Definition kind_fixed : jsstr := u "The job kind cannot be changed after creation.".

Definition kindTiles (w : Wizard) : list Tile :=
  let kind := s_kind (w_state w) in
  let disabled := match p_editJob (w_props w) with Some _ => Some kind_fixed | None => None end in
  [ mkTile (u "Virtual machines")
      (u "Agentless image backup through the Proxmox API — snapshot, export each disk, done.")
      (bool_decide (kind = JVm)) disabled None None;
    mkTile (u "Agent — file level")
      (u "An in-guest agent tars the paths you choose and streams them through the server.")
      (bool_decide (kind = JAgent)) disabled None None ].

Definition agentTiles (w : Wizard) : list Tile :=
  map (λ agent,
    mkTile (ag_hostname agent)
      (cat [ag_os agent; u "/"; ag_arch agent; u " · agent "; ag_version agent; u " · "; ag_status agent])
      (str_eqb (id_text (s_agentId (w_state w))) (id_text (ag_id agent))) None None None)
    (p_agents (w_props w)).

(** The include paths: whether Add is disabled, the rows with the label of each
    row's remove button, and what stands in for an empty list. *)
Definition includePanel (w : Wizard) : bool * list (jsstr * jsstr) * option jsstr :=
  let paths := s_paths (w_state w) in
  (negb (non_blank (w_pathDraft w)),
   map (λ path, (path, cat [u "Remove "; path])) paths,
   if is_nil paths then Some (u "Add at least one directory or file to include in the backup.") else None).

(** The line under an unfinished step. *)
Definition incompleteNote (w : Wizard) : option jsstr :=
  if negb (w_step w =? lastStep) && negb (stepValid (w_state w) (w_step w))
  then Some (u "Complete this step to continue.") else None.

Section view.
Context (toLowerCase : jsstr → jsstr) (locale_le : jsstr → jsstr → bool).
Context (Math_log : num → num) (toLocaleString : num → jsstr).
Context {zone : Zone} (formatToParts : jsstr → Z → option (list (jsstr * jsstr))).

(** [TargetCapacityLine]. *)
Definition TargetCapacityLine (target : Target) : option jsstr :=
  (λ capacity,
    cat [formatBytes Math_log (VNum (freeBytes capacity)) 1; u " free of ";
         formatBytes Math_log (VNum (totalBytes capacity)) 1;
         if low capacity then u " — running low" else []])
    <$> capacityOf (tg_kind target) (tg_freeBytes target) (tg_totalBytes target).

Definition targetTiles (w : Wizard) : list Tile :=
  map (λ target,
    mkTile (tg_name target) (targetLocation target)
      (str_eqb (id_text (s_targetId (w_state w))) (id_text (tg_id target))) None
      (Some (TARGET_KIND_SHORT (tg_kind target))) (TargetCapacityLine target))
    (p_targets (w_props w)).

(** ** Picking by tag *)

Definition workload (vm : CachedVM) : WorkloadRef :=
  mkWorkload (Some (vm_hostName vm)) (vm_name vm) (Some (vm_vmid vm)) (Some (vm_node vm)).

(** A chip: the tag, how many guests carry it, whether it is the one picked. *)
Definition tagChips (w : Wizard) : list (jsstr * Z * bool) :=
  let vms := p_vms (w_props w) in
  map (λ tag, (tag, Z.of_nat (length (vmsWithTag vm_tags vms tag)), str_eqb (s_tagFilter (w_state w)) tag))
    (availableTags locale_le vms).

Definition countOf {A} (l : list A) : jsval := VNum (of_Z (Z.of_nat (length l))).

(** The guests a picked tag selects right now, each with up to three of its
    other tags. *)
Definition tagPreview (w : Wizard) : option (jsstr * list (WorkloadRef * list jsstr) * option jsstr) :=
  let tag := s_tagFilter (w_state w) in
  if str_eqb tag [] then None else
  let matches := tagMatches (p_vms (w_props w)) tag in
  Some (cat [formatCount toLocaleString (countOf matches); u " ";
             if Z.of_nat (length matches) =? 1 then u "VM carries" else u "VMs carry"; u " this tag right now"],
        map (λ vm, (workload vm, take 3 (List.filter (λ t, negb (str_eqb t tag)) (tagsOf (vm_tags vm))))) matches,
        if is_nil matches
        then Some (u "Nothing carries this tag yet — a run that resolves to zero VMs fails.") else None).

(** ** Picking guests *)

Record VMRow := mkVMRow {
  row_pressed : bool; row_workload : WorkloadRef; row_disk : jsstr; row_tags : list jsstr; row_status : jsstr;
}.

Definition selectedKeys (w : Wizard) : list jsstr := map rowKey (s_selectedVMs (w_state w)).

Definition vmRow (w : Wizard) (vm : CachedVM) : VMRow :=
  mkVMRow (has_key (selectedKeys w) vm) (workload vm)
    (cat [formatBytes Math_log (vm_maxdisk vm) 1; u " disk"]) (take 3 (tagsOf (vm_tags vm))) (vm_status vm).

(** The count above the list, the rows, and what stands in for an empty list. *)
Definition vmPanel (w : Wizard) : jsstr * list VMRow * option jsstr :=
  let vms := p_vms (w_props w) in
  let shown := filteredVMs toLowerCase vms (w_query w) in
  (cat [str_of_Z (Z.of_nat (length (s_selectedVMs (w_state w)))); u " selected"],
   map (vmRow w) shown,
   if is_nil vms
   then Some (u "No virtual machines in the inventory yet. Add a Proxmox host, then refresh the Virtual Machines page.")
   else if is_nil shown then Some (cat [u "No virtual machine matches “"; w_query w; u "”."]) else None).

(** ** The review *)

Definition dash : jsstr := u "—".

Definition plural (n : nat) (one many : jsstr) : jsstr := if Z.of_nat n =? 1 then one else many.

Definition selectedTarget (w : Wizard) : option Target :=
  List.find (λ t, str_eqb (id_text (tg_id t)) (id_text (s_targetId (w_state w)))) (p_targets (w_props w)).
Definition selectedAgent (w : Wizard) : option Agent :=
  List.find (λ a, str_eqb (id_text (ag_id a)) (id_text (s_agentId (w_state w)))) (p_agents (w_props w)).

(** The lines of the Sources row: one, or one for each guest of a fixed list. *)
Definition reviewSources (w : Wizard) : list jsstr :=
  let s := w_state w in
  if byTag s then
    let matches := tagMatches (p_vms (w_props w)) (s_tagFilter s) in
    [cat [u "Tag: "; or_str (s_tagFilter s) dash; u " (currently "; formatCount toLocaleString (countOf matches);
          u " "; plural (length matches) (u "VM") (u "VMs"); u ")"]]
  else if bool_decide (s_kind s = JVm) then
    if is_nil (s_selectedVMs s) then [dash] else map (λ vm, identityText (workload vm)) (s_selectedVMs s)
  else
    [cat [match selectedAgent w with Some a => ag_hostname a | None => dash end; u " — ";
          str_of_Z (Z.of_nat (length (s_paths s))); u " "; plural (length (s_paths s)) (u "path") (u "paths")]].

Definition reviewSchedule (schedule : Schedule) (timezone : option jsstr) (now : Z) : list jsstr :=
  describeSchedule (schedule_val schedule)
  :: match nextRunOf formatToParts schedule timezone now with
     | Some run =>
         [cat [u "next run "; formatWallClock (Some run);
               match present timezone with Some tz => cat [u " ("; tz; u ")"] | None => [] end]]
     | None => []
     end.

Definition reviewRows (w : Wizard) (timezone : option jsstr) (now : Z) : list (jsstr * list jsstr) :=
  let s := w_state w in
  [ (u "Name", [or_str (trim (s_name s)) dash]);
    (u "Type", [if bool_decide (s_kind s = JVm) then u "Virtual machines (agentless)" else u "Agent (file level)"]);
    (u "Sources", reviewSources w);
    (u "Target", match selectedTarget w with
                 | Some t => [tg_name t; TARGET_KIND_SHORT (tg_kind t); targetLocation t]
                 | None => [dash]
                 end);
    (u "Schedule", reviewSchedule (s_schedule s) timezone now);
    (u "Retention", [describeRetention (retention_val (s_retention s))]);
    (u "Protection", PolicySummary (s_policy s) (s_kind s)) ].

(** The paths of an agent job, listed below the rows. *)
Definition reviewPaths (w : Wizard) : list jsstr :=
  if bool_decide (s_kind (w_state w) = JAgent) then s_paths (w_state w) else [].
End view.

(** ** Operations and what is shown *)

Definition flip_pressed (r : VMRow) : VMRow :=
  mkVMRow (negb (row_pressed r)) (row_workload r) (row_disk r) (row_tags r) (row_status r).

Lemma map_inj_lookup {A B} (f : A → B) l i j x y :
  NoDup (map f l) → l !! i = Some x → l !! j = Some y → f x = f y → i = j.
Proof.
  intros Hn Hi Hj E. eapply (NoDup_lookup (map f l)); [done| |].
  - change (map f l) with (f <$> l). by rewrite list_lookup_fmap, Hi.
  - change (map f l) with (f <$> l). by rewrite list_lookup_fmap, Hj, E.
Qed.

Lemma filteredVMs_keys toLowerCase vms query : inventory_ok vms →
  NoDup (map rowKey (filteredVMs toLowerCase vms query)).
Proof. intros H. unfold filteredVMs. case_on_goal; [done|]. by apply NoDup_map_filter. Qed.

Lemma has_key_toggle vm l k :
  existsb (str_eqb k) (map rowKey (toggleVM vm l)) =
  (if decide (k = rowKey vm) then negb (existsb (str_eqb k) (map rowKey l)) else existsb (str_eqb k) (map rowKey l)).
Proof.
  pose proof (toggleVM_keys vm l k) as H. apply eq_true_iff_eq. rewrite <- elem_of_existsb, H.
  destruct (decide (k = rowKey vm)); [|by rewrite <- elem_of_existsb].
  by rewrite negb_true_iff, elem_of_existsb, not_true_iff_false.
Qed.

(** In any use of the wizard, pressing a row of the guest list flips that
    row's check mark and leaves every other row, and the list itself, as it
    was. *)
Theorem row_press toLowerCase locale_le engineText Math_log w i :
  wizard_run toLowerCase locale_le engineText w →
  wizard_offered toLowerCase locale_le w (ToggleVM i) = true →
  let rows w := (vmPanel toLowerCase Math_log w).1.2 in
  rows (wizard_update toLowerCase engineText w (ToggleVM i)) = alter flip_pressed i (rows w).
Proof.
  intros Hr Ho. destruct (wizard_run_ok _ _ _ _ Hr) as [Hi _ _ _ _ _].
  destruct w as [props open step s draft query sub err ed dr]. cbn [wizard_offered w_props w_query] in *. b2p.
  unfold vmPanel. cbn [fst snd wizard_update w_props w_query].
  pose proof (filteredVMs_keys toLowerCase _ query Hi) as Hn.
  destruct (filteredVMs toLowerCase (p_vms props) query !! i) as [vm|] eqn:E; [|done]. cbn [w_props w_query].
  set (l := filteredVMs toLowerCase (p_vms props) query) in *.
  apply list_eq. intros j. rewrite list_lookup_alter.
  change (map ?f l) with (f <$> l). rewrite !list_lookup_fmap.
  destruct (decide (i = j)) as [->|Hne]; destruct (l !! j) as [vm'|] eqn:E'; cbn [fmap option_fmap option_map]; [|done| |done].
  - simplify_eq. f_equal. unfold vmRow, selectedKeys, has_key, flip_pressed. cbn.
    rewrite has_key_toggle. by rewrite decide_True.
  - f_equal. unfold vmRow, selectedKeys, has_key. cbn. rewrite has_key_toggle. rewrite decide_False; [done|].
    intros Ek. apply Hne. by eapply map_inj_lookup.
Qed.

(** The choice of a radio group: the tile at [i] and no other. *)
Definition only_at (i : nat) (n : nat) : list bool := map (Nat.eqb i) (List.seq 0 n).

Lemma radio_selected {A} (key : A → jsstr) l i x :
  NoDup (map key l) → l !! i = Some x → map (λ y, str_eqb (key x) (key y)) l = only_at i (length l).
Proof.
  intros Hn Hx. apply list_eq. intros j. unfold only_at.
  change (map ?f l) with (f <$> l). change (map ?f (List.seq 0 (length l))) with (f <$> List.seq 0 (length l)).
  rewrite !list_lookup_fmap. destruct (l !! j) as [y|] eqn:E.
  - rewrite lookup_seq_lt by (by eapply lookup_lt_Some). cbn [fmap option_fmap option_map]. f_equal.
    apply eq_true_iff_eq. unfold str_eqb. rewrite bool_decide_eq_true, Nat.eqb_eq.
    cbn [Nat.add]. split; [intros Ek; by eapply map_inj_lookup|]. intros ->. by simplify_eq.
  - rewrite lookup_seq_ge by (by apply lookup_ge_None in E). done.
Qed.

Lemma find_key_lookup {A} (key : A → jsstr) l i x :
  NoDup (map key l) → l !! i = Some x → List.find (λ y, str_eqb (key y) (key x)) l = Some x.
Proof.
  intros Hn. revert i. induction l as [|y l IH]; intros i Hx; [done|]. cbn [List.find map] in *.
  apply NoDup_cons in Hn as [Hy Hn]. unfold str_eqb. case_bool_decide as Ek.
  - destruct i; [done|]. exfalso. apply Hy. rewrite Ek. apply list_elem_of_In, in_map.
    apply list_elem_of_In. by eapply list_elem_of_lookup_2.
  - destruct i; [by simplify_eq/=|]. by eapply IH.
Qed.

(** Picking a target (or an agent) selects its tile and no other, and the
    review names what was picked. *)
Theorem radio_groups toLowerCase locale_le engineText Math_log w i :
  NoDup (map (λ t, id_text (tg_id t)) (p_targets (w_props w))) →
  NoDup (map (λ a, id_text (ag_id a)) (p_agents (w_props w))) →
  (wizard_offered toLowerCase locale_le w (PickTarget i) = true →
   let w' := wizard_update toLowerCase engineText w (PickTarget i) in
   map tile_selected (targetTiles Math_log w') = only_at i (length (p_targets (w_props w)))
   ∧ selectedTarget w' = p_targets (w_props w) !! i)
  ∧ (wizard_offered toLowerCase locale_le w (PickAgent i) = true →
   let w' := wizard_update toLowerCase engineText w (PickAgent i) in
   map tile_selected (agentTiles w') = only_at i (length (p_agents (w_props w)))
   ∧ selectedAgent w' = p_agents (w_props w) !! i).
Proof.
  intros Ht Ha. destruct w as [props open step s draft query sub err ed dr]. cbn [w_props] in Ht, Ha.
  split; intros Ho w'; cbn [wizard_offered w_props] in Ho; b2p; unfold w'; clear w'; cbn [wizard_update w_props].
  - destruct (p_targets props !! i) as [t|] eqn:E; [|done]. split.
    + unfold targetTiles. cbn. rewrite map_map. cbn. by apply (radio_selected (λ t, id_text (tg_id t))).
    + unfold selectedTarget. cbn. by eapply (find_key_lookup (λ t, id_text (tg_id t))).
  - destruct (p_agents props !! i) as [a|] eqn:E; [|done]. split.
    + unfold agentTiles. cbn. rewrite map_map. cbn. by apply (radio_selected (λ a, id_text (ag_id a))).
    + unfold selectedAgent. cbn. by eapply (find_key_lookup (λ a, id_text (ag_id a))).
Qed.
