(* ===== verification/ServerJobs.v ===== *)
(** * Jobs on the server (internal/api/handlers_jobs.go, internal/store/policy.go, retention.go, jobs.go)

    The protection and retention policies as the server decodes, tidies and
    checks them, and the handlers that create, change and delete a job, with
    the failures of the database between their steps. *)
From stdpp Require Import gmap.
From S2P Require Import Prelude JsString JsNumber JsValue Schedule Retention GoString ServerSchedule ServerAudit ServerSettings ServerTargets ServerPosture.
#[local] Open Scope Z_scope.

(** ** Retention *)

Definition MaxRetentionCount : Z := 9999.
Definition KeepLast (n : Z) : RetentionPolicy := mkRetention n 0 0 0 0.

(** [RetentionPolicy.UnmarshalJSON]; the record is the console's. *)
Definition decRetention (v : jsval) : option RetentionPolicy :=
  match v with
  | VUndef | VNull => Some (KeepLast 7)
  | VObj _ =>
      a ← dec_int (get v "keepLast"); b ← dec_int (get v "keepDaily"); c ← dec_int (get v "keepWeekly");
      d ← dec_int (get v "keepMonthly"); e ← dec_int (get v "keepYearly"); Some (mkRetention a b c d e)
  | _ => KeepLast <$> dec_int v
  end.

Definition retentionFields (r : RetentionPolicy) : list (bytes * Z) :=
  [ (u "retention.keepLast", keepLast r); (u "retention.keepDaily", keepDaily r); (u "retention.keepWeekly", keepWeekly r);
    (u "retention.keepMonthly", keepMonthly r); (u "retention.keepYearly", keepYearly r) ].

(** The first field out of range, and its value. *)
Definition ValidateRetention (r : RetentionPolicy) : option (bytes * Z) :=
  List.find (λ f, (f.2 <? 0) || (MaxRetentionCount <? f.2)) (retentionFields r).

(** ** Exclusion patterns *)

(** What follows a character: the continuation bytes of its encoding are
    dropped.  Patterns come from JSON, so they are UTF-8. *)
Fixpoint after_rune (s : bytes) : bytes :=
  match s with c :: s' => if (128 <=? c)%N && (c <? 192)%N then after_rune s' else s | [] => [] end.

(** [path.Match] reading one character of a class; [None] is ErrBadPattern. *)
Definition getEsc (chunk : bytes) : option bytes :=
  match chunk with
  | [] => None
  | c :: rest =>
      if N.eqb c 45 || N.eqb c 93 then None
      else match after_rune rest with [] => None | rest => Some rest end
  end.

(** What follows a class, from behind its bracket and caret. *)
Fixpoint class_end (fuel : nat) (some : bool) (chunk : bytes) : option bytes :=
  match fuel with
  | O => None
  | S fuel =>
      match chunk with
      | 93%N :: rest => if some then Some rest else None
      | _ =>
          chunk ← getEsc chunk;
          chunk ← match chunk with 45%N :: rest => getEsc rest | _ => Some chunk end;
          class_end fuel true chunk
      end
  end.

(** Whether [path.Match] finds a segment without a backslash well formed. *)
Fixpoint segment_ok (fuel : nat) (s : bytes) : bool :=
  match fuel with
  | O => false
  | S fuel =>
      match s with
      | [] => true
      | 91%N :: s =>
          match class_end (length s) false (match s with 94%N :: s => s | _ => s end) with
          | Some rest => segment_ok fuel rest
          | None => false
          end
      | _ :: s => segment_ok fuel s
      end
  end.

Definition slashes (s : bytes) : bytes := map (λ c, if N.eqb c 92 then 47%N else c) s.

Definition validateGlob (pattern : bytes) : bool :=
  if empty (TrimSpace pattern) then false
  else forallb (λ segment, str_eqb segment (u "**") || empty segment || segment_ok (S (length segment)) segment)
         (split_on 47 (slashes pattern)).

(** ** Protection policies *)

Record GoPolicy := mkGoPolicy {
  gp_quiesce : bytes; gp_excludeDisks : list bytes; gp_excludePaths : list bytes; gp_retryCount : Z; gp_retryDelay : Z;
  gp_maxDuration : Z; gp_window : option (bytes * bytes); gp_preScript : bytes; gp_postScript : bytes;
  gp_scriptTimeout : Z; gp_uploadLimit : Z;
}.

Definition QuiesceNone : bytes := u "none".
Definition QuiesceGuestAgent : bytes := u "guest-agent".
Definition MaxRetryCount : Z := 5.
Definition MaxRetryDelayMinutes : Z := 120.
Definition MaxRunDurationMinutes : Z := 10080.
Definition MaxScriptTimeoutSecs : Z := 3600.
Definition DefaultRetryDelayMinutes : Z := 5.
Definition DefaultScriptTimeoutSecs : Z := 30.

Definition DefaultPolicy : GoPolicy :=
  mkGoPolicy QuiesceNone [] [] 0 DefaultRetryDelayMinutes 0 None [] [] DefaultScriptTimeoutSecs 0.

(** [normalizeList]: trimmed, folded, without blanks and repeats, in order. *)
Fixpoint normalize_from (fold : bytes → bytes) (seen : list bytes) (l : list bytes) : list bytes :=
  match l with
  | [] => []
  | v :: l =>
      let item := fold (TrimSpace v) in
      if empty item || existsb (str_eqb item) seen then normalize_from fold seen l
      else item :: normalize_from fold (item :: seen) l
  end.
Definition normalizeList (fold : bytes → bytes) : list bytes → list bytes := normalize_from fold [].

Definition tidyWindow (w : option (bytes * bytes)) : option (bytes * bytes) :=
  '(start, stop) ← w;
  let '(start, stop) := (TrimSpace start, TrimSpace stop) in
  if empty start && empty stop then None else Some (start, stop).

Definition dec_strings (v : jsval) : option (list bytes) :=
  match v with VArr l => mapM dec_string l | VUndef | VNull => Some [] | _ => None end.

(** [*BackupWindow]. *)
Definition dec_window (v : jsval) : option (bytes * bytes) :=
  match v with VObj _ => start ← dec_string (get v "start"); stop ← dec_string (get v "end"); Some (start, stop) | _ => None end.

Definition diskKeyPrefixes : list bytes := [u "scsi"; u "virtio"; u "ide"; u "sata"; u "efidisk"; u "tpmstate"; u "unused"].

(** Why a policy cannot be used. *)
Inductive PolicyError :=
  | BadQuiesce (v : bytes) | DisksOfAgent | BadDiskKey (v : bytes) | PathsOfVm | BadPattern (v : bytes)
  | RetryCountRange (n : Z) | RetryDelayRange (n : Z) | DurationRange (n : Z)
  | WindowStart (v : bytes) | WindowEnd (v : bytes) | WindowEmpty (v : bytes)
  | TimeoutRange (n : Z) | UploadRange (n : Z).

(** [BackupWindow.Validate]. *)
Definition ValidateWindow (w : bytes * bytes) : option PolicyError :=
  if negb (validClockTime w.1) then Some (WindowStart w.1)
  else if negb (validClockTime w.2) then Some (WindowEnd w.2)
  else if str_eqb w.1 w.2 then Some (WindowEmpty w.1) else None.

Section policy.
Context (ToLower : bytes → bytes).

Definition NormalizedPolicy (p : GoPolicy) : GoPolicy :=
  let quiesce := ToLower (TrimSpace (gp_quiesce p)) in
  mkGoPolicy (if empty quiesce then QuiesceNone else quiesce)
    (normalizeList ToLower (gp_excludeDisks p)) (normalizeList (λ s, s) (gp_excludePaths p))
    (gp_retryCount p) (if gp_retryDelay p =? 0 then DefaultRetryDelayMinutes else gp_retryDelay p) (gp_maxDuration p)
    (tidyWindow (gp_window p)) (TrimSpace (gp_preScript p)) (TrimSpace (gp_postScript p))
    (if gp_scriptTimeout p =? 0 then DefaultScriptTimeoutSecs else gp_scriptTimeout p) (gp_uploadLimit p).

(** [JobPolicy.UnmarshalJSON]. *)
Definition decPolicy (v : jsval) : option GoPolicy :=
  match v with
  | VUndef | VNull => Some DefaultPolicy
  | VObj _ =>
      quiesce ← dec_ptr dec_string (get v "quiesce");
      disks ← dec_strings (get v "excludeDisks");
      paths ← dec_strings (get v "excludePaths");
      count ← dec_ptr dec_int (get v "retryCount");
      delay ← dec_ptr dec_int (get v "retryDelayMinutes");
      duration ← dec_ptr dec_int (get v "maxDurationMinutes");
      window ← dec_ptr dec_window (get v "window");
      pre ← dec_ptr dec_string (get v "preScript");
      post ← dec_ptr dec_string (get v "postScript");
      timeout ← dec_ptr dec_int (get v "scriptTimeoutSeconds");
      limit ← dec_ptr dec_int (get v "uploadLimitMbpsOverride");
      Some (NormalizedPolicy
        (mkGoPolicy (default QuiesceNone ((λ q, ToLower (TrimSpace q)) <$> quiesce)) disks paths (default 0 count)
           (default DefaultRetryDelayMinutes delay) (default 0 duration) window (default [] pre) (default [] post)
           (default DefaultScriptTimeoutSecs timeout) (default 0 limit)))
  | _ => None
  end.

Definition ValidDiskKey (v : bytes) : bool :=
  let v := ToLower (TrimSpace v) in
  match List.find (λ prefix, starts_with prefix v) diskKeyPrefixes with
  | Some prefix => allDigits (drop (length prefix) v)
  | None => false
  end.

(** [if len(list) > 0 && kind != only]. *)
Definition foreign (list : list bytes) (kind only : bytes) : bool := negb (is_nil list) && negb (str_eqb kind only).

(** [JobPolicy.Validate]. *)
Definition ValidatePolicy (kind : bytes) (p : GoPolicy) : option PolicyError :=
  let p := NormalizedPolicy p in
  if negb (str_eqb (gp_quiesce p) QuiesceNone || str_eqb (gp_quiesce p) QuiesceGuestAgent) then Some (BadQuiesce (gp_quiesce p))
  else if foreign (gp_excludeDisks p) kind SourceVM then Some DisksOfAgent
  else match List.find (λ d, negb (ValidDiskKey d)) (gp_excludeDisks p) with
  | Some d => Some (BadDiskKey d)
  | None =>
  if foreign (gp_excludePaths p) kind SourceAgent then Some PathsOfVm
  else match List.find (λ g, negb (validateGlob g)) (gp_excludePaths p) with
  | Some g => Some (BadPattern g)
  | None =>
  if negb (within 0 MaxRetryCount (gp_retryCount p)) then Some (RetryCountRange (gp_retryCount p))
  else if negb (within 1 MaxRetryDelayMinutes (gp_retryDelay p)) then Some (RetryDelayRange (gp_retryDelay p))
  else if negb (within 0 MaxRunDurationMinutes (gp_maxDuration p)) then Some (DurationRange (gp_maxDuration p))
  else match gp_window p ≫= ValidateWindow with
  | Some e => Some e
  | None =>
  if negb (within 1 MaxScriptTimeoutSecs (gp_scriptTimeout p)) then Some (TimeoutRange (gp_scriptTimeout p))
  else if negb (within MinUploadLimitMbps MaxUploadLimitMbps (gp_uploadLimit p)) then Some (UploadRange (gp_uploadLimit p))
  else None
  end end end.
End policy.

(** ** Jobs *)

Record JobRecord := mkJobRecord {
  jr_id : bytes; jr_name : bytes; jr_kind : bytes; jr_targetID : bytes; jr_schedule : GoSchedule; jr_retention : RetentionPolicy;
  jr_policy : GoPolicy; jr_enabled : bool; jr_sources : list GoJobSource; jr_tagFilter : bytes;
}.

(** A request body; nil for a field that is absent or null. *)
Record jobRequest := mkJobRequest {
  rq_name : option bytes; rq_kind : option bytes; rq_targetID : option bytes; rq_schedule : option GoSchedule;
  rq_retention : option RetentionPolicy; rq_policy : option GoPolicy; rq_enabled : option bool;
  rq_sources : option (list GoJobSource); rq_tagFilter : option bytes;
}.

(** [json.Unmarshal] of one source, and [JobSources.UnmarshalJSON]: a list, or
    a bare object. *)
Definition decSource (v : jsval) : option GoJobSource :=
  match v with
  | VObj _ =>
      host ← dec_string (get v "hostId"); vmid ← dec_int (get v "vmid"); name ← dec_string (get v "name");
      agent ← dec_string (get v "agentId"); paths ← dec_strings (get v "paths"); Some (mkJobSrc host vmid name agent paths)
  | VUndef | VNull => Some (mkJobSrc [] 0 [] [] [])
  | _ => None
  end.

Definition decSources (v : jsval) : option (list GoJobSource) :=
  match v with
  | VUndef | VNull => Some []
  | VObj _ => (λ one, [one]) <$> decSource v
  | VArr l => mapM decSource l
  | _ => None
  end.

(** Why a body is refused, in no order. *)
Inductive JobRefusal :=
  | InvalidBody | NameRequired | TargetRequired | TargetNotFound | JobNotFound
  | TagOfAgent | NoSource | VmSourceIncomplete | AgentSourceIncomplete | AgentPathsMissing | AgentPathBlank | KindUnknown
  | ScheduleRefused (e : ScheduleError) | RetentionRefused (field : bytes * Z) | PolicyRefused (e : PolicyError)
  | ServerFailed.

(** [validateJob]. *)
Definition validateJob (kind : bytes) (sources : list GoJobSource) (tagFilter : bytes) : option JobRefusal :=
  if negb (empty tagFilter) && negb (str_eqb kind SourceVM) then Some TagOfAgent
  else if is_nil sources && empty tagFilter then Some NoSource
  else if str_eqb kind SourceVM then
    if existsb (λ s, empty (jsrc_hostID s) || (jsrc_vmid s =? 0)) sources then Some VmSourceIncomplete else None
  else if str_eqb kind SourceAgent then
    fold_right (λ s rest,
      if empty (jsrc_agentID s) then Some AgentSourceIncomplete
      else if is_nil (jsrc_paths s) then Some AgentPathsMissing
      else if existsb (λ p, empty (TrimSpace p)) (jsrc_paths s) then Some AgentPathBlank else rest) None sources
  else Some KindUnknown.

(** What reading a target's row finds. *)
Inductive Lookup := Found | NotFound | LookupFailed.

(** What the database and the encoder of the answer do during one request. *)
Record DbRun := mkDbRun { run_target : bytes → Lookup; run_read : bool; run_written : bool; run_encoded : bool; run_id : bytes }.

Section handlers.
Context (ToLower : bytes → bytes) (ParseStandard : bytes → bool).

Definition normalizeTagFilter (v : bytes) : bytes := ToLower (TrimSpace v).

Definition decodeJob (v : jsval) : option jobRequest :=
  match v with
  | VObj _ =>
      name ← dec_ptr dec_string (get v "name"); kind ← dec_ptr dec_string (get v "kind");
      target ← dec_ptr dec_string (get v "targetId"); schedule ← dec_ptr (UnmarshalJSON ToLower) (get v "schedule");
      retention ← dec_ptr decRetention (get v "retention"); policy ← dec_ptr (decPolicy ToLower) (get v "policy");
      enabled ← dec_ptr dec_bool (get v "enabled"); sources ← dec_ptr decSources (get v "sources");
      tag ← dec_ptr dec_string (get v "tagFilter");
      Some (mkJobRequest name kind target schedule retention policy enabled sources tag)
  | VUndef | VNull => Some (mkJobRequest None None None None None None None None None)
  | _ => None
  end.

(** The fields a body sets; [tidy] is what the handler does to a schedule. *)
Definition apply (tidy : GoSchedule → GoSchedule) (b : jobRequest) (j : JobRecord) : JobRecord :=
  mkJobRecord (jr_id j) (from_option TrimSpace (jr_name j) (rq_name b)) (default (jr_kind j) (rq_kind b))
    (default (jr_targetID j) (rq_targetID b)) (from_option tidy (jr_schedule j) (rq_schedule b))
    (default (jr_retention j) (rq_retention b)) (from_option (NormalizedPolicy ToLower) (jr_policy j) (rq_policy b))
    (default (jr_enabled j) (rq_enabled b)) (default (jr_sources j) (rq_sources b))
    (from_option normalizeTagFilter (jr_tagFilter j) (rq_tagFilter b)).

(** [validateJobPolicies]. *)
Definition validateJobPolicies (j : JobRecord) : option JobRefusal :=
  match ValidateRetention (jr_retention j) with
  | Some f => Some (RetentionRefused f)
  | None => PolicyRefused <$> ValidatePolicy ToLower (jr_kind j) (jr_policy j)
  end.

(** The checks both handlers share, in their order. *)
Definition checkJob (found : bytes → Lookup) (j : JobRecord) : option JobRefusal :=
  match found (jr_targetID j) with
  | NotFound => Some TargetNotFound
  | LookupFailed => Some ServerFailed
  | Found =>
      match validateJob (jr_kind j) (jr_sources j) (jr_tagFilter j) with
      | Some e => Some e
      | None =>
          match Validate ToLower ParseStandard (jr_schedule j) with
          | Some e => Some (ScheduleRefused e)
          | None => validateJobPolicies j
          end
      end
  end.

(** What [CreateJob] and [UpdateJob] write. *)
Definition stored (j : JobRecord) : JobRecord :=
  mkJobRecord (jr_id j) (jr_name j) (jr_kind j) (jr_targetID j) (Normalized ToLower (jr_schedule j)) (jr_retention j)
    (NormalizedPolicy ToLower (jr_policy j)) (jr_enabled j) (jr_sources j) (jr_tagFilter j).

Definition job_event (action : bytes) (j : JobRecord) : AuditEvent :=
  mkEvent None [] 0 action (u "job") (jr_id j) (jr_name j) [] [] (u "kind " ++ jr_kind j ++ u ", " ++ Label ToLower (jr_schedule j)).

(** The table after a request, its answer, and what it records. *)
Definition Handled : Type := list JobRecord * (JobRecord + JobRefusal) * list AuditEvent.

Definition newJob : JobRecord := mkJobRecord [] [] [] [] GoManual (KeepLast 7) DefaultPolicy true [] [].
Definition with_id (id : bytes) (j : JobRecord) : JobRecord :=
  mkJobRecord id (jr_name j) (jr_kind j) (jr_targetID j) (jr_schedule j) (jr_retention j) (jr_policy j) (jr_enabled j) (jr_sources j) (jr_tagFilter j).

Definition handleCreateJob (run : DbRun) (body : jsval) (jobs : list JobRecord) : Handled :=
  let refuse e : Handled := (jobs, inr e, []) in
  match decodeJob body with
  | None => refuse InvalidBody
  | Some b =>
      let job := apply (λ s, s) b newJob in
      if empty (jr_name job) then refuse NameRequired
      else if empty (jr_targetID job) then refuse TargetRequired
      else match checkJob (run_target run) job with
      | Some e => refuse e
      | None =>
          if run_written run then
            let created := stored (with_id (run_id run) job) in
            (jobs ++ [created], if run_encoded run then inl created else inr ServerFailed, [job_event (u "job.create") created])
          else refuse ServerFailed
      end
  end.

Definition job_named (id : bytes) (j : JobRecord) : bool := str_eqb (jr_id j) id.

Definition handlePatchJob (run : DbRun) (id : bytes) (body : jsval) (jobs : list JobRecord) : Handled :=
  let refuse e : Handled := (jobs, inr e, []) in
  if negb (run_read run) then refuse ServerFailed else
  match List.find (job_named id) jobs with
  | None => refuse JobNotFound
  | Some old =>
      match decodeJob body with
      | None => refuse InvalidBody
      | Some b =>
          let job := apply (Normalized ToLower) b old in
          if empty (jr_name job) then refuse NameRequired
          else match checkJob (run_target run) job with
          | Some e => refuse e
          | None =>
              if run_written run then
                let updated := stored job in
                (map (λ j, if job_named id j then updated else j) jobs,
                 if run_encoded run then inl updated else inr ServerFailed, [job_event (u "job.modify") updated])
              else refuse ServerFailed
          end
      end
  end.

(** The answer to a deletion says nothing of the job. *)
Definition handleDeleteJob (run : DbRun) (id : bytes) (jobs : list JobRecord) : list JobRecord * option JobRefusal * list AuditEvent :=
  let name := if run_read run then from_option jr_name [] (List.find (job_named id) jobs) else [] in
  if negb (run_written run) then (jobs, Some ServerFailed, [])
  else if existsb (job_named id) jobs then
    (List.filter (λ j, negb (job_named id j)) jobs, None, [mkEvent None [] 0 (u "job.delete") (u "job") id name [] [] []])
  else (jobs, Some JobNotFound, []).
End handlers.

(** ** Tidying *)

(** What the code relies on of [strings.ToLower]. *)
Class LowerText (ToLower : bytes → bytes) : Prop := {
  lower_plain s : Forall (λ c, (c < 128)%N ∧ ¬ (65 <= c <= 90)%N) s → ToLower s = s;
  lower_idem s : ToLower (ToLower s) = ToLower s;
  lower_trimmed s : TrimSpace s = s → TrimSpace (ToLower s) = ToLower s;
}.

#[export] Instance ascii_lower_text : LowerText ascii_lower.
Proof.
  split.
  - intros s H. unfold ascii_lower. induction H as [|c s [_ Hc] _ IH]; [done|]. cbn [map]. rewrite IH. f_equal. unfold lower_byte.
    destruct (N.leb_spec 65 c), (N.leb_spec c 90); cbn [andb]; done || lia.
  - intros s. unfold ascii_lower. rewrite map_map. apply map_ext, lower_byte_idem.
  - intros s E. rewrite TrimSpace_lower. by rewrite E.
Qed.

#[export] Instance LowerText_kinds ToLower : LowerText ToLower → LowerCase ToLower.
Proof.
  intros H. constructor. intros k. apply lower_plain.
  destruct k; apply (bool_decide_unpack _); vm_compute; exact I.
Qed.

(** A list that [normalizeList] leaves alone. *)
Definition tidy_list (fold : bytes → bytes) (seen l : list bytes) : Prop :=
  Forall (λ x, fold (TrimSpace x) = x ∧ x ≠ [] ∧ x ∉ seen) l ∧ NoDup l.

Lemma existsb_str l s : existsb (str_eqb s) l = true ↔ s ∈ l.
Proof. by rewrite elem_of_existsb. Qed.

Lemma normalize_tidy fold seen l : (∀ s, fold (TrimSpace (fold (TrimSpace s))) = fold (TrimSpace s)) → tidy_list fold seen (normalize_from fold seen l).
Proof.
  intros Hf. revert seen. induction l as [|v l IH]; intros seen; cbn [normalize_from]; [split; constructor|].
  destruct (empty (fold (TrimSpace v)) || existsb (str_eqb (fold (TrimSpace v))) seen) eqn:E; [apply IH|].
  apply orb_false_iff in E as [E1 E2]. unfold empty in E1. apply str_eqb_false in E1.
  assert (Hs : fold (TrimSpace v) ∉ seen) by (rewrite <- existsb_str, E2; done).
  destruct (IH (fold (TrimSpace v) :: seen)) as [Ha Hn]. rewrite Forall_forall in Ha. split.
  - apply Forall_cons. split; [done|]. apply Forall_forall. intros x Hx. destruct (Ha x Hx) as (? & ? & Hni). set_solver.
  - apply NoDup_cons. split; [|done]. intros Hx. destruct (Ha _ Hx) as (_ & _ & Hni). set_solver.
Qed.

Lemma tidy_fixed fold seen l : tidy_list fold seen l → normalize_from fold seen l = l.
Proof.
  revert seen. induction l as [|x l IH]; intros seen [Ha Hn]; cbn [normalize_from]; [done|].
  apply Forall_cons in Ha as [(Hx & Hne & Hni) Ha]. apply NoDup_cons in Hn as [Hxl Hn].
  rewrite Hx. unfold empty. rewrite (proj2 (str_eqb_false _ _) Hne). cbn [orb].
  destruct (existsb (str_eqb x) seen) eqn:E; [by apply existsb_str in E|]. f_equal. apply IH. split; [|done].
  rewrite Forall_forall in *. intros y Hy. destruct (Ha y Hy) as (? & ? & ?). set_solver.
Qed.

Lemma tidyWindow_idem w : tidyWindow (tidyWindow w) = tidyWindow w.
Proof.
  destruct w as [[a b]|]; [|done]. cbn [tidyWindow mbind option_bind]. destruct (empty (TrimSpace a) && empty (TrimSpace b)) eqn:E; [done|].
  cbn [tidyWindow mbind option_bind]. by rewrite !TrimSpace_idem, E.
Qed.

Lemma default_number d n : d ≠ 0 → (if (if n =? 0 then d else n) =? 0 then d else if n =? 0 then d else n) = if n =? 0 then d else n.
Proof. intros Hd. destruct (Z.eqb_spec n 0); [by destruct (Z.eqb_spec d 0)|]. by destruct (Z.eqb_spec n 0). Qed.

Section tidy.
Context (ToLower : bytes → bytes) {HL : LowerText ToLower}.

Lemma fold_tidy s : ToLower (TrimSpace (ToLower (TrimSpace s))) = ToLower (TrimSpace s).
Proof. by rewrite lower_trimmed, lower_idem by apply TrimSpace_idem. Qed.

Lemma NormalizedPolicy_idem p : NormalizedPolicy ToLower (NormalizedPolicy ToLower p) = NormalizedPolicy ToLower p.
Proof.
  unfold NormalizedPolicy at 1 3. cbn [gp_quiesce gp_excludeDisks gp_excludePaths gp_retryCount gp_retryDelay gp_maxDuration gp_window gp_preScript gp_postScript gp_scriptTimeout gp_uploadLimit NormalizedPolicy].
  f_equal.
  - destruct (empty (ToLower (TrimSpace (gp_quiesce p)))) eqn:E.
    + assert (Eq : ToLower (TrimSpace QuiesceNone) = QuiesceNone) by (apply lower_plain, (bool_decide_unpack _); vm_compute; exact I).
      by rewrite Eq.
    + by rewrite fold_tidy, E.
  - apply tidy_fixed, normalize_tidy, fold_tidy.
  - apply tidy_fixed, normalize_tidy. intros s. apply TrimSpace_idem.
  - by apply default_number.
  - apply tidyWindow_idem.
  - apply TrimSpace_idem.
  - apply TrimSpace_idem.
  - by apply default_number.
Qed.

Lemma ValidatePolicy_normal kind p : ValidatePolicy ToLower kind (NormalizedPolicy ToLower p) = ValidatePolicy ToLower kind p.
Proof. unfold ValidatePolicy. by rewrite NormalizedPolicy_idem. Qed.

Lemma known_kind_normal ParseStandard s : Validate ToLower ParseStandard s = None → ∃ k, Kind (Normalized ToLower s) = kind_text k.
Proof.
  unfold Validate. set (k := Kind (Normalized ToLower s)). intros H.
  destruct (str_eqb k (u "manual")) eqn:E1; [exists KManual; by apply str_eqb_true|].
  destruct (str_eqb k (u "hourly")) eqn:E2; [exists KHourly; by apply str_eqb_true|].
  destruct (str_eqb k (u "daily")) eqn:E3; [exists KDaily; by apply str_eqb_true|].
  destruct (str_eqb k (u "weekly")) eqn:E4; [exists KWeekly; by apply str_eqb_true|].
  destruct (str_eqb k (u "monthly")) eqn:E5; [exists KMonthly; by apply str_eqb_true|].
  destruct (str_eqb k (u "advanced")) eqn:E6; [exists KAdvanced; by apply str_eqb_true|]. discriminate.
Qed.

Lemma Normalized_idem ParseStandard s : Validate ToLower ParseStandard s = None → Normalized ToLower (Normalized ToLower s) = Normalized ToLower s.
Proof.
  intros [k Hk]%known_kind_normal. unfold Normalized at 1. rewrite Hk.
  replace (if str_eqb (kind_text k) [] then u "manual" else kind_text k) with (kind_text k) by (by destruct k).
  rewrite TrimSpace_kind, lower_kinds. rewrite <- Hk. unfold Normalized at 7.
  cbn [Kind Minute Time Weekdays DayOfMonth CronExpr Normalized]. rewrite !TrimSpace_idem, normalizeWeekdays_id by apply sort_dedup_increasing. done.
Qed.

Lemma Validate_normal ParseStandard s : Validate ToLower ParseStandard s = None → Validate ToLower ParseStandard (Normalized ToLower s) = None.
Proof. intros H. pose proof (Normalized_idem _ _ H) as E. unfold Validate in *. by rewrite E. Qed.
End tidy.

(** ** What is stored *)

Section stored.
Context (ToLower : bytes → bytes) {HL : LowerText ToLower} (ParseStandard : bytes → bool).

(** A job the scheduler can run as it stands: nothing of it would be refused,
    and tidying changes nothing. *)
Record valid_job (j : JobRecord) : Prop := {
  vj_name : jr_name j ≠ [] ∧ TrimSpace (jr_name j) = jr_name j;
  vj_members : validateJob (jr_kind j) (jr_sources j) (jr_tagFilter j) = None;
  vj_schedule : Normalized ToLower (jr_schedule j) = jr_schedule j ∧ Validate ToLower ParseStandard (jr_schedule j) = None;
  vj_retention : ValidateRetention (jr_retention j) = None;
  vj_policy : NormalizedPolicy ToLower (jr_policy j) = jr_policy j ∧ ValidatePolicy ToLower (jr_kind j) (jr_policy j) = None;
  vj_tag : normalizeTagFilter ToLower (jr_tagFilter j) = jr_tagFilter j;
}.

(** The table as requests leave it, one after the other, with any of their
    steps failing. *)
Inductive served : list JobRecord → Prop :=
  | served_none : served []
  | served_create run body jobs : served jobs → run_id run ∉ map jr_id jobs → served (handleCreateJob ToLower ParseStandard run body jobs).1.1
  | served_patch run id body jobs : served jobs → served (handlePatchJob ToLower ParseStandard run id body jobs).1.1
  | served_delete run id jobs : served jobs → served (handleDeleteJob run id jobs).1.1.

Definition trimmed_job (j : JobRecord) : Prop := TrimSpace (jr_name j) = jr_name j ∧ normalizeTagFilter ToLower (jr_tagFilter j) = jr_tagFilter j.

Lemma apply_trimmed tidy b j : trimmed_job j → trimmed_job (apply ToLower tidy b j).
Proof.
  intros [Hn Ht]. split; cbn [apply jr_name jr_tagFilter].
  - destruct (rq_name b); cbn [from_option]; [apply TrimSpace_idem|done].
  - destruct (rq_tagFilter b); cbn [from_option]; [by apply fold_tidy|done].
Qed.

Lemma trimmed_new : trimmed_job newJob.
Proof. split; [done|]. apply (lower_plain (ToLower := ToLower)). constructor. Qed.

Lemma checkJob_none found j : checkJob ToLower ParseStandard found j = None →
  found (jr_targetID j) = Found ∧ validateJob (jr_kind j) (jr_sources j) (jr_tagFilter j) = None ∧
  Validate ToLower ParseStandard (jr_schedule j) = None ∧ ValidateRetention (jr_retention j) = None ∧
  ValidatePolicy ToLower (jr_kind j) (jr_policy j) = None.
Proof.
  unfold checkJob, validateJobPolicies. destruct (found _); [|done..]. destruct (validateJob _ _ _); [done|].
  destruct (Validate _ _ _); [done|]. destruct (ValidateRetention _); [done|]. by destruct (ValidatePolicy _ _ _).
Qed.

Lemma stored_valid found j : trimmed_job j → jr_name j ≠ [] → checkJob ToLower ParseStandard found j = None → valid_job (stored ToLower j).
Proof.
  intros [Hn Ht] Hne (_ & Hm & Hs & Hr & Hp)%checkJob_none. split; cbn [stored jr_name jr_kind jr_sources jr_tagFilter jr_schedule jr_retention jr_policy]; try done.
  - split; [by apply (Normalized_idem _ ParseStandard)|by apply Validate_normal].
  - split; [by apply NormalizedPolicy_idem|by rewrite ValidatePolicy_normal].
Qed.

Lemma created_valid run body jobs : Forall valid_job jobs → run_id run ∉ map jr_id jobs → NoDup (map jr_id jobs) →
  let jobs' := (handleCreateJob ToLower ParseStandard run body jobs).1.1 in Forall valid_job jobs' ∧ NoDup (map jr_id jobs').
Proof.
  intros Hv Hid Hn. unfold handleCreateJob. destruct (decodeJob ToLower body) as [b|]; [|done].
  set (job := apply ToLower (λ s, s) b newJob). destruct (empty (jr_name job)) eqn:En; [done|]. destruct (empty (jr_targetID job)); [done|].
  destruct (checkJob _ _ _ job) eqn:Ec; [done|]. destruct (run_written run); [|done]. cbn [fst].
  unfold empty in En. apply str_eqb_false in En. split.
  - apply Forall_app. split; [done|]. apply Forall_singleton. eapply (stored_valid (run_target run) (with_id (run_id run) job)); [|done|done].
    exact (apply_trimmed (λ s, s) b newJob trimmed_new).
  - rewrite map_app. apply NoDup_app. split; [done|]. split; [|apply NoDup_singleton].
    cbn. intros x Hx ->%list_elem_of_singleton. done.
Qed.

Lemma patched_ids run id body jobs : map jr_id (handlePatchJob ToLower ParseStandard run id body jobs).1.1 = map jr_id jobs.
Proof.
  unfold handlePatchJob. destruct (negb (run_read run)); [done|]. destruct (List.find (job_named id) jobs) as [old|] eqn:Ef; [|done].
  destruct (decodeJob ToLower body) as [b|]; [|done]. set (job := apply ToLower (Normalized ToLower) b old).
  destruct (empty (jr_name job)); [done|]. destruct (checkJob _ _ _ job); [done|]. destruct (run_written run); [|done]. cbn [fst].
  rewrite map_map. apply map_ext. intros j. destruct (job_named id j) eqn:Ej; [|done]. cbn.
  apply List.find_some in Ef as [_ Eo]. unfold job_named in *. apply str_eqb_true in Ej, Eo. congruence.
Qed.

Lemma patched_valid run id body jobs : Forall valid_job jobs → Forall valid_job (handlePatchJob ToLower ParseStandard run id body jobs).1.1.
Proof.
  intros Hv. unfold handlePatchJob. destruct (negb (run_read run)); [done|]. destruct (List.find (job_named id) jobs) as [old|] eqn:Ef; [|done].
  destruct (decodeJob ToLower body) as [b|]; [|done]. set (job := apply ToLower (Normalized ToLower) b old).
  destruct (empty (jr_name job)) eqn:En; [done|]. destruct (checkJob _ _ _ job) eqn:Ec; [done|]. destruct (run_written run); [|done]. cbn [fst].
  apply Forall_map. eapply Forall_impl; [exact Hv|]. intros j Hj. cbn. destruct (job_named id j); [|done].
  apply List.find_some in Ef as [Hi _]. rewrite Forall_forall in Hv. pose proof (Hv old (proj2 (list_elem_of_In _ _) Hi)) as Ho.
  unfold empty in En. apply str_eqb_false in En. eapply stored_valid; [|done|exact Ec].
  apply (apply_trimmed (Normalized ToLower) b old). split; apply Ho.
Qed.

Lemma deleted_filter run id jobs : ∃ p, (handleDeleteJob run id jobs).1.1 = List.filter p jobs.
Proof.
  assert (Ht : jobs = List.filter (λ _, true) jobs) by (by induction jobs as [|j jobs IH]; cbn [List.filter]; [|f_equal]).
  unfold handleDeleteJob. destruct (negb (run_written run)); [by eexists|]. destruct (existsb (job_named id) jobs); by eexists.
Qed.

Lemma served_valid jobs : served jobs → Forall valid_job jobs ∧ NoDup (map jr_id jobs).
Proof.
  induction 1 as [|run body jobs _ [Hv Hn] Hid|run id body jobs _ [Hv Hn]|run id jobs _ [Hv Hn]]; [split; constructor|by apply created_valid| |].
  - split; [by apply patched_valid|by rewrite patched_ids].
  - destruct (deleted_filter run id jobs) as [p ->]. split; [|by apply NoDup_map_filter].
    rewrite Forall_forall in *. intros j Hj. apply Hv. apply list_elem_of_In, filter_In in Hj as [Hj _]. by apply list_elem_of_In.
Qed.

(** ** Changing one field *)

Definition with_enabled (b : bool) (j : JobRecord) : JobRecord :=
  mkJobRecord (jr_id j) (jr_name j) (jr_kind j) (jr_targetID j) (jr_schedule j) (jr_retention j) (jr_policy j) b (jr_sources j) (jr_tagFilter j).

Lemma found_unique id old jobs : NoDup (map jr_id jobs) → List.find (job_named id) jobs = Some old → ∀ j, j ∈ jobs → job_named id j = true → j = old.
Proof.
  induction jobs as [|x jobs IH]; [done|]. cbn [map List.find]. intros [Hx Hn]%NoDup_cons Hf j Hj Hid.
  assert (Hmap : ∀ y, y ∈ jobs → job_named id x = true → job_named id y = true → False).
  { intros y Hy E1 E2. apply Hx. unfold job_named in *. apply str_eqb_true in E1, E2. rewrite E1, <- E2. by apply list_elem_of_fmap_2. }
  apply elem_of_cons in Hj as [->|Hj]; destruct (job_named id x) eqn:E; try congruence; [|by apply IH].
  exfalso. by eapply Hmap.
Qed.

(** Switching a job on or off - the patch the console's toggle sends - changes
    that and nothing else, whatever the job is, as long as its target exists. *)
Lemma toggle_only run id b jobs old : served jobs → List.find (job_named id) jobs = Some old →
  run_read run = true → run_written run = true → run_encoded run = true → run_target run (jr_targetID old) = Found →
  handlePatchJob ToLower ParseStandard run id (VObj [(u "enabled", VBool b)]) jobs =
  (map (λ j, if job_named id j then with_enabled b j else j) jobs, inl (with_enabled b old), [job_event ToLower (u "job.modify") (with_enabled b old)]).
Proof.
  intros [Hv Hn]%served_valid Hf Hr Hw He Ht. pose proof (found_unique _ _ _ Hn Hf) as Hu.
  pose proof (List.find_some _ _ Hf) as [Hi _]. apply list_elem_of_In in Hi. rewrite Forall_forall in Hv. pose proof (Hv old Hi) as Ho.
  assert (Ed : decodeJob ToLower (VObj [(u "enabled", VBool b)]) = Some (mkJobRequest None None None None None None (Some b) None None)).
  { unfold decodeJob. js_eval. done. }
  unfold handlePatchJob. rewrite Hr, Hf, Ed. cbn [negb].
  assert (Ea : apply ToLower (Normalized ToLower) (mkJobRequest None None None None None None (Some b) None None) old = with_enabled b old) by done.
  rewrite Ea. cbn [with_enabled jr_name]. destruct Ho as [[Hne _] Hm [Hsn Hs] Hret [Hpn Hp] _].
  unfold empty. rewrite (proj2 (str_eqb_false _ _) Hne).
  assert (Ec : checkJob ToLower ParseStandard (run_target run) (with_enabled b old) = None).
  { unfold checkJob, validateJobPolicies. cbn [with_enabled jr_targetID jr_kind jr_sources jr_tagFilter jr_schedule jr_retention jr_policy]. by rewrite Ht, Hm, Hs, Hret, Hp. }
  rewrite Ec, Hw, He.
  assert (Es : stored ToLower (with_enabled b old) = with_enabled b old).
  { unfold stored. cbn [with_enabled jr_id jr_name jr_kind jr_targetID jr_schedule jr_retention jr_policy jr_enabled jr_sources jr_tagFilter]. by rewrite Hsn, Hpn. }
  rewrite Es. f_equal. f_equal. apply map_ext_in. intros j Hj. apply list_elem_of_In in Hj. destruct (job_named id j) eqn:Ej; [|done]. by rewrite (Hu j Hj Ej).
Qed.
End stored.
