(* ===== verification/JobSaved.v ===== *)
(** * A job, saved and shown again

    The job wizard (JobWizard) submits a form; the server (ServerJobs) decodes,
    checks and stores it, and lists it; opened for editing, the listed job fills
    the form again.  Here the three are put together. *)
From Stdlib Require Import QArith.
From stdpp Require Import gmap.
From S2P Require Import Prelude JsString JsNumber JsValue Schedule ScheduleEditor Policy Retention Control Transport GoString ServerSchedule ServerSettings ServerTargets ServerPosture ServerAudit ServerJobs Inventory Protection Endpoints JobWizard.
#[local] Open Scope Z_scope.

(** ** What the server decodes of a form *)

Definition kind_bytes (k : JobKind) : bytes := match k with JVm => SourceVM | JAgent => SourceAgent end.
Definition quiesce_bytes (q : Quiesce) : bytes := match q with QNone => QuiesceNone | QGuestAgent => QuiesceGuestAgent end.
Definition go_window (w : option BackupWindow) : option (bytes * bytes) := (λ w, (go_string (w_start w), go_string (w_end w))) <$> w.

Definition go_policy (p : JobPolicy) : GoPolicy :=
  mkGoPolicy (quiesce_bytes (quiesce p)) (map go_string (excludeDisks p)) (map go_string (excludePaths p)) (retryCount p) (retryDelayMinutes p)
    (maxDurationMinutes p) (go_window (window p)) (go_string (preScript p)) (go_string (postScript p)) (scriptTimeoutSeconds p)
    (uploadLimitMbpsOverride p).

Definition number_of (n : num) : Z := match n with Fin q => qround q | _ => 0 end.

Definition go_guest (vm : CachedVM) : GoJobSource :=
  mkJobSrc (go_string (id_text (vm_hostId vm))) (number_of (vm_vmid vm)) (go_string (vm_name vm)) [] [].

Definition go_sources (s : WizardState) : list GoJobSource :=
  match s_kind s with
  | JVm => if byTag s then [] else map go_guest (s_selectedVMs s)
  | JAgent => [mkJobSrc [] 0 [] (go_string (id_text (s_agentId s))) (map go_string (s_paths s))]
  end.

Definition go_tag (s : WizardState) : bytes := match s_kind s with JVm => if byTag s then go_string (s_tagFilter s) else [] | JAgent => [] end.

(** Ids and guests as the server sends them. *)
Definition is_text (i : ID) : Prop := match i with IdStr t => t ≠ [] | IdNum _ => False end.
Definition guest_sound (vm : CachedVM) : Prop := is_text (vm_hostId vm) ∧ ∃ n, vm_vmid vm = of_Z n ∧ 1 <= n <= 2 ^ 53.

Record form_sound (s : WizardState) : Prop := {
  fs_target : is_text (s_targetId s);
  fs_agent : s_kind s = JAgent → is_text (s_agentId s);
  fs_guests : Forall guest_sound (s_selectedVMs s);
}.

Section decoding.
Context (ToLower : bytes → bytes) {HL : LowerText ToLower}.

Lemma ptr_string s : dec_ptr dec_string (VStr s) = Some (Some (go_string s)).
Proof. done. Qed.
Lemma ptr_int n : - 2 ^ 63 <= n < 2 ^ 63 → dec_ptr dec_int (VNum (of_Z n)) = Some (Some n).
Proof. intros H. unfold dec_ptr. cbn [is_nullish]. by rewrite dec_int_Z. Qed.
Lemma strings_decoded l : dec_strings (VArr (map VStr l)) = Some (map go_string l).
Proof. cbn [dec_strings]. apply mapM_Some. induction l as [|s l IH]; by constructor. Qed.

Lemma window_decoded w : dec_ptr dec_window (window_val w) = Some (go_window w).
Proof. destruct w as [[a b]|]; [|done]. unfold dec_ptr, window_val, dec_window. cbn [is_nullish]. js_eval. done. Qed.

Lemma retention_decoded r : valid_retention r → dec_ptr decRetention (retention_val r) = Some (Some r).
Proof.
  destruct r as [a b c d e]. unfold valid_retention. cbn [keepLast keepDaily keepWeekly keepMonthly keepYearly]. intros (? & ? & ? & ? & ?).
  unfold dec_ptr, retention_val, decRetention. cbn [is_nullish]. js_eval.
  cbn [keepLast keepDaily keepWeekly keepMonthly keepYearly]. rewrite !dec_int_Z by lia. done.
Qed.

Lemma quiesce_decoded q : (λ s, ToLower (TrimSpace s)) (go_string (match q with QNone => u "none" | QGuestAgent => u "guest-agent" end)) = quiesce_bytes q.
Proof. destruct q; apply lower_plain, (bool_decide_unpack _); vm_compute; exact I. Qed.

Lemma policy_decoded p : fields_ok p → dec_ptr (decPolicy ToLower) (policy_val p) = Some (Some (NormalizedPolicy ToLower (go_policy p))).
Proof.
  intros Hp. unfold dec_ptr, policy_val, decPolicy. cbn [is_nullish]. js_eval.
  rewrite !ptr_string, !strings_decoded, window_decoded. destruct Hp. rewrite !ptr_int by lia.
  cbn [mbind option_bind fmap option_fmap option_map default]. rewrite quiesce_decoded. done.
Qed.

Lemma guest_decoded vm : guest_sound vm → decSource (vmSource vm) = Some (go_guest vm).
Proof.
  intros [Hh (n & En & Hn)]. unfold vmSource, decSource. js_eval. rewrite En, dec_int_Z by lia. unfold go_guest. rewrite En.
  replace (number_of (of_Z n)) with n by (symmetry; apply qround_Z). destruct (vm_hostId vm); [done|destruct Hh].
Qed.

Lemma sources_decoded s : form_sound s → dec_ptr decSources (sources s) = Some (Some (go_sources s)).
Proof.
  intros [_ Ha Hg]. unfold sources, go_sources. destruct (s_kind s) eqn:Ek.
  - destruct (byTag s); [done|]. unfold dec_ptr. cbn [is_nullish decSources]. rewrite (proj2 (mapM_Some _ _ (map go_guest (s_selectedVMs s)))); [done|].
    induction Hg as [|vm l Hv _ IH]; constructor; [by apply guest_decoded|done].
  - specialize (Ha eq_refl). unfold dec_ptr, decSources. cbn [is_nullish]. unfold decSource. js_eval.
    rewrite strings_decoded. destruct (s_agentId s); [done|destruct Ha].
Qed.

Definition request_of (s : WizardState) : jobRequest :=
  mkJobRequest (Some (go_string (trim (s_name s)))) (Some (kind_bytes (s_kind s))) (Some (go_string (id_text (s_targetId s))))
    (Some (go_of (s_schedule s))) (Some (s_retention s)) (Some (NormalizedPolicy ToLower (go_policy (s_policy s)))) (Some (s_enabled s))
    (Some (go_sources s)) (match s_kind s with JVm => Some (go_tag s) | JAgent => None end).

Lemma schedule_decoded s : valid_schedule s → dec_ptr (UnmarshalJSON ToLower) (schedule_val s) = Some (Some (go_of s)).
Proof. intros Hs. unfold dec_ptr. rewrite (UnmarshalJSON_val ToLower s Hs). by destruct s. Qed.

(** The body of a save, decoded. *)
Lemma payload_decoded s : form_sound s → valid_schedule (s_schedule s) → valid_retention (s_retention s) → fields_ok (s_policy s) →
  decodeJob ToLower (jobCreate_val (payload s)) = Some (request_of s).
Proof.
  intros Hf Hs Hr Hp. unfold jobCreate_val, decodeJob. js_eval.
  cbn [payload jc_name jc_kind jc_targetId jc_schedule jc_retention jc_sources jc_enabled jc_tagFilter jc_policy opt_val].
  rewrite ptr_string, schedule_decoded, retention_decoded, policy_decoded, sources_decoded by done.
  pose proof (fs_target s Hf) as Ht. unfold request_of, go_tag. destruct (s_targetId s) as [t|n]; [|destruct Ht].
  unfold jobKind_val. destruct (s_kind s); [|done]. by destruct (byTag s).
Qed.
End decoding.

(** ** What the server accepts of a form *)

Section verdict.
Context (ToLower : bytes → bytes) {HL : LowerText ToLower} (ParseStandard : bytes → bool).

Definition kept_disks (p : JobPolicy) : list bytes := normalizeList ToLower (map go_string (excludeDisks p)).
Definition kept_paths (p : JobPolicy) : list bytes := normalizeList (λ s, s) (map go_string (excludePaths p)).

(** Exclusions belong to a kind of job, and stay in the form when the kind is
    changed; an exclusion of the other kind is refused. *)
Definition scope_ok (kind : JobKind) (p : JobPolicy) : Prop :=
  match kind with
  | JVm => Forall (λ d, ValidDiskKey ToLower d = true) (kept_disks p) ∧ kept_paths p = []
  | JAgent => kept_disks p = [] ∧ Forall (λ g, validateGlob g = true) (kept_paths p)
  end.

(** A window has both its ends, and they differ, or neither. *)
Definition window_usable (w : option BackupWindow) : Prop :=
  match w with Some (mkWindow a b) => (a = [] ∧ b = []) ∨ (a ≠ [] ∧ b ≠ [] ∧ a ≠ b) | None => True end.

(** Why the server may still refuse a form the wizard lets through. *)
Record acceptable (found : bytes → Lookup) (s : WizardState) : Prop := {
  ac_name : TrimSpace (go_string (trim (s_name s))) ≠ [];
  ac_target : found (go_string (id_text (s_targetId s))) = Found;
  ac_tag : s_kind s = JVm → byTag s = true → normalizeTagFilter ToLower (go_string (s_tagFilter s)) ≠ [];
  ac_paths : s_kind s = JAgent → Forall (λ p, TrimSpace (go_string p) ≠ []) (s_paths s);
  ac_cron : match s_schedule s with
            | AdvancedSchedule c => TrimSpace (go_string c) ≠ [] ∧ ParseStandard (TrimSpace (go_string c)) = true
            | _ => True
            end;
  ac_scope : scope_ok (s_kind s) (s_policy s);
  ac_window : window_usable (window (s_policy s));
}.

Lemma find_negb_none {A} (f : A → bool) l : List.find (λ x, negb (f x)) l = None ↔ Forall (λ x, f x = true) l.
Proof.
  induction l as [|x l IH]; cbn [List.find]; [by split|]. rewrite Forall_cons. destruct (f x); cbn [negb]; [rewrite IH; tauto|].
  split; [done|]. by intros [? _].
Qed.

Lemma empty_neg s : empty s = false ↔ s ≠ [].
Proof. apply str_eqb_false. Qed.
Lemma empty_iff s : empty s = true ↔ s = [].
Proof. apply str_eqb_true. Qed.

Lemma time_text t : time_input t = true → go_string t = t ∧ TrimSpace t = t ∧ (t = [] ∨ validClockTime t = true).
Proof.
  unfold time_input. rewrite orb_true_iff, str_eqb_true. intros [->|Ht]; [split_and!; [done|done|by left]|].
  destruct (go_time t Ht). split_and!; [done|done|right; by apply HHMM_validClockTime].
Qed.

Lemma window_check w : match w with Some w => time_input (w_start w) = true ∧ time_input (w_end w) = true | None => True end →
  (tidyWindow (go_window w) ≫= ValidateWindow = None ↔ window_usable w).
Proof.
  destruct w as [[a b]|]; [|done]. cbn [w_start w_end]. intros [(Ea & Ta & Ha)%time_text (Eb & Tb & Hb)%time_text].
  unfold go_window. cbn [fmap option_fmap option_map w_start w_end tidyWindow mbind option_bind window_usable]. rewrite Ea, Eb, Ta, Tb.
  assert (Hn : validClockTime [] = false) by done.
  destruct (empty a) eqn:Na; [apply empty_iff in Na|apply empty_neg in Na]; (destruct (empty b) eqn:Nb; [apply empty_iff in Nb|apply empty_neg in Nb]);
    cbn [andb mbind option_bind]; unfold ValidateWindow; cbn [fst snd].
  - split; [by left|done].
  - subst a. rewrite Hn. cbn [negb]. split; [done|]. by intros [[_ ?]|[? _]].
  - subst b. destruct Ha as [?|Ha]; [done|]. rewrite Ha, Hn. cbn [negb]. split; [done|]. by intros [[? _]|(_ & ? & _)].
  - destruct Ha as [?|Ha]; [done|]. destruct Hb as [?|Hb]; [done|]. rewrite Ha, Hb. cbn [negb].
    destruct (str_eqb a b) eqn:E; [apply str_eqb_true in E|apply str_eqb_false in E].
    + split; [done|]. by intros [[? _]|(_ & _ & ?)].
    + split; [by right|done].
Qed.

Lemma foreign_false l k only : foreign l (kind_bytes k) (kind_bytes only) = false ↔ (k ≠ only → l = []).
Proof.
  unfold foreign. destruct (decide (k = only)) as [->|Hk].
  - assert (E : str_eqb (kind_bytes only) (kind_bytes only) = true) by (by apply str_eqb_true). rewrite E, andb_false_r. by split.
  - assert (E : str_eqb (kind_bytes k) (kind_bytes only) = false) by (by destruct k, only). rewrite E, andb_true_r.
    destruct l; cbn [is_nil negb]; [by split|]. split; [done|]. intros H. by specialize (H Hk).
Qed.

(** The policy of a form: its numbers are within the server's bounds. *)
Lemma policy_check kind p : fields_ok p →
  match window p with Some w => time_input (w_start w) = true ∧ time_input (w_end w) = true | None => True end →
  ValidatePolicy ToLower (kind_bytes kind) (go_policy p) = None ↔ scope_ok kind p ∧ window_usable (window p).
Proof.
  intros Hp Hw. pose proof (window_check _ Hw) as Hwin. unfold ValidatePolicy.
  cbn [NormalizedPolicy go_policy gp_quiesce gp_excludeDisks gp_excludePaths gp_retryCount gp_retryDelay gp_maxDuration gp_window gp_scriptTimeout gp_uploadLimit].
  fold (kept_disks p) (kept_paths p). destruct Hp as [_ _ H1 H2 H3 H4 H5].
  replace (retryDelayMinutes p =? 0) with false by (symmetry; apply Z.eqb_neq; lia).
  replace (scriptTimeoutSeconds p =? 0) with false by (symmetry; apply Z.eqb_neq; lia).
  rewrite (proj2 (within_spec 0 MaxRetryCount _) H1), (proj2 (within_spec 1 MaxRetryDelayMinutes _) H2),
    (proj2 (within_spec 0 MaxRunDurationMinutes _) H3), (proj2 (within_spec 1 MaxScriptTimeoutSecs _) H4),
    (proj2 (within_spec MinUploadLimitMbps MaxUploadLimitMbps _) H5). cbn [negb].
  assert (Eq : ToLower (TrimSpace (quiesce_bytes (quiesce p))) = quiesce_bytes (quiesce p)).
  { destruct (quiesce p); apply lower_plain, (bool_decide_unpack _); vm_compute; exact I. }
  rewrite Eq. replace (if empty (quiesce_bytes (quiesce p)) then QuiesceNone else quiesce_bytes (quiesce p)) with (quiesce_bytes (quiesce p)) by (by destruct (quiesce p)).
  replace (str_eqb (quiesce_bytes (quiesce p)) QuiesceNone || str_eqb (quiesce_bytes (quiesce p)) QuiesceGuestAgent) with true by (by destruct (quiesce p)).
  cbn [negb]. change SourceVM with (kind_bytes JVm). change SourceAgent with (kind_bytes JAgent).
  destruct (foreign (kept_disks p) (kind_bytes kind) (kind_bytes JVm)) eqn:Fd.
  { apply not_false_iff_true in Fd. rewrite foreign_false in Fd. split; [done|]. intros [Hs _]. destruct Fd. intros Hk. destruct kind; [done|]. apply Hs. }
  rewrite foreign_false in Fd. destruct (List.find (λ d, negb (ValidDiskKey ToLower d)) (kept_disks p)) as [d|] eqn:Ed.
  { split; [done|]. intros [Hs _]. destruct kind; destruct Hs as [Hs1 Hs2].
    - apply find_negb_none in Hs1. congruence.
    - rewrite Hs1 in Ed. done. }
  apply find_negb_none in Ed. destruct (foreign (kept_paths p) (kind_bytes kind) (kind_bytes JAgent)) eqn:Fp.
  { apply not_false_iff_true in Fp. rewrite foreign_false in Fp. split; [done|]. intros [Hs _]. destruct Fp. intros Hk. destruct kind; [|done]. apply Hs. }
  rewrite foreign_false in Fp. destruct (List.find (λ g, negb (validateGlob g)) (kept_paths p)) as [g|] eqn:Eg.
  { split; [done|]. intros [Hs _]. destruct kind; destruct Hs as [Hs1 Hs2].
    - rewrite Hs2 in Eg. done.
    - apply find_negb_none in Hs2. congruence. }
  apply find_negb_none in Eg. rewrite <- Hwin. destruct (tidyWindow (go_window (window p)) ≫= ValidateWindow) eqn:Ew.
  - split; [done|]. by intros [_ ?].
  - split; [|done]. intros _. split; [|done]. destruct kind; split; auto.
Qed.

(** The row a form is stored as. *)
Definition saved_row (id : bytes) (s : WizardState) : JobRecord :=
  mkJobRecord id (TrimSpace (go_string (trim (s_name s)))) (kind_bytes (s_kind s)) (go_string (id_text (s_targetId s))) (go_of (s_schedule s))
    (s_retention s) (NormalizedPolicy ToLower (go_policy (s_policy s))) (s_enabled s) (go_sources s) (normalizeTagFilter ToLower (go_tag s)).

(** A form ready to be saved: every step passes, and ids are the server's. *)
Record ready (s : WizardState) : Prop := {
  rd_step : stepValid s 0 = true;
  rd_schedule : valid_schedule (s_schedule s);
  rd_retention : valid_retention (s_retention s);
  rd_policy : good_policy (s_policy s);
  rd_sound : form_sound s;
}.

Lemma submit_ready toLowerCase locale_le engineText w : wizard_run toLowerCase locale_le engineText w →
  wizard_offered toLowerCase locale_le w Submit = true → form_sound (w_state w) → ready (w_state w).
Proof.
  intros Hr Ho Hf. destruct (wizard_run_ok _ _ _ w Hr) as [_ _ [Hs Hret Hpol _] _ _ Hv].
  cbn [wizard_offered] in Ho. apply andb_true_iff in Ho as [[_ Hl]%andb_true_iff _]. unfold isLast in Hl. apply Z.eqb_eq in Hl. rewrite Hl in Hv.
  pose proof (Hv 2 ltac:(done)) as V2. split; [by apply (Hv 0)| |done..]. by apply good_complete.
Qed.

Lemma tag_nil : normalizeTagFilter ToLower [] = [].
Proof. apply (lower_plain (ToLower := ToLower)). constructor. Qed.

Lemma applied tidy j s : tidy (go_of (s_schedule s)) = go_of (s_schedule s) → (s_kind s = JAgent → jr_tagFilter j = []) →
  apply ToLower tidy (request_of ToLower s) j = saved_row (jr_id j) s.
Proof.
  intros Ht Hj. unfold apply, request_of, saved_row. cbn [rq_name rq_kind rq_targetID rq_schedule rq_retention rq_policy rq_enabled rq_sources rq_tagFilter from_option default].
  rewrite Ht, NormalizedPolicy_idem by done. f_equal. destruct (s_kind s) eqn:Ek; [done|]. cbn [from_option]. rewrite Hj by done. unfold go_tag. by rewrite Ek, tag_nil.
Qed.

Lemma sound_id i : is_text i → go_string (id_text i) ≠ [].
Proof.
  destruct i as [t|]; [|done]. cbn [is_text id_text]. intros Ht E. pose proof (go_string_longer t) as H. rewrite E in H.
  by destruct t; [|cbn in H; lia].
Qed.

Lemma members_check s : stepValid s 0 = true → form_sound s →
  validateJob (kind_bytes (s_kind s)) (go_sources s) (normalizeTagFilter ToLower (go_tag s)) = None ↔
  (s_kind s = JVm → byTag s = true → normalizeTagFilter ToLower (go_string (s_tagFilter s)) ≠ []) ∧
  (s_kind s = JAgent → Forall (λ p, TrimSpace (go_string p) ≠ []) (s_paths s)).
Proof.
  intros Hv [_ Ha Hg]. unfold stepValid in Hv. cbn [Z.eqb] in Hv. destruct (negb (non_blank (s_name s))); [done|].
  unfold validateJob, go_sources, go_tag. destruct (s_kind s) eqn:Ek; cbn [kind_bytes].
  - change (str_eqb SourceVM SourceVM) with true. cbn [negb]. rewrite andb_false_r.
    rewrite bool_decide_eq_false_2 in Hv by done. destruct (byTag s).
    + cbn [is_nil andb existsb]. destruct (empty _) eqn:E; [apply empty_iff in E|apply empty_neg in E].
      * split; [done|]. intros [H _]. by destruct (H eq_refl eq_refl).
      * by split.
    + rewrite tag_nil. destruct (s_selectedVMs s) as [|vm l]; [done|]. cbn [is_nil map andb].
      destruct (existsb _ _) eqn:E; [|by split]. exfalso. apply existsb_exists in E as (x & Hx & E).
      change (go_guest vm :: map go_guest l) with (map go_guest (vm :: l)) in Hx. apply in_map_iff in Hx as (y & <- & Hy).
      rewrite Forall_forall in Hg. destruct (Hg y) as [Hh (n & En & Hn)]; [by apply list_elem_of_In|]. cbn [go_guest jsrc_hostID jsrc_vmid] in E.
      rewrite (proj2 (empty_neg _) (sound_id _ Hh)), En in E. cbn [orb] in E. apply Z.eqb_eq in E.
      change (number_of (of_Z n)) with (qround (QArith_base.inject_Z n)) in E. rewrite qround_Z in E. lia.
  - rewrite tag_nil. change (str_eqb SourceAgent SourceVM) with false. change (str_eqb SourceAgent SourceAgent) with true.
    cbn [empty negb andb is_nil fold_right jsrc_agentID jsrc_paths]. change (empty []) with true. cbn [negb andb].
    rewrite bool_decide_eq_true_2 in Hv by done. rewrite (proj2 (empty_neg _) (sound_id _ (Ha eq_refl))).
    destruct (s_paths s) as [|p ps]; [by rewrite andb_false_r in Hv|]. change (is_nil (map go_string (p :: ps))) with false. cbn match.
    assert (Hp : existsb (λ q, empty (TrimSpace q)) (map go_string (p :: ps)) = false ↔ Forall (λ q, TrimSpace (go_string q) ≠ []) (p :: ps)).
    { clear. induction (p :: ps) as [|q l IH]; [by split|]. cbn [map existsb]. rewrite orb_false_iff, IH, empty_neg, Forall_cons. done. }
    destruct (existsb _ _); rewrite <- Hp; [split; [done|]; intros [_ H]; by specialize (H eq_refl)|]. by split.
Qed.

Lemma cron_check s : valid_schedule s →
  Validate ToLower ParseStandard (go_of s) = None ↔
  match s with AdvancedSchedule c => TrimSpace (go_string c) ≠ [] ∧ ParseStandard (TrimSpace (go_string c)) = true | _ => True end.
Proof.
  intros Hs. pose proof (Validate_of ToLower ParseStandard s Hs) as H. by destruct s.
Qed.

Lemma retention_check r : valid_retention r → ValidateRetention r = None.
Proof.
  destruct r as [a b c d e]. unfold valid_retention, ValidateRetention, retentionFields, MaxRetentionCount.
  cbn [keepLast keepDaily keepWeekly keepMonthly keepYearly List.find snd]. intros (? & ? & ? & ? & ?).
  repeat (rewrite (proj2 (Z.ltb_ge _ _)) by lia; rewrite (proj2 (Z.ltb_ge _ _)) by lia; cbn [orb]). done.
Qed.

(** The server's checks on the row of a form. *)
Lemma row_check found id s : ready s →
  (jr_name (saved_row id s) ≠ [] ∧ checkJob ToLower ParseStandard found (saved_row id s) = None) ↔ acceptable found s.
Proof.
  intros [Hv Hs Hr [Hp Hw] Hf]. pose proof (members_check s Hv Hf) as Hm. pose proof (cron_check (s_schedule s) Hs) as Hc.
  pose proof (policy_check (s_kind s) (s_policy s) Hp Hw) as Hpol. unfold checkJob, validateJobPolicies.
  cbn [saved_row jr_name jr_kind jr_targetID jr_schedule jr_retention jr_policy jr_sources jr_tagFilter].
  rewrite ValidatePolicy_normal, retention_check by done. split.
  - intros [Hn H]. destruct (found _) eqn:Ef; [|done..]. destruct (validateJob _ _ _); [done|]. destruct (Validate _ _ _); [done|].
    destruct (ValidatePolicy _ _ _); [done|]. destruct (proj1 Hm eq_refl), (proj1 Hpol eq_refl). split; auto. by apply Hc.
  - intros [Hn Ht Htag Hpaths Hcron Hscope Hwin]. split; [done|]. by rewrite Ht, (proj2 Hm), (proj2 Hc), (proj2 Hpol).
Qed.

Lemma stored_row id s : valid_schedule (s_schedule s) → stored ToLower (saved_row id s) = saved_row id s.
Proof.
  intros Hs. unfold stored, saved_row. cbn [jr_id jr_name jr_kind jr_targetID jr_schedule jr_retention jr_policy jr_enabled jr_sources jr_tagFilter].
  by rewrite (Normalized_of ToLower) , NormalizedPolicy_idem by done.
Qed.

(** A save as the server handles it: a new job, or a change of the one edited. *)
Definition server_save (run : DbRun) (edited : option bytes) (body : jsval) (rows : list JobRecord) : Handled :=
  match edited with
  | None => handleCreateJob ToLower ParseStandard run body rows
  | Some id => handlePatchJob ToLower ParseStandard run id body rows
  end.
Definition save_action (edited : option bytes) : bytes := match edited with None => u "job.create" | Some _ => u "job.modify" end.

(** The table once the row is in. *)
Definition with_row (edited : option bytes) (row : JobRecord) (rows : list JobRecord) : list JobRecord :=
  match edited with None => rows ++ [row] | Some id => map (λ j, if job_named id j then row else j) rows end.

(** The job edited is in the table, and the form kept its kind. *)
Definition edits (edited : option bytes) (s : WizardState) (rows : list JobRecord) : Prop :=
  match edited with
  | None => True
  | Some id => ∃ old, List.find (job_named id) rows = Some old ∧ valid_job ToLower ParseStandard old ∧ jr_kind old = kind_bytes (s_kind s)
  end.

(** The database and the encoder do their part. *)
Definition healthy (run : DbRun) : Prop := run_read run = true ∧ run_written run = true ∧ run_encoded run = true.

Definition verdict (run : DbRun) (edited : option bytes) (s : WizardState) (rows : list JobRecord) (h : Handled) : Prop :=
  let row := saved_row (default (run_id run) edited) s in
  (acceptable (run_target run) s ∧ h = (with_row edited row rows, inl row, [job_event ToLower (save_action edited) row])) ∨
  (¬ acceptable (run_target run) s ∧ ∃ e, h = (rows, inr e, [])).

Lemma created_verdict run s rows : ready s → healthy run → verdict run None s rows (server_save run None (jobCreate_val (payload s)) rows).
Proof.
  intros Hr (_ & Hw & He). pose proof (row_check (run_target run) [] s Hr) as Hc. pose proof Hr as [_ Hs Hret [Hp _] Hf].
  unfold verdict, server_save, handleCreateJob. rewrite payload_decoded by done. rewrite (applied (λ g, g) newJob s) by done. change (jr_id newJob) with (@nil N).
  assert (Ht : empty (jr_targetID (saved_row [] s)) = false) by apply empty_neg, sound_id, (fs_target _ Hf). rewrite Ht.
  destruct (empty (jr_name (saved_row [] s))) eqn:En; [apply empty_iff in En|apply empty_neg in En].
  { right. split; [|by eexists]. intros [H _]%Hc. done. }
  destruct (checkJob _ _ _ _) as [e|] eqn:Ec.
  { right. split; [|by eexists]. intros [_ H]%Hc. congruence. }
  left. split; [by apply Hc|]. rewrite Hw, He. cbn [default with_row save_action].
  change (with_id (run_id run) (saved_row [] s)) with (saved_row (run_id run) s). by rewrite stored_row.
Qed.

Lemma agent_tag j : valid_job ToLower ParseStandard j → jr_kind j = SourceAgent → jr_tagFilter j = [].
Proof.
  intros [_ Hm _ _ _ _] Hk. unfold validateJob in Hm. rewrite Hk in Hm. change (str_eqb SourceAgent SourceVM) with false in Hm. cbn [negb] in Hm.
  rewrite andb_true_r in Hm. destruct (negb (empty (jr_tagFilter j))) eqn:E; [done|]. apply negb_false_iff in E. by apply empty_iff in E.
Qed.

Lemma patched_verdict run id s rows : ready s → healthy run → edits (Some id) s rows →
  verdict run (Some id) s rows (server_save run (Some id) (jobCreate_val (payload s)) rows).
Proof.
  intros Hr (Hrd & Hw & He) (old & Ho & Hv & Hk). pose proof (row_check (run_target run) id s Hr) as Hc. pose proof Hr as [_ Hs Hret [Hp _] Hf].
  pose proof (List.find_some _ _ Ho) as [_ Hid]. unfold job_named in Hid. apply str_eqb_true in Hid.
  unfold verdict, server_save, handlePatchJob. rewrite Hrd, Ho, payload_decoded by done. cbn [negb].
  assert (Ha : apply ToLower (Normalized ToLower) (request_of ToLower s) old = saved_row (jr_id old) s).
  { apply applied; [exact (Normalized_of ToLower _ Hs)|]. intros Ek. apply agent_tag; [done|]. by rewrite Hk, Ek. }
  rewrite Ha.
  rewrite Hid. cbn [default with_row save_action].
  destruct (empty (jr_name (saved_row id s))) eqn:En; [apply empty_iff in En|apply empty_neg in En].
  { right. split; [|by eexists]. intros [H _]%Hc. done. }
  destruct (checkJob _ _ _ _) as [e|] eqn:Ec.
  { right. split; [|by eexists]. intros [_ H]%Hc. congruence. }
  left. split; [by apply Hc|]. by rewrite Hw, He, stored_row.
Qed.

Lemma save_verdict run edited s rows : ready s → healthy run → edits edited s rows →
  verdict run edited s rows (server_save run edited (jobCreate_val (payload s)) rows).
Proof. destruct edited; [apply patched_verdict|intros ?? _; by apply created_verdict]. Qed.
End verdict.
