(* ===== verification/JobShown.v ===== *)
(** * A saved job, shown again

    What the job list sends of a stored job (ServerJobs), and the form it fills
    when the job is opened for editing (JobWizard): the form that was saved. *)
From Stdlib Require Import QArith.
From stdpp Require Import gmap.
From S2P Require Import Prelude JsString JsNumber JsValue Schedule ScheduleEditor Policy Retention Control Json Transport GoString ServerSchedule ServerSettings ServerTargets ServerPosture ServerAudit ServerJobs Targets Runs Inventory Protection Endpoints JobWizard JobSaved.
#[local] Open Scope Z_scope.

(** ** What the list sends *)

(** [Schedule.MarshalJSON]. *)
Definition schedule_sent (g : GoSchedule) : jsval :=
  let kind := if empty (Kind g) then u "manual" else Kind g in
  let kind_is k := str_eqb kind (u k) in
  let text (on : bool) (b : bytes) := if on && negb (empty b) then Some (text_val b) else None in
  struct_val
    [ (u "kind", Some (text_val kind));
      (u "minute", if kind_is "hourly"%string then Some (int_val (Minute g)) else None);
      (u "time", text (kind_is "daily"%string || kind_is "weekly"%string || kind_is "monthly"%string) (Time g));
      (u "weekdays", match normalizeWeekdays (Weekdays g) with
                     | [] => None
                     | days => if kind_is "weekly"%string then Some (VArr (map int_val days)) else None
                     end);
      (u "dayOfMonth", if kind_is "monthly"%string then Some (int_val (DayOfMonth g)) else None);
      (u "cron", text (kind_is "advanced"%string) (CronExpr g)) ].

Definition retention_sent (r : RetentionPolicy) : jsval :=
  VObj [ (u "keepLast", int_val (keepLast r)); (u "keepDaily", int_val (keepDaily r)); (u "keepWeekly", int_val (keepWeekly r));
         (u "keepMonthly", int_val (keepMonthly r)); (u "keepYearly", int_val (keepYearly r)) ].

(** The encoding of a [JobPolicy]. *)
Definition policy_sent (p : GoPolicy) : jsval :=
  VObj [ (u "quiesce", text_val (gp_quiesce p));
         (u "excludeDisks", VArr (map text_val (gp_excludeDisks p)));
         (u "excludePaths", VArr (map text_val (gp_excludePaths p)));
         (u "retryCount", int_val (gp_retryCount p));
         (u "retryDelayMinutes", int_val (gp_retryDelay p));
         (u "maxDurationMinutes", int_val (gp_maxDuration p));
         (u "window", match gp_window p with
                      | Some (start, stop) => VObj [(u "start", text_val start); (u "end", text_val stop)]
                      | None => VNull
                      end);
         (u "preScript", text_val (gp_preScript p));
         (u "postScript", text_val (gp_postScript p));
         (u "scriptTimeoutSeconds", int_val (gp_scriptTimeout p));
         (u "uploadLimitMbpsOverride", int_val (gp_uploadLimit p)) ].

(** One job of the list, as the page holds it; the target's name, the next and
    the last run are what the database says at that moment. *)
Definition listed_job (ToLower : bytes → bytes) (targetName : bytes → bytes) (nextRun : option jsstr) (lastRun : option JobRun) (j : JobRecord) : Job :=
  mkJob (IdStr (utf8_to_utf16 (jr_id j))) (utf8_to_utf16 (jr_name j)) (if str_eqb (jr_kind j) SourceVM then JVm else JAgent)
    (IdStr (utf8_to_utf16 (jr_targetID j))) (utf8_to_utf16 (targetName (jr_targetID j))) (schedule_sent (Normalized ToLower (jr_schedule j)))
    (Some (utf8_to_utf16 (Label ToLower (jr_schedule j)))) (retention_sent (jr_retention j)) (policy_sent (NormalizedPolicy ToLower (jr_policy j)))
    (jr_enabled j) (VArr (map source_val (jr_sources j))) (if empty (jr_tagFilter j) then None else Some (utf8_to_utf16 (jr_tagFilter j))) nextRun lastRun.

(** ** Text that comes back as it was sent *)

Definition arrives (t : jsstr) : Prop := utf8_to_utf16 (go_string t) = t.
Definition survives (t : jsstr) : Prop := arrives t ∧ TrimSpace (go_string t) = go_string t.

Lemma ascii_arrives t : ascii t → arrives t.
Proof.
  intros H. unfold arrives. rewrite go_string_ascii by done. induction H as [|c t Hc _ IH]; [done|].
  cbn [utf8_to_utf16]. rewrite (proj2 (N.ltb_lt c 128) Hc). by f_equal.
Qed.

(** Text whose surrogates are paired arrives. *)
Lemma paired_scalars n s b : (length s <= n)%nat → utf8 s = Some b → scalar_values s = s.
Proof.
  revert s b. induction n as [|n IH]; intros s b Hn H; (destruct s as [|c s]; [done|]); [cbn in Hn; lia|]. cbn [length] in Hn.
  cbn [utf8] in H. cbn [scalar_values]. destruct (is_high c) eqn:Eh.
  - destruct s as [|d s]; [done|]. destruct (is_low d); [|done]. apply fmap_Some in H as (l & Hl & _). cbn [length] in Hn.
    do 2 f_equal. apply (IH s l); [lia|done].
  - destruct (is_low c); [done|]. apply fmap_Some in H as (l & Hl & _). f_equal. apply (IH s l); [lia|done].
Qed.

Lemma paired_arrives t b : units_ok t → utf8 t = Some b → arrives t.
Proof.
  intros Hu Hb. unfold arrives, go_string. rewrite (paired_scalars _ t b (le_n _) Hb), Hb. cbn [default]. by apply (utf8_decode t b).
Qed.

Lemma survives_trim t : survives t → utf8_to_utf16 (TrimSpace (go_string t)) = t.
Proof. by intros [H ->]. Qed.
Lemma text_val_arrives t : arrives t → text_val (go_string t) = VStr t.
Proof. unfold text_val. by intros ->. Qed.
Lemma int_val_Z n : - 2 ^ 53 <= n <= 2 ^ 53 → int_val n = VNum (of_Z n).
Proof. intros H. unfold int_val. by rewrite rnd_Z. Qed.
Lemma go_string_nonempty t : t ≠ [] → go_string t ≠ [].
Proof. intros Ht E. pose proof (go_string_longer t) as H. rewrite E in H. destruct t; [done|]. cbn in H. lia. Qed.
Lemma arrives_inj a b : arrives a → arrives b → go_string a = go_string b → a = b.
Proof. unfold arrives. congruence. Qed.

(** ** The schedule, the retention and the policy come back unchanged *)

Lemma schedule_fields_nd : NoDup [u "kind"; u "minute"; u "time"; u "weekdays"; u "dayOfMonth"; u "cron"].
Proof. apply (bool_decide_unpack _). vm_compute. exact I. Qed.

Lemma time_sent t : HHMM t = true → text_val t = VStr t ∧ empty t = false.
Proof.
  intros H. destruct (go_time t H) as [E _]. pose proof (clock_parts t H) as (h & m & _ & _ & _ & _ & Ht & Ha & _).
  split; [rewrite <- E at 1; by apply text_val_arrives, ascii_arrives|]. apply empty_neg. intros ->. discriminate H.
Qed.

Lemma schedule_back s : valid_schedule s → (∀ c, s = AdvancedSchedule c → survives c ∧ c ≠ []) → schedule_sent (go_of s) = schedule_val s.
Proof.
  intros Hs Hc. unfold schedule_sent. destruct s as [|m|time|time days|time day|cron]; cbn [go_of Kind Minute Time Weekdays DayOfMonth CronExpr valid_schedule] in *.
  - reflexivity.
  - rewrite (int_val_Z m) by lia. reflexivity.
  - destruct (time_sent time Hs) as [-> ->]. reflexivity.
  - destruct Hs as (Ht & Hne & Hi & Hr). destruct (time_sent time Ht) as [-> ->]. rewrite normalizeWeekdays_id by done.
    assert (Ed : map int_val days = map (λ d, VNum (of_Z d)) days).
    { apply map_ext_in. intros d Hd. rewrite Forall_forall in Hr. apply list_elem_of_In in Hd. specialize (Hr d Hd). apply int_val_Z. lia. }
    destruct days as [|d days]; [done|]. rewrite Ed. reflexivity.
  - destruct Hs as [Ht Hd]. destruct (time_sent time Ht) as [-> ->]. rewrite (int_val_Z day) by lia. reflexivity.
  - destruct (Hc cron eq_refl) as [[Ha Ht] Hne]. rewrite Ht. rewrite (text_val_arrives cron Ha), (proj2 (empty_neg _) (go_string_nonempty _ Hne)). reflexivity.
Qed.

Lemma retention_back r : valid_retention r → retention_sent r = retention_val r.
Proof.
  destruct r as [a b c d e]. unfold valid_retention, retention_sent, retention_val. cbn [keepLast keepDaily keepWeekly keepMonthly keepYearly].
  intros (? & ? & ? & ? & ?). by rewrite !int_val_Z by lia.
Qed.

Section back.
Context (ToLower : bytes → bytes) {HL : LowerText ToLower}.

(** Tokens that the server's tidying leaves alone. *)
Definition tokens_survive (fold : bytes → bytes) (l : list jsstr) : Prop :=
  NoDup l ∧ Forall (λ t, survives t ∧ t ≠ [] ∧ fold (go_string t) = go_string t) l.

Lemma tokens_kept fold l : tokens_survive fold l → normalizeList fold (map go_string l) = map go_string l.
Proof.
  intros [Hn Hl]. apply tidy_fixed. rewrite Forall_forall in Hl. split.
  - apply Forall_forall. intros x (t & -> & Ht)%list_elem_of_fmap. destruct (Hl t Ht) as ([_ Htr] & Hne & Hf).
    split_and!; [by rewrite Htr|by apply go_string_nonempty|by apply not_elem_of_nil].
  - induction Hn as [|t l Hnt Hn IH]; [constructor|]. cbn [map]. apply NoDup_cons. split.
    + intros (t' & E & Ht')%list_elem_of_fmap. apply arrives_inj in E as <-; [done|apply Hl; set_solver..].
    + apply IH. intros x Hx. apply Hl. set_solver.
Qed.

Lemma tokens_back fold l : tokens_survive fold l → VArr (map text_val (normalizeList fold (map go_string l))) = VArr (map VStr l).
Proof.
  intros H. rewrite tokens_kept by done. destruct H as [_ Hl]. rewrite map_map. f_equal. apply map_ext_in. intros t Ht%list_elem_of_In.
  rewrite Forall_forall in Hl. by apply text_val_arrives, Hl.
Qed.

Lemma window_back w : match w with Some w => time_input (w_start w) = true ∧ time_input (w_end w) = true | None => True end → window_usable w →
  match tidyWindow (go_window w) with Some (start, stop) => VObj [(u "start", text_val start); (u "end", text_val stop)] | None => VNull end =
  window_val (complete_window w).
Proof.
  destruct w as [[a b]|]; [|done]. cbn [w_start w_end window_usable]. intros [Ha Hb].
  destruct (time_text a Ha) as (Ea & Ta & _), (time_text b Hb) as (Eb & Tb & _).
  unfold go_window. cbn [fmap option_fmap option_map w_start w_end tidyWindow mbind option_bind complete_window]. rewrite Ea, Eb, Ta, Tb.
  intros [[-> ->]|(Na & Nb & _)]; [done|]. rewrite (proj2 (empty_neg _) Na), (proj2 (str_eqb_false _ _) Na), (proj2 (str_eqb_false _ _) Nb). cbn [andb orb].
  unfold time_input in *. rewrite (proj2 (str_eqb_false _ _) Na) in Ha. rewrite (proj2 (str_eqb_false _ _) Nb) in Hb. cbn [orb] in *.
  destruct (time_sent a Ha) as [-> _], (time_sent b Hb) as [-> _]. reflexivity.
Qed.

Record policy_survives (p : JobPolicy) : Prop := {
  ps_disks : tokens_survive ToLower (excludeDisks p);
  ps_paths : tokens_survive (λ s, s) (excludePaths p);
  ps_pre : survives (preScript p);
  ps_post : survives (postScript p);
}.

Lemma script_back t : survives t → text_val (TrimSpace (go_string t)) = VStr t.
Proof. intros [Ha ->]. by apply text_val_arrives. Qed.

Lemma policy_back p : good_policy p → window_usable (window p) → policy_survives p →
  policy_sent (NormalizedPolicy ToLower (go_policy p)) = policy_val (set_window (complete_window (window p)) p).
Proof.
  intros [Hp Hw] Hu [Hd Hpa Hpre Hpost]. cbn [f_policy] in *. unfold policy_sent.
  cbn [NormalizedPolicy go_policy gp_quiesce gp_excludeDisks gp_excludePaths gp_retryCount gp_retryDelay gp_maxDuration gp_window gp_preScript gp_postScript gp_scriptTimeout gp_uploadLimit].
  rewrite tokens_back, tokens_back, window_back, !script_back by done.
  assert (Eq : text_val (if empty (ToLower (TrimSpace (quiesce_bytes (quiesce p)))) then QuiesceNone else ToLower (TrimSpace (quiesce_bytes (quiesce p))))
               = VStr (match quiesce p with QNone => u "none" | QGuestAgent => u "guest-agent" end)).
  { assert (El : ToLower (TrimSpace (quiesce_bytes (quiesce p))) = quiesce_bytes (quiesce p))
      by (destruct (quiesce p); apply lower_plain, (bool_decide_unpack _); vm_compute; exact I).
    rewrite El. by destruct (quiesce p). }
  rewrite Eq. destruct Hp as [_ _ H1 H2 H3 H4 H5].
  replace (retryDelayMinutes p =? 0) with false by (symmetry; apply Z.eqb_neq; lia).
  replace (scriptTimeoutSeconds p =? 0) with false by (symmetry; apply Z.eqb_neq; lia).
  rewrite !int_val_Z by lia. by destruct p.
Qed.
End back.

(** ** The sources come back *)

Lemma guest_back vm : guest_sound vm → arrives (id_text (vm_hostId vm)) →
  isVMJobSource (source_val (go_guest vm)) = true ∧ sourceRefKey (source_val (go_guest vm)) = rowKey vm.
Proof.
  intros [Hh (n & En & Hn)] Ha. unfold isVMJobSource, sourceRefKey, source_val, go_guest. rewrite !has_struct, !get_struct by apply source_fields.
  cbn [List.find fst snd jsrc_hostID jsrc_vmid]. js_literals. cbn [from_option id snd is_object struct_val].
  pose proof (sound_id _ Hh) as Hne. rewrite En. change (number_of (of_Z n)) with (qround (inject_Z n)). rewrite qround_Z.
  rewrite (proj2 (str_eqb_false _ _) Hne). replace (n =? 0) with false by (symmetry; apply Z.eqb_neq; lia). split; [done|].
  unfold rowKey. cbn [default]. rewrite (text_val_arrives _ Ha), int_val_Z, En by lia. destruct (vm_hostId vm); [done|destruct Hh].
Qed.

Lemma guests_back l : Forall guest_sound l → Forall (λ vm, arrives (id_text (vm_hostId vm))) l →
  map sourceRefKey (vmSourcesOf (VArr (map source_val (map go_guest l)))) = map rowKey l.
Proof.
  intros Hg Ha. unfold vmSourcesOf. induction l as [|vm l IH]; [done|]. apply Forall_cons in Hg as [Hv Hg], Ha as [Hav Ha].
  destruct (guest_back vm Hv Hav) as [E1 E2]. cbn [map List.filter]. rewrite E1. cbn [map]. by rewrite E2, IH.
Qed.

Lemma agent_back a ps : is_text a → arrives (id_text a) → ps ≠ [] → Forall arrives ps →
  let src := agentSourceOf (VArr (map source_val [mkJobSrc [] 0 [] (go_string (id_text a)) (map go_string ps)])) in
  agentIdOf src = a ∧ pathsOf src = ps.
Proof.
  intros Ht Ha Hps Hp. set (o := source_val (mkJobSrc [] 0 [] (go_string (id_text a)) (map go_string ps))).
  assert (Ei : get o "agentId" = VStr (id_text a)).
  { unfold o, source_val. rewrite get_struct by apply source_fields. cbn [List.find fst snd jsrc_agentID]. js_literals. cbn [snd].
    rewrite (proj2 (str_eqb_false _ _) (sound_id _ Ht)). cbn [default]. by apply text_val_arrives. }
  assert (Ep : get o "paths" = VArr (map VStr ps)).
  { unfold o, source_val. rewrite get_struct by apply source_fields. cbn [List.find fst snd jsrc_paths]. js_literals. cbn [snd].
    destruct ps as [|p ps]; [done|]. change (map go_string (p :: ps)) with (go_string p :: map go_string ps). cbn match. cbn [default].
    change (go_string p :: map go_string ps) with (map go_string (p :: ps)). rewrite map_map. unfold id. f_equal. apply map_ext_in. intros q Hq%list_elem_of_In.
    rewrite Forall_forall in Hp. by apply text_val_arrives, Hp. }
  assert (Eh : has o "agentId" = true).
  { unfold o, source_val. rewrite has_struct by apply source_fields. cbn [List.find fst snd jsrc_agentID]. js_literals. cbn match.
    by rewrite (proj2 (str_eqb_false _ _) (sound_id _ Ht)). }
  assert (Es : agentSourceOf (VArr (map source_val [mkJobSrc [] 0 [] (go_string (id_text a)) (map go_string ps)])) = Some o).
  { unfold agentSourceOf. change (isAgentJobSource (VArr _)) with false. cbn [map List.find]. fold o. unfold isAgentJobSource. by rewrite Eh, Ep. }
  intros src. unfold src. rewrite Es. unfold agentIdOf, pathsOf. rewrite Ei, Ep. cbn [array_or_nil]. rewrite only_strings_map.
  destruct a; [done|destruct Ht].
Qed.

(** ** The form again *)

Section shown.
Context (ToLower : bytes → bytes) {HL : LowerText ToLower}.

(** The texts of a form that the server keeps as they are: their surrogates are
    paired, they neither start nor end with what only one side takes for white
    space, and those that the server lowers are lower case. *)
Record form_survives (s : WizardState) : Prop := {
  sv_name : survives (trim (s_name s));
  sv_target : arrives (id_text (s_targetId s));
  sv_tag : survives (s_tagFilter s) ∧ ToLower (go_string (s_tagFilter s)) = go_string (s_tagFilter s);
  sv_guests : Forall (λ vm, arrives (id_text (vm_hostId vm))) (s_selectedVMs s);
  sv_agent : arrives (id_text (s_agentId s)) ∧ Forall arrives (s_paths s);
  sv_cron : ∀ c, s_schedule s = AdvancedSchedule c → survives c;
  sv_policy : policy_survives ToLower (s_policy s);
}.

(** The form of an edited job shows what another form holds. *)
Record shown (s s' : WizardState) (vms : list CachedVM) : Prop := {
  sh_name : s_name s' = trim (s_name s);
  sh_kind : s_kind s' = s_kind s;
  sh_target : s_targetId s' = s_targetId s;
  sh_schedule : s_schedule s' = s_schedule s;
  sh_retention : s_retention s' = s_retention s;
  sh_policy : s_policy s' = set_window (complete_window (window (s_policy s))) (s_policy s);
  sh_enabled : s_enabled s' = s_enabled s;
  sh_members :
    match s_kind s with
    | JVm => byTag s' = byTag s ∧
        if byTag s then s_tagFilter s' = s_tagFilter s
        else ∀ vm, vm ∈ s_selectedVMs s' ↔ vm ∈ vms ∧ rowKey vm ∈ map rowKey (s_selectedVMs s)
    | JAgent => s_agentId s' = s_agentId s ∧ s_paths s' = s_paths s
    end;
}.

Lemma policy_parsed p : good_policy p →
  let p' := set_window (complete_window (window p)) p in parsePolicy (policy_val p') = p'.
Proof.
  intros Hg. destruct (valid_complete _ Hg) as [Hf Hw]. cbn [f_policy] in *. cbn zeta. rewrite parsePolicy_val; [|done|].
  - destruct p as [q d pa rc rd md w pre post t l]. cbn [set_window window] in *. f_equal. destruct w as [[a b]|]; [|done].
    unfold complete_window. destruct (str_eqb a [] || str_eqb b []) eqn:E; [done|]. by rewrite E.
  - destruct (window (set_window _ _)) as [[a b]|]; [|done]. destruct Hw as [Ha Hb]. unfold time_input. cbn [w_start w_end] in *. by rewrite Ha, Hb, !orb_true_r.
Qed.

Lemma id_back i : is_text i → arrives (id_text i) → IdStr (utf8_to_utf16 (go_string (id_text i))) = i.
Proof. destruct i as [t|]; [|done]. cbn [id_text]. by intros _ ->. Qed.

Lemma shown_again ParseStandard found id s names next lst vms : ready s → acceptable ToLower ParseStandard found s → form_survives s →
  shown s (initialState (Some (listed_job ToLower names next lst (saved_row ToLower id s))) None vms) vms.
Proof.
  intros [Hv Hs Hr Hp Hf] Ha [Hn Ht [Htag Hlow] Hg [Hag Hpa] Hc Hpol]. destruct Ha as [_ _ Htf _ Hcron _ Hwin].
  pose proof (survives_trim _ Hn) as En.
  assert (Hsch : schedule_sent (Normalized ToLower (go_of (s_schedule s))) = schedule_val (s_schedule s)).
  { rewrite (Normalized_of ToLower _ Hs). apply schedule_back; [done|]. intros c E. split; [by apply Hc|]. rewrite E in Hcron. intros ->. destruct Hcron as [H _]. by apply H. }
  split; cbn [initialState listed_job saved_row jb_name jb_kind jb_targetId jb_schedule jb_retention jb_policy jb_enabled jb_sources jb_tagFilter
              jr_id jr_name jr_kind jr_targetID jr_schedule jr_retention jr_policy jr_enabled jr_sources jr_tagFilter
              s_name s_kind s_targetId s_schedule s_retention s_policy s_enabled].
  - done.
  - by destruct (s_kind s).
  - apply id_back; [apply (fs_target _ Hf)|done].
  - rewrite Hsch. by apply parseSchedule_val.
  - rewrite retention_back by done. by apply parseRetention_val.
  - rewrite NormalizedPolicy_idem, policy_back by done. by apply policy_parsed.
  - done.
  - unfold byTag at 1. cbn [s_kind s_sourceMode s_tagFilter s_selectedVMs s_agentId s_paths]. destruct (s_kind s) eqn:Ek.
    + assert (Et : normalizeTagFilter ToLower (go_tag s) = if byTag s then go_string (s_tagFilter s) else []).
      { unfold go_tag. rewrite Ek. destruct (byTag s); [|by apply tag_nil]. unfold normalizeTagFilter. destruct Htag as [_ ->]. done. }
      rewrite Et. change (str_eqb (kind_bytes JVm) SourceVM) with true. cbn match. rewrite (bool_decide_eq_true_2 (JVm = JVm)) by done. cbn [andb].
      destruct (byTag s) eqn:Eb.
      * specialize (Htf eq_refl eq_refl). unfold normalizeTagFilter in Htf. destruct Htag as [Har Htr]. rewrite Htr, Hlow in Htf.
        rewrite (proj2 (empty_neg _) Htf). rewrite Har. assert (Hne : s_tagFilter s ≠ []) by (intros E; by rewrite E in Htf).
        rewrite (proj2 (str_eqb_false _ _) Hne). by rewrite bool_decide_eq_true_2.
      * change (empty []) with true. cbn match. change (str_eqb [] []) with true. cbn match. rewrite bool_decide_eq_false_2 by done. split; [done|].
        intros vm. unfold go_sources. rewrite Ek, Eb. rewrite guests_back by (done || apply (fs_guests _ Hf)).
        rewrite list_elem_of_In, filter_In, has_key_spec, <- list_elem_of_In. done.
    + unfold go_sources. rewrite Ek. apply agent_back; [by apply (fs_agent _ Hf)|done| |done].
      unfold stepValid in Hv. cbn [Z.eqb] in Hv. destruct (negb (non_blank (s_name s))); [done|]. rewrite Ek, bool_decide_eq_true_2 in Hv by done.
      apply andb_true_iff in Hv as [_ Hv]. by apply negb_true_iff, is_nil_false in Hv.
Qed.
End shown.

(** C28: a job is shown as it was saved.  Whenever the wizard offers to save, a
    new job or a change of an edited one, the server decodes the form field for
    field; it refuses it, changing nothing, exactly when the name is blank to it,
    the target is gone, the tag or a path is blank to it, the cron library does
    not parse the expression, an exclusion is of the other kind of job or no disk
    key or pattern, or the window lacks an end or has no length; otherwise the
    table holds the job with one audit entry.  When that job is opened for
    editing again the form shows what was saved: every field, an empty window as
    none, and of the guests those the inventory still lists. *)
Theorem saved_as_shown (ToLower : bytes → bytes) {HL : LowerText ToLower} ParseStandard toLowerCase locale_le engineText w run edited rows :
  wizard_run toLowerCase locale_le engineText w → wizard_offered toLowerCase locale_le w Submit = true →
  form_sound (w_state w) → healthy run → edits ToLower ParseStandard edited (w_state w) rows →
  let s := w_state w in
  let h := server_save ToLower ParseStandard run edited (jobCreate_val (payload s)) rows in
  verdict ToLower ParseStandard run edited s rows h ∧
  ∀ row, h.1.2 = inl row → form_survives ToLower s →
    ∀ names next lst vms, shown s (initialState (Some (listed_job ToLower names next lst row)) None vms) vms.
Proof.
  intros Hw Ho Hf Hh He s h. pose proof (submit_ready _ _ _ _ Hw Ho Hf) as Hr.
  pose proof (save_verdict ToLower ParseStandard run edited s rows Hr Hh He) as Hv. split; [exact Hv|].
  intros row Hrow Hsv names next lst vms. destruct Hv as [[Ha E]|(_ & e & E)]; unfold h in Hrow; rewrite E in Hrow; [|discriminate].
  injection Hrow as <-. by eapply shown_again.
Qed.

(** ** Examples *)

Definition found_all : bytes → Lookup := λ _, Found.
Definition up : DbRun := mkDbRun found_all true true true (u "j1").
Definition no_cron : bytes → bool := λ _, false.

Definition web_01 : CachedVM :=
  mkVM (of_Z 102) (u "web-01") (u "node-1") (u "running") (VNum (of_Z 0)) (VNum (of_Z 0)) (VNum (of_Z 0)) (VArr []) (IdStr (u "h1")) (u "pve").
Definition office : Props :=
  mkProps [mkTarget (IdStr (u "t1")) (u "nas") Filesystem (Some (u "/mnt/nas")) [] [] [] false (u "ok") VUndef VUndef false]
    [web_01] [mkAgent (IdStr (u "a1")) (u "filer") (u "linux") (u "amd64") (u "1") (u "online") [] []] None None.

Definition wizard_after (msgs : list WizardMsg) : Wizard :=
  match perform id (λ _ _, true) [] (openWizard office None) msgs with Some w => w | None => openWizard office None end.

Lemma wizard_after_run msgs : Forall msg_ok msgs → wizard_run id (λ _ _, true) [] (wizard_after msgs).
Proof.
  intros Hm. unfold wizard_after. assert (H0 : wizard_run id (λ _ _, true) [] (openWizard office None)).
  { constructor. unfold inventory_ok. apply NoDup_ListNoDup. vm_compute. repeat constructor; simpl; intuition discriminate. }
  destruct (perform _ _ _ _ msgs) as [w|] eqn:E; [by eapply perform_run|done].
Qed.

(** A job for one guest, with a disk left out. *)
Definition one_guest : list WizardMsg :=
  [SetName (u " nightly "); ToggleVM 0; Continue; PickTarget 0; Continue; Continue; Continue;
   EditPolicy (TypeDisk (u "scsi1")); EditPolicy AddDisk; Continue].

Definition guest_form : WizardState :=
  mkState (u " nightly ") JVm Manual [web_01] [] no_id [] (IdStr (u "t1")) DEFAULT_SCHEDULE DEFAULT_RETENTION
    (set_disks [u "scsi1"] DEFAULT_POLICY) true.

Lemma guest_form_reached : w_state (wizard_after one_guest) = guest_form.
Proof. vm_compute. reflexivity. Qed.

Lemma guest_form_sound : form_sound guest_form.
Proof. split; [discriminate|discriminate|]. apply Forall_singleton. split; [discriminate|]. exists 102. split; [reflexivity|lia]. Qed.

Lemma guest_form_survives : form_survives ascii_lower guest_form.
Proof.
  assert (Hnil : survives []) by (split; reflexivity).
  split.
  - split; vm_compute; reflexivity.
  - vm_compute. reflexivity.
  - split; [exact Hnil|reflexivity].
  - apply Forall_singleton. vm_compute. reflexivity.
  - split; [vm_compute; reflexivity|constructor].
  - intros c E. discriminate E.
  - split; [|split; [apply NoDup_nil_2|apply Forall_nil_2]|exact Hnil|exact Hnil].
    split; [apply NoDup_singleton|]. apply Forall_singleton. split; [split; vm_compute; reflexivity|]. split; [discriminate|vm_compute; reflexivity].
Qed.

Lemma saved_as_shown_witness :
  let s := w_state (wizard_after one_guest) in
  let row := saved_row ascii_lower (u "j1") guest_form in
  server_save ascii_lower no_cron up None (jobCreate_val (payload s)) [] = ([row], inl row, [job_event ascii_lower (u "job.create") row]) ∧
  jr_name row = u "nightly" ∧
  shown s (initialState (Some (listed_job ascii_lower (λ _, u "nas") None None row)) None [web_01]) [web_01].
Proof.
  intros s row. assert (Hf : form_sound s) by (unfold s; rewrite guest_form_reached; exact guest_form_sound).
  assert (Hs : form_survives ascii_lower s) by (unfold s; rewrite guest_form_reached; exact guest_form_survives).
  assert (E : server_save ascii_lower no_cron up None (jobCreate_val (payload s)) [] = ([row], inl row, [job_event ascii_lower (u "job.create") row]))
    by (unfold s; rewrite guest_form_reached; vm_compute; reflexivity).
  split; [exact E|]. split; [vm_compute; reflexivity|].
  apply (proj2 (saved_as_shown ascii_lower no_cron id (λ _ _, true) [] (wizard_after one_guest) up None []
    (wizard_after_run one_guest ltac:(repeat constructor)) ltac:(vm_compute; reflexivity) Hf (conj eq_refl (conj eq_refl eq_refl)) I)); [|exact Hs].
  exact (f_equal (λ h : Handled, h.1.2) E).
Defined.

(** Leaving a disk out and then choosing an agent: the exclusion stays in the
    form, where the protection step neither shows nor names it, and the server
    refuses the job for it. *)
Definition kind_changed : list WizardMsg :=
  one_guest ++ [Back; Back; Back; Back; Back; SetKind JAgent; PickAgent 0; TypePathDraft (u "/srv"); AddInclude;
                Continue; Continue; Continue; Continue; Continue].

Lemma hidden_exclusion :
  let w := wizard_after kind_changed in
  wizard_run id (λ _ _, true) [] w ∧ wizard_offered id (λ _ _, true) w Submit = true ∧
  policyHighlights (s_policy (w_state w)) JAgent = [] ∧ isDefaultPolicy (s_policy (w_state w)) = false ∧
  (server_save ascii_lower no_cron up None (jobCreate_val (payload (w_state w))) []).1.2 = inr (PolicyRefused DisksOfAgent).
Proof.
  split; [apply wizard_after_run; repeat constructor|]. split_and!; vm_compute; reflexivity.
Qed.

(** Half a window is let through by the form, which shows none, and refused. *)
Definition half_window : list WizardMsg :=
  [SetName (u "nightly"); ToggleVM 0; Continue; PickTarget 0; Continue; Continue; Continue;
   EditPolicy (SetWindowOn true); EditPolicy (SetWindowEnd []); Continue].

Lemma half_window_refused :
  let w := wizard_after half_window in
  wizard_run id (λ _ _, true) [] w ∧ wizard_offered id (λ _ _, true) w Submit = true ∧
  (server_save ascii_lower no_cron up None (jobCreate_val (payload (w_state w))) []).1.2 = inr (PolicyRefused (WindowEnd [])).
Proof.
  split; [apply wizard_after_run; repeat constructor|]. split_and!; vm_compute; reflexivity.
Qed.
