(* ===== verification/JobsPage.v ===== *)
(** * The jobs page (web/src/pages/JobsPage.tsx)

    The list of jobs, the requests of each row, and the wizard that creates and
    edits them (JobWizard), mounted as the page mounts it. *)
From stdpp Require Import gmap.
From S2P Require Import Prelude JsString JsNumber JsValue Schedule ScheduleText Policy Retention Control Json Transport Targets Format Runs Backups Ui Roles Inventory Endpoints JobWizard VmsPage Widgets.

Record JobsData := mkJobs { jd_jobs : list Job; jd_targets : list Target; jd_vms : list CachedVM; jd_agents : list Agent }.

(** ** What a row says *)

Definition no_sources : jsstr := u "No sources".

(** [label] of [sourceSummary]: the cluster is looked up in the inventory; a
    VMID is a number. *)
Definition source_label (vms : list CachedVM) (source : jsval) : jsstr :=
  let vm := List.find (λ item, str_eqb (id_text (vm_hostId item)) (to_str (get source "hostId")) && same_vmid (get source "vmid") (vm_vmid item)) vms in
  identityText (mkWorkload (vm_hostName <$> vm) (to_str (get source "name")) (match get source "vmid" with VNum n => Some n | _ => None end)
                  (vm_node <$> vm)).

Definition path_count (source : jsval) : nat := length (array_or_nil (get source "paths")).

Definition sourceSummary (job : Job) (agents : list Agent) (vms : list CachedVM) : jsstr :=
  match jb_kind job with
  | JVm =>
      match vmSourcesOf (jb_sources job) with
      | [] => no_sources
      | sources =>
          let shown := join (u " · ") (map (source_label vms) (take 2 sources)) in
          if (length sources <=? 2)%nat then shown else cat [shown; u " + "; str_of_Z (Z.of_nat (length sources - 2)); u " more"]
      end
  | JAgent =>
      match agentSourceOf (jb_sources job) with
      | None => no_sources
      | Some source =>
          let id := to_str (get source "agentId") in
          cat [ match List.find (λ item, str_eqb (id_text (ag_id item)) id) agents with Some a => ag_hostname a | None => cat [u "Agent "; id] end;
                u " — "; str_of_Z (Z.of_nat (path_count source)); u " "; if (path_count source =? 1)%nat then u "path" else u "paths" ]
      end
  end.

(** ** The page *)

Inductive RowBusy := BusyRun | BusyToggle | BusyDelete.
#[export] Instance RowBusy_eq_dec : EqDecision RowBusy.
Proof. solve_decision. Defined.

(** One mounted row: which mounting it is, and its [busy]. *)
Record RowState := mkRow { rw_inst : Z; rw_busy : option RowBusy }.

(** A request under way, with the row that sent it and the job it was for. *)
Inductive JobFlight := FRun (inst : Z) (job : Job) | FToggle (inst : Z) (job : Job) (enabled : bool) | FDelete (inst : Z) (job : Job).
Inductive JobAnswer := JobDone | JobFailed (err : Thrown).

(** Rows are keyed by the text of their job's id. *)
Record JobsState := mkJobsState {
  jp_async : Async JobsData unit;
  jp_rows : gmap jsstr RowState;
  jp_mounts : Z;
  jp_wizard : Wizard;
  jp_asking : option (Z * Job);
  jp_flights : list JobFlight;
  jp_said : list ToastCall;
  jp_left : option jsstr;
}.

Inductive JobsMsg :=
  | JMonitor | JReload | JCreate
  | JRun (job : Job) | JToggle (job : Job) | JEdit (job : Job) | JDelete (job : Job) | JConfirm (ok : bool)
  | JWizard (m : WizardMsg) | JPoll
  | JRead (i : nat) (answer : JobsData + Thrown)
  | JAnswered (i : nat) (answer : JobAnswer).

Definition jobs_data (s : JobsState) : JobsData := default (mkJobs [] [] [] []) (as_data (jp_async s)).
Definition jobs_of (s : JobsState) : list Job := jd_jobs (jobs_data s).
Definition job_key (j : Job) : jsstr := id_text (jb_id j).
Definition job_running (j : Job) : bool := match jb_lastRun j with Some r => bool_decide (run_status r = RRunning) | None => false end.
Definition anyRunning (s : JobsState) : bool := existsb job_running (jobs_of s).

(** The wizard before it is first opened. *)
Definition closedWizard : Wizard :=
  let w := openWizard (mkProps [] [] [] None None) None in
  mkWizard (w_props w) false (w_step w) (w_state w) (w_pathDraft w) (w_query w) (w_submitting w) (w_error w) (w_editor w) (w_drafts w).

Definition mountJobs : JobsState := mkJobsState (mountAsync tt) ∅ 0 closedWizard None [] [] None.

Definition with_jasync (a : Async JobsData unit) (s : JobsState) : JobsState :=
  mkJobsState a (jp_rows s) (jp_mounts s) (jp_wizard s) (jp_asking s) (jp_flights s) (jp_said s) (jp_left s).
Definition with_rows (rows : gmap jsstr RowState) (s : JobsState) : JobsState :=
  mkJobsState (jp_async s) rows (jp_mounts s) (jp_wizard s) (jp_asking s) (jp_flights s) (jp_said s) (jp_left s).
Definition with_jwizard (w : Wizard) (s : JobsState) : JobsState :=
  mkJobsState (jp_async s) (jp_rows s) (jp_mounts s) w (jp_asking s) (jp_flights s) (jp_said s) (jp_left s).
Definition with_jasking (a : option (Z * Job)) (s : JobsState) : JobsState :=
  mkJobsState (jp_async s) (jp_rows s) (jp_mounts s) (jp_wizard s) a (jp_flights s) (jp_said s) (jp_left s).
Definition jobs_send (f : JobFlight) (s : JobsState) : JobsState :=
  mkJobsState (jp_async s) (jp_rows s) (jp_mounts s) (jp_wizard s) (jp_asking s) (jp_flights s ++ [f]) (jp_said s) (jp_left s).
Definition jobs_landed (i : nat) (said : list ToastCall) (s : JobsState) : JobsState :=
  mkJobsState (jp_async s) (jp_rows s) (jp_mounts s) (jp_wizard s) (jp_asking s) (delete i (jp_flights s)) (said ++ jp_said s) (jp_left s).
Definition jobs_refresh (loud : bool) (s : JobsState) : JobsState := with_jasync (run_loader loud (jp_async s)) s.

(** [setBusy] of one mounting of a row; nothing once that mounting is gone. *)
Definition set_busy (inst : Z) (job : Job) (b : option RowBusy) (s : JobsState) : JobsState :=
  match jp_rows s !! job_key job with
  | Some r => if rw_inst r =? inst then with_rows (<[job_key job := mkRow inst b]> (jp_rows s)) s else s
  | None => s
  end.
Definition busy_of (job : Job) (s : JobsState) : option RowBusy := jp_rows s !! job_key job ≫= rw_busy.
Definition inst_of (job : Job) (s : JobsState) : Z := from_option rw_inst (-1) (jp_rows s !! job_key job).

(** The rows after the list changed: a job listed before keeps its row. *)
Definition sync_rows (s : JobsState) : JobsState :=
  mkJobsState (jp_async s)
    (foldr (λ j rows, <[job_key j := default (mkRow (jp_mounts s) None) (jp_rows s !! job_key j)]> rows) ∅ (jobs_of s))
    (jp_mounts s + 1) (jp_wizard s) (jp_asking s) (jp_flights s) (jp_said s) (jp_left s).

Section page.
(** [toLowerCase] and [a.localeCompare(b) <= 0], how the engine words its own
    exceptions, and whether the role may run jobs. *)
Context (toLowerCase : jsstr → jsstr) (locale_le : jsstr → jsstr → bool) (engineText : jsstr) (canOperate : bool).

(** The wizard's props follow the page's data. *)
Definition feed_wizard (s : JobsState) : JobsState :=
  let d := jobs_data s in
  with_jwizard (wizard_update toLowerCase engineText (jp_wizard s) (JobWizard.Refresh (jd_targets d) (jd_vms d) (jd_agents d))) s.

Definition open_wizard (job : option Job) (s : JobsState) : JobsState :=
  with_jwizard (wizard_update toLowerCase engineText (jp_wizard s) (Open None job)) s.

Definition jobs_uncovered (s : JobsState) : Prop := w_open (jp_wizard s) = false ∧ jp_asking s = None.

(** What the wizard may do of itself: its props and its opening are the page's. *)
Definition own_msg (m : WizardMsg) : bool := match m with JobWizard.Refresh _ _ _ | Open _ _ => false | _ => true end.

Definition jobs_offered (s : JobsState) (m : JobsMsg) : Prop :=
  match m with
  | JRead i _ => is_Some (as_pending (jp_async s) !! i)
  | JAnswered i _ => is_Some (jp_flights s !! i)
  | JWizard Saved => wizard_offered toLowerCase locale_le (jp_wizard s) Saved = true
  | JWizard (Failed err) => wizard_offered toLowerCase locale_le (jp_wizard s) (Failed err) = true
  | _ =>
      jp_left s = None ∧
      match m with
      | JMonitor => jobs_uncovered s
      | JReload => jobs_uncovered s ∧ as_loading (jp_async s) = false
      | JCreate => jobs_uncovered s ∧ canOperate = true
      | JRun job => jobs_uncovered s ∧ job ∈ jobs_of s ∧ canOperate = true ∧ job_running job = false ∧ busy_of job s = None
      | JToggle job => jobs_uncovered s ∧ job ∈ jobs_of s ∧ canOperate = true ∧ busy_of job s = None
      | JEdit job => jobs_uncovered s ∧ job ∈ jobs_of s ∧ canOperate = true
      | JDelete job => jobs_uncovered s ∧ job ∈ jobs_of s ∧ canOperate = true ∧ busy_of job s ≠ Some BusyDelete
      | JConfirm _ => jp_asking s ≠ None
      | JWizard m => own_msg m = true ∧ jp_asking s = None ∧ wizard_offered toLowerCase locale_le (jp_wizard s) m = true
      | JPoll => anyRunning s = true
      | _ => False
      end
  end.

Definition failed_call (title : jsstr) (err : Thrown) : ToastCall := mkCall ToastError title (Some (errorMessage engineText err)) None.

(** The page gives way to the monitor. *)
Definition jobs_leave (to_ : jsstr) (s : JobsState) : JobsState :=
  mkJobsState (async_step engineText (jp_async s) Unmount) (jp_rows s) (jp_mounts s) (jp_wizard s) (jp_asking s) (jp_flights s) (jp_said s) (Some to_).

Definition run_started (job : Job) : ToastCall :=
  mkCall ToastSuccess (cat [u "Job “"; jb_name job; u "” started."]) (Some (u "Follow the progress on the Monitor page.")) None.
Definition toggled_call (job : Job) (enabled : bool) : ToastCall :=
  mkCall ToastSuccess (cat [u "Job “"; jb_name job; if enabled then u "” enabled." else u "” disabled."]) None None.

Definition job_answered (i : nat) (f : JobFlight) (answer : JobAnswer) (s : JobsState) : JobsState :=
  match f, answer with
  | FRun inst job, JobDone =>
      set_busy inst job None
        match encodeURIComponent (job_key job) with
        | Some e => jobs_leave (cat [u "/monitor?jobId="; e]) (jobs_refresh false (jobs_landed i [run_started job] s))
        | None => jobs_refresh false (jobs_landed i [mkCall ToastError (u "Could not start job") (Some engineText) None; run_started job] s)
        end
  | FToggle inst job enabled, JobDone => set_busy inst job None (jobs_refresh false (jobs_landed i [toggled_call job enabled] s))
  | FDelete inst job, JobDone =>
      set_busy inst job None (jobs_refresh false (jobs_landed i [mkCall ToastSuccess (cat [u "Job “"; jb_name job; u "” deleted."]) None None] s))
  | FRun inst job, JobFailed err => set_busy inst job None (jobs_landed i [failed_call (u "Could not start job") err] s)
  | FToggle inst job _, JobFailed err => set_busy inst job None (jobs_landed i [failed_call (u "Could not update job") err] s)
  | FDelete inst job, JobFailed err => set_busy inst job None (jobs_landed i [failed_call (u "Could not delete job") err] s)
  end.

Definition jobs_step (s : JobsState) (m : JobsMsg) : JobsState :=
  match m with
  | JMonitor => jobs_leave (u "/monitor") s
  | JReload => jobs_refresh true s
  | JCreate => open_wizard None s
  | JEdit job => open_wizard (Some job) s
  | JRun job => jobs_send (FRun (inst_of job s) job) (set_busy (inst_of job s) job (Some BusyRun) s)
  | JToggle job => jobs_send (FToggle (inst_of job s) job (toggle_click (jb_enabled job))) (set_busy (inst_of job s) job (Some BusyToggle) s)
  | JDelete job => with_jasking (Some (inst_of job s, job)) s
  | JConfirm ok =>
      match jp_asking s with
      | Some (inst, job) =>
          if ok then jobs_send (FDelete inst job) (set_busy inst job (Some BusyDelete) (with_jasking None s)) else with_jasking None s
      | None => s
      end
  | JWizard Saved => jobs_refresh false (with_jwizard (wizard_update toLowerCase engineText (jp_wizard s) Saved) s)
  | JWizard m => with_jwizard (wizard_update toLowerCase engineText (jp_wizard s) m) s
  | JPoll => jobs_refresh false s
  | JRead i answer => feed_wizard (sync_rows (with_jasync (async_step engineText (jp_async s) (Settled i answer)) s))
  | JAnswered i answer => match jp_flights s !! i with Some f => job_answered i f answer s | None => s end
  end.

Inductive jobs_run : JobsState → Prop :=
  | jobs_mount : jobs_run mountJobs
  | jobs_next s m : jobs_run s → jobs_offered s m → jobs_run (jobs_step s m).

(** The request each flight is. *)
Definition flight_request (f : JobFlight) : option Request :=
  match f with
  | FRun _ job => runJob (jb_id job)
  | FToggle _ job enabled => patchJob (jb_id job) (VObj [(u "enabled", VBool enabled)])
  | FDelete _ job => deleteJob (jb_id job)
  end.
End page.

(** ** What is drawn *)

Definition run_word (s : RunStatus) : jsstr :=
  match s with RRunning => u "running" | RSuccess => u "success" | RFailed => u "failed" | RCanceled => u "canceled" end.

Record JobRowView := mkJobView {
  jv_name : jsstr; jv_pills : list (PillTone * jsstr * bool);
  (** The tag that selects the sources, or what they are. *)
  jv_sources : jsstr + jsstr;
  jv_target : jsstr * option jsstr; jv_schedule : jsstr; jv_nextRun : jsstr; jv_retention : jsstr;
  (** The last run: its pill, when it started, what it transferred. *)
  jv_lastRun : option ((PillTone * jsstr * bool) * jsstr * option jsstr);
  jv_policy : list jsstr;
  (** The step, the percentage in words, and the bar. *)
  jv_progress : option (jsstr * jsstr * (num * jsstr));
  jv_error : option jsstr;
  jv_toggle : bool * ControlView; jv_run : ControlView; jv_edit : ControlView; jv_delete : ControlView;
}.

Inductive JobsBody := JobsSkeleton | JobsFailed (message : jsstr) | NoJobs (create : ControlView) | JobsList (rows : list JobRowView).

Section view.
(** The engine's formatting, the moment of drawing and the role. *)
Context (Math_log : num → num) (Date_parse : jsstr → option Z) (localeDate : Z → jsstr) (now : Z) (role : Role).

Definition can_jobs : bool := operateJobs (capabilitiesFor (role_val role)).
Definition jobs_denied (what : jsstr) : option jsstr := if can_jobs then None else Some (roleDeniedReason (role_val role) what).
Definition with_reason (denied : option jsstr) (text : jsstr) : jsstr := match denied with Some d => cat [text; u " — "; d] | None => text end.

Definition job_pills (job : Job) : list (PillTone * jsstr * bool) :=
  (if bool_decide (jb_kind job = JVm) then StatusPill ToneBrand (u "VM image") false else StatusPill ToneNeutral (u "Agent files") false)
  :: (if jb_enabled job then [] else [StatusPill ToneWarn (u "disabled") false]).

Definition job_tag (job : Job) : option jsstr := match jb_kind job with JVm => present (jb_tagFilter job) | JAgent => None end.

Definition run_line (r : JobRun) : (PillTone * jsstr * bool) * jsstr * option jsstr :=
  (RunStatusPill (run_word (run_status r)), formatRelative Date_parse localeDate (Some (run_startedAt r)) now,
   if bool_decide (run_status r = RRunning) then None
   else Some (cat [formatBytes Math_log (VNum (run_bytesUploaded r)) 1; u " transferred"])).

Definition run_progress (r : JobRun) : option (jsstr * jsstr * (num * jsstr)) :=
  if bool_decide (run_status r = RRunning)
  then Some (or_else (run_currentStep r) (u "Working…"), cat [to_fixed 0 (clampPct (VNum (run_progressPct r))); u "%"], ProgressBar (run_progressPct r))
  else None.

Definition JobRow (job : Job) (agents : list Agent) (vms : list CachedVM) (targets : list Target) (busy : option RowBusy) : JobRowView :=
  let denied := jobs_denied (u "run or change backup jobs") in
  let target := List.find (λ t, str_eqb (id_text (tg_id t)) (id_text (jb_targetId job))) targets in
  let running := job_running job in
  let idle := is_none busy in
  let toggle_label := cat [if jb_enabled job then u "Disable " else u "Enable "; jb_name job] in
  mkJobView (jb_name job) (job_pills job)
    (match job_tag job with Some tag => inl tag | None => inr (sourceSummary job agents vms) end)
    (or_else (jb_targetName job) (u "No target"), (λ t, TARGET_KIND_SHORT (tg_kind t)) <$> target)
    (match present (jb_scheduleLabel job) with Some l => l | None => describeSchedule (jb_schedule job) end)
    (describeNextRun Date_parse localeDate (jb_nextRun job) (jb_enabled job) (jb_schedule job) now)
    (describeRetention (jb_retention job)) (run_line <$> jb_lastRun job)
    (PolicySummary (parsePolicy (jb_policy job)) (jb_kind job)) (jb_lastRun job ≫= run_progress)
    (match jb_lastRun job with Some r => if bool_decide (run_status r = RFailed) then present (run_error r) else None | None => None end)
    (jb_enabled job, mkControlView (with_reason denied toggle_label) None (idle && can_jobs) false)
    (mkControlView (if running then u "Running" else u "Run Now") ((λ d, cat [u "Run "; jb_name job; u " now — "; d]) <$> denied)
       (negb (button_disabled (running || negb idle || negb can_jobs) (bool_decide (busy = Some BusyRun)))) (bool_decide (busy = Some BusyRun)))
    (mkControlView (default (u "Edit job") denied) (Some (with_reason denied (cat [u "Edit "; jb_name job]))) can_jobs false)
    (mkControlView (default (u "Delete job") denied) (Some (with_reason denied (cat [u "Delete "; jb_name job])))
       (negb (button_disabled (negb can_jobs) (bool_decide (busy = Some BusyDelete)))) (bool_decide (busy = Some BusyDelete))).

Definition create_control : ControlView :=
  let denied := jobs_denied (u "create backup jobs") in
  mkControlView (u "Create Job") ((λ d, cat [u "Create Job — "; d]) <$> denied) can_jobs false.

Definition jobs_body (s : JobsState) : JobsBody :=
  let a := jp_async s in
  match as_data a with
  | None =>
      if as_loading a then JobsSkeleton
      else match present (as_error a) with Some e => JobsFailed e | None => NoJobs create_control end
  | Some d =>
      if is_nil (jd_jobs d) then NoJobs create_control
      else JobsList (map (λ j, JobRow j (jd_agents d) (jd_vms d) (jd_targets d) (busy_of j s)) (jd_jobs d))
  end.
End view.

(** ** The controls and what they do *)

(** A control is live in the row exactly when the page takes the press. *)
Lemma row_controls toLowerCase locale_le Math_log Date_parse localeDate now role s job : jp_left s = None → jobs_uncovered s → job ∈ jobs_of s →
  let d := jobs_data s in
  let v := JobRow Math_log Date_parse localeDate now role job (jd_agents d) (jd_vms d) (jd_targets d) (busy_of job s) in
  let can := can_jobs role in
  (cv_live (jv_run v) = true ↔ jobs_offered toLowerCase locale_le can s (JRun job)) ∧
  (cv_live (jv_toggle v).2 = true ↔ jobs_offered toLowerCase locale_le can s (JToggle job)) ∧
  (cv_live (jv_edit v) = true ↔ jobs_offered toLowerCase locale_le can s (JEdit job)) ∧
  (cv_live (jv_delete v) = true ↔ jobs_offered toLowerCase locale_le can s (JDelete job)).
Proof.
  intros Hl Hc Hj. cbn [JobRow jv_run jv_toggle jv_edit jv_delete cv_live snd jobs_offered]. unfold button_disabled.
  destruct (busy_of job s) as [b|]; destruct (can_jobs role); destruct (job_running job); split_and!; (split; [intros H|intros H]);
    repeat match goal with H : _ ∧ _ |- _ => destruct H end; try done; try (destruct b; done); try (by split_and!);
    destruct b; try done; by split_and!.
Qed.

(** ** Busy rows *)

(** The row a request belongs to. *)
Definition flight_row (f : JobFlight) : jsstr * Z :=
  match f with FRun inst job | FToggle inst job _ | FDelete inst job => (job_key job, inst) end.

(** A row is busy only while one of its requests is out. *)
Definition busy_backed (rows : gmap jsstr RowState) (flights : list JobFlight) : Prop :=
  ∀ key r, rows !! key = Some r → rw_busy r ≠ None → (key, rw_inst r) ∈ map flight_row flights.

Lemma backed_send rows flights f inst job b s : jp_rows s = rows → flight_row f = (job_key job, inst) → busy_backed rows flights →
  busy_backed (jp_rows (set_busy inst job b s)) (flights ++ [f]).
Proof.
  intros <- Hf Hb key r Hk Hr. rewrite map_app, elem_of_app. cbn [map]. rewrite Hf. unfold set_busy in Hk.
  destruct (jp_rows s !! job_key job) as [r0|] eqn:E0; [|left; by apply Hb]. destruct (rw_inst r0 =? inst) eqn:Ei; [|left; by apply Hb].
  cbn [with_rows jp_rows] in Hk. destruct (decide (key = job_key job)) as [->|Hne].
  - rewrite lookup_insert_eq in Hk. injection Hk as <-. right. by apply list_elem_of_singleton.
  - rewrite lookup_insert_ne in Hk by done. left. by apply Hb.
Qed.

Lemma backed_clear rows flights i f inst job s : jp_rows s = rows → flights !! i = Some f → flight_row f = (job_key job, inst) → busy_backed rows flights →
  busy_backed (jp_rows (set_busy inst job None s)) (delete i flights).
Proof.
  intros <- Hi Hf Hb key r Hk Hr.
  assert (key ≠ job_key job ∨ rw_inst r ≠ inst) as Hne.
  { unfold set_busy in Hk. destruct (decide (key = job_key job)) as [->|]; [right; intros Hi'|by left].
    destruct (jp_rows s !! job_key job) as [r0|] eqn:E0; [|congruence]. destruct (rw_inst r0 =? inst) eqn:Ei.
    - cbn [with_rows jp_rows] in Hk. rewrite lookup_insert_eq in Hk. injection Hk as <-. done.
    - rewrite E0 in Hk. injection Hk as ->. lia. }
  assert (jp_rows s !! key = Some r) as Hk'.
  { unfold set_busy in Hk. destruct (jp_rows s !! job_key job) as [r0|] eqn:E0; [|done]. destruct (rw_inst r0 =? inst) eqn:Ei; [|done].
    cbn [with_rows jp_rows] in Hk. destruct (decide (key = job_key job)) as [->|Hn]; [|by rewrite lookup_insert_ne in Hk].
    rewrite lookup_insert_eq in Hk. injection Hk as <-. done. }
  specialize (Hb _ _ Hk' Hr). apply list_elem_of_In, in_map_iff in Hb as (g & Hg & Hin%list_elem_of_In).
  apply list_elem_of_In, in_map_iff. exists g. split; [done|]. apply list_elem_of_In.
  apply list_elem_of_lookup in Hin as [k Hgk]. destruct (decide (k = i)) as [->|Hki].
  { exfalso. rewrite Hi in Hgk. injection Hgk as ->. rewrite Hf in Hg. injection Hg as Hg1 Hg2. naive_solver. }
  apply list_elem_of_lookup. destruct (decide (k < i)%nat); [exists k; by rewrite list_lookup_delete_lt|].
  exists (k - 1)%nat. rewrite list_lookup_delete_ge by lia. by replace (S (k - 1)) with k by lia.
Qed.

Lemma backed_sync s : busy_backed (jp_rows s) (jp_flights s) → busy_backed (jp_rows (sync_rows s)) (jp_flights s).
Proof.
  intros Hb key r. cbn [sync_rows jp_rows]. induction (jobs_of s) as [|j js IH]; cbn [foldr]; [by rewrite lookup_empty|].
  intros Hk Hr. destruct (decide (key = job_key j)) as [->|Hne]; [|rewrite lookup_insert_ne in Hk by done; by apply IH].
  rewrite lookup_insert_eq in Hk. injection Hk as <-. destruct (jp_rows s !! job_key j) eqn:E; cbn [default] in *; [by apply Hb|done].
Qed.

Lemma busy_step toLowerCase engineText s m : busy_backed (jp_rows s) (jp_flights s) →
  let s' := jobs_step toLowerCase engineText s m in busy_backed (jp_rows s') (jp_flights s').
Proof.
  intros Hb. assert (∀ inst job b t, jp_flights (set_busy inst job b t) = jp_flights t) as Hfl by (intros; unfold set_busy; by repeat case_match).
  destruct m as [| | |job|job|job|job|ok|m| |i a|i a]; cbn zeta; cbn [jobs_step]; try done.
  - cbn [jobs_send jp_rows jp_flights]. rewrite Hfl. by eapply backed_send.
  - cbn [jobs_send jp_rows jp_flights]. rewrite Hfl. by eapply backed_send.
  - destruct (jp_asking s) as [[inst job]|]; [|done]. destruct ok; [|done]. cbn [jobs_send jp_rows jp_flights]. rewrite Hfl. by eapply backed_send.
  - by destruct m.
  - apply (backed_sync (with_jasync (async_step engineText (jp_async s) (Settled i a)) s)). exact Hb.
  - destruct (jp_flights s !! i) as [f|] eqn:Ei; [|done].
    destruct f as [inst job|inst job en|inst job]; destruct a as [|err]; cbn [job_answered]; rewrite Hfl; try (by eapply backed_clear).
    destruct (encodeURIComponent (job_key job)); by eapply backed_clear.
Qed.

Lemma backed_idle rows job s : rows = jp_rows s → busy_backed rows [] → busy_of job s = None.
Proof.
  intros -> Hb. unfold busy_of. destruct (jp_rows s !! job_key job) as [r|] eqn:E; [cbn [mbind option_bind]|done].
  destruct (rw_busy r) eqn:Er; [|done]. exfalso. specialize (Hb _ _ E). rewrite Er in Hb. by apply list_elem_of_In in Hb.
Qed.
