(* ===== verification/JobsServer.v ===== *)
(** * The jobs page with the server behind it

    The page (JobsPage), the server's table of jobs (ServerJobs), and what is on
    its way between them: requests reach the server at any moment after they were
    sent, answers reach the page at any moment after that. *)
From stdpp Require Import gmap.
From S2P Require Import Prelude JsString JsNumber JsValue Transport GoString ServerSchedule ServerPosture ServerAudit ServerJobs Targets Runs Inventory Endpoints JobWizard JobSaved JobShown Ui Roles VmsPage Widgets JobsPage.

(** [sy_outcomes] has, for each request of a row, what the server answered, once
    it handled it; [sy_save] that of the wizard's save; [sy_reads], for each read
    of the list, what the server sent. *)
Record System := mkSystem {
  sy_page : JobsState;
  sy_rows : list JobRecord;
  sy_outcomes : list (option JobAnswer);
  sy_save : option JobAnswer;
  sy_reads : list (option JobsData);
}.

(** What a read finds: the jobs of the table, each encoded, in the order of the
    database; targets' names, next and last runs are whatever they are then. *)
Definition listing (ToLower : bytes → bytes) (rows : list JobRecord) (d : JobsData) : Prop :=
  ∃ order names (next : JobRecord → option jsstr) (lst : JobRecord → option JobRun),
    order ≡ₚ rows ∧ jd_jobs d = map (λ j, listed_job ToLower names (next j) (lst j) j) order.

(** An answer of a handler as the page gets it. *)
Definition answer_of {A} (refused : A + JobRefusal) (a : JobAnswer) : Prop :=
  match refused, a with inl _, JobDone => True | inr _, JobFailed _ => True | _, _ => False end.

Section system.
Context (ToLower : bytes → bytes) (ParseStandard : bytes → bool).
Context (toLowerCase : jsstr → jsstr) (locale_le : jsstr → jsstr → bool) (engineText : jsstr) (canOperate : bool).

Definition wire_id (j : Job) : bytes := go_string (job_key j).

(** A row's request at the server; a run leaves the table of jobs as it is. *)
Definition flight_served (run : DbRun) (f : JobFlight) (rows : list JobRecord) (rows' : list JobRecord) (a : JobAnswer) : Prop :=
  match f with
  | FRun _ _ => rows' = rows
  | FToggle _ job enabled =>
      let h := handlePatchJob ToLower ParseStandard run (wire_id job) (VObj [(u "enabled", VBool enabled)]) rows in
      rows' = h.1.1 ∧ answer_of h.1.2 a
  | FDelete _ job =>
      let h := handleDeleteJob run (wire_id job) rows in
      rows' = h.1.1 ∧ match h.1.2, a with None, JobDone | Some _, JobFailed _ => True | _, _ => False end
  end.

Definition save_served (run : DbRun) (sub : Submission) (rows : list JobRecord) (rows' : list JobRecord) (a : JobAnswer) : Prop :=
  let h := server_save ToLower ParseStandard run (wire_id <$> sub_editJob sub) (jobCreate_val (sub_payload sub)) rows in
  rows' = h.1.1 ∧ answer_of h.1.2 a.

(** Requests and reads the page started with a step are not handled yet. *)
Definition grow {A B} (marks : list (option A)) (l : list B) : list (option A) := marks ++ repeat None (length l - length marks).

Definition page_moves (y : System) (s : JobsState) : System :=
  mkSystem s (sy_rows y) (grow (sy_outcomes y) (jp_flights s)) (sy_save y) (grow (sy_reads y) (as_pending (jp_async s))).

Definition jobs_do := jobs_step toLowerCase engineText.

(** The acts of the operator and of the page's timer. *)
Definition own_act (m : JobsMsg) : bool :=
  match m with JRead _ _ | JAnswered _ _ | JWizard Saved | JWizard (Failed _) => false | _ => true end.

(** Answers to reads come in the order the reads were made, and none fails; an
    answer that the server sends arrives. *)
Inductive system_run (start : list JobRecord) : System → Prop :=
  | system_start : system_run start (mkSystem mountJobs start [] None [None])
  | system_acts y m : system_run start y → own_act m = true → jobs_offered toLowerCase locale_le canOperate (sy_page y) m →
      system_run start (page_moves y (jobs_do (sy_page y) m))
  | system_serves y i f run rows' a : system_run start y → jp_flights (sy_page y) !! i = Some f → sy_outcomes y !! i = Some None →
      run_encoded run = true → flight_served run f (sy_rows y) rows' a →
      system_run start (mkSystem (sy_page y) rows' (<[i := Some a]> (sy_outcomes y)) (sy_save y) (sy_reads y))
  | system_saves y sub run rows' a : system_run start y → w_submitting (jp_wizard (sy_page y)) = Some sub → sy_save y = None →
      run_encoded run = true → ServerJobs.run_id run ∉ map jr_id (sy_rows y) → save_served run sub (sy_rows y) rows' a →
      system_run start (mkSystem (sy_page y) rows' (sy_outcomes y) (Some a) (sy_reads y))
  | system_lists y k d : system_run start y → sy_reads y !! k = Some None → listing ToLower (sy_rows y) d →
      system_run start (mkSystem (sy_page y) (sy_rows y) (sy_outcomes y) (sy_save y) (<[k := Some d]> (sy_reads y)))
  | system_answers y i a : system_run start y → sy_outcomes y !! i = Some (Some a) →
      system_run start (page_moves (mkSystem (sy_page y) (sy_rows y) (delete i (sy_outcomes y)) (sy_save y) (sy_reads y))
                          (jobs_do (sy_page y) (JAnswered i a)))
  | system_saved y a : system_run start y → sy_save y = Some a →
      system_run start (page_moves (mkSystem (sy_page y) (sy_rows y) (sy_outcomes y) None (sy_reads y))
                          (jobs_do (sy_page y) (JWizard (match a with JobDone => Saved | JobFailed err => Failed err end))))
  | system_reads y d rest : system_run start y → sy_reads y = Some d :: rest →
      system_run start (page_moves (mkSystem (sy_page y) (sy_rows y) (sy_outcomes y) (sy_save y) rest) (jobs_do (sy_page y) (JRead 0 (inl d)))).

(** ** What the server does to its table *)

Lemma patch_refused run id body rows e : run_encoded run = true →
  (handlePatchJob ToLower ParseStandard run id body rows).1.2 = inr e → (handlePatchJob ToLower ParseStandard run id body rows).1.1 = rows.
Proof. intros He. unfold handlePatchJob. rewrite He. by repeat case_match. Qed.

Lemma create_refused run body rows e : run_encoded run = true →
  (handleCreateJob ToLower ParseStandard run body rows).1.2 = inr e → (handleCreateJob ToLower ParseStandard run body rows).1.1 = rows.
Proof. intros He. unfold handleCreateJob. rewrite He. by repeat case_match. Qed.

Lemma delete_refused run id rows e : (handleDeleteJob run id rows).1.2 = Some e → (handleDeleteJob run id rows).1.1 = rows.
Proof. unfold handleDeleteJob. by repeat case_match. Qed.

Lemma flight_failed run f rows rows' err : run_encoded run = true → flight_served run f rows rows' (JobFailed err) → rows' = rows.
Proof.
  intros He. destruct f as [inst job|inst job b|inst job]; cbn [flight_served]; [done| |].
  - intros [-> Ha]. destruct (handlePatchJob _ _ _ _ _ _).1.2 eqn:E; [done|]. by eapply patch_refused.
  - intros [-> Ha]. destruct (handleDeleteJob _ _ _).1.2 eqn:E; [|done]. by eapply delete_refused.
Qed.

Lemma save_failed run sub rows rows' err : run_encoded run = true → save_served run sub rows rows' (JobFailed err) → rows' = rows.
Proof.
  intros He [-> Ha]. unfold server_save in *. destruct (wire_id <$> sub_editJob sub).
  - destruct (handlePatchJob _ _ _ _ _ _).1.2 eqn:E; [done|]. by eapply patch_refused.
  - destruct (handleCreateJob _ _ _ _ _).1.2 eqn:E; [done|]. by eapply create_refused.
Qed.

Lemma flight_keeps run f rows rows' a : flight_served run f rows rows' a → served ToLower ParseStandard rows → served ToLower ParseStandard rows'.
Proof. destruct f; cbn [flight_served]; [by intros ->|intros [-> _]; by constructor..]. Qed.

Lemma save_keeps run sub rows rows' a : ServerJobs.run_id run ∉ map jr_id rows → save_served run sub rows rows' a →
  served ToLower ParseStandard rows → served ToLower ParseStandard rows'.
Proof. intros Hid [-> _] Hs. unfold server_save. destruct (wire_id <$> sub_editJob sub); by constructor. Qed.

(** ** What a step of the page starts *)

(** [fs] are the requests out after the step, [n] the reads it starts; the rest
    is as it was unless the page was left. *)
Definition moves (fs : list JobFlight) (n : nat) (s s' : JobsState) : Prop :=
  jp_flights s' = fs ∧ as_pending (jp_async s') = as_pending (jp_async s) ++ repeat tt n ∧
  (jp_left s' = None → jp_left s = None ∧ as_data (jp_async s') = as_data (jp_async s) ∧ as_mounted (jp_async s') = as_mounted (jp_async s)).

Lemma set_busy_keeps inst job b s : jp_async (set_busy inst job b s) = jp_async s ∧ jp_flights (set_busy inst job b s) = jp_flights s ∧
  jp_left (set_busy inst job b s) = jp_left s.
Proof. unfold set_busy. by repeat case_match. Qed.

Lemma moves_busy inst job b fs n s s' : moves fs n s s' → moves fs n s (set_busy inst job b s').
Proof. unfold moves. by destruct (set_busy_keeps inst job b s') as (-> & -> & ->). Qed.

Lemma moves_none fs s s' : jp_async s' = jp_async s → jp_left s' = jp_left s → jp_flights s' = fs → moves fs 0 s s'.
Proof. intros Ha Hl Hf. unfold moves. by rewrite Ha, Hl, app_nil_r. Qed.

Lemma moves_one fs loud s s' : jp_async s' = run_loader loud (jp_async s) → jp_left s' = jp_left s → jp_flights s' = fs → moves fs 1 s s'.
Proof. intros Ha Hl Hf. unfold moves. rewrite Ha, Hl. cbn [run_loader as_pending as_data as_mounted repeat]. by destruct (as_loader _). Qed.

Lemma moves_left fs n s s' t : jp_flights s' = fs → as_pending (jp_async s') = as_pending (jp_async s) ++ repeat tt n → jp_left s' = Some t → moves fs n s s'.
Proof. intros Hf Hp Hl. unfold moves. by rewrite Hl. Qed.

Lemma own_moves s m : own_act m = true → ∃ fs n, moves (jp_flights s ++ fs) n s (jobs_do s m).
Proof.
  intros Hm. destruct m as [| | |job|job|job|job|ok|m| |i a|i a]; cbn [jobs_do jobs_step]; try discriminate Hm.
  - exists [], 0%nat. eapply moves_left; [by rewrite app_nil_r| |done]. cbn [jobs_leave jp_async async_step as_pending]. by rewrite app_nil_r.
  - exists [], 1%nat. eapply moves_one; [done..|by rewrite app_nil_r].
  - exists [], 0%nat. by apply moves_none; [..|rewrite app_nil_r].
  - exists [FRun (inst_of job s) job], 0%nat. destruct (set_busy_keeps (inst_of job s) job (Some BusyRun) s) as (E1 & E2 & E3). apply moves_none; [exact E1|exact E3|]. cbn [jobs_send jp_flights]. by rewrite E2.
  - exists [FToggle (inst_of job s) job (toggle_click (jb_enabled job))], 0%nat. destruct (set_busy_keeps (inst_of job s) job (Some BusyToggle) s) as (E1 & E2 & E3). apply moves_none; [exact E1|exact E3|]. cbn [jobs_send jp_flights]. by rewrite E2.
  - exists [], 0%nat. by apply moves_none; [..|rewrite app_nil_r].
  - exists [], 0%nat. by apply moves_none; [..|rewrite app_nil_r].
  - destruct (jp_asking s) as [[inst job]|] eqn:Ea; [destruct ok|].
    + exists [FDelete inst job], 0%nat. destruct (set_busy_keeps inst job (Some BusyDelete) (with_jasking None s)) as (E1 & E2 & E3). apply moves_none; [exact E1|exact E3|]. cbn [jobs_send jp_flights]. by rewrite E2.
    + exists [], 0%nat. by apply moves_none; [..|rewrite app_nil_r].
    + exists [], 0%nat. by apply moves_none; [..|rewrite app_nil_r].
  - exists [], 0%nat. destruct m; try discriminate Hm; by apply moves_none; [..|rewrite app_nil_r].
  - exists [], 1%nat. eapply moves_one; [done..|by rewrite app_nil_r].
Qed.

Lemma answer_moves s i f a : jp_flights s !! i = Some f →
  ∃ n, moves (delete i (jp_flights s)) n s (jobs_do s (JAnswered i a)) ∧ (a = JobDone → n ≠ 0%nat).
Proof.
  intros Hf. cbn [jobs_do jobs_step]. rewrite Hf. destruct f as [inst job|inst job b|inst job]; destruct a as [|err]; cbn [job_answered];
    try (exists 0%nat; split; [apply moves_busy; by apply moves_none|done]).
  - exists 1%nat. split; [|done]. apply moves_busy. destruct (encodeURIComponent (job_key job)).
    + eapply moves_left; [done| |done]. cbn. by destruct (as_loader (jp_async s)).
    + by eapply moves_one.
  - exists 1%nat. split; [apply moves_busy; by eapply moves_one|done].
  - exists 1%nat. split; [apply moves_busy; by eapply moves_one|done].
Qed.

Lemma saved_moves s a : ∃ n, moves (jp_flights s) n s (jobs_do s (JWizard (match a with JobDone => Saved | JobFailed err => Failed err end))) ∧
  (a = JobDone → n ≠ 0%nat).
Proof. destruct a; [exists 1%nat; split; [by eapply moves_one|done]|exists 0%nat; split; [by apply moves_none|done]]. Qed.

(** ** What is shown once everything has settled *)

(** Nothing that the server did is still unknown to the page. *)
Definition quiet (outcomes : list (option JobAnswer)) (save : option JobAnswer) : Prop := (Some JobDone ∉ outcomes) ∧ save ≠ Some JobDone.

Definition fresh (rows : list JobRecord) (reads : list (option JobsData)) (shown : option JobsData) : Prop :=
  match last reads with
  | Some None => True
  | Some (Some d) => listing ToLower rows d
  | None => ∃ d, shown = Some d ∧ listing ToLower rows d
  end.

Record system_ok (y : System) : Prop := {
  so_outcomes : length (sy_outcomes y) = length (jp_flights (sy_page y));
  so_reads : length (sy_reads y) = length (as_pending (jp_async (sy_page y)));
  so_served : served ToLower ParseStandard (sy_rows y);
  so_mounted : jp_left (sy_page y) = None → as_mounted (jp_async (sy_page y)) = true;
  so_fresh : jp_left (sy_page y) = None → quiet (sy_outcomes y) (sy_save y) → fresh (sy_rows y) (sy_reads y) (as_data (jp_async (sy_page y)));
}.

Lemma grow_length {A B} (marks : list (option A)) (l : list B) : (length marks <= length l)%nat → length (grow marks l) = length l.
Proof. intros H. unfold grow. rewrite length_app, repeat_length. lia. Qed.

Lemma elem_grow {A B} (x : A) (marks : list (option A)) (l : list B) : Some x ∈ grow marks l ↔ Some x ∈ marks.
Proof. unfold grow. rewrite elem_of_app. split; [|by left]. intros [H|H]; [done|]. apply list_elem_of_In, repeat_spec in H. done. Qed.

Lemma moves_ok fs n s s' rows outcomes save reads : moves fs n s s' → (length outcomes <= length fs)%nat →
  length reads = length (as_pending (jp_async s)) → served ToLower ParseStandard rows →
  (jp_left s = None → as_mounted (jp_async s) = true) →
  (n = 0%nat → jp_left s = None → quiet outcomes save → fresh rows reads (as_data (jp_async s))) →
  system_ok (page_moves (mkSystem s rows outcomes save reads) s').
Proof.
  intros (Hf & Hp & Hk) Ho Hr Hs Hm Hq. constructor; cbn [page_moves sy_page sy_rows sy_outcomes sy_save sy_reads].
  - rewrite Hf. by apply grow_length.
  - apply grow_length. rewrite Hp, Hr, length_app. lia.
  - done.
  - intros Hl. destruct (Hk Hl) as (Hl0 & _ & ->). by apply Hm.
  - intros Hl [Hn1 Hn2]. destruct (Hk Hl) as (Hl0 & -> & _). rewrite elem_grow in Hn1.
    assert (grow reads (as_pending (jp_async s')) = reads ++ repeat None n) as ->.
    { unfold grow. rewrite Hp, Hr, length_app, repeat_length. f_equal. f_equal. lia. }
    unfold fresh. destruct n as [|n]; [rewrite app_nil_r; by apply Hq|].
    replace (repeat None (S n)) with (repeat (@None JobsData) n ++ [None]) by (by rewrite <- repeat_cons).
    by rewrite app_assoc, last_snoc.
Qed.

Lemma quiet_failed outcomes save i err : outcomes !! i = Some (Some (JobFailed err)) → quiet (delete i outcomes) save → quiet outcomes save.
Proof.
  intros Hi [H1 H2]. split; [|done]. intros Hin. apply H1. apply list_elem_of_lookup in Hin as [k Hk].
  destruct (decide (k < i)%nat) as [Hlt|Hge].
  - apply list_elem_of_lookup. exists k. by rewrite list_lookup_delete_lt.
  - destruct (decide (k = i)) as [->|Hne]; [congruence|]. apply list_elem_of_lookup. exists (k - 1)%nat.
    rewrite list_lookup_delete_ge by lia. by replace (S (k - 1)) with k by lia.
Qed.

Lemma no_done (outcomes : list (option JobAnswer)) i a : outcomes !! i = Some None → Some JobDone ∉ <[i := Some a]> outcomes → a ≠ JobDone ∧ Some JobDone ∉ outcomes.
Proof.
  intros Hi Hn. assert (i < length outcomes)%nat as Hlt by by eapply lookup_lt_Some. split.
  - intros ->. apply Hn, list_elem_of_lookup. exists i. by apply list_lookup_insert_eq.
  - intros [k Hk]%list_elem_of_lookup. apply Hn, list_elem_of_lookup. exists k. rewrite list_lookup_insert_ne; [done|congruence].
Qed.

Lemma serves_ok y i f run rows' a : system_ok y → jp_flights (sy_page y) !! i = Some f → sy_outcomes y !! i = Some None →
  run_encoded run = true → flight_served run f (sy_rows y) rows' a →
  system_ok (mkSystem (sy_page y) rows' (<[i := Some a]> (sy_outcomes y)) (sy_save y) (sy_reads y)).
Proof.
  intros [H1 H2 H3 H4 H5] Hf Hi He Hs. constructor; cbn [sy_page sy_rows sy_outcomes sy_save sy_reads]; try done.
  - by rewrite length_insert.
  - by eapply flight_keeps.
  - intros Hl [Hq1 Hq2]. apply (no_done _ _ _ Hi) in Hq1 as [Ha Hq1]. destruct a as [|err]; [done|].
    rewrite (flight_failed _ _ _ _ _ He Hs). by apply H5.
Qed.

Lemma saves_ok y sub run rows' a : system_ok y → sy_save y = None → run_encoded run = true → ServerJobs.run_id run ∉ map jr_id (sy_rows y) →
  save_served run sub (sy_rows y) rows' a → system_ok (mkSystem (sy_page y) rows' (sy_outcomes y) (Some a) (sy_reads y)).
Proof.
  intros [H1 H2 H3 H4 H5] Hn He Hid Hs. constructor; cbn [sy_page sy_rows sy_outcomes sy_save sy_reads]; try done.
  - by eapply save_keeps.
  - intros Hl [Hq1 Hq2]. destruct a as [|err]; [done|]. rewrite (save_failed _ _ _ _ _ He Hs). apply H5; [done|]. split; [done|by rewrite Hn].
Qed.

Lemma lists_ok y k d : system_ok y → sy_reads y !! k = Some None → listing ToLower (sy_rows y) d →
  system_ok (mkSystem (sy_page y) (sy_rows y) (sy_outcomes y) (sy_save y) (<[k := Some d]> (sy_reads y))).
Proof.
  intros [H1 H2 H3 H4 H5] Hk Hd. constructor; cbn [sy_page sy_rows sy_outcomes sy_save sy_reads]; try done.
  - by rewrite length_insert.
  - intros Hl Hq. specialize (H5 Hl Hq). unfold fresh in *. rewrite !last_lookup, length_insert in *.
    destruct (decide (k = Nat.pred (length (sy_reads y)))) as [->|Hne].
    + rewrite list_lookup_insert_eq; [done|]. by eapply lookup_lt_Some.
    + by rewrite list_lookup_insert_ne.
Qed.

Lemma reads_ok y d rest : system_ok y → sy_reads y = Some d :: rest →
  system_ok (page_moves (mkSystem (sy_page y) (sy_rows y) (sy_outcomes y) (sy_save y) rest) (jobs_do (sy_page y) (JRead 0 (inl d)))).
Proof.
  intros [H1 H2 H3 H4 H5] Hr. rewrite Hr in *. destruct (as_pending (jp_async (sy_page y))) as [|l pending] eqn:Ep; [done|]. cbn [length] in H2.
  assert (as_pending (jp_async (jobs_do (sy_page y) (JRead 0 (inl d)))) = pending) as Ep'.
  { cbn [jobs_do jobs_step feed_wizard with_jwizard sync_rows with_jasync jp_async async_step]. rewrite Ep. by destruct (as_mounted _). }
  assert (jp_flights (jobs_do (sy_page y) (JRead 0 (inl d))) = jp_flights (sy_page y)) as Ef by done.
  assert (jp_left (jobs_do (sy_page y) (JRead 0 (inl d))) = jp_left (sy_page y)) as El by done.
  constructor; cbn [page_moves sy_page sy_rows sy_outcomes sy_save sy_reads]; rewrite ?El; try done.
  - rewrite grow_length; rewrite Ef; [done|lia].
  - apply grow_length. rewrite Ep'. lia.
  - intros Hl. cbn [jobs_do jobs_step feed_wizard with_jwizard sync_rows with_jasync jp_async async_step]. by rewrite H4.
  - intros Hl [Hq1 Hq2]. rewrite elem_grow in Hq1. specialize (H5 Hl (conj Hq1 Hq2)).
    unfold grow. rewrite Ep'. replace (length pending - length rest)%nat with 0%nat by lia. rewrite app_nil_r.
    unfold fresh in *. destruct rest as [|r rest]; [|rewrite last_cons_cons in H5; destruct (last (r :: rest)) as [[]|] eqn:E; [done..|by apply last_None in E]].
    exists d. split; [|exact H5]. cbn [jobs_do jobs_step feed_wizard with_jwizard sync_rows with_jasync jp_async async_step]. by rewrite H4.
Qed.

Lemma system_invariant start y : served ToLower ParseStandard start → system_run start y → system_ok y.
Proof.
  intros Hs. induction 1 as [|y m Hr IH Hm Ho|y i f run rows' a Hr IH Hf Hi He Hv|y sub run rows' a Hr IH Hw Hn He Hid Hv|y k d Hr IH Hk Hd
    |y i a Hr IH Hi|y a Hr IH Ha|y d rest Hr IH Hd].
  - by constructor.
  - destruct (own_moves (sy_page y) m Hm) as (fs & n & Hmv). destruct IH as [H1 H2 H3 H4 H5]. destruct y as [s rows outs save reads].
    eapply moves_ok; [exact Hmv| |exact H2|exact H3|exact H4|by intros _; apply H5]. cbn [sy_page sy_outcomes] in H1 |- *. rewrite length_app, <- H1. lia.
  - by eapply serves_ok.
  - by eapply saves_ok.
  - by apply lists_ok.
  - destruct IH as [H1 H2 H3 H4 H5]. assert (i < length (jp_flights (sy_page y)))%nat as Hlt by (rewrite <- H1; by eapply lookup_lt_Some).
    apply lookup_lt_is_Some in Hlt as [f Hf]. destruct (answer_moves _ _ _ a Hf) as (n & Hmv & Hn).
    eapply moves_ok; [exact Hmv| |exact H2|exact H3|exact H4|].
    + rewrite !length_delete by (by eexists). lia.
    + intros -> Hl Hq. destruct a as [|err]; [by destruct (Hn eq_refl)|]. apply H5; [done|]. by eapply quiet_failed.
  - destruct IH as [H1 H2 H3 H4 H5]. destruct (saved_moves (sy_page y) a) as (n & Hmv & Hn).
    eapply moves_ok; [exact Hmv|lia|exact H2|exact H3|exact H4|]. intros -> Hl [Hq1 Hq2]. destruct a as [|err]; [by destruct (Hn eq_refl)|].
    apply H5; [done|]. split; [done|by rewrite Ha].
  - by apply reads_ok.
Qed.

(** Settled: nothing asked of the server is unanswered. *)
Definition settled (y : System) : Prop :=
  jp_flights (sy_page y) = [] ∧ sy_save y = None ∧ as_pending (jp_async (sy_page y)) = [].

Lemma system_busy start y : system_run start y → busy_backed (jp_rows (sy_page y)) (jp_flights (sy_page y)).
Proof.
  induction 1 as [|y m Hr IH Hm Ho|y i f run rows' a Hr IH Hf Hi He Hv|y sub run rows' a Hr IH Hw Hn He Hid Hv|y k d Hr IH Hk Hd
    |y i a Hr IH Hi|y a Hr IH Ha|y d rest Hr IH Hd]; try exact IH; [|by apply busy_step..].
  intros key r Hk. change ((∅ : gmap jsstr RowState) !! key = Some r) in Hk. by rewrite lookup_empty in Hk.
Qed.

Lemma settled_shown start y : served ToLower ParseStandard start → system_run start y → jp_left (sy_page y) = None → settled y →
  ∃ d, as_data (jp_async (sy_page y)) = Some d ∧ listing ToLower (sy_rows y) d.
Proof.
  intros Hs Hr Hl (Hf & Hv & Hp). apply system_invariant in Hr as [H1 H2 H3 H4 H5]; [|done].
  rewrite Hf in H1. apply nil_length_inv in H1. rewrite Hp in H2. apply nil_length_inv in H2.
  rewrite H1, H2 in H5. apply H5; [done|]. split; [by apply not_elem_of_nil|by rewrite Hv].
Qed.
End system.


(** ** An example: a job is disabled *)

Definition nightly_rows : list JobRecord := (handleCreateJob ascii_lower no_cron up (jobCreate_val (payload guest_form)) []).1.1.

(** What the server sends for a table. *)
Definition sent (rows : list JobRecord) : JobsData :=
  mkJobs (map (λ j, listed_job ascii_lower (λ _, u "nas") None None j) rows) (p_targets office) (p_vms office) (p_agents office).

Lemma sent_listing rows : listing ascii_lower rows (sent rows).
Proof. exists rows, (λ _, u "nas"), (λ _, None), (λ _, None). done. Qed.

Definition tour_step (y : System) (m : JobsMsg) : System := page_moves y (jobs_do id [] (sy_page y) m).
Definition list_arrives (y : System) : System :=
  page_moves (mkSystem (sy_page y) (sy_rows y) (sy_outcomes y) (sy_save y) []) (jobs_do id [] (sy_page y) (JRead 0 (inl (sent (sy_rows y))))).

(** The list is read, the job disabled, and the list read again. *)
Definition tour_listed : System := list_arrives (mkSystem mountJobs nightly_rows [] None [None]).
Definition nightly : Job := match sent nightly_rows with mkJobs (j :: _) _ _ _ => j | _ => listed_job ascii_lower (λ _, []) None None newJob end.
Definition tour_pressed : System := tour_step tour_listed (JToggle nightly).
Definition tour_served : System :=
  mkSystem (sy_page tour_pressed) (map (with_enabled false) nightly_rows) (<[0%nat := Some JobDone]> (sy_outcomes tour_pressed))
    (sy_save tour_pressed) (sy_reads tour_pressed).
Definition tour_answered : System :=
  page_moves (mkSystem (sy_page tour_served) (sy_rows tour_served) (delete 0%nat (sy_outcomes tour_served)) (sy_save tour_served) (sy_reads tour_served))
    (jobs_do id [] (sy_page tour_served) (JAnswered 0 JobDone)).
Definition tour_over : System := list_arrives tour_answered.

Lemma nightly_served : served ascii_lower no_cron nightly_rows.
Proof. apply served_create; [constructor|]. apply not_elem_of_nil. Qed.

Lemma list_arrives_run start y : system_run ascii_lower no_cron id (λ _ _, true) [] true start y → sy_reads y = [None] →
  system_run ascii_lower no_cron id (λ _ _, true) [] true start (list_arrives y).
Proof.
  intros Hr Hy. pose proof (system_lists _ _ _ _ _ _ _ y 0 (sent (sy_rows y)) Hr) as H. rewrite Hy in H.
  exact (system_reads _ _ _ _ _ _ _ _ (sent (sy_rows y)) [] (H eq_refl (sent_listing _)) eq_refl).
Qed.

Lemma pressed_run : system_run ascii_lower no_cron id (λ _ _, true) [] true nightly_rows tour_pressed.
Proof.
  assert (system_run ascii_lower no_cron id (λ _ _, true) [] true nightly_rows tour_listed) as H.
  { exact (list_arrives_run nightly_rows _ (system_start _ _ _ _ _ _ _) eq_refl). }
  refine (system_acts _ _ _ _ _ _ _ tour_listed (JToggle nightly) H eq_refl _).
  split; [vm_compute; reflexivity|]. split; [split; vm_compute; reflexivity|]. split; [|split; [reflexivity|vm_compute; reflexivity]].
  apply list_elem_of_lookup. exists 0%nat. vm_compute. reflexivity.
Qed.

Lemma served_run : system_run ascii_lower no_cron id (λ _ _, true) [] true nightly_rows tour_served.
Proof.
  assert (jp_flights (sy_page tour_pressed) !! 0%nat = Some (FToggle 0 nightly false)) as H1 by (vm_compute; reflexivity).
  assert (sy_outcomes tour_pressed !! 0%nat = Some None) as H2 by (vm_compute; reflexivity).
  assert (flight_served ascii_lower no_cron up (FToggle 0 nightly false) (sy_rows tour_pressed) (map (with_enabled false) nightly_rows) JobDone) as H3.
  { split; [vm_compute; reflexivity|vm_compute; exact I]. }
  exact (system_serves _ _ _ _ _ _ _ tour_pressed 0 _ up _ _ pressed_run H1 H2 eq_refl H3).
Qed.

Lemma tour_run : system_run ascii_lower no_cron id (λ _ _, true) [] true nightly_rows tour_over.
Proof.
  assert (sy_outcomes tour_served !! 0%nat = Some (Some JobDone)) as H by (vm_compute; reflexivity).
  assert (sy_reads tour_answered = [None]) as Hr by (vm_compute; reflexivity).
  exact (list_arrives_run nightly_rows tour_answered (system_answers _ _ _ _ _ _ _ tour_served 0 JobDone served_run H) Hr).
Qed.


(** ** A second run *)

(** Delete is offered while a run is being asked for; its refusal frees the row,
    which then asks for a second run with the first still out. *)
Definition second_run_msgs : list JobsMsg := [JRun nightly; JDelete nightly; JConfirm true; JAnswered 1 (JobFailed ThrownAbort); JRun nightly].

Lemma run_msgs toLowerCase locale_le engineText canOperate s ms : jobs_run toLowerCase locale_le engineText canOperate s →
  (∀ k m, ms !! k = Some m → jobs_offered toLowerCase locale_le canOperate (fold_left (jobs_step toLowerCase engineText) (take k ms) s) m) →
  jobs_run toLowerCase locale_le engineText canOperate (fold_left (jobs_step toLowerCase engineText) ms s).
Proof.
  revert s. induction ms as [|m ms IH]; intros s Hr Ho; [done|]. cbn [fold_left]. apply IH.
  - apply jobs_next; [done|]. exact (Ho 0%nat m eq_refl).
  - intros k m' Hk. exact (Ho (S k) m' Hk).
Qed.

Lemma second_run : let s := fold_left (jobs_step id []) (JRead 0 (inl (sent nightly_rows)) :: second_run_msgs) mountJobs in
  jobs_run id (λ _ _, true) [] true s ∧ map flight_request (jp_flights s) = [runJob (jb_id nightly); runJob (jb_id nightly)].
Proof.
  split; [|vm_compute; reflexivity]. apply run_msgs; [constructor|]. intros k m Hk.
  assert (nightly ∈ jobs_of (fold_left (jobs_step id []) (take 1 (JRead 0 (inl (sent nightly_rows)) :: second_run_msgs)) mountJobs)) as Hn.
  { apply list_elem_of_lookup. exists 0%nat. vm_compute. reflexivity. }
  assert (∀ k, (k < 5)%nat → jobs_of (fold_left (jobs_step id []) (take (S k) (JRead 0 (inl (sent nightly_rows)) :: second_run_msgs)) mountJobs)
    = jobs_of (fold_left (jobs_step id []) (take 1 (JRead 0 (inl (sent nightly_rows)) :: second_run_msgs)) mountJobs)) as Hjobs.
  { intros j Hj. do 5 (destruct j as [|j]; [vm_compute; reflexivity|]). lia. }
  destruct k as [|k]; [injection Hk as <-; vm_compute; by eexists|].
  destruct k as [|k]; [injection Hk as <-; split; [vm_compute; reflexivity|]; split; [split; vm_compute; reflexivity|]; split; [exact Hn|split_and!; vm_compute; reflexivity]|].
  destruct k as [|k]; [injection Hk as <-; split; [vm_compute; reflexivity|]; split; [split; vm_compute; reflexivity|]; split; [rewrite Hjobs by lia; exact Hn|split; [reflexivity|vm_compute; discriminate]]|].
  destruct k as [|k]; [injection Hk as <-; split; [vm_compute; reflexivity|vm_compute; discriminate]|].
  destruct k as [|k]; [injection Hk as <-; vm_compute; by eexists|].
  destruct k as [|k]; [injection Hk as <-; split; [vm_compute; reflexivity|]; split; [split; vm_compute; reflexivity|]; split; [rewrite Hjobs by lia; exact Hn|split_and!; vm_compute; reflexivity]|].
  discriminate Hk.
Qed.
