(* ===== verification/ServerHosts.v ===== *)
(** * Proxmox hosts on the server (internal/api/handlers_infra.go, internal/store/pvehosts.go, internal/pve/pve.go)

    Adding, testing, refreshing and removing a host, statement by statement over
    the two tables involved.  What the Proxmox API answers is an input of the
    request; [url.Parse] is a parameter. *)
From S2P Require Import Prelude JsString JsNumber JsValue GoString ServerSchedule ServerTargets ServerPosture ServerAudit.

(** ** The Proxmox client *)

Record GoVM := mkGoVM {
  gv_vmid : Z; gv_name : bytes; gv_status : bytes; gv_maxdisk : Z; gv_maxmem : Z; gv_uptime : Z; gv_tags : list bytes;
}.

(** What a Proxmox host answers while one request of the console is handled: the
    nodes, asked for once and then once more with the guests of each, and the
    number of paths the token has a permission on.  The right side is an error. *)
Record PveAnswers := mkPve {
  pa_nodes : list bytes + bytes;
  pa_nodesAgain : list bytes + bytes;
  pa_guests : bytes → list GoVM + bytes;
  pa_perms : nat + bytes;
}.

(** Guests with the node they are on. *)
Fixpoint guestsOf (guests : bytes → list GoVM + bytes) (nodes : list bytes) : list (bytes * GoVM) + bytes :=
  match nodes with
  | [] => inl []
  | n :: nodes =>
      match guests n with
      | inr e => inr e
      | inl vms => match guestsOf guests nodes with inr e => inr e | inl rest => inl (map (pair n) vms ++ rest) end
      end
  end.

Definition AllVMs (p : PveAnswers) : list (bytes * GoVM) + bytes :=
  match pa_nodesAgain p with inr e => inr e | inl nodes => guestsOf (pa_guests p) nodes end.

Definition NoAccessHint : bytes := go_string (u "the API token authenticates but has no privileges, so Proxmox hides every guest from it. On the Proxmox host, either disable “Privilege Separation” on the token, or grant it a role with VM.Audit, VM.Snapshot, VM.Backup and Datastore.Audit on path / (Datacenter → Permissions).").

Definition DiagnoseEmptyInventory (p : PveAnswers) : bytes :=
  match pa_perms p with inl O => NoAccessHint | _ => [] end.

(** ** The tables *)

Record PVEHost := mkPVEHost {
  ph_id : bytes; ph_name : bytes; ph_baseURL : bytes; ph_tokenID : bytes; ph_tokenSecret : bytes; ph_insecureTLS : bool;
  ph_status : bytes; ph_lastSeen : option Z;
}.

Record GuestRow := mkGuestRow { gr_host : bytes; gr_node : bytes; gr_guest : GoVM }.
Record HostTables := mkHostTables { ht_hosts : list PVEHost; ht_guests : list GuestRow }.

Definition host_named (id : bytes) (h : PVEHost) : bool := str_eqb (ph_id h) id.
Definition PVEHostByID (id : bytes) (t : HostTables) : option PVEHost := List.find (host_named id) (ht_hosts t).

Definition with_status (status : bytes) (seen : option Z) (h : PVEHost) : PVEHost :=
  mkPVEHost (ph_id h) (ph_name h) (ph_baseURL h) (ph_tokenID h) (ph_tokenSecret h) (ph_insecureTLS h) status seen.
Definition UpdatePVEHostStatus (id status : bytes) (seen : option Z) (t : HostTables) : HostTables :=
  mkHostTables (map (λ h, if host_named id h then with_status status seen h else h) (ht_hosts t)) (ht_guests t).
Definition CreatePVEHost (h : PVEHost) (t : HostTables) : HostTables := mkHostTables (ht_hosts t ++ [h]) (ht_guests t).

Definition of_host (id : bytes) (g : GuestRow) : bool := str_eqb (gr_host g) id.
Definition ReplaceVMCache (id : bytes) (vms : list (bytes * GoVM)) (t : HostTables) : HostTables :=
  mkHostTables (ht_hosts t) (List.filter (λ g, negb (of_host id g)) (ht_guests t) ++ map (λ v, mkGuestRow id v.1 v.2) vms).

(** The two statements of [DeletePVEHost]. *)
Definition dropGuests (id : bytes) (t : HostTables) : HostTables :=
  mkHostTables (ht_hosts t) (List.filter (λ g, negb (of_host id g)) (ht_guests t)).
Definition dropHost (id : bytes) (t : HostTables) : HostTables :=
  mkHostTables (List.filter (λ h, negb (host_named id h)) (ht_hosts t)) (ht_guests t).

(** A cached guest as the console gets it: its row and the name of its host, when there is one. *)
Definition ListCachedVMs (t : HostTables) : list (GuestRow * bytes) :=
  map (λ g, (g, from_option ph_name [] (PVEHostByID (gr_host g) t))) (ht_guests t).

(** ** The handlers *)

(** What happens while a request is handled: what the host answers, the time,
    the key drawn, and which statements succeed. *)
Record HostRun := mkHostRun {
  hn_pve : PveAnswers; hn_now : Z; hn_id : bytes;
  hn_loaded : bool; hn_inserted : bool; hn_cached : bool; hn_online : bool; hn_marked : bool; hn_dropped : bool; hn_deleted : bool;
}.

Record createHostRequest := mkCreateHost { ch_name : bytes; ch_baseURL : bytes; ch_tokenID : bytes; ch_tokenSecret : bytes; ch_insecureTLS : bool }.

Inductive HostRefusal := HostBody | HostFields | HostURL (err : bytes) | HostUnreachable (err : bytes) | HostUnknown | HostFailed.

Record TestResult := mkTest { te_ok : bool; te_nodes : Z; te_error : option bytes; te_warning : bytes }.

Definition decodeHost (v : jsval) : option createHostRequest :=
  match v with
  | VObj _ =>
      name ← dec_string (get v "name"); base ← dec_string (get v "baseUrl"); token ← dec_string (get v "tokenId");
      secret ← dec_string (get v "tokenSecret"); insecure ← dec_bool (get v "insecureTLS");
      Some (mkCreateHost name base token secret insecure)
  | VUndef | VNull => Some (mkCreateHost [] [] [] [] false)
  | _ => None
  end.

Definition Online : bytes := u "online".
Definition Limited : bytes := u "limited".
Definition Errored : bytes := u "error".

Definition host_event (action : bytes) (id name detail : bytes) : AuditEvent := mkEvent None [] 0 action (u "host") id name [] [] detail.

Section handlers.
(** The error of [url.Parse], if any. *)
Context (Parse : bytes → option bytes).

Definition newClient (baseURL : bytes) : option bytes :=
  if empty baseURL then Some (u "pve: base url required")
  else (λ e, u "pve: parse base url: " ++ e) <$> Parse baseURL.

(** The tables after the inventory was read, and the guests or an error. *)
Definition refreshHostVMs (run : HostRun) (h : PVEHost) (t : HostTables) : HostTables * (list (bytes * GoVM) + bytes) :=
  match newClient (ph_baseURL h) with
  | Some e => (t, inr e)
  | None =>
      match AllVMs (hn_pve run) with
      | inr e => (t, inr e)
      | inl vms =>
          if negb (hn_cached run) then (t, inr (u "replace vm cache")) else
          let t := ReplaceVMCache (ph_id h) vms t in
          if negb (hn_online run) then (t, inr (u "update pve host status"))
          else (UpdatePVEHostStatus (ph_id h) Online (Some (hn_now run)) t, inl vms)
      end
  end.

Definition handleCreateHost (run : HostRun) (body : jsval) (t : HostTables) : HostTables * (PVEHost + HostRefusal) * list AuditEvent :=
  let refuse e := (t, inr e, []) in
  match decodeHost body with
  | None => refuse HostBody
  | Some b =>
      let name := TrimSpace (ch_name b) in
      let base := trim_right_slash (TrimSpace (ch_baseURL b)) in
      if empty name || empty base || empty (ch_tokenID b) || empty (ch_tokenSecret b) then refuse HostFields else
      match newClient base, pa_nodes (hn_pve run) with
      | Some e, _ => refuse (HostURL e)
      | None, inr e => refuse (HostUnreachable e)
      | None, inl _ =>
          if negb (hn_inserted run) then refuse HostFailed else
          let h := mkPVEHost (hn_id run) name base (ch_tokenID b) (ch_tokenSecret b) (ch_insecureTLS b) Online (Some (hn_now run)) in
          let r := refreshHostVMs run h (CreatePVEHost h t) in
          let blind := match r.2 with inl [] => negb (empty (DiagnoseEmptyInventory (hn_pve run))) | _ => false end in
          (if blind && hn_marked run then UpdatePVEHostStatus (ph_id h) Limited (Some (hn_now run)) r.1 else r.1,
           inl (if blind then with_status Limited (ph_lastSeen h) h else h),
           [host_event (u "host.create") (ph_id h) name (base ++ u " as " ++ ch_tokenID b)])
      end
  end.

(** The host is reached; the token may still see nothing. *)
Definition probe_warning (p : PveAnswers) : bytes :=
  match AllVMs p with inl [] => DiagnoseEmptyInventory p | _ => [] end.

Definition handleTestHost (run : HostRun) (id : bytes) (t : HostTables) : HostTables * (TestResult + HostRefusal) :=
  if negb (hn_loaded run) then (t, inr HostFailed) else
  match PVEHostByID id t with
  | None => (t, inr HostUnknown)
  | Some h =>
      match newClient (ph_baseURL h) with
      | Some e => (t, inl (mkTest false 0 (Some e) []))
      | None =>
          match pa_nodes (hn_pve run) with
          | inr e => (if hn_marked run then UpdatePVEHostStatus (ph_id h) Errored (ph_lastSeen h) t else t, inl (mkTest false 0 (Some e) []))
          | inl nodes =>
              let warning := probe_warning (hn_pve run) in
              if negb (hn_marked run) then (t, inr HostFailed)
              else (UpdatePVEHostStatus (ph_id h) (if empty warning then Online else Limited) (Some (hn_now run)) t,
                    inl (mkTest true (Z.of_nat (length nodes)) None warning))
          end
      end
  end.

Definition handleDeleteHost (run : HostRun) (id : bytes) (t : HostTables) : HostTables * option HostRefusal * list AuditEvent :=
  let name := if hn_loaded run then from_option ph_name [] (PVEHostByID id t) else [] in
  if negb (hn_dropped run) then (t, Some HostFailed, []) else
  let t := dropGuests id t in
  if negb (hn_deleted run) then (t, Some HostFailed, [])
  else if existsb (host_named id) (ht_hosts t) then (dropHost id t, None, [host_event (u "host.delete") id name []])
  else (t, Some HostUnknown, []).

(** [handleHostVMs]: the guests, or the error, or the warning in place of them. *)
Definition handleHostVMs (run : HostRun) (id : bytes) (t : HostTables) : HostTables * (list (bytes * GoVM) + HostRefusal) :=
  if negb (hn_loaded run) then (t, inr HostFailed) else
  match PVEHostByID id t with
  | None => (t, inr HostUnknown)
  | Some h =>
      let r := refreshHostVMs run h t in
      match r.2 with
      | inr e => (r.1, inr (HostUnreachable e))
      | inl [] =>
          if empty (DiagnoseEmptyInventory (hn_pve run)) then (r.1, inl [])
          else (if hn_marked run then UpdatePVEHostStatus (ph_id h) Limited (Some (hn_now run)) r.1 else r.1,
                inr (HostUnreachable (DiagnoseEmptyInventory (hn_pve run))))
      | inl vms => (r.1, inl vms)
      end
  end.
End handlers.

(** ** The tables stay consistent *)

(** Hosts have identities of their own; the guests cached are of known hosts. *)
Definition host_tables_ok (t : HostTables) : Prop :=
  NoDup (map ph_id (ht_hosts t)) ∧ Forall (λ g, gr_host g ∈ map ph_id (ht_hosts t)) (ht_guests t).

Lemma status_ids id status seen t : map ph_id (ht_hosts (UpdatePVEHostStatus id status seen t)) = map ph_id (ht_hosts t).
Proof. cbn [UpdatePVEHostStatus ht_hosts]. rewrite map_map. apply map_ext. intros h. by destruct (host_named id h). Qed.

Lemma status_ok id status seen t : host_tables_ok t → host_tables_ok (UpdatePVEHostStatus id status seen t).
Proof. unfold host_tables_ok. by rewrite status_ids. Qed.

Lemma cache_ok id vms t : id ∈ map ph_id (ht_hosts t) → host_tables_ok t → host_tables_ok (ReplaceVMCache id vms t).
Proof.
  intros Hin [Hn Hg]. split; [done|]. cbn [ReplaceVMCache ht_hosts ht_guests]. apply Forall_app. split.
  - rewrite Forall_forall in *. intros g [Hin' _]%list_elem_of_In%filter_In. by apply Hg, list_elem_of_In.
  - apply Forall_forall. intros g [v [<- _]]%list_elem_of_In%in_map_iff. done.
Qed.

Lemma found_host id t h : PVEHostByID id t = Some h → ph_id h = id ∧ id ∈ map ph_id (ht_hosts t).
Proof.
  intros [Hin He]%find_some. apply str_eqb_true in He. split; [done|]. apply list_elem_of_In, in_map_iff. by exists h.
Qed.

Section kept.
Context (Parse : bytes → option bytes).

Lemma refresh_ok run h t : ph_id h ∈ map ph_id (ht_hosts t) → host_tables_ok t → host_tables_ok (refreshHostVMs Parse run h t).1.
Proof.
  intros Hin Ht. unfold refreshHostVMs. repeat case_match; cbn [fst]; try done; [by apply cache_ok|by apply status_ok, cache_ok].
Qed.

Lemma create_host_ok run body t : hn_id run ∉ map ph_id (ht_hosts t) → host_tables_ok t → host_tables_ok (handleCreateHost Parse run body t).1.1.
Proof.
  intros Hid Ht. unfold handleCreateHost. repeat case_match; cbn [fst]; try done; try apply status_ok; apply refresh_ok; cbn [CreatePVEHost ht_hosts ph_id];
    rewrite ?map_app, ?elem_of_app; try (by right; apply list_elem_of_singleton);
    (split; cbn [CreatePVEHost ht_hosts ht_guests]; rewrite map_app;
     [apply NoDup_app; split; [apply Ht|split; [|apply NoDup_singleton]]; intros x Hx Hy%list_elem_of_singleton; by subst
     |eapply Forall_impl; [apply Ht|]; intros g Hg; apply elem_of_app; by left]).
Qed.

Lemma test_host_ok run id t : host_tables_ok t → host_tables_ok (handleTestHost Parse run id t).1.
Proof. intros Ht. unfold handleTestHost. repeat case_match; cbn [fst]; try done; by apply status_ok. Qed.

Lemma delete_host_ok run id t : host_tables_ok t → host_tables_ok (handleDeleteHost run id t).1.1.
Proof.
  intros [Hn Hg]. assert (Hd : host_tables_ok (dropGuests id t)).
  { split; [done|]. apply Forall_forall. intros g [Hin _]%list_elem_of_In%filter_In. rewrite Forall_forall in Hg. by apply Hg, list_elem_of_In. }
  unfold handleDeleteHost. destruct (negb (hn_dropped run)); [by split|]. destruct (negb (hn_deleted run)); [exact Hd|].
  destruct (existsb _ _); [|exact Hd]. split; cbn [fst dropHost dropGuests ht_hosts ht_guests].
  - clear Hg Hd. induction (ht_hosts t) as [|h hs IH]; cbn; [done|]. apply NoDup_cons in Hn as [Hh Hn].
    destruct (negb (host_named id h)); cbn [map]; [|by apply IH]. apply NoDup_cons. split; [|by apply IH].
    intros [x [Ex [Hx _]%filter_In]]%list_elem_of_In%in_map_iff. apply Hh, list_elem_of_In, in_map_iff. by exists x.
  - apply Forall_forall. intros g [Hin Hne]%list_elem_of_In%filter_In. rewrite Forall_forall in Hg.
    apply list_elem_of_In, Hg in Hin. apply list_elem_of_In, in_map_iff in Hin as (h & Eh & Hin).
    apply list_elem_of_In, in_map_iff. exists h. split; [done|]. apply filter_In. split; [done|].
    unfold of_host, host_named in *. by rewrite Eh.
Qed.

Lemma host_vms_ok run id t : host_tables_ok t → host_tables_ok (handleHostVMs Parse run id t).1.
Proof.
  intros Ht. unfold handleHostVMs. destruct (negb (hn_loaded run)); [done|]. destruct (PVEHostByID id t) as [h|] eqn:E; [|done].
  assert (Hr : host_tables_ok (refreshHostVMs Parse run h t).1) by (apply refresh_ok; [|done]; by apply found_host in E as [-> E]).
  repeat case_match; cbn [fst]; try done; by apply status_ok.
Qed.
End kept.

(** Two requests at once: the host is removed while its guests are being read;
    the guests are cached after it is gone and listed under no host. *)
Lemma guests_of_nobody : ∃ t id vms, host_tables_ok t ∧
  let t' := ReplaceVMCache id vms (handleDeleteHost (mkHostRun (mkPve (inl []) (inl []) (λ _, inl []) (inl 0%nat)) 0 [] true true true true true true true) id t).1.1 in
  ht_hosts t' = [] ∧ map snd (ListCachedVMs t') = [[]].
Proof.
  exists (mkHostTables [mkPVEHost (u "h1") (u "lab") (u "https://pve:8006") (u "t") (u "s") false Online None] []), (u "h1"),
    [(u "pve1", mkGoVM 100 (u "web") (u "running") 0 0 0 [])].
  split; [split; [apply NoDup_singleton|constructor]|]. split; vm_compute; reflexivity.
Qed.
