(* ===== verification/HostsPage.v ===== *)
(** * The Proxmox hosts page (web/src/pages/HostsPage.tsx)

    The dialog that adds a host and the probe that follows, the cards with their
    test and removal, and what each shows.  What the server does with the
    requests is [ServerHosts]. *)
From stdpp Require Import gmap.
From S2P Require Import Prelude JsString JsNumber JsValue Json Transport Targets Format Endpoints GoString ServerSchedule ServerTargets ServerPosture TargetsPage Backups Ui Roles Accounts Inventory ServerHosts Widgets.

(** ** The dialog *)

Definition EMPTY_FORM : HostCreate := mkHostCreate [] [] [] [] false.

Record AddHost := mkAddHost { ah_open : bool; ah_form : HostCreate; ah_submitting : bool; ah_error : option jsstr }.

(** An ASCII letter in its other case too; other characters have no such variant
    among the pattern's letters. *)
Definition fold_case (c : N) : N := if ((65 <=? c) && (c <=? 90))%N then (c + 32)%N else c.

(** [/^https?:\/\//i]. *)
Definition http_url (s : jsstr) : bool :=
  let low := map fold_case s in starts_with (u "https://") low || starts_with (u "http://") low.

Definition hostProblem (f : HostCreate) : option jsstr :=
  if negb (non_blank (hc_name f)) then Some (u "Give the host a display name.")
  else if negb (http_url (trim (hc_baseUrl f))) then Some (u "The base URL must start with https:// or http://.")
  else if negb (non_blank (hc_tokenId f)) then Some (u "Enter the API token ID.")
  else if negb (non_blank (hc_tokenSecret f)) then Some (u "Enter the API token secret.")
  else None.

Definition hostPayload (f : HostCreate) : HostCreate :=
  mkHostCreate (trim (hc_name f)) (strip_slashes (trim (hc_baseUrl f))) (trim (hc_tokenId f)) (hc_tokenSecret f) (hc_insecureTLS f).

(** ** What a probe means *)

Definition js_is_one (v : jsval) : bool := match v with VNum n => neqb n (of_Z 1) | _ => false end.
Definition nodes_text (v : jsval) : jsstr := cat [to_str v; u " "; if js_is_one v then u "node" else u "nodes"; u " visible through the API."].

(** The three ways a result is told: reachable, reachable and blind, not reachable. *)
Inductive HostNews := NewsFine (nodes : jsval) | NewsBlind (warning : jsval) | NewsDown (error : jsval).
Definition host_news (r : jsval) : HostNews :=
  if truthy (get r "ok") && truthy (get r "warning") then NewsBlind (get r "warning")
  else if truthy (get r "ok") then NewsFine (get r "nodes")
  else NewsDown (get r "error").

Definition host_said (name refused : jsstr) (r : jsval) : ToastCall :=
  match host_news r with
  | NewsBlind warning => mkCall ToastError (cat [name; u ": connected, but no guests are visible"]) (Some (to_str warning)) None
  | NewsFine nodes => mkCall ToastSuccess (cat [name; u " is reachable."]) (Some (nodes_text nodes)) None
  | NewsDown error => mkCall ToastError (cat [name; u " is not reachable"]) (Some (if is_nullish error then refused else to_str error)) None
  end.

(** ** The page *)

Record HostCardState := mkHostCard { hs_testing : bool; hs_deleting : bool }.
Definition freshCard : HostCardState := mkHostCard false false.

Inductive HostFlight := FlyAddHost (input : HostCreate) | FlyProbeHost (host : Host) | FlyTestHost (host : Host) | FlyRemoveHost (host : Host).
Inductive HostAnswer := GotHost (host : Host) | GotHostTest (result : jsval) | GotHostRemoved | HostThrown (err : Thrown).

Record HostsState := mkHosts {
  hp_async : Async (list Host) unit;
  hp_add : AddHost;
  hp_cards : gmap jsstr HostCardState;
  hp_asking : option Host;
  hp_flights : list HostFlight;
  hp_said : list ToastCall;
}.

Inductive HostsMsg :=
  | HAdd | HAddClose | HType (form : HostCreate) | HSubmit
  | HTest (host : Host) | HRemove (host : Host) | HConfirm (ok : bool)
  | HReload | HRead (i : nat) (answer : list Host + Thrown)
  | HAnswered (i : nat) (answer : HostAnswer).

Definition host_key (h : Host) : jsstr := id_text (ho_id h).

(** The hosts shown: the first of each id. *)
Fixpoint unique_from (seen : list ID) (l : list Host) : list Host :=
  match l with
  | [] => []
  | h :: l => if existsb (same_id (ho_id h)) seen then unique_from seen l else h :: unique_from (ho_id h :: seen) l
  end.

Definition hosts_listed (s : HostsState) : list Host := unique_from [] (default [] (as_data (hp_async s))).
Definition card_state (h : Host) (s : HostsState) : HostCardState := default freshCard (hp_cards s !! host_key h).

Definition with_hasync (a : Async (list Host) unit) (s : HostsState) : HostsState :=
  mkHosts a (hp_add s) (hp_cards s) (hp_asking s) (hp_flights s) (hp_said s).
Definition with_add (d : AddHost) (s : HostsState) : HostsState :=
  mkHosts (hp_async s) d (hp_cards s) (hp_asking s) (hp_flights s) (hp_said s).
Definition with_hasking (asking : option Host) (s : HostsState) : HostsState :=
  mkHosts (hp_async s) (hp_add s) (hp_cards s) asking (hp_flights s) (hp_said s).
Definition host_launch (f : HostFlight) (s : HostsState) : HostsState :=
  mkHosts (hp_async s) (hp_add s) (hp_cards s) (hp_asking s) (hp_flights s ++ [f]) (hp_said s).
Definition host_landed (i : nat) (said : list ToastCall) (s : HostsState) : HostsState :=
  mkHosts (hp_async s) (hp_add s) (hp_cards s) (hp_asking s) (delete i (hp_flights s)) (said ++ hp_said s).

(** A card's own state; a card that is gone keeps none. *)
Definition set_host_card (h : Host) (f : HostCardState → HostCardState) (s : HostsState) : HostsState :=
  if existsb (str_eqb (host_key h)) (map host_key (hosts_listed s))
  then mkHosts (hp_async s) (hp_add s) (<[host_key h := f (card_state h s)]> (hp_cards s)) (hp_asking s) (hp_flights s) (hp_said s)
  else s.
Definition prune_host_cards (s : HostsState) : HostsState :=
  mkHosts (hp_async s) (hp_add s) (filter (λ kv, existsb (str_eqb kv.1) (map host_key (hosts_listed s)) = true) (hp_cards s))
    (hp_asking s) (hp_flights s) (hp_said s).

Definition refresh_hosts (s : HostsState) : HostsState := with_hasync (run_loader false (hp_async s)) s.

Definition settle_add (error : option jsstr) (d : AddHost) : AddHost := mkAddHost (ah_open d) (ah_form d) false error.
Definition close_host (d : AddHost) : AddHost := mkAddHost false EMPTY_FORM (ah_submitting d) None.

Section page.
(** How the engine words its own exceptions, and whether the role may change
    infrastructure. *)
Context (engineText : jsstr) (canManage : bool).

Definition mountHosts : HostsState := mkHosts (mountAsync tt) (mkAddHost false EMPTY_FORM false None) ∅ None [] [].

Definition hosts_uncovered (s : HostsState) : bool := negb (ah_open (hp_add s)) && is_none (hp_asking s).

Definition hosts_offered (s : HostsState) (m : HostsMsg) : Prop :=
  let d := hp_add s in
  match m with
  | HAdd => hosts_uncovered s = true ∧ canManage = true
  | HAddClose | HType _ => ah_open d = true
  | HSubmit => ah_open d = true ∧ ah_submitting d = false
  | HTest h => hosts_uncovered s = true ∧ h ∈ hosts_listed s ∧ canManage = true ∧ hs_testing (card_state h s) = false
  | HRemove h => hosts_uncovered s = true ∧ h ∈ hosts_listed s ∧ canManage = true ∧ hs_deleting (card_state h s) = false
  | HConfirm _ => hp_asking s ≠ None
  | HReload => hosts_uncovered s = true ∧ as_loading (hp_async s) = false
  | HRead i _ => is_Some (as_pending (hp_async s) !! i)
  | HAnswered i answer =>
      match hp_flights s !! i, answer with
      | Some (FlyAddHost _), GotHost _ | Some (FlyProbeHost _), GotHostTest _ | Some (FlyTestHost _), GotHostTest _
      | Some (FlyRemoveHost _), GotHostRemoved | Some _, HostThrown _ => True
      | _, _ => False
      end
  end.

Definition failed_host (title : jsstr) (err : Thrown) : ToastCall := mkCall ToastError title (Some (errorMessage engineText err)) None.

(** Reading a property of nothing throws. *)
Definition test_answer (r : jsval) : jsval + Thrown := if is_nullish r then inr (ThrownError engineText) else inl r.

Definition host_answered (i : nat) (f : HostFlight) (answer : HostAnswer) (s : HostsState) : HostsState :=
  match f, answer with
  | FlyAddHost _, GotHost h =>
      host_launch (FlyProbeHost h)
        (with_add (close_host (hp_add s))
          (refresh_hosts (host_landed i [mkCall ToastSuccess (cat [u "Host “"; ho_name h; u "” added."]) (Some (u "Verifying node access…")) None] s)))
  | FlyAddHost _, HostThrown err =>
      with_add (settle_add (Some (errorMessage engineText err)) (hp_add s)) (host_landed i [failed_host (u "Could not add host") err] s)
  | FlyProbeHost h, _ =>
      let said := match (match answer with GotHostTest r => test_answer r | HostThrown err => inr err | _ => inr (ThrownError engineText) end) with
                  | inl r => host_said (ho_name h) (u "The host rejected the API token.") r
                  | inr err => failed_host (u "Test Connection failed") err
                  end in
      with_add (settle_add (ah_error (hp_add s)) (hp_add s)) (refresh_hosts (host_landed i [said] s))
  | FlyTestHost h, _ =>
      let after said s := set_host_card h (λ c, mkHostCard false (hs_deleting c)) (host_landed i [said] s) in
      match (match answer with GotHostTest r => test_answer r | HostThrown err => inr err | _ => inr (ThrownError engineText) end) with
      | inl r => refresh_hosts (after (host_said (ho_name h) (u "The host rejected the token.") r) s)
      | inr err => after (failed_host (u "Test failed") err) s
      end
  | FlyRemoveHost h, GotHostRemoved =>
      set_host_card h (λ c, mkHostCard (hs_testing c) false)
        (refresh_hosts (host_landed i [mkCall ToastSuccess (cat [u "Host “"; ho_name h; u "” removed."]) None None] s))
  | FlyRemoveHost h, HostThrown err =>
      set_host_card h (λ c, mkHostCard (hs_testing c) false) (host_landed i [failed_host (u "Could not remove host") err] s)
  | _, _ => s
  end.

Definition submit_host (s : HostsState) : HostsState :=
  let d := hp_add s in
  match hostProblem (ah_form d) with
  | Some message => with_add (mkAddHost (ah_open d) (ah_form d) (ah_submitting d) (Some message)) s
  | None => host_launch (FlyAddHost (hostPayload (ah_form d))) (with_add (mkAddHost (ah_open d) (ah_form d) true None) s)
  end.

Definition hosts_step (s : HostsState) (m : HostsMsg) : HostsState :=
  let d := hp_add s in
  match m with
  | HAdd => with_add (mkAddHost true (ah_form d) (ah_submitting d) (ah_error d)) s
  | HAddClose => with_add (close_host d) s
  | HType form => with_add (mkAddHost (ah_open d) form (ah_submitting d) (ah_error d)) s
  | HSubmit => submit_host s
  | HTest h => host_launch (FlyTestHost h) (set_host_card h (λ c, mkHostCard true (hs_deleting c)) s)
  | HRemove h => with_hasking (Some h) s
  | HConfirm ok =>
      match hp_asking s with
      | Some h =>
          if ok then host_launch (FlyRemoveHost h) (set_host_card h (λ c, mkHostCard (hs_testing c) true) (with_hasking None s))
          else with_hasking None s
      | None => s
      end
  | HReload => with_hasync (run_loader true (hp_async s)) s
  | HRead i answer => prune_host_cards (with_hasync (async_step engineText (hp_async s) (Settled i answer)) s)
  | HAnswered i answer => match hp_flights s !! i with Some f => host_answered i f answer s | None => s end
  end.

Inductive hosts_run : HostsState → Prop :=
  | hosts_mount : hosts_run mountHosts
  | hosts_next s m : hosts_run s → hosts_offered s m → hosts_run (hosts_step s m).
End page.

(** ** What is drawn *)

Record HostCardView := mkHostView {
  hv_name : jsstr; hv_baseUrl : jsstr; hv_pill : PillTone * jsstr * bool; hv_token : jsstr; hv_seen : jsstr; hv_tls : jsstr;
  (** The token sees no guests. *)
  hv_limited : bool;
  hv_test : ControlView; hv_remove : ControlView;
}.

Inductive HostsBody := HostsSkeleton | HostsFailed (message : jsstr) | NoHosts (add : ControlView) | HostCards (cards : list HostCardView).

Section view.
Context (toLowerCase : jsstr → jsstr) (Date_parse : jsstr → option Z) (localeDate : Z → jsstr) (now : Z) (role : Role).

Definition can_hosts : bool := manageInfrastructure (capabilitiesFor (role_val role)).
Definition hosts_denied (what : jsstr) : option jsstr := if can_hosts then None else Some (roleDeniedReason (role_val role) what).

Definition HostCard (h : Host) (c : HostCardState) : HostCardView :=
  let denied := hosts_denied (u "change Proxmox hosts") in
  mkHostView (ho_name h) (ho_baseUrl h) (StatusPill (toneForStatus toLowerCase (Some (ho_status h))) (or_else (ho_status h) (u "unknown")) false)
    (ho_tokenId h) (formatRelative Date_parse localeDate (ho_lastSeen h) now) (if ho_insecureTLS h then u "Self-signed allowed" else u "Verified")
    (str_eqb (ho_status h) (u "limited"))
    (mkControlView (u "Test Connection") ((λ d, cat [u "Test Connection to "; ho_name h; u " — "; d]) <$> denied)
       (negb (button_disabled (negb can_hosts) (hs_testing c))) (hs_testing c))
    (mkControlView (default (u "Remove host") denied)
       (Some (match denied with Some d => cat [u "Remove "; ho_name h; u " — "; d] | None => cat [u "Remove "; ho_name h] end))
       (negb (button_disabled (negb can_hosts) (hs_deleting c))) (hs_deleting c)).

Definition add_control : ControlView :=
  mkControlView (u "Add Host") ((λ d, cat [u "Add Host — "; d]) <$> hosts_denied (u "add Proxmox hosts")) can_hosts false.

Definition hosts_body (s : HostsState) : HostsBody :=
  let a := hp_async s in
  match as_data a with
  | None =>
      if as_loading a then HostsSkeleton
      else match present (as_error a) with Some e => HostsFailed e | None => NoHosts add_control end
  | Some _ => match hosts_listed s with [] => NoHosts add_control | l => HostCards (map (λ h, HostCard h (card_state h s)) l) end
  end.
End view.

(** ** What is sent *)

Lemma strip_slashes_head c s : c ≠ 47%N → head (strip_slashes (c :: s)) = Some c.
Proof.
  intros Hc. unfold strip_slashes. cbn [rev]. set (l := rev s). clearbody l.
  assert (∃ k, drop_slashes (l ++ [c]) = k ++ [c]) as [k ->].
  { induction l as [|x l [k IH]]; cbn [app drop_slashes]; [exists []; by rewrite (proj2 (N.eqb_neq _ _) Hc)|].
    destruct (N.eqb x 47); [by exists k|by exists (x :: l)]. }
  by rewrite rev_app_distr.
Qed.

Definition sendable_host (f : HostCreate) : Prop :=
  hc_name f ≠ [] ∧ (∃ c s, hc_baseUrl f = c :: s ∧ (c = 104 ∨ c = 72)%N) ∧ hc_tokenId f ≠ [] ∧ hc_tokenSecret f ≠ [].

Lemma http_url_head s : http_url s = true → ∃ c r, s = c :: r ∧ (c = 104 ∨ c = 72)%N.
Proof.
  unfold http_url. destruct s as [|c s]; [discriminate|]. intros H. exists c, s. split; [done|].
  assert (fold_case c = 104%N) as Hc. { cbn [map] in H. apply orb_true_iff in H as [H|H]; cbn in H; apply andb_true_iff in H as [H _]; apply N.eqb_eq in H; done. }
  unfold fold_case in Hc. destruct (N.leb_spec 65 c), (N.leb_spec c 90); cbn [andb] in Hc; lia.
Qed.

Lemma host_payload_sendable f : hostProblem f = None → sendable_host (hostPayload f).
Proof.
  unfold hostProblem. destruct (negb (non_blank (hc_name f))) eqn:E1; [done|]. destruct (negb (http_url _)) eqn:E2; [done|].
  destruct (negb (non_blank (hc_tokenId f))) eqn:E3; [done|]. destruct (negb (non_blank (hc_tokenSecret f))) eqn:E4; [done|]. intros _.
  split; [by apply non_blank_neg|]. split.
  - apply negb_false_iff, http_url_head in E2 as (c & r & E & Hc). cbn [hostPayload hc_baseUrl]. rewrite E.
    assert (head (strip_slashes (c :: r)) = Some c) as Hh by (apply strip_slashes_head; lia).
    destruct (strip_slashes (c :: r)) as [|d s]; [done|]. injection Hh as ->. by exists c, s.
  - split; [by apply non_blank_neg|]. cbn [hostPayload hc_tokenSecret]. intros E. rewrite E in E4. done.
Qed.

Definition host_flight_ok (f : HostFlight) : Prop := match f with FlyAddHost input => sendable_host input | _ => True end.

Section sent.
Context (engineText : jsstr) (canManage : bool).

Lemma host_card_flights h f s : hp_flights (set_host_card h f s) = hp_flights s.
Proof. unfold set_host_card. by destruct (existsb _ _). Qed.

Lemma host_launch_ok f s : host_flight_ok f → Forall host_flight_ok (hp_flights s) → Forall host_flight_ok (hp_flights (host_launch f s)).
Proof. intros Hf Hs. cbn [host_launch hp_flights]. apply Forall_app. split; [done|]. by apply Forall_singleton. Qed.

Lemma host_answered_ok i f answer s : Forall host_flight_ok (hp_flights s) → Forall host_flight_ok (hp_flights (host_answered engineText i f answer s)).
Proof.
  intros Hs. assert (Hd : Forall host_flight_ok (delete i (hp_flights s))) by (by apply Forall_delete).
  destruct f; cbn [host_answered].
  - destruct answer; try done. by apply host_launch_ok.
  - done.
  - repeat case_match; cbn [refresh_hosts with_hasync hp_flights]; by rewrite ?host_card_flights.
  - destruct answer; try done; by rewrite host_card_flights.
Qed.

Lemma hosts_flights_ok s : hosts_run engineText canManage s → Forall host_flight_ok (hp_flights s).
Proof.
  induction 1 as [|s m _ IH Ho]; [constructor|]. destruct m; cbn [hosts_step]; try exact IH.
  - unfold submit_host. destruct (hostProblem _) eqn:E; [done|]. apply host_launch_ok; [by apply host_payload_sendable|done].
  - apply host_launch_ok; [done|]. by rewrite host_card_flights.
  - destruct (hp_asking s); [|done]. destruct ok; [|done]. apply host_launch_ok; [done|]. by rewrite host_card_flights.
  - destruct (hp_flights s !! i); [|done]. by apply host_answered_ok.
Qed.
End sent.

(** ** What the server makes of it *)

Definition host_body (input : HostCreate) : jsval := default VUndef (r ← createHost input; rq_body r).
Definition host_request (input : HostCreate) : createHostRequest :=
  mkCreateHost (go_string (hc_name input)) (go_string (hc_baseUrl input)) (go_string (hc_tokenId input)) (go_string (hc_tokenSecret input)) (hc_insecureTLS input).

Lemma decode_host input : decodeHost (host_body input) = Some (host_request input).
Proof. destruct input; reflexivity. Qed.

Lemma trim_right_slash_head c s : c ≠ 47%N → trim_right_slash (c :: s) ≠ [].
Proof. intros Hc. cbn [trim_right_slash]. rewrite (proj2 (N.eqb_neq _ _) Hc). by destruct (trim_right_slash s). Qed.

Lemma trim_left_last runes n s c : Forall (Forall (λ b, graphic b = false)) runes → graphic c = true →
  ∃ k, trim_left runes n (s ++ [c]) = k ++ [c].
Proof.
  intros Hr Hc. revert s. induction n as [|n IH]; intros s; [by exists s|]. cbn [trim_left].
  destruct (strip_rune runes (s ++ [c])) as [s'|] eqn:E; [|by exists s].
  apply strip_rune_Some in E as (p & Hp & E). rewrite Forall_forall in Hr. specialize (Hr p Hp).
  destruct s' as [|x s' _] using rev_ind.
  - rewrite app_nil_r in E. rewrite <- E in Hr. apply Forall_app in Hr as [_ Hr]. apply Forall_inv in Hr. cbv beta in Hr. congruence.
  - rewrite app_assoc in E. apply app_inj_tail in E as [_ ->]. apply IH.
Qed.

Lemma TrimSpace_head c s : graphic c = true → ∃ r, TrimSpace (c :: s) = c :: r.
Proof.
  intros Hc. unfold TrimSpace. rewrite trim_left_graphic by (by apply strip_space_graphic). cbn [rev].
  destruct (trim_left_last (map (@rev N) space_runes) (length (c :: s)) (rev s) c) as [k ->]; [repeat constructor|done|].
  exists (rev k). by rewrite rev_app_distr.
Qed.

(** Whatever was typed, the server decodes a creation as typed, and refuses it
    for an empty field only when it takes the whole name for space. *)
Lemma hosts_accepted Parse engineText canManage s input run t : hosts_run engineText canManage s → FlyAddHost input ∈ hp_flights s →
  decodeHost (host_body input) = Some (host_request input) ∧
  ((handleCreateHost Parse run (host_body input) t).1.2 = inr HostFields → TrimSpace (go_string (hc_name input)) = []) ∧
  (handleCreateHost Parse run (host_body input) t).1.2 ≠ inr HostBody.
Proof.
  intros Hr Hin. apply hosts_flights_ok in Hr. rewrite Forall_forall in Hr. apply Hr in Hin as (Hn & (c & b & Eb & Hc) & Ht & Hs).
  split; [apply decode_host|]. unfold handleCreateHost. rewrite decode_host. cbn [host_request ch_name ch_baseURL ch_tokenID ch_tokenSecret ch_insecureTLS].
  rewrite Eb, go_string_cons by lia. destruct (TrimSpace_head c (go_string b)) as [r ->]; [unfold graphic; rewrite andb_true_iff, !N.leb_le; lia|].
  assert (Hu : ∀ x, x ≠ [] → go_string x ≠ []).
  { intros x Hx E. pose proof (go_string_longer x) as H. rewrite E in H. destruct x; [done|]. cbn in H. lia. }
  rewrite (empty_false (trim_right_slash (c :: r))) by (apply trim_right_slash_head; lia).
  rewrite (empty_false (go_string (hc_tokenId input))), (empty_false (go_string (hc_tokenSecret input))) by (by apply Hu).
  rewrite !orb_false_r. destruct (empty (TrimSpace (go_string (hc_name input)))) eqn:En; [apply str_eqb_true in En; by rewrite En|].
  split; [repeat case_match; try done|repeat case_match; done].
Qed.

(** ** What is told and what is recorded *)

(** The result of a test as the console gets it, and a host of the list. *)
Definition test_sent (r : TestResult) : jsval :=
  VObj ([(u "ok", VBool (te_ok r)); (u "nodes", int_val (te_nodes r))]
        ++ match te_error r with Some e => [(u "error", text_val e)] | None => [] end
        ++ (if empty (te_warning r) then [] else [(u "warning", text_val (te_warning r))])).

Definition listed_host (moment : Z → jsstr) (h : PVEHost) : Host :=
  mkHost (IdStr (utf8_to_utf16 (ph_id h))) (utf8_to_utf16 (ph_name h)) (utf8_to_utf16 (ph_baseURL h)) (utf8_to_utf16 (ph_tokenID h)) (ph_insecureTLS h)
    (utf8_to_utf16 (ph_status h)) (moment <$> ph_lastSeen h).

Lemma find_status id status seen t id2 :
  PVEHostByID id2 (UpdatePVEHostStatus id status seen t) =
    (if str_eqb id id2 then with_status status seen <$> PVEHostByID id2 t else PVEHostByID id2 t).
Proof.
  unfold PVEHostByID. cbn [UpdatePVEHostStatus ht_hosts]. induction (ht_hosts t) as [|h hs IH]; cbn [map List.find]; [by destruct (str_eqb id id2)|].
  replace (host_named id2 (if host_named id h then with_status status seen h else h)) with (host_named id2 h) by (by destruct (host_named id h)).
  destruct (host_named id2 h) eqn:E2; [|exact IH]. apply str_eqb_true in E2 as <-.
  destruct (str_eqb id (ph_id h)) eqn:E.
  - apply str_eqb_true in E as ->. unfold host_named. by rewrite (proj2 (str_eqb_true _ _) eq_refl).
  - unfold host_named. apply str_eqb_false in E. by rewrite (proj2 (str_eqb_false _ _)) by congruence.
Qed.

Section told.
Context (toLowerCase : jsstr → jsstr) `{!LowerAscii toLowerCase}.

Lemma lower_word w : Forall (λ c, (97 <=? c) && (c <=? 122) = true)%N w → toLowerCase w = w.
Proof.
  intros H. apply lower_ascii. eapply Forall_impl; [exact H|]. intros c Hc. cbv beta in Hc. rewrite andb_true_iff, !N.leb_le in Hc. lia.
Qed.

Lemma status_pill status tone : Forall (λ c, (97 <=? c) && (c <=? 122) = true)%N status → utf8_to_utf16 status = status → status ≠ [] →
  toneForStatus id (Some status) = tone →
  StatusPill (toneForStatus toLowerCase (Some (utf8_to_utf16 status))) (or_else (utf8_to_utf16 status) (u "unknown")) false = (tone, status, false).
Proof.
  intros Hw E Hn Ht. rewrite E. unfold StatusPill, toneForStatus in *. cbn [default from_option id] in *. rewrite lower_word by done.
  rewrite Ht. destruct status; [done|reflexivity].
Qed.
End told.


Definition lab : PVEHost := mkPVEHost (u "h1") (u "lab") (u "https://pve:8006") (u "backup@pve!t") (u "s") false Online None.
Definition lab_run (nodes : list bytes + bytes) (perms : nat) : HostRun :=
  mkHostRun (mkPve nodes nodes (λ _, inl []) (inl perms)) 7 [] true true true true true true true.

Definition blind_test : TestResult := mkTest true 1 None NoAccessHint.
Definition lab_after : HostTables := mkHostTables [with_status Limited (Some 7) lab] [].


(** ** The answer of a creation that was given up *)

(** The dialog is closed while a host is being added and opened again for
    another one: the answer closes it and empties what was typed since. *)
Definition second_host : HostCreate := mkHostCreate (u "dr-site") [] [] [] false.
Definition given_up (h : Host) : list HostsMsg :=
  [HRead 0 (inl []); HAdd; HType (mkHostCreate (u "lab") (u "https://pve:8006") (u "t") (u "s") false); HSubmit; HAddClose; HAdd; HType second_host;
   HAnswered 0 (GotHost h)].

Lemma typed_since_lost h :
  let before := fold_left (hosts_step []) (take 7 (given_up h)) mountHosts in
  let after := fold_left (hosts_step []) (given_up h) mountHosts in
  hosts_run [] true after ∧ ah_open (hp_add before) = true ∧ ah_form (hp_add before) = second_host ∧
  ah_open (hp_add after) = false ∧ ah_form (hp_add after) = EMPTY_FORM.
Proof.
  split; [|split_and!; vm_compute; reflexivity]. cbn [given_up fold_left].
  repeat (eapply hosts_next; [|shelve]). apply hosts_mount. Unshelve.
  all: vm_compute; try done; eauto.
Qed.
