(* ===== verification/ServerEnroll.v ===== *)
(** * Enrollment on the server (internal/store/enroll.go, internal/agentmgr, internal/helpermgr, internal/store/helpers.go)

    A token is minted in the console and exchanged once by the machine it admits:
    an agent, or the helper of a node of the cluster the token was minted for.
    Requests are programs over SQL statements, as in [Accounts]: any statement may
    fail and those of several requests interleave.  Random text is an input of the
    request that draws it. *)
From S2P Require Import Prelude JsString GoString.

(** ** Tables *)

Definition EnrollPurposeAgent : bytes := u "agent".
Definition EnrollPurposeHelper : bytes := u "helper".

Record TokenRow := mkTokenRow { to_token : bytes; to_purpose : bytes; to_host : bytes; to_expires : Z; to_used : option Z }.
Record AgentRow := mkAgentRow { ag_hostname : bytes; ag_key : bytes }.
Record HelperRow := mkHelperRow { hp_id : bytes; hp_host : bytes; hp_node : bytes; hp_address : bytes; hp_port : Z; hp_key : bytes }.

Record EnrollTables := mkEnroll { et_tokens : list TokenRow; et_hosts : list bytes; et_agents : list AgentRow; et_helpers : list HelperRow }.

(** ** Statements

    [None] for an insertion or an update that a constraint refuses. *)
Inductive Stmt :=
  | SelectHost (id : bytes)
  | SelectHosts
  | InsertToken (row : TokenRow)
  | ConsumeToken (token purpose : bytes) (now : Z)
  | SelectToken (token : bytes)
  | InsertAgent (row : AgentRow)
  | DeleteHelperOf (host node : bytes)
  | InsertHelper (row : HelperRow)
  | SelectHelper (id : bytes)
  | CountClash (host node id : bytes)
  | UpdateHelperHost (host id : bytes)
  | DeleteHelperRow (id : bytes).

Definition result (s : Stmt) : Type :=
  match s with
  | SelectHost _ => bool
  | SelectHosts => list bytes
  | InsertToken _ | InsertAgent _ | DeleteHelperOf _ _ | InsertHelper _ => unit
  | ConsumeToken _ _ _ | CountClash _ _ _ | UpdateHelperHost _ _ | DeleteHelperRow _ => Z
  | SelectToken _ => option TokenRow
  | SelectHelper _ => option HelperRow
  end.

(** [token = ? AND purpose = ? AND used_at IS NULL AND expires_at > ?]. *)
Definition usable (token purpose : bytes) (now : Z) (r : TokenRow) : bool :=
  str_eqb (to_token r) token && str_eqb (to_purpose r) purpose && is_none (to_used r) && (now <? to_expires r).
Definition use (now : Z) (r : TokenRow) : TokenRow := mkTokenRow (to_token r) (to_purpose r) (to_host r) (to_expires r) (Some now).

Definition serves (host node : bytes) (h : HelperRow) : bool := str_eqb (hp_host h) host && str_eqb (hp_node h) node.
Definition helper_id (id : bytes) (h : HelperRow) : bool := str_eqb (hp_id h) id.
Definition at_host (host : bytes) (h : HelperRow) : HelperRow := mkHelperRow (hp_id h) host (hp_node h) (hp_address h) (hp_port h) (hp_key h).

Definition with_tokens (l : list TokenRow) (db : EnrollTables) : EnrollTables := mkEnroll l (et_hosts db) (et_agents db) (et_helpers db).
Definition with_helpers (l : list HelperRow) (db : EnrollTables) : EnrollTables := mkEnroll (et_tokens db) (et_hosts db) (et_agents db) l.

Definition count {A} (p : A → bool) (l : list A) : Z := Z.of_nat (length (List.filter p l)).

(** A row per token; a helper per identity and per pair of host and node. *)
Definition sql (s : Stmt) (db : EnrollTables) : option (result s) * EnrollTables :=
  match s return option (result s) * EnrollTables with
  | SelectHost id => (Some (existsb (str_eqb id) (et_hosts db)), db)
  | SelectHosts => (Some (et_hosts db), db)
  | InsertToken row =>
      if existsb (λ r, str_eqb (to_token r) (to_token row)) (et_tokens db) then (None, db)
      else (Some tt, with_tokens (et_tokens db ++ [row]) db)
  | ConsumeToken token purpose now =>
      (Some (count (usable token purpose now) (et_tokens db)),
       with_tokens (map (λ r, if usable token purpose now r then use now r else r) (et_tokens db)) db)
  | SelectToken token => (Some (List.find (λ r, str_eqb (to_token r) token) (et_tokens db)), db)
  | InsertAgent row => (Some tt, mkEnroll (et_tokens db) (et_hosts db) (et_agents db ++ [row]) (et_helpers db))
  | DeleteHelperOf host node => (Some tt, with_helpers (List.filter (λ h, negb (serves host node h)) (et_helpers db)) db)
  | InsertHelper row =>
      if existsb (λ h, helper_id (hp_id row) h || serves (hp_host row) (hp_node row) h) (et_helpers db) then (None, db)
      else (Some tt, with_helpers (et_helpers db ++ [row]) db)
  | SelectHelper id => (Some (List.find (helper_id id) (et_helpers db)), db)
  | CountClash host node id => (Some (count (λ h, serves host node h && negb (helper_id id h)) (et_helpers db)), db)
  | UpdateHelperHost host id =>
      match List.find (helper_id id) (et_helpers db) with
      | None => (Some 0, db)
      | Some h =>
          if existsb (λ h', serves host (hp_node h) h' && negb (helper_id id h')) (et_helpers db) then (None, db)
          else (Some 1, with_helpers (map (λ h, if helper_id id h then at_host host h else h) (et_helpers db)) db)
      end
  | DeleteHelperRow id => (Some (count (helper_id id) (et_helpers db)), with_helpers (List.filter (λ h, negb (helper_id id h)) (et_helpers db)) db)
  end.

(** ** Programs *)

Inductive Prog (A : Type) : Type :=
  | Return (a : A)
  | Query (s : Stmt) (k : option (result s) → Prog A).
Arguments Return {A} a.
Arguments Query {A} s k.

(** One statement; [fails] tells whether the database refuses it. *)
Definition advance {A} (fails : bool) (p : Prog A) (db : EnrollTables) : Prog A * EnrollTables :=
  match p with
  | Return a => (Return a, db)
  | Query s k => if fails then (k None, db) else (k (sql s db).1, (sql s db).2)
  end.

(** ** Requests *)

Inductive EnrollRequest :=
  | MintAgent (drawn : bytes) (now : Z)
  | MintHelper (hostID drawn : bytes) (now : Z)
  | RegisterAgent (token hostname key : bytes) (now : Z)
  | RegisterHelper (token node secret address : bytes) (port : Z) (id key : bytes) (now : Z)
  | AssignHelper (id hostID : bytes)
  | RemoveHelper (id : bytes).

Inductive EnrollOutcome :=
  | Minted (token : bytes) (expires : Z)
  | AgentEnrolled (agent : AgentRow)
  | HelperEnrolled (helper : HelperRow)
  | Assigned | Removed
  | BadToken | NoHost | BadRequest | NotFound | Clash | Failed.

(** [auth.EnrollTokenTTL], in milliseconds. *)
Definition EnrollTokenTTL : Z := 24 * 60 * 60 * 1000.
Definition DefaultHelperPort : Z := 8007.

Definition create_token (drawn purpose host : bytes) (now : Z) : Prog EnrollOutcome :=
  let row := mkTokenRow drawn purpose host (now + EnrollTokenTTL) None in
  Query (InsertToken row) (λ r, Return (match r with Some _ => Minted drawn (now + EnrollTokenTTL) | None => Failed end)).

(** [ConsumeEnrollTokenFor]; an agent's token is loaded again too, and ignored. *)
Definition consume (token purpose : bytes) (now : Z) (k : TokenRow → Prog EnrollOutcome) : Prog EnrollOutcome :=
  Query (ConsumeToken token purpose now) (λ n,
    match n with
    | None => Return Failed
    | Some n =>
        if n =? 0 then Return BadToken
        else Query (SelectToken token) (λ r,
               match r with None => Return Failed | Some None => Return BadToken | Some (Some row) => k row end)
    end).

(** What the console is sent of a helper that was bound. *)
Definition loaded_again (id : bytes) : Prog EnrollOutcome :=
  Query (SelectHelper id) (λ r,
    match r with
    | None => Return Failed
    | Some None => Return NotFound
    | Some (Some _) => Query SelectHosts (λ r, Return (match r with None => Failed | Some _ => Assigned end))
    end).

Definition handle (q : EnrollRequest) : Prog EnrollOutcome :=
  match q with
  | MintAgent drawn now => create_token drawn EnrollPurposeAgent [] now
  | MintHelper hostID drawn now =>
      let host := TrimSpace hostID in
      if str_eqb host [] then Return NoHost
      else Query (SelectHost host) (λ r,
             match r with
             | None => Return Failed
             | Some false => Return NoHost
             | Some true => create_token drawn EnrollPurposeHelper host now
             end)
  | RegisterAgent token hostname key now =>
      if str_eqb token [] then Return BadToken
      else consume token EnrollPurposeAgent now (λ _,
             let row := mkAgentRow (if str_eqb hostname [] then u "unknown" else hostname) key in
             Query (InsertAgent row) (λ r, Return (match r with Some _ => AgentEnrolled row | None => Failed end)))
  | RegisterHelper token node secret address port id key now =>
      if str_eqb (TrimSpace node) [] || str_eqb secret [] then Return BadRequest
      else if str_eqb token [] then Return BadToken
      else consume token EnrollPurposeHelper now (λ tok,
             if str_eqb (to_host tok) [] then Return NoHost
             else let row := mkHelperRow id (to_host tok) (TrimSpace node) address (if port <=? 0 then DefaultHelperPort else port) key in
                  Query (DeleteHelperOf (hp_host row) (hp_node row)) (λ r,
                    match r with
                    | None => Return Failed
                    | Some _ => Query (InsertHelper row) (λ r, Return (match r with Some _ => HelperEnrolled row | None => Failed end))
                    end))
  | AssignHelper id hostID =>
      let host := TrimSpace hostID in
      if str_eqb host [] then Return BadRequest
      else Query (SelectHost host) (λ r,
             match r with
             | None => Return Failed
             | Some false => Return NotFound
             | Some true =>
                 Query (SelectHelper id) (λ r,
                   match r with
                   | None => Return Failed
                   | Some None => Return NotFound
                   | Some (Some h) =>
                       if str_eqb (hp_host h) host then loaded_again id
                       else Query (CountClash host (hp_node h) id) (λ n,
                              match n with
                              | None => Return Failed
                              | Some n =>
                                  if 0 <? n then Return Clash
                                  else Query (UpdateHelperHost host id) (λ n,
                                         match n with
                                         | None => Return Failed
                                         | Some n => if n =? 0 then Return NotFound else loaded_again id
                                         end)
                              end)
                   end)
             end)
  | RemoveHelper id => Query (DeleteHelperRow id) (λ n, Return (match n with None => Failed | Some n => if n =? 0 then NotFound else Removed end))
  end.

(** ** The server with its requests under way *)

(** A request, where it is, and the token it has consumed. *)
Record Running := mkRunning { ru_request : EnrollRequest; ru_prog : Prog EnrollOutcome; ru_held : option bytes }.

Record Enrollment := mkEnrollment { en_tables : EnrollTables; en_running : list Running }.

Definition took (s : Stmt) : option (result s) → option bytes :=
  match s return option (result s) → option bytes with
  | ConsumeToken token _ _ => λ r, match r with Some n => if n =? 0 then None else Some token | None => None end
  | _ => λ _, None
  end.

Definition progress (fails : bool) (q : Running) (db : EnrollTables) : Running * EnrollTables :=
  match ru_prog q with
  | Return _ => (q, db)
  | Query s k =>
      let r := if fails then None else (sql s db).1 in
      (mkRunning (ru_request q) (k r) (match took s r with Some t => Some t | None => ru_held q end), if fails then db else (sql s db).2)
  end.

(** Hosts come and go besides. *)
Inductive enroll_run (start : EnrollTables) : Enrollment → Prop :=
  | enroll_start : enroll_run start (mkEnrollment start [])
  | enroll_asked e q : enroll_run start e → enroll_run start (mkEnrollment (en_tables e) (en_running e ++ [mkRunning q (handle q) None]))
  | enroll_step e i q fails : enroll_run start e → en_running e !! i = Some q →
      enroll_run start (mkEnrollment (progress fails q (en_tables e)).2 (<[i := (progress fails q (en_tables e)).1]> (en_running e)))
  | enroll_hosts e hosts : enroll_run start e →
      enroll_run start (mkEnrollment (mkEnroll (et_tokens (en_tables e)) hosts (et_agents (en_tables e)) (et_helpers (en_tables e))) (en_running e)).

(** ** One machine for each token *)

Definition token_of (q : EnrollRequest) : option (bytes * bytes * Z) :=
  match q with
  | RegisterAgent token _ _ now => Some (token, EnrollPurposeAgent, now)
  | RegisterHelper token _ _ _ _ _ _ now => Some (token, EnrollPurposeHelper, now)
  | _ => None
  end.

Definition enrolled (o : EnrollOutcome) : bool := match o with AgentEnrolled _ | HelperEnrolled _ => true | _ => false end.

(** What never changes of a token. *)
Definition identity (r : TokenRow) : bytes * bytes * bytes := (to_token r, to_purpose r, to_host r).
Definition known (db : EnrollTables) : list (bytes * bytes * bytes) := map identity (et_tokens db).

Definition answer_ok (K : list (bytes * bytes * bytes)) (s : Stmt) : option (result s) → Prop :=
  match s return option (result s) → Prop with
  | SelectToken t => λ r, match r with Some (Some row) => to_token row = t ∧ identity row ∈ K | _ => True end
  | _ => λ _, True
  end.

Definition stmt_ok (q : EnrollRequest) (held : option bytes) (s : Stmt) : Prop :=
  match s with ConsumeToken t p now => token_of q = Some (t, p, now) ∧ held = None | _ => True end.

Definition outcome_ok (q : EnrollRequest) (K : list (bytes * bytes * bytes)) (held : option bytes) (o : EnrollOutcome) : Prop :=
  match o with
  | AgentEnrolled _ => is_Some held
  | HelperEnrolled h => ∃ t p, held = Some t ∧ (t, p, hp_host h) ∈ K ∧ hp_host h ≠ []
  | _ => True
  end.

Definition now_holds (held : option bytes) (s : Stmt) (r : option (result s)) : option bytes :=
  match took s r with Some t => Some t | None => held end.

(** Of a program at any point: it consumes its own token, once, and reports a
    machine as enrolled only if it did. *)
Fixpoint good (q : EnrollRequest) (K : list (bytes * bytes * bytes)) (held : option bytes) (p : Prog EnrollOutcome) : Prop :=
  match p with
  | Return o => outcome_ok q K held o
  | Query s k => stmt_ok q held s ∧ ∀ K' r, K ⊆ K' → answer_ok K' s r → good q K' (now_holds held s r) (k r)
  end.

Lemma good_more q K K' held p : K ⊆ K' → good q K held p → good q K' held p.
Proof.
  intros HK. destruct p as [o|s k]; cbn [good].
  - destruct o; cbn [outcome_ok]; try done. intros (t & p & Hh & Hin & Hne). exists t, p. split_and!; [done|by apply HK|done].
  - intros [Hs Hk]. split; [done|]. intros K2 r HK2 Hr. apply Hk; [|done]. set_solver.
Qed.

Lemma consume_good q K t p now k : token_of q = Some (t, p, now) →
  (∀ K' row, to_token row = t → identity row ∈ K' → good q K' (Some t) (k row)) → good q K None (consume t p now k).
Proof.
  intros Hq Hk. cbn [consume good stmt_ok]. split; [done|]. intros K' n _ _. destruct n as [n|]; [|done].
  destruct (n =? 0) eqn:En; [done|]. replace (now_holds None (ConsumeToken t p now) (Some n)) with (Some t) by (unfold now_holds; cbn [took]; by rewrite En).
  cbn [good stmt_ok]. split; [done|]. intros K2 r _ Hr. destruct r as [[row|]|]; [|done..]. destruct Hr as [Ht Hin]. by apply Hk.
Qed.

Lemma create_good q K drawn p host now : good q K None (create_token drawn p host now).
Proof. cbn [create_token good stmt_ok]. split; [done|]. intros K' [[]|] _ _; done. Qed.

Lemma loaded_good q K id : good q K None (loaded_again id).
Proof. cbn [loaded_again good stmt_ok]. split; [done|]. intros K' [[h|]|] _ _; [|done..]. split; [done|]. intros K2 [l|] _ _; done. Qed.

Lemma handle_good q K : good q K None (handle q).
Proof.
  destruct q as [drawn now|hostID drawn now|t hostname key now|t node secret address port id key now|id hostID|id]; cbn [handle].
  - apply create_good.
  - destruct (str_eqb _ []); [done|]. split; [done|]. intros K' [[]|] _ _; [apply create_good|done..].
  - destruct (str_eqb t []); [done|]. apply consume_good; [done|]. intros K' row _ _. split; [done|]. intros K2 [[]|] _ _; [by eexists|done].
  - destruct (_ || _); [done|]. destruct (str_eqb t []); [done|]. apply consume_good; [done|]. intros K' row Ht Hin.
    destruct (str_eqb (to_host row) []) eqn:Eh; [done|]. apply str_eqb_false in Eh. split; [done|]. intros K2 [[]|] HK _; [|done].
    split; [done|]. intros K3 [[]|] HK3 _; [|done]. exists t, (to_purpose row). split; [done|]. split; [|done].
    apply HK3, HK. by rewrite <- Ht.
  - destruct (str_eqb _ []); [done|]. split; [done|]. intros K' [[]|] _ _; [|done..]. split; [done|]. intros K2 [[h|]|] _ _; [|done..].
    destruct (str_eqb _ _); [apply loaded_good|]. split; [done|]. intros K3 [n|] _ _; [|done]. destruct (0 <? n); [done|].
    split; [done|]. intros K4 [m|] _ _; [|done]. destruct (m =? 0); [done|apply loaded_good].
  - split; [done|]. intros K' [n|] _ _; [|done]. by destruct (n =? 0).
Qed.

(** ** The tokens *)

Lemma sql_tokens s db : (∃ row, s = InsertToken row ∧ (to_token row ∉ map to_token (et_tokens db)) ∧ et_tokens (sql s db).2 = et_tokens db ++ [row]) ∨
  (∃ t p now, s = ConsumeToken t p now ∧ et_tokens (sql s db).2 = map (λ r, if usable t p now r then use now r else r) (et_tokens db)) ∨
  ((∀ t p now, s ≠ ConsumeToken t p now) ∧ et_tokens (sql s db).2 = et_tokens db).
Proof.
  destruct s; cbn [sql]; try (right; right; split; [done|]; by repeat case_match).
  - destruct (existsb _ _) eqn:E; [right; right; by split|]. left. eexists. split; [done|]. split; [|done].
    intros Hin. apply list_elem_of_In, in_map_iff in Hin as (r & Er & Hr). apply not_true_iff_false in E. apply E, existsb_exists.
    exists r. split; [done|]. by apply str_eqb_true.
  - right; left. by eexists _, _, _.
Qed.

Lemma sql_keeps s db : NoDup (map to_token (et_tokens db)) →
  NoDup (map to_token (et_tokens (sql s db).2)) ∧ known db ⊆ known (sql s db).2 ∧
  (∀ row, row ∈ et_tokens db → (to_used row ≠ None) → row ∈ et_tokens (sql s db).2).
Proof.
  intros Hn. unfold known. destruct (sql_tokens s db) as [(row & -> & Hr & ->)|[(t & p & now & -> & ->)|[_ ->]]]; [| |by split_and!].
  - split_and!.
    + rewrite map_app. apply NoDup_app. split; [done|]. split; [|apply NoDup_singleton]. intros x Hx ->%list_elem_of_singleton. done.
    + rewrite map_app. set_solver.
    + set_solver.
  - assert (∀ r, identity (if usable t p now r then use now r else r) = identity r) as Hid by (intros r; by destruct (usable t p now r)).
    split_and!.
    + rewrite map_map. erewrite map_ext; [exact Hn|]. intros r. by destruct (usable t p now r).
    + rewrite map_map. erewrite (map_ext _ _ Hid). done.
    + intros row Hin Hu. apply list_elem_of_In, in_map_iff. exists row. split; [|by apply list_elem_of_In].
      unfold usable. destruct (to_used row); [|done]. by rewrite andb_false_r, andb_false_l.
Qed.

Lemma sql_answers s db : answer_ok (known db) s (sql s db).1.
Proof.
  destruct s; try done. cbn [sql answer_ok fst]. destruct (List.find _ _) as [row|] eqn:E; [|done]. apply find_some in E as [Hin Ht].
  split; [by apply str_eqb_true in Ht|]. apply list_elem_of_In, in_map_iff. by exists row.
Qed.

Lemma sql_takes s db t : took s (sql s db).1 = Some t → ∃ p now row, s = ConsumeToken t p now ∧
  row ∈ et_tokens db ∧ usable t p now row = true ∧ use now row ∈ et_tokens (sql s db).2.
Proof.
  destruct s as [| | |t' p now| | | | | | | |]; try discriminate. cbn [sql took fst snd]. unfold count.
  destruct (Z.of_nat _ =? 0) eqn:E; [discriminate|]. intros [= ->]. exists p, now.
  destruct (List.filter (usable t p now) (et_tokens db)) as [|row l] eqn:Ef; [done|].
  assert (In row (List.filter (usable t p now) (et_tokens db))) as Hin by (rewrite Ef; by left). apply filter_In in Hin as [Hin Hu].
  exists row. split_and!; [done|by apply list_elem_of_In|done|]. apply list_elem_of_In, in_map_iff. exists row. by rewrite Hu.
Qed.

(** ** The invariant *)

(** The token a request holds is its own, used by it in time. *)
Definition held_ok (db : EnrollTables) (q : Running) : Prop :=
  ∀ t, ru_held q = Some t → ∃ p now row, token_of (ru_request q) = Some (t, p, now) ∧ row ∈ et_tokens db ∧ to_token row = t ∧ to_purpose row = p ∧
    to_used row = Some now ∧ now < to_expires row.

Record enrollment_ok (e : Enrollment) : Prop := {
  eo_tokens : NoDup (map to_token (et_tokens (en_tables e)));
  eo_good : Forall (λ q, good (ru_request q) (known (en_tables e)) (ru_held q) (ru_prog q)) (en_running e);
  eo_held : Forall (held_ok (en_tables e)) (en_running e);
  eo_once : ∀ i j qi qj t, en_running e !! i = Some qi → en_running e !! j = Some qj → ru_held qi = Some t → ru_held qj = Some t → i = j;
}.

Lemma token_unique (l : list TokenRow) r1 r2 : NoDup (map to_token l) → r1 ∈ l → r2 ∈ l → to_token r1 = to_token r2 → r1 = r2.
Proof.
  induction l as [|r l IH]; [by intros _ ?%elem_of_nil|]. cbn [map]. intros [Hr Hn]%NoDup_cons H1 H2 E.
  assert (∀ x, x ∈ l → to_token x ∈ map to_token l) as Hm by (intros x Hx; apply list_elem_of_In, in_map; by apply list_elem_of_In).
  apply elem_of_cons in H1 as [->|H1], H2 as [->|H2]; [done| | |by apply IH].
  - exfalso. apply Hr. rewrite E. by apply Hm.
  - exfalso. apply Hr. rewrite <- E. by apply Hm.
Qed.

Lemma answer_more K K' s r : K ⊆ K' → answer_ok K s r → answer_ok K' s r.
Proof. intros HK. destruct s; try done. cbn [answer_ok]. destruct r as [[row|]|]; [|done..]. intros [Ht Hin]. split; [done|by apply HK]. Qed.

Lemma usable_spec t p now r : usable t p now r = true → to_token r = t ∧ to_purpose r = p ∧ to_used r = None ∧ now < to_expires r.
Proof.
  unfold usable. rewrite !andb_true_iff, !str_eqb_true, Z.ltb_lt. intros [[[-> ->] Hu] Hn]. destruct (to_used r); [done|]. done.
Qed.

(** One step of one request. *)
Lemma progress_ok fails q db (Hn : NoDup (map to_token (et_tokens db))) (Hg : good (ru_request q) (known db) (ru_held q) (ru_prog q)) (Hh : held_ok db q) :
  let q' := (progress fails q db).1 in let db' := (progress fails q db).2 in
  NoDup (map to_token (et_tokens db')) ∧ known db ⊆ known db' ∧ (∀ row, row ∈ et_tokens db → to_used row ≠ None → row ∈ et_tokens db') ∧
  good (ru_request q') (known db') (ru_held q') (ru_prog q') ∧ held_ok db' q' ∧
  (ru_held q' = ru_held q ∨ ∃ t row, ru_held q' = Some t ∧ ru_held q = None ∧ row ∈ et_tokens db ∧ to_token row = t ∧ to_used row = None).
Proof.
  unfold progress. destruct (ru_prog q) as [o|s k] eqn:Ep; cbn [fst snd]; [by rewrite Ep; split_and!; auto|].
  cbn [good] in Hg. destruct Hg as [Hs Hk]. cbn [ru_request ru_prog ru_held].
  destruct fails.
  - replace (took s None) with (@None bytes) by (by destruct s). split_and!; auto.
    specialize (Hk (known db) None ltac:(done)). unfold now_holds in Hk. replace (took s None) with (@None bytes) in Hk by (by destruct s).
    apply Hk. by destruct s.
  - destruct (sql_keeps s db Hn) as (Hn' & HK & Hrows). fold (now_holds (ru_held q) s (sql s db).1).
    assert (good (ru_request q) (known (sql s db).2) (now_holds (ru_held q) s (sql s db).1) (k (sql s db).1)) as Hg'.
    { apply Hk; [exact HK|]. eapply answer_more; [exact HK|apply sql_answers]. }
    unfold now_holds in *. destruct (took s (sql s db).1) as [t|] eqn:Et.
    + apply sql_takes in Et as (p & now & row & -> & Hin & Hu & Hin'). destruct Hs as [Hq Hq0].
      apply usable_spec in Hu as (Ht & Hp & Hu & Hx). split_and!; [done..| |].
      * intros t' [= <-]. exists p, now, (use now row). by split_and!.
      * right. by exists t, row.
    + split_and!; [done..| |by left]. intros t Ht. destruct (Hh t Ht) as (p & now & row & H1 & H2 & H3 & H4 & H5 & H6).
      exists p, now, row. split_and!; try done. apply Hrows; [done|by rewrite H5].
Qed.

Lemma insert_cases {A} (l : list A) i j x y z : l !! i = Some z → <[i := x]> l !! j = Some y → (j = i ∧ y = x) ∨ (j ≠ i ∧ l !! j = Some y).
Proof.
  intros Hi Hj. assert (i < length l)%nat by by eapply lookup_lt_Some. destruct (decide (j = i)) as [->|Hne].
  - rewrite list_lookup_insert_eq in Hj by done. left. by injection Hj as ->.
  - rewrite list_lookup_insert_ne in Hj by done. by right.
Qed.

Lemma enrollment_invariant start e : NoDup (map to_token (et_tokens start)) → enroll_run start e → enrollment_ok e.
Proof.
  intros Hn. induction 1 as [|e q _ [H1 H2 H3 H4]|e i q fails _ [H1 H2 H3 H4] Hi|e hosts _ [H1 H2 H3 H4]].
  - constructor; [done|constructor..|]. intros i j qi qj t Hi. cbn [en_running] in Hi. by destruct i.
  - constructor; cbn [en_tables en_running]; [done|apply Forall_app; split; [done|apply Forall_singleton; apply handle_good]
      |apply Forall_app; split; [done|apply Forall_singleton; intros t Ht; discriminate Ht]|].
    intros i j qi qj t Hqi Hqj Hti Htj.
    assert (∀ k x, (en_running e ++ [mkRunning q (handle q) None]) !! k = Some x → ru_held x = Some t → en_running e !! k = Some x) as Hold.
    { intros k x Hx Hxt. apply lookup_app_Some in Hx as [Hx|[_ Hx]]; [done|]. apply list_lookup_singleton_Some in Hx as [_ <-]. discriminate Hxt. }
    eapply H4; eauto.
  - pose proof Hi as Hq. rewrite Forall_lookup in H2, H3. destruct (progress_ok fails q (en_tables e) H1 (H2 _ _ Hi) (H3 _ _ Hi)) as (P1 & P2 & P3 & P4 & P5 & P6).
    constructor; cbn [en_tables en_running]; [done| | |].
    + apply Forall_lookup. intros j x Hx. destruct (insert_cases _ _ _ _ _ _ Hi Hx) as [[_ ->]|[_ Hx']]; [done|]. eapply good_more; [exact P2|by eapply H2].
    + apply Forall_lookup. intros j x Hx. destruct (insert_cases _ _ _ _ _ _ Hi Hx) as [[_ ->]|[_ Hx']]; [done|].
      intros t Ht. destruct (H3 _ _ Hx' t Ht) as (p & now & row & T1 & T2 & T3 & T4 & T5 & T6). exists p, now, row. split_and!; try done. apply P3; [done|by rewrite T5].
    + assert (∀ k x t, k ≠ i → en_running e !! k = Some x → ru_held x = Some t → ru_held (progress fails q (en_tables e)).1 = Some t → False) as Hother.
      { intros k x t Hk Hx Hxt Hqt. destruct P6 as [P6|(t' & row & E1 & E2 & Hin & Ht' & Hu)].
        - rewrite P6 in Hqt. apply Hk. by eapply (H4 k i x q t).
        - rewrite E1 in Hqt. injection Hqt as ->. destruct (H3 _ _ Hx t Hxt) as (p & now & row' & _ & Hin' & Ht2 & _ & Hu' & _).
          assert (row = row') as -> by (eapply token_unique; [exact H1|done|done|congruence]). congruence. }
      intros j1 j2 q1 q2 t Hj1 Hj2 Ht1 Ht2.
      destruct (insert_cases _ _ _ _ _ _ Hi Hj1) as [[-> ->]|[N1 Hx1]], (insert_cases _ _ _ _ _ _ Hi Hj2) as [[-> ->]|[N2 Hx2]]; [done| | |by eapply H4].
      * exfalso. by eapply Hother.
      * exfalso. by eapply Hother.
  - by constructor.
Qed.

(** C32: a token admits one machine.  Whatever requests are under way at once, in
    whatever order their statements run and whichever of them fail, no two
    registrations with the same token are answered as enrolled; one that is used
    the token before it expired, for what it was minted for, and a helper is bound
    to the cluster its token was minted for. *)
Theorem enrolled_once start e : NoDup (map to_token (et_tokens start)) → enroll_run start e →
  (∀ i j qi qj oi oj t pi pj ni nj, en_running e !! i = Some qi → en_running e !! j = Some qj →
     ru_prog qi = Return oi → enrolled oi = true → token_of (ru_request qi) = Some (t, pi, ni) →
     ru_prog qj = Return oj → enrolled oj = true → token_of (ru_request qj) = Some (t, pj, nj) → i = j) ∧
  (∀ i q o t p now, en_running e !! i = Some q → ru_prog q = Return o → enrolled o = true → token_of (ru_request q) = Some (t, p, now) →
     ∃ row, row ∈ et_tokens (en_tables e) ∧ to_token row = t ∧ to_purpose row = p ∧ to_used row = Some now ∧ now < to_expires row ∧
       ∀ h, o = HelperEnrolled h → hp_host h = to_host row ∧ to_host row ≠ []).
Proof.
  intros Hn Hr. apply enrollment_invariant in Hr as [H1 H2 H3 H4]; [|done]. rewrite Forall_lookup in H2, H3.
  assert (∀ i q o t p now, en_running e !! i = Some q → ru_prog q = Return o → enrolled o = true → token_of (ru_request q) = Some (t, p, now) → ru_held q = Some t) as Hheld.
  { intros i q o t p now Hi Hp Ho Hq. specialize (H2 _ _ Hi). rewrite Hp in H2. cbn [good] in H2.
    assert (is_Some (ru_held q)) as [t' Ht'] by (destruct o; try done; cbn [outcome_ok] in H2; by destruct H2 as (x & y & -> & _)).
    destruct (H3 _ _ Hi t' Ht') as (p' & now' & row & Hq' & _). rewrite Hq in Hq'. injection Hq' as <- _ _. done. }
  split.
  - intros i j qi qj oi oj t pi pj ni nj Hi Hj Pi Oi Ti Pj Oj Tj. eapply H4; [exact Hi|exact Hj| |]; by eapply Hheld.
  - intros i q o t p now Hi Hp Ho Hq. pose proof (Hheld _ _ _ _ _ _ Hi Hp Ho Hq) as Ht.
    destruct (H3 _ _ Hi t Ht) as (p' & now' & row & Hq' & Hin & Et & Ep & Eu & Ex). rewrite Hq in Hq'. injection Hq' as <- <-.
    exists row. split_and!; try done. intros h ->. specialize (H2 _ _ Hi). rewrite Hp in H2. destruct H2 as (t' & p2 & Ht' & Hk & Hne).
    rewrite Ht in Ht'. injection Ht' as <-. apply list_elem_of_In, in_map_iff in Hk as (row2 & Eid & Hin2). injection Eid as E1 E2 E3.
    assert (row2 = row) as -> by (eapply token_unique; [exact H1|by apply list_elem_of_In|done|congruence]). by rewrite E3.
Qed.

(** ** An example: two nodes race for a token *)

Inductive Act := Ask (q : EnrollRequest) | Step (i : nat) (fails : bool).
Definition enroll_do (e : Enrollment) (a : Act) : Enrollment :=
  match a with
  | Ask q => mkEnrollment (en_tables e) (en_running e ++ [mkRunning q (handle q) None])
  | Step i fails =>
      match en_running e !! i with
      | Some q => mkEnrollment (progress fails q (en_tables e)).2 (<[i := (progress fails q (en_tables e)).1]> (en_running e))
      | None => e
      end
  end.

Lemma enroll_acts start acts : enroll_run start (fold_left enroll_do acts (mkEnrollment start [])).
Proof.
  induction acts as [|a acts IH] using rev_ind; [constructor|]. rewrite fold_left_app. cbn [fold_left]. destruct a as [q|i fails]; cbn [enroll_do].
  - by apply enroll_asked.
  - destruct (en_running _ !! i) eqn:E; [by apply enroll_step|exact IH].
Qed.

Definition empty_server : EnrollTables := mkEnroll [] [u "h1"] [] [].
Definition from_node (node : String.string) (id : String.string) : EnrollRequest :=
  RegisterHelper (u "t0") (u node) (u "secret") (u "10.0.0.7") 0 (u id) (u "key") 5.
Definition raced : Enrollment :=
  fold_left enroll_do
    [Ask (MintHelper (u "h1") (u "t0") 1); Step 0 false; Step 0 false; Ask (from_node "pve1" "a"); Ask (from_node "pve2" "b");
     Step 2 false; Step 1 false; Step 2 false; Step 2 false; Step 2 false] (mkEnrollment empty_server []).

Definition answer_at (i : nat) (e : Enrollment) : option EnrollOutcome :=
  q ← en_running e !! i; match ru_prog q with Return o => Some o | _ => None end.

Lemma enrolled_once_witness :
  answer_at 1 raced = Some BadToken ∧
  ∃ h row, answer_at 2 raced = Some (HelperEnrolled h) ∧ row ∈ et_tokens (en_tables raced) ∧ hp_host h = to_host row ∧ to_used row = Some 5.
Proof.
  split; [vm_compute; reflexivity|].
  set (h := mkHelperRow (u "b") (u "h1") (u "pve2") (u "10.0.0.7") 8007 (u "key")).
  assert (en_running raced !! 2%nat = Some (mkRunning (from_node "pve2" "b") (Return (HelperEnrolled h)) (Some (u "t0")))) as Hi by (vm_compute; reflexivity).
  destruct (proj2 (enrolled_once empty_server raced (NoDup_nil_2) (enroll_acts _ _)) 2%nat _ _ (u "t0") EnrollPurposeHelper 5 Hi eq_refl eq_refl eq_refl)
    as (row & Hin & _ & _ & Hu & _ & Hh).
  exists h, row. split; [vm_compute; reflexivity|]. split; [exact Hin|]. split; [exact (proj1 (Hh h eq_refl))|exact Hu].
Defined.

(** A helper registers again and the insertion fails: the node, served before,
    is left without a helper. *)
Lemma replaced_for_nothing :
  let before := mkEnroll [mkTokenRow (u "t0") EnrollPurposeHelper (u "h1") 100 None] [u "h1"] [] [mkHelperRow (u "a") (u "h1") (u "pve1") [] 8007 []] in
  let e := fold_left enroll_do [Ask (from_node "pve1" "b"); Step 0 false; Step 0 false; Step 0 false; Step 0 true] (mkEnrollment before []) in
  answer_at 0 e = Some Failed ∧ et_helpers (en_tables e) = [].
Proof. split; vm_compute; reflexivity. Qed.
