(* ===== verification/CopyField.v ===== *)
(** * Copying text (web/src/components/CopyField.tsx)

    A block of text with a button that copies it: through the clipboard of the
    browser, or by way of a text area where there is none. *)
From S2P Require Import Prelude JsString Widgets.

(** What the browser does: [navigator.clipboard.writeText], and
    [document.execCommand('copy')] on a selected text area. *)
Inductive Clipboard := NoClipboard | ClipboardWrites | ClipboardRefuses.
Inductive TextArea := AreaAnswers (ok : bool) | AreaThrows.

Definition copyText (clipboard : Clipboard) (area : TextArea) : bool :=
  match clipboard with
  | ClipboardWrites => true
  | NoClipboard | ClipboardRefuses => match area with AreaAnswers ok => ok | AreaThrows => false end
  end.

(** The button: whether it shows a check, the milliseconds each timer still has
    to run, and how many copies are under way. *)
Record CopyButton := mkCopy { cb_copied : bool; cb_timers : list Z; cb_copying : nat; cb_said : list ToastCall }.

Definition check_time : Z := 1600.

Inductive CopyMsg := CopyPress | CopyLanded (clipboard : Clipboard) (area : TextArea) | CopyElapse (ms : Z).

Section button.
Context (label : jsstr).

Definition freshCopy : CopyButton := mkCopy false [] 0 [].

Definition copy_offered (b : CopyButton) (m : CopyMsg) : bool :=
  match m with CopyPress => true | CopyLanded _ _ => (0 <? cb_copying b)%nat | CopyElapse ms => 0 <=? ms end.

Definition copy_step (b : CopyButton) (m : CopyMsg) : CopyButton :=
  match m with
  | CopyPress => mkCopy (cb_copied b) (cb_timers b) (S (cb_copying b)) (cb_said b)
  | CopyLanded clipboard area =>
      if copyText clipboard area
      then mkCopy true (cb_timers b ++ [check_time]) (Nat.pred (cb_copying b)) (mkCall ToastSuccess (cat [label; u " copied to the clipboard."]) None None :: cb_said b)
      else mkCopy (cb_copied b) (cb_timers b) (Nat.pred (cb_copying b))
             (mkCall ToastError (u "Could not copy") (Some (u "Select the text and copy it manually.")) None :: cb_said b)
  | CopyElapse ms =>
      let left := map (λ t, t - ms) (cb_timers b) in
      mkCopy (if existsb (λ t, t <=? 0) left then false else cb_copied b) (List.filter (λ t, 0 <? t) left) (cb_copying b) (cb_said b)
  end.

Inductive copy_run : CopyButton → Prop :=
  | copy_mount : copy_run freshCopy
  | copy_next b m : copy_run b → copy_offered b m = true → copy_run (copy_step b m).

(** The check is shown only while a timer that takes it away runs. *)
Lemma copied_timed b : copy_run b → (cb_copied b = true → cb_timers b ≠ []) ∧ Forall (λ t, 0 < t <= check_time) (cb_timers b).
Proof.
  induction 1 as [|b m _ [IH1 IH2] Ho]; [by split|]. destruct m as [|c a|ms]; cbn [copy_step].
  - by split.
  - destruct (copyText c a); [|by split]. cbn [cb_copied cb_timers]. split; [intros _; by destruct (cb_timers b)|].
    apply Forall_app. split; [done|]. apply Forall_singleton. unfold check_time. lia.
  - cbn [cb_copied cb_timers copy_offered] in *. b2p. destruct (existsb _ _) eqn:E.
    + split; [done|]. apply Forall_forall. intros t [Ht Hp]%list_elem_of_In%filter_In. apply in_map_iff in Ht as (t' & <- & Ht').
      rewrite Forall_forall in IH2. apply list_elem_of_In, IH2 in Ht'. b2p. lia.
    + assert (List.filter (λ t, 0 <? t) (map (λ t, t - ms) (cb_timers b)) = map (λ t, t - ms) (cb_timers b)) as ->.
      { clear IH1 IH2. induction (cb_timers b) as [|t l IH]; [done|]. cbn in E |- *. apply orb_false_iff in E as [Et El]. b2p.
        rewrite (proj2 (Z.ltb_lt _ _)) by lia. by rewrite IH. }
      split; [intros Hc; specialize (IH1 Hc); by destruct (cb_timers b)|].
      apply Forall_forall. intros t Ht. pose proof Ht as Ht0. apply list_elem_of_In, in_map_iff in Ht as (t' & <- & Ht').
      rewrite Forall_forall in IH2. apply list_elem_of_In, IH2 in Ht'.
      assert (0 < t' - ms); [|lia]. destruct (t' - ms <=? 0) eqn:En; [|lia]. exfalso.
      apply not_true_iff_false in E. apply E, existsb_exists. exists (t' - ms). split; [by apply list_elem_of_In|done].
Qed.

(** A second and a half and a bit after the last copy the check is gone. *)
Lemma copied_gone b ms : copy_run b → check_time <= ms → cb_copied (copy_step b (CopyElapse ms)) = false ∧ cb_timers (copy_step b (CopyElapse ms)) = [].
Proof.
  intros [H1 H2]%copied_timed Hms. cbn [copy_step cb_copied cb_timers].
  destruct (cb_timers b) as [|t l] eqn:E; [split; [|done]; cbn; destruct (cb_copied b); [by destruct (H1 eq_refl)|done]|].
  assert (Forall (λ t, t <= 0) (map (λ t, t - ms) (t :: l))) as Hle.
  { apply Forall_forall. intros x (y & <- & Hy)%list_elem_of_In%in_map_iff. rewrite Forall_forall in H2. apply list_elem_of_In, H2 in Hy. lia. }
  split.
  - inversion Hle as [|? ? Hx _]; subst. cbn [map existsb]. by rewrite (proj2 (Z.leb_le _ _) Hx).
  - induction Hle as [|x l' Hx _ IH]; [done|]. cbn [List.filter]. by rewrite (proj2 (Z.ltb_ge _ _) Hx).
Qed.
End button.

(** A second copy is confirmed for what is left of the first one's time. *)
Lemma check_cut_short label : let b := fold_left (copy_step label)
    [CopyPress; CopyLanded ClipboardWrites AreaThrows; CopyElapse 1500; CopyPress; CopyLanded ClipboardWrites AreaThrows; CopyElapse 100] freshCopy in
  copy_run label b ∧ cb_copied b = false ∧ cb_timers b = [1500].
Proof. split; [|by split]. cbn [fold_left]. repeat (apply copy_next; [|done]). apply copy_mount. Qed.

(** ** The block *)

Record CopyFieldView := mkCopyField { cf_label : option jsstr; cf_value : jsstr; cf_button : jsstr; cf_caption : option jsstr }.

Definition CopyField (value : jsstr) (label caption copyLabel : option jsstr) : CopyFieldView :=
  mkCopyField (label ≫= λ l, if str_eqb l [] then None else Some l) value
    (match copyLabel, label with Some c, _ => c | None, Some l => l | None, None => u "Command" end)
    (caption ≫= λ c, if str_eqb c [] then None else Some c).
