(* ===== verification/AgentsPage.v ===== *)
(** * The agents page (web/src/pages/AgentsPage.tsx)

    The agents that are enrolled and their removal, and the section that mints
    an enrollment token and spells the commands that use it. *)
From S2P Require Import Prelude JsString JsNumber JsValue Transport Format Endpoints Backups Ui Roles Inventory Widgets CopyField.

Definition TOKEN_PLACEHOLDER : jsstr := u "<ENROLLMENT-TOKEN>".

Definition linuxCommand (origin token : jsstr) : jsstr :=
  join (u " && ")
    [ cat [u "curl -fsSL "; origin; AGENT_DOWNLOADS.1; u " -o /usr/local/bin/proxback-agent"];
      u "chmod +x /usr/local/bin/proxback-agent";
      cat [u "/usr/local/bin/proxback-agent --server "; origin; u " --token "; token; u " --install"] ].

Definition quoted (s : jsstr) : jsstr := cat [[34%N]; s; [34%N]].

Definition windowsCommand (origin token : jsstr) : jsstr :=
  let dir := quoted (u "$env:ProgramFiles\ProxBack") in
  let exe := quoted (u "$env:ProgramFiles\ProxBack\proxback-agent.exe") in
  join (u "; ")
    [ cat [u "New-Item -ItemType Directory -Force "; dir; u " | Out-Null"];
      cat [u "Invoke-WebRequest "; origin; AGENT_DOWNLOADS.2; u " -OutFile "; exe];
      cat [u "& "; exe; u " --server "; origin; u " --token "; token; u " --install"] ].

Record EnrollToken := mkEnrollToken { ek_token : jsstr; ek_expiresAt : jsstr }.

(** ** The page *)

Inductive AgentFlight := FlyDeleteAgent (table : Z) (agent : Agent) | FlyToken.
Inductive AgentAnswer := AgentGone | GotToken (token : EnrollToken) | AgentThrown (err : Thrown).

(** [gp_table] is the table on the page, if it is shown: which mounting of it,
    and its [deleting]; the confirmation asked for remembers its table. *)
Record AgentsState := mkAgents {
  gp_async : Async (list Agent) unit;
  gp_table : option (Z * option jsstr);
  gp_tables : Z;
  gp_token : option EnrollToken;
  gp_generating : bool;
  gp_asking : option (Z * Agent);
  gp_flights : list AgentFlight;
  gp_said : list ToastCall;
}.

Inductive AgentsMsg :=
  | AgReload | AgGenerate | AgRemove (agent : Agent) | AgConfirm (ok : bool)
  | AgRead (i : nat) (answer : list Agent + Thrown)
  | AgAnswered (i : nat) (answer : AgentAnswer).

Definition agent_key (a : Agent) : jsstr := id_text (ag_id a).
Definition agents_of (s : AgentsState) : list Agent := default [] (as_data (gp_async s)).
Definition table_inst (s : AgentsState) : Z := from_option fst (-1) (gp_table s).
Definition table_deleting (s : AgentsState) : option jsstr := t ← gp_table s; t.2.

Definition mountAgents : AgentsState := mkAgents (mountAsync tt) None 0 None false None [] [].

Definition with_agasync (a : Async (list Agent) unit) (s : AgentsState) : AgentsState :=
  mkAgents a (gp_table s) (gp_tables s) (gp_token s) (gp_generating s) (gp_asking s) (gp_flights s) (gp_said s).
Definition with_agasking (asking : option (Z * Agent)) (s : AgentsState) : AgentsState :=
  mkAgents (gp_async s) (gp_table s) (gp_tables s) (gp_token s) (gp_generating s) asking (gp_flights s) (gp_said s).
Definition with_token (token : option EnrollToken) (generating : bool) (s : AgentsState) : AgentsState :=
  mkAgents (gp_async s) (gp_table s) (gp_tables s) token generating (gp_asking s) (gp_flights s) (gp_said s).
Definition agent_send (f : AgentFlight) (s : AgentsState) : AgentsState :=
  mkAgents (gp_async s) (gp_table s) (gp_tables s) (gp_token s) (gp_generating s) (gp_asking s) (gp_flights s ++ [f]) (gp_said s).
Definition agent_landed (i : nat) (said : ToastCall) (s : AgentsState) : AgentsState :=
  mkAgents (gp_async s) (gp_table s) (gp_tables s) (gp_token s) (gp_generating s) (gp_asking s) (delete i (gp_flights s)) (said :: gp_said s).

(** [setDeleting] of one mounting of the table; nothing once it is gone. *)
Definition set_deleting (inst : Z) (key : option jsstr) (s : AgentsState) : AgentsState :=
  match gp_table s with
  | Some (i, _) =>
      if i =? inst
      then mkAgents (gp_async s) (Some (i, key)) (gp_tables s) (gp_token s) (gp_generating s) (gp_asking s) (gp_flights s) (gp_said s)
      else s
  | None => s
  end.

(** The table is on the page while there are agents. *)
Definition sync_table (s : AgentsState) : AgentsState :=
  let set table tables := mkAgents (gp_async s) table tables (gp_token s) (gp_generating s) (gp_asking s) (gp_flights s) (gp_said s) in
  match agents_of s, gp_table s with
  | [], _ => set None (gp_tables s)
  | _ :: _, Some t => s
  | _ :: _, None => set (Some (gp_tables s, None)) (gp_tables s + 1)
  end.

Definition refresh_agents (loud : bool) (s : AgentsState) : AgentsState := with_agasync (run_loader loud (gp_async s)) s.

Section page.
(** How the engine words its own exceptions, and whether the role may change
    infrastructure. *)
Context (engineText : jsstr) (canManage : bool).

Definition agents_offered (s : AgentsState) (m : AgentsMsg) : Prop :=
  match m with
  | AgReload => gp_asking s = None ∧ as_loading (gp_async s) = false
  | AgGenerate => gp_asking s = None ∧ canManage = true ∧ gp_generating s = false
  | AgRemove a => gp_asking s = None ∧ a ∈ agents_of s ∧ canManage = true ∧ table_deleting s ≠ Some (agent_key a)
  | AgConfirm _ => gp_asking s ≠ None
  | AgRead i _ => is_Some (as_pending (gp_async s) !! i)
  | AgAnswered i answer =>
      match gp_flights s !! i, answer with
      | Some (FlyDeleteAgent _ _), AgentGone | Some FlyToken, GotToken _ | Some _, AgentThrown _ => True
      | _, _ => False
      end
  end.

Definition failed_agent (title : jsstr) (err : Thrown) : ToastCall := mkCall ToastError title (Some (errorMessage engineText err)) None.

Definition agent_answered (i : nat) (f : AgentFlight) (answer : AgentAnswer) (s : AgentsState) : AgentsState :=
  match f, answer with
  | FlyDeleteAgent inst a, AgentGone =>
      set_deleting inst None (refresh_agents false (agent_landed i (mkCall ToastSuccess (cat [u "Agent “"; ag_hostname a; u "” removed."]) None None) s))
  | FlyDeleteAgent inst _, AgentThrown err => set_deleting inst None (agent_landed i (failed_agent (u "Could not remove agent") err) s)
  | FlyToken, GotToken token =>
      with_token (Some token) false
        (agent_landed i (mkCall ToastSuccess (u "Enrollment token generated.") (Some (u "Single use — it expires after 24 hours.")) None) s)
  | FlyToken, AgentThrown err => with_token (gp_token s) false (agent_landed i (failed_agent (u "Could not generate token") err) s)
  | _, _ => s
  end.

Definition agents_step (s : AgentsState) (m : AgentsMsg) : AgentsState :=
  match m with
  | AgReload => refresh_agents true s
  | AgGenerate => agent_send FlyToken (with_token (gp_token s) true s)
  | AgRemove a => with_agasking (Some (table_inst s, a)) s
  | AgConfirm ok =>
      match gp_asking s with
      | Some (inst, a) =>
          if ok then agent_send (FlyDeleteAgent inst a) (set_deleting inst (Some (agent_key a)) (with_agasking None s)) else with_agasking None s
      | None => s
      end
  | AgRead i answer => sync_table (with_agasync (async_step engineText (gp_async s) (Settled i answer)) s)
  | AgAnswered i answer => match gp_flights s !! i with Some f => agent_answered i f answer s | None => s end
  end.

Inductive agents_run : AgentsState → Prop :=
  | agents_mount : agents_run mountAgents
  | agents_next s m : agents_run s → agents_offered s m → agents_run (agents_step s m).

End page.

(** ** What is drawn *)

Record AgentRowView := mkAgentRow {
  gv_hostname : jsstr; gv_platform : jsstr; gv_version : jsstr; gv_pill : PillTone * jsstr * bool; gv_seen : jsstr; gv_enrolled : jsstr;
  gv_remove : ControlView;
}.

Inductive AgentsBody := AgentsSkeleton | AgentsFailed (message : jsstr) | NoAgents | AgentTable (subtitle : jsstr) (rows : list AgentRowView).

(** The section below: its button, the token with its caption, the two commands. *)
Record DeployView := mkDeployView { dv_generate : ControlView; dv_token : option CopyFieldView; dv_linux : CopyFieldView; dv_windows : CopyFieldView }.

Section view.
(** The engine's formatting, the moment of drawing, the role and the origin of
    the page. *)
Context (toLowerCase : jsstr → jsstr) (Date_parse : jsstr → option Z) (localeDate localeDateTime : Z → jsstr) (now : Z) (role : Role) (origin : jsstr).

Definition can_agents : bool := manageInfrastructure (capabilitiesFor (role_val role)).
Definition agents_denied (what : jsstr) : option jsstr := if can_agents then None else Some (roleDeniedReason (role_val role) what).

Definition AgentRow (deleting : option jsstr) (a : Agent) : AgentRowView :=
  let denied := agents_denied (u "remove agents") in
  let spins := bool_decide (deleting = Some (agent_key a)) in
  mkAgentRow (ag_hostname a) (cat [ag_os a; u "/"; ag_arch a]) (ag_version a)
    (StatusPill (toneForStatus toLowerCase (Some (ag_status a))) (ag_status a) false)
    (formatRelative Date_parse localeDate (Some (ag_lastSeen a)) now) (formatDate Date_parse localeDateTime (Some (ag_registeredAt a)))
    (mkControlView (default (u "Remove agent") denied)
       (Some (match denied with Some d => cat [u "Remove "; ag_hostname a; u " — "; d] | None => cat [u "Remove "; ag_hostname a] end))
       (negb (button_disabled (negb can_agents) spins)) spins).

Definition agents_subtitle (n : nat) : jsstr :=
  cat [str_of_Z (Z.of_nat n); u " "; if (n =? 1)%nat then u "agent" else u "agents"; u " · online means a heartbeat within the last minute"].

Definition agents_body (s : AgentsState) : AgentsBody :=
  let a := gp_async s in
  match as_data a with
  | None =>
      if as_loading a then AgentsSkeleton
      else match present (as_error a) with Some e => AgentsFailed e | None => NoAgents end
  | Some [] => NoAgents
  | Some agents => AgentTable (agents_subtitle (length agents)) (map (AgentRow (table_deleting s)) agents)
  end.

Definition token_caption (t : EnrollToken) : jsstr :=
  cat [u "Single use — expires "; formatDate Date_parse localeDateTime (Some (ek_expiresAt t)); u " (";
       formatRelative Date_parse localeDate (Some (ek_expiresAt t)) now; u ")."].

Definition DeploySection (s : AgentsState) : DeployView :=
  let denied := agents_denied (u "enroll new agents") in
  let value := from_option ek_token TOKEN_PLACEHOLDER (gp_token s) in
  mkDeployView
    (mkControlView (if is_none (gp_token s) then u "Generate enrollment token" else u "Generate new token") ((λ d, cat [u "Generate enrollment token — "; d]) <$> denied)
       (negb (button_disabled (negb can_agents) (gp_generating s))) (gp_generating s))
    ((λ t, CopyField (ek_token t) (Some (u "Enrollment token")) (Some (token_caption t)) (Some (u "Token"))) <$> gp_token s)
    (CopyField (linuxCommand origin value) (Some (u "Linux — bash (root)"))
       (Some (u "Downloads the static binary, installs a systemd unit, and enrolls the agent.")) (Some (u "Linux install command")))
    (CopyField (windowsCommand origin value) (Some (u "Windows — PowerShell (administrator)"))
       (Some (u "Downloads the executable, registers the service, and enrolls the agent.")) (Some (u "Windows install command"))).
End view.

(** ** Invariants *)

Definition is_minting (f : AgentFlight) : bool := match f with FlyToken => true | _ => false end.

Lemma mints_delete (l : list AgentFlight) i f : l !! i = Some f → is_minting f = false → List.filter is_minting (delete i l) = List.filter is_minting l.
Proof.
  revert i. induction l as [|x l IH]; intros i; [done|]. destruct i as [|i].
  - intros [= ->] Hf. cbn [delete list_delete List.filter]. by rewrite Hf.
  - intros Hi Hf. change (delete (S i) (x :: l)) with (x :: delete i l). cbn [List.filter]. by rewrite IH.
Qed.

Lemma mints_delete_mint (l : list AgentFlight) i : l !! i = Some FlyToken → List.filter is_minting l = [FlyToken] → List.filter is_minting (delete i l) = [].
Proof.
  revert i. induction l as [|x l IH]; intros i; [done|]. destruct i as [|i].
  - intros [= ->]. cbn. by intros [= ->].
  - intros Hi. change (delete (S i) (x :: l)) with (x :: delete i l). cbn [List.filter]. destruct (is_minting x) eqn:Ex; [|by apply IH].
    intros E. destruct x; [done|]. injection E as E. exfalso. assert (In FlyToken (List.filter is_minting l)) as Hin.
    { apply filter_In. split; [|done]. apply list_elem_of_In. by eapply list_elem_of_lookup_2. } by rewrite E in Hin.
Qed.

(** Minting is asked for once at a time; the button spins while it is; the table
    is mounted exactly while there are agents. *)
Definition agents_kept (s : AgentsState) : Prop :=
  List.filter is_minting (gp_flights s) = (if gp_generating s then [FlyToken] else []) ∧ (gp_table s = None ↔ agents_of s = []).

Lemma set_deleting_keeps inst key s : gp_flights (set_deleting inst key s) = gp_flights s ∧ gp_generating (set_deleting inst key s) = gp_generating s ∧
  agents_of (set_deleting inst key s) = agents_of s ∧ (gp_table (set_deleting inst key s) = None ↔ gp_table s = None).
Proof.
  unfold set_deleting. destruct (gp_table s) as [[i k]|] eqn:E; [|by rewrite E]. destruct (i =? inst); [by split_and!|by rewrite E].
Qed.

Lemma agents_invariant engineText canManage s : agents_run engineText canManage s → agents_kept s.
Proof.
  induction 1 as [|s m _ [IH1 IH2] Ho]; [by split|]. destruct m as [| |a|ok|i answer|i answer]; cbn [agents_step] in *.
  - by split.
  - destruct Ho as (_ & _ & Hg). rewrite Hg in IH1. split; [|done]. cbn [agent_send with_token gp_flights gp_generating]. by rewrite List.filter_app, IH1.
  - by split.
  - destruct (gp_asking s) as [[inst a]|]; [|by split]. destruct ok; [|by split].
    destruct (set_deleting_keeps inst (Some (agent_key a)) (with_agasking None s)) as (E1 & E2 & E3 & E4).
    split; cbn [agent_send gp_flights gp_generating gp_table].
    + by rewrite List.filter_app, E1, E2, app_nil_r.
    + change (agents_of (agent_send _ _)) with (agents_of (set_deleting inst (Some (agent_key a)) (with_agasking None s))). by rewrite E3, E4.
  - unfold sync_table. destruct (agents_of (with_agasync _ s)) eqn:E; [split; [exact IH1|split; intros _; [exact E|reflexivity]]|].
    destruct (gp_table (with_agasync _ s)) eqn:Et; [split; [exact IH1|]; rewrite Et, E; by split|].
    split; [exact IH1|]. split; [discriminate|]. intros Ha. exfalso. change (agents_of (with_agasync (async_step engineText (gp_async s) (Settled i answer)) s) = []) in Ha. congruence.
  - destruct (gp_flights s !! i) as [f|] eqn:Ei; [|by split].
    assert (is_minting f = false → List.filter is_minting (delete i (gp_flights s)) = List.filter is_minting (gp_flights s)) as Hd by (by apply mints_delete).
    destruct f as [inst a|]; destruct answer as [|token|err]; cbn [agent_answered]; try done.
    + split.
      * rewrite (proj1 (set_deleting_keeps _ _ _)), (proj1 (proj2 (set_deleting_keeps _ _ _))). cbn [refresh_agents with_agasync agent_landed gp_flights gp_generating]. by rewrite Hd.
      * destruct (set_deleting_keeps inst None (refresh_agents false (agent_landed i (mkCall ToastSuccess (cat [u "Agent “"; ag_hostname a; u "” removed."]) None None) s))) as (_ & _ & -> & ->). done.
    + split.
      * rewrite (proj1 (set_deleting_keeps _ _ _)), (proj1 (proj2 (set_deleting_keeps _ _ _))). cbn [agent_landed gp_flights gp_generating]. by rewrite Hd.
      * destruct (set_deleting_keeps inst None (agent_landed i (failed_agent engineText (u "Could not remove agent") err) s)) as (_ & _ & -> & ->). done.
    + split; [|done]. cbn [with_token agent_landed gp_flights gp_generating]. destruct (gp_generating s); [by apply mints_delete_mint|].
      exfalso. assert (In FlyToken (List.filter is_minting (gp_flights s))) as Hin by (apply filter_In; split; [apply list_elem_of_In; by eapply list_elem_of_lookup_2|done]). by rewrite IH1 in Hin.
    + split; [|done]. cbn [with_token agent_landed gp_flights gp_generating]. destruct (gp_generating s); [by apply mints_delete_mint|].
      exfalso. assert (In FlyToken (List.filter is_minting (gp_flights s))) as Hin by (apply filter_In; split; [apply list_elem_of_In; by eapply list_elem_of_lookup_2|done]). by rewrite IH1 in Hin.
Qed.

(** ** Two removals at once *)

Definition agent_named (id name : String.string) : Agent := mkAgent (IdStr (u id)) (u name) (u "linux") (u "amd64") (u "1") (u "online") [] [].

(** The table marks one row: removing another agent frees the first one's row
    while its removal is out, and a second removal of it is sent. *)
Lemma removed_twice :
  let a := agent_named "a1" "filer" in let b := agent_named "a2" "db" in
  let s := fold_left (agents_step []) [AgRead 0 (inl [a; b]); AgRemove a; AgConfirm true; AgRemove b; AgConfirm true; AgRemove a; AgConfirm true] mountAgents in
  agents_run [] true s ∧ gp_flights s = [FlyDeleteAgent 0 a; FlyDeleteAgent 0 b; FlyDeleteAgent 0 a].
Proof.
  intros a b s. split; [|vm_compute; reflexivity]. unfold s. cbn [fold_left].
  repeat (eapply agents_next; [|shelve]). apply agents_mount. Unshelve.
  all: vm_compute; try done; try (by eexists); split_and!; try done; try (repeat constructor; done); by apply list_elem_of_In; vm_compute; auto.
Qed.
