(* ===== verification/RestoreWizard.v ===== *)
(** * The restore wizard (web/src/components/RestoreWizard.tsx)

    The dialog that starts a restore: its fields, the effects that reset it on
    opening and keep the VMID in step with the mode, the suggestions and
    requests under way, and what it sends. *)
From Stdlib Require Import QArith.
From S2P Require Import Prelude JsString JsNumber JsValue Json Transport Targets Format Runs Backups Inventory Endpoints.
#[local] Open Scope Z_scope.

(** ** State *)

Record Form := mkFields {
  f_mode : RestoreMode;
  f_hostId : jsstr;
  f_node : jsstr;
  f_vmid : jsstr;
  f_storage : jsstr;
  f_agentId : jsstr;
  f_destPath : jsstr;
  f_confirmName : jsstr;
}.

(** The VMID suggestions that have not been answered, by the host each asked
    about, and what the form shows of them. *)
Record Suggest := mkSuggest { sg_pending : list jsstr; sg_suggesting : bool; sg_error : option jsstr }.

(** The restores sent and not answered, and what the form shows of them. *)
Record Save := mkSave { sv_pending : list RestoreRequest; sv_submitting : bool; sv_error : option jsstr }.

(** The inventory the page passes. *)
Record Estate := mkEstate { es_hosts : list Host; es_agents : list Agent; es_vms : list CachedVM }.

(** [r_backup] is the point being restored, when the dialog is open; [r_left] is
    set once the console navigated away. *)
Record Restore := mkWizardState {
  r_estate : Estate;
  r_backup : option Backup;
  r_step : Z;
  r_form : Form;
  r_suggest : Suggest;
  r_save : Save;
  r_left : bool;
}.

Inductive StepName := StepMode | StepDestination | StepReview.

#[export] Instance StepName_eq_dec : EqDecision StepName.
Proof. solve_decision. Defined.

(** ** What the dialog computes *)

Definition is_vm (b : Backup) : bool := bool_decide (b_sourceKind b = SourceVm).
Definition isVM (r : Restore) : bool := match r_backup r with Some b => is_vm b | None => false end.

(** One disk, named [vma]. *)
Definition isVma (r : Restore) : bool :=
  isVM r && match r_backup r with
            | Some b => match b_disks b with [d] => str_eqb d.1 (u "vma") | _ => false end
            | None => false
            end.

Definition steps (r : Restore) : list StepName :=
  if isVM r then [StepMode; StepDestination; StepReview] else [StepDestination; StepReview].

Definition currentStep (r : Restore) : option StepName := if r_step r <? 0 then None else steps r !! Z.to_nat (r_step r).

(** The machine a point came from, in the cached inventory. *)
Definition source (vms : list CachedVM) (b : Backup) : option CachedVM :=
  if negb (is_vm b) then None else
  match sourceVMID (Some (b_sourceId b)) with
  | None => None
  | Some vmid =>
      match List.find (λ vm, neqb (vm_vmid vm) vmid
              && match b_hostId b with Some h => str_eqb (id_text (vm_hostId vm)) (id_text h) | None => true end) vms with
      | Some vm => Some vm
      | None => List.find (λ vm, neqb (vm_vmid vm) vmid) vms
      end
  end.

(** The machine an overwrite would destroy. *)
Definition destinationVM (r : Restore) : option CachedVM :=
  if negb (isVM r) then None else
  let target := num_of_str (f_vmid (r_form r)) in
  if negb (isInteger target) then None
  else List.find (λ vm, str_eqb (id_text (vm_hostId vm)) (f_hostId (r_form r)) && neqb (vm_vmid vm) target)
         (es_vms (r_estate r)).

Definition overwrite (r : Restore) : bool := isVM r && bool_decide (f_mode (r_form r) = Overwrite).

Definition expectedName (r : Restore) : jsstr := match destinationVM r with Some vm => vm_name vm | None => [] end.

Definition confirmSatisfied (r : Restore) : bool :=
  let typed := trim (f_confirmName (r_form r)) in
  negb (overwrite r)
  || (negb (str_eqb typed []) && (str_eqb (expectedName r) [] || str_eqb typed (expectedName r))).

Definition destinationValid (r : Restore) : bool :=
  let f := r_form r in
  if isVM r
  then negb (str_eqb (f_hostId f) []) && non_blank (f_node f)
       && isInteger (num_of_str (f_vmid f)) && nlt (of_Z 0) (num_of_str (f_vmid f))
  else negb (str_eqb (f_agentId f) []) && non_blank (f_destPath f).

Definition restoreStepValid (r : Restore) (name : option StepName) : bool :=
  if decide (name = Some StepMode) then true else destinationValid r && confirmSatisfied r.

Definition restorePayload (r : Restore) (b : Backup) : RestoreRequest :=
  let f := r_form r in
  if isVM r then
    mkRestore (b_id b) (f_mode f)
      (Some (mkVMTarget (IdStr (f_hostId f)) (trim (f_node f)) (num_of_str (f_vmid f))
        (if isVma r && non_blank (f_storage f) then Some (trim (f_storage f)) else None)))
      None (if overwrite r then Some (trim (f_confirmName f)) else None)
  else
    mkRestore (b_id b) Alongside None (Some (mkAgentTarget (IdStr (f_agentId f)) (trim (f_destPath f)))) None.

(** ** Effects *)

Definition with_form (f : Form) (r : Restore) : Restore :=
  mkWizardState (r_estate r) (r_backup r) (r_step r) f (r_suggest r) (r_save r) (r_left r).

Definition set_rmode (m : RestoreMode) (f : Form) : Form :=
  mkFields m (f_hostId f) (f_node f) (f_vmid f) (f_storage f) (f_agentId f) (f_destPath f) (f_confirmName f).
Definition set_host (t : jsstr) (f : Form) : Form :=
  mkFields (f_mode f) t (f_node f) (f_vmid f) (f_storage f) (f_agentId f) (f_destPath f) (f_confirmName f).
Definition set_node (t : jsstr) (f : Form) : Form :=
  mkFields (f_mode f) (f_hostId f) t (f_vmid f) (f_storage f) (f_agentId f) (f_destPath f) (f_confirmName f).
Definition set_vmid (t : jsstr) (f : Form) : Form :=
  mkFields (f_mode f) (f_hostId f) (f_node f) t (f_storage f) (f_agentId f) (f_destPath f) (f_confirmName f).
Definition set_storage (t : jsstr) (f : Form) : Form :=
  mkFields (f_mode f) (f_hostId f) (f_node f) (f_vmid f) t (f_agentId f) (f_destPath f) (f_confirmName f).
Definition set_agentId (t : jsstr) (f : Form) : Form :=
  mkFields (f_mode f) (f_hostId f) (f_node f) (f_vmid f) (f_storage f) t (f_destPath f) (f_confirmName f).
Definition set_destPath (t : jsstr) (f : Form) : Form :=
  mkFields (f_mode f) (f_hostId f) (f_node f) (f_vmid f) (f_storage f) (f_agentId f) t (f_confirmName f).
Definition set_confirm (t : jsstr) (f : Form) : Form :=
  mkFields (f_mode f) (f_hostId f) (f_node f) (f_vmid f) (f_storage f) (f_agentId f) (f_destPath f) t.

(** [backup.node ?? source?.node ?? '']. *)
Definition nodeOf (vms : list CachedVM) (b : Backup) : jsstr :=
  match b_node b with
  | Some n => n
  | None => match source vms b with Some vm => vm_node vm | None => [] end
  end.

(** [String(source?.vmid ?? sourceVMID(backup.sourceId) ?? '')]. *)
Definition vmidOf (vms : list CachedVM) (b : Backup) : jsstr :=
  match source vms b with
  | Some vm => str_of_num (vm_vmid vm)
  | None => match sourceVMID (Some (b_sourceId b)) with Some n => str_of_num n | None => [] end
  end.

Definition hostOf (e : Estate) (b : Backup) : jsstr :=
  match b_hostId b with
  | Some h => id_text h
  | None =>
      match source (es_vms e) b with
      | Some vm => id_text (vm_hostId vm)
      | None => match es_hosts e with h :: _ => id_text (ho_id h) | [] => [] end
      end
  end.

Definition agentOf (e : Estate) (b : Backup) : jsstr :=
  match List.find (λ a, str_eqb (id_text (ag_id a)) (id_text (b_sourceId b))) (es_agents e) with
  | Some a => id_text (ag_id a)
  | None => match es_agents e with a :: _ => id_text (ag_id a) | [] => [] end
  end.

(** The reset on [backup]. *)
Definition resetEffect (r : Restore) (b : Backup) : Restore :=
  let f := set_storage [] (set_confirm [] (set_rmode Alongside (r_form r))) in
  let f := if is_vm b
           then set_vmid [] (set_node (nodeOf (es_vms (r_estate r)) b) (set_host (hostOf (r_estate r) b) f))
           else set_destPath [] (set_agentId (agentOf (r_estate r) b) f) in
  mkWizardState (r_estate r) (r_backup r) 0 f
    (mkSuggest (sg_pending (r_suggest r)) (sg_suggesting (r_suggest r)) None)
    (mkSave (sv_pending (r_save r)) false None) (r_left r).

(** [suggestVmid] of a render whose host is [host]. *)
Definition suggestVmid (host : jsstr) (r : Restore) : Restore :=
  if str_eqb host [] then r
  else mkWizardState (r_estate r) (r_backup r) (r_step r) (r_form r)
         (mkSuggest (sg_pending (r_suggest r) ++ [host]) true None) (r_save r) (r_left r).

(** The effect on [backup], [isVM], [mode], [source] and [suggestVmid]: it reads
    the render's values, [seen], and writes to the current state. *)
Definition vmidEffect (seen r : Restore) : Restore :=
  match r_backup seen with
  | None => r
  | Some b =>
      if negb (is_vm b) then r
      else if decide (f_mode (r_form seen) = Overwrite) then
        with_form (set_node (nodeOf (es_vms (r_estate seen)) b) (set_vmid (vmidOf (es_vms (r_estate seen)) b) (r_form r))) r
      else suggestVmid (f_hostId (r_form seen)) (with_form (set_confirm [] (r_form r)) r)
  end.

(** A render after [mode] or the host may have changed since [before]. *)
Definition rerender (before r : Restore) : Restore :=
  if decide (f_mode (r_form before) = f_mode (r_form r) ∧ f_hostId (r_form before) = f_hostId (r_form r))
  then r else vmidEffect r r.

(** ** Operations *)

Inductive RestoreMsg :=
  (** The page: fresh data, opening the dialog on a point, closing it. *)
  | RRefresh (e : Estate)
  | ROpen (b : Backup)
  | RClose
  | RBack
  | RContinue
  | PickMode (m : RestoreMode)
  | PickHost (t : jsstr)
  | TypeNode (t : jsstr)
  | TypeVmid (t : jsstr)
  | SuggestAgain
  | TypeStorage (t : jsstr)
  | TypeConfirm (t : jsstr)
  | PickRestoreAgent (t : jsstr)
  | TypeDestPath (t : jsstr)
  | RSubmit
  (** The answer to one of the requests under way. *)
  | Suggested (i : nat) (vmid : num)
  | SuggestFailed (i : nat) (err : Thrown)
  | Started (i : nat)
  | StartFailed (i : nat) (err : Thrown).

Section restore.
(** How the engine words its own exceptions. *)
Context (engineText : jsstr).

Definition last_step (r : Restore) : Z := Z.of_nat (length (steps r)) - 1.

Definition restore_offered (r : Restore) (msg : RestoreMsg) : bool :=
  let open := negb (is_none (r_backup r)) in
  let at_step name := open && bool_decide (currentStep r = Some name) in
  let submitting := sv_submitting (r_save r) in
  negb (r_left r) &&
  match msg with
  | RRefresh _ => true
  | ROpen _ => negb open
  | RClose => open
  | RBack => open && negb (r_step r =? 0) && negb submitting
  | RContinue => open && negb (r_step r =? last_step r) && restoreStepValid r (currentStep r)
  | PickMode _ => at_step StepMode
  | PickHost t => at_step StepDestination && isVM r
      && (str_eqb t [] || existsb (λ h, str_eqb (id_text (ho_id h)) t) (es_hosts (r_estate r)))
  | TypeNode _ | TypeVmid _ => at_step StepDestination && isVM r
  | SuggestAgain => at_step StepDestination && isVM r && negb (overwrite r) && negb (sg_suggesting (r_suggest r))
  | TypeStorage _ => at_step StepDestination && isVma r
  | TypeConfirm _ => at_step StepDestination && overwrite r
  | PickRestoreAgent t => at_step StepDestination && negb (isVM r)
      && (str_eqb t [] || existsb (λ a, str_eqb (id_text (ag_id a)) t) (es_agents (r_estate r)))
  | TypeDestPath _ => at_step StepDestination && negb (isVM r)
  | RSubmit => open && (r_step r =? last_step r) && restoreStepValid r (currentStep r) && negb submitting
  | Suggested i _ | SuggestFailed i _ => negb (is_none (sg_pending (r_suggest r) !! i))
  | Started i | StartFailed i _ => negb (is_none (sv_pending (r_save r) !! i))
  end.

Definition goto_step (step : Z) (r : Restore) : Restore :=
  mkWizardState (r_estate r) (r_backup r) step (r_form r) (r_suggest r) (r_save r) (r_left r).

Definition with_save (s : Save) (r : Restore) : Restore :=
  mkWizardState (r_estate r) (r_backup r) (r_step r) (r_form r) (r_suggest r) s (r_left r).

Definition with_suggest (s : Suggest) (r : Restore) : Restore :=
  mkWizardState (r_estate r) (r_backup r) (r_step r) (r_form r) s (r_save r) (r_left r).

Definition with_backup (b : option Backup) (r : Restore) : Restore :=
  mkWizardState (r_estate r) b (r_step r) (r_form r) (r_suggest r) (r_save r) (r_left r).

Definition submitRestore (r : Restore) : Restore :=
  match r_backup r with
  | None => r
  | Some b =>
      let fail message := with_save (mkSave (sv_pending (r_save r)) (sv_submitting (r_save r)) (Some message)) r in
      if negb (destinationValid r) then
        fail (if isVM r then u "Choose a host, a node, and a numeric VMID for the restored machine."
              else u "Choose an agent and a destination path.")
      else if overwrite r && negb (confirmSatisfied r) then
        fail (u "Type the destination machine’s current name to confirm the overwrite.")
      else with_save (mkSave (sv_pending (r_save r) ++ [restorePayload r b]) true None) r
  end.

(** An inventory with new rows is a new [source], unless there is none. *)
Definition source_changes (r r' : Restore) : bool :=
  match r_backup r with
  | Some b => negb (is_none (source (es_vms (r_estate r)) b) && is_none (source (es_vms (r_estate r')) b))
  | None => false
  end.

Definition restore_update (r : Restore) (msg : RestoreMsg) : Restore :=
  let edit f := with_form (f (r_form r)) r in
  let sg := r_suggest r in
  let sv := r_save r in
  match msg with
  | RRefresh e =>
      let r' := mkWizardState e (r_backup r) (r_step r) (r_form r) sg sv (r_left r) in
      if source_changes r r' then vmidEffect r' r' else r'
  | ROpen b =>
      let seen := with_backup (Some b) r in
      rerender seen (vmidEffect seen (resetEffect seen b))
  | RClose => with_backup None r
  | RBack => goto_step (Z.max 0 (r_step r - 1)) r
  | RContinue => goto_step (Z.min (last_step r) (r_step r + 1)) r
  | PickMode m => rerender r (edit (set_rmode m))
  | PickHost t => rerender r (edit (set_host t))
  | TypeNode t => edit (set_node t)
  | TypeVmid t => edit (set_vmid t)
  | SuggestAgain => suggestVmid (f_hostId (r_form r)) r
  | TypeStorage t => edit (set_storage t)
  | TypeConfirm t => edit (set_confirm t)
  | PickRestoreAgent t => edit (set_agentId t)
  | TypeDestPath t => edit (set_destPath t)
  | RSubmit => submitRestore r
  | Suggested i vmid =>
      with_suggest (mkSuggest (delete i (sg_pending sg)) false (sg_error sg)) (edit (set_vmid (str_of_num vmid)))
  | SuggestFailed i err =>
      with_suggest (mkSuggest (delete i (sg_pending sg)) false (Some (errorMessage engineText err))) r
  | Started i =>
      mkWizardState (r_estate r) None (r_step r) (r_form r) sg (mkSave (delete i (sv_pending sv)) false (sv_error sv)) true
  | StartFailed i err =>
      with_save (mkSave (delete i (sv_pending sv)) false (Some (errorMessage engineText err))) r
  end.

(** The page opened, with no dialog. *)
Definition mountRestore (e : Estate) : Restore :=
  mkWizardState e None 0 (mkFields Alongside [] [] [] [] [] [] []) (mkSuggest [] false None) (mkSave [] false None) false.

Inductive restore_run (e : Estate) : Restore → Prop :=
  | restore_mount : restore_run e (mountRestore e)
  | restore_step r msg : restore_run e r → restore_offered r msg = true → restore_run e (restore_update r msg).

Fixpoint restore_perform (r : Restore) (msgs : list RestoreMsg) : option Restore :=
  match msgs with
  | [] => Some r
  | m :: ms => if restore_offered r m then restore_perform (restore_update r m) ms else None
  end.
End restore.

(** ** The mode *)

Definition is_overwrite_pick (msg : RestoreMsg) : bool :=
  match msg with PickMode m => bool_decide (m = Overwrite) | _ => false end.

Lemma suggestVmid_form host r : r_form (suggestVmid host r) = r_form r.
Proof. unfold suggestVmid. by case_on_goal. Qed.

Lemma vmidEffect_mode seen r : f_mode (r_form (vmidEffect seen r)) = f_mode (r_form r).
Proof.
  unfold vmidEffect. destruct (r_backup seen); [|done]. case_on_goal; [done|]. case_on_goal; [done|].
  by rewrite suggestVmid_form.
Qed.

Lemma rerender_mode before r : f_mode (r_form (rerender before r)) = f_mode (r_form r).
Proof. unfold rerender. case_on_goal; [done|]. apply vmidEffect_mode. Qed.

Lemma open_mode engineText r b : f_mode (r_form (restore_update engineText r (ROpen b))) = Alongside.
Proof.
  cbn [restore_update]. rewrite rerender_mode, vmidEffect_mode. unfold resetEffect. cbn [r_form].
  by destruct (is_vm b).
Qed.

Lemma update_mode engineText r msg : f_mode (r_form r) = Alongside → is_overwrite_pick msg = false →
  f_mode (r_form (restore_update engineText r msg)) = Alongside.
Proof.
  intros Hm Hp. destruct msg; try exact Hm.
  - cbn [restore_update]. case_on_goal; [|exact Hm]. by rewrite vmidEffect_mode.
  - apply open_mode.
  - cbn [restore_update]. rewrite rerender_mode. cbn. destruct m; [done|discriminate Hp].
  - cbn [restore_update]. by rewrite rerender_mode.
  - cbn [restore_update]. by rewrite suggestVmid_form.
  - cbn [restore_update]. unfold submitRestore. repeat case_on_goal; exact Hm.
Qed.

Lemma suggestVmid_save host r : r_save (suggestVmid host r) = r_save r.
Proof. unfold suggestVmid. by case_on_goal. Qed.

Lemma vmidEffect_save seen r : r_save (vmidEffect seen r) = r_save r.
Proof.
  unfold vmidEffect. destruct (r_backup seen); [|done]. case_on_goal; [done|]. case_on_goal; [done|].
  by rewrite suggestVmid_save.
Qed.

Lemma rerender_save before r : r_save (rerender before r) = r_save r.
Proof. unfold rerender. case_on_goal; [done|]. apply vmidEffect_save. Qed.

(** Only pressing the button asks the server for a restore. *)
Lemma update_pending engineText r msg p : p ∈ sv_pending (r_save (restore_update engineText r msg)) →
  p ∈ sv_pending (r_save r) ∨ ∃ b, r_backup r = Some b ∧ p = restorePayload r b.
Proof.
  destruct msg; cbn [restore_update]; rewrite ?rerender_save, ?vmidEffect_save, ?suggestVmid_save; auto.
  - case_on_goal; rewrite ?vmidEffect_save; auto.
  - unfold submitRestore. destruct (r_backup r) as [b|]; [|auto]. repeat case_on_goal; auto.
    cbn [with_save r_save sv_pending]. rewrite elem_of_app, list_elem_of_singleton. intros [?| ->]; eauto.
  - cbn [r_save sv_pending]. intros H. left. by eapply list_elem_of_delete_inv.
  - cbn [with_save r_save sv_pending]. intros H. left. by eapply list_elem_of_delete_inv.
Qed.

Lemma payload_mode r b : rr_mode (restorePayload r b) = Overwrite ↔ overwrite r = true.
Proof.
  unfold restorePayload, overwrite. destruct (isVM r); cbn [rr_mode andb]; [|done].
  by rewrite bool_decide_eq_true.
Qed.

(** C39: overwriting is never preselected: from the moment the dialog opens on a
    point, whatever it did before and whatever answers arrive, every restore it
    asks for runs alongside until the operator picks Overwrite. *)
Theorem never_preselected engineText r b msgs r' :
  Forall (λ m, is_overwrite_pick m = false) msgs →
  restore_perform engineText (restore_update engineText r (ROpen b)) msgs = Some r' →
  f_mode (r_form r') = Alongside
  ∧ ∀ p, p ∈ sv_pending (r_save r') → p ∈ sv_pending (r_save r) ∨ rr_mode p = Alongside.
Proof.
  intros Hm. pose proof (open_mode engineText r b) as Hmode.
  assert (Hp : ∀ p, p ∈ sv_pending (r_save (restore_update engineText r (ROpen b))) →
    p ∈ sv_pending (r_save r) ∨ rr_mode p = Alongside).
  { intros p. cbn [restore_update]. rewrite rerender_save, vmidEffect_save. by left. }
  revert Hmode Hp. generalize (restore_update engineText r (ROpen b)). intros r0 Hmode Hp.
  revert r0 Hmode Hp. induction Hm as [|m ms Hm _ IH]; intros r0 Hmode Hp; cbn [restore_perform]; [by intros [= <-]|].
  destruct (restore_offered r0 m) eqn:E; [|done]. apply IH; [by apply update_mode|].
  intros p [H|(b' & Hb & ->)]%update_pending; [auto|]. right.
  destruct (rr_mode (restorePayload r0 b')) eqn:Er; [done|]. apply payload_mode in Er. unfold overwrite in Er.
  rewrite Hmode in Er. by rewrite andb_false_r in Er.
Qed.

(** ** What is sent *)

(** The listed machine an overwrite destroys. *)
Definition destroys (e : Estate) (p : RestoreRequest) (vm : CachedVM) : Prop :=
  ∃ t, rr_vm p = Some t ∧ vm ∈ es_vms e
    ∧ id_text (vm_hostId vm) = id_text (rv_hostId t) ∧ neqb (vm_vmid vm) (rv_vmid t) = true.

Lemma find_unique {A} (f : A → bool) l x : x ∈ l → f x = true → (∀ y, y ∈ l → f y = true → y = x) → List.find f l = Some x.
Proof.
  intros Hx Hf Hu. destruct (List.find f l) as [y|] eqn:E.
  - apply List.find_some in E as [Hy E]. f_equal. apply Hu; [by apply list_elem_of_In|done].
  - by rewrite (List.find_none _ _ E x (proj1 (list_elem_of_In _ _) Hx)) in Hf.
Qed.

Lemma last_step_review r : r_step r = last_step r → currentStep r = Some StepReview.
Proof.
  intros E. unfold currentStep, last_step, steps in *. rewrite E. by destruct (isVM r).
Qed.

(** What the last button checks. *)
Lemma submit_checks r : restore_offered r RSubmit = true → destinationValid r = true ∧ confirmSatisfied r = true.
Proof.
  unfold restore_offered. cbv beta iota zeta. rewrite !andb_true_iff. intros [_ [[[_ Hl] Hv] _]]. apply Z.eqb_eq in Hl.
  rewrite last_step_review in Hv by done.
  unfold restoreStepValid in Hv. rewrite decide_False in Hv by discriminate. by b2p.
Qed.


(** The confirmation of an overwrite. *)
Lemma confirmed_name r b : overwrite r = true → confirmSatisfied r = true → destinationValid r = true →
  let p := restorePayload r b in
  ∃ name, rr_confirmName p = Some name ∧ name ≠ [] ∧ trim name = name
    ∧ ∀ vm, destroys (r_estate r) p vm → vm_name vm ≠ [] →
        (∀ vm', destroys (r_estate r) p vm' → vm' = vm) → name = vm_name vm.
Proof.
  intros Ho Hc Hd p. unfold confirmSatisfied in Hc. rewrite Ho in Hc. cbn [negb orb] in Hc.
  apply andb_true_iff in Hc as [Hne Hexp]. b2p. apply str_eqb_false in Hne.
  assert (Hv : isVM r = true) by (unfold overwrite in Ho; by b2p).
  unfold destinationValid in Hd. rewrite Hv, !andb_true_iff in Hd. destruct Hd as [[[_ _] Hint] _].
  exists (trim (f_confirmName (r_form r))). unfold p, restorePayload. rewrite Hv, Ho. cbn [rr_confirmName].
  split_and!; [done|done|apply trim_idem|]. intros vm (t & [= <-] & Hin & Hh & Hn) Hname Hu.
  cbn [rv_hostId rv_vmid id_text] in *.
  assert (E : destinationVM r = Some vm).
  { unfold destinationVM. rewrite Hv, Hint. cbn [negb]. apply find_unique; [done| |].
    - by rewrite (proj2 (str_eqb_true _ _) Hh).
    - intros vm' Hin' Hf. b2p. apply Hu. eexists. split; [done|]. cbn [rv_hostId rv_vmid id_text].
      split_and!; [done|by apply str_eqb_true|done]. }
  unfold expectedName in Hexp. rewrite E in Hexp. destruct Hexp as [H'|H']; by apply str_eqb_true in H'.
Qed.


(** ** Races

    Two findings about the suggestions, on concrete sessions. *)

Definition sample_host : Host := mkHost (IdStr (u "h1")) (u "pve") [] [] false (u "ok") None.

Definition sample_guest : CachedVM :=
  mkVM (of_Z 101) (u "db-01") (u "node-1") (u "running") (VNum (of_Z 0)) (VNum (of_Z 0)) (VNum (of_Z 0)) (VArr [])
    (IdStr (u "h1")) (u "pve").

Definition sample_estate : Estate := mkEstate [sample_host] [] [sample_guest].

Definition restore_after (msgs : list RestoreMsg) : Restore :=
  match restore_perform [] (mountRestore sample_estate) msgs with
  | Some r => r
  | None => mountRestore sample_estate
  end.

Definition overwrite_session : list RestoreMsg :=
  [ROpen (sample_point 1 0 Full); PickMode Overwrite; RContinue; TypeConfirm (u "db-01"); RContinue].

(** The suggestion asked for on opening answers after the overwrite was
    confirmed: the VMID becomes the suggested one, and the dialog still offers
    to overwrite, now another VMID under the name typed for the first. *)
Lemma late_suggestion :
  let r := restore_after (overwrite_session ++ [Suggested 0 (of_Z 150)]) in
  restore_offered r RSubmit = true
  ∧ restorePayload r (sample_point 1 0 Full)
    = mkRestore (IdNum (of_Z 1)) Overwrite (Some (mkVMTarget (IdStr (u "h1")) (u "node-1") (of_Z 150) None)) None
        (Some (u "db-01")).
Proof. split; vm_compute; reflexivity. Qed.

(** A dialog closed in overwrite mode and opened again starts alongside, but
    with the original machine's VMID; if the suggestion then fails it stays. *)
Lemma alongside_on_original :
  let r := restore_after [ROpen (sample_point 1 0 Full); Suggested 0 (of_Z 150); PickMode Overwrite; RClose;
             ROpen (sample_point 2 1 Incremental); SuggestFailed 0 (ThrownError (u "down")); RContinue; RContinue] in
  restore_offered r RSubmit = true
  ∧ restorePayload r (sample_point 2 1 Incremental)
    = mkRestore (IdNum (of_Z 2)) Alongside (Some (mkVMTarget (IdStr (u "h1")) (u "node-1") (of_Z 101) None)) None None.
Proof. split; vm_compute; reflexivity. Qed.

(** ** Witnesses *)


Lemma never_preselected_witness :
  let r0 := restore_after (overwrite_session ++ [RClose]) in
  let b := sample_point 2 1 Incremental in
  let msgs := [Suggested 0 (of_Z 150); RContinue; RContinue; RSubmit] in
  ∃ r', restore_perform [] (restore_update [] r0 (ROpen b)) msgs = Some r'
    ∧ f_mode (r_form r') = Alongside.
Proof.
  intros r0 b msgs. destruct (restore_perform [] (restore_update [] r0 (ROpen b)) msgs) as [r'|] eqn:H.
  - exists r'. split; [reflexivity|]. refine (proj1 (never_preselected [] r0 b msgs r' _ H)). repeat constructor.
  - exfalso. assert (E : is_none (restore_perform [] (restore_update [] r0 (ROpen b)) msgs) = false) by (vm_compute; reflexivity).
    rewrite H in E. discriminate E.
Defined.
