(* ===== verification/RestoreView.v ===== *)
(** * What the restore wizard shows (web/src/components/RestoreWizard.tsx)

    The title line, the step rail, the mode tiles, the destination step and the
    review, as functions of the dialog's state; and that the review tells the
    destructive restore apart. *)
From S2P Require Import Prelude JsString JsNumber JsValue Json Transport Targets Format Runs Backups Inventory Endpoints RestoreWizard.

(** ** Modes *)

Record ModeTileView := mkModeTile {
  mt_title : jsstr; mt_description : jsstr; mt_selected : bool; mt_destructive : bool; mt_pill : jsstr;
}.

Definition modeTitle (m : RestoreMode) : jsstr :=
  match m with Alongside => u "Restore alongside" | Overwrite => u "Overwrite original" end.

Definition modeDescription (m : RestoreMode) : jsstr :=
  match m with
  | Alongside => u "Creates a new machine on a free VMID. Nothing that exists today is touched. Recommended."
  | Overwrite => u "Destroys the disks of the destination machine and replaces them with this restore point."
  end.

Definition MODES : list RestoreMode := [Alongside; Overwrite].

Definition ModeTile (option : RestoreMode) (selected : bool) : ModeTileView :=
  let destructive := bool_decide (option = Overwrite) in
  mkModeTile (modeTitle option) (modeDescription option) selected destructive
    (if destructive then u "Destructive" else u "Recommended").

Definition modeTiles (r : Restore) : list ModeTileView :=
  map (λ m, ModeTile m (bool_decide (f_mode (r_form r) = m))) MODES.

(** ** The step rail *)

Definition step_label (s : StepName) : jsstr :=
  match s with StepMode => u "Mode" | StepDestination => u "Destination" | StepReview => u "Review" end.

(** Label, whether it is the current step, and the number or, when done, none. *)
Definition restoreRail (r : Restore) : list (jsstr * bool * option jsstr) :=
  imap (λ i s, let i := Z.of_nat i in
    (step_label s, i =? r_step r, if i <? r_step r then None else Some (str_of_Z (i + 1)))) (steps r).

Section view.
Context (Math_log : num → num).
Context (Date_parse : jsstr → option Z) (localeDate localeDateTime : Z → jsstr).

Definition pointWorkload (b : Backup) : WorkloadRef :=
  mkWorkload (b_hostName b) (b_sourceName b) (if is_vm b then sourceVMID (Some (b_sourceId b)) else None) (b_node b).

Definition kind_label (k : BackupKind) : jsstr := match k with Full => u "full" | Incremental => u "incremental" end.

Definition formatDateTime (value : option jsstr) : jsstr := formatDate Date_parse localeDateTime value.

Definition restoreSubtitle (b : Backup) : jsstr :=
  cat [identityText (pointWorkload b); u " — "; kind_label (b_kind b); u " point from "; formatDateTime (Some (b_createdAt b))].

(** ** Destination *)

Definition hostName (r : Restore) : jsstr :=
  match List.find (λ h, str_eqb (id_text (ho_id h)) (f_hostId (r_form r))) (es_hosts (r_estate r)) with
  | Some h => ho_name h
  | None => []
  end.

Definition restoreAgent (r : Restore) : option Agent :=
  List.find (λ a, str_eqb (id_text (ag_id a)) (f_agentId (r_form r))) (es_agents (r_estate r)).

Definition hostOptions (r : Restore) : list (jsstr * jsstr) :=
  ([], u "Select a host…") :: map (λ h, (id_text (ho_id h), ho_name h)) (es_hosts (r_estate r)).

Definition agentOptions (r : Restore) : list (jsstr * jsstr) :=
  ([], u "Select an agent…")
  :: map (λ a, (id_text (ag_id a), cat [ag_hostname a; u " — "; ag_os a; u "/"; ag_arch a; u " ("; ag_status a; u ")"]))
       (es_agents (r_estate r)).

Definition vmidError (r : Restore) : option jsstr :=
  if overwrite r then None
  else (λ e, cat [u "Could not ask the server for a free VMID: "; e]) <$> present (sg_error (r_suggest r)).

Definition vmidHint (r : Restore) : jsstr :=
  if overwrite r
  then cat [u "Overwriting targets VMID "; or_str (f_vmid (r_form r)) (u "—"); u " on ";
            or_str (f_node (r_form r)) (u "the selected node"); u "."]
  else u "Prefilled with the next free VMID on this cluster, so the restored machine cannot collide with a running one.".

(** The warning of an overwrite, what the name field suggests, and whether what
    was typed is marked invalid. *)
Definition overwritePanel (r : Restore) : option (jsstr * jsstr * bool) :=
  if negb (overwrite r) then None else
  Some (match destinationVM r with
        | Some vm => cat [u "VMID "; str_of_num (vm_vmid vm); u " on "; or_str (hostName r) (u "this cluster");
                          u " is currently "; vm_name vm; u ". Type that name to confirm."]
        | None => u "This VMID is not in the cached inventory. Type the destination machine’s current name exactly — the server refuses the restore if it does not match."
        end,
        match destinationVM r with Some vm => vm_name vm | None => u "current name" end,
        negb (str_eqb (f_confirmName (r_form r)) []) && negb (confirmSatisfied r)).

(** ** The review *)

Definition verificationRow (b : Backup) (now : Z) : list jsstr :=
  match present (b_lastVerifiedAt b) with
  | Some t => [if bool_decide (b_lastVerifyResult b = Some VerifyFailed)
               then u "Integrity check failed" else u "Integrity verified";
               formatRelative Date_parse localeDate (Some t) now]
  | None => [u "Never verified — this point has not been read back from the target."]
  end.

Definition modeRow (r : Restore) : jsstr :=
  if overwrite r then u "Overwrite original — the destination machine’s disks are destroyed"
  else u "Restore alongside — nothing existing is touched".

Definition destinationRow (r : Restore) : list jsstr :=
  let f := r_form r in
  if isVM r then
    cat [or_str (hostName r) (u "—"); u " / VMID "; or_str (f_vmid f) (u "—"); u " / "; or_str (f_node f) (u "—")]
    :: (if non_blank (f_storage f) then [cat [u "storage "; trim (f_storage f)]] else [])
  else [match restoreAgent r with Some a => ag_hostname a | None => u "—" end; or_str (f_destPath f) (u "—")].

Definition readBackRow (target : option Target) : list jsstr :=
  match target with
  | Some t => [tg_name t; TARGET_KIND_SHORT (tg_kind t); targetLocation t]
  | None => [u "The target this point was written to is no longer configured."]
  end.

Definition restoreReview (r : Restore) (b : Backup) (target : option Target) (now : Z) : list (jsstr * list jsstr) :=
  [ (u "Restore point", [cat [formatDateTime (Some (b_createdAt b)); u " · "; kind_label (b_kind b)];
                         formatRelative Date_parse localeDate (Some (b_createdAt b)) now]);
    (u "Source", [identityText (pointWorkload b)]);
    (u "Last verification", verificationRow b now);
    (u "Mode", [modeRow r]);
    (u "Destination", destinationRow r);
    (u "Read back from", readBackRow target);
    (u "Estimated transfer",
       [formatBytes Math_log (VNum (b_sizeBytes b)) 1;
        cat [u "full size of this point, read back from the target";
             match target with Some t => if isOffsite (tg_kind t) then u " over the internet" else [] | None => [] end]]) ].

(** The line under the review of an overwrite, and the label of the button. *)
Definition overwriteNote (r : Restore) : option jsstr :=
  if negb (overwrite r) then None
  else Some (if confirmSatisfied r then cat [u "Confirmed: "; trim (f_confirmName (r_form r)); u " will be overwritten."]
             else u "Type the destination machine’s current name on the previous step to continue.").

Definition submitLabel (r : Restore) : jsstr :=
  if overwrite r then u "Overwrite and restore" else u "Start restore".

(** ** Properties *)

(** The destructive wording appears exactly when the request would overwrite. *)
Lemma destructive_wording r b :
  (rr_mode (restorePayload r b) = Overwrite ↔ submitLabel r = u "Overwrite and restore")
  ∧ (rr_mode (restorePayload r b) = Overwrite ↔ modeRow r = u "Overwrite original — the destination machine’s disks are destroyed")
  ∧ (rr_mode (restorePayload r b) = Overwrite ↔ overwriteNote r ≠ None).
Proof.
  rewrite payload_mode. unfold submitLabel, modeRow, overwriteNote. destruct (overwrite r); cbn [negb].
  - split_and!; (split; [intros _; (reflexivity || discriminate)|intros _; reflexivity]).
  - split_and!; (split; [discriminate|intros H]); [vm_compute in H; discriminate H..|by destruct H].
Qed.
End view.
