(* ===== verification/Browse.v ===== *)
(** * Browsing the files of a restore point (web/src/components/FileBrowser.tsx)

    The dialog that lists what is in a restore point and hands back single files,
    with the server's index (ServerBrowse) behind it.  Listings are asked for by a
    timer that every change of the folder or of the search sets again; the ones
    overtaken are given up.  The Retry of a failed listing is never given up,
    which is where another machine's files can come from. *)
From S2P Require Import Prelude JsString JsNumber JsValue GoString ServerSchedule ServerPosture Transport Format Backups Inventory Endpoints Widgets Protection ServerBrowse RestoreView.

Record BackupEntry := mkFile { en_name : jsstr; en_path : jsstr; en_size : jsval; en_dir : bool; en_link : option jsstr }.
Record BackupListing := mkBackupListing { ls_path : jsstr; ls_entries : list BackupEntry; ls_truncated : bool }.

(** ** What is drawn *)

Definition TEXTUAL : list jsstr :=
  map u ["txt"; "log"; "md"; "conf"; "cfg"; "ini"; "yml"; "yaml"; "json"; "xml"; "csv"; "sql"; "sh"; "ps1"; "bat"; "env"]%string.

(** [/\.(…)$/i]: only ASCII letters fold. *)
Definition textual (name : jsstr) : bool :=
  existsb (λ ext, starts_with (rev (u "." ++ ext)) (rev (map lower name))) TEXTUAL.

Inductive Icon := IconFolder | IconLink | IconText | IconFile.
Definition EntryIcon (e : BackupEntry) : Icon :=
  if en_dir e then IconFolder else match present (en_link e) with Some _ => IconLink | None => if textual (en_name e) then IconText else IconFile end.

(** Each part of the path, the folder it stands for, and whether it is the last;
    the root comes before them. *)
Definition path_parts (path : jsstr) : list jsstr := List.filter (λ p, negb (str_eqb p [])) (split_on 47 path).
Definition Breadcrumb (path : jsstr) : list (jsstr * jsstr * bool) :=
  let parts := path_parts path in
  imap (λ i part, (part, join [47%N] (take (S i) parts), Nat.eqb (S i) (length parts))) parts.
Definition crumb_targets (path : jsstr) : list jsstr := [] :: map (λ c, c.1.2) (Breadcrumb path).

(** ** The dialog *)

Record Query := mkQuery { q_id : ID; q_dir : jsstr; q_search : jsstr }.
(** A request under way; [ca_retry] tells the Retry button's. *)
Record Call := mkListCall { ca_query : Query; ca_aborted : bool; ca_retry : bool }.

Record BrowserState := mkBrowser {
  br_backup : option Backup; br_path : jsstr; br_query : jsstr; br_entries : list BackupEntry; br_truncated : bool;
  br_loading : bool; br_error : option jsstr;
  (** The delay of the timer that is set, and the requests under way. *)
  br_timer : option Z; br_calls : list Call;
  (** Where the browser has been sent, and what was said. *)
  br_urls : list jsstr; br_said : list ToastCall;
}.

Inductive BrowserMsg :=
  | BrOpen (backup : Backup) | BrClose | BrGo (path : jsstr) | BrQuery (text : jsstr)
  | BrEntry (e : BackupEntry) | BrDownload (e : BackupEntry) | BrRetry
  | BrTimer | BrAnswer (i : nat) (answer : BackupListing + Thrown).

Definition closedBrowser : BrowserState := mkBrowser None [] [] [] false false None None [] [] [].

Definition searching (s : BrowserState) : bool := non_blank (br_query s).

(** What [load] asks for. *)
Definition current_query (b : Backup) (s : BrowserState) : Query := mkQuery (b_id b) (br_path s) (trim (br_query s)).
Definition query_request (q : Query) : option Request :=
  browseBackup (q_id q) (if str_eqb (q_search q) [] then Some (q_dir q) else None) (present (Some (q_search q))) (Some 300).

Definition abort (c : Call) : Call := if ca_retry c then c else mkListCall (ca_query c) true false.

(** The effect runs again: the last one's timer and request are given up. *)
Definition reload_effect (s : BrowserState) : BrowserState :=
  mkBrowser (br_backup s) (br_path s) (br_query s) (br_entries s) (br_truncated s) (br_loading s) (br_error s)
    match br_backup s with Some _ => Some (if searching s then 250 else 0) | None => None end
    (map abort (br_calls s)) (br_urls s) (br_said s).

(** [setPath], [setQuery]: nothing runs again when nothing changed. *)
Definition go_to (path query : jsstr) (s : BrowserState) : BrowserState :=
  if str_eqb path (br_path s) && str_eqb query (br_query s) then s
  else reload_effect (mkBrowser (br_backup s) path query (br_entries s) (br_truncated s) (br_loading s) (br_error s) (br_timer s)
                        (br_calls s) (br_urls s) (br_said s)).

Definition load (retry : bool) (timer : option Z) (s : BrowserState) : BrowserState :=
  match br_backup s with
  | None => s
  | Some b => mkBrowser (br_backup s) (br_path s) (br_query s) (br_entries s) (br_truncated s) true None timer
                (br_calls s ++ [mkListCall (current_query b s) false retry]) (br_urls s) (br_said s)
  end.

Inductive BrowserShown := ShownSkeleton | ShownFailure (message : jsstr) | ShownEmpty (title description : jsstr) | ShownList (entries : list BackupEntry).
Definition browser_shown (s : BrowserState) : BrowserShown :=
  if br_loading s && is_nil (br_entries s) then ShownSkeleton
  else match present (br_error s) with
       | Some e => ShownFailure e
       | None =>
           if is_nil (br_entries s) then
             if searching s then ShownEmpty (u "Nothing matched") (u "No file in this restore point has that in its name.")
             else ShownEmpty (u "This folder is empty") (u "The backup recorded this folder with nothing in it.")
           else ShownList (br_entries s)
       end.

(** The dialog's subtitle. *)
Definition browserSubtitle (Date_parse : jsstr → option Z) (localeDateTime : Z → jsstr) (b : Backup) : jsstr :=
  cat [identityText (pointWorkload b); u " · restore point from "; formatDateTime Date_parse localeDateTime (Some (b_createdAt b))].

Section browser.
Context (Math_log : num → num) (engineText : jsstr).

(** [onDownload]: [backupFileURL] throws on half a surrogate pair. *)
Definition download (e : BackupEntry) (s : BrowserState) : BrowserState :=
  match br_backup s with
  | None => s
  | Some b =>
      match backupFileURL (b_id b) (en_path e) with
      | None => s
      | Some url =>
          mkBrowser (br_backup s) (br_path s) (br_query s) (br_entries s) (br_truncated s) (br_loading s) (br_error s) (br_timer s) (br_calls s)
            (url :: br_urls s)
            (mkCall ToastInfo (cat [u "Downloading "; en_name e])
               (Some (cat [u "Only the part of the backup holding this file is read — "; formatBytes Math_log (en_size e) 1; u "."])) None :: br_said s)
      end
  end.

Definition listing_answered (c : Call) (answer : BackupListing + Thrown) (s : BrowserState) : BrowserState :=
  if ca_aborted c then s
  else match answer with
       | inl res => mkBrowser (br_backup s) (br_path s) (br_query s) (ls_entries res) (ls_truncated res) false (br_error s) (br_timer s)
                      (br_calls s) (br_urls s) (br_said s)
       | inr ThrownAbort => mkBrowser (br_backup s) (br_path s) (br_query s) (br_entries s) (br_truncated s) false (br_error s) (br_timer s)
                              (br_calls s) (br_urls s) (br_said s)
       | inr err => mkBrowser (br_backup s) (br_path s) (br_query s) [] (br_truncated s) false (Some (errorMessage engineText err)) (br_timer s)
                      (br_calls s) (br_urls s) (br_said s)
       end.

Definition browser_step (s : BrowserState) (m : BrowserMsg) : BrowserState :=
  match m with
  | BrOpen b => reload_effect (mkBrowser (Some b) [] [] [] false (br_loading s) None (br_timer s) (br_calls s) (br_urls s) (br_said s))
  | BrClose => reload_effect (mkBrowser None (br_path s) (br_query s) (br_entries s) (br_truncated s) (br_loading s) (br_error s) (br_timer s)
                                (br_calls s) (br_urls s) (br_said s))
  | BrGo path => go_to path (br_query s) s
  | BrQuery text => go_to (br_path s) text s
  | BrEntry e => if en_dir e then go_to (en_path e) [] s else download e s
  | BrDownload e => download e s
  | BrRetry => load true (br_timer s) s
  | BrTimer => load false None s
  | BrAnswer i answer =>
      match br_calls s !! i with
      | Some c => listing_answered c answer
                    (mkBrowser (br_backup s) (br_path s) (br_query s) (br_entries s) (br_truncated s) (br_loading s) (br_error s) (br_timer s)
                       (delete i (br_calls s)) (br_urls s) (br_said s))
      | None => s
      end
  end.

Definition listed_now (e : BackupEntry) (s : BrowserState) : Prop :=
  match browser_shown s with ShownList l => e ∈ l | _ => False end.

Section offered.
(** What the server may answer to a listing. *)
Context (answers : Query → BackupListing → Prop).

(** No signal is given to the request, so it is never aborted itself. *)
Definition browser_offered (s : BrowserState) (m : BrowserMsg) : Prop :=
  match m with
  | BrOpen _ => br_backup s = None
  | BrTimer => is_Some (br_timer s)
  | BrAnswer i answer =>
      ∃ c, br_calls s !! i = Some c ∧ match answer with inl r => answers (ca_query c) r | inr err => err ≠ ThrownAbort end
  | _ =>
      is_Some (br_backup s) ∧
      match m with
      | BrGo path => path ∈ crumb_targets (if searching s then [] else br_path s)
      | BrEntry e => listed_now e s
      | BrDownload e => listed_now e s ∧ en_dir e = false
      | BrRetry => match browser_shown s with ShownFailure _ => True | _ => False end
      | _ => True
      end
  end.

(** [retried]: whether Retry may be pressed. *)
Inductive browser_run (retried : bool) : BrowserState → Prop :=
  | browser_mount : browser_run retried closedBrowser
  | browser_next s m : browser_run retried s → browser_offered s m → (m = BrRetry → retried = true) → browser_run retried (browser_step s m).

(** ** The session *)

Definition is_live (c : Call) : bool := negb (ca_aborted c).
Definition live (c : Call) : Prop := ca_aborted c = false.

(** What the list shows is an answer for this restore point. *)
Definition of_this_point (b : Backup) (s : BrowserState) : Prop :=
  br_entries s = [] ∨ ∃ q r, answers q r ∧ q_id q = b_id b ∧ br_entries s = ls_entries r.

(** The answer to what is asked for now, or its failure. *)
Definition settled (b : Backup) (s : BrowserState) : Prop :=
  br_loading s = false ∧
  ((∃ r, answers (current_query b s) r ∧ br_entries s = ls_entries r ∧ br_truncated s = ls_truncated r ∧ br_error s = None)
   ∨ (is_Some (br_error s) ∧ br_entries s = [])).

(** A file was listed by the restore point it was asked of. *)
Definition own_download (url : jsstr) : Prop :=
  ∃ q r e, answers q r ∧ e ∈ ls_entries r ∧ en_dir e = false ∧ backupFileURL (q_id q) (en_path e) = Some url.

Record browser_ok (s : BrowserState) : Prop := {
  bo_calls : Forall (λ c, ca_retry c = false ∧ (live c → ∃ b, br_backup s = Some b ∧ ca_query c = current_query b s)) (br_calls s);
  bo_live : ∀ c, c ∈ br_calls s → live c → br_timer s = None ∧ br_error s = None;
  bo_one : (length (List.filter is_live (br_calls s)) <= 1)%nat;
  bo_entries : ∀ b, br_backup s = Some b → of_this_point b s;
  bo_settled : ∀ b, br_backup s = Some b → br_timer s = None → Forall (λ c, ca_aborted c = true) (br_calls s) → settled b s;
  bo_urls : Forall own_download (br_urls s);
}.

Lemma abort_all calls : Forall (λ c, ca_retry c = false) calls → Forall (λ c, ca_retry c = false ∧ ca_aborted c = true) (map abort calls).
Proof. intros H. apply Forall_fmap. eapply Forall_impl; [exact H|]. intros c Hc. unfold compose, abort. by rewrite Hc. Qed.

Lemma none_live calls : Forall (λ c, ca_aborted c = true) calls → List.filter is_live calls = [].
Proof. induction 1 as [|c calls Hc _ IH]; [done|]. cbn [List.filter]. unfold is_live at 1. by rewrite Hc. Qed.

Lemma no_live calls : List.filter is_live calls = [] → Forall (λ c, ca_aborted c = true) calls.
Proof.
  intros H. apply Forall_forall. intros c Hc. destruct (ca_aborted c) eqn:E; [done|]. exfalso.
  assert (Hin : c ∈ List.filter is_live calls) by (rewrite list_elem_of_In, filter_In, <- list_elem_of_In; unfold is_live; by rewrite E).
  rewrite H in Hin. by apply elem_of_nil in Hin.
Qed.

Lemma reload_ok s : Forall (λ c, ca_retry c = false) (br_calls s) → (∀ b, br_backup s = Some b → of_this_point b s) →
  Forall own_download (br_urls s) → browser_ok (reload_effect s).
Proof.
  intros Hc He Hu. pose proof (abort_all _ Hc) as Ha. split; cbn [reload_effect br_calls br_timer br_backup br_urls].
  - eapply Forall_impl; [exact Ha|]. intros c [H1 H2]. split; [done|]. unfold live. congruence.
  - intros c Hi Hl. rewrite Forall_forall in Ha. apply Ha in Hi as [_ Hi]. unfold live in Hl. congruence.
  - rewrite none_live; [cbn [length]; lia|]. eapply Forall_impl; [exact Ha|]. by intros c [_ H].
  - exact He.
  - intros b -> Ht. done.
  - done.
Qed.

Lemma calls_own s : browser_ok s → Forall (λ c, ca_retry c = false) (br_calls s).
Proof. intros []. eapply Forall_impl; [exact bo_calls0|]. by intros c [H _]. Qed.

Lemma go_to_ok path query s : browser_ok s → browser_ok (go_to path query s).
Proof.
  intros H. unfold go_to. destruct (_ && _); [done|]. apply reload_ok; [exact (calls_own s H)|exact (bo_entries s H)|exact (bo_urls s H)].
Qed.

Lemma listed_elem e s : listed_now e s → e ∈ br_entries s.
Proof. unfold listed_now, browser_shown. repeat case_match; simplify_eq; done. Qed.

Lemma download_ok e s : browser_ok s → listed_now e s → en_dir e = false → browser_ok (download e s).
Proof.
  intros H Hl Hd. unfold download. destruct (br_backup s) as [b|] eqn:Eb; [|done]. destruct (backupFileURL _ _) as [url|] eqn:Eu; [|done].
  destruct H. split; try done; cbn [br_backup br_timer br_error br_calls br_urls]; rewrite <- ?Eb; try done.
  apply Forall_cons. split; [|done]. destruct (bo_entries0 b Eb) as [E|(q & r & Ha & Eq & Ee)]; apply listed_elem in Hl.
  - rewrite E in Hl. by apply elem_of_nil in Hl.
  - exists q, r, e. rewrite <- Ee, Eq. done.
Qed.

Lemma timer_ok s : browser_ok s → is_Some (br_timer s) → browser_ok (load false None s).
Proof.
  intros H [d Ht]. unfold load. destruct (br_backup s) as [b|] eqn:Eb; [|done]. destruct H.
  assert (Hdead : Forall (λ c, ca_aborted c = true) (br_calls s)).
  { apply Forall_forall. intros c Hc. destruct (ca_aborted c) eqn:E; [done|]. destruct (bo_live0 c Hc E). congruence. }
  split; cbn [br_backup br_timer br_error br_calls br_urls]; try done.
  - apply Forall_app. split.
    + eapply Forall_impl; [exact bo_calls0|]. intros c [H1 H2]. split; [done|]. intros Hl. destruct (H2 Hl) as (b' & E & E'). exists b'.
      split; [congruence|done].
    + apply Forall_singleton. split; [done|]. intros _. by exists b.
  - rewrite List.filter_app, (none_live _ Hdead). done.
  - intros b' E. exact (bo_entries0 b' ltac:(congruence)).
  - intros b' _ _ Hall. apply Forall_app in Hall as [_ Hall]. by inversion Hall.
Qed.

Lemma landed_ok i c answer s : browser_ok s → br_calls s !! i = Some c →
  match answer with inl r => answers (ca_query c) r | inr err => err ≠ ThrownAbort end →
  browser_ok (listing_answered c answer
    (mkBrowser (br_backup s) (br_path s) (br_query s) (br_entries s) (br_truncated s) (br_loading s) (br_error s) (br_timer s)
       (delete i (br_calls s)) (br_urls s) (br_said s))).
Proof.
  intros H Hi Ha. destruct H. set (s' := mkBrowser _ _ _ _ _ _ _ _ _ _ _).
  assert (Hin : ∀ x, x ∈ delete i (br_calls s) → x ∈ br_calls s).
  { intros x Hx. rewrite <- (take_drop_middle _ _ _ Hi). rewrite delete_take_drop in Hx. set_solver. }
  assert (Hcalls : Forall (λ c, ca_retry c = false ∧ (live c → ∃ b, br_backup s = Some b ∧ ca_query c = current_query b s)) (delete i (br_calls s))).
  { rewrite Forall_forall in *. eauto. }
  assert (Hc : live c → ∃ b, br_backup s = Some b ∧ ca_query c = current_query b s).
  { rewrite Forall_forall in bo_calls0. apply (bo_calls0 c). by eapply list_elem_of_lookup_2. }
  pose proof (count_filter_delete is_live _ _ _ Hi) as Hf. unfold is_live in Hf at 3.
  unfold listing_answered. destruct (ca_aborted c) eqn:Ec; cbn [negb] in Hf.
  - split; try done; unfold s'; cbn [br_calls br_timer br_error br_backup].
    + intros d Hd. apply bo_live0, Hin, Hd.
    + lia.
    + intros b Eb Et Hall. apply (bo_settled0 b Eb Et). apply no_live. apply none_live in Hall. rewrite Hall in Hf. cbn [length] in Hf.
      by apply length_zero_iff_nil.
  - destruct (Hc Ec) as (b & Eb & Eq). destruct (bo_live0 c) as [Et Ee]; [by eapply list_elem_of_lookup_2|done|].
    assert (Hdead : Forall (λ c, ca_aborted c = true) (delete i (br_calls s))) by (apply no_live, length_zero_iff_nil; lia).
    assert (Hnl : ∀ d, d ∈ delete i (br_calls s) → live d → False).
    { intros d Hd Hl. rewrite Forall_forall in Hdead. specialize (Hdead d Hd). unfold live in Hl. congruence. }
    destruct answer as [r|err]; [|destruct err; [|done| |]]; split; try done; unfold s'; cbn [br_calls br_timer br_error br_backup br_entries];
      try (intros d Hd Hl; by destruct (Hnl d Hd Hl)); try lia; intros b' Eb'; assert (b' = b) as -> by congruence; try (by left).
    + right. exists (ca_query c), r. split_and!; [exact Ha|by rewrite Eq|done].
    + intros _ _. split; [done|]. left. exists r. rewrite Eq in Ha. done.
    + intros _ _. split; [done|]. right. by split.
    + intros _ _. split; [done|]. right. by split.
    + intros _ _. split; [done|]. right. by split.
Qed.

Lemma browser_step_ok s m : browser_ok s → browser_offered s m → m ≠ BrRetry → browser_ok (browser_step s m).
Proof.
  intros H Ho Hr. destruct m as [b| |path|text|e|e| | |i answer]; cbn [browser_step browser_offered] in *.
  - apply reload_ok; [exact (calls_own s H)| |exact (bo_urls s H)]. by left.
  - apply reload_ok; [exact (calls_own s H)|done|exact (bo_urls s H)].
  - by apply go_to_ok.
  - by apply go_to_ok.
  - destruct (en_dir e) eqn:Ed; [by apply go_to_ok|]. destruct Ho as [_ Hl]. by apply download_ok.
  - destruct Ho as (_ & Hl & Hd). by apply download_ok.
  - done.
  - by apply timer_ok.
  - destruct Ho as (c & Hc & Ha). rewrite Hc. by apply landed_ok.
Qed.

Lemma browser_run_ok s : browser_run false s → browser_ok s.
Proof.
  induction 1 as [|s m _ IH Ho Hr].
  { split; try apply List.Forall_nil; try done; try (intros c Hc; by apply elem_of_nil in Hc). cbn. lia. }
  apply browser_step_ok; [done..|]. intros E. by specialize (Hr E).
Qed.
End offered.
End browser.

(** ** With the server behind it *)

Section served.
Context (ToLower : bytes → bytes) (index : ID → option Index).

(** [browseEntryDTO]'s encoding, and what is sent for a query. *)
Definition client_entry (e : Entry) : BackupEntry :=
  mkFile (utf8_to_utf16 (Base (e_path e))) (utf8_to_utf16 (e_path e)) (int_val (e_size e)) (e_dir e)
    (if str_eqb (e_link e) [] then None else Some (utf8_to_utf16 (e_link e))).
Definition client_listing (r : browseListResponse) : BackupListing :=
  mkBackupListing (utf8_to_utf16 (bl_path r)) (map client_entry (bl_entries r)) (bl_truncated r).

Definition served (q : Query) (r : BackupListing) : Prop :=
  ∃ resp, handleBrowseBackup ToLower (index (q_id q)) (go_string (q_search q))
            (if str_eqb (q_search q) [] then go_string (q_dir q) else []) 300 = Some resp ∧ r = client_listing resp.

(** Indexes whose paths are their own, and are text. *)
Definition indexes_ok : Prop :=
  ∀ id idx, index id = Some idx → plain (ix_entries idx) ∧ Forall (λ e, sound_text (e_path e)) (ix_entries idx).

(** A download is of a file the server finds, and it is the file that was listed. *)
Definition found_as_listed (url : jsstr) : Prop :=
  ∃ id e, backupFileURL id (utf8_to_utf16 (e_path e)) = Some url ∧
    handleDownloadBackupFile (index id) (go_string (utf8_to_utf16 (e_path e))) = Some e.

Lemma own_found url : indexes_ok → own_download served url → found_as_listed url.
Proof.
  intros Hok (q & r & en & (resp & Hr & ->) & He & Hd & Hu). cbn [client_listing ls_entries] in He.
  apply list_elem_of_fmap in He as (e & -> & He). exists (q_id q), e. split; [exact Hu|].
  destruct (index (q_id q)) as [idx|] eqn:Ei; [|done]. destruct (Hok _ _ Ei) as [Hp Hs].
  assert (Hin : e ∈ ix_entries idx) by (by eapply listed_file). rewrite Forall_forall in Hs. rewrite (Hs e Hin : go_string _ = _).
  by eapply listed_downloads.
Qed.
End served.


(** ** A session, and one that shows another machine's files *)

(** Restore points of two machines, and what is in them. *)
Definition point_of (id : Z) (name : jsstr) : Backup :=
  mkBackup (IdNum (of_Z id)) (IdNum (of_Z 1)) SourceAgent (IdStr (u "a1")) name None None None (IdNum (of_Z 1)) (u "2026-07-26")
    (of_Z 100) (of_Z 10) Full None None None [].
Definition two_indexes (id : ID) : option Index :=
  if str_eqb (id_text id) (u "1") then Some (mkIndex [file_of (u "data") (u "etc/hosts") 5; file_of (u "data") (u "notes.txt") 9] false)
  else Some (mkIndex [file_of (u "data") (u "secret") 7] false).

Lemma two_indexes_ok : indexes_ok two_indexes.
Proof.
  intros id idx. unfold two_indexes.
  destruct (str_eqb _ _); intros [= <-]; (split; [split; [apply (bool_decide_unpack _); vm_compute; exact I|]|]);
    repeat (apply List.Forall_cons; [|]); try apply List.Forall_nil; try (vm_compute; reflexivity); split_and!; try (vm_compute; (reflexivity || discriminate)).
  - exists [u "etc"; u "hosts"]. split; [|reflexivity]. repeat (apply List.Forall_cons; [repeat split; vm_compute; try discriminate; set_solver|]). apply List.Forall_nil.
  - exists [u "notes.txt"]. split; [|reflexivity]. repeat (apply List.Forall_cons; [repeat split; vm_compute; try discriminate; set_solver|]). apply List.Forall_nil.
  - exists [u "secret"]. split; [|reflexivity]. repeat (apply List.Forall_cons; [repeat split; vm_compute; try discriminate; set_solver|]). apply List.Forall_nil.
Qed.

Definition listing_of (n : Z) : BackupListing :=
  default (mkBackupListing [] [] false) (client_listing <$> handleBrowseBackup id (two_indexes (IdNum (of_Z n))) [] [] 300).

Lemma served_root n : n = 1 ∨ n = 2 → served id two_indexes (mkQuery (IdNum (of_Z n)) [] []) (listing_of n).
Proof. intros [-> | ->]; (eexists; split; [vm_compute; reflexivity|vm_compute; reflexivity]). Qed.

Section play.
Context (l : num → num).
Abbreviation run := (browser_run l [] (served id two_indexes)).
Abbreviation step := (browser_step l []).

Definition opened (n : Z) (name : jsstr) (s : BrowserState) : BrowserState := step (step s (BrOpen (point_of n name))) BrTimer.

Lemma opened_run retried n name s : run retried s → br_backup s = None → run retried (opened n name s).
Proof. intros Hs Hb. apply browser_next; [|by eexists|done]. by apply browser_next. Qed.

Definition looked : BrowserState := step (opened 1 (u "web-01") closedBrowser) (BrAnswer 0 (inl (listing_of 1))).
Definition notes : BackupEntry := client_entry (file_of (u "data") (u "notes.txt") 9).

Lemma opened_first n name retried : run retried (opened n name closedBrowser).
Proof. apply opened_run; [apply browser_mount|reflexivity]. Qed.

Lemma looked_run : run false looked.
Proof.
  apply (browser_next _ _ _ false (opened 1 (u "web-01") closedBrowser)); [apply opened_first| |done].
  exists (mkListCall (mkQuery (IdNum (of_Z 1)) [] []) false false). split; [reflexivity|]. apply (served_root 1). by left.
Qed.

Lemma notes_run : run false (step looked (BrDownload notes)).
Proof.
  apply (browser_next _ _ _ false looked); [apply looked_run| |done]. split; [by eexists|]. split; [|reflexivity].
  change (notes ∈ ls_entries (listing_of 1)). apply list_elem_of_lookup. exists 1%nat. vm_compute. reflexivity.
Qed.

(** The first machine's listing fails and is asked for again; before that answers
    the dialog is closed, and opened on the second machine, whose listing comes
    first. *)
Definition failed : BrowserState := step (opened 1 (u "web-01") closedBrowser) (BrAnswer 0 (inr (ThrownError (u "Timed out")))).
Definition elsewhere : BrowserState := step (opened 2 (u "db-01") (step (step failed BrRetry) BrClose)) (BrAnswer 1 (inl (listing_of 2))).

Lemma elsewhere_run : run true elsewhere.
Proof.
  apply (browser_next _ _ _ true (opened 2 (u "db-01") (step (step failed BrRetry) BrClose))); [| |done].
  - apply opened_run; [|reflexivity]. apply (browser_next _ _ _ true (step failed BrRetry)); [|split; [by eexists|done]|done].
    apply (browser_next _ _ _ true failed); [|split; [by eexists|done]|done].
    apply (browser_next _ _ _ true (opened 1 (u "web-01") closedBrowser)); [apply opened_first| |done].
    eexists. split; [reflexivity|done].
  - exists (mkListCall (mkQuery (IdNum (of_Z 2)) [] []) false false). split; [reflexivity|]. apply (served_root 2). by right.
Qed.

(** Then the retried listing answers: the second machine's dialog shows the first
    machine's files, and nothing is under way that would replace them. *)
Lemma another_machines_files : ∃ s, run true s ∧ br_backup s = Some (point_of 2 (u "db-01")) ∧
  browser_shown s = ShownList (ls_entries (listing_of 1)) ∧ listing_of 1 ≠ listing_of 2 ∧
  br_timer s = None ∧ br_calls s = [] ∧ br_loading s = false.
Proof.
  exists (step elsewhere (BrAnswer 0 (inl (listing_of 1)))). split_and!; try reflexivity.
  - apply (browser_next _ _ _ true elsewhere); [apply elsewhere_run| |done].
    exists (mkListCall (mkQuery (IdNum (of_Z 1)) [] []) false true). split; [reflexivity|]. apply (served_root 1). by left.
  - vm_compute. discriminate.
Qed.
End play.

