(* ===== verification/RestorePage.v ===== *)
(** * The restore points page (web/src/pages/RestorePointsPage.tsx)

    The workloads and their chains (Backups), the requests of each row, and the
    two dialogs the page mounts: the restore wizard (RestoreWizard) and the file
    browser (Browse). *)
From stdpp Require Import gmap.
From S2P Require Import Prelude JsString JsNumber JsValue Json Transport Targets Format Runs Backups Ui Roles Inventory Endpoints RestoreWizard Browse Widgets.

Record RestoreData := mkRestoreData {
  rd_backups : list Backup; rd_hosts : list Host; rd_agents : list Agent; rd_vms : list CachedVM; rd_targets : list Target;
}.

(** ** The page *)

(** One mounted row: which mounting, and what it waits for. *)
Record PointRow := mkPointRow { pr_inst : Z; pr_verifying : bool; pr_deleting : bool }.

Inductive PointFlight := FlyVerify (inst : Z) (b : Backup) | FlyDelete (inst : Z) (b : Backup).
Inductive PointAnswer := PointDone | PointFailed (err : Thrown).

Record PointsState := mkPoints {
  rp_async : Async RestoreData unit;
  rp_open : option (gset jsstr);
  rp_rows : gmap jsstr PointRow;
  rp_mounts : Z;
  rp_restore : Restore;
  rp_browser : BrowserState;
  rp_asking : option (Z * Backup);
  rp_flights : list PointFlight;
  rp_said : list ToastCall;
}.

Inductive PointsMsg :=
  | PReload | PToggle (key : jsstr)
  | PVerify (b : Backup) | PDelete (b : Backup) | PConfirm (ok : bool) | PRestore (b : Backup) | PBrowse (b : Backup)
  | PWizard (m : RestoreMsg) | PBrowser (m : BrowserMsg)
  | PRead (i : nat) (answer : RestoreData + Thrown)
  | PAnswered (i : nat) (answer : PointAnswer).

Definition points_data (s : PointsState) : RestoreData := default (mkRestoreData [] [] [] [] []) (as_data (rp_async s)).
Definition point_key (b : Backup) : jsstr := id_text (b_id b).
Definition estate_of (d : RestoreData) : Estate := mkEstate (rd_hosts d) (rd_agents d) (rd_vms d).

Definition mountPoints : PointsState :=
  mkPoints (mountAsync tt) None ∅ 0 (mountRestore (mkEstate [] [] [])) closedBrowser None [] [].

Definition with_pasync (a : Async RestoreData unit) (s : PointsState) : PointsState :=
  mkPoints a (rp_open s) (rp_rows s) (rp_mounts s) (rp_restore s) (rp_browser s) (rp_asking s) (rp_flights s) (rp_said s).
Definition with_popen (keys : option (gset jsstr)) (s : PointsState) : PointsState :=
  mkPoints (rp_async s) keys (rp_rows s) (rp_mounts s) (rp_restore s) (rp_browser s) (rp_asking s) (rp_flights s) (rp_said s).
Definition with_prows (rows : gmap jsstr PointRow) (s : PointsState) : PointsState :=
  mkPoints (rp_async s) (rp_open s) rows (rp_mounts s) (rp_restore s) (rp_browser s) (rp_asking s) (rp_flights s) (rp_said s).
Definition with_prestore (r : Restore) (s : PointsState) : PointsState :=
  mkPoints (rp_async s) (rp_open s) (rp_rows s) (rp_mounts s) r (rp_browser s) (rp_asking s) (rp_flights s) (rp_said s).
Definition with_pbrowser (b : BrowserState) (s : PointsState) : PointsState :=
  mkPoints (rp_async s) (rp_open s) (rp_rows s) (rp_mounts s) (rp_restore s) b (rp_asking s) (rp_flights s) (rp_said s).
Definition with_pasking (a : option (Z * Backup)) (s : PointsState) : PointsState :=
  mkPoints (rp_async s) (rp_open s) (rp_rows s) (rp_mounts s) (rp_restore s) (rp_browser s) a (rp_flights s) (rp_said s).
Definition point_send (f : PointFlight) (s : PointsState) : PointsState :=
  mkPoints (rp_async s) (rp_open s) (rp_rows s) (rp_mounts s) (rp_restore s) (rp_browser s) (rp_asking s) (rp_flights s ++ [f]) (rp_said s).
Definition point_landed (i : nat) (said : ToastCall) (s : PointsState) : PointsState :=
  mkPoints (rp_async s) (rp_open s) (rp_rows s) (rp_mounts s) (rp_restore s) (rp_browser s) (rp_asking s) (delete i (rp_flights s)) (said :: rp_said s).

Definition refresh_points (loud : bool) (s : PointsState) : PointsState := with_pasync (run_loader loud (rp_async s)) s.

(** A row's own state; nothing once that mounting is gone. *)
Definition set_row_state (inst : Z) (b : Backup) (f : PointRow → PointRow) (s : PointsState) : PointsState :=
  match rp_rows s !! point_key b with
  | Some r => if pr_inst r =? inst then with_prows (<[point_key b := f r]> (rp_rows s)) s else s
  | None => s
  end.
Definition set_verifying (v : bool) (r : PointRow) : PointRow := mkPointRow (pr_inst r) v (pr_deleting r).
Definition set_pdeleting (v : bool) (r : PointRow) : PointRow := mkPointRow (pr_inst r) (pr_verifying r) v.
Definition point_row (b : Backup) (s : PointsState) : PointRow := default (mkPointRow (-1) false false) (rp_rows s !! point_key b).

Section page.
(** [new Date(s).getTime()], [Math.log], the engine's date formatting and how it
    words its own exceptions, what the server may answer to a listing, and
    whether the role may operate jobs. *)
Context (getTime : jsstr → num) (Math_log : num → num) (Date_parse : jsstr → option Z) (localeDateTime : Z → jsstr) (engineText : jsstr)
  (answers : Browse.Query → BackupListing → Prop) (canOperate : bool).

Definition groups_of (s : PointsState) : list SourceGroup := groupSources getTime (rd_backups (points_data s)).
Definition open_of (s : PointsState) : gset jsstr := openKeys (rp_open s) (groups_of s).
Definition chain_of (s : PointsState) (g : SourceGroup) : list Backup := chainOf getTime (rd_backups (points_data s)) (g_key g).
Definition expanded (s : PointsState) (g : SourceGroup) : bool := bool_decide (g_key g ∈ open_of s).

(** The points whose rows are on the page. *)
Definition points_listed (s : PointsState) : list Backup :=
  concat (map (λ g, if expanded s g then chain_of s g else []) (groups_of s)).

(** A row listed before keeps its state. *)
Definition sync_points (s : PointsState) : PointsState :=
  mkPoints (rp_async s) (rp_open s)
    (foldr (λ b rows, <[point_key b := default (mkPointRow (rp_mounts s) false false) (rp_rows s !! point_key b)]> rows) ∅ (points_listed s))
    (rp_mounts s + 1) (rp_restore s) (rp_browser s) (rp_asking s) (rp_flights s) (rp_said s).

(** The wizard's props follow the page's data. *)
Definition feed_restore (s : PointsState) : PointsState :=
  with_prestore (restore_update engineText (rp_restore s) (RRefresh (estate_of (points_data s)))) s.

Definition points_uncovered (s : PointsState) : Prop :=
  r_backup (rp_restore s) = None ∧ br_backup (rp_browser s) = None ∧ rp_asking s = None.

Definition own_restore_msg (m : RestoreMsg) : bool := match m with RRefresh _ | ROpen _ => false | _ => true end.
Definition own_browser_msg (m : BrowserMsg) : bool := match m with BrOpen _ => false | _ => true end.
Definition browsable (b : Backup) : bool := bool_decide (b_sourceKind b = SourceAgent).

Definition points_offered (s : PointsState) (m : PointsMsg) : Prop :=
  match m with
  | PRead i _ => is_Some (as_pending (rp_async s) !! i)
  | PAnswered i _ => is_Some (rp_flights s !! i)
  | PWizard m => own_restore_msg m = true ∧ rp_asking s = None ∧ restore_offered (rp_restore s) m = true
  | PBrowser m => own_browser_msg m = true ∧ browser_offered answers (rp_browser s) m
  | PConfirm _ => rp_asking s ≠ None
  | _ =>
      r_left (rp_restore s) = false ∧ points_uncovered s ∧
      match m with
      | PReload => as_loading (rp_async s) = false
      | PToggle key => key ∈ map g_key (groups_of s)
      | PVerify b => b ∈ points_listed s ∧ canOperate = true ∧ pr_verifying (point_row b s) = false
      | PDelete b => b ∈ points_listed s ∧ canOperate = true ∧ pr_deleting (point_row b s) = false
      | PRestore b => b ∈ points_listed s ∧ canOperate = true
      | PBrowse b => b ∈ points_listed s ∧ canOperate = true ∧ browsable b = true
      | _ => False
      end
  end.

Definition kind_text (b : Backup) : jsstr := match b_kind b with Full => u "full" | Incremental => u "incremental" end.
Definition point_when (b : Backup) : jsstr := formatDate Date_parse localeDateTime (Some (b_createdAt b)).

Definition failed_point (title : jsstr) (err : Thrown) : ToastCall := mkCall ToastError title (Some (errorMessage engineText err)) None.
Definition verify_said (b : Backup) : ToastCall :=
  mkCall ToastSuccess (u "Verification started.")
    (Some (cat [u "The "; kind_text b; u " point from "; point_when b; u " is being read back from the target and re-hashed."])) None.

Definition point_answered (i : nat) (f : PointFlight) (answer : PointAnswer) (s : PointsState) : PointsState :=
  match f, answer with
  | FlyVerify inst b, PointDone => set_row_state inst b (set_verifying false) (point_landed i (verify_said b) s)
  | FlyVerify inst b, PointFailed err => set_row_state inst b (set_verifying false) (point_landed i (failed_point (u "Could not start verification") err) s)
  | FlyDelete inst b, PointDone =>
      set_row_state inst b (set_pdeleting false) (refresh_points false (point_landed i (mkCall ToastSuccess (u "Restore point deleted.") None None) s))
  | FlyDelete inst b, PointFailed err => set_row_state inst b (set_pdeleting false) (point_landed i (failed_point (u "Could not delete restore point") err) s)
  end.

Definition points_step (s : PointsState) (m : PointsMsg) : PointsState :=
  let inst b := pr_inst (point_row b s) in
  match m with
  | PReload => refresh_points true s
  | PToggle key => sync_points (with_popen (toggleKey (rp_open s) (groups_of s) key) s)
  | PVerify b => point_send (FlyVerify (inst b) b) (set_row_state (inst b) b (set_verifying true) s)
  | PDelete b => with_pasking (Some (inst b, b)) s
  | PConfirm ok =>
      match rp_asking s with
      | Some (i, b) =>
          if ok then point_send (FlyDelete i b) (set_row_state i b (set_pdeleting true) (with_pasking None s)) else with_pasking None s
      | None => s
      end
  | PRestore b => with_prestore (restore_update engineText (rp_restore s) (ROpen b)) s
  | PBrowse b => with_pbrowser (browser_step Math_log engineText (rp_browser s) (BrOpen b)) s
  | PWizard (Started i) => refresh_points false (with_prestore (restore_update engineText (rp_restore s) (Started i)) s)
  | PWizard m => with_prestore (restore_update engineText (rp_restore s) m) s
  | PBrowser m => with_pbrowser (browser_step Math_log engineText (rp_browser s) m) s
  | PRead i answer => feed_restore (sync_points (with_pasync (async_step engineText (rp_async s) (Settled i answer)) s))
  | PAnswered i answer => match rp_flights s !! i with Some f => point_answered i f answer s | None => s end
  end.

Inductive points_run : PointsState → Prop :=
  | points_mount : points_run mountPoints
  | points_next s m : points_run s → points_offered s m → points_run (points_step s m).

Definition point_request (f : PointFlight) : option Request :=
  match f with FlyVerify _ b => verifyBackup (b_id b) | FlyDelete _ b => deleteBackup (b_id b) end.
End page.

(** ** What is drawn *)

(** One row: when, the kind, the verification with its moment, where it lives
    (kind, name, place), the sizes in words, how deep in its chain it stands, and
    the controls. *)
Record PointView := mkPointView {
  pv_when : jsstr; pv_kind : PillTone * jsstr * bool; pv_badge : Badge * option jsstr; pv_target : option (jsstr * jsstr * jsstr); pv_sizes : jsstr;
  pv_depth : Z; pv_browse : ControlView; pv_restore : ControlView; pv_verify : ControlView; pv_delete : ControlView;
}.

(** One workload: its identity, the summary line, the total, whether it is
    expanded, what the button says, and the chain while it is. *)
Record WorkloadView := mkWorkloadView {
  wv_identity : jsstr * option jsstr * option jsstr; wv_summary : jsstr; wv_verified : bool; wv_total : jsstr; wv_expanded : bool; wv_spoken : jsstr;
  wv_chain : option (jsstr * list PointView);
}.

Inductive PointsBody := PointsSkeleton | PointsFailed (message : jsstr) | NoPoints | Workloads (subtitle : jsstr) (l : list WorkloadView).

Section view.
Context (getTime : jsstr → num) (Math_log : num → num) (toLocaleString : num → jsstr) (Date_parse : jsstr → option Z) (localeDate localeDateTime : Z → jsstr) (now : Z) (role : Role).

Definition ago (t : option jsstr) : jsstr := formatRelative Date_parse localeDate t now.
Definition when_text (b : Backup) : jsstr := point_when Date_parse localeDateTime b.
Definition size_text (n : num) : jsstr := formatBytes Math_log (VNum n) 1.

Definition can_points : bool := operateJobs (capabilitiesFor (role_val role)).
Definition points_denied : option jsstr := if can_points then None else Some (roleDeniedReason (role_val role) (u "restore, verify or prune")).

Definition disks_text (disks : list (jsstr * num)) : jsstr :=
  match disks with
  | [] => []
  | _ => cat [u " · "; str_of_Z (Z.of_nat (length disks)); u " "; if (length disks =? 1)%nat then u "disk" else u "disks"; u ": ";
              join (u ", ") (map (λ d, cat [d.1; u " "; size_text d.2]) disks)]
  end.

Definition sizes_text (b : Backup) : jsstr :=
  cat [size_text (b_sizeBytes b); u " source data · "; size_text (b_uploadedBytes b); u " transferred to target"; disks_text (b_disks b)].

Definition point_control (what : jsstr) (title : jsstr) (b : Backup) (waiting : bool) : ControlView :=
  let spoken := cat [what; u " the restore point from "; when_text b] in
  mkControlView (default title points_denied) (Some (match points_denied with Some d => cat [spoken; u " — "; d] | None => spoken end))
    (negb (button_disabled (negb can_points) waiting)) waiting.

Definition BackupRowView (targets : list Target) (depths : gmap jsstr Z) (r : PointRow) (b : Backup) : PointView :=
  let badge := VerificationBadge b in
  mkPointView (when_text b) (StatusPill ToneNeutral (match b_kind b with Full => u "full" | Incremental => u "incremental" end) false)
    (badge, (λ t, ago (Some t)) <$> badge_at badge)
    ((λ t, (TARGET_KIND_SHORT (tg_kind t), tg_name t, targetLocation t)) <$> targetOf targets b)
    (sizes_text b) (Z.min (default 0 (depths !! point_key b)) 6)
    (mkControlView
       (if browsable b then default (u "Browse the files in this restore point and recover one") points_denied
        else u "This is a whole-VM image. Install the agent in the guest for file-level backups you can browse.")
       (Some (cat [u "Browse the files in the restore point from "; when_text b])) (negb (button_disabled (negb (browsable b) || negb can_points) false)) false)
    (mkControlView (u "Restore") ((λ d, cat [u "Restore — "; d]) <$> points_denied) can_points false)
    (point_control (u "Verify") (u "Verify integrity — read every block back from the target and re-check its hash") b (pr_verifying r))
    (point_control (u "Delete") (u "Delete restore point") b (pr_deleting r)).

Definition points_word (n : Z) : jsstr := if n =? 1 then u "point" else u "points".

Definition WorkloadRow (s : PointsState) (g : SourceGroup) : WorkloadView :=
  let d := points_data s in
  let is_open := expanded getTime s g in
  let workload := mkWorkload (g_hostName g) (g_sourceName g) (match g_sourceKind g with SourceVm => sourceVMID (Some (g_sourceId g)) | SourceAgent => None end) (g_node g) in
  let verified := present (g_lastVerifiedAt g) in
  let count := formatCount toLocaleString (VNum (of_Z (g_count g))) in
  mkWorkloadView (WorkloadIdentity workload)
    (cat [count; u " "; points_word (g_count g); u " · "; size_text (g_totalBytes g); u " · newest "; ago (Some (g_latest g)); u " · ";
          match verified with Some t => cat [u "integrity verified "; ago (Some t)] | None => u "no point verified yet" end])
    (negb (is_none verified)) (cat [size_text (g_totalBytes g); u " total"]) is_open
    (cat [identityText workload; u " — "; if is_open then u "hide" else u "show"; u " "; count; u " restore "; points_word (g_count g)])
    (if is_open
     then Some (match g_sourceKind g with SourceVm => u "Virtual machine — agentless image backup" | SourceAgent => u "Agent — file-level backup" end,
                map (λ b, BackupRowView (rd_targets d) (chainDepths (rd_backups d)) (point_row b s) b) (chain_of getTime s g))
     else None).

Definition points_body (s : PointsState) : PointsBody :=
  let a := rp_async s in
  let listed :=
    match groups_of getTime s with
    | [] => NoPoints
    | gs => Workloads (cat [str_of_Z (Z.of_nat (length gs)); u " with restore points"]) (map (WorkloadRow s) gs)
    end in
  match as_data a with
  | None => if as_loading a then PointsSkeleton else match present (as_error a) with Some e => PointsFailed e | None => listed end
  | Some _ => listed
  end.
End view.

(** ** Every point under one workload *)

Lemma filter_split {A} (p : A → bool) (l : list A) : l ≡ₚ List.filter p l ++ List.filter (λ x, negb (p x)) l.
Proof.
  induction l as [|x l IH]; [done|]. cbn [List.filter]. destruct (p x); cbn [negb app]; [by f_equiv|].
  rewrite IH at 1. by rewrite Permutation_middle.
Qed.

Lemma filter_other {A} (p q : A → bool) (l : list A) : (∀ x, q x = true → p x = false) → List.filter q (List.filter (λ x, negb (p x)) l) = List.filter q l.
Proof.
  intros H. induction l as [|x l IH]; [done|]. cbn [List.filter]. destruct (p x) eqn:Ep; cbn [negb].
  - destruct (q x) eqn:Eq; [by rewrite (H x Eq) in Ep|exact IH].
  - cbn [List.filter]. destruct (q x); [by f_equal|exact IH].
Qed.

(** Grouping by keys that cover a list and are all different permutes it. *)
Lemma concat_by_key (key : Backup → jsstr) keys : ∀ l, NoDup keys → (∀ b, b ∈ l → key b ∈ keys) →
  concat (map (λ k, List.filter (λ b, str_eqb (key b) k) l) keys) ≡ₚ l.
Proof.
  induction keys as [|k keys IH]; intros l Hn Hc.
  - destruct l as [|b l]; [done|]. exfalso. assert (key b ∈ []) as Hb by (apply Hc; by constructor). by apply elem_of_nil in Hb.
  - apply NoDup_cons in Hn as [Hk Hn]. cbn [map concat].
    rewrite (filter_split (λ b, str_eqb (key b) k) l) at 2. f_equiv.
    rewrite <- (IH (List.filter (λ b, negb (str_eqb (key b) k)) l)) at 1; [|done|].
    + apply Permutation_refl'. f_equal. apply map_ext_in. intros k' Hk'. symmetry. apply filter_other. intros b Eb. cbv beta in *. apply str_eqb_true in Eb.
      apply str_eqb_false. intros Ek. apply Hk, list_elem_of_In. congruence.
    + intros b [Hb Hne]%list_elem_of_In%filter_In. apply list_elem_of_In, Hc, elem_of_cons in Hb as [E|Hb]; [|done].
      apply negb_true_iff, str_eqb_false in Hne. done.
Qed.

Section shown.
Context (getTime : jsstr → num).

Lemma chains_partition backups keys : NoDup keys → (∀ b, b ∈ backups → sourceKey b ∈ keys) →
  concat (map (chainOf getTime backups) keys) ≡ₚ backups.
Proof.
  intros Hn Hc. rewrite <- (concat_by_key sourceKey keys backups Hn Hc) at 2. clear Hn Hc.
  induction keys as [|k keys IH]; [done|]. cbn [map concat]. rewrite IH. by unfold chainOf; rewrite sort_by_perm.
Qed.

Lemma toggled_open Math_log Date_parse localeDateTime engineText s key g :
  expanded getTime (points_step getTime Math_log Date_parse localeDateTime engineText s (PToggle key)) g =
    if str_eqb (g_key g) key then negb (expanded getTime s g) else expanded getTime s g.
Proof.
  cbn [points_step]. unfold expanded, open_of. cbn [sync_points with_popen rp_open]. unfold toggleKey. cbn [openKeys].
  change (groups_of getTime (sync_points getTime _)) with (groups_of getTime s).
  destruct (str_eqb (g_key g) key) eqn:E.
  - apply str_eqb_true in E as <-. destruct (decide (g_key g ∈ openKeys (rp_open s) (groups_of getTime s))) as [Hin|Hni].
    + rewrite (bool_decide_eq_true_2 _ Hin). apply bool_decide_eq_false. set_solver.
    + rewrite (bool_decide_eq_false_2 _ Hni). apply bool_decide_eq_true. set_solver.
  - apply str_eqb_false in E. apply bool_decide_ext. destruct (decide (key ∈ openKeys (rp_open s) (groups_of getTime s))); set_solver.
Qed.
End shown.

(** C26: every restore point is under exactly one workload of the page.  The
    workloads have keys of their own and none is empty; the chains together are
    the restore points read, each once, and each workload counts its chain; a
    point's row is on the page exactly while its workload is expanded, which shows
    its whole chain; before the operator touches the list only the first workload
    is expanded, and pressing one opens or closes it and no other. *)
Theorem points_shown getTime Math_log toLocaleString Date_parse localeDate localeDateTime engineText now role s d :
  as_data (rp_async s) = Some d →
  let gs := groups_of getTime s in
  NoDup (map g_key gs) ∧ concat (map (chain_of getTime s) gs) ≡ₚ rd_backups d ∧
  (∀ g, g ∈ gs → chain_of getTime s g ≠ [] ∧ g_count g = Z.of_nat (length (chain_of getTime s g))) ∧
  (∀ b, b ∈ points_listed getTime s ↔ b ∈ rd_backups d ∧ sourceKey b ∈ open_of getTime s) ∧
  (rd_backups d = [] → points_body getTime Math_log toLocaleString Date_parse localeDate localeDateTime now role s = NoPoints) ∧
  (rd_backups d ≠ [] → ∃ subtitle views, points_body getTime Math_log toLocaleString Date_parse localeDate localeDateTime now role s = Workloads subtitle views ∧
     Forall2 (λ g v, wv_expanded v = expanded getTime s g ∧
       (snd <$> wv_chain v) = (if expanded getTime s g
          then Some (map (λ b, BackupRowView Math_log Date_parse localeDate localeDateTime now role (rd_targets d) (chainDepths (rd_backups d)) (point_row b s) b)
                      (chain_of getTime s g)) else None)) gs views) ∧
  (rp_open s = None → ∀ g, g ∈ gs → expanded getTime s g = bool_decide (Some (g_key g) = g_key <$> head gs)) ∧
  (∀ key g, expanded getTime (points_step getTime Math_log Date_parse localeDateTime engineText s (PToggle key)) g =
     if str_eqb (g_key g) key then negb (expanded getTime s g) else expanded getTime s g).
Proof.
  intros Hd gs. assert (points_data s = d) as Ed by (unfold points_data; by rewrite Hd).
  destruct (groupSources_partition getTime (rd_backups d)) as (Hn & Hk & Hc & Hb & _).
  assert (gs = groupSources getTime (rd_backups d)) as Eg by (unfold gs, groups_of; by rewrite Ed). rewrite <- Eg in Hn, Hk, Hc, Hb.
  assert (∀ g, chain_of getTime s g = chainOf getTime (rd_backups d) (g_key g)) as Ech by (intros g; unfold chain_of; by rewrite Ed).
  split_and!; [done| | | | | | |apply toggled_open].
  - rewrite (map_ext _ _ Ech), <- (map_map g_key (chainOf getTime (rd_backups d))). apply chains_partition; [done|].
    intros b Hin. apply Hk. by exists b.
  - intros g Hg. rewrite Ech. destruct (Hc g Hg) as [H1 H2]. split; [|done]. intros E. rewrite E in H2. cbn in H2. lia.
  - intros b. unfold points_listed. rewrite list_elem_of_In, in_concat. split.
    + intros (l & Hl & Hin). apply in_map_iff in Hl as (g & <- & Hg%list_elem_of_In). fold gs in Hg. destruct (expanded getTime s g) eqn:Ex; [|done].
      rewrite Ech in Hin. apply list_elem_of_In, Hb in Hin as [Hin Ek]; [|done]. split; [done|]. rewrite Ek. by apply bool_decide_eq_true in Ex.
    + intros [Hin Ho]. pose proof (proj2 (Hk (sourceKey b)) (ex_intro _ b (conj Hin eq_refl))) as Hm.
      apply list_elem_of_In, in_map_iff in Hm as (x & Ek & Hg%list_elem_of_In).
      exists (chain_of getTime s x). split.
      * apply in_map_iff. exists x. split; [|by apply list_elem_of_In]. unfold expanded. rewrite Ek. by rewrite bool_decide_eq_true_2.
      * rewrite Ech. apply list_elem_of_In, Hb; [done|]. by rewrite Ek.
  - intros E. unfold points_body. rewrite Hd. fold gs. rewrite Eg, E. done.
  - intros E. unfold points_body. rewrite Hd. fold gs. destruct gs as [|g gs'] eqn:E0.
    + destruct (rd_backups d) as [|b l]; [done|]. exfalso. assert (sourceKey b ∈ map g_key ([] : list SourceGroup)) as Hx by (apply Hk; exists b; split; [by constructor|done]).
      by apply elem_of_nil in Hx.
    + eexists _, _. split; [reflexivity|]. clear - Ed. induction (g :: gs') as [|x l IH]; cbn [map]; [constructor|]. constructor; [|exact IH].
      split; [done|]. cbn [WorkloadRow wv_chain]. rewrite Ed. by destruct (expanded getTime s x).
  - intros E g Hg. unfold expanded, open_of. rewrite E. fold gs. unfold openKeys. destruct gs as [|g0 gs']; [by apply elem_of_nil in Hg|].
    apply bool_decide_ext. cbn [head fmap option_fmap option_map]. rewrite elem_of_singleton. split; [by intros ->|by intros [= ->]].
Qed.

(** ** An example: two points of one guest *)

Definition two_points : RestoreData := mkRestoreData [sample_point 1 0 Full; sample_point 2 1 Incremental] [] [] [] [].
Definition points_read : PointsState := with_pasync (mkAsync (Some two_points) false None tt [] true) mountPoints.

Lemma points_shown_witness :
  concat (map (chain_of (λ s, of_Z (Z.of_nat (length s))) points_read) (groups_of (λ s, of_Z (Z.of_nat (length s))) points_read)) ≡ₚ
    [sample_point 1 0 Full; sample_point 2 1 Incremental].
Proof.
  exact (proj1 (proj2 (points_shown (λ s, of_Z (Z.of_nat (length s))) (λ n, n) (λ _, []) (λ _, None) (λ _, []) (λ _, []) [] 0 Admin points_read two_points eq_refl))).
Defined.
