(* ===== verification/SignIn.v ===== *)
(** * Signing in and setting up (web/src/pages/LoginPage.tsx, SetupPage.tsx, AuthShell.tsx, NotFoundPage.tsx)

    The two forms outside the console, what they send and say, and what the
    server ([ServerSignIn]) answers to it. *)
From S2P Require Import Prelude JsString JsNumber JsValue Transport Endpoints Backups Ui GoString ServerSchedule Accounts ServerSignIn Widgets App.

(** ** The frame *)

Record AuthFrame := mkFrame { fr_title : jsstr; fr_subtitle : jsstr; fr_footer : option jsstr }.
Definition AuthShell (title subtitle : jsstr) (footer : option jsstr) : AuthFrame := mkFrame title subtitle (present footer).

(** A field: its label, its text and the line below. *)
Record AuthField := mkField { fi_label : jsstr; fi_value : jsstr; fi_hint : option jsstr }.

(** The notice above the fields, and the error or the note below them. *)
Record AuthView := mkView {
  av_frame : AuthFrame; av_notice : option jsstr; av_fields : list AuthField;
  av_error : option jsstr; av_note : option jsstr; av_submit : ControlView }.

(** Name and password of a request under way. *)
Abbreviation Sent := (jsstr * jsstr)%type.

(** [result.user]; [None] when reading it throws. *)
Definition user_of (result : jsval) : option jsval := get_opt result "user".

(** ** Signing in (LoginPage.tsx) *)

(** [li_left] holds the user [onAuthenticated] was given: the application is
    then shown instead of the form. *)
Record LoginPage := mkLogin {
  li_username : jsstr; li_password : jsstr; li_submitting : bool; li_error : option jsstr;
  li_flights : list Sent; li_left : option jsval; li_said : list ToastCall }.

Inductive LoginMsg :=
  | LiUsername (t : jsstr) | LiPassword (t : jsstr) | LiSubmit
  | LiAnswered (i : nat) (answer : jsval + Thrown).

Section page.
(** How the engine words its own exceptions. *)
Context (engineText : jsstr).

Definition mountLogin : LoginPage := mkLogin [] [] false None [] None [].

Definition login_problem (p : LoginPage) : option jsstr :=
  if str_eqb (trim (li_username p)) [] || str_eqb (li_password p) [] then Some (u "Enter your username and password.") else None.

(** The [catch] branch and [finally]. *)
Definition login_failed (i : nat) (err : Thrown) (p : LoginPage) : LoginPage :=
  mkLogin (li_username p) [] false (Some (errorMessage engineText err)) (delete i (li_flights p)) (li_left p) (li_said p).

Definition login_welcomed (i : nat) (user : jsval) (p : LoginPage) : LoginPage :=
  mkLogin (li_username p) (li_password p) false (li_error p) (delete i (li_flights p)) (Some user)
    (mkCall ToastSuccess (cat [u "Signed in as "; to_str (get user "username"); u "."]) None None :: li_said p).

Definition login_offered (p : LoginPage) (m : LoginMsg) : bool :=
  is_none (li_left p) &&
  match m with
  | LiUsername _ | LiPassword _ => true
  | LiSubmit => negb (button_disabled false (li_submitting p))
  | LiAnswered i _ => negb (is_none (li_flights p !! i))
  end.

Definition login_step (p : LoginPage) (m : LoginMsg) : LoginPage :=
  match m with
  | LiUsername t => mkLogin t (li_password p) (li_submitting p) (li_error p) (li_flights p) (li_left p) (li_said p)
  | LiPassword t => mkLogin (li_username p) t (li_submitting p) (li_error p) (li_flights p) (li_left p) (li_said p)
  | LiSubmit =>
      match login_problem p with
      | Some message => mkLogin (li_username p) (li_password p) (li_submitting p) (Some message) (li_flights p) (li_left p) (li_said p)
      | None =>
          mkLogin (li_username p) (li_password p) true None (li_flights p ++ [(trim (li_username p), li_password p)]) (li_left p) (li_said p)
      end
  | LiAnswered i (inl result) =>
      match user_of result with
      | Some user => if is_nullish user then login_failed i (ThrownError engineText) p else login_welcomed i user p
      | None => login_failed i (ThrownError engineText) p
      end
  | LiAnswered i (inr err) => login_failed i err p
  end.

Inductive login_run : LoginPage → Prop :=
  | login_mount : login_run mountLogin
  | login_next p m : login_run p → login_offered p m = true → login_run (login_step p m).

Definition login_view (defaultLogin : bool) (p : LoginPage) : AuthView :=
  mkView
    (AuthShell (u "Sign in") (u "Use your ProxBack console credentials.")
       (Some (u "Sessions are kept in an HTTP-only cookie and expire on the server.")))
    (if defaultLogin then Some (u "Fresh installation — sign in with admin / admin, then change the password right away.") else None)
    [mkField (u "Username") (li_username p) None; mkField (u "Password") (li_password p) None]
    (present (li_error p)) None
    (mkControlView (if li_submitting p then u "Signing in…" else u "Sign in") None
       (negb (button_disabled false (li_submitting p))) (li_submitting p)).

(** *** Properties *)

(** One request at a time, of credentials the form let through; what failed is
    said and its password forgotten. *)
Definition login_ok (p : LoginPage) : Prop :=
  length (li_flights p) = (if li_submitting p then 1 else 0)%nat
  ∧ Forall (λ f, f.1 ≠ [] ∧ trim f.1 = f.1 ∧ f.2 ≠ []) (li_flights p)
  ∧ (li_left p ≠ None → li_flights p = []).

Lemma one_flight {A} (l : list A) i x b : l !! i = Some x → length l = (if b : bool then 1 else 0)%nat → delete i l = [] ∧ b = true.
Proof. destruct b, l as [|y []], i as [|[]]; try done. Qed.

Lemma login_run_ok p : login_run p → login_ok p.
Proof.
  induction 1 as [|p m _ (H1 & H2 & H3) Ho]; [by split_and!|]. unfold login_offered in Ho. apply andb_true_iff in Ho as [Hl Ho].
  destruct (li_left p) eqn:El; [done|]. destruct m as [t|t| |i answer]; cbn [login_step].
  - split_and!; cbn; try done; rewrite El; done.
  - split_and!; cbn; try done; rewrite El; done.
  - destruct (login_problem p) as [msg|] eqn:Ep; [split_and!; cbn; try done; rewrite El; done|].
    unfold button_disabled in Ho. cbn in Ho. b2p. rewrite Ho in H1. apply length_zero_iff_nil in H1. unfold login_problem in Ep.
    destruct (str_eqb _ [] || str_eqb _ []) eqn:Ee; [done|]. apply orb_false_iff in Ee as [En Epw]. unfold login_ok. cbn [li_flights li_submitting li_left]. rewrite H1, El. cbn [app].
    split_and!; [done| |done]. repeat constructor; cbn [fst snd]; [by apply str_eqb_false|by rewrite trim_idem|by apply str_eqb_false].
  - destruct (li_flights p !! i) as [f|] eqn:Ei; [|done]. destruct (one_flight _ _ _ _ Ei H1) as [Hd _].
    assert (∀ err, login_ok (login_failed i err p)) as Hf.
    { intros err. unfold login_ok, login_failed. cbn [li_flights li_submitting li_left]. rewrite Hd. by split_and!. }
    destruct answer as [result|err]; [|apply Hf]. destruct (user_of result) as [user|]; [|apply Hf]. destruct (is_nullish user); [apply Hf|].
    unfold login_ok, login_welcomed. cbn [li_flights li_submitting li_left]. rewrite Hd. by split_and!.
Qed.
End page.

(** ** Setting up (SetupPage.tsx) *)

Definition MIN_PASSWORD_LENGTH : Z := 8.

Record SetupPage := mkSetup {
  su_username : jsstr; su_password : jsstr; su_confirm : jsstr; su_submitting : bool; su_error : option jsstr;
  su_flights : list Sent; su_left : option jsval; su_said : list ToastCall }.

Inductive SetupMsg :=
  | SuUsername (t : jsstr) | SuPassword (t : jsstr) | SuConfirm (t : jsstr) | SuSubmit
  | SuAnswered (i : nat) (answer : jsval + Thrown).

Section page.
Context (engineText : jsstr).

Definition mountSetup : SetupPage := mkSetup [] [] [] false None [] None [].

Definition setup_problem (p : SetupPage) : option jsstr :=
  if Z.of_nat (length (trim (su_username p))) <? 3 then Some (u "Choose a username of at least 3 characters.")
  else if Z.of_nat (length (su_password p)) <? MIN_PASSWORD_LENGTH
  then Some (cat [u "Use at least "; str_of_Z MIN_PASSWORD_LENGTH; u " characters for the password."])
  else if negb (str_eqb (su_password p) (su_confirm p)) then Some (u "The two passwords do not match.")
  else None.

Definition created_toast : ToastCall := mkCall ToastSuccess (u "Administrator account created.") (Some (u "Welcome to ProxBack.")) None.

(** The [catch] branch and [finally], after what was said before. *)
Definition setup_failed (i : nat) (err : Thrown) (said : list ToastCall) (p : SetupPage) : SetupPage :=
  let message := errorMessage engineText err in
  mkSetup (su_username p) (su_password p) (su_confirm p) false (Some message) (delete i (su_flights p)) (su_left p)
    (mkCall ToastError (u "Setup failed") (Some message) None :: said ++ su_said p).

Definition setup_welcomed (i : nat) (user : jsval) (p : SetupPage) : SetupPage :=
  mkSetup (su_username p) (su_password p) (su_confirm p) false (su_error p) (delete i (su_flights p)) (Some user)
    (created_toast :: su_said p).

Definition setup_offered (p : SetupPage) (m : SetupMsg) : bool :=
  is_none (su_left p) &&
  match m with
  | SuUsername _ | SuPassword _ | SuConfirm _ => true
  | SuSubmit => negb (button_disabled false (su_submitting p))
  | SuAnswered i _ => negb (is_none (su_flights p !! i))
  end.

Definition with_setup (username password confirm : jsstr) (error : option jsstr) (p : SetupPage) : SetupPage :=
  mkSetup username password confirm (su_submitting p) error (su_flights p) (su_left p) (su_said p).

Definition setup_step (p : SetupPage) (m : SetupMsg) : SetupPage :=
  match m with
  | SuUsername t => with_setup t (su_password p) (su_confirm p) (su_error p) p
  | SuPassword t => with_setup (su_username p) t (su_confirm p) (su_error p) p
  | SuConfirm t => with_setup (su_username p) (su_password p) t (su_error p) p
  | SuSubmit =>
      match setup_problem p with
      | Some message => with_setup (su_username p) (su_password p) (su_confirm p) (Some message) p
      | None =>
          mkSetup (su_username p) (su_password p) (su_confirm p) true None
            (su_flights p ++ [(trim (su_username p), su_password p)]) (su_left p) (su_said p)
      end
  | SuAnswered i (inl result) =>
      match user_of result with
      | Some user => if is_nullish user then setup_failed i (ThrownError engineText) [created_toast] p else setup_welcomed i user p
      | None => setup_failed i (ThrownError engineText) [created_toast] p
      end
  | SuAnswered i (inr err) => setup_failed i err [] p
  end.

Inductive setup_run : SetupPage → Prop :=
  | setup_mount : setup_run mountSetup
  | setup_next p m : setup_run p → setup_offered p m = true → setup_run (setup_step p m).

Definition setup_view (p : SetupPage) : AuthView :=
  mkView
    (AuthShell (u "Create the administrator account")
       (u "This is the first run of this server. The account you create here owns the console.")
       (Some (u "This account is the only way into the console — there is no password recovery.")))
    None
    [mkField (u "Username") (su_username p) None;
     mkField (u "Password") (su_password p) (Some (cat [u "At least "; str_of_Z MIN_PASSWORD_LENGTH; u " characters."]));
     mkField (u "Confirm password") (su_confirm p) None]
    (present (su_error p))
    (match present (su_error p) with
     | Some _ => None
     | None => Some (u "Passwords are stored as bcrypt hashes. Sessions use an HTTP-only cookie.")
     end)
    (mkControlView (if su_submitting p then u "Creating account…" else u "Create account and continue") None
       (negb (button_disabled false (su_submitting p))) (su_submitting p)).

(** *** Properties *)

(** One request at a time, of a name and a password the form let through. *)
Definition setup_ok (p : SetupPage) : Prop :=
  length (su_flights p) = (if su_submitting p then 1 else 0)%nat
  ∧ Forall (λ f, trim f.1 = f.1 ∧ 3 <= Z.of_nat (length f.1) ∧ 8 <= Z.of_nat (length f.2)) (su_flights p)
  ∧ (su_left p ≠ None → su_flights p = []).

Lemma setup_run_ok p : setup_run p → setup_ok p.
Proof.
  induction 1 as [|p m _ (H1 & H2 & H3) Ho]; [by split_and!|]. unfold setup_offered in Ho. apply andb_true_iff in Ho as [Hl Ho].
  destruct (su_left p) eqn:El; [done|]. assert (∀ a b c e, setup_ok (with_setup a b c e p)) as Hw by (intros; split_and!; cbn; try done; by rewrite El).
  destruct m as [t|t|t| |i answer]; cbn [setup_step]; try apply Hw.
  - destruct (setup_problem p) as [msg|] eqn:Ep; [apply Hw|].
    unfold button_disabled in Ho. cbn in Ho. b2p. rewrite Ho in H1. apply length_zero_iff_nil in H1. unfold setup_problem, MIN_PASSWORD_LENGTH in Ep.
    destruct (Z.ltb_spec (Z.of_nat (length (trim (su_username p)))) 3); [done|]. destruct (Z.ltb_spec (Z.of_nat (length (su_password p))) 8); [done|].
    unfold setup_ok. cbn [su_flights su_submitting su_left]. rewrite H1, El. cbn [app].
    split_and!; [done| |done]. repeat constructor; cbn [fst snd]; [by rewrite trim_idem|lia|lia].
  - destruct (su_flights p !! i) as [f|] eqn:Ei; [|done]. destruct (one_flight _ _ _ _ Ei H1) as [Hd _].
    assert (∀ err said, setup_ok (setup_failed i err said p)) as Hf.
    { intros err said. unfold setup_ok, setup_failed. cbn [su_flights su_submitting su_left]. rewrite Hd. by split_and!. }
    destruct answer as [result|err]; [|apply Hf]. destruct (user_of result) as [user|]; [|apply Hf]. destruct (is_nullish user); [apply Hf|].
    unfold setup_ok, setup_welcomed. cbn [su_flights su_submitting su_left]. rewrite Hd. by split_and!.
Qed.
End page.

(** ** The application behind them *)

Lemma login_left engineText p user : login_run engineText p → li_left p = Some user → is_nullish user = false.
Proof.
  intros H. revert user. induction H as [|p m _ IH Ho]; intros user Hu; [done|]. destruct m as [t|t| |i [result|err]]; cbn [login_step] in Hu.
  1,2: by apply IH.
  - destruct (login_problem p); by apply IH.
  - destruct (user_of result) as [x|]; [|by apply IH]. destruct (is_nullish x) eqn:En; [by apply IH|]. cbn in Hu. congruence.
  - by apply IH.
Qed.

Lemma setup_left engineText p user : setup_run engineText p → su_left p = Some user → is_nullish user = false.
Proof.
  intros H. revert user. induction H as [|p m _ IH Ho]; intros user Hu; [done|]. destruct m as [t|t|t| |i [result|err]]; cbn [setup_step] in Hu.
  1-3: by apply IH.
  - destruct (setup_problem p); by apply IH.
  - destruct (user_of result) as [x|]; [|by apply IH]. destruct (is_nullish x) eqn:En; [by apply IH|]. cbn in Hu. congruence.
  - by apply IH.
Qed.

(** A form that was left is left for the console. *)
Lemma left_shown engineText p d user s : login_run engineText p → li_left p = Some user → screen s = LoginScreen d →
  ∃ s', appStep engineText s (Authenticated user) = Some s' ∧ screen s' = Application.
Proof.
  intros Hr Hl Hs. pose proof (login_left _ _ _ Hr Hl) as Hn. unfold screen in Hs. cbn [appStep].
  destruct (phase s) eqn:Ep; try done. eexists. split; [done|]. unfold onAuthenticated. rewrite Hn.
  unfold screen, push. cbn [phase]. by rewrite phase_setPhase.
Qed.

(** ** With the server behind them *)

(** The struct tags of [credentials]. *)
Definition decodeCredentials (v : jsval) : option Credentials :=
  match v with
  | VObj _ => name ← dec_string (get v "username"); password ← dec_string (get v "password"); Some (mkCredentials name password)
  | VUndef | VNull => Some (mkCredentials [] [])
  | _ => None
  end.

(** What the handler of a sent request decodes. *)
Definition received (r : option Request) : option (Credentials + bytes) :=
  (λ r, match decodeCredentials (default VUndef (rq_body r)) with Some c => inl c | None => inr [] end) <$> r.

Lemma setup_received f : received (setup f.1 f.2) = Some (inl (mkCredentials (go_string f.1) (go_string f.2))).
Proof. reflexivity. Qed.
Lemma login_received f : received (login f.1 f.2) = Some (inl (mkCredentials (go_string f.1) (go_string f.2))).
Proof. reflexivity. Qed.

Lemma long_enough p : 8 <= Z.of_nat (length p) → short (go_string p) = false.
Proof. intros H. pose proof (go_string_longer p). apply Z.ltb_ge. unfold MinPasswordLength. lia. Qed.

Section served.
Context (HashPassword : bytes → option bytes) (CheckPassword : bytes → bytes → bool).
Context (bcrypt : ∀ p h, HashPassword p = Some h → CheckPassword h p = true).
Context (random : option bytes) (text : StoreError → bytes) (ip : bytes) (now : Z).

(** Where there is no account yet, whatever the page sends is an account made,
    the only one, an administrator under the name typed, or a failure of the
    server: never a refusal, save of a name only the server takes for blank. *)
Lemma setup_served engineText p f decoded db : setup_run engineText p → f ∈ su_flights p →
  received (setup f.1 f.2) = Some decoded → TrimSpace (go_string f.1) ≠ [] → t_users db = [] →
  wp (handleSetup HashPassword random text ip now decoded) (λ a db1,
    match a with
    | (RUser x, Some token) => t_users db1 = [x] ∧ us_name x = TrimSpace (go_string f.1) ∧ us_role x = RoleAdmin
        ∧ t_sessions db1 = t_sessions db ++ [mkSession token (us_id x) now (now + SessionTTL)]
    | (RError status _, None) => status = 500 ∧ t_sessions db1 = t_sessions db
    | _ => False
    end) db.
Proof.
  intros Hr Hf Er Hn He. destruct (setup_run_ok _ _ Hr) as (_ & Hall & _). rewrite Forall_forall in Hall.
  destruct (Hall f Hf) as (_ & _ & Hp). rewrite setup_received in Er. injection Er as <-.
  eapply wp_mono; [by apply setup_outcome; [| |apply long_enough]|].
  intros [[status m|x|] [token|]] db1 [Ho Ha]; cbn [fst opens] in *; try done; try (by destruct Ho).
  destruct Ha as (H1 & H2 & H3 & _). by split_and!.
Qed.

(** The credentials of an account the page made are accepted by the sign-in
    form that sends the same ones. *)
Lemma created_signs_in engineText p f decoded decoded' random' text' ip' now' db :
  setup_run engineText p → f ∈ su_flights p → TrimSpace (go_string f.1) ≠ [] → t_users db = [] →
  received (setup f.1 f.2) = Some decoded → received (login f.1 f.2) = Some decoded' →
  wp (handleSetup HashPassword random text ip now decoded) (λ a db1, ∀ x, a.1 = RUser x →
    wp (handleLogin CheckPassword random' text' ip' now' decoded') (λ b _, b.1 = RUser x ∨ ∃ m, b.1 = RError 500 m) db1) db.
Proof.
  intros Hr Hf Hn He Er Er'. destruct (setup_run_ok _ _ Hr) as (_ & Hall & _). rewrite Forall_forall in Hall.
  destruct (Hall f Hf) as (_ & _ & Hp). rewrite setup_received in Er. rewrite login_received in Er'.
  injection Er as <-. injection Er' as <-. apply setup_then_login; try done. by apply long_enough.
Qed.
End served.

(** ** An address with no page (NotFoundPage.tsx) *)

Record NotFoundView := mkNotFound { nf_title : jsstr; nf_description : jsstr; nf_action : jsstr; nf_goes : jsstr }.
Definition NotFoundPage : NotFoundView :=
  mkNotFound (u "Page not found")
    (u "That console page does not exist. Pick a section from the sidebar, or head back to the dashboard.")
    (u "Go to dashboard") (u "/").
