(* ===== verification/UsersView.v ===== *)
(** * What the users page draws (web/src/pages/UsersPage.tsx)

    The table, its three dialogs and the question before a deletion, of the
    state [UsersPage] steps. *)
From S2P Require Import Prelude JsString JsNumber JsValue Format Roles Endpoints Backups Ui Widgets UsersPage.

Definition LAST_ADMIN_REASON : jsstr :=
  u "This is the only administrator. Give someone else the administrator role first, or you would lock everyone out of this server.".

(** ** Shared pieces *)

(** [RolePicker]: its label, and each role with what it may do and whether it is picked. *)
Record RoleTile := mkTile { rt_role : Role; rt_title : jsstr; rt_description : jsstr; rt_selected : bool }.
Definition RolePicker (value : Role) (label : jsstr) : jsstr * list RoleTile :=
  (label, map (λ r, mkTile r (ROLE_LABEL r) (ROLE_SUMMARY r) (bool_decide (value = r))) ROLES).

(** [PasswordField]: whether the text is readable is a state of its own. *)
Record PasswordView := mkPasswordView { pv_label : jsstr; pv_note : option (jsstr * bool); pv_value : jsstr; pv_readable : bool; pv_reveal : jsstr }.
Definition PasswordField (visible : bool) (label hint value : jsstr) : PasswordView :=
  mkPasswordView label (field_note (Some hint) None) value visible (if visible then u "Hide the password" else u "Show the password").

(** [Modal], with the two buttons of its footer. *)
Record DialogView A := mkDialog { dl_title : jsstr; dl_subtitle : option jsstr; dl_body : A; dl_submit : ControlView }.
Arguments mkDialog {A}. Arguments dl_title {A}. Arguments dl_subtitle {A}. Arguments dl_body {A}. Arguments dl_submit {A}.
Definition Modal {A} (open : bool) (d : DialogView A) : option (DialogView A) := if open then Some d else None.

(** The error of a form, or the hint that stands in its place. *)
Definition form_note (error : option jsstr) (hint : jsstr) : jsstr * bool :=
  match present error with Some e => (e, true) | None => (hint, false) end.

Definition RoleChip (role : Role) : jsstr * jsstr := (ROLE_LABEL role, ROLE_SUMMARY role).

(** ** The dialogs *)

Record AddBody := mkAddBody { ab_username : jsstr; ab_password : PasswordView; ab_roles : jsstr * list RoleTile; ab_note : jsstr * bool }.

Definition AddUserModal (visible : bool) (s : UsersState) : option (DialogView AddBody) :=
  let f := un_add s in
  Modal (un_addOpen s)
    (mkDialog (u "Add user") (Some (u "Everyone gets their own account, so the audit trail names a person rather than “admin”."))
       (mkAddBody (ad_username f)
          (PasswordField visible (u "Password")
             (cat [u "At least "; str_of_Z MIN_PASSWORD_LENGTH; u " characters. They can change it themselves later."]) (ad_password f))
          (RolePicker (ad_role f) (u "Role for the new user"))
          (form_note (ad_error f) (u "A role can be changed at any time, and every change is recorded in the audit trail.")))
       (mkControlView (u "Add user") None (negb (button_disabled false (ad_submitting f))) (ad_submitting f))).

Definition ChangeRoleModal (s : UsersState) : option (DialogView ((jsstr * list RoleTile) * (jsstr * bool))) :=
  let f := un_change s in
  Modal (negb (is_none (un_roleFor s)))
    (mkDialog (match un_roleFor s with Some x => cat [u "Change role — "; ac_username x] | None => u "Change role" end)
       (Some (u "What this account may do from the next request onwards."))
       (RolePicker (cg_role f) (u "New role"), form_note (cg_error f) (u "Existing sessions pick up the new role on their next request."))
       (mkControlView (u "Save role") None
          (negb (button_disabled (match un_roleFor s with Some x => bool_decide (cg_role f = ac_role x) | None => true end) (cg_submitting f)))
          (cg_submitting f))).

Definition ResetPasswordModal (visible : bool) (s : UsersState) : option (DialogView (PasswordView * (jsstr * bool))) :=
  let f := un_reset s in
  Modal (negb (is_none (un_passwordFor s)))
    (mkDialog (match un_passwordFor s with Some x => cat [u "Reset password — "; ac_username x] | None => u "Reset password" end) None
       (PasswordField visible (u "New password") (cat [u "At least "; str_of_Z MIN_PASSWORD_LENGTH; u " characters."]) (rp_password f),
        form_note (rp_error f)
          (u "You are setting this password on someone else's behalf, so ProxBack cannot show it to them — pass it on yourself and ask them to change it from Settings."))
       (mkControlView (u "Reset password") None (negb (button_disabled false (rp_submitting f))) (rp_submitting f))).

(** ** The table *)

Record UserRowView := mkUserRow {
  ur_username : jsstr; ur_you : bool; ur_role : jsstr * jsstr; ur_created : jsstr; ur_lastLogin : jsstr * option jsstr;
  ur_change : ControlView; ur_reset : ControlView; ur_delete : ControlView }.

Inductive UsersBody := UsersSkeleton | UsersFailed (message : jsstr) | NoUsers | UsersTable (subtitle : jsstr) (rows : list UserRowView).

Section view.
(** How names are compared, how dates are read and written, the moment of
    drawing and the account that is signed in. *)
Context (locale_le : jsstr → jsstr → bool) (Date_parse : jsstr → option Z) (localeDate localeDateTime : Z → jsstr) (now : Z) (me : ID).

(** A control that the last administrator's row disables with the reason. *)
Definition guarded (blocked : option jsstr) (what title name : jsstr) (spins : bool) : ControlView :=
  let spoken := cat [what; name] in
  mkControlView (default title blocked) (Some (match blocked with Some b => cat [spoken; u " — "; b] | None => spoken end))
    (negb (button_disabled (negb (is_none blocked)) spins)) spins.

Definition UserRow (users : list UserAccount) (deleting : option jsstr) (x : UserAccount) : UserRowView :=
  let blocked := if lastAdmin users x then Some LAST_ADMIN_REASON else None in
  mkUserRow (ac_username x) (self me x) (RoleChip (ac_role x)) (formatDate Date_parse localeDateTime (Some (ac_createdAt x)))
    (match present (ac_lastLoginAt x) with
     | Some t => (formatRelative Date_parse localeDate (Some t) now, Some (formatDate Date_parse localeDateTime (Some t)))
     | None => (u "Never signed in", None)
     end)
    (guarded blocked (u "Change the role of ") (u "Change role") (ac_username x) false)
    (mkControlView (u "Reset password") (Some (cat [u "Reset the password of "; ac_username x])) true false)
    (guarded blocked (u "Delete ") (u "Delete user") (ac_username x) (bool_decide (deleting = Some (id_text (ac_id x))))).

Definition users_subtitle (users : list UserAccount) : jsstr :=
  if adminCount users <=? 1 then u "One administrator. Add a second so a forgotten password cannot lock you out."
  else cat [str_of_Z (Z.of_nat (length users)); u " accounts · "; str_of_Z (adminCount users); u " administrators"].

Definition users_body (s : UsersState) : UsersBody :=
  let a := un_async s in
  let users := users_of locale_le s in
  if as_loading a && is_none (as_data a) then UsersSkeleton
  else match present (as_error a), as_data a with
       | Some e, None => UsersFailed e
       | _, _ => if is_nil users then NoUsers
                 else UsersTable (users_subtitle users) (map (UserRow users (un_deleting s)) users)
       end.

(** The question before a deletion. *)
Definition delete_question (x : UserAccount) : jsstr :=
  cat [u "Delete "; ac_username x; u "? Their sessions end immediately. Jobs they created keep running, and the audit trail keeps everything they did.";
       if self me x then u " This is the account you are signed in with — you will be signed out." else []].

(** ** Properties *)

(** Exactly one tile of a picker is picked, the role it stands for. *)
Lemma one_picked value label : map rt_role (List.filter rt_selected (RolePicker value label).2) = [value].
Proof. by destruct value. Qed.

(** Every account read has its row, and no row stands for another. *)
Lemma every_account s users : as_data (un_async s) = Some users → users ≠ [] →
  ∃ subtitle rows, users_body s = UsersTable subtitle rows ∧ map ur_username rows ≡ₚ map ac_username users.
Proof.
  intros Hd Hne. unfold users_body. rewrite Hd. cbn [is_none]. rewrite andb_false_r.
  assert (users_of locale_le s ≡ₚ users) as Hp by (unfold users_of; rewrite Hd; apply sort_by_perm).
  assert (is_nil (users_of locale_le s) = false) as Hn.
  { destruct (users_of locale_le s); [|done]. apply Permutation_nil_l in Hp. by subst users. }
  exists (users_subtitle (users_of locale_le s)), (map (UserRow (users_of locale_le s) (un_deleting s)) (users_of locale_le s)).
  split; [rewrite Hn; by destruct (present _)|]. rewrite map_map. cbn [UserRow ur_username]. by apply Permutation_map.
Qed.

(** What is drawn as live is what the operator can do, and a disabled control
    says why. *)
Lemma user_controls s x : covered s = false → x ∈ users_of locale_le s →
  let r := UserRow (users_of locale_le s) (un_deleting s) x in
  (cv_live (ur_change r) = true ↔ users_offered locale_le s (NChangeRole x))
  ∧ (cv_live (ur_reset r) = true ↔ users_offered locale_le s (NReset x))
  ∧ (cv_live (ur_delete r) = true ↔ users_offered locale_le s (NDelete x))
  ∧ (lastAdmin (users_of locale_le s) x = true →
       cv_label (ur_change r) = LAST_ADMIN_REASON ∧ cv_label (ur_delete r) = LAST_ADMIN_REASON).
Proof.
  intros Hc Hx r. subst r. unfold UserRow. cbv zeta. cbn [ur_change ur_reset ur_delete users_offered]. unfold row_offered, guarded.
  cbv zeta. cbn [cv_live cv_label].
  destruct (lastAdmin (users_of locale_le s) x) eqn:El; cbn [is_none default negb button_disabled orb]; unfold button_disabled; cbn [negb orb].
  - split_and!; naive_solver.
  - rewrite negb_true_iff, bool_decide_eq_false. split_and!; naive_solver.
Qed.

(** The buttons of the dialogs are live exactly when they are felt. *)
Lemma dialog_controls visible s :
  (∀ d, AddUserModal visible s = Some d → (cv_live (dl_submit d) = true ↔ users_offered locale_le s NAddSubmit))
  ∧ (∀ d, ChangeRoleModal s = Some d → (cv_live (dl_submit d) = true ↔ users_offered locale_le s NRoleSubmit))
  ∧ (∀ d, ResetPasswordModal visible s = Some d → (cv_live (dl_submit d) = true ↔ users_offered locale_le s NResetSubmit)).
Proof.
  unfold AddUserModal, ChangeRoleModal, ResetPasswordModal, Modal. split_and!; intros d Hd.
  - destruct (un_addOpen s) eqn:E; [|done]. injection Hd as <-. cbn [dl_submit cv_live users_offered]. rewrite E.
    unfold button_disabled. cbn [orb]. rewrite negb_true_iff. naive_solver.
  - destruct (un_roleFor s) as [x|] eqn:E; [|done]. injection Hd as <-. cbn [dl_submit cv_live users_offered]. rewrite E.
    unfold button_disabled. rewrite negb_orb, andb_true_iff, !negb_true_iff, bool_decide_eq_false. naive_solver.
  - destruct (un_passwordFor s) as [x|] eqn:E; [|done]. injection Hd as <-. cbn [dl_submit cv_live users_offered]. rewrite E.
    unfold button_disabled. cbn [orb]. rewrite negb_true_iff. naive_solver.
Qed.
End view.
