(* ===== verification/TargetsView.v ===== *)
(** * What the storage targets page draws (web/src/pages/TargetsPage.tsx)

    The capacity of a target, the outcome of its test, the card around them, the
    dialog that adds one and the page, of the state [TargetsPage] steps. *)
From S2P Require Import Prelude JsString JsNumber JsValue Transport Targets Format Roles Endpoints Backups Ui Widgets UsersView TargetsPage.

(** ** A card *)

(** [Capacity]: the free figure and whether it is amber, the bar with its tone and
    name, and the three figures below it; the warning stands with the amber. *)
Record CapacityView := mkCapacityView { ca_free : jsstr; ca_low : bool; ca_bar : num * jsstr; ca_tone : PillTone; ca_name : jsstr; ca_figures : jsstr * jsstr * jsstr }.

(** [TestOutcome]: what the probe found, or why it was refused, and the warnings apart. *)
Record OutcomeView := mkOutcome { oc_ok : bool; oc_text : jsstr; oc_warnings : list (option jsstr) }.

(** The facts of a bucket. *)
Record BucketView := mkBucket { bv_bucket : jsstr; bv_region : jsstr; bv_addressing : jsstr }.

Inductive PlaceView := Directory (path : jsstr) (capacity : option CapacityView) (ownDisk : bool) | Bucket (facts : BucketView).

Record TargetCardView := mkTargetCard {
  tc_name : jsstr; tc_chip : jsstr * jsstr; tc_location : jsstr; tc_status : PillTone * jsstr * bool; tc_place : PlaceView;
  tc_outcome : option OutcomeView; tc_test : ControlView; tc_remove : ControlView }.

Inductive TargetsBody :=
  | TargetsSkeleton | TargetsFailed (message : jsstr) | NoTargets
  | TargetCards (noOffsite noLocal : bool) (cards : list TargetCardView).

(** ** The dialog *)

(** A text field, its text and the hint below. *)
Abbreviation FieldView := (jsstr * jsstr * option jsstr)%type.

Inductive AddBodyView :=
  | KindChoice (tiles : list (TargetKind * jsstr * jsstr))
  | FilesystemFields (fields : list FieldView) (own : jsstr * bool) (note : jsstr * bool)
  | S3Fields (fields : list FieldView) (pathStyle : jsstr * bool) (note : jsstr * bool).

Record AddTargetView := mkAddTargetView { vt_subtitle : jsstr; vt_back : option jsstr; vt_body : AddBodyView; vt_submit : option ControlView }.

Section view.
(** [Math.log] and lower-casing of the engine, and the role. *)
Context (Math_log : num → num) (toLowerCase : jsstr → jsstr) (role : Role).

Definition bytes_text (v : jsval) : jsstr := formatBytes Math_log v 1.

Definition Capacity (t : Target) : option CapacityView :=
  (λ c, let free := bytes_text (VNum (freeBytes c)) in let total := bytes_text (VNum (totalBytes c)) in
        let pct := formatPct (VNum (usedPct c)) 0 in
        mkCapacityView free (low c) (ProgressBar (usedPct c)) (if low c then ToneWarn else ToneNeutral)
          (cat [tg_name t; u ": "; pct; u " of "; total; u " used, "; free; u " free"])
          (bytes_text (VNum (usedBytes c)), total, pct))
  <$> capacityOf (tg_kind t) (tg_freeBytes t) (tg_totalBytes t).

Definition TestOutcome (r : TargetTestResult) : OutcomeView :=
  mkOutcome (tt_ok r)
    (if tt_ok r then
       match present (tt_filesystemType r) with
       | Some fs =>
           cat [u "Detected "; fs;
                if truthy (tt_totalBytes r)
                then cat [u " · "; bytes_text (tt_freeBytes r); u " free of "; bytes_text (tt_totalBytes r)] else []]
       | None => u "Wrote, read back, and removed a probe."
       end
     else if truthy (tt_error r) then to_str (tt_error r) else u "The target refused the probe.")
    (map describeTargetWarning (tt_warnings r)).

Definition PlaceOf (t : Target) : PlaceView :=
  match tg_kind t with
  | Filesystem => Directory (or_str (default [] (tg_path t)) (u "—")) (Capacity t) (tg_allowSameFilesystem t)
  | S3 => Bucket (mkBucket (or_str (tg_bucket t) (u "—")) (or_str (tg_region t) (u "—"))
                    (if tg_pathStyle t then u "Path-style" else u "Virtual-hosted"))
  end.

Definition can_targets : bool := manageInfrastructure (capabilitiesFor (role_val role)).
Definition targets_denied (what : jsstr) : option jsstr := if can_targets then None else Some (roleDeniedReason (role_val role) what).

(** The spoken label of a control, with the reason it is denied. *)
Definition with_reason (spoken : jsstr) (denied : option jsstr) : jsstr :=
  match denied with Some d => cat [spoken; u " — "; d] | None => spoken end.

Definition TargetCard (c : CardState) (t : Target) : TargetCardView :=
  let denied := targets_denied (u "change storage targets") in
  mkTargetCard (tg_name t) (TARGET_KIND_SHORT (tg_kind t), TARGET_KIND_LABEL (tg_kind t)) (targetLocation t)
    (StatusPill (toneForStatus toLowerCase (Some (tg_status t))) (or_str (tg_status t) (u "unknown")) false)
    (PlaceOf t) (TestOutcome <$> cs_result c)
    (mkControlView (u "Test") (Some (with_reason (cat [u "Test "; tg_name t]) denied))
       (negb (button_disabled (negb can_targets) (cs_testing c))) (cs_testing c))
    (mkControlView (default (u "Remove target") denied) (Some (with_reason (cat [u "Remove "; tg_name t]) denied))
       (negb (button_disabled (negb can_targets) (cs_deleting c))) (cs_deleting c)).

(** The question before a removal. *)
Definition remove_question (t : Target) : jsstr :=
  cat [u "Remove "; tg_name t; u "? Jobs pointing at this target stop working, and its restore points are no longer reachable from ProxBack. ";
       match tg_kind t with
       | Filesystem => u "Files already written to the directory are left alone."
       | S3 => u "Objects already in the bucket are not deleted."
       end].

(** ** The dialog and the page *)

Definition AddTargetModal (d : AddTarget) : option AddTargetView :=
  if negb (at_open d) then None else Some
    match at_kind d with
    | None =>
        mkAddTargetView (u "Back up locally, offsite, or both — pick where this target writes.") None
          (KindChoice (map (λ k, (k, TARGET_KIND_LABEL k, TARGET_KIND_SUMMARY k)) [Filesystem; S3])) None
    | Some k =>
        let note := form_note (at_error d)
          (u "Data reduction happens per target, so keep one target per bucket or directory and point as many jobs at it as you like.") in
        let fs := at_fs d in let s3 := at_s3 d in
        mkAddTargetView (TARGET_KIND_LABEL k) (Some (u "Back"))
          (match k with
           | Filesystem =>
               FilesystemFields
                 [(u "Display name", fs_name fs, None);
                  (u "Directory", fs_path fs, Some (u "An absolute path that already exists on this server."))]
                 (u "Allow this path on ProxBack’s own filesystem", fs_allow fs) note
           | S3 =>
               S3Fields
                 [(u "Display name", s3_name s3, None); (u "Endpoint", s3_endpoint s3, Some (u "Full URL including scheme."));
                  (u "Region", s3_region s3, Some (u "Leave blank if your provider ignores it.")); (u "Bucket", s3_bucket s3, None);
                  (u "Access key", s3_accessKey s3, None); (u "Secret key", s3_secretKey s3, Some (u "Encrypted at rest; never returned by the API."))]
                 (u "Use path-style addressing", s3_pathStyle s3) note
           end)
          (Some (mkControlView (u "Add target") None (negb (button_disabled false (at_submitting d))) (at_submitting d)))
    end.

Definition add_button : ControlView :=
  let denied := targets_denied (u "add storage targets") in
  mkControlView (u "Add Target") ((λ d, cat [u "Add Target — "; d]) <$> denied) can_targets false.

Definition targets_body (s : TargetsState) : TargetsBody :=
  let a := tp_async s in
  let targets := targets_of s in
  if as_loading a && is_none (as_data a) then TargetsSkeleton
  else match present (as_error a), as_data a with
       | Some e, None => TargetsFailed e
       | _, _ => if is_nil targets then NoTargets
                 else TargetCards (offsite_count targets =? 0) (local_count targets =? 0)
                        (map (λ t, TargetCard (card_of t s) t) targets)
       end.

(** ** Properties *)

(** A capacity is drawn for a directory alone, and its warning exactly with the
    amber figures. *)
Lemma capacity_drawn t v : Capacity t = Some v → tg_kind t = Filesystem ∧ (ca_tone v = ToneWarn ↔ ca_low v = true).
Proof.
  unfold Capacity, capacityOf. destruct (tg_kind t); [done|]. cbn [negb bool_decide decide decide_rel]. intros H. split; [done|].
  destruct (negb _); [done|]. destruct (_ || nle _ _); [done|]. destruct (_ || nlt _ _); [done|].
  injection H as <-. cbn [ca_tone ca_low low]. by destruct (nlt _ _).
Qed.

(** Red and amber are apart: warnings never make a test look refused, nor does
    their absence make a refusal look usable. *)
Lemma outcome_apart r : oc_ok (TestOutcome r) = tt_ok r ∧ length (oc_warnings (TestOutcome r)) = length (tt_warnings r)
  ∧ (tt_ok r = false → tt_error r = VUndef → oc_text (TestOutcome r) = u "The target refused the probe.").
Proof. unfold TestOutcome. cbn [oc_ok oc_warnings oc_text]. split_and!; [done|by rewrite length_map|]. by intros -> ->. Qed.

(** The two notes are never both shown above cards. *)
Lemma notes_apart s a b cards : targets_body s = TargetCards a b cards → cards ≠ [] ∧ negb (a && b) = true.
Proof.
  unfold targets_body. cbv zeta. destruct (as_loading _ && _); [done|]. intros H.
  assert (is_nil (targets_of s) = false ∧ a = (offsite_count (targets_of s) =? 0) ∧ b = (local_count (targets_of s) =? 0)
          ∧ cards = map (λ t, TargetCard (card_of t s) t) (targets_of s)) as (Hn & -> & -> & ->).
  { assert ((if is_nil (targets_of s) then NoTargets else TargetCards (offsite_count (targets_of s) =? 0) (local_count (targets_of s) =? 0)
               (map (λ t, TargetCard (card_of t s) t) (targets_of s))) = TargetCards a b cards) as H'
      by (destruct (present _); [destruct (as_data _)|]; done).
    destruct (is_nil (targets_of s)); [done|]. by injection H' as <- <- <-. }
  unfold offsite_count. destruct (targets_of s) as [|t l] eqn:E; [done|]. split; [done|].
  destruct (local_count (t :: l) =? 0) eqn:El; [|by rewrite andb_false_r]. apply Z.eqb_eq in El. rewrite El. cbn [length].
  rewrite (proj2 (Z.eqb_neq _ _)) by lia. done.
Qed.

(** What is drawn as live is what the operator can do. *)
Lemma card_controls s t : targets_uncovered s = true → t ∈ targets_of s →
  let c := TargetCard (card_of t s) t in
  (cv_live (tc_test c) = true ↔ targets_offered can_targets s (GTest t))
  ∧ (cv_live (tc_remove c) = true ↔ targets_offered can_targets s (GRemove t))
  ∧ (cv_live add_button = true ↔ targets_offered can_targets s GAdd).
Proof.
  intros Hu Ht c. subst c. unfold TargetCard, add_button. cbv zeta. cbn [tc_test tc_remove cv_live targets_offered]. unfold button_disabled.
  rewrite !negb_true_iff, !orb_false_iff, !negb_false_iff. split_and!; naive_solver.
Qed.

(** So in the dialog, whose form is submitted only once a kind is chosen. *)
Lemma add_controls s v : AddTargetModal (tp_add s) = Some v →
  (from_option cv_live false (vt_submit v) = true ↔ targets_offered can_targets s GSubmit)
  ∧ (∀ k, is_none (vt_back v) = true ↔ targets_offered can_targets s (GKind (Some k))).
Proof.
  unfold AddTargetModal. destruct (at_open (tp_add s)) eqn:Eo; [|done]. cbn [negb]. intros H. apply (inj Some) in H. subst v.
  cbn [targets_offered]. rewrite Eo. destruct (at_kind (tp_add s)) as [k|]; cbn [vt_submit vt_back is_none from_option cv_live].
  - unfold button_disabled. cbn [orb]. rewrite negb_true_iff. split.
    + split; [by intros H; split_and!|by intros (_ & _ & H)].
    + intros k'. split; [done|]. by intros [_ H].
  - split; [split; [done|by intros (_ & H & _)]|]. intros k. by split.
Qed.
End view.
