(* ===== verification/Shell.v ===== *)
(** * The frame of the console (web/src/theme.tsx, components/Layout.tsx, components/Toast.tsx)

    The theme and what it leaves in the browser, the navigation with its drawer,
    and the notifications as they are drawn. *)
From S2P Require Import Prelude JsString JsNumber JsValue Transport Roles Endpoints Backups Widgets App.

(** ** The theme (theme.tsx) *)

Inductive ThemeChoice := LightChoice | DarkChoice | SystemChoice.
Inductive ResolvedTheme := LightTheme | DarkTheme.

#[export] Instance ThemeChoice_eq_dec : EqDecision ThemeChoice.
Proof. solve_decision. Defined.
#[export] Instance ResolvedTheme_eq_dec : EqDecision ResolvedTheme.
Proof. solve_decision. Defined.

Definition choice_text (c : ThemeChoice) : jsstr :=
  match c with LightChoice => u "light" | DarkChoice => u "dark" | SystemChoice => u "system" end.
Definition theme_text (t : ResolvedTheme) : jsstr := match t with LightTheme => u "light" | DarkTheme => u "dark" end.

(** The browser: [localStorage], which may throw, the item kept in it, whether
    [matchMedia] exists and what it says of the operating system. *)
Record Browser := mkBrowser { br_storage : bool; br_item : option jsstr; br_media : bool; br_prefersLight : bool }.

Definition readStored (b : Browser) : ThemeChoice :=
  if br_storage b then
    match br_item b with
    | Some raw => if str_eqb raw (u "light") then LightChoice else if str_eqb raw (u "dark") then DarkChoice else SystemChoice
    | None => SystemChoice
    end
  else SystemChoice.

Definition systemTheme (b : Browser) : ResolvedTheme :=
  if br_media b then if br_prefersLight b then LightTheme else DarkTheme else DarkTheme.

(** [th_attribute] is [data-theme] on the document, which the style sheet reads. *)
Record ThemeState := mkTheme { th_choice : ThemeChoice; th_system : ResolvedTheme; th_attribute : ResolvedTheme; th_browser : Browser }.

Definition resolve (choice : ThemeChoice) (system : ResolvedTheme) : ResolvedTheme :=
  match choice with SystemChoice => system | LightChoice => LightTheme | DarkChoice => DarkTheme end.
Definition resolved (s : ThemeState) : ResolvedTheme := resolve (th_choice s) (th_system s).

(** The effect on the document runs after every render. *)
Definition paint (choice : ThemeChoice) (system : ResolvedTheme) (b : Browser) : ThemeState :=
  mkTheme choice system (resolve choice system) b.

Definition mountTheme (b : Browser) : ThemeState := paint (readStored b) (systemTheme b) b.

Definition stored (next : ThemeChoice) (b : Browser) : Browser :=
  if br_storage b then
    mkBrowser true (match next with SystemChoice => None | _ => Some (choice_text next) end) (br_media b) (br_prefersLight b)
  else b.

Inductive ThemeMsg :=
  | TmChoose (next : ThemeChoice)
  (** The operating system flips; a page without [matchMedia] does not hear of it. *)
  | TmFlip (light : bool)
  (** The page is loaded again. *)
  | TmReload.

Definition theme_step (s : ThemeState) (m : ThemeMsg) : ThemeState :=
  let b := th_browser s in
  match m with
  | TmChoose next => paint next (th_system s) (stored next b)
  | TmFlip light =>
      let b' := mkBrowser (br_storage b) (br_item b) (br_media b) light in
      paint (th_choice s) (if br_media b then systemTheme b' else th_system s) b'
  | TmReload => mountTheme b
  end.

Inductive theme_run (b : Browser) : ThemeState → Prop :=
  | theme_mount : theme_run b (mountTheme b)
  | theme_next s m : theme_run b s → theme_run b (theme_step s m).

(** [ThemeToggle]. *)
Definition OPTIONS : list (ThemeChoice * jsstr) := [(LightChoice, u "Light"); (SystemChoice, u "System"); (DarkChoice, u "Dark")].
Definition ThemeToggle (s : ThemeState) : list (ThemeChoice * jsstr * bool) :=
  map (λ o, (o.1, cat [o.2; u " theme"], bool_decide (o.1 = th_choice s))) OPTIONS.

(** *** Properties *)

Lemma readStored_stored next b : br_storage b = true → readStored (stored next b) = next.
Proof. intros H. unfold stored, readStored. rewrite H. by destruct next. Qed.

(** What is on screen is the choice, with the system's preference where the
    system is to decide; and where there is storage the choice is what the next
    load will read. *)
Definition theme_ok (s : ThemeState) : Prop :=
  th_attribute s = resolved s
  ∧ th_system s = systemTheme (th_browser s)
  ∧ (br_storage (th_browser s) = true → readStored (th_browser s) = th_choice s).

Lemma theme_run_ok b s : theme_run b s → theme_ok s.
Proof.
  induction 1 as [|s m _ (H1 & H2 & H3)]; [by split_and!|]. unfold theme_ok, resolved.
  destruct m as [next|light|]; cbn [theme_step paint mountTheme th_attribute th_choice th_system th_browser].
  - split_and!; [done| |].
    + rewrite H2. unfold stored, systemTheme. by destruct (br_storage (th_browser s)).
    + intros Hs. apply readStored_stored. revert Hs. unfold stored. destruct (br_storage (th_browser s)) eqn:E; cbn; congruence.
  - split_and!; [done| |exact H3]. rewrite H2. unfold systemTheme. cbn [br_media br_prefersLight]. by destruct (br_media _).
  - by split_and!.
Qed.

(** Loading the page again changes nothing that is seen, where there is storage. *)
Lemma reload_same b s : theme_run b s → br_storage (th_browser s) = true → theme_step s TmReload = s.
Proof.
  intros (H1 & H2 & H3)%theme_run_ok Hs. cbn [theme_step]. unfold mountTheme, paint. rewrite (H3 Hs), <- H2.
  unfold resolved in H1. rewrite <- H1. by destruct s.
Qed.

(** Exactly one option is marked, and choosing it is choosing what is shown. *)
Lemma one_marked s : map (λ o, o.1.1) (List.filter (λ o, o.2) (ThemeToggle s)) = [th_choice s].
Proof. unfold ThemeToggle, OPTIONS. by destruct (th_choice s). Qed.

(** ** The navigation (components/Layout.tsx) *)

(** Whether the drawer is open, and where the router is. *)
Record LayoutState := mkLayout { ly_drawer : bool; ly_path : jsstr }.

Inductive LayoutMsg :=
  | LyOpen | LyClose
  (** A link of the sidebar or of the drawer, and any other change of address. *)
  | LyNav (drawer : bool) (item : NavItem) | LyGo (path : jsstr).

Section layout.
Context (can : Capabilities).

Definition nav_items : list NavItem := concat (map items (navFor can)).

Definition mountLayout (path : jsstr) : LayoutState := mkLayout false path.

(** The effect closes the drawer when the path changed. *)
Definition go (path : jsstr) (s : LayoutState) : LayoutState :=
  mkLayout (if str_eqb path (ly_path s) then ly_drawer s else false) path.

Definition layout_offered (s : LayoutState) (m : LayoutMsg) : Prop :=
  match m with
  | LyClose => ly_drawer s = true
  | LyNav drawer item => item ∈ nav_items ∧ (drawer = true → ly_drawer s = true)
  | LyOpen | LyGo _ => True
  end.

Definition layout_step (s : LayoutState) (m : LayoutMsg) : LayoutState :=
  match m with
  | LyOpen => mkLayout true (ly_path s)
  | LyClose => mkLayout false (ly_path s)
  | LyNav drawer item => go (nav_to item) (if drawer then mkLayout false (ly_path s) else s)
  | LyGo path => go path s
  end.

(** A link of the drawer closes it, the one of the page already shown too, and
    shows the page it names. *)
Lemma drawer_closes s item : layout_offered s (LyNav true item) →
  layout_step s (LyNav true item) = mkLayout false (nav_to item).
Proof. intros _. cbn [layout_step go ly_path ly_drawer]. unfold go. cbn [ly_path ly_drawer]. by destruct (str_eqb _ _). Qed.

(** No link leads to a page that explains it is not for this role, or to none. *)
Lemma links_lead s item drawer : layout_offered s (LyNav drawer item) → manageUsers can = viewAudit can →
  ∃ page, page_shown can (nav_to item) = Some page ∧ page ≠ NotFound.
Proof.
  intros [Hi _] Hv. unfold nav_items, navFor in Hi. apply list_elem_of_In, in_concat in Hi as (l & Hl & Hi).
  apply in_map_iff in Hl as (g & <- & [Hg _]%filter_In). apply in_map_iff in Hg as (g' & <- & Hg'). cbn [items] in Hi.
  apply filter_In in Hi as [Hi Hc].
  assert (Hall : Forall (λ g, Forall (λ i, (match nav_needs i with Some c => can_do can c | None => true end) = true →
            ∃ page, page_shown can (nav_to i) = Some page ∧ page ≠ NotFound) (items g)) NAV_GROUPS).
  { repeat constructor; cbn [nav_needs nav_to can_do]; intros H; unfold page_shown; vm_compute route; cbn [andb negb];
      rewrite <- ?Hv in H; rewrite ?H; cbn; by eexists. }
  rewrite Forall_forall in Hall. apply list_elem_of_In in Hg'. specialize (Hall _ Hg'). rewrite Forall_forall in Hall.
  apply (Hall item); [by apply list_elem_of_In|done].
Qed.

(** What surrounds the pages. *)
Record LayoutView := mkLayoutView {
  lv_groups : list NavGroup; lv_signedIn : jsstr; lv_version : option jsstr; lv_role : jsstr * jsstr;
  lv_server : jsstr; lv_drawer : bool; lv_defaultPassword : bool }.

(** [user.username] throws when the session has no user. *)
Definition layout_view (user : jsval) (role : Role) (serverName serverVersion : jsval) (mustChange : bool) (s : LayoutState) : option LayoutView :=
  username ← get_opt user "username";
  Some (mkLayoutView (navFor can) (cat [u "Signed in as "; to_str username])
    (if truthy serverVersion then Some (cat [u "v"; to_str serverVersion]) else None)
    (role_text role, cat [u "Signed in with the "; map lower (ROLE_LABEL role); u " role"])
    (to_str serverName) (ly_drawer s) mustChange).
End layout.

(** The capabilities of a role always agree on the two administrator's pages. *)
Lemma role_pages role : manageUsers (capabilitiesFor role) = viewAudit (capabilitiesFor role).
Proof. reflexivity. Qed.

(** A session without a user cannot be drawn. *)
Lemma nobody_drawn can role name version must s : layout_view can VNull role name version must s = None.
Proof. reflexivity. Qed.

(** ** Notifications as drawn (components/Toast.tsx) *)

Record ToastView := mkToastView { tv_kind : ToastKind; tv_title : jsstr; tv_detail : option jsstr; tv_action : option jsstr }.
Definition toast_view (t : Toast) : ToastView :=
  mkToastView (tc_kind (to_call t)) (tc_title (to_call t)) (present (tc_detail (to_call t))) (tc_action (to_call t)).
Definition ToastProvider (s : Toasts) : list ToastView := map toast_view (ts_toasts s).
