(* ===== verification/HelpersView.v ===== *)
(** * What the node helpers section draws (web/src/components/HelpersSection.tsx)

    The notices, the table with its controls, and the part for installing by
    hand, of the state [Helpers] steps. *)
From S2P Require Import Prelude JsString JsNumber JsValue Transport Inventory Format Roles Endpoints Backups Ui Widgets Helpers CopyField.

(** A list to choose from: each value with its label, and the one chosen. *)
Record SelectView := mkSelect { sl_options : list (jsstr * jsstr); sl_value : jsstr }.

Record BindView := mkBind { bi_select : SelectView; bi_spoken : jsstr; bi_button : ControlView }.

(** The first column: the cluster, or the pill of a helper no cluster claims with its control. *)
Inductive ClusterCell := BoundTo (cluster : jsstr) | Unassigned (bind : BindView).

Record HelperRowView := mkHelperRow {
  hw_cluster : ClusterCell; hw_node : jsstr; hw_address : jsstr; hw_version : jsstr;
  hw_status : option (PillTone * jsstr * bool); hw_seen : jsstr; hw_remove : ControlView }.

Inductive HelpersBody := HelpersFailed (message : jsstr) | HelpersTable (rows : list HelperRowView) | NoHelpers.

Record ManualView := mkManual { mv_clusters : SelectView; mv_generate : ControlView; mv_token : option (CopyFieldView * CopyFieldView) }.

Record SectionView := mkSectionView {
  sv_deploy : ControlView; sv_unassigned : option jsstr; sv_body : HelpersBody; sv_uncovered : option jsstr; sv_manual : ManualView }.

(** A text the server sent, where it sent one. *)
Definition text_of (v : jsval) : option jsstr := match v with VStr s => Some s | _ => None end.

Section view.
(** The engine's formatting, the moment of drawing, the role and the origin of
    the page; [expiresAt] is the second field of the token held. *)
Context (toLowerCase : jsstr → jsstr) (Date_parse : jsstr → option Z) (localeDate : Z → jsstr) (now : Z) (role : Role) (origin expiresAt : jsstr).

Definition can_helpers : bool := manageInfrastructure (capabilitiesFor (role_val role)).
Definition helpers_denied : option jsstr :=
  if can_helpers then None else Some (roleDeniedReason (role_val role) (u "deploy or remove node helpers")).

(** A [Select] of clusters. *)
Definition choose_cluster (hosts : list Host) (value : jsstr) : SelectView :=
  mkSelect (([], u "Choose a cluster…") :: map (λ h, (id_text (ho_id h), ho_name h)) hosts) value.

Definition AssignControl (hosts : list Host) (h : Helper) (row : jsstr * bool) : BindView :=
  mkBind (choose_cluster hosts row.1) (cat [u "Cluster for the helper on "; he_node h])
    (mkControlView (u "Bind") None (negb (button_disabled (str_eqb row.1 []) row.2)) row.2).

Definition HelperRow (s : HelpersSection) (h : Helper) : HelperRowView :=
  let orphan := unassigned_helper h in
  let spins := bool_decide (hs_deleting s = Some (id_text (he_id h))) in
  let spoken := cat [u "Remove the helper for "; he_node h] in
  mkHelperRow
    (if orphan then Unassigned (AssignControl (hs_hosts s) h (row_of s h)) else BoundTo (default (u "—") (present (he_hostName h))))
    (he_node h) (cat [he_address h; u ":"; str_of_num (he_port h)]) (he_version h)
    (if orphan then None
     else Some (StatusPill (toneForStatus toLowerCase (text_of (he_status h))) (default [] (text_of (he_status h))) false))
    (formatRelative Date_parse localeDate (text_of (he_lastSeen h)) now)
    (mkControlView (default (u "Remove helper") helpers_denied)
       (Some (match helpers_denied with Some d => cat [spoken; u " — "; d] | None => spoken end))
       (negb (button_disabled (negb can_helpers) spins)) spins).

(** [failed] is the message of a listing that failed before any succeeded. *)
Definition helpers_body (failed : option jsstr) (s : HelpersSection) : HelpersBody :=
  match present failed, hs_helpers s with
  | Some e, _ => HelpersFailed e
  | None, [] => NoHelpers
  | None, helpers => HelpersTable (map (HelperRow s) helpers)
  end.

Definition install_manually (s : HelpersSection) : ManualView :=
  mkManual (choose_cluster (hs_hosts s) (hs_tokenHostId s))
    (mkControlView (if is_none (hs_token s) then u "Generate token" else u "Generate another token") None
       (negb (button_disabled (str_eqb (hs_tokenHostId s) [] || negb can_helpers) (hs_generating s))) (hs_generating s))
    ((λ token,
        (CopyField token (Some (u "Enrollment token"))
           (Some (cat [u "Single use — expires "; formatRelative Date_parse localeDate (Some expiresAt) now; u ". Generate one token per node."]))
           (Some (u "Token")),
         CopyField (helperInstallCommand origin token) (Some (u "Proxmox node — root shell"))
           (Some (u "Downloads the helper, installs its service, and registers this node.")) (Some (u "Helper install command"))))
     <$> hs_token s).

Definition section_view (failed : option jsstr) (s : HelpersSection) : SectionView :=
  let unassigned := Z.of_nat (length (List.filter unassigned_helper (hs_helpers s))) in
  let gaps := uncovered (hs_hosts s) (hs_helpers s) (hs_vms s) in
  mkSectionView
    (mkControlView (u "Deploy helper") ((λ d, cat [u "Deploy helper — "; d]) <$> helpers_denied) can_helpers false)
    (if 0 <? unassigned then Some (unassignedText unassigned) else None)
    (helpers_body failed s)
    (if negb (is_nil gaps) && negb (is_nil (hs_helpers s)) then Some (uncoveredText gaps) else None)
    (install_manually s).

(** ** Properties *)

(** The controls of a row are live when they are felt; to bind asks for no
    right, which the server then does. *)
Lemma helper_row_controls s h :
  (cv_live (hw_remove (HelperRow s h)) = true ↔ can_helpers = true ∧ helpers_offered s (HRemove h) = true)
  ∧ (∀ b, hw_cluster (HelperRow s h) = Unassigned b → (cv_live (bi_button b) = true ↔ helpers_offered s (HBind h) = true)).
Proof.
  unfold HelperRow. cbv zeta. cbn [hw_remove hw_cluster cv_live helpers_offered]. split.
  - unfold button_disabled. rewrite negb_true_iff, orb_false_iff, negb_false_iff, negb_true_iff. done.
  - intros b. destruct (unassigned_helper h); [|done]. intros H. assert (b = AssignControl (hs_hosts s) h (row_of s h)) as -> by congruence.
    unfold AssignControl, button_disabled. cbn [bi_button cv_live]. by rewrite negb_orb.
Qed.

Lemma generate_control s :
  cv_live (mv_generate (install_manually s)) = true ↔ can_helpers = true ∧ helpers_offered s HGenerate = true.
Proof.
  unfold install_manually, button_disabled. cbn [mv_generate cv_live helpers_offered].
  rewrite negb_true_iff, !orb_false_iff, negb_false_iff, andb_true_iff, !negb_true_iff. naive_solver.
Qed.

(** A helper no cluster claims is drawn without a status, and with a way to claim it. *)
Lemma orphan_drawn s h : unassigned_helper h = true →
  hw_status (HelperRow s h) = None ∧ ∃ b, hw_cluster (HelperRow s h) = Unassigned b.
Proof. intros H. unfold HelperRow. cbv zeta. rewrite H. cbn. split; [done|by eexists]. Qed.

(** The notice of nodes without a helper is that of the gaps, once there is a
    helper at all. *)
Lemma notice_of_gaps failed s : sv_uncovered (section_view failed s) = None ↔
  uncovered (hs_hosts s) (hs_helpers s) (hs_vms s) = [] ∨ hs_helpers s = [].
Proof.
  unfold section_view. cbv zeta. cbn [sv_uncovered].
  destruct (uncovered _ _ _), (hs_helpers s); cbn; (split; [try done; auto|by intros [|]]).
Qed.
End view.

(** The token shown is of the cluster chosen when it was asked for: choosing
    another leaves it on screen under that choice. *)
Lemma token_under_another_cluster (engineText : jsstr) a b token : a ≠ [] →
  let s0 := mkSection [] [] [] None [] false None [] [] [] [] 0 in
  let s := fold_left (helpers_step engineText) [HTokenHost a; HGenerate; HDone 0 token; HTokenHost b] s0 in
  hs_token s = Some token ∧ hs_tokenHostId s = b ∧ hs_pending (fold_left (helpers_step engineText) [HTokenHost a; HGenerate] s0) = [AskToken a].
Proof. intros Ha s0 s. by split_and!. Qed.
