(* ===== verification/SettingsView.v ===== *)
(** * What the settings page draws (web/src/pages/SettingsPage.tsx)

    The three cards of the settings form, the software update card, the password
    card, and which of them a role is shown, of the states [SettingsPage] and
    [UpdateCard] step. *)
From S2P Require Import Prelude JsString JsNumber JsValue Transport Roles Endpoints Backups Ui Widgets SettingsPage UpdateCard.

(** ** The settings form *)

(** The buttons of a card: Save, and Discard or what stands in its place. *)
Record FooterView := mkFooter { fo_save : ControlView; fo_rest : ControlView + jsstr }.

Definition NOTIFY_OPTIONS : list (NotifyOn * jsstr) :=
  [(NotifyOff, u "Off"); (NotifyFailures, u "Failures only"); (NotifyAll, u "All runs")].
Definition COMPRESSION_OPTIONS : list (Compression * jsstr) := [(CompressZstd, u "zstd"); (CompressOff, u "Off")].

Record ServerCardView := mkServerCard { se_name : jsstr; se_concurrency : jsstr; se_timezone : jsstr; se_error : option jsstr; se_footer : FooterView }.
Record PerformanceView := mkPerformance {
  pf_transfers : jsstr; pf_limit : jsstr; pf_compression : list (Compression * jsstr * bool); pf_says : jsstr; pf_error : option jsstr; pf_footer : FooterView }.
Record NotificationsView := mkNotifications {
  no_url : jsstr; no_on : list (NotifyOn * jsstr * bool); no_says : jsstr; no_error : option jsstr; no_test : ControlView; no_footer : FooterView }.

Definition saving (card : SaveCard) (s : SettingsState) : bool := bool_decide (sp_submitting s = Some card).

(** [disabled] of Discard: the server card waits for any save, the others for their own. *)
Definition discard_waits (card : SaveCard) (s : SettingsState) : bool :=
  match card with ServerCard => negb (is_none (sp_submitting s)) | _ => saving card s end.

Definition footer (card : SaveCard) (idle : jsstr) (s : SettingsState) : FooterView :=
  mkFooter
    (mkControlView (u "Save changes") None (negb (button_disabled (negb (card_dirty card s)) (saving card s))) (saving card s))
    (if card_dirty card s then inl (mkControlView (u "Discard") None (negb (button_disabled (discard_waits card s) false)) false) else inr idle).

Definition server_card (s : SettingsState) : ServerCardView :=
  mkServerCard (ss_serverName (sp_form s)) (str_of_num (ss_concurrency (sp_form s)))
    (default (u "server local") (present (data ← sp_data s; ss_timezone data))) (present (er_server (sp_error s)))
    (footer ServerCard (u "No unsaved changes") s).

Definition performance_card (s : SettingsState) : PerformanceView :=
  let f := sp_form s in
  let parallel := cat [str_of_num (ss_uploadConcurrency f); u " parallel uploads, "] in
  mkPerformance (str_of_num (ss_uploadConcurrency f)) (str_of_num (ss_uploadLimitMbps f))
    (Segmented (ss_compression f) COMPRESSION_OPTIONS)
    (match ss_compression f with
     | CompressZstd => u "Data is zstd-compressed before it is sent — less bandwidth and less stored data."
     | CompressOff => u "Data is sent as it is read. Choose this only if your sources are already compressed or encrypted."
     end)
    (present (er_perf (sp_error s)))
    (footer PerformanceCard
       (if nlt (of_Z 0) (ss_uploadLimitMbps f) then cat [parallel; u "capped at "; str_of_num (ss_uploadLimitMbps f); u " Mbps"]
        else cat [parallel; u "unthrottled"]) s).

Definition notifications_card (data : Settings) (s : SettingsState) : NotificationsView :=
  let f := sp_form s in
  let dirty := card_dirty NotificationsCard s in
  let saved := negb (str_eqb (ss_webhookUrl data) []) in
  mkNotifications (ss_webhookUrl f) (Segmented (ss_notifyOn f) NOTIFY_OPTIONS)
    (match ss_notifyOn f with
     | NotifyOff => u "Nothing is sent, even with a URL saved."
     | NotifyFailures => u "Only failed backup, restore, and verify runs are reported."
     | NotifyAll => u "Every finished backup, restore, and verify run is reported."
     end)
    (present (er_notify (sp_error s)))
    (mkControlView
       (if negb saved then u "Save a webhook URL first." else if dirty then u "Save your changes first." else u "Send test")
       None (negb (button_disabled (negb saved || dirty) (sp_testing s))) (sp_testing s))
    (footer NotificationsCard
       (if saved then match ss_notifyOn f with NotifyOff => u "URL saved — notifications are off" | _ => u "Notifications are active" end
        else u "No webhook configured") s).

(** ** The software update card *)

Inductive ReleaseView :=
  | CheckFailed (message : jsstr)
  | Available (version : jsstr) (notes : option jsstr) (noBinary : bool)
  | UpToDate | NonePublished.

Record StatusView := mkStatusView {
  st_installed : jsstr; st_latest : jsstr; st_release : ReleaseView;
  st_blocked : option (jsstr * ControlView * ControlView); st_install : option ControlView; st_check : ControlView; st_link : option jsstr }.

Inductive UpdateView := Restarting | CheckingForUpdates | UpdateFailed (message : jsstr) | UpdateStatusView (v : StatusView) | NothingShown.

(** [status.latestVersion] in a text. *)
Definition latest_text (st : UpdateStatus) : jsstr := default (u "undefined") (us_latestVersion st).

Definition release_view (st : UpdateStatus) : ReleaseView :=
  match present (us_checkError st) with
  | Some e => CheckFailed (cat [u "Could not reach the release repository: "; e])
  | None =>
      if us_updateAvailable st then
        Available (cat [u "Version "; default [] (us_latestVersion st); u " is available."]) (present (us_releaseNotes st)) (negb (us_assetAvailable st))
      else match present (us_latestVersion st) with Some _ => UpToDate | None => NonePublished end
  end.

Definition status_view (s : UpdateState) (st : UpdateStatus) : StatusView :=
  mkStatusView (cat [u "v"; us_currentVersion st])
    (match present (us_latestVersion st) with Some v => cat [u "v"; v] | None => u "— none published" end)
    (release_view st)
    ((λ m, (m, mkControlView (u "Wait") None true false,
            mkControlView (u "Install anyway") None (negb (button_disabled false (up_applying s))) (up_applying s)))
     <$> present (up_blocked s))
    (if us_updateAvailable st && us_assetAvailable st
     then Some (mkControlView (u "Install update") None (negb (button_disabled false (up_applying s))) (up_applying s)) else None)
    (mkControlView (u "Check again") None (negb (button_disabled false (as_loading (up_async s)))) (as_loading (up_async s)))
    (present (us_releaseUrl st)).

Definition update_view (s : UpdateState) : UpdateView :=
  let a := up_async s in
  if up_restarting s then Restarting
  else match as_data a with
       | None =>
           if as_loading a then CheckingForUpdates
           else match present (as_error a) with Some e => UpdateFailed e | None => NothingShown end
       | Some st => UpdateStatusView (status_view s st)
       end.

(** The question before an installation: its title, its text, its button. *)
Definition install_question (force : bool) (st : UpdateStatus) : jsstr * jsstr * jsstr :=
  if force then
    (cat [u "Install "; latest_text st; u " and cancel running work?"],
     u "The runs in progress will be canceled by the restart. Data they already transferred is kept, so a retry resumes cheaply — but the restore points from those runs are not created.",
     u "Install anyway")
  else
    (cat [u "Install ProxBack "; latest_text st; u "?"],
     u "The new server binary is downloaded, checksum-verified, and swapped in. The server then restarts itself — expect a few seconds of downtime.",
     u "Install update").

(** ** The password card *)

Record PasswordCardView := mkPasswordCard { pc_subtitle : jsstr; pc_current : jsstr; pc_next : jsstr; pc_confirm : jsstr; pc_error : option jsstr; pc_change : ControlView }.

Definition password_card (c : PasswordCard) : PasswordCardView :=
  mkPasswordCard
    (if pw_must c then u "This server still uses the default admin / admin password — change it now." else u "Change the password you sign in with.")
    (pw_current c) (pw_next c) (pw_confirm c) (present (pw_error c))
    (mkControlView (u "Change password") None (negb (button_disabled false (pw_submitting c))) (pw_submitting c)).

(** ** The page *)

Inductive ServerPart := SettingsLoading | SettingsFailed (message : jsstr) | SettingsServer (v : ServerCardView).

Inductive SettingsPageView :=
  | PasswordOnly (note : jsstr) (password : PasswordCardView)
  | AllSettings (server : ServerPart) (update : UpdateView) (performance : option PerformanceView) (notifications : option NotificationsView)
      (password : PasswordCardView).

Definition server_part (s : SettingsState) : ServerPart :=
  let a := sp_async s in
  if as_loading a && is_none (as_data a) then SettingsLoading
  else match present (as_error a), as_data a with
       | Some e, None => SettingsFailed e
       | _, _ => SettingsServer (server_card s)
       end.

Definition settings_page (role : Role) (s : SettingsState) (up : UpdateState) (pw : PasswordCard) : SettingsPageView :=
  if negb (manageInfrastructure (capabilitiesFor (role_val role))) then
    PasswordOnly
      (cat [u "Server identity, throughput, notifications and software updates are administrator-only on this server. You are signed in as ";
            map lower (ROLE_LABEL role); u ", so they are not shown — ask an administrator if something there needs changing."])
      (password_card pw)
  else
    AllSettings (server_part s) (update_view up)
      ((λ _, performance_card s) <$> sp_data s) ((λ data, notifications_card data s) <$> sp_data s) (password_card pw).

(** ** Properties *)

(** A card's buttons are live exactly when they are felt; Discard is drawn
    exactly while there is something to discard. *)
Lemma footer_controls card idle s :
  (cv_live (fo_save (footer card idle s)) = true ↔ settings_offered s (SSave card) = true)
  ∧ (from_option cv_live false (match fo_rest (footer card idle s) with inl c => Some c | inr _ => None end) = true
     ↔ settings_offered s (SDiscard card) = true).
Proof.
  unfold footer, saving, discard_waits, saving, button_disabled. cbn [fo_save fo_rest cv_live]. split.
  - cbn [settings_offered]. by rewrite negb_orb, negb_involutive.
  - destruct card; cbn [settings_offered]; destruct (card_dirty _ s); cbn [from_option cv_live andb]; try done;
      by rewrite ?orb_false_r, ?negb_involutive.
Qed.

Lemma test_control data s : sp_data s = Some data →
  cv_live (no_test (notifications_card data s)) = true ↔ settings_offered s STest = true.
Proof.
  intros Hd. cbn [settings_offered]. rewrite Hd. unfold notifications_card, button_disabled. cbv zeta. cbn [no_test cv_live].
  rewrite !negb_orb, negb_involutive. done.
Qed.

(** The server's card is drawn exactly when its fields can be edited. *)
Lemma server_part_shown s : (∃ v, server_part s = SettingsServer v) ↔ server_shown s = true.
Proof.
  unfold server_part, server_shown, sp_data, present. cbv zeta.
  destruct (as_loading (sp_async s)), (as_data (sp_async s)), (as_error (sp_async s)) as [e|]; cbn; try (destruct (str_eqb e []); cbn);
    split; try done; try (by intros []); intros _; by eexists.
Qed.

(** The update card's buttons, while nothing covers the page. *)
Lemma update_controls s st v : update_view s = UpdateStatusView v → as_data (up_async s) = Some st → up_asking s = None →
  (from_option cv_live false (st_install v) = true ↔ update_offered s UInstall = true)
  ∧ (cv_live (st_check v) = true ↔ update_offered s UCheckAgain = true)
  ∧ (up_blocked s ≠ Some [] → (from_option (λ b, cv_live b.2) false (st_blocked v) = true ↔ update_offered s UInstallAnyway = true)).
Proof.
  unfold update_view. intros Hv Hd Ha. cbv zeta in Hv. destruct (up_restarting s) eqn:Er; [done|]. rewrite Hd in Hv.
  injection Hv as <-.
  assert (status_shown s = Some st) as Hs by (unfold status_shown, up_status; by rewrite Er, Hd).
  cbn [update_offered]. rewrite Hs, Ha. unfold status_view, button_disabled. cbn [st_install st_check st_blocked]. cbn [is_none negb orb andb].
  split_and!.
  - destruct (us_updateAvailable st && us_assetAvailable st); cbn [from_option cv_live andb]; [|done]. by rewrite andb_true_r.
  - cbn [cv_live]. by rewrite andb_true_r.
  - intros Hb. unfold present. destruct (up_blocked s) as [m|] eqn:Em; cbn [is_none negb andb fmap option_fmap option_map from_option].
    + rewrite (proj2 (str_eqb_false m [])) by (intros ->; by apply Hb). cbn [fmap option_fmap option_map from_option snd cv_live]. by rewrite andb_true_r.
    + done.
Qed.

(** An operator is shown the card everyone has, and nothing of the server's. *)
Lemma only_password role s up pw : role ≠ Admin → ∃ note, settings_page role s up pw = PasswordOnly note (password_card pw).
Proof. destruct role; [done| |]; intros _; by eexists. Qed.
