(* ===== verification/MonitorView.v ===== *)
(** * What the monitor draws (web/src/pages/MonitorPage.tsx)

    The rows of the history, the cards of the runs in flight, the filter and the
    controls, of the state [Monitor] steps. *)
From stdpp Require Import gmap.
From S2P Require Import Prelude JsString JsNumber JsValue Transport Endpoints Runs Format Roles Backups Ui Widgets Monitor.

Definition run_word (s : RunStatus) : jsstr :=
  match s with RRunning => u "running" | RSuccess => u "success" | RFailed => u "failed" | RCanceled => u "canceled" end.

(** The second line of a row: an error, in red, or the step. *)
Inductive RowNote := NoteError (text : jsstr) | NoteStep (text : jsstr) | NoNote.

Record HistoryRowView := mkHistoryRow {
  hr_job : jsstr; hr_live : bool; hr_note : RowNote; hr_status : PillTone * jsstr * bool; hr_started : jsstr * jsstr; hr_duration : jsstr;
  hr_processed : jsstr; hr_transferred : jsstr; hr_reduction : option (jsstr * option jsstr);
  hr_retry : option ControlView; hr_cancel : option ControlView; hr_spoken : jsstr }.

Record LiveView := mkLive { li_card : LiveCard; li_cancel : ControlView }.

Inductive MonitorBody :=
  | MonitorSkeleton | MonitorFailed (message : jsstr)
  | NothingRun (title description : jsstr) (showAll : bool)
  | MonitorRuns (live : list LiveView) (rows : option (jsstr * list HistoryRowView)).

(** The filter, the Clear button where there is something to clear, and the rest. *)
Record MonitorPageView := mkMonitorPage {
  mp_filter : list (jsstr * jsstr) * jsstr; mp_refresh : ControlView; mp_clear : option ControlView; mp_body : MonitorBody }.

Section view.
(** The engine's formatting, the moment of drawing and the role. *)
Context (Math_log : num → num) (Date_parse : jsstr → option Z) (localeDate localeDateTime : Z → jsstr) (now : Z) (role : Role).

Definition can_operate : bool := operateJobs (capabilitiesFor (role_val role)).
Definition runs_denied (what : jsstr) : option jsstr := if can_operate then None else Some (roleDeniedReason (role_val role) what).

Definition row_note (r : JobRun) : RowNote :=
  match run_status r, present (run_error r) with
  | RFailed, Some e => NoteError e
  | _, _ => if str_eqb (run_currentStep r) [] then NoNote else NoteStep (run_currentStep r)
  end.

(** A control of a row: busy while its own request is. *)
Definition run_control (what title : jsstr) (denied : option jsstr) (waits : bool) : ControlView :=
  mkControlView (default title denied) (Some (match denied with Some d => cat [what; u " — "; d] | None => what end))
    (negb (button_disabled (negb can_operate) waits)) waits.

Definition HistoryRow (busy : option RowBusy) (r : JobRun) : HistoryRowView :=
  let reduction := runReduction r in
  let denied := runs_denied (u "cancel or retry runs") in
  mkHistoryRow (run_jobName r) (is_running r) (row_note r) (RunStatusPill (run_word (run_status r)))
    (formatRelative Date_parse localeDate (Some (run_startedAt r)) now, formatDate Date_parse localeDateTime (Some (run_startedAt r)))
    (formatDuration Date_parse (Some (run_startedAt r)) (run_finishedAt r) now)
    (formatBytes Math_log (VNum (run_bytesProcessed r)) 1) (formatBytes Math_log (VNum (run_bytesUploaded r)) 1)
    (if r_applies reduction
     then Some (formatReduction (VNum (r_pct reduction)), (λ x, formatRatio (VNum x)) <$> r_ratio reduction) else None)
    (match run_status r with
     | RFailed => Some (run_control (cat [u "Retry the "; run_jobName r; u " run"]) (u "Run this job again") denied (bool_decide (busy = Some BusyRetry)))
     | _ => None
     end)
    (if is_running r
     then Some (run_control (cat [u "Cancel the run of "; run_jobName r]) (u "Cancel this run") denied (bool_decide (busy = Some BusyCancel)))
     else None)
    (cat [u "Open details for the "; run_jobName r; u " run"]).

Definition live_view (s : MonitorState) (d : RunDetail) : LiveView :=
  let denied := runs_denied (u "cancel runs or clear history") in
  mkLive (LiveRunCard Math_log Date_parse d (default [] (mn_samples s !! live_key d)) 2000 now)
    (mkControlView (default (u "Cancel") denied) ((λ r, cat [u "Cancel this run — "; r]) <$> denied)
       (negb (button_disabled (negb can_operate) false)) false).

Definition jobs_of (s : MonitorState) : list MonitorJob := match mn_data s with Some d => mo_jobs d | None => [] end.
Definition active_job (s : MonitorState) : option MonitorJob :=
  List.find (λ j, str_eqb (id_text (mj_id j)) (jobIdParam s)) (jobs_of s).

Definition nothing_run (s : MonitorState) : MonitorBody :=
  NothingRun
    (match active_job s with Some j => cat [u "No runs for “"; mj_name j; u "” yet"] | None => u "Nothing has run yet" end)
    (match active_job s with
     | Some _ => u "This job has not run. Start it from the Backup Jobs page, or wait for its schedule."
     | None => u "A run appears here the moment a backup job starts, manually or on schedule. Restores and verifications show up too."
     end)
    (negb (str_eqb (jobIdParam s) (u "all"))).

Definition monitor_body (s : MonitorState) : MonitorBody :=
  let a := mn_async s in
  if as_loading a && is_none (as_data a) then MonitorSkeleton
  else match present (as_error a), as_data a with
       | Some e, None => MonitorFailed e
       | _, _ =>
           if is_nil (runs_of s) then nothing_run s
           else MonitorRuns (map (live_view s) (live_of s))
                  (if is_nil (history s) then None
                   else Some (match active_job s with Some j => mj_name j | None => u "All jobs, newest first" end,
                              map (λ r, HistoryRow (mn_busy s !! key_of r) r) (history s)))
       end.

Definition monitor_page (s : MonitorState) : MonitorPageView :=
  let denied := runs_denied (u "cancel runs or clear history") in
  let loading := as_loading (mn_async s) in
  mkMonitorPage ((u "all", u "All jobs") :: map (λ j, (id_text (mj_id j), mj_name j)) (jobs_of s), jobIdParam s)
    (mkControlView (u "Refresh") None (negb (button_disabled false loading)) loading)
    (if 0 <? finishedCount s
     then Some (mkControlView (default (u "Remove finished runs from the history") denied) ((λ d, cat [u "Clear history — "; d]) <$> denied)
                  (negb (button_disabled (negb can_operate) (mn_clearing s))) (mn_clearing s))
     else None)
    (monitor_body s).

(** ** Properties *)

(** A row has a way to stop a run in flight, a way to repeat one that failed,
    and never both. *)
Lemma one_control busy r : let v := HistoryRow busy r in
  (is_none (hr_cancel v) = false ↔ run_status r = RRunning) ∧ (is_none (hr_retry v) = false ↔ run_status r = RFailed)
  ∧ (is_none (hr_cancel v) = true ∨ is_none (hr_retry v) = true).
Proof.
  unfold HistoryRow, is_running. cbv zeta. cbn [hr_cancel hr_retry]. destruct (run_status r); cbn; split_and!; auto; done.
Qed.

(** What is drawn as live is what the operator can do. *)
Lemma run_row_controls s r : uncovered s = true → r ∈ history s →
  let v := HistoryRow (mn_busy s !! key_of r) r in
  (from_option cv_live false (hr_retry v) = true ↔ monitor_offered can_operate s (MRetryRow r))
  ∧ (from_option cv_live false (hr_cancel v) = true ↔ monitor_offered can_operate s (MCancelRow r)).
Proof.
  intros Hu Hr v. subst v. unfold HistoryRow, is_running, run_control, button_disabled. cbv zeta. cbn [hr_retry hr_cancel monitor_offered].
  unfold row_busy. split.
  - destruct (run_status r) eqn:Es; cbn [from_option cv_live]; try (split; [done|by intros (_ & _ & H & _)]).
    rewrite negb_true_iff, orb_false_iff, negb_false_iff. split; [by intros [-> ->]; split_and!|by intros (_ & _ & _ & -> & ->)].
  - destruct (run_status r) eqn:Es; cbn [bool_decide decide decide_rel RunStatus_eq_dec from_option cv_live];
      try (split; [done|by intros (_ & _ & H & _)]).
    rewrite bool_decide_eq_true_2 by done. cbn [from_option cv_live].
    rewrite negb_true_iff, orb_false_iff, negb_false_iff. split; [by intros [-> ->]; split_and!|by intros (_ & _ & _ & -> & ->)].
Qed.

Lemma clear_control s : uncovered s = true →
  from_option cv_live false (mp_clear (monitor_page s)) = true ↔ monitor_offered can_operate s (MClear ClearFinished).
Proof.
  intros Hu. unfold monitor_page, button_disabled. cbv zeta. cbn [mp_clear monitor_offered]. destruct (Z.ltb_spec 0 (finishedCount s)) as [Hf|Hf]; cbn [from_option cv_live].
  - rewrite negb_true_iff, orb_false_iff, negb_false_iff. split; [by intros [-> ->]; split_and!|by intros (_ & _ & _ & -> & ->)].
  - split; [done|]. intros (_ & _ & H & _). lia.
Qed.

(** Every run read is drawn once: as a card or as a row, and the filter names
    every job. *)
Lemma every_run s live rows : monitor_body s = MonitorRuns live rows →
  length live = length (live_of s)
  ∧ match rows with Some (_, l) => map hr_job l = map run_jobName (history s) | None => history s = [] end.
Proof.
  unfold monitor_body. cbv zeta. destruct (_ && _); [done|]. intros H.
  assert ((if is_nil (runs_of s) then nothing_run s else MonitorRuns (map (live_view s) (live_of s))
            (if is_nil (history s) then None
             else Some (match active_job s with Some j => mj_name j | None => u "All jobs, newest first" end,
                        map (λ r, HistoryRow (mn_busy s !! key_of r) r) (history s)))) = MonitorRuns live rows) as H'
    by (destruct (present _); [destruct (as_data _)|]; done).
  destruct (is_nil (runs_of s)); [done|]. injection H' as <- <-. split; [by rewrite length_map|].
  destruct (history s) as [|r l] eqn:E; [done|]. cbn [is_nil]. by rewrite map_map.
Qed.
End view.
